(* ===== verification/_CoqProject ===== *)
-Q . S2P
Prelude.v
Objects.v
OrderedSet.v
Lattices.v
LatticeProps.v
Messages.v
Transport.v
Client.v
ClientProps.v
ClientServer.v
ArgParse.v
Yaml.v
Kube.v
Cluster.v
ClusterProps.v
Management.v
ManagementProps.v
IpAddress.v
Inventory.v
InventoryProps.v
KubeModule.v
KubeModuleProps.v
Terraform.v
Datetime.v
Cleanup.v
CleanupProps.v
TerraformProps.v
Sha256.v
DownloadHash.v
AwsInventory.v
Base85.v
GetPip.v
PipPayload.v
SetupScripts.v
Cpp.v
Threads.v
HashRing.v
HashRingProps.v
HashRingMembers.v
Metadata.v
Routing.v
RoutingProps.v
RoutingPeers.v
CppLattices.v
CppLatticeProps.v
Storage.v
StorageProps.v
StorageServer.v
StorageBatch.v
ClientStorage.v
StorageHandlers.v
StorageHandlersProps.v
Departure.v
DepartureProps.v
DeparturePeers.v
Join.v
ReplicationChange.v
