(* ===== verification/Prelude.v ===== *)
(** * Verification of dinomo-cxl

    The repository holds a key-value store in C++, a Python client library for it,
    the Python programs that create and manage its cluster on Kubernetes, and a
    copy of Kubespray, the Ansible playbooks that set up Kubernetes, with its
    Python scripts.  This development models the Python code and, of the store, the
    hash ring, the routing nodes, the lattices, the request handling of the storage
    nodes and the membership part of the monitoring node, translated from the
    sources under src/ into functions of the state they change.  It proves what the
    parts promise, and what they promise each other: a client asks a routing node
    where a key is and sends its requests to a storage thread; nodes that join or
    leave tell each other; the management server repairs the rings and removes nodes.

    ** How programs are modelled

    A statement is a function of type [M S A]: from a state to an outcome and the
    state it leaves behind, also when it fails.  The outcome is a value, a Python
    exception or what C++ throws ([exn], without its message; [Undefined] is an
    operation of C++ without defined behaviour), [Blocked] for a call that never
    returns, such as a receive on a socket that gets no more messages, or
    [OutOfFuel].  [try] is [catch]; loops over lists are [for_each], [map_each] and
    [fold_each].  Dictionaries are association lists in insertion order ([dget],
    [dset], [ddel]), which Python's are.  Integers are unbounded, as Python's;
    where a protobuf field or an address bounds them the check is written out, and
    those of C++ wrap around where the sources can reach the bound.

    Libraries are parameters: arguments of the definitions, variables of a Section,
    or one of the classes [Codec] (serialized protobuf messages, with their round
    trips as laws), [RoutingCodec], [KvsCodec], [JoinCodec], [ChangeCodec] and
    [ValueCodec] (the messages of the C++ programs), [Kube] (the Kubernetes API,
    files and processes), [StdHash], [Unordered] (the order of a hash table),
    [YamlCpp], [Dinomo] (the storage engine).  What a theorem needs of them is a
    hypothesis, and an instance below the theorem shows that it can hold.  What
    Python's own library computes is defined: YAML values and their printed forms,
    [argparse], dates, IP addresses, regular expressions for the patterns in use,
    SHA-256 and base 85.

    ** The client: src/client/python/anna

    - [Objects] is the heap of Python objects that lattices live in: values that
      are references, classes, equality and hashing.
    - [OrderedSet] and [Lattices] are lattices.py: each class with its constructor,
      [reveal], [assign], [merge] and [serialize], over the heap, so that aliasing,
      as of the default argument of OrderedSetLattice, shows.
    - [Transport] is zmq_util.py and common.py: addresses of threads, the socket
      cache, and [recv_response].
    - [Client] is base_client.py and client.py: serialization, requests with their
      ids, the cache of addresses, queries of the routing tier, get, put, get_all
      and put_all.  Its state is the [world]: client object, heap, messages sent,
      and messages that will arrive, in order.

    [OrderedSet], [LatticeProps]: binary search, insertion and merge of the ordered
    set against sorted lists and set union; well-formedness of every reachable heap;
    last-writer-wins merge as a join, and convergence whatever the order; the
    merges that always raise.  [Transport]: [recv_response] against the
    specification on lists of messages.  [ClientProps]: get and put end to end,
    for any order of responses that answer the requests; serialization round trips;
    ids without repetition within 10,000 requests; lookups at the routing tier; what
    get_all and put_all do instead of what they mean to.  [ClientServer]: against
    the specification of the storage servers, a get after a put returns what was put.

    ** The cluster: src/cluster/dinomo

    - [Yaml] are YAML documents with the accesses that the programs make;
      [ArgParse] the command lines.
    - [Kube] is the interface to Kubernetes and shared/util.py on top of it.
    - [Cluster] is cluster/: add_nodes, batch_add_nodes, run_cluster,
      create_cluster, remove_node.  Every call of Kubernetes, process and file is
      an event of the trace in [kstate].
    - [Management] is management/: the scaler, the check of the hash ring, and the
      loops of management_server.py and k8s_server.py, which take the list of what
      their polls return.

    [ClusterProps]: batches add up to the request, within the batch size; waiting
    for pods ends at the first complete listing; each new container is configured
    once; the cluster is declared ready last.  [ManagementProps]: failover requests
    and departure notices, to whom and in which order, and when the check raises
    before sending them; scaling requests reach the operations they name.

    ** Kubespray: src/kubespray

    - [IpAddress], [Inventory], [InventoryProps]: the inventory builder,
      contrib/inventory_builder/inventory.py.  Ranges of addresses; the
      distribution of hosts over groups; what a first run writes.
    - [KubeModule], [KubeModuleProps]: the Ansible module library/kube.py.  What is
      run for each state; nothing is removed that does not exist unless forced; one
      report per run.
    - [Terraform], [TerraformProps]: contrib/terraform/terraform.py.  Reading
      version 4 state is inverse to its translation to version 3 names; groups and
      variables of the hosts; floating addresses.
    - [Datetime], [Cleanup], [CleanupProps]: the scripts gitlab-branch-cleanup and
      openstack-cleanup.  They delete only what is not protected and what they take
      for old; the second compares times of different zones.
    - [Sha256], [DownloadHash]: scripts/download_hash.py.  Each checksum is that of
      the file it stands for, and under every other path the document stays; a
      failing run changes nothing.
    - [AwsInventory]: contrib/aws_inventory/kubespray-aws-inventory.py.
    - [Base85], [GetPip], [PipPayload]: get-pip.py.  Its arguments, the files that
      pip finds when it is called and those that are left afterwards, and the
      directory of the zip file in the payload, from which its modules are imported.
    - [SetupScripts]: setup.py of the client, of Kubespray and of the builder.

    ** The store: src/src, src/include, src/common

    The C++ code is modelled in the build that CMakeLists.txt selects: DINOMO,
    neither Clover nor shared-nothing; where the routing node differs with
    ENABLE_DINOMO_KVS or BENCH_CACHE_ROUTING both variants are there.

    - [Cpp] is what the sources use of the C++ library: splitting and numbers in
      texts, vectors, unordered containers.  [Messages] are the protobuf messages.
    - [Threads] is kvs_threads.hpp and threads.hpp, [Metadata] metadata.hpp: sockets
      and their addresses, metadata keys, replication factors.
    - [HashRing] is consistent_hash_map.hpp, hashers.hpp, hash_ring.hpp and the walk
      of hash_ring.cpp.
    - [Routing] is route/: a thread with its handlers and its loop, and main.
    - [CppLattices] are the lattices, the store and the serializers of server_utils.hpp
      for values kept in memory.
    - [Storage] is a thread of a storage node: its state, the serializer over the
      storage engine, and user_request_handler.cpp with the batches of writes;
      [StorageHandlers] is replication_response_handler.cpp and failover_handler.cpp,
      [ReplicationChange] replication_change_handler.cpp, [Join] node_join_handler.cpp
      with the synchronous requests of requests.hpp.
    - [Departure] is self_depart_handler.cpp, node_depart_handler.cpp and, of the
      monitoring node, elasticity.cpp, membership_handler.cpp and
      depart_done_handler.cpp.

    [HashRingProps], [HashRingMembers]: the walk returns the first distinct threads
    clockwise, or never ends; as long as no two places collide, the ring is a function
    of the set of members, so nodes that know the same members agree; a join moves a key to the new server only.
    [RoutingProps]: rings stay well formed whatever arrives; which addresses are
    answered, to whom joins and departures are passed on, and that waiting requests
    are answered.  [RoutingPeers]: with the Python programs: the management server
    repairs the rings of both tiers at the routing nodes, and the messages of the
    client and a routing thread fit together, though their ports and the default
    build do not.  [CppLatticeProps]: which merges are joins, which are not.
    [StorageProps], [StorageServer]: whatever the engine does, a storage thread makes
    one call of it per tuple for the keys it owns, and answers with its results.
    [StorageBatch]: what is put into a batch is acknowledged once, and what is not.
    [ClientStorage]: the Python client and a storage thread together, with batching
    and without: put writes to the engine, and get returns what the engine kept.  [StorageHandlersProps]: who asks the wrong thread is told so.
    [Join], [ReplicationChange]: what a join or a change of a factor does before it is
    answered.  [DepartureProps], [DeparturePeers]: a departure, from the request of
    the monitoring node over all threads of the server to one removal by the Python
    management server, with every waiting request answered.

    ** Fuel and bounds

    Loops that are not over a list take fuel, and theorems show that what the
    callers give is enough: the length of the list for binary search and merge of
    ordered sets, the number of nodes for the loop of batch_add_nodes with a positive
    batch size, the number of poll results for the servers, the length of the text
    for parsers and of the archive for the zip directory.  The walk around a hash
    ring gets one turn: [responsible_global_correct] shows that it finds the replicas
    within it or never.  Loops that may run
    forever, waiting for pods or for messages, take the list of observations they
    will make; theorems say at which one they end.

    ** Not modelled

    - The storage engine under src/include/kvs and src/src/kvs (logs and indexes in
      persistent memory over RDMA) and its peers on the memory nodes: it is the class
      [Dinomo] of operations, without laws.  The serializers to disk, which the build
      does not use.
    - Of the storage nodes: gossip, which no program of this build sends, the handlers
      of cache addresses, the start of a server, and the statistics that the loop
      collects.  Of the monitoring node: statistics and policies, which decide by
      floating-point averages what to ask for; what is asked for is modelled.
    - The C++ client, a command line; benchmarks; memcached.
    - Of the protobuf files the fields that no modelled program reads; the code
      generated from them is the classes of codecs.
    - Playbooks, roles, shell scripts, container and machine configurations.
    - Tests.
    - The compressed files in the payload of get-pip.py: [pip_zip_importable] is
      about every payload with the given end.
    - Messages of exceptions and most of what is printed, as no code reads them;
      logging; sleeping, except where it separates observations.
    - JSON numbers that are not integers in Terraform state, which it does not hold;
      the scoped IPv6 addresses of [ipaddress]. *)

From Stdlib Require Export ssreflect.
From Stdlib Require Export ZArith Ascii String.
From stdpp Require Export base gmap strings list fin_maps pretty.

#[export] Set Warnings "-rewrite-rw,-clear-no-such-hyp".
Global Open Scope general_if_scope.
Global Set SsrOldRewriteGoalsOrder.

(** ** Scopes, hint databases *)

Declare Scope py_scope.
Delimit Scope py_scope with py.

Create HintDb pydict discriminated.
Create HintDb pystr discriminated.
Create HintDb pymonad discriminated.

(** ** Exceptions and outcomes *)

(** The exception classes that the modelled code raises itself or lets the
    interpreter raise, and what C++ throws.  [Undefined] is an operation of C++
    without defined behaviour.  The message texts are not modelled: no caller in
    the code base inspects them. *)
Inductive exn : Type :=
| ValueError
| TypeError
| AttributeError
| NameError
| KeyError
| IndexError
| UnboundLocalError
| NotImplementedError
| OSError
| DecodeError
| ImportError
| OverflowError
| GenericException
| SystemExit (code : Z)
| std_invalid_argument
| std_out_of_range
| Undefined.

#[export] Instance exn_eq_dec : EqDecision exn.
Proof. solve_decision. Defined.

(** What a call can do: return, raise, wait forever for a message that never
    comes, or exceed the step bound the model gave it. *)
Inductive outcome (A : Type) : Type :=
| Ret (a : A)
| Raise (e : exn)
| Blocked
| OutOfFuel.
Arguments Ret {A} a.
Arguments Raise {A} e.
Arguments Blocked {A}.
Arguments OutOfFuel {A}.

#[export] Instance outcome_ret : MRet outcome := @Ret.
#[export] Instance outcome_bind : MBind outcome := λ A B k m,
  match m with
  | Ret a => k a
  | Raise e => Raise e
  | Blocked => Blocked
  | OutOfFuel => OutOfFuel
  end.

Definition is_Ret {A} (o : outcome A) : bool :=
  match o with Ret _ => true | _ => false end.

(** ** The state and exception monad

    A statement list of the source becomes a term of [M S A]: the state is
    threaded through, and it is kept when an exception is raised, as in
    Python. *)
Definition M (S A : Type) : Type := S → outcome A * S.

#[export] Instance M_ret S : MRet (M S) := λ A a s, (Ret a, s).
#[export] Instance M_bind S : MBind (M S) := λ A B k m s,
  match m s with
  | (Ret a, s') => k a s'
  | (Raise e, s') => (Raise e, s')
  | (Blocked, s') => (Blocked, s')
  | (OutOfFuel, s') => (OutOfFuel, s')
  end.

Definition raise {S A} (e : exn) : M S A := λ s, (Raise e, s).
Definition lift {S A} (o : outcome A) : M S A := λ s, (o, s).
Definition get_state {S} : M S S := λ s, (Ret s, s).
Definition gets {S A} (f : S → A) : M S A := λ s, (Ret (f s), s).
Definition modify {S} (f : S → S) : M S unit := λ s, (Ret tt, f s).
Definition block {S A} : M S A := λ s, (Blocked, s).
Definition out_of_fuel {S A} : M S A := λ s, (OutOfFuel, s).

(** [try: m except: h]. *)
Definition catch {S A} (m : M S A) (h : exn → M S A) : M S A := λ s,
  match m s with
  | (Raise e, s') => h e s'
  | r => r
  end.

(** [for x in l: f x]. *)
Fixpoint for_each {S A} (l : list A) (f : A → M S unit) : M S unit :=
  match l with
  | [] => mret tt
  | x :: l' => f x ;; for_each l' f
  end.

(** A loop that builds a list: [[f x for x in l]]. *)
Fixpoint map_each {S A B} (l : list A) (f : A → M S B) : M S (list B) :=
  match l with
  | [] => mret []
  | x :: l' => y ← f x; ys ← map_each l' f; mret (y :: ys)
  end.

(** A loop with an accumulator. *)
Fixpoint fold_each {S A B} (l : list A) (acc : B) (f : B → A → M S B) : M S B :=
  match l with
  | [] => mret acc
  | x :: l' => acc' ← f acc x; fold_each l' acc' f
  end.

(** The same three loops over code that reads no state. *)
Fixpoint ofold {A B} (l : list A) (acc : B) (f : B → A → outcome B) : outcome B :=
  match l with
  | [] => Ret acc
  | x :: l' => acc' ← f acc x; ofold l' acc' f
  end.

Fixpoint omap_each {A B} (l : list A) (f : A → outcome B) : outcome (list B) :=
  match l with
  | [] => Ret []
  | x :: l' => y ← f x; ys ← omap_each l' f; Ret (y :: ys)
  end.

(** *** Execution lemmas *)

Section MonadLemmas.
Context {S : Type}.
Implicit Types s : S.

Lemma bind_ret {A B} (m : M S A) (k : A → M S B) s a s' :
  m s = (Ret a, s') → (m ≫= k) s = k a s'.
Proof. intros H. by rewrite /mbind /M_bind H. Qed.

Lemma bind_raise {A B} (m : M S A) (k : A → M S B) s e s' :
  m s = (Raise e, s') → (m ≫= k) s = (Raise e, s').
Proof. intros H. by rewrite /mbind /M_bind H. Qed.

Lemma bind_blocked {A B} (m : M S A) (k : A → M S B) s s' :
  m s = (Blocked, s') → (m ≫= k) s = (Blocked, s').
Proof. intros H. by rewrite /mbind /M_bind H. Qed.

Lemma bind_ret_inv {A B} (m : M S A) (k : A → M S B) s b s'' :
  (m ≫= k) s = (Ret b, s'') →
  ∃ a s', m s = (Ret a, s') ∧ k a s' = (Ret b, s'').
Proof. rewrite /mbind /M_bind. destruct (m s) as [[] ?]; naive_solver. Qed.

Lemma for_each_app {A} (l1 l2 : list A) (f : A → M S unit) s :
  for_each (l1 ++ l2) f s = (for_each l1 f ;; for_each l2 f) s.
Proof.
  revert s. induction l1 as [|x l1 IH]; intros s; [done|].
  cbn. rewrite /mbind /M_bind.
  destruct (f x s) as [[] s1]; [apply IH|done..].
Qed.

Lemma for_each_ext {A} (l : list A) (f g : A → M S unit) s :
  (∀ x s, x ∈ l → f x s = g x s) → for_each l f s = for_each l g s.
Proof.
  intros Hfg. revert s Hfg. induction l as [|x l IH]; intros s Hfg; [done|].
  cbn [for_each]. rewrite /mbind /M_bind Hfg; [|left].
  destruct (g x s) as [[] s1]; [|done..]. apply IH. intros y s2 Hy. apply Hfg. by right.
Qed.

(** What holds of the state after a statement, however the statement ends. *)
Definition keeps (I : S → Prop) {A} (m : M S A) : Prop := ∀ s, I s → I (m s).2.

Lemma keeps_bind (I : S → Prop) {A B} (m : M S A) (k : A → M S B) :
  keeps I m → (∀ a, keeps I (k a)) → keeps I (m ≫= k).
Proof.
  intros Hm Hk s Hs. rewrite /mbind /M_bind. specialize (Hm s Hs).
  destruct (m s) as [[a|e| |] s']; simpl in *; [by apply Hk|done..].
Qed.

(** Statements that leave the state alone, and loops. *)
Lemma keeps_mret (I : S → Prop) {A} (a : A) : keeps I (mret a : M S A).
Proof. by intros s Hs. Qed.
Lemma keeps_lift (I : S → Prop) {A} (o : outcome A) : keeps I (lift o : M S A).
Proof. by intros s Hs. Qed.
Lemma keeps_get_state (I : S → Prop) : keeps I (get_state : M S S).
Proof. by intros s Hs. Qed.
Lemma keeps_gets (I : S → Prop) {A} (f : S → A) : keeps I (gets f).
Proof. by intros s Hs. Qed.

Lemma keeps_modify (I : S → Prop) (f : S → S) : (∀ s, I s → I (f s)) → keeps I (modify f).
Proof. intros Hf s Hs. by apply Hf. Qed.

Lemma keeps_for_each (I : S → Prop) {A} (l : list A) (f : A → M S unit) :
  (∀ x, keeps I (f x)) → keeps I (for_each l f).
Proof. intros Hf. induction l as [|x l IH]; [apply keeps_mret|]. by apply keeps_bind. Qed.

Lemma keeps_fold_each (I : S → Prop) {A B} (l : list A) (acc : B) (f : B → A → M S B) :
  (∀ acc x, keeps I (f acc x)) → keeps I (fold_each l acc f).
Proof.
  intros Hf. revert acc. induction l as [|x l IH]; intros acc; [apply keeps_mret|]. by apply keeps_bind.
Qed.

(** A loop whose body always returns keeps an invariant. *)
Lemma for_each_inv {A} (I : S → Prop) (l : list A) (f : A → M S unit) s :
  (∀ x s1, x ∈ l → I s1 → ∃ s2, f x s1 = (Ret tt, s2) ∧ I s2) →
  I s → ∃ s', for_each l f s = (Ret tt, s') ∧ I s'.
Proof.
  revert s. induction l as [|x l IH]; intros s Hf HI; [by exists s|].
  destruct (Hf x s) as (s2 & Hx & HI2); [left|done|].
  destruct (IH s2) as (s3 & Hl & HI3); [|done|].
  { intros y s1 Hy. apply Hf. by right. }
  exists s3. split; [|done]. cbn. by erewrite bind_ret.
Qed.

Lemma for_each_fmap {A B} (g : A → B) (l : list A) (f : B → M S unit) s :
  for_each (g <$> l) f s = for_each l (λ x, f (g x)) s.
Proof.
  revert s. induction l as [|x l IH]; intros s; [done|]. rewrite fmap_cons. cbn [for_each].
  rewrite /mbind /M_bind. destruct (f (g x) s) as [[] s1]; [apply IH|done..].
Qed.

(** A loop whose rounds only add to a log of the state. *)
Lemma for_each_adds {A P} (add : list P → S → S) (l : list A) (f : A → M S unit) (ps : A → list P) s :
  (∀ s, add [] s = s) → (∀ p q s, add q (add p s) = add (p ++ q) s) →
  (∀ x s, x ∈ l → f x s = (Ret tt, add (ps x) s)) →
  for_each l f s = (Ret tt, add (l ≫= ps) s).
Proof.
  intros Hnil Happ. revert s. induction l as [|x l IH]; intros s Hf; [by rewrite Hnil|].
  cbn [for_each]. rewrite (bind_ret _ _ _ _ _ (Hf x s ltac:(left))).
  rewrite IH; [|intros y s' Hy; apply Hf; by right]. by rewrite Happ.
Qed.

(** A loop whose body acts as a total state function is a fold. *)
Lemma for_each_pure {A} (l : list A) (f : A → M S unit) (g : A → S → S) s :
  (∀ x s1, f x s1 = (Ret tt, g x s1)) →
  for_each l f s = (Ret tt, foldl (λ s1 x, g x s1) s l).
Proof.
  intros Hf. revert s. induction l as [|x l IH]; intros s; [done|].
  cbn. erewrite bind_ret by apply Hf. apply IH.
Qed.

End MonadLemmas.

Create HintDb keeps.
#[export] Hint Resolve keeps_mret keeps_lift keeps_get_state keeps_gets : keeps.

(** Follow the statements of a program, down to those in the hint database. *)
Ltac keeps_solve :=
  repeat first
    [ solve [auto with keeps]
    | apply keeps_bind; [|intros ?]
    | apply keeps_for_each; intros ?
    | apply keeps_fold_each; intros ? ?
    | case_match ].

(** *** Logs

    A computation that only adds entries with a property to a part of the state
    that records what it did. *)
Definition appends {S A E} (log : S → list E) (P : E → Prop) (m : M S A) : Prop :=
  ∀ s, ∃ es, log (m s).2 = log s ++ es ∧ Forall P es.

Section Appends.
Context {S E : Type} (log : S → list E) (P : E → Prop).

Lemma appends_same {A} (m : M S A) : (∀ s, log (m s).2 = log s) → appends log P m.
Proof. intros Hm s. exists []. rewrite Hm app_nil_r. by split. Qed.

Lemma appends_ret {A} (a : A) : appends log P (mret a).
Proof. by apply appends_same. Qed.

Lemma appends_lift {A} (o : outcome A) : appends log P (lift o).
Proof. by apply appends_same. Qed.

Lemma appends_raise {A} e : appends (A := A) log P (raise e).
Proof. by apply appends_same. Qed.

Lemma appends_get : appends log P get_state.
Proof. by apply appends_same. Qed.

Lemma appends_modify f es :
  (∀ s, log (f s) = log s ++ es) → Forall P es → appends log P (modify f).
Proof. intros Hf Hes s. exists es. by rewrite /modify /= Hf. Qed.

Lemma appends_bind {A B} (m : M S A) (k : A → M S B) :
  appends log P m → (∀ s a, (m s).1 = Ret a → appends log P (k a)) → appends log P (m ≫= k).
Proof.
  intros Hm Hk s. rewrite /mbind /M_bind. destruct (Hm s) as (es & Hes & HP).
  destruct (m s) as [[a|e| |] s'] eqn:Hms; simpl in *; [|by exists es..].
  destruct (Hk s a) with (s := s') as (es' & Hes' & HP'); [by rewrite Hms|].
  exists (es ++ es'). rewrite Hes' Hes app_assoc. split; [done|]. by apply Forall_app.
Qed.

Lemma appends_for_each {A} (l : list A) (f : A → M S unit) :
  (∀ x, x ∈ l → appends log P (f x)) → appends log P (for_each l f).
Proof.
  induction l as [|x l IH]; intros Hf; [apply appends_ret|]. apply appends_bind.
  - apply Hf. left.
  - intros _ _ _. apply IH. intros y Hy. apply Hf. by right.
Qed.

Lemma appends_mono {A} (Q : E → Prop) (m : M S A) :
  (∀ e, P e → Q e) → appends log P m → appends log Q m.
Proof.
  intros HPQ Hm s. destruct (Hm s) as (es & Hes & HP). exists es. split; [done|].
  by eapply Forall_impl.
Qed.
End Appends.

Create HintDb logs discriminated.
#[export] Hint Resolve appends_ret appends_lift appends_raise appends_get : logs.


(** [mstep] runs the next statement of a monadic program whose effect is
    known from an equation in the context or from the lemma [H]. *)
Tactic Notation "mstep" "by" uconstr(H) := (erewrite bind_ret by (apply H)).
Ltac munfold :=
  rewrite /mbind /M_bind /mret /M_ret /modify /gets /get_state /lift /raise /=.

(** ** Ordered dictionaries

    A Python [dict] keeps the insertion order of its keys; overwriting a key
    keeps its position.  It is modelled as an association list. *)
Section Dict.
Context {K V : Type} `{EqDecision K}.
Implicit Types (d : list (K * V)) (k : K) (v : V).

(** [d.get(k)] / [d[k]]. *)
Fixpoint dget k d : option V :=
  match d with
  | [] => None
  | (k', v) :: d' => if decide (k = k') then Some v else dget k d'
  end.

(** [d[k] = v]. *)
Fixpoint dset k v d : list (K * V) :=
  match d with
  | [] => [(k, v)]
  | (k', v') :: d' =>
      if decide (k = k') then (k', v) :: d' else (k', v') :: dset k v d'
  end.

(** [del d[k]] for a key that is present ([ddel] itself ignores a missing
    key; callers raise [KeyError] first where the source does). *)
Fixpoint ddel k d : list (K * V) :=
  match d with
  | [] => []
  | (k', v') :: d' => if decide (k = k') then d' else (k', v') :: ddel k d'
  end.

(** [k in d]. *)
Definition dmem k d : bool := match dget k d with Some _ => true | None => false end.

(** [d.update(d2)] . *)
Definition dupdate d d2 : list (K * V) := foldl (λ acc kv, dset kv.1 kv.2 acc) d d2.

Lemma dget_dset k v d k' :
  dget k' (dset k v d) = if decide (k' = k) then Some v else dget k' d.
Proof.
  induction d as [|[k1 v1] d IH]; simpl.
  - by case_decide.
  - destruct (decide (k = k1)) as [<-|]; simpl.
    + by repeat case_decide.
    + rewrite IH. repeat case_decide; congruence.
Qed.

Lemma dget_dset_eq k v d : dget k (dset k v d) = Some v.
Proof. rewrite dget_dset. by case_decide. Qed.

Lemma dget_dset_ne k v d k' : k' ≠ k → dget k' (dset k v d) = dget k' d.
Proof. intros. rewrite dget_dset. by case_decide. Qed.

Lemma dget_Some_mem k v d : dget k d = Some v → k ∈ d.*1.
Proof.
  induction d as [|[k1 v1] d IH]; simpl; [done|].
  case_decide as Heq; [subst; left|]. right. by apply IH.
Qed.

Lemma dget_is_Some k d : is_Some (dget k d) ↔ k ∈ d.*1.
Proof.
  split; [intros [v ?]; by eapply dget_Some_mem|].
  induction d as [|[k1 v1] d IH]; simpl; [by intros ?%elem_of_nil|].
  case_decide as Heq; [by eexists|].
  intros [->|?]%elem_of_cons; [done|]. by apply IH.
Qed.

Lemma dget_None k d : dget k d = None ↔ k ∉ d.*1.
Proof. rewrite -dget_is_Some. apply eq_None_not_Some. Qed.

Lemma dmem_true k d : dmem k d = true ↔ k ∈ d.*1.
Proof.
  rewrite -dget_is_Some /dmem. destruct (dget k d); split; try done; naive_solver.
Qed.

Lemma dmem_false k d : dmem k d = false ↔ k ∉ d.*1.
Proof. rewrite -dmem_true. by destruct (dmem k d). Qed.

Lemma dget_elem k v d : dget k d = Some v → (k, v) ∈ d.
Proof.
  induction d as [|[k1 v1] d IH]; simpl; [done|].
  case_decide as Heq; intros ?; simplify_eq; [left|right]; auto.
Qed.

Lemma elem_dget k v d : NoDup d.*1 → (k, v) ∈ d → dget k d = Some v.
Proof.
  induction d as [|[k1 v1] d IH]; simpl; [by intros _ ?%elem_of_nil|].
  intros [Hn Hd]%NoDup_cons [?|Hin]%elem_of_cons; simplify_eq.
  - by case_decide.
  - case_decide as Heq; [|by apply IH].
    subst. destruct Hn. apply list_elem_of_fmap. by exists (k1, v).
Qed.

(** The keys after an assignment: unchanged for a present key, the new key at
    the end otherwise. *)
Lemma dset_keys k v d :
  (dset k v d).*1 = if decide (k ∈ d.*1) then d.*1 else d.*1 ++ [k].
Proof.
  induction d as [|[k1 v1] d IH]; [done|]. simpl dset. rewrite !fmap_cons /=.
  destruct (decide (k = k1)) as [->|Hne]; csimpl.
  - rewrite decide_True //. left.
  - rewrite IH. repeat case_decide; try done; exfalso; set_solver.
Qed.

Lemma elem_dset_keys k v d k' : k' ∈ (dset k v d).*1 ↔ k' = k ∨ k' ∈ d.*1.
Proof. rewrite dset_keys. case_decide; set_solver. Qed.

Lemma dset_NoDup k v d : NoDup d.*1 → NoDup (dset k v d).*1.
Proof.
  intros Hd. rewrite dset_keys. case_decide; [done|].
  apply NoDup_app; split; [done|]. split; [set_solver|apply NoDup_singleton].
Qed.

Lemma dset_length_new k v d : k ∉ d.*1 → length (dset k v d) = S (length d).
Proof.
  induction d as [|[k1 v1] d IH]; simpl; [done|].
  intros Hn. rewrite decide_False; [|set_solver]. simpl. rewrite IH; set_solver.
Qed.

Lemma dset_length_old k v d : k ∈ d.*1 → length (dset k v d) = length d.
Proof.
  induction d as [|[k1 v1] d IH]; simpl; [by intros ?%elem_of_nil|].
  case_decide as Heq; [done|]. simpl. intros [?|?]%elem_of_cons; [done|].
  f_equal. by apply IH.
Qed.

Lemma dset_new k v d : k ∉ d.*1 → dset k v d = d ++ [(k, v)].
Proof.
  induction d as [|[k1 v1] d IH]; simpl; [done|].
  intros Hn. rewrite decide_False; [|set_solver]. rewrite IH; set_solver.
Qed.

Lemma dset_dset k v v' d : dset k v (dset k v' d) = dset k v d.
Proof.
  induction d as [|[k1 v1] d IH]; simpl; [by rewrite decide_True|].
  destruct (decide (k = k1)); simpl; case_decide; try done. by rewrite IH.
Qed.

Lemma ddel_sublist k d : sublist (ddel k d) d.
Proof.
  induction d as [|[k1 v1] d IH]; simpl; [constructor|].
  case_decide; by constructor.
Qed.

Lemma ddel_keys_sublist k d : sublist (ddel k d).*1 d.*1.
Proof.
  induction d as [|[k1 v1] d IH]; simpl; [constructor|].
  case_decide; by constructor.
Qed.

Lemma ddel_NoDup k d : NoDup d.*1 → NoDup (ddel k d).*1.
Proof. intros Hd. eapply sublist_NoDup; [done|apply ddel_keys_sublist]. Qed.

Lemma dget_ddel_ne k d k' : k' ≠ k → dget k' (ddel k d) = dget k' d.
Proof.
  intros Hne. induction d as [|[k1 v1] d IH]; simpl; [done|].
  repeat case_decide; simplify_eq/=; repeat case_decide; congruence.
Qed.

Lemma dget_ddel_eq k d : NoDup d.*1 → dget k (ddel k d) = None.
Proof.
  induction d as [|[k1 v1] d IH]; simpl; [done|].
  intros [Hn Hd]%NoDup_cons. case_decide as Heq; simplify_eq/=.
  - by apply dget_None.
  - rewrite decide_False //. by apply IH.
Qed.

Lemma elem_ddel_keys k d k' :
  NoDup d.*1 → k' ∈ (ddel k d).*1 ↔ k' ≠ k ∧ k' ∈ d.*1.
Proof.
  intros Hd. rewrite -!dget_is_Some. destruct (decide (k' = k)) as [->|Hne].
  - rewrite dget_ddel_eq //. split; [by intros [? ?]|by intros [? _]].
  - rewrite dget_ddel_ne //. naive_solver.
Qed.

(** Two dictionaries with the same key order and the same lookups are equal. *)
Lemma dict_ext d1 d2 :
  NoDup d1.*1 → d1.*1 = d2.*1 → (∀ k, dget k d1 = dget k d2) → d1 = d2.
Proof.
  revert d2. induction d1 as [|[k1 v1] d1 IH]; intros [|[k2 v2] d2]; try done.
  rewrite !fmap_cons. intros [Hn Hd]%NoDup_cons [= <- Hk] Hg. f_equal.
  - specialize (Hg k1). simpl in Hg. rewrite !decide_True // in Hg. congruence.
  - apply IH; [done|done|]. intros k. specialize (Hg k). simpl in Hg.
    case_decide; [subst k|done]. simpl in Hn. rewrite (proj2 (dget_None k1 d1)) //.
    symmetry. apply dget_None. by rewrite -Hk.
Qed.

Lemma dupdate_NoDup d d2 : NoDup d.*1 → NoDup (dupdate d d2).*1.
Proof.
  revert d. induction d2 as [|kv d2 IH]; intros d Hd; [done|].
  apply IH. by apply dset_NoDup.
Qed.

Lemma elem_dupdate_keys d d2 k : k ∈ (dupdate d d2).*1 ↔ k ∈ d.*1 ∨ k ∈ d2.*1.
Proof.
  revert d. induction d2 as [|kv d2 IH]; intros d; simpl; [set_solver|].
  rewrite IH elem_dset_keys. set_solver.
Qed.

End Dict.

#[export] Hint Resolve dset_NoDup ddel_NoDup dupdate_NoDup dget_dset_eq : pydict.
#[export] Hint Resolve dget_dset_ne dget_ddel_ne dget_ddel_eq : pydict.

(** ** Python lists *)

(** [l[-1]] *)
Definition py_last {A} (l : list A) : outcome A :=
  match last l with Some x => Ret x | None => Raise IndexError end.

(** [l[i]] for a non-negative [i]. *)
Definition py_nth {A} (l : list A) (i : nat) : outcome A :=
  match l !! i with Some x => Ret x | None => Raise IndexError end.

(** [l[a:b]]: bounds beyond the ends are cut off, negative ones count from the
    end. *)
Definition slice_bound (n : nat) (i : Z) : nat :=
  if (i <? 0)%Z then Z.to_nat (Z.max 0 (Z.of_nat n + i)) else Nat.min n (Z.to_nat i).

Definition py_slice {A} (l : list A) (a b : Z) : list A :=
  let lo := slice_bound (length l) a in
  let hi := slice_bound (length l) b in
  take (hi - lo) (drop lo l).

(** [d[k]]. *)
Definition py_getitem {K V} `{EqDecision K} (d : list (K * V)) (k : K) : outcome V :=
  match dget k d with Some v => Ret v | None => Raise KeyError end.

(** [range(n)] for a non-negative bound. *)
Definition py_range (n : Z) : list Z := Z.of_nat <$> seq 0 (Z.to_nat n).

Lemma elem_py_range n i : i ∈ py_range n ↔ (0 ≤ i < n)%Z.
Proof.
  rewrite /py_range list_elem_of_fmap. split.
  - intros (j & -> & Hj%elem_of_seq). lia.
  - intros Hi. exists (Z.to_nat i). rewrite elem_of_seq. lia.
Qed.

Lemma length_py_range n : length (py_range n) = Z.to_nat n.
Proof. by rewrite /py_range length_fmap length_seq. Qed.

(** ** Python strings *)

Section Strings.
Local Open Scope string_scope.

(** [str(z)]. *)
Definition py_str (z : Z) : string := pretty z.

Definition is_digit (c : ascii) : bool :=
  let n := N_of_ascii c in ((48 <=? n) && (n <=? 57))%N.

Definition is_alpha (c : ascii) : bool :=
  let n := N_of_ascii c in
  (((65 <=? n) && (n <=? 90)) || ((97 <=? n) && (n <=? 122)))%N.

Definition is_space (c : ascii) : bool :=
  let n := N_of_ascii c in (((9 <=? n) && (n <=? 13)) || ((28 <=? n) && (n <=? 32)))%N.

Definition lower_char (c : ascii) : ascii :=
  let n := N_of_ascii c in
  if ((65 <=? n) && (n <=? 90))%N then ascii_of_N (n + 32)%N else c.

(** [s.lower()]. *)
Fixpoint py_lower (s : string) : string :=
  match s with
  | EmptyString => EmptyString
  | String c s' => String (lower_char c) (py_lower s')
  end.

(** The characters of a [str], one string each: a byte [10xxxxxx] continues the
    UTF-8 sequence of the character before it. *)
Definition utf8_continues (s : string) : bool :=
  match s with
  | String c _ => bool_decide (128 ≤ N_of_ascii c < 192)%N
  | EmptyString => false
  end.

Fixpoint str_chars (s : string) : list string :=
  match s with
  | EmptyString => []
  | String c s' =>
      match str_chars s' with
      | x :: xs => if utf8_continues x then String c x :: xs
                   else String c EmptyString :: x :: xs
      | [] => [String c EmptyString]
      end
  end.

(** [c in s] for a one-character string [c]. *)
Fixpoint str_has (c : ascii) (s : string) : bool :=
  match s with
  | EmptyString => false
  | String c' s' => Ascii.eqb c c' || str_has c s'
  end.

(** [sub in s]. *)
Fixpoint py_contains (sub s : string) : bool :=
  String.prefix sub s ||
  match s with EmptyString => false | String _ s' => py_contains sub s' end.

(** [s.split(c)] for a one-character separator: never the empty list. *)
Fixpoint py_split (c : ascii) (s : string) : list string :=
  match s with
  | EmptyString => [EmptyString]
  | String c' s' =>
      if Ascii.eqb c c' then EmptyString :: py_split c s'
      else match py_split c s' with
           | [] => [String c' EmptyString]
           | w :: ws => String c' w :: ws
           end
  end.

(** [s.split(c, 1)]: the text before and after the first separator. *)
Fixpoint py_split1 (c : ascii) (s : string) : option (string * string) :=
  match s with
  | EmptyString => None
  | String c' s' =>
      if Ascii.eqb c c' then Some (EmptyString, s')
      else match py_split1 c s' with
           | Some (a, b) => Some (String c' a, b)
           | None => None
           end
  end.

(** The double quote and the line feed. *)
Definition dquote : string := String (ascii_of_nat 34) EmptyString.
Definition newline : string := String (ascii_of_nat 10) EmptyString.

(** [sep.join(l)]. *)
Definition py_join (sep : string) (l : list string) : string := String.concat sep l.

(** [s.startswith(p)]. *)
Definition py_startswith (p s : string) : bool := String.prefix p s.

(** [s[n:]]. *)
Fixpoint py_drop (n : nat) (s : string) : string :=
  match n, s with
  | S n', String _ s' => py_drop n' s'
  | _, _ => s
  end.

(** [s[n:]] when [s] may hold characters of several bytes. *)
Definition py_from (n : nat) (s : string) : string := String.concat EmptyString (drop n (str_chars s)).

(** [s.endswith(p)]. *)
Definition py_endswith (p s : string) : bool :=
  Nat.leb (String.length p) (String.length s) &&
  String.eqb (py_drop (Nat.sub (String.length s) (String.length p)) s) p.

(** [os.path.join(a, b)] with POSIX paths. *)
Definition os_path_join (a b : string) : string :=
  if py_startswith "/" b then b
  else if String.eqb a EmptyString || py_endswith "/" a then a +:+ b
  else a +:+ "/" +:+ b.

(** [s.lstrip()], [s.strip()]. *)
Fixpoint py_lstrip (s : string) : string :=
  match s with
  | String c s' => if is_space c then py_lstrip s' else s
  | EmptyString => EmptyString
  end.

Definition str_rev (s : string) : string :=
  string_of_list_ascii (reverse (list_ascii_of_string s)).

Definition py_strip (s : string) : string :=
  str_rev (py_lstrip (str_rev (py_lstrip s))).

(** The digits of an [int(...)] literal; a single underscore may separate two
    digits. [after] says whether the previous character was a digit. *)
Fixpoint int_digits (after : bool) (acc : N) (s : string) : option N :=
  match s with
  | EmptyString => if after then Some acc else None
  | String c s' =>
      if is_digit c then int_digits true (acc * 10 + (N_of_ascii c - 48))%N s'
      else if Ascii.eqb c "_" && after then int_digits false acc s'
      else None
  end.

(** [int(s)] on a string. *)
Definition py_int (s : string) : outcome Z :=
  let r := match py_strip s with
           | String "-" s' => Z.opp <$> (Z.of_N <$> int_digits false 0 s')
           | String "+" s' => Z.of_N <$> int_digits false 0 s'
           | s' => Z.of_N <$> int_digits false 0 s'
           end in
  match r with Some z => Ret z | None => Raise ValueError end.

(** *** Lemmas *)

Lemma str_app_cons c (a b : string) : String c a +:+ b = String c (a +:+ b).
Proof. done. Qed.

Lemma str_has_app c s1 s2 : str_has c (s1 +:+ s2) = str_has c s1 || str_has c s2.
Proof. induction s1 as [|c1 s1 IH]; simpl; [done|]. by rewrite IH orb_assoc. Qed.

Lemma str_app_empty (a : string) : EmptyString +:+ a = a.
Proof. done. Qed.

Lemma str_app_assoc (a b c : string) : (a +:+ b) +:+ c = a +:+ (b +:+ c).
Proof. induction a as [|x a IH]; [done|]. by rewrite !str_app_cons IH. Qed.

Lemma str_app_nil (a : string) : a +:+ "" = a.
Proof. induction a as [|x a IH]; [done|]. by rewrite !str_app_cons IH. Qed.

Lemma py_split_nohas c s : str_has c s = false → py_split c s = [s].
Proof.
  induction s as [|c' s IH]; simpl; [done|].
  destruct (Ascii.eqb c c'); [done|]. intros H. by rewrite IH.
Qed.

Lemma py_split_app c s1 s2 :
  str_has c s1 = false → py_split c (s1 +:+ String c s2) = s1 :: py_split c s2.
Proof.
  induction s1 as [|c' s1 IH]; simpl; [by rewrite Ascii.eqb_refl|].
  destruct (Ascii.eqb c c'); [done|]. intros H. by rewrite IH.
Qed.

Lemma py_split_not_nil c s : py_split c s ≠ [].
Proof.
  destruct s as [|c' s]; simpl; [done|].
  destruct (Ascii.eqb c c'); [done|]. by destruct (py_split c s).
Qed.

(** Splitting and joining with the same separator is the identity. *)
Lemma py_join_split c s : py_join (String c "") (py_split c s) = s.
Proof.
  rewrite /py_join. induction s as [|c' s IH]; simpl; [done|].
  destruct (Ascii.eqb_spec c c') as [<-|].
  - destruct (py_split c s) as [|w ws] eqn:Hs; [by apply py_split_not_nil in Hs|].
    change (String c (String.concat (String c "") (w :: ws)) = String c s).
    by rewrite IH.
  - destruct (py_split c s) as [|w ws] eqn:Hs; [by apply py_split_not_nil in Hs|].
    destruct ws; simpl in *; by rewrite ?str_app_cons IH.
Qed.

Lemma py_split1_app c s1 s2 :
  str_has c s1 = false → py_split1 c (s1 +:+ String c s2) = Some (s1, s2).
Proof.
  induction s1 as [|c' s1 IH]; simpl; [by rewrite Ascii.eqb_refl|].
  destruct (Ascii.eqb c c'); [done|]. intros H. by rewrite IH.
Qed.

Lemma py_split1_None c s : py_split1 c s = None ↔ str_has c s = false.
Proof.
  induction s as [|c' s IH]; simpl; [done|].
  destruct (Ascii.eqb c c'); simpl; [done|].
  rewrite -IH. by destruct (py_split1 c s) as [[]|].
Qed.

Lemma py_split1_Some c s a b :
  py_split1 c s = Some (a, b) → s = a +:+ String c b ∧ str_has c a = false.
Proof.
  revert a. induction s as [|c' s IH]; intros a; simpl; [done|].
  destruct (Ascii.eqb_spec c c') as [<-|Hne].
  - intros ?; simplify_eq/=. done.
  - destruct (py_split1 c s) as [[a' b']|]; [|done].
    intros ?; simplify_eq/=. destruct (IH a') as [-> Ha]; [done|].
    split; [done|]. by rewrite (proj2 (Ascii.eqb_neq _ _) Hne).
Qed.

Lemma py_drop_app s1 s2 : py_drop (String.length s1) (s1 +:+ s2) = s2.
Proof. induction s1 as [|c s1 IH]; [|done]. by destruct s2. Qed.

End Strings.

#[export] Hint Rewrite str_app_cons str_has_app str_app_assoc str_app_nil : pystr.

(** *** Decimal numerals *)

Section Decimal.

(** The decimal digits of [pretty] are digits, and reading them back gives
    the number. *)
Lemma pretty_N_char_digit x :
  (x < 10)%N →
  is_digit (pretty_N_char x) = true ∧ (N_of_ascii (pretty_N_char x) - 48 = x)%N.
Proof.
  intros Hx. assert (x ∈ [0;1;2;3;4;5;6;7;8;9]%N) as Hin by (rewrite !elem_of_cons; lia).
  repeat (apply elem_of_cons in Hin as [->|Hin]; [done|]).
  by apply elem_of_nil in Hin.
Qed.

Lemma int_digits_pretty_go b x s :
  (0 < x)%N → int_digits b 0 (pretty_N_go x s) = int_digits true x s.
Proof.
  revert b s. induction (N.lt_wf_0 x) as [x _ IH]; intros b s Hx.
  rewrite pretty_N_go_step //.
  destruct (pretty_N_char_digit (x mod 10)) as [Hd Hv];
    [by apply N.mod_upper_bound|].
  destruct (decide (x < 10)%N) as [Hlt|Hge].
  - rewrite N.div_small // pretty_N_go_0 /= Hd Hv N.mod_small //.
  - rewrite IH; [|by apply N.div_lt|apply N.div_str_pos; lia].
    simpl. rewrite Hd Hv. f_equal. rewrite {3}(N.div_mod x 10) //. lia.
Qed.

Lemma int_digits_pretty (x : N) : int_digits false 0 (pretty x) = Some x.
Proof.
  rewrite /pretty /pretty_N. case_decide as Hx; [by subst|].
  by rewrite int_digits_pretty_go; [|lia].
Qed.

(** No printed number contains a character that is neither a digit nor the
    minus sign. *)
Lemma str_has_pretty_go c x s :
  is_digit c = false → str_has c (pretty_N_go x s) = str_has c s.
Proof.
  intros Hc. revert s. induction (N.lt_wf_0 x) as [x _ IH]; intros s.
  destruct (decide (x = 0)%N) as [->|Hx]; [by rewrite pretty_N_go_0|].
  rewrite pretty_N_go_step; [|lia]. rewrite IH; [|apply N.div_lt; lia].
  simpl. destruct (Ascii.eqb_spec c (pretty_N_char (x mod 10))) as [->|]; [|done].
  destruct (pretty_N_char_digit (x mod 10)) as [Hd _]; [by apply N.mod_upper_bound|].
  congruence.
Qed.

Lemma str_has_py_str c z :
  is_digit c = false → c ≠ "-"%char → str_has c (py_str z) = false.
Proof.
  intros Hc Hm. rewrite /py_str.
  assert (∀ x : N, str_has c (pretty x) = false) as HN.
  { intros x. rewrite /pretty /pretty_N. case_decide.
    - simpl. destruct (Ascii.eqb_spec c "0") as [->|]; [done|done].
    - by rewrite str_has_pretty_go. }
  destruct z as [|p|p]; rewrite /pretty /pretty_Z.
  - simpl. destruct (Ascii.eqb_spec c "0") as [->|]; [done|done].
  - apply HN.
  - simpl. destruct (Ascii.eqb_spec c "-") as [->|]; [done|]. apply HN.
Qed.

(** Stripping keeps a string without white space, and [int] reads back what
    [str] printed. *)
Definition no_space (s : string) : Prop := ∀ c, is_space c = true → str_has c s = false.

Lemma str_has_elem c s : str_has c s = true ↔ c ∈ list_ascii_of_string s.
Proof.
  induction s as [|c' s IH]; simpl; [split; [done|by intros ?%elem_of_nil]|].
  rewrite orb_true_iff Ascii.eqb_eq IH. by rewrite elem_of_cons.
Qed.

Lemma str_has_rev c s : str_has c (str_rev s) = str_has c s.
Proof.
  apply eq_true_iff_eq. rewrite !str_has_elem /str_rev.
  by rewrite list_ascii_of_string_of_list_ascii elem_of_reverse.
Qed.

Lemma str_rev_rev s : str_rev (str_rev s) = s.
Proof.
  by rewrite /str_rev list_ascii_of_string_of_list_ascii reverse_involutive
    string_of_list_ascii_of_string.
Qed.

Lemma py_lstrip_no_space s : no_space s → py_lstrip s = s.
Proof.
  destruct s as [|c s]; [done|]. intros H. simpl. destruct (is_space c) eqn:E; [|done].
  specialize (H c E). by rewrite /= Ascii.eqb_refl in H.
Qed.

Lemma py_strip_no_space s : no_space s → py_strip s = s.
Proof.
  intros H. rewrite /py_strip (py_lstrip_no_space s) // py_lstrip_no_space ?str_rev_rev //.
  intros c Hc. rewrite str_has_rev. by apply H.
Qed.

Lemma no_space_py_str z : no_space (py_str z).
Proof.
  intros c Hc. apply str_has_py_str; [|by intros ->].
  destruct (is_digit c) eqn:E; [|done]. rewrite /is_space /is_digit in Hc, E.
  apply andb_true_iff in E as [?%N.leb_le ?%N.leb_le].
  apply orb_true_iff in Hc as [[?%N.leb_le ?%N.leb_le]%andb_true_iff|
    [?%N.leb_le ?%N.leb_le]%andb_true_iff]; lia.
Qed.

Lemma py_int_unsigned s x :
  no_space s → str_has "-" s = false → str_has "+" s = false →
  int_digits false 0 s = Some x → py_int s = Ret (Z.of_N x).
Proof.
  intros Hs Hm Hp Hd. rewrite /py_int py_strip_no_space //.
  destruct s as [|c s]; [done|]. cbn [str_has] in Hm, Hp.
  apply orb_false_iff in Hm as [Hm _]. apply orb_false_iff in Hp as [Hp _].
  destruct c as [[] [] [] [] [] [] [] []]; try discriminate; by rewrite Hd.
Qed.

Lemma py_int_py_str z : py_int (py_str z) = Ret z.
Proof.
  destruct z as [|p|p].
  - reflexivity.
  - apply (py_int_unsigned _ (Npos p)).
    + apply (no_space_py_str (Zpos p)).
    + rewrite /py_str /pretty /pretty_Z /pretty /pretty_N /=. by rewrite str_has_pretty_go.
    + by apply (str_has_py_str "+" (Zpos p)).
    + apply int_digits_pretty.
  - rewrite /py_int py_strip_no_space; [|apply no_space_py_str].
    rewrite /py_str /pretty /pretty_Z str_app_cons /=.
    by rewrite (int_digits_pretty (Npos p)).
Qed.

#[export] Instance py_str_inj : Inj (=) (=) py_str.
Proof. rewrite /py_str. apply _. Qed.

End Decimal.

(** ** Filters *)

Lemma filter_all {A} (P : A → Prop) `{∀ x, Decision (P x)} (l : list A) : Forall P l → filter P l = l.
Proof. induction 1 as [|x l Hx _ IH]; [done|]. by rewrite filter_cons_True // IH. Qed.

Lemma filter_none {A} (P : A → Prop) `{∀ x, Decision (P x)} l :
  Forall (λ x, ¬ P x) l → filter P l = [].
Proof. induction 1 as [|x l Hx _ IH]; [done|]. by rewrite filter_cons_False // IH. Qed.

Lemma filter_iff_elem {A} (P Q : A → Prop) `{∀ x, Decision (P x)} `{∀ x, Decision (Q x)} (l : list A) :
  (∀ x, x ∈ l → P x ↔ Q x) → filter P l = filter Q l.
Proof.
  induction l as [|x l IH]; intros HPQ; [done|]. rewrite !filter_cons IH; [|intros y Hy; apply HPQ; by right].
  assert (P x ↔ Q x) as Hx by (apply HPQ; left). case_decide; case_decide; tauto || done.
Qed.
