(* ===== verification/Objects.v ===== *)
(** * Python values and the object heap

    The dynamic values that the Anna client (src/client/python/anna) handles,
    the classes of [lattices.py] as heap objects, and the operators of the
    language the code applies to them: [==], [<], [type], [isinstance],
    iteration and attribute lookup.  Objects live in a heap because the code
    shares and mutates them: [merge] returns one of its arguments, vector
    clocks share their counters, default arguments are created once. *)

From Stdlib Require Import SpecFloat.
From S2P Require Import Prelude.

(** ** Values *)

Definition loc := nat.

(** Values.  Lists that the code builds and hands out without keeping another
    reference are values; sets, dicts and instances are references.  [VMethod]
    is a bound method that was looked up and not called, [VPbMap] a protocol
    buffer map field, which is no [dict]. *)
Inductive pyval : Type :=
| VNone
| VBool (b : bool)
| VInt (z : Z)
| VFloat (f : spec_float)
| VStr (s : string)
| VBytes (s : string)
| VTuple (vs : list pyval)
| VList (vs : list pyval)
| VRef (l : loc)
| VMethod (l : loc) (name : string)
| VPbMap (d : list (string * Z)).

(** *** Numbers: [bool], [int] and [float] compare by value *)

Inductive num : Type :=
| NFin (m e : Z)          (* m * 2^e *)
| NInf (neg : bool)
| NNaN.

Definition num_of (v : pyval) : option num :=
  match v with
  | VBool b => Some (NFin (if b then 1 else 0)%Z 0)
  | VInt z => Some (NFin z 0)
  | VFloat (S754_zero _) => Some (NFin 0 0)
  | VFloat (S754_infinity s) => Some (NInf s)
  | VFloat S754_nan => Some NNaN
  | VFloat (S754_finite s m e) => Some (NFin (if s then Zneg m else Zpos m) e)
  | _ => None
  end.

(** [None] when one of the numbers is not a number. *)
Definition num_cmp (a b : num) : option comparison :=
  match a, b with
  | NNaN, _ | _, NNaN => None
  | NInf s, NInf t =>
      Some (if Bool.eqb s t then Eq else if s then Lt else Gt)
  | NInf s, NFin _ _ => Some (if s then Lt else Gt)
  | NFin _ _, NInf t => Some (if t then Gt else Lt)
  | NFin m e, NFin m' e' =>
      let k := Z.min e e' in
      Some (Z.compare (m * 2 ^ (e - k)) (m' * 2 ^ (e' - k)))
  end%Z.

Definition num_lt (a b : num) : bool :=
  match num_cmp a b with Some Lt => true | _ => false end.
Definition num_eq (a b : num) : bool :=
  match num_cmp a b with Some Eq => true | _ => false end.

(** [v == w] for values that are not instances (a reference equals only
    itself; instances are compared by [Lattice_eq] in [Lattices]). *)
Fixpoint py_eqb (v w : pyval) {struct v} : bool :=
  let fix list_eqb (xs ys : list pyval) {struct xs} : bool :=
    match xs, ys with
    | [], [] => true
    | x :: xs', y :: ys' => py_eqb x y && list_eqb xs' ys'
    | _, _ => false
    end in
  match num_of v, num_of w with
  | Some a, Some b => num_eq a b
  | _, _ =>
      match v, w with
      | VNone, VNone => true
      | VStr a, VStr b => String.eqb a b
      | VBytes a, VBytes b => String.eqb a b
      | VTuple xs, VTuple ys => list_eqb xs ys
      | VList xs, VList ys => list_eqb xs ys
      | VRef a, VRef b => Nat.eqb a b
      | VMethod a m, VMethod b m' => Nat.eqb a b && String.eqb m m'
      | _, _ => false
      end
  end.

(** [v < w]; [v > w] is [py_lt w v].  Sequences compare lexicographically. *)
Fixpoint py_lt (v w : pyval) {struct v} : outcome bool :=
  let fix list_lt (xs ys : list pyval) {struct xs} : outcome bool :=
    match xs, ys with
    | _, [] => Ret false
    | [], _ => Ret true
    | x :: xs', y :: ys' => if py_eqb x y then list_lt xs' ys' else py_lt x y
    end in
  match num_of v, num_of w with
  | Some a, Some b => Ret (num_lt a b)
  | _, _ =>
      match v, w with
      | VStr a, VStr b => Ret (String.ltb a b)
      | VBytes a, VBytes b => Ret (String.ltb a b)
      | VTuple xs, VTuple ys => list_lt xs ys
      | VList xs, VList ys => list_lt xs ys
      | _, _ => Raise TypeError
      end
  end.

(** ** Objects *)

(** The instances of [lattices.py], of [set] and of [dict].  The fields carry
    the types that the constructors check.  Dictionary keys are the strings
    that name KVS keys and clock entries. *)
Inductive obj : Type :=
| OSet (xs : list pyval)
| ODict (d : list (string * pyval))
| OListBasedOrderedSet (lst : list pyval)
| OLWWPairLattice (ts : Z) (val : string)
| OSetLattice (val : loc)
| OOrderedSetLattice (val : loc)
| OMaxIntLattice (value : Z)
| OMapLattice (mp : loc)
| OVectorClock (mp : loc)
| OSingleKeyCausalLattice (vector_clock value : loc)
| OMultiKeyCausalLattice (vector_clock dependencies value : loc)
| OPriorityLattice (priority : spec_float) (value : string).

(** What [type(v)] returns. *)
Inductive pytype : Type :=
| TNone | TBool | TInt | TFloat | TStr | TBytes | TTuple | TList | TMethod | TPbMap
| TSet | TDict | TListBasedOrderedSet
| TLWWPairLattice | TSetLattice | TOrderedSetLattice | TMaxIntLattice
| TMapLattice | TVectorClock | TSingleKeyCausalLattice
| TMultiKeyCausalLattice | TPriorityLattice | TDangling.

#[export] Instance pytype_eq_dec : EqDecision pytype.
Proof. solve_decision. Defined.

Definition obj_type (o : obj) : pytype :=
  match o with
  | OSet _ => TSet
  | ODict _ => TDict
  | OListBasedOrderedSet _ => TListBasedOrderedSet
  | OLWWPairLattice _ _ => TLWWPairLattice
  | OSetLattice _ => TSetLattice
  | OOrderedSetLattice _ => TOrderedSetLattice
  | OMaxIntLattice _ => TMaxIntLattice
  | OMapLattice _ => TMapLattice
  | OVectorClock _ => TVectorClock
  | OSingleKeyCausalLattice _ _ => TSingleKeyCausalLattice
  | OMultiKeyCausalLattice _ _ _ => TMultiKeyCausalLattice
  | OPriorityLattice _ _ => TPriorityLattice
  end.

Notation heap := (list obj).

Definition type_of (h : heap) (v : pyval) : pytype :=
  match v with
  | VNone => TNone
  | VBool _ => TBool
  | VInt _ => TInt
  | VFloat _ => TFloat
  | VStr _ => TStr
  | VBytes _ => TBytes
  | VTuple _ => TTuple
  | VList _ => TList
  | VMethod _ _ => TMethod
  | VPbMap _ => TPbMap
  | VRef l => match h !! l with Some o => obj_type o | None => TDangling end
  end.

(** The classes derived from [Lattice]. *)
Definition is_lattice_type (t : pytype) : bool :=
  match t with
  | TLWWPairLattice | TSetLattice | TOrderedSetLattice | TMaxIntLattice
  | TMapLattice | TVectorClock | TSingleKeyCausalLattice
  | TMultiKeyCausalLattice | TPriorityLattice => true
  | _ => false
  end.

(** [isinstance(v, Lattice)]. *)
Definition isinstance_Lattice (h : heap) (v : pyval) : bool :=
  is_lattice_type (type_of h v).

(** ** Heap operations *)

Definition alloc (o : obj) : M heap loc := λ h, (Ret (length h), h ++ [o]).

(** Reading an attribute of [v] as an instance: anything that is not an
    instance in the heap lacks the attribute. *)
Definition deref (v : pyval) : M heap obj := λ h,
  match v with
  | VRef l => match h !! l with Some o => (Ret o, h) | None => (Raise AttributeError, h) end
  | _ => (Raise AttributeError, h)
  end.

Definition store (l : loc) (o : obj) : M heap unit := λ h, (Ret tt, <[l:=o]> h).

(** The public attributes of the built-in classes the code uses. *)
Definition set_attrs : list string :=
  ["add"; "clear"; "copy"; "difference"; "difference_update"; "discard";
   "intersection"; "intersection_update"; "isdisjoint"; "issubset";
   "issuperset"; "pop"; "remove"; "symmetric_difference";
   "symmetric_difference_update"; "union"; "update"]%string.

Definition list_attrs : list string :=
  ["append"; "clear"; "copy"; "count"; "extend"; "index"; "insert"; "pop";
   "remove"; "reverse"; "sort"]%string.

(** [x.name] on an instance of a built-in class. *)
Definition getattr_builtin {S} (attrs : list string) (name : string) : M S unit :=
  if bool_decide (name ∈ attrs) then mret tt else raise AttributeError.

(** [list(iter(v))]: the elements a [for] loop visits. *)
Definition py_iter (v : pyval) : M heap (list pyval) := λ h,
  match v with
  | VList vs | VTuple vs => (Ret vs, h)
  | VPbMap d => (Ret (VStr <$> d.*1), h)
  | VStr s => (Ret (VStr <$> str_chars s), h)
  | VBytes s => (Ret ((λ c, VInt (Z.of_N (N_of_ascii c))) <$> list_ascii_of_string s), h)
  | VRef l =>
      match h !! l with
      | Some (OSet xs) => (Ret xs, h)
      | Some (ODict d) => (Ret (VStr <$> d.*1), h)
      | _ => (Raise TypeError, h)
      end
  | _ => (Raise TypeError, h)
  end.

(** ** Lemmas *)

Implicit Types (h : heap) (o : obj) (l : loc).

Lemma alloc_run o h : alloc o h = (Ret (length h), h ++ [o]).
Proof. done. Qed.

Lemma deref_run l o h : h !! l = Some o → deref (VRef l) h = (Ret o, h).
Proof. intros H. by rewrite /deref H. Qed.

Lemma store_run l o h : store l o h = (Ret tt, <[l:=o]> h).
Proof. done. Qed.

Lemma heap_alloc_old h o l o' : h !! l = Some o' → (h ++ [o]) !! l = Some o'.
Proof. intros. by apply lookup_app_l_Some. Qed.

Lemma heap_alloc_new h o : (h ++ [o]) !! length h = Some o.
Proof. by rewrite lookup_app_r // Nat.sub_diag. Qed.

#[export] Hint Resolve heap_alloc_old heap_alloc_new deref_run : pymonad.

(** Scaling both sides to a smaller exponent does not change a comparison. *)
Lemma num_scale (m m' e e' k : Z) :
  (k ≤ Z.min e e')%Z →
  Z.compare (m * 2 ^ (e - Z.min e e')) (m' * 2 ^ (e' - Z.min e e')) =
  Z.compare (m * 2 ^ (e - k)) (m' * 2 ^ (e' - k)).
Proof.
  intros Hk. pose proof (Z.le_min_l e e'). pose proof (Z.le_min_r e e').
  set (j := Z.min e e') in *. clearbody j.
  replace (e - k)%Z with ((e - j) + (j - k))%Z by lia.
  replace (e' - k)%Z with ((e' - j) + (j - k))%Z by lia.
  rewrite (Z.pow_add_r 2 (e - j)) ?(Z.pow_add_r 2 (e' - j)); [|lia..].
  rewrite !Z.mul_assoc.
  rewrite -Zmult_compare_compat_r //. assert (0 < 2 ^ (j - k))%Z by (apply Z.pow_pos_nonneg; lia). lia.
Qed.

Lemma num_lt_trans a b c : num_lt a b = true → num_lt b c = true → num_lt a c = true.
Proof.
  rewrite /num_lt /num_cmp.
  destruct a as [m1 e1|[]|], b as [m2 e2|[]|], c as [m3 e3|[]|]; try done.
  set (k := Z.min e1 (Z.min e2 e3)).
  rewrite !(num_scale _ _ _ _ k); [|lia..].
  destruct (Z.compare_spec (m1 * 2 ^ (e1 - k)) (m2 * 2 ^ (e2 - k)));
  destruct (Z.compare_spec (m2 * 2 ^ (e2 - k)) (m3 * 2 ^ (e3 - k)));
  destruct (Z.compare_spec (m1 * 2 ^ (e1 - k)) (m3 * 2 ^ (e3 - k))); try done; lia.
Qed.

Lemma num_lt_irrefl a : num_lt a a = false.
Proof. destruct a as [m e|[]|]; rewrite /num_lt /num_cmp //= Z.compare_refl //. Qed.

(** A number that is not a NaN lies on one side of a strict inequality. *)
Lemma num_lt_split a b c :
  b ≠ NNaN → num_lt a c = true → num_lt a b = true ∨ num_lt b c = true.
Proof.
  rewrite /num_lt /num_cmp.
  destruct a as [m1 e1|[]|], b as [m2 e2|[]|], c as [m3 e3|[]|]; try done; auto.
  intros _. set (k := Z.min e1 (Z.min e2 e3)).
  rewrite !(num_scale _ _ _ _ k); [|lia..].
  destruct (Z.compare_spec (m1 * 2 ^ (e1 - k)) (m2 * 2 ^ (e2 - k)));
  destruct (Z.compare_spec (m2 * 2 ^ (e2 - k)) (m3 * 2 ^ (e3 - k)));
  destruct (Z.compare_spec (m1 * 2 ^ (e1 - k)) (m3 * 2 ^ (e3 - k))); auto; lia.
Qed.
