(* ===== verification/OrderedSet.v ===== *)
(** * [ListBasedOrderedSet] and the lockstep merge (src/client/python/anna/lattices.py)

    The list-backed ordered set that ordered-set lattices are deserialized
    into: the binary search [_index_of], [insert], the constructor, and the
    merge loop of [OrderedSetLattice.merge].  The code is duck-typed: it works
    on any values that [<] orders.  What it needs from its elements is the
    class [PyOrdered]; bytes, strings and integers are instances, floats are
    not, and the last section shows what a NaN does. *)

From Stdlib Require Import SpecFloat Sorted.
From S2P Require Import Prelude Objects.

(** ** Operations *)

Definition ListBasedOrderedSet := list pyval.

(** The [while] loop of [_index_of].  Both bounds are list indices, so
    [int((high - low) / 2)] is exact and is the integer half. *)
Fixpoint index_of_loop (fuel : nat) (lst : list pyval) (value : pyval)
    (low high : nat) : outcome (nat * bool) :=
  match fuel with
  | O => OutOfFuel
  | S fuel =>
      if Nat.ltb low high then
        let middle := low + (high - low) / 2 in
        pivot ← py_nth lst middle;
        if py_eqb value pivot then Ret (middle, true)
        else
          lt ← py_lt value pivot;
          if (lt : bool) then index_of_loop fuel lst value low middle
          else
            gt ← py_lt pivot value;
            if (gt : bool) then index_of_loop fuel lst value (S middle) high
            else index_of_loop fuel lst value low high
      else Ret (low, false)
  end.

(** [_index_of].  Each round at least halves the range for ordered elements,
    so one more round than there are elements is enough
    ([index_of_spec]). *)
Definition ListBasedOrderedSet_index_of (lst : list pyval) (value : pyval)
  : outcome (nat * bool) :=
  index_of_loop (S (length lst)) lst value 0 (length lst).

(** [insert]; the result is the new content of [self.lst]. *)
Definition ListBasedOrderedSet_insert (lst : list pyval) (value : pyval)
  : outcome (list pyval) :=
  if Nat.eqb (length lst) 0 then Ret (lst ++ [value])
  else
    lst_last ← py_last lst;
    gt ← py_lt lst_last value;
    if (gt : bool) then Ret (lst ++ [value])
    else
      '(idx, present) ← ListBasedOrderedSet_index_of lst value;
      if (present : bool) then Ret lst
      else Ret (take idx lst ++ value :: drop idx lst).

(** [__init__]: inserts the elements of the iterable one by one. *)
Definition ListBasedOrderedSet_init (iterable : list pyval) : outcome (list pyval) :=
  ofold iterable [] ListBasedOrderedSet_insert.

(** The lockstep loop of [OrderedSetLattice.merge]: [i] and [j] are the
    earliest unmerged indices. *)
Fixpoint merge_loop (fuel : nat) (us other : list pyval) (i j : nat)
    (new_lst : list pyval) : outcome (list pyval) :=
  match fuel with
  | O => OutOfFuel
  | S fuel =>
      if Nat.ltb i (length us) || Nat.ltb j (length other) then
        if Nat.eqb i (length us) then Ret (new_lst ++ drop j other)
        else if Nat.eqb j (length other) then Ret (new_lst ++ drop i us)
        else
          a ← py_nth us i;
          b ← py_nth other j;
          if py_eqb a b then merge_loop fuel us other (S i) (S j) (new_lst ++ [a])
          else
            lt ← py_lt a b;
            if (lt : bool) then merge_loop fuel us other (S i) j (new_lst ++ [a])
            else
              gt ← py_lt b a;
              if (gt : bool) then merge_loop fuel us other i (S j) (new_lst ++ [b])
              else merge_loop fuel us other i j new_lst
      else Ret new_lst
  end.

Definition merge_lockstep (us other : list pyval) : outcome (list pyval) :=
  merge_loop (S (length us + length other)) us other 0 0 [].

(** ** What the elements must provide *)

(** [P] is a class of values on which [<] is a strict total order and [==]
    is identity. *)
Class PyOrdered (P : pyval → Prop) := {
  ord_ltb : pyval → pyval → bool;
  ord_lt x y : P x → P y → py_lt x y = Ret (ord_ltb x y);
  ord_eq x y : P x → P y → py_eqb x y = true ↔ x = y;
  ord_irrefl x : P x → ord_ltb x x = false;
  ord_trans x y z :
    P x → P y → P z → ord_ltb x y = true → ord_ltb y z = true → ord_ltb x z = true;
  ord_total x y : P x → P y → x = y ∨ ord_ltb x y = true ∨ ord_ltb y x = true
}.

Arguments ord_ltb P {_} x y : rename.
Arguments ord_lt P {_} x y.
Arguments ord_eq P {_} x y.
Arguments ord_irrefl P {_} x.
Arguments ord_trans P {_} x y z.
Arguments ord_total P {_} x y.

Definition is_bytes (v : pyval) : Prop := ∃ s, v = VBytes s.
Definition is_str (v : pyval) : Prop := ∃ s, v = VStr s.
Definition is_int (v : pyval) : Prop := ∃ z, v = VInt z.

Lemma string_ltb_irrefl s : String.ltb s s = false.
Proof.
  rewrite /String.ltb. assert (String.compare s s = Eq) as ->; [|done].
  induction s as [|c s IH]; simpl; [done|].
  rewrite /Ascii.compare N.compare_refl //.
Qed.

Lemma string_ltb_leb s t : String.ltb s t = true ↔ String.leb s t = true ∧ s ≠ t.
Proof.
  rewrite /String.ltb /String.leb. destruct (String.compare s t) eqn:E; split; try done.
  - apply String.compare_eq_iff in E. naive_solver.
  - intros _. split; [done|]. intros <-.
    pose proof (string_ltb_irrefl s) as H. by rewrite /String.ltb E in H.
  - by intros [? ?].
Qed.

Lemma string_ltb_trans s t u :
  String.ltb s t = true → String.ltb t u = true → String.ltb s u = true.
Proof.
  rewrite !string_ltb_leb. intros [H1 N1] [H2 N2].
  assert (String.le s u) as H3.
  { trans t; rewrite /String.le; by apply Is_true_true. }
  split; [by apply Is_true_true|]. intros ->. destruct N1.
  apply (anti_symm String.le); rewrite /String.le; by apply Is_true_true.
Qed.

Lemma string_ltb_total s t : s = t ∨ String.ltb s t = true ∨ String.ltb t s = true.
Proof.
  destruct (decide (s = t)) as [|Hne]; [by left|right].
  rewrite !string_ltb_leb. destruct (String.leb_total s t); naive_solver.
Qed.

#[export] Instance bytes_ordered : PyOrdered is_bytes.
Proof.
  refine {| ord_ltb x y := match x, y with VBytes a, VBytes b => String.ltb a b | _, _ => false end |}.
  - by intros ? ? [? ->] [? ->].
  - intros ? ? [s ->] [t ->]. simpl. rewrite String.eqb_eq. naive_solver.
  - intros ? [s ->]. apply string_ltb_irrefl.
  - intros ? ? ? [s ->] [t ->] [u ->]. apply string_ltb_trans.
  - intros ? ? [s ->] [t ->]. destruct (string_ltb_total s t); naive_solver.
Defined.

#[export] Instance str_ordered : PyOrdered is_str.
Proof.
  refine {| ord_ltb x y := match x, y with VStr a, VStr b => String.ltb a b | _, _ => false end |}.
  - by intros ? ? [? ->] [? ->].
  - intros ? ? [s ->] [t ->]. simpl. rewrite String.eqb_eq. naive_solver.
  - intros ? [s ->]. apply string_ltb_irrefl.
  - intros ? ? ? [s ->] [t ->] [u ->]. apply string_ltb_trans.
  - intros ? ? [s ->] [t ->]. destruct (string_ltb_total s t); naive_solver.
Defined.

Lemma num_cmp_int a b : num_cmp (NFin a 0) (NFin b 0) = Some (Z.compare a b).
Proof. rewrite /num_cmp /= !Z.mul_1_r //. Qed.

#[export] Instance int_ordered : PyOrdered is_int.
Proof.
  refine {| ord_ltb x y := match x, y with VInt a, VInt b => Z.ltb a b | _, _ => false end |}.
  - intros ? ? [a ->] [b ->]. cbn [py_lt num_of]. rewrite /num_lt num_cmp_int /Z.ltb.
    by destruct (Z.compare a b).
  - intros ? ? [a ->] [b ->]. cbn [py_eqb num_of]. rewrite /num_eq num_cmp_int.
    destruct (Z.compare_spec a b); naive_solver lia.
  - intros ? [a ->]. apply Z.ltb_irrefl.
  - intros ? ? ? [a ->] [b ->] [c ->]. rewrite !Z.ltb_lt. lia.
  - intros ? ? [a ->] [b ->]. rewrite !Z.ltb_lt.
    destruct (Z.lt_trichotomy a b) as [|[->|]]; auto.
Defined.

(** ** Correctness for ordered elements *)

Section Ordered.
Context {P : pyval → Prop} `{!PyOrdered P}.
Implicit Types (lst : list pyval) (v x y : pyval).

Definition ord_lt_rel x y : Prop := ord_ltb P x y = true.

(** The representation invariant: elements of one ordered class, strictly
    ascending (so without duplicates). *)
Definition ordered lst : Prop := Forall P lst ∧ StronglySorted ord_lt_rel lst.

Lemma ord_gt_false x y : P x → P y → ord_ltb P x y = true → ord_ltb P y x = false.
Proof.
  intros Hx Hy Hxy. destruct (ord_ltb P y x) eqn:Hyx; [|done].
  pose proof (ord_trans P x y x Hx Hy Hx Hxy Hyx) as H. by rewrite (ord_irrefl P) in H.
Qed.

Lemma ord_eqb_false x y : P x → P y → x ≠ y → py_eqb x y = false.
Proof.
  intros Hx Hy Hne. destruct (py_eqb x y) eqn:E; [|done].
  by apply (ord_eq P) in E.
Qed.

Lemma ord_eqb_refl x : P x → py_eqb x x = true.
Proof. intros Hx. by apply (ord_eq P). Qed.

Lemma ord_lt_ne x y : P x → ord_ltb P x y = true → x ≠ y.
Proof. intros Hx H ->. by rewrite (ord_irrefl P) in H. Qed.

Lemma sorted_lookup lst i j x y :
  StronglySorted ord_lt_rel lst → lst !! i = Some x → lst !! j = Some y → i < j →
  ord_ltb P x y = true.
Proof.
  intros Hs. revert i j. induction Hs as [|z lst Hs IH Hz]; intros i j Hi Hj Hij; [done|].
  destruct j as [|j]; [lia|]. destruct i as [|i]; simplify_eq/=.
  - rewrite Forall_forall in Hz. apply Hz. by eapply list_elem_of_lookup_2.
  - eapply IH; [done..|lia].
Qed.

(** What a search result says about the list. *)
Definition insertion_point lst v (i : nat) : Prop :=
  i ≤ length lst ∧
  (∀ j x, lst !! j = Some x → j < i → ord_ltb P x v = true) ∧
  (∀ j x, lst !! j = Some x → i ≤ j → ord_ltb P v x = true).

Lemma index_of_loop_spec fuel lst v low high :
  ordered lst → P v → high - low < fuel → low ≤ high → high ≤ length lst →
  (∀ j x, lst !! j = Some x → j < low → ord_ltb P x v = true) →
  (∀ j x, lst !! j = Some x → high ≤ j → ord_ltb P v x = true) →
  ∃ i b, index_of_loop fuel lst v low high = Ret (i, b) ∧
    if (b : bool) then lst !! i = Some v else insertion_point lst v i.
Proof.
  intros [HP Hs] Hv. revert low high.
  induction fuel as [|fuel IH]; intros low high Hf Hlh Hh Hlo Hhi; [lia|].
  cbn [index_of_loop]. destruct (Nat.ltb_spec low high) as [Hlt|Hge]; last first.
  { exists low, false. split; [done|]. split; [lia|]. split; [done|].
    intros j x Hj ?. eapply Hhi; [done|lia]. }
  set (mid := low + (high - low) / 2).
  assert (low ≤ mid < high) as Hmid.
  { pose proof (Nat.div_lt (high - low) 2). subst mid. lia. }
  clearbody mid.
  destruct (lookup_lt_is_Some_2 lst mid) as [pv Hpv]; [lia|].
  rewrite /py_nth Hpv /=. assert (P pv) as Hp by (by eapply Forall_lookup_1).
  destruct (ord_total P v pv) as [<-|[Hl|Hl]]; [done..| | |].
  - rewrite ord_eqb_refl //. by exists mid, true.
  - rewrite ord_eqb_false //; [|by apply ord_lt_ne]. rewrite !(ord_lt P) // Hl /=.
    apply IH; [lia..|done|]. intros j x Hj Hmj.
    destruct (decide (mid = j)) as [<-|]; [naive_solver|].
    apply (ord_trans P _ pv); [done|done|by eapply Forall_lookup_1|done|].
    eapply (sorted_lookup lst mid j); [done..|lia].
  - rewrite ord_eqb_false //; [|intros ->; by eapply (ord_lt_ne pv pv)].
    rewrite !(ord_lt P) // (ord_gt_false _ _ Hp Hv Hl) Hl /=.
    apply IH; [lia..| |done]. intros j x Hj Hmj.
    destruct (decide (j = mid)) as [->|]; [naive_solver|].
    apply (ord_trans P _ pv); [by eapply Forall_lookup_1|done|done| |done].
    eapply (sorted_lookup lst j mid); [done..|lia].
Qed.

Lemma index_of_total lst v :
  ordered lst → P v →
  ∃ i b, ListBasedOrderedSet_index_of lst v = Ret (i, b) ∧
    if (b : bool) then lst !! i = Some v else insertion_point lst v i.
Proof.
  intros Ho Hv. apply index_of_loop_spec; [done|done|lia..| |].
  - intros; lia.
  - intros j x Hj%lookup_lt_Some ?; lia.
Qed.

Lemma insertion_point_notin lst v i : P v → insertion_point lst v i → v ∉ lst.
Proof.
  intros Hv (Hi & Hlo & Hhi) [j Hj]%list_elem_of_lookup.
  destruct (decide (j < i)) as [Hji|Hji].
  - specialize (Hlo _ _ Hj Hji). by rewrite (ord_irrefl P) in Hlo.
  - specialize (Hhi _ _ Hj ltac:(lia)). by rewrite (ord_irrefl P) in Hhi.
Qed.

Lemma sorted_app lst1 lst2 :
  StronglySorted ord_lt_rel lst1 → StronglySorted ord_lt_rel lst2 →
  (∀ x y, x ∈ lst1 → y ∈ lst2 → ord_ltb P x y = true) →
  StronglySorted ord_lt_rel (lst1 ++ lst2).
Proof.
  intros H1 H2 Hc. induction H1 as [|x lst1 H1 IH Hx]; [done|]. simpl. constructor.
  - apply IH. intros. apply Hc; [by right|done].
  - apply Forall_app. split; [done|]. apply Forall_forall. intros y Hy.
    apply Hc; [left|done].
Qed.

Lemma sorted_take_drop lst i :
  StronglySorted ord_lt_rel lst →
  StronglySorted ord_lt_rel (take i lst) ∧ StronglySorted ord_lt_rel (drop i lst).
Proof.
  intros Hs. revert i. induction Hs as [|x lst Hs IH Hx]; intros [|i]; simpl;
    try (split; by constructor).
  destruct (IH i) as [H1 H2]. split; [|done]. constructor; [done|].
  by apply Forall_take.
Qed.

Lemma insert_at_ordered lst v i :
  ordered lst → P v → insertion_point lst v i →
  ordered (take i lst ++ v :: drop i lst).
Proof.
  intros [HP Hs] Hv (Hi & Hlo & Hhi). split.
  { apply Forall_app. split; [by apply Forall_take|].
    constructor; [done|by apply Forall_drop]. }
  destruct (sorted_take_drop lst i Hs) as [Ht Hd].
  assert (∀ x, x ∈ take i lst → ord_ltb P x v = true) as Hlo'.
  { intros x [j Hj]%list_elem_of_lookup.
    apply lookup_take_Some in Hj as [Hj ?]. eauto. }
  assert (∀ y, y ∈ drop i lst → ord_ltb P v y = true) as Hhi'.
  { intros y [j Hj]%list_elem_of_lookup. rewrite lookup_drop in Hj.
    eapply Hhi; [done|lia]. }
  apply sorted_app; [done| |].
  - constructor; [done|]. by apply Forall_forall.
  - intros x y Hx [->|Hy]%elem_of_cons; [by auto|].
    apply (ord_trans P _ v); auto.
    + rewrite Forall_forall in HP. apply HP. eapply elem_of_sublist; [done|apply sublist_take].
    + rewrite Forall_forall in HP. apply HP. eapply elem_of_sublist; [done|apply sublist_drop].
Qed.

Lemma last_ordered lst w v :
  ordered lst → P v → last lst = Some w → ord_ltb P w v = true →
  insertion_point lst v (length lst).
Proof.
  intros [HP Hs] Hv Hw Hwv. split; [lia|]. split; [|intros j x ?%lookup_lt_Some ?; lia].
  intros j x Hj Hjl. rewrite last_lookup in Hw.
  assert (P w ∧ P x) as [Hpw Hpx] by (split; by eapply Forall_lookup_1).
  destruct (decide (j = pred (length lst))) as [->|]; [congruence|].
  apply (ord_trans P _ w); [done..| |done].
  eapply (sorted_lookup lst j); [done..|lia].
Qed.

(** [insert] keeps the invariant and adds exactly the value. *)
Lemma insert_total lst v :
  ordered lst → P v →
  ∃ lst', ListBasedOrderedSet_insert lst v = Ret lst' ∧ ordered lst' ∧
    (∀ x, x ∈ lst' ↔ x = v ∨ x ∈ lst).
Proof.
  intros Ho Hv. rewrite /ListBasedOrderedSet_insert.
  destruct (Nat.eqb_spec (length lst) 0) as [Hl|Hl].
  { apply nil_length_inv in Hl as ->. exists [v]. split; [done|]. split; [|set_solver].
    split; by repeat constructor. }
  rewrite /py_last. destruct (last lst) as [w|] eqn:Hw; last first.
  { apply last_None in Hw. by subst. }
  assert (P w) as Hpw.
  { destruct Ho as [HP _]. rewrite Forall_forall in HP. apply HP.
    by apply last_Some_elem_of. }
  simpl. rewrite !(ord_lt P) //=. destruct (ord_ltb P w v) eqn:Hwv.
  - exists (lst ++ [v]). split; [done|]. split; [|set_solver].
    pose proof (last_ordered _ _ _ Ho Hv Hw Hwv) as Hip.
    pose proof (insert_at_ordered _ _ _ Ho Hv Hip) as H.
    by rewrite take_ge // drop_ge // in H.
  - destruct (index_of_total lst v Ho Hv) as (i & [] & -> & Hi); simpl.
    + exists lst. split; [done|]. split; [done|].
      intros x. apply list_elem_of_lookup_2 in Hi. set_solver.
    + eexists. split; [done|]. split; [by apply insert_at_ordered|].
      intros x. rewrite elem_of_app elem_of_cons.
      rewrite -{3}(take_drop i lst) elem_of_app. naive_solver.
Qed.

Lemma init_from lst0 iterable :
  ordered lst0 → Forall P iterable →
  ∃ lst, ofold iterable lst0 ListBasedOrderedSet_insert = Ret lst ∧ ordered lst ∧
    (∀ x, x ∈ lst ↔ x ∈ lst0 ∨ x ∈ iterable).
Proof.
  revert lst0. induction iterable as [|v vs IH]; intros lst0 Ho HP.
  { exists lst0. split; [done|]. set_solver. }
  apply Forall_cons in HP as [Hv HP]. simpl.
  destruct (insert_total lst0 v Ho Hv) as (l1 & -> & Ho1 & Hx1). simpl.
  destruct (IH l1 Ho1 HP) as (l2 & -> & Ho2 & Hx2).
  exists l2. split; [done|]. split; [done|]. intros x. rewrite Hx2 Hx1. set_solver.
Qed.

(** Inserting an already sorted sequence appends it. *)
Lemma init_sorted_from lst0 lst :
  ordered (lst0 ++ lst) → ofold lst lst0 ListBasedOrderedSet_insert = Ret (lst0 ++ lst).
Proof.
  revert lst0. induction lst as [|v vs IH]; intros lst0 Ho; [by rewrite app_nil_r|].
  simpl. assert (ListBasedOrderedSet_insert lst0 v = Ret (lst0 ++ [v])) as ->.
  { rewrite /ListBasedOrderedSet_insert. destruct (Nat.eqb_spec (length lst0) 0); [done|].
    rewrite /py_last. destruct (last lst0) as [w|] eqn:Hw;
      [|apply last_None in Hw; by subst].
    destruct Ho as [HP Hs]. apply Forall_app in HP as [HP1 HP2].
    assert (P w ∧ P v) as [Hpw Hpv].
    { split; [|by inversion HP2].
      rewrite Forall_forall in HP1. apply HP1. by apply last_Some_elem_of. }
    simpl. rewrite !(ord_lt P) //.
    assert (ord_ltb P w v = true) as ->; [|done].
    rewrite last_lookup in Hw.
    eapply (sorted_lookup (lst0 ++ v :: vs) (pred (length lst0)) (length lst0)); [done| | |lia].
    - by apply lookup_app_l_Some.
    - by rewrite lookup_app_r // Nat.sub_diag. }
  simpl. rewrite IH; by rewrite -app_assoc.
Qed.

(** *** The merge loop *)

Lemma ordered_drop lst i x :
  ordered lst → lst !! i = Some x →
  ordered (drop (S i) lst) ∧ P x ∧ (∀ y, y ∈ drop (S i) lst → ord_ltb P x y = true) ∧
  drop i lst = x :: drop (S i) lst.
Proof.
  intros [HP Hs] Hx. repeat split.
  - by apply Forall_drop.
  - by apply sorted_take_drop.
  - by eapply Forall_lookup_1.
  - intros y [j Hj]%list_elem_of_lookup. rewrite lookup_drop in Hj.
    eapply (sorted_lookup lst i); [done..|lia].
  - by apply drop_S.
Qed.

Lemma ordered_cons x lst :
  P x → ordered lst → (∀ y, y ∈ lst → ord_ltb P x y = true) → ordered (x :: lst).
Proof.
  intros Hx [HP Hs] Hlt. split; constructor; [done..|]. by apply Forall_forall.
Qed.

Lemma ordered_drop_all lst i : ordered lst → ordered (drop i lst).
Proof. intros [HP Hs]. split; [by apply Forall_drop|by apply sorted_take_drop]. Qed.

Lemma merge_loop_spec fuel us other i j new_lst :
  ordered us → ordered other →
  i ≤ length us → j ≤ length other → (length us - i) + (length other - j) < fuel →
  ∃ r, merge_loop fuel us other i j new_lst = Ret (new_lst ++ r) ∧ ordered r ∧
    (∀ x, x ∈ r ↔ x ∈ drop i us ∨ x ∈ drop j other).
Proof.
  intros Hu Ho. revert i j new_lst.
  induction fuel as [|fuel IH]; intros i j new_lst Hi Hj Hf; [lia|]. simpl.
  destruct (decide (i = length us)) as [->|Hi'].
  { rewrite Nat.ltb_irrefl Nat.eqb_refl drop_all /=.
    exists (drop j other). split.
    - destruct (Nat.ltb_spec j (length other)); [done|].
      by rewrite drop_ge // app_nil_r.
    - split; [by apply ordered_drop_all|set_solver]. }
  rewrite (proj2 (Nat.ltb_lt i (length us))) /=; [|lia].
  rewrite (proj2 (Nat.eqb_neq i (length us))) //.
  destruct (decide (j = length other)) as [->|Hj'].
  { rewrite Nat.eqb_refl drop_all. exists (drop i us). split; [done|].
    split; [by apply ordered_drop_all|set_solver]. }
  rewrite (proj2 (Nat.eqb_neq j (length other))) //.
  destruct (lookup_lt_is_Some_2 us i) as [a Ha]; [lia|].
  destruct (lookup_lt_is_Some_2 other j) as [b Hb]; [lia|].
  rewrite /py_nth Ha Hb /=.
  destruct (ordered_drop _ _ _ Hu Ha) as (_ & Hpa & Hlta & Hda).
  destruct (ordered_drop _ _ _ Ho Hb) as (_ & Hpb & Hltb & Hdb).
  destruct (ord_total P a b) as [<-|[Hab|Hab]]; [done..| | |].
  - rewrite ord_eqb_refl //.
    destruct (IH (S i) (S j) (new_lst ++ [a])) as (r & -> & Hr & Hx); [lia..|].
    exists (a :: r). rewrite -app_assoc. split; [done|].
    split; [|intros x; rewrite Hda Hdb !elem_of_cons Hx; naive_solver].
    apply ordered_cons; [done..|]. intros y [?|?]%Hx; auto.
  - rewrite ord_eqb_false //; [|by apply ord_lt_ne]. rewrite !(ord_lt P) // Hab /=.
    destruct (IH (S i) j (new_lst ++ [a])) as (r & -> & Hr & Hx); [lia..|].
    exists (a :: r). rewrite -app_assoc. split; [done|].
    split; [|intros x; rewrite Hda !elem_of_cons Hx; naive_solver].
    apply ordered_cons; [done..|]. intros y [?|Hy]%Hx; [by auto|].
    rewrite Hdb in Hy. apply elem_of_cons in Hy as [->|Hy]; [done|].
    apply (ord_trans P _ b); auto. destruct Ho as [HP _]. rewrite Forall_forall in HP.
    apply HP. eapply elem_of_sublist; [done|apply sublist_drop].
  - rewrite ord_eqb_false //; [|intros ->; by eapply (ord_lt_ne b b)].
    rewrite !(ord_lt P) // (ord_gt_false _ _ Hpb Hpa Hab) Hab /=.
    destruct (IH i (S j) (new_lst ++ [b])) as (r & -> & Hr & Hx); [lia..|].
    exists (b :: r). rewrite -app_assoc. split; [done|].
    split; [|intros x; rewrite Hdb !elem_of_cons Hx; naive_solver].
    apply ordered_cons; [done..|]. intros y [Hy|?]%Hx; [|by auto].
    rewrite Hda in Hy. apply elem_of_cons in Hy as [->|Hy]; [done|].
    apply (ord_trans P _ a); auto. destruct Hu as [HP _]. rewrite Forall_forall in HP.
    apply HP. eapply elem_of_sublist; [done|apply sublist_drop].
Qed.

End Ordered.

Arguments ordered P {_} lst.
Arguments insertion_point P {_} lst v i.

(** ** Properties *)

(** Also: [_index_of] on an ordered set terminates; it returns the index of the
    value when the value is present, and otherwise the one index before which
    every element is smaller and from which every element is greater, as the
    comment above the method says. *)
Theorem index_of_correct (P : pyval → Prop) `{!PyOrdered P} lst v :
  ordered P lst → P v →
  ∃ i b, ListBasedOrderedSet_index_of lst v = Ret (i, b) ∧
    (b = true → lst !! i = Some v) ∧
    (b = false → v ∉ lst ∧ insertion_point P lst v i).
Proof.
  intros Ho Hv. destruct (index_of_total lst v Ho Hv) as (i & b & Hi & Hb).
  exists i, b. split; [done|]. destruct b; split; try done. intros _.
  split; [by eapply insertion_point_notin|done].
Qed.

Definition bytes_abd : list pyval := [VBytes "a"; VBytes "b"; VBytes "d"].

Lemma bytes_abd_ordered : ordered is_bytes bytes_abd.
Proof. split; repeat constructor; try (by eexists). Qed.

Lemma index_of_correct_witness :
  ordered is_bytes bytes_abd ∧ is_bytes (VBytes "c") ∧
  ListBasedOrderedSet_index_of bytes_abd (VBytes "c") = Ret (2, false) ∧
  insertion_point is_bytes bytes_abd (VBytes "c") 2.
Proof.
  split; [apply bytes_abd_ordered|]. split; [by eexists|]. split; [reflexivity|].
  destruct (index_of_correct is_bytes bytes_abd (VBytes "c")) as (i & b & Hi & _ & Hb);
    [apply bytes_abd_ordered|by eexists|].
  vm_compute in Hi. injection Hi as <- <-. by apply Hb.
Defined.

(** Also: [insert] keeps the list strictly ascending and free of duplicates, and
    the new content is the old content plus the value. *)
Theorem insert_correct (P : pyval → Prop) `{!PyOrdered P} lst v :
  ordered P lst → P v →
  ∃ lst', ListBasedOrderedSet_insert lst v = Ret lst' ∧ ordered P lst' ∧
    (∀ x, x ∈ lst' ↔ x = v ∨ x ∈ lst).
Proof. apply insert_total. Qed.

Lemma insert_correct_witness :
  ListBasedOrderedSet_insert bytes_abd (VBytes "c") =
    Ret [VBytes "a"; VBytes "b"; VBytes "c"; VBytes "d"] ∧
  ∃ lst', ListBasedOrderedSet_insert bytes_abd (VBytes "c") = Ret lst' ∧
    ordered is_bytes lst' ∧ (∀ x, x ∈ lst' ↔ x = VBytes "c" ∨ x ∈ bytes_abd).
Proof.
  split; [reflexivity|].
  apply (insert_correct is_bytes); [apply bytes_abd_ordered|by eexists].
Defined.

(** Also: The constructor turns any iterable of ordered elements, sorted or not
    and with or without duplicates, into the ordered set of its elements; on
    an already ordered iterable it is the identity.  The precondition in the
    comment above [__init__] is not needed. *)
Theorem init_correct (P : pyval → Prop) `{!PyOrdered P} iterable :
  Forall P iterable →
  ∃ lst, ListBasedOrderedSet_init iterable = Ret lst ∧ ordered P lst ∧
    (∀ x, x ∈ lst ↔ x ∈ iterable) ∧ (ordered P iterable → lst = iterable).
Proof.
  intros HP. destruct (init_from [] iterable) as (lst & Hl & Ho & Hx);
    [split; constructor|done|].
  exists lst. split; [done|]. split; [done|]. split; [set_solver|].
  intros Hoi. pose proof (init_sorted_from [] iterable Hoi) as H. simpl in H. congruence.
Qed.

Lemma init_correct_witness :
  ∃ lst, ListBasedOrderedSet_init [VInt 3; VInt 1; VInt 3; VInt 2] = Ret lst ∧
    ordered is_int lst ∧ (∀ x, x ∈ lst ↔ x ∈ [VInt 3; VInt 1; VInt 3; VInt 2]).
Proof.
  destruct (init_correct is_int [VInt 3; VInt 1; VInt 3; VInt 2])
    as (lst & H1 & H2 & H3 & _); [|by exists lst].
  repeat constructor; by eexists.
Defined.

(** Also: The lockstep merge of two ordered lists terminates with their ordered
    union, which the reconstruction [ListBasedOrderedSet(new_lst)] keeps
    unchanged. *)
Theorem merge_lockstep_correct (P : pyval → Prop) `{!PyOrdered P} us other :
  ordered P us → ordered P other →
  ∃ r, merge_lockstep us other = Ret r ∧ ordered P r ∧
    (∀ x, x ∈ r ↔ x ∈ us ∨ x ∈ other) ∧ ListBasedOrderedSet_init r = Ret r.
Proof.
  intros Hu Ho. rewrite /merge_lockstep.
  destruct (merge_loop_spec (S (length us + length other)) us other 0 0 [])
    as (r & Hr & Hor & Hx); [done|done|lia..|].
  exists r. split; [done|]. split; [done|]. split; [done|].
  by apply (init_sorted_from []).
Qed.

Lemma merge_lockstep_correct_witness :
  ∃ r, merge_lockstep bytes_abd [VBytes "b"; VBytes "c"] = Ret r ∧
    ordered is_bytes r ∧ ListBasedOrderedSet_init r = Ret r.
Proof.
  destruct (merge_lockstep_correct is_bytes bytes_abd [VBytes "b"; VBytes "c"])
    as (r & H1 & H2 & _ & H3);
    [apply bytes_abd_ordered|split; repeat constructor; by eexists|by exists r].
Defined.

Definition is_number (v : pyval) : Prop := ∃ n, num_of v = Some n.

(** Also: A NaN breaks the search: on any non-empty list of numbers neither test
    of the loop body holds, the bounds never move, and [_index_of] does not
    terminate, whatever step bound is allowed. *)
Theorem index_of_nan_diverges fuel lst :
  lst ≠ [] → Forall is_number lst →
  index_of_loop fuel lst (VFloat S754_nan) 0 (length lst) = OutOfFuel.
Proof.
  intros Hne Hnum. induction fuel as [|fuel IH]; [done|]. cbn [index_of_loop].
  assert (0 < length lst) as Hl by (destruct lst; simpl; [done|lia]).
  rewrite (proj2 (Nat.ltb_lt _ _) Hl).
  set (mid := 0 + (length lst - 0) / 2).
  assert (mid < length lst) as Hm.
  { pose proof (Nat.div_lt (length lst - 0) 2). subst mid. lia. }
  destruct (lookup_lt_is_Some_2 lst mid Hm) as [p Hp].
  rewrite /py_nth Hp /mbind /outcome_bind.
  destruct (Forall_lookup_1 _ _ _ _ Hnum Hp) as [n Hn].
  assert (py_eqb (VFloat S754_nan) p = false) as -> by (cbn; by rewrite Hn).
  assert (py_lt (VFloat S754_nan) p = Ret false) as -> by (cbn; by rewrite Hn).
  assert (py_lt p (VFloat S754_nan) = Ret false) as ->; [|done].
  destruct p; simplify_eq/=; try (destruct f; simplify_eq/=); done.
Qed.

Lemma index_of_nan_diverges_witness :
  index_of_loop 1000 [VInt 1; VInt 2] (VFloat S754_nan) 0 2 = OutOfFuel.
Proof.
  apply (index_of_nan_diverges 1000 [VInt 1; VInt 2]); [done|].
  repeat constructor; by eexists.
Defined.
