(* ===== verification/Lattices.v ===== *)
(** * The Anna lattices (src/client/python/anna/lattices.py)

    One section per class: its constructor, [reveal], [assign], [merge],
    [serialize] and the class's own methods, as operations on the object heap
    of [Objects]; then the dispatch on the run-time class, [==], and the
    properties.  [self] is the location of an instance, the other arguments
    are arbitrary values, as in the source.  A [str] is its UTF-8 byte
    sequence, so [bytes(s, 'utf-8')] keeps the characters. *)

From Stdlib Require Import SpecFloat.
From S2P Require Import Prelude Objects OrderedSet.

(** ** Protocol buffer messages (src/common/proto/anna.proto)

    The message classes are generated code; the model has their fields and
    the range check that assignment to an integer field makes. *)

Inductive LatticeType : Type :=
| LT_NONE | LT_LWW | LT_SET | LT_SINGLE_CAUSAL | LT_MULTI_CAUSAL
| LT_ORDERED_SET | LT_PRIORITY.

#[export] Instance LatticeType_eq_dec : EqDecision LatticeType.
Proof. solve_decision. Defined.

Inductive pbmsg : Type :=
| LWWValue (timestamp : Z) (value : string)
| SetValue (values : list string)
| SingleKeyCausalValue (vector_clock : list (string * Z)) (values : list string)
| MultiKeyCausalValue (vector_clock : list (string * Z))
    (dependencies : list (string * list (string * Z))) (values : list string)
| PriorityValue (priority : spec_float) (value : string).

(** Assigning [z] to an unsigned field of [w] bits. *)
Definition pb_uint (w : Z) (z : Z) : outcome Z :=
  if bool_decide (0 ≤ z < 2 ^ w)%Z then Ret z else Raise ValueError.

(** Appending a value to a [repeated bytes] field. *)
Definition pb_bytes (v : pyval) : outcome string :=
  match v with VBytes s => Ret s | _ => Raise TypeError end.

(** The attributes of a [repeated bytes] field, and the fields of
    [MultiKeyCausalValue] besides the methods every message has. *)
Definition repeated_attrs : list string :=
  ["append"; "extend"; "insert"; "pop"; "remove"; "reverse"; "sort"; "MergeFrom"]%string.
Definition multi_attrs : list string := ["vector_clock"; "dependencies"; "values"]%string.

(** ** Objects created when the module is loaded

    The default arguments [value=set()] of [SetLattice] and
    [value=ListBasedOrderedSet()] of [OrderedSetLattice] are evaluated once,
    when the classes are defined. *)
Definition default_set : loc := 0.
Definition default_ordered_set : loc := 1.
Definition module_heap : heap := [OSet []; OListBasedOrderedSet []].

(** ** [LWWPairLattice] *)

Definition LWWPairLattice_init (timestamp value : pyval) : M heap loc :=
  match timestamp, value with
  | VInt ts, VBytes v => alloc (OLWWPairLattice ts v)
  | _, _ => raise ValueError
  end.

Definition LWWPairLattice_reveal (self : loc) : M heap pyval :=
  o ← deref (VRef self);
  match o with OLWWPairLattice _ v => mret (VBytes v) | _ => raise AttributeError end.

(** [type(value) != tuple or type(value[0]) != int or type(value[1]) != bytes]
    reads the tuple only as far as the [or] goes. *)
Definition LWWPairLattice_assign (self : loc) (value : pyval) : M heap unit :=
  let value := match value with VStr s => VBytes s | v => v end in
  match value with
  | VTuple vs =>
      v0 ← lift (py_nth vs 0);
      match v0 with
      | VInt ts =>
          v1 ← lift (py_nth vs 1);
          match v1 with
          | VBytes v => store self (OLWWPairLattice ts v)
          | _ => raise ValueError
          end
      | _ => raise ValueError
      end
  | _ => raise ValueError
  end.

Definition LWWPairLattice_merge (self : loc) (other : pyval) : M heap pyval :=
  oo ← deref other;
  so ← deref (VRef self);
  match oo, so with
  | OLWWPairLattice ots _, OLWWPairLattice sts _ =>
      if Z.ltb sts ots then mret other else mret (VRef self)
  | _, _ => raise AttributeError
  end.

Definition LWWPairLattice_serialize (self : loc) : M heap (pbmsg * LatticeType) :=
  o ← deref (VRef self);
  match o with
  | OLWWPairLattice ts v =>
      t ← lift (pb_uint 64 ts);
      mret (LWWValue t v, LT_LWW)
  | _ => raise AttributeError
  end.

(** ** [SetLattice] *)

Definition SetLattice_init (value : pyval) : M heap loc :=
  h ← get_state;
  match value with
  | VRef l => if decide (type_of h value = TSet) then alloc (OSetLattice l)
              else raise ValueError
  | _ => raise ValueError
  end.

Definition SetLattice_init_default : M heap loc := SetLattice_init (VRef default_set).

Definition SetLattice_reveal (self : loc) : M heap pyval :=
  o ← deref (VRef self);
  match o with OSetLattice l => mret (VRef l) | _ => raise AttributeError end.

Definition SetLattice_assign (self : loc) (value : pyval) : M heap unit :=
  h ← get_state;
  match value with
  | VRef l => if decide (type_of h value = TSet) then store self (OSetLattice l)
              else raise ValueError
  | _ => raise ValueError
  end.

(** [self.val] of a set lattice. *)
Definition set_lattice_val (v : pyval) : M heap pyval :=
  o ← deref v;
  match o with OSetLattice l => mret (VRef l) | _ => raise AttributeError end.

(** The loop body [new_set.insert(v)] looks [insert] up on a [set]. *)
Definition SetLattice_merge (self : loc) (other : pyval) : M heap pyval :=
  h ← get_state;
  if decide (type_of h other ≠ TSetLattice) then raise ValueError
  else
    new_set ← alloc (OSet []);
    oval ← set_lattice_val other;
    ovs ← py_iter oval;
    for_each ovs (λ v, getattr_builtin set_attrs "insert") ;;
    sval ← set_lattice_val (VRef self);
    svs ← py_iter sval;
    for_each svs (λ v, getattr_builtin set_attrs "insert") ;;
    l ← SetLattice_init (VRef new_set);
    mret (VRef l).

Definition SetLattice_serialize (self : loc) : M heap (pbmsg * LatticeType) :=
  val ← set_lattice_val (VRef self);
  vs ← py_iter val;
  values ← map_each vs (λ v, match v with VBytes s => mret s | _ => raise ValueError end);
  mret (SetValue values, LT_SET).

(** ** [OrderedSetLattice] *)

Definition OrderedSetLattice_init (value : pyval) : M heap loc :=
  h ← get_state;
  match value with
  | VRef l => if decide (type_of h value = TListBasedOrderedSet)
              then alloc (OOrderedSetLattice l) else raise ValueError
  | _ => raise ValueError
  end.

Definition OrderedSetLattice_init_default : M heap loc :=
  OrderedSetLattice_init (VRef default_ordered_set).

(** [v.lst] *)
Definition getattr_lst (v : pyval) : M heap (list pyval) :=
  o ← deref v;
  match o with OListBasedOrderedSet xs => mret xs | _ => raise AttributeError end.

(** [v.insert(value)] on a [ListBasedOrderedSet] instance. *)
Definition ordered_set_insert (l : loc) (value : pyval) : M heap unit :=
  xs ← getattr_lst (VRef l);
  xs' ← lift (ListBasedOrderedSet_insert xs value);
  store l (OListBasedOrderedSet xs').

(** [v.val] of an ordered-set lattice. *)
Definition ordered_set_val (v : pyval) : M heap pyval :=
  o ← deref v;
  match o with OOrderedSetLattice l => mret (VRef l) | _ => raise AttributeError end.

(** [reveal] returns the list inside the ordered set. *)
Definition OrderedSetLattice_reveal (self : loc) : M heap pyval :=
  val ← ordered_set_val (VRef self);
  xs ← getattr_lst val;
  mret (VList xs).

Definition OrderedSetLattice_assign (self : loc) (value : pyval) : M heap unit :=
  h ← get_state;
  match value with
  | VRef l => if decide (type_of h value = TListBasedOrderedSet)
              then store self (OOrderedSetLattice l) else raise ValueError
  | _ => raise ValueError
  end.

(** [v.reveal()] where [v] is an ordered-set lattice. *)
Definition ordered_reveal (v : pyval) : M heap pyval :=
  match v with VRef l => OrderedSetLattice_reveal l | _ => raise AttributeError end.

Definition OrderedSetLattice_merge (self : loc) (other : pyval) : M heap pyval :=
  h ← get_state;
  if decide (type_of h other ≠ TOrderedSetLattice) then raise ValueError
  else
    revealed ← ordered_reveal other;
    other_lst ← getattr_lst revealed;
    val ← ordered_set_val (VRef self);
    us ← getattr_lst val;
    new_lst ← lift (merge_lockstep us other_lst);
    content ← lift (ListBasedOrderedSet_init new_lst);
    s ← alloc (OListBasedOrderedSet content);
    l ← OrderedSetLattice_init (VRef s);
    mret (VRef l).

Definition OrderedSetLattice_serialize (self : loc) : M heap (pbmsg * LatticeType) :=
  val ← ordered_set_val (VRef self);
  xs ← getattr_lst val;
  values ← lift (omap_each xs pb_bytes);
  mret (SetValue values, LT_ORDERED_SET).

(** ** [MaxIntLattice] *)

Definition MaxIntLattice_init (value : pyval) : M heap loc :=
  match value with VInt z => alloc (OMaxIntLattice z) | _ => raise ValueError end.

Definition MaxIntLattice_reveal (self : loc) : M heap pyval :=
  o ← deref (VRef self);
  match o with OMaxIntLattice z => mret (VInt z) | _ => raise AttributeError end.

Definition MaxIntLattice_assign (self : loc) (value : pyval) : M heap unit :=
  match value with VInt z => store self (OMaxIntLattice z) | _ => raise ValueError end.

(** Mutates [self] and returns [None]. *)
Definition MaxIntLattice_merge (self : loc) (other : pyval) : M heap pyval :=
  h ← get_state;
  if decide (type_of h other ≠ TMaxIntLattice) then raise ValueError
  else
    oo ← deref other;
    so ← deref (VRef self);
    match oo, so with
    | OMaxIntLattice ov, OMaxIntLattice sv =>
        (if Z.ltb sv ov then store self (OMaxIntLattice ov) else mret tt) ;;
        mret VNone
    | _, _ => raise AttributeError
    end.

(** ** [MapLattice] *)

Definition MapLattice_init (mp : pyval) : M heap loc :=
  h ← get_state;
  match mp with
  | VRef l => if decide (type_of h mp = TDict) then alloc (OMapLattice l)
              else raise ValueError
  | _ => raise ValueError
  end.

(** [v.mp] of a map lattice or of a vector clock, which inherits from it. *)
Definition map_mp (v : pyval) : M heap loc :=
  o ← deref v;
  match o with OMapLattice l | OVectorClock l => mret l | _ => raise AttributeError end.

Definition MapLattice_reveal (self : loc) : M heap pyval :=
  l ← map_mp (VRef self); mret (VRef l).

Definition MapLattice_assign (self : loc) (mp : pyval) : M heap unit :=
  h ← get_state;
  match mp with
  | VRef l => if decide (type_of h mp = TDict) then store self (OMapLattice l)
              else raise ValueError
  | _ => raise ValueError
  end.

(** The entries of a [dict]. *)
Definition read_dict (l : loc) : M heap (list (string * pyval)) :=
  o ← deref (VRef l);
  match o with ODict d => mret d | _ => raise AttributeError end.

(** The body of the loop of [merge] for one key.  [merge] is the dispatch on
    the class of the entry. *)
Definition MapLattice_merge_key (merge : pyval → pyval → M heap pyval)
    (smp omp : loc) (key : string) : M heap unit :=
  sd ← read_dict smp;
  od ← read_dict omp;
  ov ← lift (py_getitem od key);
  match dget key sd with
  | Some sv =>
      h ← get_state;
      if negb (isinstance_Lattice h sv) || negb (isinstance_Lattice h ov)
      then raise ValueError
      else merge sv ov ;; mret tt
  | None => store smp (ODict (dset key ov sd))
  end.

(** [for key in other.mp.keys:] iterates over the bound method [keys]. *)
Definition MapLattice_merge (merge : pyval → pyval → M heap pyval)
    (self : loc) (other : pyval) : M heap pyval :=
  h ← get_state;
  if decide (type_of h other ≠ TMapLattice) then raise ValueError
  else
    omp ← map_mp other;
    keys ← py_iter (VMethod omp "keys");
    smp ← map_mp (VRef self);
    for_each keys (λ k, match k with
                        | VStr key => MapLattice_merge_key merge smp omp key
                        | _ => raise KeyError
                        end) ;;
    mret VNone.

(** A shallow copy; always a [MapLattice], also for a [VectorClock]. *)
Definition MapLattice_copy (self : loc) : M heap loc :=
  l ← map_mp (VRef self);
  d ← read_dict l;
  l' ← alloc (ODict d);
  MapLattice_init (VRef l').

(** ** [VectorClock] *)

Definition VectorClock_deserialize (mp : loc) : M heap loc :=
  d ← read_dict mp;
  result ← fold_each d [] (λ acc kv,
    match kv.2 with
    | VInt z => l ← MaxIntLattice_init (VInt z); mret (dset kv.1 (VRef l) acc)
    | _ => raise ValueError
    end);
  alloc (ODict result).

Definition VectorClock_validate_vc (mp : loc) : M heap unit :=
  d ← read_dict mp;
  for_each d (λ kv,
    h ← get_state;
    if decide (type_of h kv.2 ≠ TMaxIntLattice) then raise ValueError else mret tt).

Definition VectorClock_init (mp : pyval) (deserialize : bool) : M heap loc :=
  h ← get_state;
  match mp with
  | VRef l =>
      if decide (type_of h mp = TDict) then
        if deserialize then
          r ← VectorClock_deserialize l; alloc (OVectorClock r)
        else VectorClock_validate_vc l ;; alloc (OVectorClock l)
      else raise ValueError
  | _ => raise ValueError
  end.

Definition VectorClock_assign (self : loc) (mp : pyval) : M heap unit :=
  h ← get_state;
  match mp with
  | VRef l => if decide (type_of h mp = TDict)
              then VectorClock_validate_vc l ;; store self (OVectorClock l)
              else raise ValueError
  | _ => raise ValueError
  end.

Definition VectorClock_update (self : loc) (key : string) (count : pyval) : M heap unit :=
  l ← map_mp (VRef self);
  d ← read_dict l;
  match dget key d with
  | Some (VRef c) =>
      lattice ← MaxIntLattice_init count;
      MaxIntLattice_merge c (VRef lattice) ;; mret tt
  | Some _ => raise AttributeError
  | None => mret tt
  end.

(** [serialize(pobj)]: fills the [map<string, uint32>] field [pobj]. *)
Definition VectorClock_serialize (self : loc) (pobj : list (string * Z))
  : M heap (list (string * Z)) :=
  l ← map_mp (VRef self);
  d ← read_dict l;
  fold_each d pobj (λ acc kv,
    match kv.2 with
    | VRef c =>
        v ← MaxIntLattice_reveal c;
        match v with
        | VInt z => u ← lift (pb_uint 32 z); mret (dset kv.1 u acc)
        | _ => raise TypeError
        end
    | _ => raise AttributeError
    end).

(** ** [reveal] and [==] on any lattice *)

(** [SingleKeyCausalLattice.reveal] and [MultiKeyCausalLattice.reveal]:
    [list(self.value.reveal())]. *)
Definition causal_value_list (value : loc) : M heap pyval :=
  s ← SetLattice_reveal value;
  xs ← py_iter s;
  mret (VList xs).

Definition SingleKeyCausalLattice_reveal (self : loc) : M heap pyval :=
  o ← deref (VRef self);
  match o with
  | OSingleKeyCausalLattice _ v => causal_value_list v
  | _ => raise AttributeError
  end.

Definition MultiKeyCausalLattice_reveal (self : loc) : M heap pyval :=
  o ← deref (VRef self);
  match o with
  | OMultiKeyCausalLattice _ _ v => causal_value_list v
  | _ => raise AttributeError
  end.

Definition PriorityLattice_reveal (self : loc) : M heap pyval :=
  o ← deref (VRef self);
  match o with OPriorityLattice _ v => mret (VBytes v) | _ => raise AttributeError end.

(** Method resolution for [reveal]. *)
Definition Lattice_reveal (self : loc) : M heap pyval :=
  o ← deref (VRef self);
  match o with
  | OLWWPairLattice _ _ => LWWPairLattice_reveal self
  | OSetLattice _ => SetLattice_reveal self
  | OOrderedSetLattice _ => OrderedSetLattice_reveal self
  | OMaxIntLattice _ => MaxIntLattice_reveal self
  | OMapLattice _ | OVectorClock _ => MapLattice_reveal self
  | OSingleKeyCausalLattice _ _ => SingleKeyCausalLattice_reveal self
  | OMultiKeyCausalLattice _ _ _ => MultiKeyCausalLattice_reveal self
  | OPriorityLattice _ _ => PriorityLattice_reveal self
  | OSet _ | ODict _ | OListBasedOrderedSet _ => raise AttributeError
  end.

(** Every element of [xs] is in [ys]. *)
Definition subset_b (xs ys : list pyval) : bool :=
  forallb (λ x, existsb (py_eqb x) ys) xs.

(** [v == w] on any values.  Sets and dicts compare by content, lattices by
    [Lattice.__eq__] (same class, equal revealed values), other instances by
    identity.  [fuel] bounds the nesting; CPython's recursion limit plays that
    part at run time. *)
Fixpoint py_eq (fuel : nat) (h : heap) (v w : pyval) : outcome bool :=
  match fuel with
  | O => OutOfFuel
  | S n =>
      match v, w with
      | VRef a, VRef b =>
          match h !! a, h !! b with
          | Some (OSet xs), Some (OSet ys) => Ret (subset_b xs ys && subset_b ys xs)
          | Some (ODict d), Some (ODict d') =>
              if Nat.eqb (length d) (length d') then
                ofold d true (λ acc kv,
                  if (acc : bool) then
                    match dget kv.1 d' with
                    | Some w' => py_eq n h kv.2 w'
                    | None => Ret false
                    end
                  else Ret false)
              else Ret false
          | Some oa, Some ob =>
              if is_lattice_type (obj_type oa) then
                if decide (obj_type oa = obj_type ob) then
                  v' ← (Lattice_reveal a h).1;
                  w' ← (Lattice_reveal b h).1;
                  py_eq n h v' w'
                else Ret false
              else Ret (Nat.eqb a b)
          | _, _ => Ret (Nat.eqb a b)
          end
      | _, _ => Ret (py_eqb v w)
      end
  end.

Arguments py_eq : simpl never.

Definition recursion_limit : nat := 1000.

(** [Lattice.__eq__] as a statement of the code. *)
Definition Lattice_eq (self other : pyval) : M heap bool := λ h,
  (py_eq recursion_limit h self other, h).

(** ** [SingleKeyCausalLattice] *)

Definition SingleKeyCausalLattice_init (vector_clock value : pyval) : M heap loc :=
  h ← get_state;
  match vector_clock, value with
  | VRef vc, VRef v =>
      if decide (type_of h vector_clock = TVectorClock) then
        if decide (type_of h value = TSetLattice)
        then alloc (OSingleKeyCausalLattice vc v) else raise ValueError
      else raise ValueError
  | _, _ => raise ValueError
  end.

Definition SingleKeyCausalLattice_assign (self : loc) (value : pyval) : M heap unit :=
  h ← get_state;
  o ← deref (VRef self);
  match value, o with
  | VRef v, OSingleKeyCausalLattice vc _ =>
      if decide (type_of h value = TSetLattice)
      then store self (OSingleKeyCausalLattice vc v) else raise ValueError
  | _, _ => raise ValueError
  end.

Definition SingleKeyCausalLattice_merge (merge : pyval → pyval → M heap pyval)
    (self : loc) (other : pyval) : M heap pyval :=
  h ← get_state;
  if decide (type_of h other ≠ TSingleKeyCausalLattice) then raise ValueError
  else
    so ← deref (VRef self);
    oo ← deref other;
    match so, oo with
    | OSingleKeyCausalLattice vc v, OSingleKeyCausalLattice ovc ov =>
        previous ← MapLattice_copy vc;
        MapLattice_merge merge vc (VRef ovc) ;;
        same ← Lattice_eq (VRef vc) (VRef ovc);
        if (same : bool) then
          store self (OSingleKeyCausalLattice vc ov) ;; mret VNone
        else
          unchanged ← Lattice_eq (VRef vc) (VRef previous);
          if negb unchanged then
            SetLattice_merge v (VRef ov) ;; mret VNone
          else mret VNone
    | _, _ => raise AttributeError
    end.

(** [skcv.values.add(v)]: a repeated scalar field has [append] and [extend],
    no [add]; and [for v in self.value] iterates over a [SetLattice]. *)
Definition SingleKeyCausalLattice_serialize (self : loc) : M heap (pbmsg * LatticeType) :=
  o ← deref (VRef self);
  match o with
  | OSingleKeyCausalLattice vc v =>
      clock ← VectorClock_serialize vc [];
      vs ← py_iter (VRef v);
      for_each vs (λ v, getattr_builtin repeated_attrs "add") ;;
      mret (SingleKeyCausalValue clock [], LT_SINGLE_CAUSAL)
  | _ => raise AttributeError
  end.

(** ** [MultiKeyCausalLattice] *)

Definition MultiKeyCausalLattice_init (vector_clock dependencies value : pyval)
  : M heap loc :=
  h ← get_state;
  match vector_clock, dependencies, value with
  | VRef vc, VRef dep, VRef v =>
      if decide (type_of h vector_clock = TVectorClock) then
        if decide (type_of h dependencies = TMapLattice) then
          if decide (type_of h value = TSetLattice)
          then alloc (OMultiKeyCausalLattice vc dep v) else raise ValueError
        else raise ValueError
      else raise ValueError
  | _, _, _ => raise ValueError
  end.

Definition MultiKeyCausalLattice_assign (self : loc) (value : pyval) : M heap unit :=
  h ← get_state;
  o ← deref (VRef self);
  match value, o with
  | VRef v, OMultiKeyCausalLattice vc dep _ =>
      if decide (type_of h value = TSetLattice)
      then store self (OMultiKeyCausalLattice vc dep v) else raise ValueError
  | _, _ => raise ValueError
  end.

Definition MultiKeyCausalLattice_merge (merge : pyval → pyval → M heap pyval)
    (self : loc) (other : pyval) : M heap pyval :=
  h ← get_state;
  if decide (type_of h other ≠ TMultiKeyCausalLattice) then raise ValueError
  else
    so ← deref (VRef self);
    oo ← deref other;
    match so, oo with
    | OMultiKeyCausalLattice vc dep v, OMultiKeyCausalLattice ovc odep ov =>
        previous ← MapLattice_copy vc;
        MapLattice_merge merge vc (VRef ovc) ;;
        same ← Lattice_eq (VRef vc) (VRef ovc);
        if (same : bool) then
          store self (OMultiKeyCausalLattice vc odep ov) ;; mret VNone
        else
          unchanged ← Lattice_eq (VRef vc) (VRef previous);
          if negb unchanged then
            MapLattice_merge merge dep (VRef odep) ;;
            SetLattice_merge v (VRef ov) ;; mret VNone
          else mret VNone
    | _, _ => raise AttributeError
    end.

(** [mkcv.add_dependences()] is no method of the message class; the loop that
    calls it iterates over a [MapLattice], which is not iterable. *)
Definition MultiKeyCausalLattice_serialize (self : loc) : M heap (pbmsg * LatticeType) :=
  o ← deref (VRef self);
  match o with
  | OMultiKeyCausalLattice vc dep v =>
      clock ← VectorClock_serialize vc [];
      keys ← py_iter (VRef dep);
      for_each keys (λ key, getattr_builtin multi_attrs "add_dependences") ;;
      vs ← py_iter (VRef v);
      for_each vs (λ v, getattr_builtin repeated_attrs "add") ;;
      mret (MultiKeyCausalValue clock [] [], LT_MULTI_CAUSAL)
  | _ => raise AttributeError
  end.

(** ** [PriorityLattice] *)

Definition PriorityLattice_init (priority value : pyval) : M heap loc :=
  match priority, value with
  | VFloat p, VBytes v => alloc (OPriorityLattice p v)
  | _, _ => raise ValueError
  end.

(** [bytes(value, 'utf-8')] raises [TypeError] unless [value] is a [str]; here
    it is called when [value] is not one. *)
Definition PriorityLattice_assign (self : loc) (value : pyval) : M heap unit :=
  value' ← match value with
           | VStr s => mret (VStr s)
           | _ => raise TypeError
           end;
  match value' with
  | VTuple vs =>
      v0 ← lift (py_nth vs 0);
      match v0 with
      | VFloat p =>
          v1 ← lift (py_nth vs 1);
          match v1 with
          | VBytes v => store self (OPriorityLattice p v)
          | _ => raise ValueError
          end
      | _ => raise ValueError
      end
  | _ => raise ValueError
  end.

(** [p < q] on floats. *)
Definition float_lt (p q : spec_float) : bool :=
  match num_of (VFloat p), num_of (VFloat q) with
  | Some a, Some b => num_lt a b
  | _, _ => false
  end.

Definition PriorityLattice_merge (self : loc) (other : pyval) : M heap pyval :=
  oo ← deref other;
  so ← deref (VRef self);
  match oo, so with
  | OPriorityLattice op _, OPriorityLattice sp _ =>
      if float_lt op sp then mret other else mret (VRef self)
  | _, _ => raise AttributeError
  end.

Definition PriorityLattice_serialize (self : loc) : M heap (pbmsg * LatticeType) :=
  o ← deref (VRef self);
  match o with
  | OPriorityLattice p v => mret (PriorityValue p v, LT_PRIORITY)
  | _ => raise AttributeError
  end.

(** ** Dispatch on the class *)

(** [self.merge(other)].  Only map lattices recurse into their entries. *)
Fixpoint Lattice_merge (fuel : nat) (self other : pyval) : M heap pyval :=
  match fuel with
  | O => out_of_fuel
  | S n =>
      o ← deref self;
      match self, o with
      | VRef l, OLWWPairLattice _ _ => LWWPairLattice_merge l other
      | VRef l, OSetLattice _ => SetLattice_merge l other
      | VRef l, OOrderedSetLattice _ => OrderedSetLattice_merge l other
      | VRef l, OMaxIntLattice _ => MaxIntLattice_merge l other
      | VRef l, (OMapLattice _ | OVectorClock _) => MapLattice_merge (Lattice_merge n) l other
      | VRef l, OSingleKeyCausalLattice _ _ =>
          SingleKeyCausalLattice_merge (Lattice_merge n) l other
      | VRef l, OMultiKeyCausalLattice _ _ _ =>
          MultiKeyCausalLattice_merge (Lattice_merge n) l other
      | VRef l, OPriorityLattice _ _ => PriorityLattice_merge l other
      | _, _ => raise AttributeError
      end
  end.

(** [self.assign(value)]. *)
Definition Lattice_assign (self : loc) (value : pyval) : M heap unit :=
  o ← deref (VRef self);
  match o with
  | OLWWPairLattice _ _ => LWWPairLattice_assign self value
  | OSetLattice _ => SetLattice_assign self value
  | OOrderedSetLattice _ => OrderedSetLattice_assign self value
  | OMaxIntLattice _ => MaxIntLattice_assign self value
  | OMapLattice _ => MapLattice_assign self value
  | OVectorClock _ => VectorClock_assign self value
  | OSingleKeyCausalLattice _ _ => SingleKeyCausalLattice_assign self value
  | OMultiKeyCausalLattice _ _ _ => MultiKeyCausalLattice_assign self value
  | OPriorityLattice _ _ => PriorityLattice_assign self value
  | OSet _ | ODict _ | OListBasedOrderedSet _ => raise AttributeError
  end.

(** [self.serialize()]: [MaxIntLattice] and [MapLattice] inherit the abstract
    method, [VectorClock.serialize] needs an argument. *)
Definition Lattice_serialize (self : loc) : M heap (pbmsg * LatticeType) :=
  o ← deref (VRef self);
  match o with
  | OLWWPairLattice _ _ => LWWPairLattice_serialize self
  | OSetLattice _ => SetLattice_serialize self
  | OOrderedSetLattice _ => OrderedSetLattice_serialize self
  | OMaxIntLattice _ | OMapLattice _ => raise NotImplementedError
  | OVectorClock _ => raise TypeError
  | OSingleKeyCausalLattice _ _ => SingleKeyCausalLattice_serialize self
  | OMultiKeyCausalLattice _ _ _ => MultiKeyCausalLattice_serialize self
  | OPriorityLattice _ _ => PriorityLattice_serialize self
  | OSet _ | ODict _ | OListBasedOrderedSet _ => raise AttributeError
  end.
