(* ===== verification/LatticeProps.v ===== *)
(** * Properties of the Anna lattices

    The theorems about [Lattices]: that every operation keeps the objects of
    the heap well formed, what each [merge] computes, the round trip of vector
    clocks, and the behaviour of the methods that cannot succeed. *)

From Stdlib Require Import SpecFloat.
From S2P Require Import Prelude Objects OrderedSet Lattices.

(** Runs heap statements whose objects are known from the context. *)
Ltac hrun :=
  rewrite /mbind /M_bind /mret /M_ret /get_state /lift /raise /deref /store /alloc /=;
  repeat match goal with
  | H : ?h !! ?l = Some _ |- context [?h !! ?l] => rewrite H /=
  | H : type_of ?h ?v = _ |- context [type_of ?h ?v] => rewrite H /=
  end.

Implicit Types (h : heap) (l : loc) (o : obj).

(** ** Well-formed heaps *)

(** A dict of [MaxIntLattice]s. *)
Definition clock_dict h l : Prop :=
  ∃ d, h !! l = Some (ODict d) ∧ Forall (λ kv, type_of h kv.2 = TMaxIntLattice) d.

(** What the constructors check of their arguments. *)
Definition wf_obj h o : Prop :=
  match o with
  | OSetLattice l => type_of h (VRef l) = TSet
  | OOrderedSetLattice l => type_of h (VRef l) = TListBasedOrderedSet
  | OMapLattice l => type_of h (VRef l) = TDict
  | OVectorClock l => clock_dict h l
  | OSingleKeyCausalLattice vc v =>
      type_of h (VRef vc) = TVectorClock ∧ type_of h (VRef v) = TSetLattice
  | OMultiKeyCausalLattice vc d v =>
      type_of h (VRef vc) = TVectorClock ∧ type_of h (VRef d) = TMapLattice ∧
      type_of h (VRef v) = TSetLattice
  | _ => True
  end.

Definition wf_heap h : Prop := ∀ l o, h !! l = Some o → wf_obj h o.

(** No object disappears or changes its class, and no dict its entries. *)
Definition extends h h' : Prop :=
  ∀ l o, h !! l = Some o →
    ∃ o', h' !! l = Some o' ∧ obj_type o' = obj_type o ∧ (obj_type o = TDict → o' = o).

#[global] Instance extends_preorder : PreOrder extends.
Proof.
  split.
  - intros h l o ?. by exists o.
  - intros h1 h2 h3 H12 H23 l o Ho. destruct (H12 l o Ho) as (o2 & Ho2 & Ht2 & Hd2).
    destruct (H23 l o2 Ho2) as (o3 & Ho3 & Ht3 & Hd3). exists o3. split; [done|].
    split; [by rewrite Ht3|]. intros Hd. rewrite Hd3; [by apply Hd2|by rewrite Ht2].
Qed.

Lemma type_of_ref h l t :
  type_of h (VRef l) = t → t ≠ TDangling → ∃ o, h !! l = Some o ∧ obj_type o = t.
Proof. rewrite /type_of. destruct (h !! l) as [o|]; naive_solver. Qed.

Lemma extends_type_of h h' v t :
  extends h h' → t ≠ TDangling → type_of h v = t → type_of h' v = t.
Proof.
  intros He Ht H. destruct v as [| | | | | | | |l| |]; try done.
  destruct (type_of_ref _ _ _ H Ht) as (o & Ho & <-).
  destruct (He l o Ho) as (o' & Ho' & Hto' & _). by rewrite /type_of Ho'.
Qed.

Lemma extends_type h h' l t :
  extends h h' → t ≠ TDangling → type_of h (VRef l) = t → type_of h' (VRef l) = t.
Proof. apply extends_type_of. Qed.

Lemma extends_clock h h' l : extends h h' → clock_dict h l → clock_dict h' l.
Proof.
  intros He (d & Hd & Hm). destruct (He l _ Hd) as (o' & Ho' & _ & Hsame).
  rewrite (Hsame eq_refl) in Ho'. exists d. split; [done|]. eapply Forall_impl; [exact Hm|]. intros kv. by apply extends_type_of.
Qed.

Lemma clock_is_dict h l : clock_dict h l → type_of h (VRef l) = TDict.
Proof. intros (d & Hd & _). by rewrite /type_of Hd. Qed.

Lemma wf_obj_extends h h' o : extends h h' → wf_obj h o → wf_obj h' o.
Proof.
  intros He. destruct o; simpl; try done; intros; destruct_and?;
    repeat split; by first [eapply extends_type|eapply extends_clock].
Qed.

Lemma extends_alloc h o : extends h (h ++ [o]).
Proof. intros l o' H. exists o'. eauto using heap_alloc_old. Qed.

Lemma extends_store h l o o' :
  h !! l = Some o → obj_type o' = obj_type o → obj_type o ≠ TDict → extends h (<[l:=o']> h).
Proof.
  intros Hl Ht Hd l2 o2 H2. destruct (decide (l = l2)) as [->|Hne].
  - exists o'. rewrite list_lookup_insert_eq; [|by eapply lookup_lt_Some].
    rewrite Hl in H2. injection H2 as <-. done.
  - exists o2. by rewrite list_lookup_insert_ne.
Qed.

Lemma wf_alloc h o : wf_heap h → wf_obj h o → wf_heap (h ++ [o]).
Proof.
  intros Hw Ho l o' [H|(? & H)]%lookup_app_Some.
  - eapply wf_obj_extends; [apply extends_alloc|by eapply Hw].
  - apply list_lookup_singleton_Some in H as [_ <-].
    eapply wf_obj_extends; [apply extends_alloc|done].
Qed.

Lemma wf_store h l o o' :
  wf_heap h → h !! l = Some o → obj_type o' = obj_type o → obj_type o ≠ TDict → wf_obj h o' →
  wf_heap (<[l:=o']> h).
Proof.
  intros Hw Hl Ht Hd Ho l2 o2 H2.
  eapply wf_obj_extends; [by eapply extends_store|].
  apply list_lookup_insert_Some in H2 as [(<- & <- & _)|[_ H2]]; [done|].
  by eapply Hw.
Qed.

(** [safe m h]: whatever [m] does from [h], the heap stays well formed and
    only grows. *)
Definition safe {A} (m : M heap A) h : Prop :=
  wf_heap h → wf_heap (m h).2 ∧ extends h (m h).2.

Lemma safe_bind {A B} (m : M heap A) (k : A → M heap B) h :
  safe m h → (∀ a h', m h = (Ret a, h') → extends h h' → safe (k a) h') →
  safe (m ≫= k) h.
Proof.
  intros Hm Hk Hw. destruct (Hm Hw) as [Hw1 He1].
  rewrite /mbind /M_bind. destruct (m h) as [[a|e| |] h1] eqn:E; try done.
  destruct (Hk a h1 eq_refl He1 Hw1) as [Hw2 He2]. split; [done|by trans h1].
Qed.

Lemma safe_pure {A} (m : M heap A) h : (m h).2 = h → safe m h.
Proof. intros Hm Hw. by rewrite Hm. Qed.

Lemma safe_alloc h o : wf_obj h o → safe (alloc o) h.
Proof. intros Ho Hw. split; [by apply wf_alloc|apply extends_alloc]. Qed.

Lemma safe_store h l o o' :
  h !! l = Some o → obj_type o' = obj_type o → obj_type o ≠ TDict → wf_obj h o' → safe (store l o') h.
Proof. intros Hl Ht Hd Ho Hw. split; [by eapply wf_store|by eapply extends_store]. Qed.

Lemma safe_for_each {A} (xs : list A) (f : A → M heap unit) h :
  (∀ x h', x ∈ xs → extends h h' → safe (f x) h') → safe (for_each xs f) h.
Proof.
  revert h. induction xs as [|x xs IH]; intros h Hf; [by apply safe_pure|].
  cbn. apply safe_bind; [apply Hf; [left|done]|].
  intros _ h' _ He. apply IH. intros y h'' Hy He'. apply Hf; [by right|by trans h'].
Qed.

Lemma safe_fold_each {A B} (xs : list A) (acc : B) (f : B → A → M heap B) h :
  (∀ x acc' h', x ∈ xs → extends h h' → safe (f acc' x) h') →
  safe (fold_each xs acc f) h.
Proof.
  revert h acc. induction xs as [|x xs IH]; intros h acc Hf; [by apply safe_pure|].
  cbn. apply safe_bind; [apply Hf; [left|done]|].
  intros a h' _ He. apply IH. intros y acc' h'' Hy He'. apply Hf; [by right|by trans h'].
Qed.

Lemma deref_pure v h : (deref v h).2 = h.
Proof. destruct v; simpl; try done. by case_match. Qed.

Lemma deref_inv v h o h' :
  deref v h = (Ret o, h') → h' = h ∧ ∃ l, v = VRef l ∧ h !! l = Some o.
Proof. destruct v; simpl; try done. case_match; naive_solver. Qed.

Lemma py_iter_pure v h : (py_iter v h).2 = h.
Proof. destruct v; simpl; try done. by repeat case_match. Qed.

Lemma Lattice_eq_pure v w h : (Lattice_eq v w h).2 = h.
Proof. done. Qed.

Lemma safe_raise {A} e h : safe (@raise heap A e) h.
Proof. by apply safe_pure. Qed.
Lemma safe_ret {A} (a : A) h : safe (mret a) h.
Proof. by apply safe_pure. Qed.
Lemma safe_get h : safe get_state h.
Proof. by apply safe_pure. Qed.
Lemma safe_lift {A} (x : outcome A) h : safe (lift x) h.
Proof. by apply safe_pure. Qed.
Lemma safe_fuel {A} h : safe (@out_of_fuel heap A) h.
Proof. by apply safe_pure. Qed.
Lemma safe_deref v h : safe (deref v) h.
Proof. apply safe_pure, deref_pure. Qed.
Lemma safe_iter v h : safe (py_iter v) h.
Proof. apply safe_pure, py_iter_pure. Qed.
Lemma safe_eq v w h : safe (Lattice_eq v w) h.
Proof. by apply safe_pure. Qed.
Lemma safe_getattr attrs name h : safe (@getattr_builtin heap attrs name) h.
Proof. apply safe_pure. rewrite /getattr_builtin. by case_bool_decide. Qed.

#[export] Hint Resolve safe_raise safe_ret safe_get safe_lift safe_fuel safe_deref
  safe_iter safe_eq safe_getattr : pymonad.

(** One step of a safety proof: take the next statement apart, or close it with
    a known safe statement. *)
Ltac safe_step :=
  match goal with
  | |- safe (_ ≫= _) _ => apply safe_bind; [|intros ? ? ? ?]
  | |- safe (for_each _ _) _ => apply safe_for_each; intros ? ? ? ?
  | |- safe (fold_each _ _ _) _ => apply safe_fold_each; intros ? ? ? ? ?
  | |- safe (if _ then _ else _) _ => case_match
  | |- safe (match _ with _ => _ end) _ => case_match
  | |- safe _ _ => solve [eauto with pymonad]
  end.

(** Reads what the equations of finished statements say. *)
Ltac sinv :=
  repeat match goal with
  | E : get_state _ = (Ret _, _) |- _ => injection E as E1 E2; subst
  | E : lift _ _ = (Ret _, _) |- _ => injection E as ? ?; subst
  | E : mret _ _ = (Ret _, _) |- _ => injection E as ? ?; subst
  | E : raise _ _ = (Ret _, _) |- _ => discriminate E
  | E : alloc _ _ = (Ret _, _) |- _ => injection E as ? ?; subst
  | E : store _ _ _ = (Ret _, _) |- _ => injection E as ? ?; subst
  | E : deref _ _ = (Ret _, _) |- _ =>
      apply deref_inv in E as (? & ? & ? & ?); simplify_eq
  end.

Ltac safe_go := repeat (safe_step; sinv; try done).

Lemma safe_with_wf {A} (m : M heap A) h : (wf_heap h → safe m h) → safe m h.
Proof. intros H Hw. by apply H. Qed.

Lemma safe_LWW_init t v h : safe (LWWPairLattice_init t v) h.
Proof. rewrite /LWWPairLattice_init. safe_go; by apply safe_alloc. Qed.

Lemma safe_LWW_merge l w h : safe (LWWPairLattice_merge l w) h.
Proof. rewrite /LWWPairLattice_merge. safe_go. Qed.

Lemma safe_Set_init v h : safe (SetLattice_init v) h.
Proof. rewrite /SetLattice_init. safe_go. by apply safe_alloc. Qed.

Lemma safe_set_val v h : safe (set_lattice_val v) h.
Proof. rewrite /set_lattice_val. safe_go. Qed.
#[export] Hint Resolve safe_set_val safe_Set_init : pymonad.

Lemma safe_Set_merge l w h : safe (SetLattice_merge l w) h.
Proof. rewrite /SetLattice_merge. safe_go. by apply safe_alloc. Qed.

Lemma safe_OrderedSet_init v h : safe (OrderedSetLattice_init v) h.
Proof. rewrite /OrderedSetLattice_init. safe_go. by apply safe_alloc. Qed.

Lemma safe_getattr_lst v h : safe (getattr_lst v) h.
Proof. rewrite /getattr_lst. safe_go. Qed.

Lemma safe_ordered_val v h : safe (ordered_set_val v) h.
Proof. rewrite /ordered_set_val. safe_go. Qed.
#[export] Hint Resolve safe_OrderedSet_init safe_getattr_lst safe_ordered_val : pymonad.

Lemma safe_ordered_insert l v h : safe (ordered_set_insert l v) h.
Proof.
  rewrite /ordered_set_insert /getattr_lst. apply safe_bind; [by safe_go|].
  intros xs h' E _. apply bind_ret_inv in E as (o & h1 & Ho & E). sinv.
  destruct o; sinv. safe_go. by eapply safe_store.
Qed.

Lemma safe_OrderedSet_merge l w h : safe (OrderedSetLattice_merge l w) h.
Proof.
  rewrite /OrderedSetLattice_merge /ordered_reveal /OrderedSetLattice_reveal.
  safe_go. by apply safe_alloc.
Qed.

Lemma safe_MaxInt_init v h : safe (MaxIntLattice_init v) h.
Proof. rewrite /MaxIntLattice_init. safe_go. by apply safe_alloc. Qed.

Lemma safe_MaxInt_merge l w h : safe (MaxIntLattice_merge l w) h.
Proof. rewrite /MaxIntLattice_merge. safe_go; by eapply safe_store. Qed.
#[export] Hint Resolve safe_MaxInt_init safe_MaxInt_merge safe_LWW_merge safe_Set_merge
  safe_OrderedSet_merge : pymonad.

Lemma safe_Map_init v h : safe (MapLattice_init v) h.
Proof. rewrite /MapLattice_init. safe_go. by apply safe_alloc. Qed.

Lemma safe_map_mp v h : safe (map_mp v) h.
Proof. rewrite /map_mp. safe_go. Qed.

Lemma safe_read_dict l h : safe (read_dict l) h.
Proof. rewrite /read_dict. safe_go. Qed.
#[export] Hint Resolve safe_Map_init safe_map_mp safe_read_dict : pymonad.

Lemma read_dict_inv l h d h' :
  read_dict l h = (Ret d, h') → h' = h ∧ h !! l = Some (ODict d).
Proof.
  rewrite /read_dict. intros (o & h1 & Ho & E)%bind_ret_inv. sinv.
  destruct o; sinv; naive_solver.
Qed.

(** The loop of [merge] never starts. *)
Lemma map_merge_pure merge l w h : (MapLattice_merge merge l w h).2 = h.
Proof.
  rewrite /MapLattice_merge. erewrite bind_ret by reflexivity. case_decide; [done|].
  rewrite /map_mp /mbind /M_bind. pose proof (deref_pure w h) as Hd.
  destruct (deref w h) as [[o|e| |] h']; simpl in Hd; subst h'; try done. by destruct o.
Qed.

Lemma safe_Map_merge merge l w h : safe (MapLattice_merge merge l w) h.
Proof. apply safe_pure, map_merge_pure. Qed.
#[export] Hint Resolve safe_Map_merge : pymonad.

Lemma safe_Map_copy l h : safe (MapLattice_copy l) h.
Proof. rewrite /MapLattice_copy. safe_go. by apply safe_alloc. Qed.

Lemma safe_vc_deserialize l h : safe (VectorClock_deserialize l) h.
Proof. rewrite /VectorClock_deserialize. safe_go. by apply safe_alloc. Qed.

Lemma safe_vc_validate l h : safe (VectorClock_validate_vc l) h.
Proof. rewrite /VectorClock_validate_vc. safe_go. Qed.
#[export] Hint Resolve safe_Map_copy safe_vc_deserialize safe_vc_validate : pymonad.

Lemma dset_Forall {V} (P : string * V → Prop) k v (d : list (string * V)) :
  Forall P d → (∀ k', P (k', v)) → Forall P (dset k v d).
Proof.
  intros Hd Hv. induction Hd as [|[k' v'] d Hk Hd IH]; cbn [dset]; [by constructor|].
  case_decide; by constructor.
Qed.

(** The entries that [_deserialize] makes. *)
Lemma deserialize_entries d acc h d' h' :
  fold_each d acc (λ acc (kv : string * pyval),
    match kv.2 with
    | VInt z => l ← MaxIntLattice_init (VInt z); mret (dset kv.1 (VRef l) acc)
    | _ => raise ValueError
    end) h = (Ret d', h') →
  Forall (λ kv, type_of h kv.2 = TMaxIntLattice) acc → Forall (λ kv, type_of h' kv.2 = TMaxIntLattice) d'.
Proof.
  revert acc h. induction d as [|[k v] d IH]; intros acc h E Hacc; cbn [fold_each] in E.
  { by injection E as <- <-. }
  apply bind_ret_inv in E as (acc' & h1 & E1 & E). destruct v; try done.
  injection E1 as <- <-. apply (IH _ _ E). apply dset_Forall.
  - eapply Forall_impl; [exact Hacc|]. intros kv. apply extends_type_of; [apply extends_alloc|done].
  - intros k'. rewrite /type_of /=. by rewrite heap_alloc_new.
Qed.

Lemma vc_deserialize_clock l h r h' : VectorClock_deserialize l h = (Ret r, h') → clock_dict h' r.
Proof.
  intros (d & h1 & _ & E)%bind_ret_inv. apply bind_ret_inv in E as (d' & h2 & Ef & E). sinv.
  exists d'. split; [apply heap_alloc_new|]. apply deserialize_entries in Ef; [|constructor].
  eapply Forall_impl; [exact Ef|]. intros kv. apply extends_type_of; [apply extends_alloc|done].
Qed.

(** What [_validate_vc] lets through. *)
Lemma vc_validate_clock l h h' : VectorClock_validate_vc l h = (Ret tt, h') → h' = h ∧ clock_dict h l.
Proof.
  intros (d & h1 & [-> Hd]%read_dict_inv & E)%bind_ret_inv.
  enough (h' = h ∧ Forall (λ kv, type_of h kv.2 = TMaxIntLattice) d) as [-> Hm] by (split; [done|by exists d]).
  clear Hd. revert E. induction d as [|kv d IH]; cbn [for_each]; intros E; [by injection E as <-|].
  apply bind_ret_inv in E as ([] & h1 & E1 & E). rewrite /mbind /M_bind /get_state in E1.
  case_decide as Ht; [done|]. injection E1 as <-. destruct (IH E) as [-> Hm]. split; [done|].
  constructor; [|done]. destruct (decide (type_of h kv.2 = TMaxIntLattice)); [done|by destruct Ht].
Qed.

Lemma safe_vc_init v b h : safe (VectorClock_init v b) h.
Proof.
  rewrite /VectorClock_init. safe_go.
  - apply safe_alloc. by eapply vc_deserialize_clock.
  - match goal with H : VectorClock_validate_vc _ _ = (Ret ?u, _) |- _ =>
      destruct u; apply vc_validate_clock in H as [-> Hc] end.
    by apply safe_alloc.
Qed.

Lemma safe_vc_update l k v h : safe (VectorClock_update l k v) h.
Proof. rewrite /VectorClock_update. safe_go. Qed.

Lemma safe_Single_init a b h : safe (SingleKeyCausalLattice_init a b) h.
Proof. rewrite /SingleKeyCausalLattice_init. safe_go. by apply safe_alloc. Qed.

Lemma safe_Multi_init a b c h : safe (MultiKeyCausalLattice_init a b c) h.
Proof. rewrite /MultiKeyCausalLattice_init. safe_go. by apply safe_alloc. Qed.

Lemma safe_Priority_init a b h : safe (PriorityLattice_init a b) h.
Proof. rewrite /PriorityLattice_init. safe_go. by apply safe_alloc. Qed.

Lemma safe_Priority_merge l w h : safe (PriorityLattice_merge l w) h.
Proof. rewrite /PriorityLattice_merge. safe_go. Qed.
#[export] Hint Resolve safe_Priority_merge safe_Priority_init safe_Single_init
  safe_Multi_init safe_vc_init safe_vc_update safe_LWW_init safe_ordered_insert : pymonad.

Lemma safe_Single_merge merge l w h :
  (∀ v w h', safe (merge v w) h') → safe (SingleKeyCausalLattice_merge merge l w) h.
Proof.
  intros Hm. apply safe_with_wf. intros Hw. rewrite /SingleKeyCausalLattice_merge. safe_go.
  match goal with
  | Hs : _ !! ?s = Some (OSingleKeyCausalLattice ?vc _),
    Ho : _ !! _ = Some (OSingleKeyCausalLattice _ ?ov)
    |- safe (store ?s (OSingleKeyCausalLattice ?vc ?ov)) ?h2 =>
      pose proof (Hw _ _ Hs) as [Hvc _]; pose proof (Hw _ _ Ho) as [_ Hov]
  end.
  match goal with
  | Hs : ?h0 !! ?s = Some _ |- safe (store ?s _) ?h2 =>
      assert (extends h0 h2) as He by (repeat (etrans; [|eassumption]); done);
      destruct (He s _ Hs) as (o' & Ho' & Ht' & _)
  end.
  eapply safe_store; [done|by rewrite Ht'|by rewrite Ht'|].
  split; by eapply extends_type.
Qed.

Lemma safe_Multi_merge merge l w h :
  (∀ v w h', safe (merge v w) h') → safe (MultiKeyCausalLattice_merge merge l w) h.
Proof.
  intros Hm. apply safe_with_wf. intros Hw. rewrite /MultiKeyCausalLattice_merge. safe_go.
  match goal with
  | Hs : _ !! ?s = Some (OMultiKeyCausalLattice ?vc _ _),
    Ho : _ !! _ = Some (OMultiKeyCausalLattice _ ?od ?ov)
    |- safe (store ?s (OMultiKeyCausalLattice ?vc ?od ?ov)) ?h2 =>
      pose proof (Hw _ _ Hs) as (Hvc & _ & _); pose proof (Hw _ _ Ho) as (_ & Hod & Hov)
  end.
  match goal with
  | Hs : ?h0 !! ?s = Some _ |- safe (store ?s _) ?h2 =>
      assert (extends h0 h2) as He by (repeat (etrans; [|eassumption]); done);
      destruct (He s _ Hs) as (o' & Ho' & Ht' & _)
  end.
  eapply safe_store; [done|by rewrite Ht'|by rewrite Ht'|].
  repeat split; by eapply extends_type.
Qed.
#[export] Hint Resolve safe_Single_merge safe_Multi_merge : pymonad.

Lemma safe_Lattice_merge fuel v w h : safe (Lattice_merge fuel v w) h.
Proof.
  revert v w h. induction fuel as [|n IH]; intros v w h; [by apply safe_pure|].
  cbn [Lattice_merge]. safe_go.
Qed.
#[export] Hint Resolve safe_Lattice_merge : pymonad.

Lemma safe_store_ext h0 h l o o' :
  extends h0 h → h0 !! l = Some o → obj_type o' = obj_type o → obj_type o ≠ TDict → wf_obj h o' →
  safe (store l o') h.
Proof.
  intros He Hl Ht Hd Ho. destruct (He l o Hl) as (o2 & H2 & Ht2 & _).
  eapply safe_store; [done|congruence|congruence|done].
Qed.

(** [assign] replaces the fields of [self] by values of the checked types. *)
Lemma safe_Lattice_assign l v h : safe (Lattice_assign l v) h.
Proof.
  apply safe_with_wf. intros Hw. rewrite /Lattice_assign. safe_step; [auto with pymonad|].
  sinv.
  match goal with H : _ !! _ = Some ?o |- _ => pose proof (Hw _ _ H) as Hwo; destruct o end;
  rewrite /LWWPairLattice_assign /SetLattice_assign /OrderedSetLattice_assign
    /MaxIntLattice_assign /MapLattice_assign /VectorClock_assign
    /SingleKeyCausalLattice_assign /MultiKeyCausalLattice_assign /PriorityLattice_assign;
  safe_go; simplify_eq; simpl in Hwo;
  try match goal with H : VectorClock_validate_vc _ _ = (Ret ?u, _) |- _ =>
        destruct u; apply vc_validate_clock in H as [-> Hc] end;
  first [eapply safe_store; [eassumption|done|done|]
        |eapply safe_store_ext; [eassumption|eassumption|done|done|]]; simpl; try done;
  destruct_and?; repeat split; try done; by eapply (extends_type _ _ _ TDict).
Qed.

(** The constructors of the module, by name. *)
Inductive constructor : Type :=
| CLWW (t v : pyval) | CSet (v : pyval) | COrderedSet (v : pyval) | CMaxInt (v : pyval)
| CMap (v : pyval) | CVectorClock (v : pyval) (deserialize : bool)
| CSingle (vc v : pyval) | CMulti (vc d v : pyval) | CPriority (p v : pyval).

Definition construct (c : constructor) : M heap loc :=
  match c with
  | CLWW t v => LWWPairLattice_init t v
  | CSet v => SetLattice_init v
  | COrderedSet v => OrderedSetLattice_init v
  | CMaxInt v => MaxIntLattice_init v
  | CMap v => MapLattice_init v
  | CVectorClock v b => VectorClock_init v b
  | CSingle vc v => SingleKeyCausalLattice_init vc v
  | CMulti vc d v => MultiKeyCausalLattice_init vc d v
  | CPriority p v => PriorityLattice_init p v
  end.

Lemma safe_construct c h : safe (construct c) h.
Proof. destruct c; simpl; auto with pymonad. Qed.

(** The heaps a program can reach by creating, merging, assigning and updating
    lattices in any order, whether the calls succeed or raise. *)
Inductive lattice_step : heap → heap → Prop :=
| step_set xs h : lattice_step h (alloc (OSet xs) h).2
| step_dict d h : lattice_step h (alloc (ODict d) h).2
| step_ordered xs h : lattice_step h (alloc (OListBasedOrderedSet xs) h).2
| step_construct c h : lattice_step h (construct c h).2
| step_merge fuel v w h : lattice_step h (Lattice_merge fuel v w h).2
| step_assign l v h : lattice_step h (Lattice_assign l v h).2
| step_insert l v h : lattice_step h (ordered_set_insert l v h).2
| step_update l k v h : lattice_step h (VectorClock_update l k v h).2.

Lemma lattice_step_safe h h' : lattice_step h h' → wf_heap h → wf_heap h' ∧ extends h h'.
Proof.
  destruct 1 as [xs h|d h|xs h|c h|fuel v w h|l v h|l v h|l k v h]; intros Hw.
  1-3: split; [by apply wf_alloc|apply extends_alloc].
  - by apply safe_construct.
  - by apply safe_Lattice_merge.
  - by apply safe_Lattice_assign.
  - by apply safe_ordered_insert.
  - by apply safe_vc_update.
Qed.

Lemma module_heap_wf : wf_heap module_heap.
Proof. intros [|[|l]] o ?; by simplify_eq/=. Qed.


(** A clock of one entry, then a set. *)
Definition clock_step : heap := (construct (CVectorClock (VRef 2) true) (alloc (ODict [("n"%string, VInt 3)]) module_heap).2).2.


(** ** Last-writer-wins pairs *)

(** The abstract last-writer-wins register: the pair with the later timestamp,
    the current one on a tie. *)
Definition lww_join (a b : Z * string) : Z * string := if Z.ltb a.1 b.1 then b else a.

Definition lww_at h l : option (Z * string) :=
  match h !! l with Some (OLWWPairLattice t v) => Some (t, v) | _ => None end.

Lemma lww_at_Some h l a : lww_at h l = Some a ↔ h !! l = Some (OLWWPairLattice a.1 a.2).
Proof.
  rewrite /lww_at. destruct a. split; [|by intros ->].
  intros. by repeat case_match; simplify_eq.
Qed.

Lemma lww_merge_run h a b x y :
  lww_at h a = Some x → lww_at h b = Some y →
  LWWPairLattice_merge a (VRef b) h = (Ret (VRef (if Z.ltb x.1 y.1 then b else a)), h).
Proof.
  intros Ha%lww_at_Some Hb%lww_at_Some. rewrite /LWWPairLattice_merge. hrun.
  by destruct (Z.ltb x.1 y.1).
Qed.

Lemma lattice_merge_lww n h a b x y :
  lww_at h a = Some x → lww_at h b = Some y →
  Lattice_merge (S n) (VRef a) (VRef b) h =
    (Ret (VRef (if Z.ltb x.1 y.1 then b else a)), h).
Proof.
  intros Ha Hb. cbn [Lattice_merge]. pose proof Ha as Ha'%lww_at_Some.
  erewrite bind_ret by (by apply deref_run). by apply lww_merge_run.
Qed.

(** Merging a sequence of replicas into the first one. *)
Definition merge_all (n : nat) (acc : pyval) (ls : list loc) : M heap pyval :=
  fold_each ls acc (λ a l, Lattice_merge n a (VRef l)).

Definition lww_ts h l : Z := match lww_at h l with Some a => a.1 | None => 0 end.

Lemma merge_all_lww n h a ls :
  Forall (λ l, is_Some (lww_at h l)) (a :: ls) →
  ∃ r, merge_all (S n) (VRef a) ls h = (Ret (VRef r), h) ∧ r ∈ a :: ls ∧
    (∀ l, l ∈ a :: ls → (lww_ts h l ≤ lww_ts h r)%Z).
Proof.
  revert a. induction ls as [|b ls IH]; intros a Hall.
  { exists a. split; [done|]. split; [left|].
    intros l ->%list_elem_of_singleton. lia. }
  apply Forall_cons in Hall as [[x Hx] Hall].
  pose proof Hall as [[y Hy] Hls]%Forall_cons.
  destruct (IH (if Z.ltb x.1 y.1 then b else a)) as (r & Hr & Hin & Hmax).
  { constructor; [|done]. case_match; by eexists. }
  exists r. split.
  { rewrite /merge_all /=. erewrite bind_ret by (by apply lattice_merge_lww). apply Hr. }
  split; [case_match; set_solver|].
  intros l Hl. destruct (Z.ltb_spec x.1 y.1) as [Hlt|Hge].
  - apply elem_of_cons in Hl as [->|Hl]; [|by apply Hmax].
    assert (lww_ts h b ≤ lww_ts h r)%Z as Hb by (apply Hmax; left).
    rewrite /lww_ts Hx Hy in Hb |- *. lia.
  - destruct (decide (l = b)) as [->|Hne]; [|apply Hmax; set_solver].
    assert (lww_ts h a ≤ lww_ts h r)%Z as Hb by (apply Hmax; left).
    rewrite /lww_ts Hx in Hb. rewrite {1}/lww_ts Hy. rewrite /lww_ts. lia.
Qed.

(** Also: [LWWPairLattice.merge] implements the last-writer-wins join: it changes
    nothing, returns one of the two instances itself, and that instance holds
    the pair with the later timestamp (the receiver's on a tie). *)
Theorem lww_merge_correct h a b x y :
  lww_at h a = Some x → lww_at h b = Some y →
  ∃ r, LWWPairLattice_merge a (VRef b) h = (Ret (VRef r), h) ∧
    (r = a ∨ r = b) ∧ lww_at h r = Some (lww_join x y).
Proof.
  intros Ha Hb. eexists. split; [by apply lww_merge_run|].
  rewrite /lww_join. destruct (Z.ltb x.1 y.1); auto.
Qed.

Definition two_lww : heap := [OLWWPairLattice 5 "a"; OLWWPairLattice 7 "b"].

Lemma lww_merge_correct_witness :
  ∃ r, LWWPairLattice_merge 0 (VRef 1) two_lww = (Ret (VRef r), two_lww) ∧
    (r = 0 ∨ r = 1) ∧ lww_at two_lww r = Some (7%Z, "b"%string).
Proof. exact (lww_merge_correct two_lww 0 1 (5%Z, "a"%string) (7%Z, "b"%string) eq_refl eq_refl). Defined.

(** C30: Replicas converge: when the timestamps of a set of last-writer-wins
    instances are pairwise different, merging them in any order, starting from
    any of them, returns the same instance, the one with the latest timestamp. *)
Theorem lww_convergence n h a ls b ls' :
  Forall (λ l, is_Some (lww_at h l)) (a :: ls) →
  NoDup (lww_ts h <$> a :: ls) →
  a :: ls ≡ₚ b :: ls' →
  ∃ r, merge_all (S n) (VRef a) ls h = (Ret (VRef r), h) ∧
    merge_all (S n) (VRef b) ls' h = (Ret (VRef r), h) ∧
    (∀ l, l ∈ a :: ls → (lww_ts h l ≤ lww_ts h r)%Z).
Proof.
  intros Hall Hnd Hperm.
  destruct (merge_all_lww n h a ls Hall) as (r & Hr & Hin & Hmax).
  destruct (merge_all_lww n h b ls') as (r' & Hr' & Hin' & Hmax').
  { by rewrite -Hperm. }
  exists r. split; [done|]. split; [|done].
  assert (r' = r) as ->; [|done].
  rewrite -Hperm in Hin'.
  assert (lww_ts h r' = lww_ts h r) as Heq.
  { apply Z.le_antisymm; [by apply Hmax|]. apply Hmax'. by rewrite -Hperm. }
  apply list_elem_of_lookup in Hin as [i Hi]. apply list_elem_of_lookup in Hin' as [j Hj].
  assert (i = j) as ->; [|congruence].
  eapply NoDup_lookup; [exact Hnd| |]; rewrite list_lookup_fmap ?Hi ?Hj; [done|].
  simpl. congruence.
Qed.

Lemma lww_convergence_witness :
  ∃ r, merge_all 1 (VRef 0) [1] two_lww = (Ret (VRef r), two_lww) ∧
    merge_all 1 (VRef 1) [0] two_lww = (Ret (VRef r), two_lww).
Proof.
  destruct (lww_convergence 0 two_lww 0 [1] 1 [0]) as (r & H1 & H2 & _).
  - repeat constructor; by eexists.
  - cbn. repeat constructor; set_solver.
  - apply Permutation_swap.
  - by exists r.
Defined.

(** ** Sets *)

(** Also: [SetLattice.merge] cannot merge: on two set lattices it returns (a new
    lattice over a new empty set) only when both sets are empty; as soon as
    either has an element, [new_set.insert] raises [AttributeError], because
    a Python set has no such method. *)
Theorem set_merge_only_empty h a b sa sb xs ys :
  h !! a = Some (OSetLattice sa) → h !! sa = Some (OSet xs) →
  h !! b = Some (OSetLattice sb) → h !! sb = Some (OSet ys) →
  SetLattice_merge a (VRef b) h =
    match xs, ys with
    | [], [] => (Ret (VRef (S (length h))), h ++ [OSet []; OSetLattice (length h)])
    | _, _ => (Raise AttributeError, h ++ [OSet []])
    end.
Proof.
  intros Ha Hsa Hb Hsb. rewrite /SetLattice_merge /set_lattice_val /py_iter. hrun.
  rewrite !(heap_alloc_old _ _ _ _ Hb) !(heap_alloc_old _ _ _ _ Hsb) /=.
  destruct ys as [|y ys]; [|by destruct xs]. hrun.
  rewrite !(heap_alloc_old _ _ _ _ Ha) !(heap_alloc_old _ _ _ _ Hsa) /=.
  destruct xs as [|x xs]; [|done]. cbn. rewrite /SetLattice_init /=. hrun.
  rewrite heap_alloc_new /= length_app /= -app_assoc Nat.add_1_r //.
Qed.

Lemma set_merge_only_empty_witness :
  SetLattice_merge 0 (VRef 1) [OSetLattice 2; OSetLattice 3; OSet []; OSet [VBytes "x"]] =
  (Raise AttributeError, [OSetLattice 2; OSetLattice 3; OSet []; OSet [VBytes "x"]; OSet []]).
Proof.
  exact (set_merge_only_empty [OSetLattice 2; OSetLattice 3; OSet []; OSet [VBytes "x"]]
           0 1 2 3 [] [VBytes "x"] eq_refl eq_refl eq_refl eq_refl).
Defined.

(** Also: [OrderedSetLattice.merge] never merges: [other.reveal()] is already the
    list, so reading [.lst] from it raises [AttributeError] before the lockstep
    loop starts, and the heap is unchanged. *)
Theorem ordered_set_merge_raises h a b s xs :
  h !! b = Some (OOrderedSetLattice s) → h !! s = Some (OListBasedOrderedSet xs) →
  OrderedSetLattice_merge a (VRef b) h = (Raise AttributeError, h).
Proof.
  intros Hb Hs. rewrite /OrderedSetLattice_merge /ordered_reveal
    /OrderedSetLattice_reveal /ordered_set_val /getattr_lst. by hrun.
Qed.

Lemma ordered_set_merge_raises_witness :
  OrderedSetLattice_merge 0 (VRef 0) [OOrderedSetLattice 1; OListBasedOrderedSet []] =
  (Raise AttributeError, [OOrderedSetLattice 1; OListBasedOrderedSet []]).
Proof. exact (ordered_set_merge_raises [OOrderedSetLattice 1; OListBasedOrderedSet []] 0 0 1 [] eq_refl eq_refl). Defined.

(** Also: The default argument of [OrderedSetLattice] is one shared object: two
    lattices created without an argument alias it, and inserting a value
    through the first makes the second reveal it. *)
Theorem default_ordered_set_shared x :
  (a ← OrderedSetLattice_init_default;
   b ← OrderedSetLattice_init_default;
   s ← ordered_set_val (VRef a);
   match s with VRef l => ordered_set_insert l x | _ => raise TypeError end ;;
   OrderedSetLattice_reveal b) module_heap
  = (Ret (VList [x]),
     [OSet []; OListBasedOrderedSet [x]; OOrderedSetLattice 1; OOrderedSetLattice 1]).
Proof. done. Qed.

(** ** Counters and vector clocks *)

Lemma maxint_merge_run h a b x y :
  h !! a = Some (OMaxIntLattice x) → h !! b = Some (OMaxIntLattice y) →
  MaxIntLattice_merge a (VRef b) h = (Ret VNone, <[a:=OMaxIntLattice (Z.max x y)]> h).
Proof.
  intros Ha Hb. rewrite /MaxIntLattice_merge. hrun.
  destruct (Z.ltb_spec x y) as [Hlt|Hge]; simpl.
  - by rewrite Z.max_r; [|lia].
  - rewrite Z.max_l; [|lia]. by rewrite list_insert_id.
Qed.

(** Also: [MaxIntLattice.merge] stores the maximum in the receiver, returns
    [None] and touches nothing else; any other class of argument raises
    [ValueError] and changes nothing. *)
Theorem maxint_merge_correct h a x w :
  h !! a = Some (OMaxIntLattice x) →
  MaxIntLattice_merge a w h =
    match w with
    | VRef b => match h !! b with
                | Some (OMaxIntLattice y) =>
                    (Ret VNone, <[a:=OMaxIntLattice (Z.max x y)]> h)
                | _ => (Raise ValueError, h)
                end
    | _ => (Raise ValueError, h)
    end.
Proof.
  intros Ha. destruct w as [| | | | | | | |b| |]; try done.
  destruct (h !! b) as [[]|] eqn:Hb; [..|by rewrite /MaxIntLattice_merge; hrun; rewrite Hb].
  all: try (by apply maxint_merge_run).
  all: by rewrite /MaxIntLattice_merge; hrun.
Qed.

Lemma maxint_merge_correct_witness :
  MaxIntLattice_merge 0 (VRef 1) [OMaxIntLattice 3; OMaxIntLattice 9] =
  (Ret VNone, [OMaxIntLattice 9; OMaxIntLattice 9]).
Proof. exact (maxint_merge_correct [OMaxIntLattice 3; OMaxIntLattice 9] 0 3 (VRef 1) eq_refl). Defined.

Lemma map_merge_not_map merge h a w :
  type_of h w ≠ TMapLattice → MapLattice_merge merge a w h = (Raise ValueError, h).
Proof. intros H. rewrite /MapLattice_merge /mbind /M_bind /get_state. by rewrite decide_True. Qed.

(** Also: [MapLattice.merge], which [VectorClock] inherits, never merges: an
    argument of any class but [MapLattice] (a [VectorClock] included) raises
    [ValueError], and a [MapLattice] argument raises [TypeError] because the
    loop iterates over the method [keys] instead of calling it.  The heap is
    unchanged in both cases. *)
Theorem map_merge_raises merge h a w :
  wf_heap h →
  MapLattice_merge merge a w h =
    (Raise (if decide (type_of h w = TMapLattice) then TypeError else ValueError), h).
Proof.
  intros Hw. rewrite /MapLattice_merge. hrun.
  destruct (decide (type_of h w ≠ TMapLattice)) as [Hne|He].
  - by rewrite decide_False.
  - apply dec_stable in He. rewrite decide_True //. destruct w; try done.
    destruct (type_of_ref _ _ _ He) as (o & Ho & Ht); [done|].
    destruct o; try done. rewrite /map_mp. by hrun.
Qed.

Lemma map_merge_raises_witness :
  MapLattice_merge (Lattice_merge 5) 0 (VRef 2)
    [OVectorClock 1; ODict []; OVectorClock 1] =
  (Raise ValueError, [OVectorClock 1; ODict []; OVectorClock 1]).
Proof.
  apply (map_merge_raises (Lattice_merge 5) [OVectorClock 1; ODict []; OVectorClock 1] 0 (VRef 2)).
  intros [|[|[|l]]] o ?; simplify_eq/=; try done; by exists [].
Defined.

(** Also: So causal lattices never merge either: in a well-formed heap
    [SingleKeyCausalLattice.merge] and [MultiKeyCausalLattice.merge] raise
    [ValueError] from the merge of the clocks, and every object that existed
    before is untouched (only the copy of the clock was added). *)
Theorem causal_merge_raises merge h a b :
  wf_heap h →
  (type_of h (VRef a) = TSingleKeyCausalLattice →
   type_of h (VRef b) = TSingleKeyCausalLattice →
   ∃ junk, SingleKeyCausalLattice_merge merge a (VRef b) h = (Raise ValueError, h ++ junk)) ∧
  (type_of h (VRef a) = TMultiKeyCausalLattice →
   type_of h (VRef b) = TMultiKeyCausalLattice →
   ∃ junk, MultiKeyCausalLattice_merge merge a (VRef b) h = (Raise ValueError, h ++ junk)).
Proof.
  intros Hw.
  assert (∀ vc ovc, type_of h (VRef vc) = TVectorClock → type_of h (VRef ovc) = TVectorClock →
    ∃ p d, MapLattice_copy vc h = (Ret p, h ++ [ODict d; OMapLattice (length h)]) ∧
      type_of (h ++ [ODict d; OMapLattice (length h)]) (VRef ovc) = TVectorClock) as Hcopy.
  { intros vc ovc Hvc Hovc.
    destruct (type_of_ref _ _ _ Hvc) as (o & Ho & Ht); [done|]. destruct o as [| | | | | | | |m| | |]; try done.
    pose proof (clock_is_dict _ _ (Hw _ _ Ho)) as Hm.
    destruct (type_of_ref h m TDict) as (o2 & Ho2 & Ht2); [done..|]. destruct o2 as [|d| | | | | | | | | |]; try done.
    exists (S (length h)), d. rewrite /MapLattice_copy /map_mp /read_dict. hrun.
    rewrite /MapLattice_init /=. hrun. rewrite heap_alloc_new /= length_app /= -app_assoc Nat.add_1_r.
    split; [done|]. eapply (extends_type h); [|done|done].
    intros l o Hl. exists o. split; [|done]. by apply lookup_app_l_Some. }
  split; intros Ha Hb.
  - destruct (type_of_ref _ _ _ Ha) as (oa & Hoa & Hta); [done|].
    destruct (type_of_ref _ _ _ Hb) as (ob & Hob & Htb); [done|].
    destruct oa as [| | | | | | | | |vc v| |]; try done.
    destruct ob as [| | | | | | | | |ovc ov| |]; try done.
    pose proof (Hw _ _ Hoa) as [Hvc _]. pose proof (Hw _ _ Hob) as [Hovc _].
    destruct (Hcopy vc ovc) as (p & d & Hc & Hty); [done..|].
    exists [ODict d; OMapLattice (length h)]. rewrite /SingleKeyCausalLattice_merge. hrun.
    rewrite Hc map_merge_not_map //. by rewrite Hty.
  - destruct (type_of_ref _ _ _ Ha) as (oa & Hoa & Hta); [done|].
    destruct (type_of_ref _ _ _ Hb) as (ob & Hob & Htb); [done|].
    destruct oa as [| | | | | | | | | |vc dep v|]; try done.
    destruct ob as [| | | | | | | | | |ovc odep ov|]; try done.
    pose proof (Hw _ _ Hoa) as [Hvc _]. pose proof (Hw _ _ Hob) as [Hovc _].
    destruct (Hcopy vc ovc) as (p & d & Hc & Hty); [done..|].
    exists [ODict d; OMapLattice (length h)]. rewrite /MultiKeyCausalLattice_merge. hrun.
    rewrite Hc map_merge_not_map //. by rewrite Hty.
Qed.

Definition causal_heap : heap :=
  [OSingleKeyCausalLattice 1 3; OVectorClock 2; ODict []; OSetLattice 4; OSet []].

Lemma causal_heap_wf : wf_heap causal_heap.
Proof. intros [|[|[|[|[|l]]]]] o ?; simplify_eq/=; try done. by exists []. Qed.

Lemma causal_merge_raises_witness :
  ∃ junk, SingleKeyCausalLattice_merge (Lattice_merge 5) 0 (VRef 0) causal_heap =
    (Raise ValueError, causal_heap ++ junk).
Proof.
  apply (causal_merge_raises (Lattice_merge 5) causal_heap 0 0 causal_heap_wf); reflexivity.
Defined.

Lemma recursion_limit_S : ∃ n, recursion_limit = S n.
Proof. by exists 999. Qed.

Lemma py_eq_other_class n h a b oa ob :
  h !! a = Some oa → h !! b = Some ob →
  is_lattice_type (obj_type oa) = true → obj_type oa ≠ obj_type ob →
  py_eq (S n) h (VRef a) (VRef b) = Ret false.
Proof.
  intros Ha Hb Hl Hne. unfold py_eq; fold py_eq. rewrite Ha Hb.
  destruct oa, ob; try done.
Qed.

(** Also: The third branch of the causal merges ("this version dominates") is
    unreachable: [copy] of a [VectorClock] is a [MapLattice], and lattices of
    different classes are never equal, so [self.vector_clock != previous]
    always holds. *)
Theorem clock_copy_differs h vc m d :
  h !! vc = Some (OVectorClock m) → h !! m = Some (ODict d) →
  ∃ p h', MapLattice_copy vc h = (Ret p, h') ∧
    Lattice_eq (VRef vc) (VRef p) h' = (Ret false, h').
Proof.
  intros Hvc Hm. rewrite /MapLattice_copy /map_mp /read_dict. hrun.
  rewrite /MapLattice_init /=. hrun. rewrite heap_alloc_new /=.
  do 2 eexists. split; [done|]. rewrite /Lattice_eq. f_equal.
  destruct recursion_limit_S as [n ->].
  eapply py_eq_other_class; [by do 2 eapply heap_alloc_old|apply heap_alloc_new|done|done].
Qed.

Lemma clock_copy_differs_witness :
  ∃ p h', MapLattice_copy 0 [OVectorClock 1; ODict []] = (Ret p, h') ∧
    Lattice_eq (VRef 0) (VRef p) h' = (Ret false, h').
Proof. exact (clock_copy_differs [OVectorClock 1; ODict []] 0 1 [] eq_refl eq_refl). Defined.

(** *** The loop body of [MapLattice.merge] on clocks *)

Lemma read_dict_run h l d : h !! l = Some (ODict d) → read_dict l h = (Ret d, h).
Proof. intros H. rewrite /read_dict. by hrun. Qed.

Lemma lattice_merge_maxint n h a b x y :
  h !! a = Some (OMaxIntLattice x) → h !! b = Some (OMaxIntLattice y) →
  Lattice_merge (S n) (VRef a) (VRef b) h =
    (Ret VNone, <[a:=OMaxIntLattice (Z.max x y)]> h).
Proof.
  intros Ha Hb. cbn [Lattice_merge].
  erewrite bind_ret by (by apply deref_run). by apply maxint_merge_run.
Qed.

Lemma merge_key_present n h smp omp sd od key c c' x y :
  h !! smp = Some (ODict sd) → h !! omp = Some (ODict od) →
  dget key sd = Some (VRef c) → dget key od = Some (VRef c') →
  h !! c = Some (OMaxIntLattice x) → h !! c' = Some (OMaxIntLattice y) →
  MapLattice_merge_key (Lattice_merge (S n)) smp omp key h =
    (Ret tt, <[c:=OMaxIntLattice (Z.max x y)]> h).
Proof.
  intros Hs Ho Hsk Hok Hc Hc'. rewrite /MapLattice_merge_key.
  rewrite (bind_ret _ _ _ _ _ (read_dict_run _ _ _ Hs)).
  rewrite (bind_ret _ _ _ _ _ (read_dict_run _ _ _ Ho)).
  rewrite /py_getitem Hok Hsk.
  rewrite (bind_ret (lift _) _ h _ h eq_refl) (bind_ret get_state _ h _ h eq_refl).
  rewrite /isinstance_Lattice /type_of Hc Hc'. cbn [obj_type is_lattice_type negb orb].
  by rewrite (bind_ret _ _ _ _ _ (lattice_merge_maxint _ _ _ _ _ _ Hc Hc')).
Qed.

Lemma merge_key_absent merge h smp omp sd od key v :
  h !! smp = Some (ODict sd) → h !! omp = Some (ODict od) →
  dget key sd = None → dget key od = Some v →
  MapLattice_merge_key merge smp omp key h = (Ret tt, <[smp:=ODict (dset key v sd)]> h).
Proof.
  intros Hs Ho Hsk Hok. rewrite /MapLattice_merge_key.
  rewrite (bind_ret _ _ _ _ _ (read_dict_run _ _ _ Hs)).
  rewrite (bind_ret _ _ _ _ _ (read_dict_run _ _ _ Ho)).
  by rewrite /py_getitem Hok Hsk.
Qed.

(** The counter a clock dictionary holds for a key. *)
Definition counter h (d : list (string * pyval)) (key : string) : option Z :=
  match dget key d with
  | Some (VRef c) => match h !! c with Some (OMaxIntLattice z) => Some z | _ => None end
  | _ => None
  end.

(** Also: For one key, the loop body of [MapLattice.merge] joins two clocks as a
    vector clock should: if both clocks have the key, the receiver's counter
    becomes the maximum; if only the other clock has it, the receiver gets its
    counter.  The receiver's other keys keep their place and reference. *)
Theorem merge_key_joins n h smp omp sd od key y :
  smp ≠ omp →
  h !! smp = Some (ODict sd) → h !! omp = Some (ODict od) →
  counter h od key = Some y →
  (∀ v, dget key sd = Some v → is_Some (counter h sd key)) →
  ∃ h' sd', MapLattice_merge_key (Lattice_merge (S n)) smp omp key h = (Ret tt, h') ∧
    h' !! smp = Some (ODict sd') ∧
    counter h' sd' key = Some (match counter h sd key with
                               | Some x => Z.max x y | None => y end) ∧
    (∀ k, k ≠ key → dget k sd' = dget k sd).
Proof.
  intros Hne Hs Ho Hy Hwf. rewrite /counter in Hy.
  destruct (dget key od) as [[| | | | | | | |c'| |]|] eqn:Hok; try done.
  destruct (h !! c') as [[]|] eqn:Hc'; simplify_eq.
  destruct (dget key sd) as [sv|] eqn:Hsk.
  - destruct (Hwf sv eq_refl) as [x Hx]. rewrite /counter Hsk in Hx |- *.
    destruct sv as [| | | | | | | |c| |]; try done.
    destruct (h !! c) as [[]|] eqn:Hc; simplify_eq.
    exists (<[c:=OMaxIntLattice (Z.max x y)]> h), sd.
    split; [by eapply merge_key_present|].
    assert (c ≠ smp) by congruence.
    split; [by rewrite list_lookup_insert_ne|]. split; [|done].
    rewrite Hsk list_lookup_insert_eq; [done|by eapply lookup_lt_Some].
  - exists (<[smp:=ODict (dset key (VRef c') sd)]> h), (dset key (VRef c') sd).
    split; [by eapply merge_key_absent|].
    split; [rewrite list_lookup_insert_eq; [done|by eapply lookup_lt_Some]|].
    split; [|intros; by apply dget_dset_ne].
    assert (c' ≠ smp) by congruence.
    rewrite /counter dget_dset_eq Hsk list_lookup_insert_ne // Hc' //.
Qed.

Definition two_clocks : heap :=
  [ODict [("a"%string, VRef 2)]; ODict [("a"%string, VRef 3)]; OMaxIntLattice 4; OMaxIntLattice 6].

Lemma merge_key_joins_witness :
  ∃ h' sd', MapLattice_merge_key (Lattice_merge 1) 0 1 "a" two_clocks = (Ret tt, h') ∧
    h' !! 0 = Some (ODict sd') ∧ counter h' sd' "a" = Some 6%Z.
Proof.
  destruct (merge_key_joins 0 two_clocks 0 1 [("a"%string, VRef 2)] [("a"%string, VRef 3)] "a" 6)
    as (h' & sd' & H1 & H2 & H3 & _); try reflexivity; [done|by eexists|].
  by exists h', sd'.
Defined.

(** Also: The same loop body stores the other clock's counter object itself, so a
    key that only the other clock had is shared afterwards: a later [update]
    of the other clock also changes the receiver. *)
Theorem merge_key_aliases merge h self other smp omp sd od key c y count :
  smp ≠ omp →
  h !! self = Some (OVectorClock smp) → h !! other = Some (OVectorClock omp) →
  h !! smp = Some (ODict sd) → h !! omp = Some (ODict od) →
  dget key sd = None → dget key od = Some (VRef c) → h !! c = Some (OMaxIntLattice y) →
  ∃ h', (MapLattice_merge_key merge smp omp key ;;
         VectorClock_update other key (VInt count)) h = (Ret tt, h') ∧
    h' !! smp = Some (ODict (dset key (VRef c) sd)) ∧
    counter h' (dset key (VRef c) sd) key = Some (Z.max y count).
Proof.
  intros Hne Hself Hother Hs Ho Hsk Hok Hc.
  rewrite (bind_ret _ _ _ _ _ (merge_key_absent _ _ _ _ _ _ _ _ Hs Ho Hsk Hok)).
  set (h1 := <[smp:=ODict (dset key (VRef c) sd)]> h).
  assert (h1 !! other = Some (OVectorClock omp)) as Ho1.
  { subst h1. rewrite list_lookup_insert_ne; [done|congruence]. }
  assert (h1 !! omp = Some (ODict od)) as Hd1 by (subst h1; by rewrite list_lookup_insert_ne).
  assert (h1 !! c = Some (OMaxIntLattice y)) as Hc1.
  { subst h1. rewrite list_lookup_insert_ne; [done|congruence]. }
  assert (h1 !! smp = Some (ODict (dset key (VRef c) sd))) as Hs1.
  { subst h1. rewrite list_lookup_insert_eq; [done|by eapply lookup_lt_Some]. }
  clearbody h1. rewrite /VectorClock_update /map_mp /read_dict. hrun. rewrite Hok. hrun.
  rewrite (maxint_merge_run _ _ _ y count); [|by apply heap_alloc_old|apply heap_alloc_new].
  eexists. split; [done|].
  assert (c ≠ smp) by congruence.
  rewrite list_lookup_insert_ne //. split; [by apply heap_alloc_old|].
  rewrite /counter dget_dset_eq list_lookup_insert_eq; [done|].
  eapply lookup_lt_Some. by apply heap_alloc_old.
Qed.

Definition alias_heap : heap :=
  [OVectorClock 2; OVectorClock 3; ODict []; ODict [("a"%string, VRef 4)]; OMaxIntLattice 1].

Lemma merge_key_aliases_witness :
  ∃ h', (MapLattice_merge_key (Lattice_merge 1) 2 3 "a" ;;
         VectorClock_update 1 "a" (VInt 8)) alias_heap = (Ret tt, h') ∧
    h' !! 2 = Some (ODict [("a"%string, VRef 4)]) ∧
    counter h' [("a"%string, VRef 4)] "a" = Some 8%Z.
Proof.
  exact (merge_key_aliases (Lattice_merge 1) alias_heap 0 1 2 3 [] [("a"%string, VRef 4)] "a" 4 1 8
           ltac:(done) eq_refl eq_refl eq_refl eq_refl eq_refl eq_refl eq_refl).
Defined.

(** Also: [VectorClock.update] raises the counter of a present key to the count if
    that is larger, and does nothing for a key the clock does not have. *)
Theorem vc_update_correct h self mp d key count :
  h !! self = Some (OVectorClock mp) → h !! mp = Some (ODict d) →
  (∀ v, dget key d = Some v → is_Some (counter h d key)) →
  ∃ h', VectorClock_update self key (VInt count) h = (Ret tt, h') ∧
    h' !! mp = Some (ODict d) ∧
    counter h' d key = (λ x, Z.max x count) <$> counter h d key ∧
    (dget key d = None → h' = h).
Proof.
  intros Hs Hm Hwf. rewrite /VectorClock_update /map_mp /read_dict. hrun.
  destruct (dget key d) as [v|] eqn:Hk; last first.
  { exists h. rewrite /counter Hk. done. }
  destruct (Hwf v eq_refl) as [x Hx]. rewrite /counter Hk in Hx.
  destruct v as [| | | | | | | |c| |]; try done.
  destruct (h !! c) as [[]|] eqn:Hc; simplify_eq. hrun.
  rewrite (maxint_merge_run _ _ _ x count); [|by apply heap_alloc_old|apply heap_alloc_new].
  eexists. split; [done|]. assert (c ≠ mp) by congruence.
  split; [rewrite list_lookup_insert_ne //; by apply heap_alloc_old|]. split; [|done].
  rewrite /counter Hk Hc list_lookup_insert_eq //.
  eapply lookup_lt_Some. by apply heap_alloc_old.
Qed.

Lemma vc_update_correct_witness :
  ∃ h', VectorClock_update 1 "a" (VInt 8) alias_heap = (Ret tt, h') ∧
    h' !! 3 = Some (ODict [("a"%string, VRef 4)]) ∧
    counter h' [("a"%string, VRef 4)] "a" = Some 8%Z.
Proof.
  destruct (vc_update_correct alias_heap 1 3 [("a"%string, VRef 4)] "a" 8) as (h' & H1 & H2 & H3 & _);
    [reflexivity|reflexivity|by eexists|]. by exists h'.
Defined.

(** *** Round trip of vector clocks *)

Definition int_entries (dz : list (string * Z)) : list (string * pyval) :=
  (λ kz, (kz.1, VInt kz.2)) <$> dz.
Definition ref_entries (n : nat) (dz : list (string * Z)) : list (string * pyval) :=
  imap (λ i kz, (kz.1, VRef (n + i))) dz.

Lemma ref_entries_cons n k z dz :
  ref_entries n ((k, z) :: dz) = (k, VRef n) :: ref_entries (S n) dz.
Proof.
  rewrite /ref_entries imap_cons /= Nat.add_0_r. f_equal.
  apply imap_ext. intros i x _. by rewrite /= Nat.add_succ_r.
Qed.

Lemma vc_deserialize_loop dz acc h :
  NoDup (acc.*1 ++ dz.*1) →
  fold_each (int_entries dz) acc (λ acc kv,
    match kv.2 with
    | VInt z => l ← MaxIntLattice_init (VInt z); mret (dset kv.1 (VRef l) acc)
    | _ => raise ValueError
    end) h =
  (Ret (acc ++ ref_entries (length h) dz), h ++ (OMaxIntLattice <$> dz.*2)).
Proof.
  revert acc h. induction dz as [|[k z] dz IH]; intros acc h Hnd.
  { by rewrite /= !app_nil_r. }
  rewrite ref_entries_cons. cbn [int_entries fmap list_fmap fold_each].
  erewrite bind_ret by done. cbn [fst snd].
  assert (k ∉ acc.*1) as Hk.
  { apply NoDup_app in Hnd as (_ & Hd & _). intros Hin. apply (Hd k Hin). left. }
  rewrite dset_new //. rewrite IH.
  - rewrite length_app /= Nat.add_1_r -!app_assoc //.
  - rewrite fmap_app /= -app_assoc //.
Qed.

Lemma vc_serialize_loop n dz acc h :
  NoDup (acc.*1 ++ dz.*1) → Forall (λ kz, 0 ≤ kz.2 < 2 ^ 32)%Z dz →
  (∀ i kz, dz !! i = Some kz → h !! (n + i) = Some (OMaxIntLattice kz.2)) →
  fold_each (ref_entries n dz) acc (λ acc kv,
    match kv.2 with
    | VRef c =>
        v ← MaxIntLattice_reveal c;
        match v with
        | VInt z => u ← lift (pb_uint 32 z); mret (dset kv.1 u acc)
        | _ => raise TypeError
        end
    | _ => raise AttributeError
    end) h = (Ret (acc ++ dz), h).
Proof.
  revert n acc. induction dz as [|[k z] dz IH]; intros n acc Hnd Hr Hh.
  { by rewrite /= app_nil_r. }
  rewrite ref_entries_cons. cbn [fold_each].
  pose proof (Hh 0 (k, z) eq_refl) as H0. rewrite Nat.add_0_r in H0.
  apply Forall_cons in Hr as [Hz Hr]. cbn [fst snd] in *.
  erewrite bind_ret; last first.
  { rewrite /MaxIntLattice_reveal. hrun. rewrite /pb_uint bool_decide_true //. }
  assert (k ∉ acc.*1) as Hk.
  { apply NoDup_app in Hnd as (_ & Hd & _). intros Hin. apply (Hd k Hin). left. }
  rewrite dset_new // IH.
  - by rewrite -app_assoc.
  - by rewrite fmap_app /= -app_assoc.
  - done.
  - intros i kz Hi. specialize (Hh (S i) kz Hi). by rewrite Nat.add_succ_r in Hh.
Qed.

Lemma clock_roundtrip_run h l dz :
  h !! l = Some (ODict (int_entries dz)) → NoDup dz.*1 →
  Forall (λ kz, 0 ≤ kz.2 < 2 ^ 32)%Z dz →
  ∃ c h', VectorClock_init (VRef l) true h = (Ret c, h') ∧
    VectorClock_serialize c [] h' = (Ret dz, h') ∧ prefix h h'.
Proof.
  intros Hl Hnd Hr.
  set (h1 := h ++ (OMaxIntLattice <$> dz.*2)).
  set (h2 := h1 ++ [ODict (ref_entries (length h) dz)]).
  exists (length h2), (h2 ++ [OVectorClock (length h1)]). split; [|split].
  - rewrite /VectorClock_init (bind_ret get_state _ h _ h eq_refl).
    rewrite decide_True; [|by rewrite /type_of Hl].
    erewrite bind_ret; [done|]. rewrite /VectorClock_deserialize.
    rewrite (bind_ret _ _ _ _ _ (read_dict_run _ _ _ Hl)).
    erewrite bind_ret by (by apply vc_deserialize_loop). done.
  - rewrite /VectorClock_serialize.
    erewrite bind_ret; last first.
    { rewrite /map_mp. erewrite bind_ret by (apply deref_run, heap_alloc_new). done. }
    erewrite bind_ret; last first.
    { apply read_dict_run, heap_alloc_old. apply heap_alloc_new. }
    rewrite (vc_serialize_loop _ dz []) //.
    intros i kz Hi. do 2 apply heap_alloc_old. subst h1.
    rewrite lookup_app_r; [|lia]. rewrite Nat.add_comm Nat.add_sub.
    by rewrite !list_lookup_fmap Hi.
  - subst h2 h1. rewrite -!app_assoc. by apply prefix_app_r.
Qed.

(** Also: Round trip of vector clocks: deserializing a dict of 32-bit counters and
    serializing the clock gives the same entries in the same order, and no
    existing object changes. *)
Theorem clock_roundtrip h l dz :
  h !! l = Some (ODict (int_entries dz)) → NoDup dz.*1 →
  Forall (λ kz, 0 ≤ kz.2 < 2 ^ 32)%Z dz →
  ∃ c h', VectorClock_init (VRef l) true h = (Ret c, h') ∧
    VectorClock_serialize c [] h' = (Ret dz, h') ∧ prefix h h'.
Proof. apply clock_roundtrip_run. Qed.

Lemma clock_roundtrip_witness :
  ∃ c h', VectorClock_init (VRef 0) true
      [ODict [("a"%string, VInt 3); ("b"%string, VInt 0)]] = (Ret c, h') ∧
    VectorClock_serialize c [] h' = (Ret [("a"%string, 3%Z); ("b"%string, 0%Z)], h').
Proof.
  destruct (clock_roundtrip [ODict [("a"%string, VInt 3); ("b"%string, VInt 0)]] 0
    [("a"%string, 3%Z); ("b"%string, 0%Z)]) as (c & h' & H1 & H2 & _).
  - reflexivity.
  - cbn. repeat constructor; set_solver.
  - repeat constructor; simpl; lia.
  - by exists c, h'.
Defined.

(** ** Priorities *)

(** Also: [PriorityLattice.assign] never succeeds and never changes the lattice:
    a [str] is not a tuple ([ValueError]), and anything else, the documented
    (float, bytes) tuple included, goes through [bytes(value, 'utf-8')]
    ([TypeError]). *)
Theorem priority_assign_raises l v h :
  PriorityLattice_assign l v h =
    (Raise (match v with VStr _ => ValueError | _ => TypeError end), h).
Proof. by destruct v. Qed.

Definition priority_at h l : option spec_float :=
  match h !! l with Some (OPriorityLattice p _) => Some p | _ => None end.

Lemma lattice_merge_priority n h a b p q :
  priority_at h a = Some p → priority_at h b = Some q →
  Lattice_merge (S n) (VRef a) (VRef b) h =
    (Ret (VRef (if float_lt q p then b else a)), h).
Proof.
  rewrite /priority_at. intros Ha Hb.
  destruct (h !! a) as [[]|] eqn:Ea; simplify_eq.
  destruct (h !! b) as [[]|] eqn:Eb; simplify_eq. cbn [Lattice_merge].
  rewrite (bind_ret _ _ _ _ _ (deref_run _ _ _ Ea)) /PriorityLattice_merge.
  rewrite (bind_ret _ _ _ _ _ (deref_run _ _ _ Eb)) (bind_ret _ _ _ _ _ (deref_run _ _ _ Ea)).
  by destruct (float_lt q p).
Qed.

Lemma float_lt_trans p q r : float_lt p q = true → float_lt q r = true → float_lt p r = true.
Proof.
  rewrite /float_lt. destruct (num_of (VFloat p)), (num_of (VFloat q)), (num_of (VFloat r)); try done.
  apply num_lt_trans.
Qed.

Lemma float_lt_irrefl p : float_lt p p = false.
Proof. rewrite /float_lt. destruct (num_of (VFloat p)); [apply num_lt_irrefl|done]. Qed.

Lemma float_lt_split p q r :
  q ≠ S754_nan → float_lt p r = true → float_lt p q = true ∨ float_lt q r = true.
Proof.
  intros Hq. rewrite /float_lt.
  destruct (num_of (VFloat p)) as [a|], (num_of (VFloat r)) as [c|]; try done.
  destruct (num_of (VFloat q)) as [b|] eqn:Eb; [|by destruct q].
  apply num_lt_split. intros ->. by destruct q.
Qed.

(** Also: Merging priority lattices selects a lattice of least priority value:
    merging any sequence of lattices whose priorities are numbers leaves the
    heap unchanged and returns one of them such that none of the others has a
    strictly smaller priority. *)
Theorem priority_merge_least n h a ls :
  Forall (λ l, ∃ p, priority_at h l = Some p ∧ p ≠ S754_nan) (a :: ls) →
  ∃ r p, merge_all (S n) (VRef a) ls h = (Ret (VRef r), h) ∧ r ∈ a :: ls ∧
    priority_at h r = Some p ∧
    (∀ l q, l ∈ a :: ls → priority_at h l = Some q → float_lt q p = false).
Proof.
  revert a. induction ls as [|b ls IH]; intros a Hall.
  { apply Forall_cons in Hall as [(p & Hp & _) _]. exists a, p. repeat split; [left|done|].
    intros l q ->%list_elem_of_singleton ?. simplify_eq. apply float_lt_irrefl. }
  apply Forall_cons in Hall as [(pa & Ha & Hna) Hall].
  pose proof Hall as [(pb & Hb & Hnb) Hls]%Forall_cons.
  destruct (IH (if float_lt pb pa then b else a)) as (r & p & Hr & Hin & Hp & Hmin).
  { constructor; [|done]. case_match; by eexists. }
  exists r, p. split.
  { rewrite /merge_all /=. erewrite bind_ret by (by apply lattice_merge_priority). apply Hr. }
  split; [case_match; set_solver|]. split; [done|].
  intros l q Hl Hq. destruct (float_lt pb pa) eqn:Hlt.
  - apply elem_of_cons in Hl as [->|Hl]; [|by eapply Hmin].
    rewrite Ha in Hq. injection Hq as <-. apply not_true_iff_false. intros E.
    assert (float_lt pb p = false) as Hf by (eapply Hmin; [left|done]).
    rewrite (float_lt_trans pb pa p Hlt E) in Hf. done.
  - destruct (decide (l = b)) as [->|Hne]; [|apply (Hmin l q); [set_solver|done]].
    rewrite Hb in Hq. injection Hq as <-. apply not_true_iff_false. intros E.
    assert (float_lt pa p = false) as Hf by (eapply Hmin; [left|done]).
    destruct (float_lt_split _ pa _ Hna E); congruence.
Qed.

Definition two_priorities : heap :=
  [OPriorityLattice (S754_finite false 3 0) "low"; OPriorityLattice (S754_finite false 1 1) "high"].

Lemma priority_merge_least_witness :
  ∃ r p, merge_all 1 (VRef 0) [1] two_priorities = (Ret (VRef r), two_priorities) ∧
    priority_at two_priorities r = Some p ∧ float_lt (S754_finite false 3 0) p = false.
Proof.
  destruct (priority_merge_least 0 two_priorities 0 [1]) as (r & p & H1 & _ & H2 & H3).
  - repeat constructor; eexists; (split; [reflexivity|discriminate]).
  - exists r, p. split; [done|]. split; [done|]. apply (H3 0); [left|reflexivity].
Defined.

(** ** Equality *)

(** Also: [==] on last-writer-wins pairs compares the revealed bytes only: two
    pairs with the same bytes are equal whatever their timestamps. *)
Theorem lww_eq_ignores_timestamp h a b x y :
  lww_at h a = Some x → lww_at h b = Some y →
  Lattice_eq (VRef a) (VRef b) h = (Ret (String.eqb x.2 y.2), h).
Proof.
  intros Ha%lww_at_Some Hb%lww_at_Some. rewrite /Lattice_eq. f_equal.
  assert (∃ n, recursion_limit = S (S n)) as [n ->] by (by exists 998).
  unfold py_eq; fold py_eq. rewrite Ha Hb /=.
  rewrite /Lattice_reveal /LWWPairLattice_reveal. by hrun.
Qed.

Lemma lww_eq_ignores_timestamp_witness :
  Lattice_eq (VRef 0) (VRef 1) [OLWWPairLattice 1 "v"; OLWWPairLattice 2 "v"] =
  (Ret true, [OLWWPairLattice 1 "v"; OLWWPairLattice 2 "v"]).
Proof.
  exact (lww_eq_ignores_timestamp [OLWWPairLattice 1 "v"; OLWWPairLattice 2 "v"] 0 1
           (1%Z, "v"%string) (2%Z, "v"%string) eq_refl eq_refl).
Defined.
