(* ===== verification/Messages.v ===== *)
(** * Messages

    The protocol buffer messages that the programs exchange, as records:
    src/common/proto/anna.proto and src/include/proto/metadata.proto. *)

From S2P Require Import Prelude Objects OrderedSet Lattices.

(** ** src/common/proto/anna.proto, causal.proto

    Enumerations are open in proto3: a received field is any integer.  The
    fields that no modelled program reads or writes are left out. *)

Inductive RequestType : Type := RT_UNSPECIFIED | GET | PUT | READ | INSERT | UPDATE.
Notation NO_ERROR := 0%Z (only parsing).
Notation KEY_DNE := 1%Z (only parsing).
Notation WRONG_THREAD := 2%Z (only parsing).
Notation NO_SERVERS := 5%Z (only parsing).

Definition LatticeType_value (t : LatticeType) : Z :=
  match t with
  | LT_NONE => 0 | LT_LWW => 1 | LT_SET => 2 | LT_SINGLE_CAUSAL => 3
  | LT_MULTI_CAUSAL => 4 | LT_ORDERED_SET => 5 | LT_PRIORITY => 6
  end.

Record KeyTuple (payload : Type) : Type := mkKeyTuple {
  kt_key : string;
  kt_lattice_type : Z;
  kt_error : Z;
  kt_payload : payload;
  kt_address_cache_size : Z;
  kt_invalidate : bool;
  kt_ips : list string
}.
Arguments mkKeyTuple {_}.
Arguments kt_key {_}.
Arguments kt_lattice_type {_}.
Arguments kt_error {_}.
Arguments kt_payload {_}.
Arguments kt_address_cache_size {_}.
Arguments kt_invalidate {_}.
Arguments kt_ips {_}.

Record CausalTuple (payload : Type) : Type := mkCausalTuple {
  ct_key : string;
  ct_payload : payload;
  ct_error : Z
}.
Arguments ct_payload {_}.

Record KeyRequest (payload : Type) : Type := mkKeyRequest {
  kr_type : RequestType;
  kr_tuples : list (KeyTuple payload);
  kr_response_address : string;
  kr_request_id : string
}.
Arguments mkKeyRequest {_}.
Arguments kr_type {_}.
Arguments kr_tuples {_}.
Arguments kr_response_address {_}.
Arguments kr_request_id {_}.

Record KeyResponse (payload : Type) : Type := mkKeyResponse {
  kp_tuples : list (KeyTuple payload);
  kp_response_id : string
}.
Arguments mkKeyResponse {_}.
Arguments kp_tuples {_}.
Arguments kp_response_id {_}.

Record KeyAddressRequest : Type := mkKeyAddressRequest {
  ka_response_address : string;
  ka_keys : list string;
  ka_request_id : string
}.

Record KeyAddressResponse : Type := mkKeyAddressResponse {
  kas_addresses : list (string * list string);
  kas_error : Z;
  kas_response_id : string
}.

(** ** src/include/proto/metadata.proto *)

Record Server : Type := mkServer { public_ip : string; private_ip : string }.
Record TierMembership : Type := mkTier { tier_id : Z; servers : list Server }.
Notation MEMORY := 1%Z (only parsing).
Notation STORAGE := 2%Z (only parsing).
Notation ROUTING := 3%Z (only parsing).

(** The replication factors of a key, by tier. *)
Record ReplicationFactor : Type := mkReplicationFactor {
  rf_key : string;
  rf_global : list (Z * Z);
  rf_local : list (Z * Z)
}.

Record NodeJoinRequest : Type := mkNodeJoinRequest {
  nj_response_address : string;
  nj_request_id : string;
  nj_request_msg : string
}.
