(* ===== verification/Transport.v ===== *)
(** * Addresses, sockets and responses (src/client/python/anna/common.py, zmq_util.py)

    The thread addresses, the cache of push sockets, and the loop that waits
    for the answers to a list of requests.  ZeroMQ is not modelled: a pull
    socket is the sequence of messages that will arrive on it, a push socket
    is the address it is connected to, and a message is whatever the protocol
    buffer library puts on the wire (type [wire]). *)

From S2P Require Import Prelude.

(** ** Threads (common.py) *)

Definition REQUEST_PULLING_BASE_PORT : Z := 6460.
Definition KEY_ADDRESS_BASE_PORT : Z := 6760.

(** [Thread.__init__] keeps the address prefixes it builds from the ip. *)
Record Thread : Type := mkThread {
  th_ip : string;
  th_tid : Z;
  th_base : string;
  th_ip_base : string
}.

Definition Thread_init (ip : string) (tid : Z) : Thread :=
  mkThread ip tid "tcp://*:" ("tcp://" +:+ ip +:+ ":").

Definition get_ip (t : Thread) : string := th_ip t.
Definition get_tid (t : Thread) : Z := th_tid t.

Definition get_request_pull_connect_addr (t : Thread) : string :=
  th_ip_base t +:+ py_str (th_tid t + REQUEST_PULLING_BASE_PORT).
Definition get_request_pull_bind_addr (t : Thread) : string :=
  th_base t +:+ py_str (th_tid t + REQUEST_PULLING_BASE_PORT).
Definition get_key_address_connect_addr (t : Thread) : string :=
  th_ip_base t +:+ py_str (th_tid t + KEY_ADDRESS_BASE_PORT).
Definition get_key_address_bind_addr (t : Thread) : string :=
  th_base t +:+ py_str (th_tid t + KEY_ADDRESS_BASE_PORT).

(** ** The socket cache (zmq_util.py) *)

(** Socket [i] is connected to the [i]-th address of [sc_socks]. *)
Record SocketCache : Type := mkSocketCache {
  sc_cache : gmap string nat;
  sc_socks : list string
}.

Definition SocketCache_init : SocketCache := mkSocketCache ∅ [].

Definition SocketCache_get (addr : string) (sc : SocketCache) : nat * SocketCache :=
  match sc_cache sc !! addr with
  | None =>
      let sock := length (sc_socks sc) in
      (sock, mkSocketCache (<[addr:=sock]> (sc_cache sc)) (sc_socks sc ++ [addr]))
  | Some sock => (sock, sc)
  end.

(** Every cached socket is connected to its address, every socket is cached,
    and there is one socket per address. *)
Definition socket_cache_ok (sc : SocketCache) : Prop :=
  (∀ addr i, sc_cache sc !! addr = Some i ↔ sc_socks sc !! i = Some addr) ∧
  NoDup (sc_socks sc).

Lemma SocketCache_get_spec addr sc :
  socket_cache_ok sc →
  let '(sock, sc') := SocketCache_get addr sc in
  socket_cache_ok sc' ∧ sc_socks sc' !! sock = Some addr ∧
  prefix (sc_socks sc) (sc_socks sc') ∧
  (addr ∈ sc_socks sc → sc' = sc) ∧
  (addr ∉ sc_socks sc → length (sc_socks sc') = S (length (sc_socks sc))).
Proof.
  intros [Hok Hnd]. rewrite /SocketCache_get.
  destruct (sc_cache sc !! addr) as [i|] eqn:Ha; simpl.
  - apply Hok in Ha as Hi. split; [done|]. split; [done|]. split; [done|].
    split; [done|]. intros Hn. destruct Hn. by eapply list_elem_of_lookup_2.
  - assert (addr ∉ sc_socks sc) as Hn.
    { intros [i Hi]%list_elem_of_lookup. apply Hok in Hi. congruence. }
    split; [split|]; simpl.
    + intros a i. rewrite lookup_insert. case_decide as Heq.
      * subst a. split; [intros [= <-]; by rewrite lookup_app_r // Nat.sub_diag|].
        intros [Hi|[Hge Hi]]%lookup_app_Some.
        { apply list_elem_of_lookup_2 in Hi. done. }
        apply list_lookup_singleton_Some in Hi as [? _]. f_equal. lia.
      * rewrite Hok. split; [intros; by apply lookup_app_l_Some|].
        intros [Hi|[_ Hi]]%lookup_app_Some; [done|].
        by apply list_lookup_singleton_Some in Hi as [_ ?].
    + apply NoDup_app. split; [done|]. split; [set_solver|apply NoDup_singleton].
    + split; [by rewrite lookup_app_r // Nat.sub_diag|].
      split; [by apply prefix_app_r|]. split; [done|].
      intros _. rewrite length_app /=. lia.
Qed.

(** ** Waiting for responses (zmq_util.py) *)

Section Recv.
Context {wire R : Type}.
(** [ParseFromString] of the response class, and its field [response_id]. *)
Variable parse : wire → outcome R.
Variable response_id : R → string.

(** The inner loop: receive until the response answers one of [req_ids]. *)
Fixpoint recv_matching (req_ids : list string) (sock : list wire)
  : outcome R * list wire :=
  match sock with
  | [] => (Blocked, [])
  | w :: sock' =>
      match parse w with
      | Ret r => if bool_decide (response_id r ∈ req_ids) then (Ret r, sock')
                 else recv_matching req_ids sock'
      | Raise e => (Raise e, sock')
      | Blocked => (Blocked, sock')
      | OutOfFuel => (OutOfFuel, sock')
      end
  end.

(** The outer loop, with [need] responses still missing. *)
Fixpoint recv_loop (req_ids : list string) (need : nat) (responses : list R)
  : M (list wire) (list R) :=
  match need with
  | O => mret responses
  | S need' =>
      resp_obj ← recv_matching req_ids;
      recv_loop req_ids need' (responses ++ [resp_obj])
  end.

Definition recv_response (req_ids : list string) : M (list wire) (list R) :=
  recv_loop req_ids (length req_ids) [].

(** The answers among the messages of a queue. *)
Definition answers (req_ids : list string) (rs : list R) : list R :=
  filter (λ r, response_id r ∈ req_ids) rs.

(** What one call of the inner loop consumes. *)
Lemma recv_matching_spec req_ids q rs :
  omap_each q parse = Ret rs →
  match answers req_ids rs with
  | [] => recv_matching req_ids q = (Blocked, [])
  | r :: rest => ∃ q2 rs2, recv_matching req_ids q = (Ret r, q2) ∧
      omap_each q2 parse = Ret rs2 ∧ answers req_ids rs2 = rest ∧ suffix q2 q
  end.
Proof.
  revert rs. induction q as [|w q IH]; intros rs Hp; simplify_eq/=; [done|].
  destruct (parse w) as [r| | |]; simplify_eq/=.
  destruct (omap_each q parse) as [rs'| | |] eqn:Hq; simplify_eq/=.
  rewrite /answers filter_cons. case_decide as Hin.
  - rewrite bool_decide_true //. exists q, rs'. repeat split; try done. by exists [w].
  - rewrite bool_decide_false //. specialize (IH rs' eq_refl).
    rewrite /answers in IH. destruct (filter _ rs') as [|r' rest]; [done|].
    destruct IH as (q2 & rs2 & H1 & H2 & H3 & H4). exists q2, rs2.
    repeat split; try done. by apply suffix_cons_r.
Qed.

Lemma recv_loop_spec req_ids need acc q rs :
  omap_each q parse = Ret rs →
  if bool_decide (need ≤ length (answers req_ids rs)) then
    ∃ q2 rs2, recv_loop req_ids need acc q =
        (Ret (acc ++ take need (answers req_ids rs)), q2) ∧
      omap_each q2 parse = Ret rs2 ∧ answers req_ids rs2 = drop need (answers req_ids rs) ∧
      suffix q2 q
  else recv_loop req_ids need acc q = (Blocked, []).
Proof.
  revert acc q rs. induction need as [|need IH]; intros acc q rs Hp.
  { rewrite bool_decide_true; [|lia]. exists q, rs. rewrite take_0 app_nil_r.
    by repeat split. }
  pose proof (recv_matching_spec req_ids q rs Hp) as Hm.
  destruct (answers req_ids rs) as [|r rest] eqn:Ha.
  { rewrite bool_decide_false; [|simpl; lia]. cbn [recv_loop].
    by rewrite (bind_blocked _ _ _ _ Hm). }
  destruct Hm as (q2 & rs2 & Hm & Hp2 & Ha2 & Hs2). cbn [recv_loop].
  rewrite (bind_ret _ _ _ _ _ Hm). specialize (IH (acc ++ [r]) q2 rs2 Hp2).
  rewrite Ha2 in IH. case_bool_decide as Hle.
  - rewrite bool_decide_true /=; [|simpl; lia].
    destruct IH as (q3 & rs3 & H1 & H2 & H3 & H4). exists q3, rs3.
    rewrite H1 -app_assoc. repeat split; try done. by trans q2.
  - by rewrite bool_decide_false /=; [|simpl; lia].
Qed.

(** What is returned answers the requests, whatever arrived. *)
Lemma recv_matching_in req_ids q r q' :
  recv_matching req_ids q = (Ret r, q') → response_id r ∈ req_ids.
Proof.
  induction q as [|w q IH]; simpl; [done|]. destruct (parse w); [|done..].
  case_bool_decide; [|done]. by intros [= <- _].
Qed.

Lemma recv_loop_in req_ids need acc q rs q' :
  recv_loop req_ids need acc q = (Ret rs, q') →
  ∃ rs', rs = acc ++ rs' ∧ length rs' = need ∧ Forall (λ r, response_id r ∈ req_ids) rs'.
Proof.
  revert acc q. induction need as [|need IH]; intros acc q Hr; cbn [recv_loop] in Hr.
  { injection Hr as <- <-. exists []. by rewrite app_nil_r. }
  apply bind_ret_inv in Hr as (r & q1 & Hm & Hr). apply recv_matching_in in Hm.
  apply IH in Hr as (rs' & -> & Hl & Hf). exists (r :: rs').
  rewrite -app_assoc. split; [done|]. split; [by rewrite /= Hl|by constructor].
Qed.

End Recv.

(** ** Properties *)

(** Also: [SocketCache.get] keeps one connected socket per address: it returns a
    socket connected to the address, creates one exactly when the address was
    not cached, and keeps the cache consistent. *)
Theorem socket_cache_get_correct addr sc :
  socket_cache_ok sc →
  let '(sock, sc') := SocketCache_get addr sc in
  socket_cache_ok sc' ∧ sc_socks sc' !! sock = Some addr ∧
  prefix (sc_socks sc) (sc_socks sc') ∧
  (addr ∈ sc_socks sc → sc' = sc) ∧
  (addr ∉ sc_socks sc → length (sc_socks sc') = S (length (sc_socks sc))).
Proof. apply SocketCache_get_spec. Qed.

Lemma socket_cache_get_correct_witness :
  socket_cache_ok SocketCache_init ∧
  length (sc_socks (SocketCache_get "tcp://a:1" SocketCache_init).2) = 1.
Proof.
  assert (socket_cache_ok SocketCache_init) as Hok.
  { split; [|constructor]. intros addr i. simpl. by rewrite lookup_empty lookup_nil. }
  split; [exact Hok|].
  apply (socket_cache_get_correct "tcp://a:1" SocketCache_init Hok). set_solver.
Defined.

(** C37: [recv_response] returns one response per request id: when the messages
    that arrive can be parsed and contain enough answers, it returns the first
    answers in order of arrival, all of them to ids it was given, discards only
    messages with foreign ids before them, and leaves the rest of the queue; when
    there are too few answers it waits forever. *)
Theorem recv_response_correct {wire R : Type} (parse : wire → outcome R)
    (response_id : R → string) req_ids q rs :
  omap_each q parse = Ret rs →
  if bool_decide (length req_ids ≤ length (answers response_id req_ids rs)) then
    ∃ q2 rs2, recv_response parse response_id req_ids q =
        (Ret (take (length req_ids) (answers response_id req_ids rs)), q2) ∧
      omap_each q2 parse = Ret rs2 ∧
      answers response_id req_ids rs2 =
        drop (length req_ids) (answers response_id req_ids rs) ∧ suffix q2 q
  else recv_response parse response_id req_ids q = (Blocked, []).
Proof. intros Hp. by apply (recv_loop_spec parse response_id req_ids _ []). Qed.

Lemma recv_response_correct_witness :
  ∃ q2 rs2, recv_response Ret id ["b"; "a"]%string ["x"; "a"; "y"; "b"; "z"]%string =
    (Ret ["a"; "b"]%string, q2) ∧ omap_each q2 Ret = Ret rs2 ∧
    answers id ["b"; "a"]%string rs2 = [] ∧ suffix q2 ["x"; "a"; "y"; "b"; "z"]%string.
Proof.
  exact (recv_response_correct Ret id ["b"; "a"]%string ["x"; "a"; "y"; "b"; "z"]%string
    ["x"; "a"; "y"; "b"; "z"]%string eq_refl).
Defined.
