(* ===== verification/Client.v ===== *)
(** * The Python client (src/client/python/anna/base_client.py, client.py)

    The operations of [BaseAnnaClient] and [AnnaTcpClient] as programs over a
    [world]: the client object, the lattices it creates (the heap of
    [Objects]), the messages it has sent, the messages that will arrive on its
    two pull sockets, and the numbers the random generator will produce.
    A client that waits for a message that never arrives ends in [Blocked].
    The protocol buffer library is the class [Codec]. *)

From Stdlib Require Import SpecFloat.
From S2P Require Import Prelude Objects OrderedSet Lattices Transport Messages.

(** ** Protocol buffers *)

(** What the client calls of the protocol buffer library: [SerializeToString]
    and [ParseFromString] of each message class.  [payload] is the type of the
    byte strings that carry values, [wire] of those that carry messages. *)
Class Codec : Type := {
  payload : Type;
  empty_payload : payload;
  wire : Type;
  SerializeToString : pbmsg → payload;
  parse_LWWValue : payload → outcome (Z * string);
  parse_SetValue : payload → outcome (list string);
  parse_SingleKeyCausalValue : payload → outcome (list (string * Z) * list string);
  parse_MultiKeyCausalValue : payload →
    outcome (list (string * Z) * list (string * list (string * Z)) * list string);
  parse_PriorityValue : payload → outcome (spec_float * string);
  serialize_KeyRequest : KeyRequest payload → wire;
  serialize_KeyAddressRequest : KeyAddressRequest → wire;
  parse_KeyResponse : wire → outcome (KeyResponse payload);
  parse_KeyAddressResponse : wire → outcome KeyAddressResponse
}.

(** A message that was serialised parses to itself. *)
Class CodecLaws (C : Codec) : Prop := {
  parse_serialize_LWW ts v :
    (0 ≤ ts < 2 ^ 64)%Z → parse_LWWValue (SerializeToString (LWWValue ts v)) = Ret (ts, v);
  parse_serialize_Set vs : parse_SetValue (SerializeToString (SetValue vs)) = Ret vs;
  parse_serialize_Priority p v :
    parse_PriorityValue (SerializeToString (PriorityValue p v)) = Ret (p, v)
}.

(** ** State *)

Record AnnaTcpClient : Type := mkAnnaTcpClient {
  elb_addr : string;
  elb_ports : list Z;
  ut : Thread;
  address_cache : gmap string (list string);
  pusher_cache : SocketCache;
  rid : Z
}.

Record world (W : Type) : Type := mkWorld {
  self : AnnaTcpClient;
  w_heap : heap;
  bound : list string;
  sent : list (nat * W);
  response_puller : list W;
  key_address_puller : list W;
  random : nat → nat;
  random_pos : nat
}.
Arguments mkWorld {_}.
Arguments self {_}.
Arguments w_heap {_}.
Arguments bound {_}.
Arguments sent {_}.
Arguments response_puller {_}.
Arguments key_address_puller {_}.
Arguments random {_}.
Arguments random_pos {_}.

Definition upd_self {W} (f : AnnaTcpClient → AnnaTcpClient) (w : world W) : world W :=
  mkWorld (f (self w)) (w_heap w) (bound w) (sent w) (response_puller w)
    (key_address_puller w) (random w) (random_pos w).
Definition set_heap {W} (h : heap) (w : world W) : world W :=
  mkWorld (self w) h (bound w) (sent w) (response_puller w)
    (key_address_puller w) (random w) (random_pos w).
Definition add_sent {W} (m : nat * W) (w : world W) : world W :=
  mkWorld (self w) (w_heap w) (bound w) (sent w ++ [m]) (response_puller w)
    (key_address_puller w) (random w) (random_pos w).
Definition set_response_puller {W} (q : list W) (w : world W) : world W :=
  mkWorld (self w) (w_heap w) (bound w) (sent w) q
    (key_address_puller w) (random w) (random_pos w).
Definition set_key_address_puller {W} (q : list W) (w : world W) : world W :=
  mkWorld (self w) (w_heap w) (bound w) (sent w) (response_puller w)
    q (random w) (random_pos w).
Definition next_random {W} (w : world W) : world W :=
  mkWorld (self w) (w_heap w) (bound w) (sent w) (response_puller w)
    (key_address_puller w) (random w) (S (random_pos w)).

Definition set_address_cache (m : gmap string (list string)) (c : AnnaTcpClient) :=
  mkAnnaTcpClient (elb_addr c) (elb_ports c) (ut c) m (pusher_cache c) (rid c).
Definition set_pusher_cache (sc : SocketCache) (c : AnnaTcpClient) :=
  mkAnnaTcpClient (elb_addr c) (elb_ports c) (ut c) (address_cache c) sc (rid c).
Definition set_rid (r : Z) (c : AnnaTcpClient) :=
  mkAnnaTcpClient (elb_addr c) (elb_ports c) (ut c) (address_cache c) (pusher_cache c) r.

(** The argument [keys] of [get], [get_all] and [put]: a name or a list of names. *)
Inductive keys_arg : Type := OneKey (key : string) | KeyList (keys : list string).

Definition as_key_list (k : keys_arg) : list string :=
  match k with OneKey key => [key] | KeyList keys => keys end.
Definition as_value_list (v : pyval) : list pyval :=
  match v with VList vs => vs | _ => [v] end.

(** A character loop and a list loop visit different things. *)
Definition iter_keys (k : keys_arg) : list string :=
  match k with OneKey key => str_chars key | KeyList keys => keys end.

(** What [_get_worker_address] returns: [None], or one address, or all. *)
Definition worker (pick : bool) : Type := option (if pick then string else list string).

(** What [put] returns: [False] or the dictionary of results. *)
Inductive put_result : Type := PutFalse | PutResults (results : list (string * bool)).

Section Client.
Context `{C : Codec}.
Notation W := (M (world wire)).

(** Running an operation of the heap or of a pull socket. *)
Definition on_heap {A} (m : M heap A) : W A := λ w,
  let '(o, h) := m (w_heap w) in (o, set_heap h w).
Definition on_response_puller {A} (m : M (list wire) A) : W A := λ w,
  let '(o, q) := m (response_puller w) in (o, set_response_puller q w).
Definition on_key_address_puller {A} (m : M (list wire) A) : W A := λ w,
  let '(o, q) := m (key_address_puller w) in (o, set_key_address_puller q w).

(** [random.choice(seq)]. *)
Definition random_choice {A} (seq : list A) : W A := λ w,
  match seq !! (random w (random_pos w) mod length seq) with
  | Some a => (Ret a, next_random w)
  | None => (Raise IndexError, w)
  end.

(** [self.pusher_cache.get(addr)] and [send_request(req, sock)]. *)
Definition pusher_get (addr : string) : W nat := λ w,
  let '(sock, sc) := SocketCache_get addr (pusher_cache (self w)) in
  (Ret sock, upd_self (set_pusher_cache sc) w).
Definition send_request (req_string : wire) (send_sock : nat) : W unit :=
  modify (add_sent (send_sock, req_string)).

(** *** base_client.py *)

(** The base class leaves its operations to its subclasses. *)
Definition BaseAnnaClient_init : W unit := raise NotImplementedError.
Definition BaseAnnaClient_get (keys : keys_arg) : W unit := raise NotImplementedError.
Definition BaseAnnaClient_get_all (keys : keys_arg) : W unit := raise NotImplementedError.
Definition BaseAnnaClient_put (key : string) (value : pyval) : W unit :=
  raise NotImplementedError.
Definition BaseAnnaClient_put_all (key : string) (value : pyval) : W unit :=
  raise NotImplementedError.
Definition BaseAnnaClient_response_address : W string := raise NotImplementedError.

Definition response_address : W string :=
  gets (λ w, get_request_pull_connect_addr (ut (self w))).

Definition get_request_id : W string :=
  w ← get_state;
  let response := get_ip (ut (self w)) +:+ ":" +:+ py_str (rid (self w)) in
  modify (upd_self (λ c, set_rid ((rid c + 1) mod 10000) c)) ;;
  mret response.

(** Iterating [val.values()] calls a repeated field. *)
Definition call_repeated_field : W unit := raise TypeError.

(** The branches for multi-key causal values. *)
Definition deserialize_multi_causal (pl : payload) : W loc :=
  val ← lift (parse_MultiKeyCausalValue pl);
  let '(vector_clock, deps, _) := val in
  vc ← on_heap (VectorClock_init (VPbMap vector_clock) true);
  dep_map ← fold_each deps [] (λ d kv,
    c ← on_heap (VectorClock_init (VPbMap kv.2) true); mret (dset kv.1 (VRef c) d));
  values ← on_heap (alloc (OSet []));
  call_repeated_field ;;
  dm ← on_heap (alloc (ODict dep_map));
  dependencies ← on_heap (MapLattice_init (VRef dm));
  value ← on_heap (SetLattice_init (VRef values));
  on_heap (MultiKeyCausalLattice_init (VRef vc) (VRef dependencies) (VRef value)).

(** [set.add] *)
Definition set_add (s : loc) (v : pyval) : M heap unit :=
  o ← deref (VRef s);
  match o with
  | OSet xs => store s (OSet (if existsb (py_eqb v) xs then xs else xs ++ [v]))
  | _ => raise AttributeError
  end.

Definition deserialize (tup : KeyTuple payload + CausalTuple payload) : W loc :=
  match tup with
  | inr ct => deserialize_multi_causal (ct_payload ct)
  | inl kt =>
      let typ_is t := bool_decide (kt_lattice_type kt = LatticeType_value t) in
      if typ_is LT_LWW then
        val ← lift (parse_LWWValue (kt_payload kt));
        on_heap (LWWPairLattice_init (VInt val.1) (VBytes val.2))
      else if typ_is LT_SET then
        s ← lift (parse_SetValue (kt_payload kt));
        result ← on_heap (alloc (OSet []));
        for_each s (λ k, on_heap (set_add result (VBytes k))) ;;
        on_heap (SetLattice_init (VRef result))
      else if typ_is LT_ORDERED_SET then
        content ← lift (ListBasedOrderedSet_init []);
        res ← on_heap (alloc (OListBasedOrderedSet content));
        val ← lift (parse_SetValue (kt_payload kt));
        for_each val (λ v, on_heap (ordered_set_insert res (VBytes v))) ;;
        on_heap (OrderedSetLattice_init (VRef res))
      else if typ_is LT_SINGLE_CAUSAL then
        val ← lift (parse_SingleKeyCausalValue (kt_payload kt));
        vc ← on_heap (VectorClock_init (VPbMap val.1) true);
        values ← on_heap (alloc (OSet []));
        call_repeated_field ;;
        (* SingleKeyCasaulLattice is no name of the module *)
        raise NameError
      else if typ_is LT_MULTI_CAUSAL then deserialize_multi_causal (kt_payload kt)
      else if typ_is LT_PRIORITY then
        val ← lift (parse_PriorityValue (kt_payload kt));
        on_heap (PriorityLattice_init (VFloat val.1) (VBytes val.2))
      else raise ValueError
  end.

Definition serialize (val : pyval) : W (payload * LatticeType) :=
  w ← get_state;
  if isinstance_Lattice (w_heap w) val then
    match val with
    | VRef l =>
        pb_typ ← on_heap (Lattice_serialize l);
        mret (SerializeToString pb_typ.1, pb_typ.2)
    | _ => raise AttributeError
    end
  else raise ValueError.

(** The second result are the positions in [req.tuples] of the tuples the code
    returns: they are the objects inside the request, not copies. *)
Definition prepare_data_request (keys : keys_arg) : W (KeyRequest payload * list nat) :=
  request_id ← get_request_id;
  address ← response_address;
  tuples ← map_each (iter_keys keys) (λ key,
    w ← get_state;
    size ← match address_cache (self w) !! key with
           | Some addrs => lift (pb_uint 32 (Z.of_nat (length addrs)))
           | None => mret 0%Z
           end;
    mret (mkKeyTuple key 0 0 empty_payload size false []));
  mret (mkKeyRequest RT_UNSPECIFIED tuples address request_id, seq 0 (length tuples)).

(** Assignments to the fields of a request and of a tuple in it. *)
Definition set_type (t : RequestType) (r : KeyRequest payload) :=
  mkKeyRequest t (kr_tuples r) (kr_response_address r) (kr_request_id r).
Definition set_request_id (i : string) (r : KeyRequest payload) :=
  mkKeyRequest (kr_type r) (kr_tuples r) (kr_response_address r) i.
Definition set_tuple_value (i : nat) (pl : payload) (t : LatticeType)
    (r : KeyRequest payload) :=
  mkKeyRequest (kr_type r)
    (alter (λ tup, mkKeyTuple (kt_key tup) (LatticeType_value t) (kt_error tup) pl
                     (kt_address_cache_size tup) (kt_invalidate tup) (kt_ips tup)) i (kr_tuples r))
    (kr_response_address r) (kr_request_id r).

(** *** client.py *)

(** The constructor; [host_ip] is what [socket.gethostbyname] finds. *)
Definition AnnaTcpClient_init (host_ip elb : string) (ip : option string) (local : bool)
    (offset : Z) (w : world wire) : world wire :=
  let ports := if local then [6450%Z] else [6450; 6451; 6452; 6453]%Z in
  let ut := match ip with
            | Some (String _ _ as a) => Thread_init a offset
            | _ => Thread_init host_ip offset
            end in
  mkWorld (mkAnnaTcpClient elb ports ut ∅ SocketCache_init 0) (w_heap w)
    (bound w ++ [get_request_pull_bind_addr ut; get_key_address_bind_addr ut])
    (sent w) (response_puller w) (key_address_puller w) (random w) (random_pos w).

Definition query_routing (key : string) (port : Z) : W (list string) :=
  response_address ← gets (λ w, get_key_address_connect_addr (ut (self w)));
  request_id ← get_request_id;
  w ← get_state;
  let dst_addr := "tcp://" +:+ elb_addr (self w) +:+ ":" +:+ py_str port in
  send_sock ← pusher_get dst_addr;
  send_request (serialize_KeyAddressRequest
    (mkKeyAddressRequest response_address [key] request_id)) send_sock ;;
  responses ← on_key_address_puller
    (recv_response parse_KeyAddressResponse kas_response_id [request_id]);
  response ← lift (py_nth responses 0);
  if bool_decide (kas_error response ≠ 0%Z) then mret []
  else mret (foldl (λ result t, if decide (t.1 = key) then result ++ t.2 else result)
               [] (kas_addresses response)).

Definition get_worker_address (key : string) (pick : bool) : W (worker pick) :=
  w ← get_state;
  match address_cache (self w) !! key with
  | Some (_ :: _) => mret tt
  | _ =>
      port ← random_choice (elb_ports (self w));
      addresses ← query_routing key port;
      modify (upd_self (λ c, set_address_cache (<[key:=addresses]> (address_cache c)) c))
  end ;;
  w ← get_state;
  match address_cache (self w) !! key with
  | None => raise KeyError
  | Some [] => mret None
  | Some addresses =>
      match pick return W (worker pick) with
      | true => a ← random_choice addresses; mret (Some a)
      | false => mret (Some addresses)
      end
  end.

Definition invalidate_cache (key : string) : W unit :=
  w ← get_state;
  match address_cache (self w) !! key with
  | None => raise KeyError
  | Some _ => modify (upd_self (λ c, set_address_cache (delete key (address_cache c)) c))
  end.

Definition recv_key_responses (req_ids : list string) : W (list (KeyResponse payload)) :=
  on_response_puller (recv_response parse_KeyResponse kp_response_id req_ids).

(** [worker_addresses = {...}] and [kv_pairs = {key: None}]. *)
Definition worker_addresses_of (pick : bool) (keys : list string)
  : W (list (string * worker pick)) :=
  fold_each keys [] (λ d key, a ← get_worker_address key pick; mret (dset key a d)).

Definition none_pairs (keys : list string) : list (string * option loc) :=
  foldl (λ d key, dset key None d) [] keys.

Definition get_send (ids : list string) (kw : string * worker true) : W (list string) :=
  match kw.2 with
  | Some (String _ _ as address) =>
      send_sock ← pusher_get address;
      rt ← prepare_data_request (KeyList [kw.1]);
      let req := set_type GET rt.1 in
      send_request (serialize_KeyRequest req) send_sock ;;
      mret (ids ++ [kr_request_id req])
  | _ => mret ids
  end.

Definition get_tuple (kv : list (string * option loc)) (tup : KeyTuple payload)
  : W (list (string * option loc)) :=
  (if kt_invalidate tup then invalidate_cache (kt_key tup) else mret tt) ;;
  if bool_decide (kt_error tup = NO_ERROR)
  then v ← deserialize (inl tup); mret (dset (kt_key tup) (Some v) kv)
  else mret kv.

Definition AnnaTcpClient_get (keys : keys_arg) : W (list (string * option loc)) :=
  let keys := as_key_list keys in
  worker_addresses ← worker_addresses_of true keys;
  let kv_pairs := none_pairs keys in
  request_ids ← fold_each worker_addresses [] get_send;
  responses ← recv_key_responses request_ids;
  fold_each responses kv_pairs (λ kv response, fold_each (kp_tuples response) kv get_tuple).

(** The loop over the keys of [get_all]; [None] is the unbound [req_ids]. *)
Definition get_all_send (worker_addresses : list (string * worker false))
    (req_ids : option (list string)) (key : string) : W (option (list string)) :=
  match dget key worker_addresses with
  | None => raise KeyError
  | Some (Some ((_ :: _) as addresses)) =>
      rt ← prepare_data_request (OneKey key);
      req ← fold_each addresses (set_type GET rt.1) (λ req address,
        request_id ← get_request_id;
        let req := set_request_id request_id req in
        send_sock ← pusher_get address;
        send_request (serialize_KeyRequest req) send_sock ;;
        mret req);
      mret (Some [kr_request_id req])
  | Some _ => mret req_ids
  end.

(** A lattice object is always true; [kv_pairs[k].merge(val)] drops the result. *)
Definition get_all_tuple (kv : list (string * option loc)) (tup : KeyTuple payload)
  : W (list (string * option loc)) :=
  (if kt_invalidate tup then invalidate_cache (kt_key tup) else mret tt) ;;
  if bool_decide (kt_error tup = NO_ERROR) then
    val ← deserialize (inl tup);
    match dget (kt_key tup) kv with
    | None => raise KeyError
    | Some (Some old) =>
        on_heap (Lattice_merge recursion_limit (VRef old) (VRef val)) ;; mret kv
    | Some None => mret (dset (kt_key tup) (Some val) kv)
    end
  else mret kv.

Definition AnnaTcpClient_get_all (keys : keys_arg) : W (list (string * option loc)) :=
  match keys with
  | OneKey _ => raise ValueError
  | KeyList keys =>
      worker_addresses ← worker_addresses_of false keys;
      let kv_pairs := none_pairs keys in
      req_ids ← fold_each keys None (get_all_send worker_addresses);
      match req_ids with
      | None => raise UnboundLocalError
      | Some req_ids =>
          responses ← recv_key_responses req_ids;
          fold_each responses kv_pairs (λ kv resp,
            fold_each (kp_tuples resp) kv get_all_tuple)
      end
  end.

(** The loop of [put] that sends; [None] is the early [return False]. *)
Fixpoint put_send (kvs : list (string * pyval)) (request_ids : list string)
  : W (option (list string)) :=
  match kvs with
  | [] => mret (Some request_ids)
  | (key, value) :: kvs' =>
      worker_address ← get_worker_address key true;
      match worker_address with
      | Some (String _ _ as address) =>
          send_sock ← pusher_get address;
          rt ← prepare_data_request (KeyList [key]);
          let req := set_type PUT rt.1 in
          tup ← lift (py_nth rt.2 0);
          pt ← serialize value;
          let req := set_tuple_value tup pt.1 pt.2 req in
          send_request (serialize_KeyRequest req) send_sock ;;
          put_send kvs' (request_ids ++ [kr_request_id req])
      | _ => mret None
      end
  end.

Definition put_response (results : list (string * bool)) (response : KeyResponse payload)
  : W (list (string * bool)) :=
  tup ← lift (py_nth (kp_tuples response) 0);
  (if kt_invalidate tup then invalidate_cache (kt_key tup) else mret tt) ;;
  mret (dset (kt_key tup) (bool_decide (kt_error tup = NO_ERROR)) results).

Definition AnnaTcpClient_put (keys : keys_arg) (values : pyval) : W put_result :=
  request_ids ← put_send (zip (as_key_list keys) (as_value_list values)) [];
  match request_ids with
  | None => mret PutFalse
  | Some request_ids =>
      responses ← recv_key_responses request_ids;
      results ← fold_each responses [] put_response;
      mret (PutResults results)
  end.

(** The loop of [put_all] over the responses. *)
Fixpoint put_all_responses (responses : list (KeyResponse payload)) : W bool :=
  match responses with
  | [] => mret true
  | resp :: rest =>
      tup ← lift (py_nth (kp_tuples resp) 0);
      if kt_invalidate tup then
        (* the class has no method durable_put *)
        invalidate_cache (kt_key tup) ;; raise AttributeError
      else if bool_decide (kt_error tup ≠ NO_ERROR) then mret false
      else put_all_responses rest
  end.

(** [tup] is the list of tuples: setting a field of it looks the name up among
    the attributes of [list]. *)
Definition AnnaTcpClient_put_all (key : string) (value : pyval) : W bool :=
  worker_addresses ← get_worker_address key false;
  match worker_addresses with
  | Some ((_ :: _) as addresses) =>
      rt ← prepare_data_request (OneKey key);
      let req := set_type PUT rt.1 in
      pt ← serialize value;
      getattr_builtin list_attrs "payload" ;;
      getattr_builtin list_attrs "lattice_type" ;;
      getattr_builtin list_attrs "timestamp" ;;
      ids ← fold_each addresses (req, []) (λ st address,
        request_id ← get_request_id;
        let req := set_request_id request_id st.1 in
        send_sock ← pusher_get address;
        send_request (serialize_KeyRequest req) send_sock ;;
        mret (req, st.2 ++ [request_id]));
      responses ← recv_key_responses ids.2;
      put_all_responses responses
  | _ => mret false
  end.

End Client.
