(* ===== verification/ClientProps.v ===== *)
(** * Properties of the Python client

    Request identifiers, the round trip of values through the protocol buffer
    payloads, the address cache, and what [get], [get_all], [put] and [put_all]
    send, wait for and return. *)

From Stdlib Require Import SpecFloat.
From S2P Require Import Prelude Objects OrderedSet Lattices LatticeProps Transport Client Messages.

Implicit Types (h : heap) (l : loc).

(** ** Running client statements *)

Section Run.
Context `{C : Codec}.
Implicit Types (w : world wire).

Lemma set_heap_id w : set_heap (w_heap w) w = w.
Proof. by destruct w. Qed.

Lemma set_heap_set_heap h1 h2 w : set_heap h1 (set_heap h2 w) = set_heap h1 w.
Proof. done. Qed.

Lemma on_heap_run {A} (m : M heap A) w o h :
  m (w_heap w) = (o, h) → on_heap m w = (o, set_heap h w).
Proof. intros H. by rewrite /on_heap H. Qed.

Lemma on_heap_inv {A} (m : M heap A) w o w' :
  on_heap m w = (o, w') → m (w_heap w) = (o, w_heap w') ∧ w' = set_heap (w_heap w') w.
Proof. rewrite /on_heap. destruct (m (w_heap w)) as [o1 h]. by intros [= <- <-]. Qed.

(** A loop of heap statements is a heap statement. *)
Lemma for_each_on_heap {A} (xs : list A) (f : A → M heap unit) w :
  for_each xs (λ x, on_heap (f x)) w = on_heap (for_each xs f) w.
Proof.
  revert w. induction xs as [|x xs IH]; intros w.
  { rewrite /on_heap /=. by destruct w. }
  cbn [for_each]. rewrite /mbind /M_bind /on_heap.
  destruct (f x (w_heap w)) as [[[]| | |] h1]; [|done..]. rewrite IH /on_heap /=.
  by destruct (for_each xs f h1).
Qed.

End Run.

(** ** Round trip of values *)

(** The content of the lattice at [l] in [h] is that of [l'] in [h']. *)
Definition same_content h l h' l' : Prop :=
  match h !! l, h' !! l' with
  | Some (OLWWPairLattice ts v), Some (OLWWPairLattice ts' v') => ts = ts' ∧ v = v'
  | Some (OPriorityLattice p v), Some (OPriorityLattice p' v') => p = p' ∧ v = v'
  | Some (OSetLattice s), Some (OSetLattice s') =>
      ∃ xs ys, h !! s = Some (OSet xs) ∧ h' !! s' = Some (OSet ys) ∧ ∀ x, x ∈ xs ↔ x ∈ ys
  | Some (OOrderedSetLattice s), Some (OOrderedSetLattice s') =>
      ∃ xs, h !! s = Some (OListBasedOrderedSet xs) ∧ h' !! s' = Some (OListBasedOrderedSet xs)
  | _, _ => False
  end.

Definition add_bytes (xs : list pyval) (vs : list string) : list pyval :=
  foldl (λ xs v, if existsb (py_eqb (VBytes v)) xs then xs else xs ++ [VBytes v]) xs vs.

Lemma existsb_bytes v xs : existsb (py_eqb (VBytes v)) xs = true ↔ VBytes v ∈ xs.
Proof.
  rewrite existsb_exists. setoid_rewrite <-list_elem_of_In. split.
  - intros (x & Hx & He). destruct x; simpl in He; try done.
    apply String.eqb_eq in He. by subst.
  - intros H. exists (VBytes v). split; [done|]. apply String.eqb_refl.
Qed.

Lemma add_bytes_elem xs vs x : x ∈ add_bytes xs vs ↔ x ∈ xs ∨ x ∈ VBytes <$> vs.
Proof.
  revert xs. induction vs as [|v vs IH]; intros xs; simpl; [set_solver|].
  rewrite IH. destruct (existsb _ xs) eqn:E.
  - apply existsb_bytes in E. set_solver.
  - set_solver.
Qed.

Lemma set_add_loop vs s xs h :
  h !! s = Some (OSet xs) →
  for_each vs (λ v, set_add s (VBytes v)) h = (Ret tt, <[s:=OSet (add_bytes xs vs)]> h).
Proof.
  revert xs h. induction vs as [|v vs IH]; intros xs h Hs.
  { simpl. by rewrite list_insert_id. }
  cbn [for_each]. rewrite /set_add. hrun.
  erewrite IH; [by rewrite list_insert_insert_eq|].
  apply list_lookup_insert_eq. by eapply lookup_lt_Some.
Qed.

Lemma ordered_insert_loop vs s xs ys h :
  h !! s = Some (OListBasedOrderedSet xs) →
  ofold (VBytes <$> vs) xs ListBasedOrderedSet_insert = Ret ys →
  for_each vs (λ v, ordered_set_insert s (VBytes v)) h =
    (Ret tt, <[s:=OListBasedOrderedSet ys]> h).
Proof.
  revert xs h. induction vs as [|v vs IH]; intros xs h Hs Hf; simplify_eq/=.
  { by rewrite list_insert_id. }
  destruct (ListBasedOrderedSet_insert xs (VBytes v)) as [xs'| | |] eqn:E; try done.
  rewrite /ordered_set_insert /getattr_lst. hrun. rewrite E.
  erewrite IH; [by rewrite list_insert_insert_eq| |exact Hf].
  apply list_lookup_insert_eq. by eapply lookup_lt_Some.
Qed.

Section RoundTrip.
Context `{C : Codec, !CodecLaws C}.
Implicit Types (w : world wire).

(** A lattice of one of the four classes that can be serialised, with what
    [serialize] makes of it. *)
Inductive serializable h : loc → pbmsg → LatticeType → Prop :=
| ser_lww l ts v :
    h !! l = Some (OLWWPairLattice ts v) → (0 ≤ ts < 2 ^ 64)%Z →
    serializable h l (LWWValue ts v) LT_LWW
| ser_set l s vs :
    h !! l = Some (OSetLattice s) → h !! s = Some (OSet (VBytes <$> vs)) →
    serializable h l (SetValue vs) LT_SET
| ser_ordered l s vs :
    h !! l = Some (OOrderedSetLattice s) →
    h !! s = Some (OListBasedOrderedSet (VBytes <$> vs)) →
    serializable h l (SetValue vs) LT_ORDERED_SET
| ser_priority l p v :
    h !! l = Some (OPriorityLattice p v) →
    serializable h l (PriorityValue p v) LT_PRIORITY.

Lemma map_each_bytes xs h vs h' :
  map_each xs (λ v, match v with VBytes s => mret s | _ => raise ValueError end) h =
    (Ret vs, h') → xs = VBytes <$> vs ∧ h' = h.
Proof.
  revert vs. induction xs as [|x xs IH]; intros vs Hr.
  { by injection Hr as <- <-. }
  cbn [map_each] in Hr. apply bind_ret_inv in Hr as (s & h1 & Hx & Hr).
  apply bind_ret_inv in Hr as (vs' & h2 & Hm & Hr). injection Hr as <- <-.
  destruct x; try discriminate Hx. injection Hx as <- <-.
  by destruct (IH vs' Hm) as [-> ->].
Qed.

Lemma omap_each_bytes xs vs : omap_each xs pb_bytes = Ret vs → xs = VBytes <$> vs.
Proof.
  revert vs. induction xs as [|x xs IH]; intros vs Hr; simplify_eq/=; [done|].
  destruct x; simplify_eq/=. destruct (omap_each xs pb_bytes) as [vs'| | |]; simplify_eq/=.
  by rewrite (IH vs').
Qed.

Lemma not_iterable h l o :
  h !! l = Some o → obj_type o ≠ TSet → obj_type o ≠ TDict →
  py_iter (VRef l) h = (Raise TypeError, h).
Proof. intros Hl Hs Hd. rewrite /py_iter Hl. by destruct o. Qed.

Lemma vc_serialize_safe l p h : safe (VectorClock_serialize l p) h.
Proof. rewrite /VectorClock_serialize /MaxIntLattice_reveal. safe_go. Qed.

(** Iterating over a lattice after serialising a clock raises. *)
Lemma iter_lattice_stuck {A} h vc p clock h1 l t (k : list pyval → M heap A) :
  wf_heap h → VectorClock_serialize vc p h = (Ret clock, h1) → type_of h (VRef l) = t →
  is_lattice_type t = true → (py_iter (VRef l) ≫= k) h1 = (Raise TypeError, h1).
Proof.
  intros Hw Hc Ht Hl. destruct (vc_serialize_safe vc p h Hw) as [_ He].
  rewrite Hc in He. assert (t ≠ TDangling) as Hnd by (by intros ->).
  apply (extends_type _ _ _ _ He Hnd) in Ht.
  apply type_of_ref in Ht as (o & Ho & <-); [|done].
  apply bind_raise. by apply (not_iterable _ _ o); [..|destruct o|destruct o].
Qed.

(** Only those four classes can be serialised: the causal lattices iterate over
    lattices, which raises, and the others have no [serialize] to call. *)
Lemma serialize_inv h l pb t h' :
  wf_heap h → Lattice_serialize l h = (Ret (pb, t), h') → serializable h l pb t ∧ h' = h.
Proof.
  intros Hw Hs. rewrite /Lattice_serialize in Hs.
  apply bind_ret_inv in Hs as (o & h1 & Ho & Hs).
  apply deref_inv in Ho as (-> & l1 & [= <-] & Hl).
  pose proof (Hw l o Hl) as Hwo. destruct o; try discriminate Hs; simpl in Hs.
  - rewrite /LWWPairLattice_serialize in Hs. revert Hs. hrun. rewrite /pb_uint.
    case_bool_decide; [|done]. intros [= <- <- <-]. by split; [constructor|].
  - rewrite /SetLattice_serialize /set_lattice_val in Hs. simpl in Hwo.
    apply type_of_ref in Hwo as (o & Hv & Ht); [|done]. destruct o; try discriminate Ht.
    apply bind_ret_inv in Hs as (sv & h1 & Hsv & Hs). revert Hsv. hrun. intros [= <- <-].
    erewrite bind_ret in Hs by (by rewrite /py_iter Hv).
    apply bind_ret_inv in Hs as (vs & h2 & Hm & Hs).
    apply map_each_bytes in Hm as [-> ->]. injection Hs as <- <- <-.
    split; [|done]. by eapply ser_set.
  - rewrite /OrderedSetLattice_serialize /ordered_set_val /getattr_lst in Hs. simpl in Hwo.
    apply type_of_ref in Hwo as (o & Hv & Ht); [|done]. destruct o; try discriminate Ht.
    revert Hs. hrun. destruct (omap_each lst pb_bytes) as [vs| | |] eqn:E; try done.
    intros [= <- <- <-]. apply omap_each_bytes in E as ->. split; [|done].
    by eapply ser_ordered.
  - rewrite /SingleKeyCausalLattice_serialize in Hs. rewrite (bind_ret _ _ _ _ _ (deref_run l _ h Hl)) in Hs.
    apply bind_ret_inv in Hs as (clock & h1 & Hc & Hs). destruct Hwo as [_ Hv].
    by rewrite (iter_lattice_stuck _ _ _ _ _ _ _ _ Hw Hc Hv) in Hs.
  - rewrite /MultiKeyCausalLattice_serialize in Hs. rewrite (bind_ret _ _ _ _ _ (deref_run l _ h Hl)) in Hs.
    apply bind_ret_inv in Hs as (clock & h1 & Hc & Hs). destruct Hwo as (_ & Hd & _).
    by rewrite (iter_lattice_stuck _ _ _ _ _ _ _ _ Hw Hc Hd) in Hs.
  - rewrite /PriorityLattice_serialize in Hs. revert Hs. hrun. intros [= <- <- <-].
    split; [by constructor|done].
Qed.

Lemma insert_alloc_new h o o' : <[length h:=o']> (h ++ [o]) = h ++ [o'].
Proof. by rewrite insert_app_r_alt // Nat.sub_diag. Qed.

Lemma SetLattice_init_run h s xs :
  h !! s = Some (OSet xs) →
  SetLattice_init (VRef s) h = (Ret (length h), h ++ [OSetLattice s]).
Proof. intros Hs. rewrite /SetLattice_init. by hrun. Qed.

Lemma OrderedSetLattice_init_run h s xs :
  h !! s = Some (OListBasedOrderedSet xs) →
  OrderedSetLattice_init (VRef s) h = (Ret (length h), h ++ [OOrderedSetLattice s]).
Proof. intros Hs. rewrite /OrderedSetLattice_init. by hrun. Qed.

(** Two objects allocated one after the other are new. *)
Lemma alloc_two_new h o1 o2 :
  length h ≤ length (h ++ [o1]) ∧ prefix h ((h ++ [o1]) ++ [o2]).
Proof. rewrite length_app -app_assoc. split; [lia|by apply prefix_app_r]. Qed.

Lemma deserialize_serialized h l pb t w tup :
  serializable h l pb t →
  (∀ s vs, h !! s = Some (OListBasedOrderedSet vs) → Forall is_bytes vs →
     ordered is_bytes vs) →
  kt_payload tup = SerializeToString pb → kt_lattice_type tup = LatticeType_value t →
  ∃ l' h', deserialize (inl tup) w = (Ret l', set_heap h' w) ∧
    length (w_heap w) ≤ l' ∧ prefix (w_heap w) h' ∧ same_content h l h' l'.
Proof.
  intros Hs Ho Hp Ht. rewrite /deserialize Ht Hp.
  destruct Hs as [l ts v Hl Hts|l s vs Hl Hv|l s vs Hl Hv|l p v Hl]; cbn [LatticeType_value].
  - rewrite bool_decide_true // parse_serialize_LWW //.
    do 2 eexists. split; [by munfold; apply on_heap_run|].
    split; [done|]. split; [by apply prefix_app_r|].
    by rewrite /same_content Hl lookup_app_r // Nat.sub_diag.
  - rewrite bool_decide_false // bool_decide_true // parse_serialize_Set.
    rewrite (bind_ret _ _ _ _ _ (eq_refl : lift (Ret vs) w = _)).
    rewrite (bind_ret _ _ _ _ _ (on_heap_run _ w _ _ (alloc_run _ _))).
    erewrite bind_ret; last first.
    { rewrite for_each_on_heap. apply on_heap_run. apply set_add_loop.
      apply heap_alloc_new. }
    rewrite insert_alloc_new. do 2 eexists. split.
    { rewrite set_heap_set_heap. erewrite on_heap_run; [by rewrite set_heap_set_heap|].
      apply (SetLattice_init_run _ _ _ (heap_alloc_new _ _)). }
    rewrite and_assoc. split; [apply alloc_two_new|].
    rewrite /same_content Hl lookup_app_r // Nat.sub_diag /=.
    eexists _, _. split; [done|]. split; [apply heap_alloc_old, heap_alloc_new|].
    intros x. rewrite add_bytes_elem. set_solver.
  - rewrite bool_decide_false // bool_decide_false // bool_decide_true //.
    rewrite parse_serialize_Set (bind_ret _ _ _ _ _ (eq_refl : lift (Ret []) w = _)).
    rewrite (bind_ret _ _ _ _ _ (on_heap_run _ w _ _ (alloc_run _ _))).
    rewrite (bind_ret _ _ _ _ _ (eq_refl : lift (Ret vs) _ = _)).
    assert (ordered is_bytes ([] ++ (VBytes <$> vs))) as Hvs.
    { apply (Ho s); [done|]. apply Forall_fmap, Forall_forall. by eexists. }
    erewrite bind_ret; last first.
    { rewrite for_each_on_heap. apply on_heap_run.
      eapply ordered_insert_loop; [apply heap_alloc_new|]. exact (init_sorted_from [] _ Hvs). }
    rewrite insert_alloc_new. do 2 eexists. split.
    { rewrite set_heap_set_heap. erewrite on_heap_run; [by rewrite set_heap_set_heap|].
      apply (OrderedSetLattice_init_run _ _ _ (heap_alloc_new _ _)). }
    rewrite and_assoc. split; [apply alloc_two_new|].
    rewrite /same_content Hl lookup_app_r // Nat.sub_diag /=.
    eexists. split; [done|]. apply heap_alloc_old, heap_alloc_new.
  - do 5 rewrite bool_decide_false //. rewrite bool_decide_true // parse_serialize_Priority.
    do 2 eexists. split; [by munfold; apply on_heap_run|].
    split; [done|]. split; [by apply prefix_app_r|].
    by rewrite /same_content Hl lookup_app_r // Nat.sub_diag.
Qed.
End RoundTrip.

(** ** Request identifiers *)

Definition request_id_of (c : AnnaTcpClient) (i : nat) : string :=
  get_ip (ut c) +:+ ":" +:+ py_str ((rid c + Z.of_nat i) mod 10000).

(** The next [n] identifiers. *)
Definition request_ids (c : AnnaTcpClient) (n : nat) : list string :=
  request_id_of c <$> seq 0 n.

Definition rid_ok (c : AnnaTcpClient) : Prop := (0 ≤ rid c < 10000)%Z.

Definition advance_rid (n : nat) (c : AnnaTcpClient) : AnnaTcpClient :=
  set_rid ((rid c + Z.of_nat n) mod 10000) c.

Lemma request_id_of_0 c :
  rid_ok c → request_id_of c 0 = get_ip (ut c) +:+ ":" +:+ py_str (rid c).
Proof. intros H. by rewrite /request_id_of Z.add_0_r Z.mod_small. Qed.

Lemma request_id_of_S sc m c i :
  request_id_of (set_address_cache m (set_pusher_cache sc (advance_rid 1 c))) i =
  request_id_of c (S i).
Proof. rewrite /request_id_of /= Zplus_mod_idemp_l. do 4 f_equal. lia. Qed.

Lemma advance_rid_ok n c : rid_ok (advance_rid n c).
Proof. apply Z.mod_pos_bound. lia. Qed.

Lemma upd_self_advance {W} n (w : world W) :
  upd_self (advance_rid n) (upd_self (advance_rid 1) w) = upd_self (advance_rid (S n)) w.
Proof.
  rewrite /upd_self /advance_rid /set_rid /=. do 2 f_equal.
  rewrite Zplus_mod_idemp_l. f_equal. lia.
Qed.

Lemma request_ids_S c n :
  request_ids c (S n) = request_id_of c 0 :: request_ids (advance_rid 1 c) n.
Proof.
  rewrite /request_ids -cons_seq fmap_cons -fmap_S_seq -list_fmap_compose. f_equal.
  apply list_fmap_ext. intros i ? _. simpl. rewrite -(request_id_of_S (pusher_cache c)
    (address_cache c) c). done.
Qed.

Lemma request_ids_NoDup c n : (Z.of_nat n ≤ 10000)%Z → NoDup (request_ids c n).
Proof.
  intros Hn. apply NoDup_fmap_2_strong; [|apply NoDup_seq].
  intros i j [_ Hi]%elem_of_seq [_ Hj]%elem_of_seq He.
  rewrite /request_id_of in He. do 2 apply (inj _) in He. apply py_str_inj in He.
  assert (Z.of_nat i mod 10000 = Z.of_nat j mod 10000)%Z as Hm; last first.
  { rewrite !Z.mod_small in Hm; lia. }
  replace (Z.of_nat i) with (rid c + Z.of_nat i - rid c)%Z by lia.
  replace (Z.of_nat j) with (rid c + Z.of_nat j - rid c)%Z by lia.
  by rewrite Zminus_mod He -Zminus_mod.
Qed.

(** ** The requests of [get] *)

Section Get.
Context `{C : Codec, !CodecLaws C}.
Implicit Types (w : world wire) (c : AnnaTcpClient).

Definition cache_size c (key : string) : Z :=
  match address_cache c !! key with Some addrs => Z.of_nat (length addrs) | None => 0 end.

(** The request for one key. *)
Definition key_request (t : RequestType) c (key id : string) : KeyRequest payload :=
  mkKeyRequest t [mkKeyTuple key 0 0 empty_payload (cache_size c key) false []]
    (get_request_pull_connect_addr (ut c)) id.

Lemma get_request_id_run w :
  rid_ok (self w) →
  get_request_id w = (Ret (request_id_of (self w) 0), upd_self (advance_rid 1) w).
Proof. intros H. rewrite request_id_of_0 //. Qed.

Lemma prepare_data_request_run key w :
  rid_ok (self w) → (cache_size (self w) key < 2 ^ 32)%Z →
  prepare_data_request (KeyList [key]) w =
    (Ret (key_request RT_UNSPECIFIED (self w) key (request_id_of (self w) 0), [0]),
     upd_self (advance_rid 1) w).
Proof.
  intros Hr Hs. rewrite /prepare_data_request (bind_ret _ _ _ _ _ (get_request_id_run w Hr)).
  rewrite /key_request. rewrite /cache_size in Hs |- *.
  do 2 rewrite /mbind /M_bind /=. destruct (address_cache (self w) !! key) as [addrs|]; [|done].
  rewrite /lift /pb_uint bool_decide_true //. lia.
Qed.

Lemma get_send_run ids key a r w :
  rid_ok (self w) → (cache_size (self w) key < 2 ^ 32)%Z →
  let '(sock, sc) := SocketCache_get (String a r) (pusher_cache (self w)) in
  get_send ids (key, Some (String a r)) w =
    (Ret (ids ++ [request_id_of (self w) 0]),
     add_sent (sock, serialize_KeyRequest
                 (key_request GET (self w) key (request_id_of (self w) 0)))
       (upd_self (λ c, advance_rid 1 (set_pusher_cache sc c)) w)).
Proof.
  intros Hr Hs. destruct (SocketCache_get _ _) as [sock sc] eqn:E.
  rewrite /get_send; cbn [fst snd]. erewrite bind_ret by (by rewrite /pusher_get /= E).
  by rewrite (bind_ret _ _ _ _ _
    (prepare_data_request_run key (upd_self (set_pusher_cache sc) w) Hr Hs)).
Qed.

(** What the sending loop leaves behind. *)
Definition after_sends w (n : nat) sc msgs : world wire :=
  mkWorld (advance_rid n (set_pusher_cache sc (self w))) (w_heap w) (bound w)
    (sent w ++ msgs) (response_puller w) (key_address_puller w) (random w) (random_pos w).

(** A sent message: the request for the key, on a socket connected to the
    worker address chosen for it. *)
Definition sent_ok c sc (ki : (string * worker true) * string) (m : nat * wire) : Prop :=
  ki.1.2 = sc_socks sc !! m.1 ∧
  m.2 = serialize_KeyRequest (key_request GET c ki.1.1 ki.2).

Definition sendable c (kw : string * worker true) : Prop :=
  (∃ a r, kw.2 = Some (String a r)) ∧ (cache_size c kw.1 < 2 ^ 32)%Z.

Lemma after_sends_S w m sc1 n sc msgs :
  after_sends (add_sent m (upd_self (λ c, advance_rid 1 (set_pusher_cache sc1 c)) w)) n sc msgs =
  after_sends w (S n) sc (m :: msgs).
Proof.
  destruct w as [c ? ? ? ? ? ? ?]. rewrite /after_sends /add_sent /upd_self.
  simpl. rewrite -app_assoc. f_equal. rewrite /advance_rid /set_rid.
  cbn [rid set_pusher_cache]. rewrite Zplus_mod_idemp_l. f_equal. f_equal. lia.
Qed.

Lemma after_sends_0 w :
  rid_ok (self w) → after_sends w 0 (pusher_cache (self w)) [] = w.
Proof.
  intros Hr. destruct w as [c ? ? ? ? ? ? ?]; destruct c; simpl in *.
  rewrite /after_sends app_nil_r /= /advance_rid /set_rid /= Z.add_0_r.
  by rewrite (Z.mod_small _ _ Hr).
Qed.

Lemma get_send_loop d ids w :
  socket_cache_ok (pusher_cache (self w)) → rid_ok (self w) →
  Forall (sendable (self w)) d →
  ∃ sc msgs, fold_each d ids get_send w =
      (Ret (ids ++ request_ids (self w) (length d)), after_sends w (length d) sc msgs) ∧
    socket_cache_ok sc ∧ prefix (sc_socks (pusher_cache (self w))) (sc_socks sc) ∧
    Forall2 (sent_ok (self w) sc) (zip d (request_ids (self w) (length d))) msgs.
Proof.
  intros Hsc Hr Hd. revert ids w Hsc Hr Hd.
  induction d as [|[key wk] d IH]; intros ids w Hsc Hr Hd.
  { exists (pusher_cache (self w)), [].
    rewrite (after_sends_0 w Hr) (eq_refl : request_ids _ (length []) = []) app_nil_r.
    split; [done|]. split; [done|]. split; [done|by apply Forall2_nil]. }
  apply Forall_cons in Hd as [[(a & r & Hw) Hs] Hd]. simpl in Hw, Hs. subst wk.
  pose proof (get_send_run ids key a r w Hr Hs) as Hrun.
  pose proof (SocketCache_get_spec (String a r) _ Hsc) as Hget.
  destruct (SocketCache_get _ _) as [sock sc1]. destruct Hget as (Hsc1 & Hsock & Hpre & _).
  cbn [fold_each]. rewrite (bind_ret _ _ _ _ _ Hrun).
  set (w1 := add_sent _ _). destruct (IH (ids ++ [request_id_of (self w) 0]) w1)
    as (sc & msgs & Hl & Hok & Hp & Hf); [done|apply (advance_rid_ok 1)|done|].
  assert (request_ids (self w1) (length d) = request_ids (advance_rid 1 (self w)) (length d))
    as Hids by reflexivity.
  exists sc, ((sock, serialize_KeyRequest
    (key_request GET (self w) key (request_id_of (self w) 0))) :: msgs). rewrite Hl Hids. cbn [length]. rewrite request_ids_S.
  split; [|split; [done|]; split; [by trans (sc_socks sc1)|]]; last first.
  - constructor; [|exact Hf]. split; [|done]. simpl. symmetry.
    by eapply prefix_lookup_Some.
  - by rewrite -app_assoc /w1 after_sends_S.
Qed.

(** ** The worker addresses *)

Definition at_random (n : nat) w : world wire :=
  mkWorld (self w) (w_heap w) (bound w) (sent w) (response_puller w)
    (key_address_puller w) (random w) n.

(** The keys in the order in which a dictionary filled with them lists them. *)
Definition add_key (ks : list string) (k : string) : list string :=
  if decide (k ∈ ks) then ks else ks ++ [k].
Definition distinct (keys : list string) : list string := foldl add_key [] keys.

(** The client knows usable addresses for the key. *)
Definition cached c (key : string) : Prop :=
  ∃ addrs, address_cache c !! key = Some addrs ∧ addrs ≠ [] ∧
    Forall (λ a, a ≠ EmptyString) addrs ∧ (Z.of_nat (length addrs) < 2 ^ 32)%Z.

(** The worker address chosen for a key is one of the cached ones. *)
Definition worker_ok c (kw : string * worker true) : Prop :=
  sendable c kw ∧ ∃ addrs a, address_cache c !! kw.1 = Some addrs ∧ a ∈ addrs ∧ kw.2 = Some a.

Lemma random_choice_run {A} (xs : list A) w :
  xs ≠ [] → ∃ a, a ∈ xs ∧ random_choice xs w = (Ret a, next_random w).
Proof.
  intros Hne. rewrite /random_choice.
  destruct (lookup_lt_is_Some_2 xs (random w (random_pos w) mod length xs)) as [a Ha].
  { apply Nat.mod_upper_bound. by destruct xs. }
  rewrite Ha. exists a. split; [by eapply list_elem_of_lookup_2|done].
Qed.

Lemma get_worker_address_hit key w addrs :
  address_cache (self w) !! key = Some addrs → addrs ≠ [] →
  ∃ a, a ∈ addrs ∧ get_worker_address key true w = (Ret (Some a), next_random w).
Proof.
  intros Hc Hne. destruct (random_choice_run addrs w Hne) as (a & Ha & Hr).
  exists a. split; [done|]. rewrite /get_worker_address. destruct addrs as [|a1 l1]; [done|].
  do 3 rewrite /mbind /M_bind /= ?Hc. by rewrite Hr.
Qed.

Lemma Forall_dset {V} (P : string * V → Prop) k v (d : list (string * V)) :
  P (k, v) → Forall P d → Forall P (dset k v d).
Proof.
  intros Hk. induction 1 as [|[k1 v1] d H1 Hd IH]; simpl; [by constructor|].
  case_decide; [subst|]; by constructor.
Qed.

Lemma workers_loop keys (d : list (string * worker true)) w :
  Forall (cached (self w)) keys → Forall (worker_ok (self w)) d →
  ∃ d' n, fold_each keys d (λ d key, a ← get_worker_address key true; mret (dset key a d)) w =
      (Ret d', at_random n w) ∧
    d'.*1 = foldl add_key d.*1 keys ∧ Forall (worker_ok (self w)) d'.
Proof.
  revert d w. induction keys as [|key keys IH]; intros d w Hk Hd.
  { exists d, (random_pos w). split; [by destruct w|done]. }
  apply Forall_cons in Hk as [(addrs & Hc & Hne & Hs & Hl) Hk].
  destruct (get_worker_address_hit key w addrs Hc Hne) as (a & Ha & Hg).
  destruct (IH (dset key (Some a) d) (next_random w)) as (d' & n & Hf & Hd' & Hw); [done| |].
  { apply Forall_dset; [|done]. split; [|by exists addrs, a]. split.
    - rewrite Forall_forall in Hs. specialize (Hs a Ha). destruct a as [|b r]; [done|].
      by exists b, r.
    - by rewrite /cache_size Hc. }
  exists d', n. split; [|split; [|done]].
  - cbn [fold_each]. erewrite bind_ret; [exact Hf|]. by erewrite bind_ret.
  - by rewrite Hd' dset_keys.
Qed.

Lemma none_pairs_keys_from keys (kv : list (string * option loc)) :
  (foldl (λ d key, dset key None d) kv keys).*1 = foldl add_key kv.*1 keys.
Proof. revert kv. induction keys as [|k keys IH]; intros kv; [done|]. by rewrite /= IH dset_keys. Qed.

Lemma none_pairs_keys keys : (none_pairs keys).*1 = distinct keys.
Proof. apply none_pairs_keys_from. Qed.

Lemma none_pairs_get_from (keys : list string) kv key :
  key ∈ keys ∨ dget key kv = Some None →
  dget key (foldl (λ d key, dset key (None : option loc) d) kv keys) = Some None.
Proof.
  revert kv. induction keys as [|k keys IH]; intros kv Hk; [set_solver|]. simpl.
  apply IH. rewrite dget_dset. case_decide; [by right|]. set_solver.
Qed.

Lemma distinct_elem_from ks keys k : k ∈ foldl add_key ks keys ↔ k ∈ ks ∨ k ∈ keys.
Proof.
  revert ks. induction keys as [|k1 keys IH]; intros ks; simpl; [set_solver|].
  rewrite IH /add_key. case_decide; set_solver.
Qed.

Lemma distinct_elem keys k : k ∈ distinct keys ↔ k ∈ keys.
Proof. rewrite distinct_elem_from. set_solver. Qed.

Lemma distinct_NoDup_from ks keys : NoDup ks → NoDup (foldl add_key ks keys).
Proof.
  revert ks. induction keys as [|k1 keys IH]; intros ks Hks; [done|]. apply IH.
  rewrite /add_key. case_decide; [done|]. apply NoDup_app.
  split; [done|]. split; [set_solver|apply NoDup_singleton].
Qed.

(** ** Addresses that are out of date *)

Section Stale.
(** The keys for which the servers told the client so. *)
Variable stale : string → bool.

Definition drop_stale (keys : list string) c : AnnaTcpClient :=
  set_address_cache (filter (λ kv, ¬ (kv.1 ∈ keys ∧ stale kv.1)) (address_cache c)) c.

Lemma drop_stale_nil c : drop_stale [] c = c.
Proof.
  rewrite /drop_stale map_filter_id; [by destruct c|].
  intros k v _ [Hn _]. by apply elem_of_nil in Hn.
Qed.

(** One response deletes the addresses of a stale key. *)
Lemma invalidate_if_stale key w :
  is_Some (address_cache (self w) !! key) →
  (if stale key then invalidate_cache key else mret tt) w =
    (Ret tt, upd_self (drop_stale [key]) w).
Proof.
  intros [addrs Ha]. destruct (stale key) eqn:Es.
  - rewrite /invalidate_cache /mbind /M_bind /= Ha /modify. f_equal.
    rewrite /upd_self /drop_stale. do 2 f_equal. apply map_eq. intros k.
    destruct (decide (k = key)) as [->|Hne].
    + rewrite lookup_delete_eq. symmetry. apply map_lookup_filter_None_2. right.
      intros v _ Hn. apply Hn. simpl. split; [left|by rewrite Es].
    + rewrite lookup_delete_ne // map_lookup_filter.
      destruct (address_cache (self w) !! k); simpl; [|done].
      case_guard as Hg; [done|]. destruct Hg. set_solver.
  - rewrite /mret /M_ret /upd_self /drop_stale map_filter_id; [by destruct w as [[]]|].
    intros k v _ [Hk Hs]. apply list_elem_of_singleton in Hk. simpl in *. subst k.
    by rewrite Es in Hs.
Qed.

Lemma drop_stale_cons key keys c :
  drop_stale keys (drop_stale [key] c) = drop_stale (key :: keys) c.
Proof.
  rewrite /drop_stale /set_address_cache /=. f_equal.
  rewrite map_filter_filter. apply map_filter_ext. intros k v _. simpl. set_solver.
Qed.

Lemma drop_stale_other keys key c :
  key ∉ keys → address_cache (drop_stale keys c) !! key = address_cache c !! key.
Proof.
  intros Hn. rewrite /drop_stale /= map_lookup_filter.
  destruct (address_cache c !! key); simpl; [|done].
  case_guard as Hg; [done|]. destruct Hg. set_solver.
Qed.

(** Which addresses are left. *)
Lemma drop_stale_lookup keys key c :
  address_cache (drop_stale keys c) !! key =
  if decide (key ∈ keys ∧ stale key) then None else address_cache c !! key.
Proof.
  rewrite /drop_stale /= map_lookup_filter.
  destruct (address_cache c !! key); simpl; [|by case_decide].
  case_guard as H1; case_decide as H2; naive_solver.
Qed.

End Stale.

(** ** The responses of [get] *)

Section Responses.
(** What the servers hold: for each key the lattice, in some heap [hs], whose
    serialised form they store; and for which keys they tell the client that its
    addresses are out of date. *)
Variables (hs : heap) (stored : gmap string loc) (stale : string → bool).
Hypothesis hs_ordered : ∀ s vs,
  hs !! s = Some (OListBasedOrderedSet vs) → Forall is_bytes vs → ordered is_bytes vs.

(** A response that answers the request [ki.2] for the key [ki.1]. *)
Definition answers_key (ki : string * string) (r : KeyResponse payload) : Prop :=
  kp_response_id r = ki.2 ∧ ∃ tup, kp_tuples r = [tup] ∧ kt_key tup = ki.1 ∧
    kt_invalidate tup = stale ki.1 ∧
    match stored !! ki.1 with
    | None => kt_error tup ≠ NO_ERROR
    | Some l => kt_error tup = NO_ERROR ∧ ∃ pb t, serializable hs l pb t ∧
        kt_payload tup = SerializeToString pb ∧ kt_lattice_type tup = LatticeType_value t
    end.

(** What the result of [get] says about a key. *)
Definition result_ok h' (kv : list (string * option loc)) (key : string) : Prop :=
  match stored !! key with
  | None => dget key kv = Some None
  | Some l => ∃ l', dget key kv = Some (Some l') ∧ same_content hs l h' l'
  end.

Lemma same_content_prefix l h1 h2 l' :
  prefix h1 h2 → same_content hs l h1 l' → same_content hs l h2 l'.
Proof.
  intros Hp. rewrite /same_content. destruct (hs !! l) as [o|]; [|done].
  destruct (h1 !! l') as [o'|] eqn:E; [|by destruct o].
  rewrite (prefix_lookup_Some _ _ _ _ E Hp). destruct o; try done; destruct o'; try done.
  - intros (xs & ys & Hx & Hy & He). exists xs, ys.
    by rewrite (prefix_lookup_Some _ _ _ _ Hy Hp).
  - intros (xs & Hx & Hy). exists xs. by rewrite (prefix_lookup_Some _ _ _ _ Hy Hp).
Qed.

(** One response sets the entry of its key and no other, and drops the addresses of
    the key if they are stale. *)
Lemma get_response_run ki r kv w :
  answers_key ki r → dget ki.1 kv = Some None → is_Some (address_cache (self w) !! ki.1) →
  ∃ kv' h', fold_each (kp_tuples r) kv get_tuple w =
      (Ret kv', set_heap h' (upd_self (drop_stale stale [ki.1]) w)) ∧
    prefix (w_heap w) h' ∧ kv'.*1 = kv.*1 ∧ result_ok h' kv' ki.1 ∧
    ∀ k, k ≠ ki.1 → dget k kv' = dget k kv.
Proof.
  intros (_ & tup & -> & Hk & Hi & Hst) Hkv Hc. cbn [fold_each].
  pose proof (invalidate_if_stale stale ki.1 w Hc) as Hinv.
  set (w1 := upd_self _ w) in Hinv |- *.
  rewrite /get_tuple Hi Hk /result_ok. destruct (stored !! ki.1) as [l|].
  - destruct Hst as (He & pb & t & Hs & Hp & Ht).
    destruct (deserialize_serialized hs l pb t w1 tup Hs hs_ordered Hp Ht)
      as (l' & h' & Hd & _ & Hpre & Hsame).
    exists (dset ki.1 (Some l') kv), h'. split.
    { erewrite bind_ret; [reflexivity|]. rewrite bool_decide_true //.
      rewrite (bind_ret _ _ _ _ _ Hinv). by rewrite (bind_ret _ _ _ _ _ Hd). }
    split; [done|]. split.
    { rewrite dset_keys decide_True //. apply dget_is_Some. by eexists. }
    split; [exists l'; by rewrite dget_dset_eq|]. intros k Hne. by rewrite dget_dset_ne.
  - exists kv, (w_heap w). rewrite bool_decide_false //. split; [|by repeat split].
    erewrite bind_ret; [reflexivity|]. rewrite (bind_ret _ _ _ _ _ Hinv).
    change (w_heap w) with (w_heap w1). by rewrite set_heap_id.
Qed.

Lemma get_responses_loop pairs rs kv w :
  Forall2 answers_key pairs rs → NoDup pairs.*1 →
  (∀ key, key ∈ pairs.*1 → dget key kv = Some None) →
  (∀ key, key ∈ pairs.*1 → is_Some (address_cache (self w) !! key)) →
  ∃ kv' h', fold_each rs kv (λ kv r, fold_each (kp_tuples r) kv get_tuple) w =
      (Ret kv', set_heap h' (upd_self (drop_stale stale pairs.*1) w)) ∧
    prefix (w_heap w) h' ∧ kv'.*1 = kv.*1 ∧
    (∀ key, key ∈ pairs.*1 → result_ok h' kv' key) ∧
    (∀ key, key ∉ pairs.*1 → dget key kv' = dget key kv).
Proof.
  intros Hf. revert kv w. induction Hf as [|ki r pairs rs Hr Hf IH]; intros kv w Hnd Hkv Hc.
  { exists kv, (w_heap w). split; [|repeat split; set_solver].
    rewrite /upd_self drop_stale_nil. by destruct w. }
  rewrite fmap_cons in Hnd Hkv Hc |- *. apply NoDup_cons in Hnd as [Hn Hnd].
  destruct (get_response_run ki r kv w Hr) as (kv1 & h1 & Hrun & Hp1 & Hk1 & Hok1 & Hot1);
    [apply Hkv; left|apply Hc; left|].
  destruct (IH kv1 (set_heap h1 (upd_self (drop_stale stale [ki.1]) w)) Hnd)
    as (kv2 & h2 & Hrun2 & Hp2 & Hk2 & Hok2 & Hot2).
  { intros key Hkey. rewrite Hot1; [|set_solver]. apply Hkv. by right. }
  { intros key Hkey. cbn [self set_heap upd_self]. rewrite drop_stale_other; [|set_solver].
    apply Hc. by right. }
  exists kv2, h2. split; [|split; [by trans h1|split; [congruence|]]].
  { cbn [fold_each]. erewrite bind_ret by exact Hrun. rewrite Hrun2.
    rewrite /set_heap /upd_self /=. by rewrite drop_stale_cons. }
  split.
  - intros key [->|Hin]%elem_of_cons; [|by apply Hok2].
    move: Hok1. rewrite /result_ok (Hot2 ki.1 Hn). destruct (stored !! ki.1); [|done].
    intros (l' & ? & ?). exists l'. split; [done|]. by eapply same_content_prefix.
  - intros key Hin. rewrite Hot2; [|set_solver]. apply Hot1. set_solver.
Qed.

End Responses.

End Get.

(** ** The requests of [put] *)

Section Put.
Context `{C : Codec, !CodecLaws C}.
Implicit Types (w : world wire) (c : AnnaTcpClient).

Lemma map_each_bytes_run vs h :
  map_each (VBytes <$> vs) (λ v, match v with VBytes s => mret s | _ => raise ValueError end) h =
  (Ret vs, h).
Proof.
  induction vs as [|v vs IH]; [done|]. rewrite fmap_cons. cbn [map_each].
  by rewrite /mbind /M_bind /= IH.
Qed.

Lemma omap_each_bytes_run vs : omap_each (VBytes <$> vs) pb_bytes = Ret vs.
Proof. induction vs as [|v vs IH]; [done|]. rewrite fmap_cons /=. by rewrite IH. Qed.

Lemma serializable_run h l pb t :
  serializable h l pb t → Lattice_serialize l h = (Ret (pb, t), h).
Proof.
  rewrite /Lattice_serialize. destruct 1 as [l ts v Hl Hts|l s vs Hl Hv|l s vs Hl Hv|l p v Hl];
    rewrite (bind_ret _ _ _ _ _ (deref_run _ _ _ Hl)).
  - rewrite /LWWPairLattice_serialize. hrun. by rewrite /pb_uint bool_decide_true.
  - rewrite /SetLattice_serialize /set_lattice_val /py_iter. hrun.
    by rewrite map_each_bytes_run.
  - rewrite /OrderedSetLattice_serialize /ordered_set_val /getattr_lst. hrun.
    by rewrite omap_each_bytes_run.
  - rewrite /PriorityLattice_serialize. by hrun.
Qed.

Lemma serialize_run l pb t w :
  serializable (w_heap w) l pb t →
  serialize (VRef l) w = (Ret (SerializeToString pb, t), w).
Proof.
  intros Hs. pose proof (serializable_run _ _ _ _ Hs) as Hr.
  rewrite /serialize /mbind /M_bind /=.
  assert (isinstance_Lattice (w_heap w) (VRef l) = true) as ->.
  { destruct Hs as [l ? ? Hl|l ? ? Hl|l ? ? Hl|l ? ? Hl];
      by rewrite /isinstance_Lattice /type_of Hl. }
  by rewrite (on_heap_run _ _ _ _ Hr) set_heap_id.
Qed.

(** The request that stores the serialised value [pt] under [key]. *)
Definition put_request c (key id : string) (pt : pbmsg * LatticeType) : KeyRequest payload :=
  mkKeyRequest PUT
    [mkKeyTuple key (LatticeType_value pt.2) 0 (SerializeToString pt.1) (cache_size c key) false []]
    (get_request_pull_connect_addr (ut c)) id.

(** A key, the location of its value, and what the value serialises to. *)
Notation item := (string * loc * (pbmsg * LatticeType))%type.

Definition item_ok c h (it : item) : Prop :=
  cached c it.1.1 ∧ serializable h it.1.2 it.2.1 it.2.2.

(** A sent message: the request for the item, on a socket connected to one of
    the key's cached addresses. *)
Definition put_sent_ok c sc (ii : item * string) (m : nat * wire) : Prop :=
  (∃ addrs a, address_cache c !! ii.1.1.1 = Some addrs ∧ a ∈ addrs ∧
     sc_socks sc !! m.1 = Some a) ∧
  m.2 = serialize_KeyRequest (put_request c ii.1.1.1 ii.2 ii.1.2).

Definition put_pairs (items : list item) : list (string * pyval) :=
  (λ it, (it.1.1, VRef it.1.2)) <$> items.

Lemma put_pairs_zip items :
  zip (as_key_list (KeyList items.*1.*1)) (as_value_list (VList (VRef <$> items.*1.*2))) =
  put_pairs items.
Proof. induction items as [|[[k l] pt] items IH]; [done|]. simpl in *. by rewrite IH. Qed.

(** One round of the sending loop. *)
Lemma put_send_step key l pb t kvs ids w addrs :
  address_cache (self w) !! key = Some addrs → addrs ≠ [] →
  Forall (λ a, a ≠ EmptyString) addrs → (Z.of_nat (length addrs) < 2 ^ 32)%Z →
  serializable (w_heap w) l pb t → socket_cache_ok (pusher_cache (self w)) →
  rid_ok (self w) →
  ∃ a sock sc, a ∈ addrs ∧ socket_cache_ok sc ∧ sc_socks sc !! sock = Some a ∧
    prefix (sc_socks (pusher_cache (self w))) (sc_socks sc) ∧
    put_send ((key, VRef l) :: kvs) ids w =
    put_send kvs (ids ++ [request_id_of (self w) 0])
      (add_sent (sock, serialize_KeyRequest
                   (put_request (self w) key (request_id_of (self w) 0) (pb, t)))
        (upd_self (λ c, advance_rid 1 (set_pusher_cache sc c)) (next_random w))).
Proof.
  intros Hc Hne Hs Hl Hser Hsc Hr.
  destruct (get_worker_address_hit key w addrs Hc Hne) as (a & Ha & Hg).
  rewrite Forall_forall in Hs. specialize (Hs a Ha).
  pose proof (SocketCache_get_spec a _ Hsc) as Hget.
  destruct (SocketCache_get a (pusher_cache (self w))) as [sock sc] eqn:E.
  destruct Hget as (Hsc1 & Hsock & Hpre & _). exists a, sock, sc. repeat (split; [done|]).
  cbn [put_send]. erewrite bind_ret by exact Hg. destruct a as [|b r]; [done|].
  erewrite bind_ret by (by rewrite /pusher_get /= E).
  assert (cache_size (self w) key < 2 ^ 32)%Z as Hcs by (by rewrite /cache_size Hc).
  rewrite (bind_ret _ _ _ _ _
    (prepare_data_request_run key (upd_self (set_pusher_cache sc) (next_random w)) Hr Hcs)).
  cbn [fst snd]. erewrite bind_ret; [|reflexivity]. erewrite bind_ret; [|by apply serialize_run].
  by erewrite bind_ret.
Qed.

Lemma put_send_loop items ids w :
  socket_cache_ok (pusher_cache (self w)) → rid_ok (self w) →
  Forall (item_ok (self w) (w_heap w)) items →
  ∃ sc msgs pos, put_send (put_pairs items) ids w =
      (Ret (Some (ids ++ request_ids (self w) (length items))),
       at_random pos (after_sends w (length items) sc msgs)) ∧
    socket_cache_ok sc ∧ prefix (sc_socks (pusher_cache (self w))) (sc_socks sc) ∧
    Forall2 (put_sent_ok (self w) sc) (zip items (request_ids (self w) (length items))) msgs.
Proof.
  intros Hsc Hr Hit. revert ids w Hsc Hr Hit.
  induction items as [|[[key l] [pb t]] items IH]; intros ids w Hsc Hr Hit.
  { exists (pusher_cache (self w)), [], (random_pos w).
    rewrite (after_sends_0 w Hr) (eq_refl : request_ids _ (length []) = []) app_nil_r.
    split; [by destruct w|]. split; [done|]. split; [done|by apply Forall2_nil]. }
  apply Forall_cons in Hit as [[(addrs & Hc & Hne & Hs & Hl) Hser] Hit].
  cbn [fst snd] in Hc, Hser.
  destruct (put_send_step key l pb t (put_pairs items) ids w addrs)
    as (a & sock & sc1 & Ha & Hsc1 & Hsock & Hpre & Hrun); [done..|].
  cbn [put_pairs fmap list_fmap fst snd]. rewrite Hrun. set (w1 := add_sent _ _).
  destruct (IH (ids ++ [request_id_of (self w) 0]) w1)
    as (sc & msgs & pos & Hl1 & Hsc2 & Hp & Hf); [done|apply (advance_rid_ok 1)|done|].
  assert (request_ids (self w1) (length items) =
    request_ids (advance_rid 1 (self w)) (length items)) as Hids by reflexivity.
  eexists sc, (_ :: msgs), pos. rewrite Hl1 Hids. cbn [length]. rewrite request_ids_S.
  split; [|split; [done|split; [by trans (sc_socks sc1)|]]].
  - by rewrite -app_assoc /w1 after_sends_S.
  - constructor; [|exact Hf]. split; [|done]. exists addrs, a.
    split; [done|]. split; [done|]. by eapply prefix_lookup_Some.
Qed.

Section PutResponses.
(** Which keys the servers stored without an error, and for which they told the
    client that its addresses are out of date. *)
Variables (stored_ok stale : string → bool).

Definition acknowledges (ki : string * string) (r : KeyResponse payload) : Prop :=
  kp_response_id r = ki.2 ∧ ∃ tup rest, kp_tuples r = tup :: rest ∧ kt_key tup = ki.1 ∧
    kt_invalidate tup = stale ki.1 ∧
    bool_decide (kt_error tup = NO_ERROR) = stored_ok ki.1.

Lemma put_responses_loop pairs rs results w :
  Forall2 acknowledges pairs rs → NoDup pairs.*1 →
  (∀ key, key ∈ pairs.*1 → is_Some (address_cache (self w) !! key)) →
  ∃ results', fold_each rs results put_response w =
      (Ret results', upd_self (drop_stale stale pairs.*1) w) ∧
    (∀ key, key ∈ pairs.*1 → dget key results' = Some (stored_ok key)) ∧
    (∀ key, key ∉ pairs.*1 → dget key results' = dget key results).
Proof.
  intros Hf. revert results w.
  induction Hf as [|ki r pairs rs Hr Hf IH]; intros results w Hnd Hc.
  { exists results. split; [|set_solver]. rewrite /upd_self drop_stale_nil. by destruct w. }
  rewrite fmap_cons in Hnd Hc |- *. apply NoDup_cons in Hnd as [Hn Hnd].
  destruct Hr as (_ & tup & rest & Ht & Hk & Hi & He).
  destruct (IH (dset ki.1 (stored_ok ki.1) results) (upd_self (drop_stale stale [ki.1]) w) Hnd)
    as (results' & Hrun & Hin & Hout).
  { intros key Hkey. simpl. rewrite drop_stale_other; [|set_solver]. apply Hc. by right. }
  exists results'. split; [|split].
  - cbn [fold_each]. erewrite bind_ret; last first.
    { rewrite /put_response Ht. erewrite bind_ret by reflexivity.
      rewrite Hi Hk He. erewrite bind_ret; [reflexivity|].
      apply invalidate_if_stale. apply Hc. left. }
    rewrite Hrun. rewrite /upd_self /=. by rewrite drop_stale_cons.
  - intros key [->|Hkey]%elem_of_cons; [|by apply Hin]. by rewrite Hout // dget_dset_eq.
  - intros key Hkey. rewrite Hout; [|set_solver]. apply dget_dset_ne. set_solver.
Qed.

End PutResponses.

End Put.

(** ** A codec

    A concrete instance of the protocol buffer interface, in which a message on
    the wire is the message itself. *)

Inductive message : Type :=
| MKeyRequest (r : KeyRequest pbmsg)
| MKeyResponse (r : KeyResponse pbmsg)
| MKeyAddressRequest (r : KeyAddressRequest)
| MKeyAddressResponse (r : KeyAddressResponse).

#[global] Instance model_codec : Codec := {|
  payload := pbmsg;
  empty_payload := SetValue [];
  wire := message;
  SerializeToString := id;
  parse_LWWValue p := match p with LWWValue t v => Ret (t, v) | _ => Raise DecodeError end;
  parse_SetValue p := match p with SetValue vs => Ret vs | _ => Raise DecodeError end;
  parse_SingleKeyCausalValue p :=
    match p with SingleKeyCausalValue c vs => Ret (c, vs) | _ => Raise DecodeError end;
  parse_MultiKeyCausalValue p :=
    match p with MultiKeyCausalValue c d vs => Ret (c, d, vs) | _ => Raise DecodeError end;
  parse_PriorityValue p :=
    match p with PriorityValue f v => Ret (f, v) | _ => Raise DecodeError end;
  serialize_KeyRequest := MKeyRequest;
  serialize_KeyAddressRequest := MKeyAddressRequest;
  parse_KeyResponse m := match m with MKeyResponse r => Ret r | _ => Raise DecodeError end;
  parse_KeyAddressResponse m :=
    match m with MKeyAddressResponse r => Ret r | _ => Raise DecodeError end
|}.

#[global] Instance model_codec_laws : CodecLaws model_codec.
Proof. by split. Qed.

(** ** Properties *)

(** C13: A value survives the network: whatever lattice [_serialize] accepts, a
    tuple with the payload and lattice type it returns is deserialised to a new
    object with the same content, and the existing objects are kept.  (The
    representation invariant of the ordered sets is the one of [insert].) *)
Theorem lattice_roundtrip `{C : Codec, !CodecLaws C} (w w1 : world wire) l pl t tup :
  wf_heap (w_heap w) →
  (∀ s vs, w_heap w !! s = Some (OListBasedOrderedSet vs) → Forall is_bytes vs →
     ordered is_bytes vs) →
  serialize (VRef l) w = (Ret (pl, t), w1) →
  kt_payload tup = pl → kt_lattice_type tup = LatticeType_value t →
  ∃ l' h', deserialize (inl tup) w1 = (Ret l', set_heap h' w) ∧
    length (w_heap w) ≤ l' ∧ prefix (w_heap w) h' ∧ same_content (w_heap w) l h' l'.
Proof.
  intros Hw Ho Hs Hp Ht. rewrite /serialize in Hs.
  apply bind_ret_inv in Hs as (w2 & w3 & [= <- <-] & Hs).
  destruct (isinstance_Lattice _ _); [|done].
  apply bind_ret_inv in Hs as ([pb t'] & w2 & Hl & Hs). injection Hs as <- <- <-.
  apply on_heap_inv in Hl as [Hl ->]. apply serialize_inv in Hl as [Hser Hh]; [|done].
  rewrite Hh set_heap_id. by apply (deserialize_serialized _ _ pb t').
Qed.

Definition example_client : AnnaTcpClient :=
  mkAnnaTcpClient "127.0.0.1" [6450%Z] (Thread_init "10.0.0.1" 0)
    {[ "k" := ["tcp://10.0.0.2:6200"]; "m" := ["tcp://10.0.0.3:6200"; "tcp://10.0.0.4:6200"] ]}%string
    SocketCache_init 9999.

(** Two keys, of which the servers hold ["k"]; the answers arrive in the other
    order and with a stale response between them. *)
Definition example_heap : heap := [OLWWPairLattice 7 "v"].
Definition example_tuple : KeyTuple (payload (Codec:=model_codec)) := mkKeyTuple "k" 1 0 (LWWValue 7 "v") 1 false [].
Definition example_responses : list (KeyResponse (payload (Codec:=model_codec))) :=
  [mkKeyResponse [mkKeyTuple "m" 0 1 (SetValue []) 2 false []] "10.0.0.1:0";
   mkKeyResponse [] "10.0.0.1:9998"; mkKeyResponse [example_tuple] "10.0.0.1:9999"].
Definition example_world : world (wire (Codec:=model_codec)) :=
  mkWorld example_client example_heap [] [] (MKeyResponse <$> example_responses) []
    (λ _, 0) 0.

Lemma example_heap_wf : wf_heap example_heap.
Proof. intros [|l] o Ho; simplify_eq/=; done. Qed.

Lemma example_heap_ordered s vs :
  example_heap !! s = Some (OListBasedOrderedSet vs) → Forall is_bytes vs → ordered is_bytes vs.
Proof. by destruct s. Qed.

Lemma lattice_roundtrip_witness :
  ∃ l' h', deserialize (inl example_tuple) example_world = (Ret l', set_heap h' example_world) ∧
    same_content example_heap 0 h' l'.
Proof.
  destruct (lattice_roundtrip example_world example_world 0 (LWWValue 7 "v") LT_LWW
    example_tuple example_heap_wf example_heap_ordered eq_refl eq_refl eq_refl)
    as (l' & h' & H1 & _ & _ & H2).
  by exists l', h'.
Defined.

(** Also: Request identifiers stay of the form [ip:n] with [0 <= n < 10000], and
    any 10000 consecutive ones are distinct. *)
Theorem request_ids_distinct `{C : Codec} (w : world wire) n :
  rid_ok (self w) → (Z.of_nat n ≤ 10000)%Z →
  ∃ ids w', map_each (seq 0 n) (λ _, get_request_id) w = (Ret ids, w') ∧
    length ids = n ∧ NoDup ids ∧ rid_ok (self w') ∧
    ∀ i id, ids !! i = Some id → id = request_id_of (self w) i.
Proof.
  intros Hr Hn. exists (request_ids (self w) n), (upd_self (advance_rid n) w).
  split; [|split; [|split; [by apply request_ids_NoDup|split]]].
  - clear Hn. revert w Hr. generalize 0 at 1 as s.
    induction n as [|n IH]; intros s w Hr; cbn [map_each seq].
    { destruct w as [[] ? ? ? ? ? ? ?]. rewrite /advance_rid /upd_self /set_rid /=.
      by rewrite Z.add_0_r (Z.mod_small _ _ Hr). }
    erewrite bind_ret by by apply get_request_id_run. erewrite bind_ret; last first.
    { apply IH. apply (advance_rid_ok 1). }
    by rewrite request_ids_S -(upd_self_advance n).
  - by rewrite /request_ids length_fmap length_seq.
  - apply advance_rid_ok.
  - intros i id. rewrite /request_ids list_lookup_fmap fmap_Some.
    by intros (j & [-> _]%lookup_seq & ->).
Qed.

Lemma request_ids_distinct_witness :
  rid_ok example_client ∧
  ∃ ids w', map_each (seq 0 3) (λ _, get_request_id) example_world = (Ret ids, w') ∧
    length ids = 3 ∧ NoDup ids ∧ rid_ok (self w') ∧
    ∀ i id, ids !! i = Some id → id = request_id_of example_client i.
Proof. split; [done|]. by apply (request_ids_distinct example_world 3). Defined.

Lemma zip_keys {A B} (xs : list A) (ys : list B) :
  length xs = length ys → (zip xs ys).*1 = xs.
Proof. intros H. apply fst_zip. lia. Qed.

Lemma request_ids_length c n : length (request_ids c n) = n.
Proof. by rewrite /request_ids length_fmap length_seq. Qed.

(** The responses to the requests just sent arrive. *)
Lemma recv_key_responses_all `{C : Codec} (w : world wire) ids rs :
  omap_each (response_puller w) parse_KeyResponse = Ret rs →
  length (answers kp_response_id ids rs) = length ids →
  ∃ q, recv_key_responses ids w =
    (Ret (answers kp_response_id ids rs), set_response_puller q w).
Proof.
  intros Hq Hlen.
  pose proof (recv_loop_spec parse_KeyResponse kp_response_id ids (length ids) [] _ _ Hq) as H.
  rewrite bool_decide_true in H; [|lia]. destruct H as (q2 & rs2 & H & _).
  exists q2. rewrite /recv_key_responses /on_response_puller /recv_response H.
  by rewrite take_ge; [|lia].
Qed.

Lemma get_run `{C : Codec, !CodecLaws C} hs stored stale ks pairs rs (w : world wire) :
  let keys := as_key_list ks in
  let ids := request_ids (self w) (length (distinct keys)) in
  (∀ s vs, hs !! s = Some (OListBasedOrderedSet vs) → Forall is_bytes vs →
     ordered is_bytes vs) →
  socket_cache_ok (pusher_cache (self w)) → rid_ok (self w) →
  Forall (cached (self w)) keys →
  omap_each (response_puller w) parse_KeyResponse = Ret rs →
  pairs ≡ₚ zip (distinct keys) ids →
  Forall2 (answers_key hs stored stale) pairs (answers kp_response_id ids rs) →
  ∃ kv w' workers msgs, AnnaTcpClient_get ks w = (Ret kv, w') ∧
    kv.*1 = distinct keys ∧
    (∀ key, key ∈ keys → result_ok hs stored (w_heap w') kv key) ∧
    sent w' = sent w ++ msgs ∧ workers.*1 = distinct keys ∧
    Forall (worker_ok (self w)) workers ∧
    Forall2 (sent_ok (self w) (pusher_cache (self w'))) (zip workers ids) msgs ∧
    (Z.of_nat (length (distinct keys)) ≤ 10000 → NoDup ids)%Z ∧
    key_address_puller w' = key_address_puller w ∧
    ∀ key, address_cache (self w') !! key =
      if decide (key ∈ keys ∧ stale key) then None else address_cache (self w) !! key.
Proof.
  intros keys ids Hhs Hsc Hr Hc Hq Hpairs Hans.
  destruct (workers_loop keys [] w Hc) as (workers & n & Hw & Hwk & Hwok); [done|].
  assert (length workers = length (distinct keys)) as Hlen.
  { rewrite -(length_fmap fst workers) Hwk. done. }
  destruct (get_send_loop workers [] (at_random n w)) as (sc & msgs & Hsend & Hsc' & _ & Hm);
    [done..| |].
  { eapply Forall_impl; [exact Hwok|]. by intros kw []. }
  rewrite Hlen in Hsend Hm. set (w2 := after_sends _ _ _ _) in Hsend.
  assert (length (zip (distinct keys) ids) = length ids) as Hz.
  { rewrite length_zip /ids request_ids_length. lia. }
  destruct (recv_key_responses_all w2 ids rs) as (q & Hrecv); [done| |].
  { by rewrite -(Forall2_length _ _ _ Hans) Hpairs. }
  assert (pairs.*1 ≡ₚ distinct keys) as Hkeys.
  { rewrite Hpairs zip_keys // /ids request_ids_length //. }
  destruct (get_responses_loop hs stored stale Hhs pairs _ (none_pairs keys)
    (set_response_puller q w2) Hans) as (kv & h' & Hproc & _ & Hkv & Hres & _).
  { rewrite Hkeys. apply distinct_NoDup_from. constructor. }
  { intros key Hin. rewrite Hkeys distinct_elem in Hin. apply none_pairs_get_from. by left. }
  { intros key Hin. rewrite Hkeys distinct_elem in Hin. rewrite Forall_forall in Hc.
    destruct (Hc key Hin) as (addrs & Ha & _). by exists addrs. }
  exists kv, (set_heap h' (upd_self (drop_stale stale pairs.*1) (set_response_puller q w2))), workers, msgs.
  split; [|repeat split; try done].
  - rewrite /AnnaTcpClient_get. erewrite bind_ret by exact Hw.
    erewrite bind_ret by exact Hsend. by erewrite bind_ret by exact Hrecv.
  - by rewrite Hkv none_pairs_keys.
  - intros key Hin. apply Hres. by rewrite Hkeys distinct_elem.
  - apply request_ids_NoDup.
  - intros key. cbn [self set_heap upd_self]. rewrite drop_stale_lookup. apply decide_ext.
    by rewrite Hkeys distinct_elem.
Qed.

(** C1: [get] on keys whose worker addresses are cached: it sends one GET request
    per distinct key to one of the key's addresses, with identifiers that are
    different for up to ten thousand keys, asks the routing tier nothing, and when
    the servers answer these requests, in any order and among responses to other
    requests, it returns a dictionary with exactly the requested keys that maps a
    key to a lattice with the content the servers hold and to [None] where they hold
    none.  The addresses of exactly those keys that the servers called stale leave
    the cache. *)
Theorem get_correct `{C : Codec, !CodecLaws C} hs stored stale ks pairs rs (w : world wire) :
  let keys := as_key_list ks in
  let ids := request_ids (self w) (length (distinct keys)) in
  (∀ s vs, hs !! s = Some (OListBasedOrderedSet vs) → Forall is_bytes vs →
     ordered is_bytes vs) →
  socket_cache_ok (pusher_cache (self w)) → rid_ok (self w) →
  Forall (cached (self w)) keys →
  omap_each (response_puller w) parse_KeyResponse = Ret rs →
  pairs ≡ₚ zip (distinct keys) ids →
  Forall2 (answers_key hs stored stale) pairs (answers kp_response_id ids rs) →
  ∃ kv w' workers msgs, AnnaTcpClient_get ks w = (Ret kv, w') ∧
    kv.*1 = distinct keys ∧
    (∀ key, key ∈ keys → result_ok hs stored (w_heap w') kv key) ∧
    sent w' = sent w ++ msgs ∧ workers.*1 = distinct keys ∧
    Forall (worker_ok (self w)) workers ∧
    Forall2 (sent_ok (self w) (pusher_cache (self w'))) (zip workers ids) msgs ∧
    (Z.of_nat (length (distinct keys)) ≤ 10000 → NoDup ids)%Z ∧
    key_address_puller w' = key_address_puller w ∧
    ∀ key, address_cache (self w') !! key =
      if decide (key ∈ keys ∧ stale key) then None else address_cache (self w) !! key.
Proof. apply get_run. Qed.

Lemma example_cached : Forall (cached example_client) ["k"; "m"; "k"]%string.
Proof.
  assert (cached example_client "k" ∧ cached example_client "m") as [].
  { split; eexists; (split; [reflexivity|]); by repeat constructor. }
  by repeat constructor.
Qed.

Lemma socket_cache_init_ok : socket_cache_ok SocketCache_init.
Proof. split; [|constructor]. intros addr i. simpl. by rewrite lookup_empty lookup_nil. Qed.

Lemma get_correct_witness :
  ∃ kv w', AnnaTcpClient_get (KeyList ["k"; "m"; "k"]%string) example_world = (Ret kv, w') ∧
    kv.*1 = ["k"; "m"]%string ∧
    result_ok example_heap {["k"%string := 0]} (w_heap w') kv "k" ∧ dget "m"%string kv = Some None ∧
    address_cache (self w') !! "k"%string = address_cache (self example_world) !! "k"%string.
Proof.
  destruct (get_correct example_heap {["k"%string := 0]} (λ _, false) (KeyList ["k"; "m"; "k"]%string)
    [("m", "10.0.0.1:0"); ("k", "10.0.0.1:9999")]%string example_responses example_world)
    as (kv & w' & _ & _ & Hg & Hk & Hr & _ & _ & _ & _ & _ & _ & Hc).
  - exact example_heap_ordered.
  - apply socket_cache_init_ok.
  - done.
  - exact example_cached.
  - done.
  - apply Permutation_swap.
  - constructor; [|constructor; [|constructor]]; (split; [done|]); eexists;
      (split; [done|]); (split; [done|]); (split; [done|]).
    + by rewrite lookup_singleton_ne.
    + rewrite lookup_singleton_eq. split; [done|]. exists (LWWValue 7 "v"), LT_LWW.
      by repeat constructor.
  - exists kv, w'. split; [done|]. split; [done|]. split; [apply Hr; left|].
    split; [apply (Hr "m"%string); set_solver|]. rewrite Hc. case_decide as Hd; [by destruct Hd|done].
Defined.

(** [put], with what it leaves for the next operation. *)
Lemma put_run `{C : Codec, !CodecLaws C} stored_ok stale
    (items : list (string * loc * (pbmsg * LatticeType))) pairs rs (w : world wire) :
  let keys := items.*1.*1 in
  let ids := request_ids (self w) (length items) in
  socket_cache_ok (pusher_cache (self w)) → rid_ok (self w) → NoDup keys →
  Forall (item_ok (self w) (w_heap w)) items →
  omap_each (response_puller w) parse_KeyResponse = Ret rs →
  pairs ≡ₚ zip keys ids →
  Forall2 (acknowledges stored_ok stale) pairs (answers kp_response_id ids rs) →
  ∃ results w' msgs,
    AnnaTcpClient_put (KeyList keys) (VList (VRef <$> items.*1.*2)) w =
      (Ret (PutResults results), w') ∧
    (∀ key, dget key results = if decide (key ∈ keys) then Some (stored_ok key) else None) ∧
    sent w' = sent w ++ msgs ∧
    Forall2 (put_sent_ok (self w) (pusher_cache (self w'))) (zip items ids) msgs ∧
    w_heap w' = w_heap w ∧ socket_cache_ok (pusher_cache (self w')) ∧ rid_ok (self w') ∧
    ∀ key, address_cache (self w') !! key =
      if decide (key ∈ keys ∧ stale key) then None else address_cache (self w) !! key.
Proof.
  intros keys ids Hsc Hr Hnd Hit Hq Hpairs Hans.
  destruct (put_send_loop items [] w Hsc Hr Hit) as (sc & msgs & pos & Hsend & Hsc' & _ & Hm).
  set (w2 := at_random _ _) in Hsend.
  assert (length keys = length items) as Hlen by (by rewrite /keys !length_fmap).
  assert (length (zip keys ids) = length ids) as Hz.
  { rewrite length_zip /ids request_ids_length. lia. }
  destruct (recv_key_responses_all w2 ids rs) as (q & Hrecv); [done| |].
  { by rewrite -(Forall2_length _ _ _ Hans) Hpairs. }
  assert (pairs.*1 ≡ₚ keys) as Hkeys.
  { rewrite Hpairs zip_keys // /ids request_ids_length //. }
  assert (∀ key, key ∈ keys → is_Some (address_cache (self w) !! key)) as Hcs.
  { intros key (kl & -> & (it & -> & Hin)%list_elem_of_fmap)%list_elem_of_fmap.
    rewrite Forall_forall in Hit. destruct (Hit it Hin) as [(addrs & Ha & _) _]. by exists addrs. }
  destruct (put_responses_loop stored_ok stale pairs _ [] (set_response_puller q w2) Hans)
    as (results & Hproc & Hin & Hout); [by rewrite Hkeys| |].
  { intros key Hkey. rewrite Hkeys in Hkey. by apply Hcs. }
  exists results, (upd_self (drop_stale stale pairs.*1) (set_response_puller q w2)), msgs.
  split; [|split; [|split; [done|split; [exact Hm|split; [done|split; [done|split; [apply advance_rid_ok|]]]]]]].
  - rewrite /AnnaTcpClient_put (put_pairs_zip items). erewrite bind_ret by exact Hsend.
    lazy beta iota. erewrite bind_ret by exact Hrecv. by erewrite bind_ret by exact Hproc.
  - intros key. case_decide as Hk; [apply Hin|apply Hout]; by rewrite Hkeys.
  - intros key. cbn [self upd_self]. rewrite drop_stale_lookup. apply decide_ext. by rewrite Hkeys.
Qed.

(** C2: [put] on different keys whose worker addresses are cached and values that
    can be serialised: it sends one PUT request per pair, with the serialised value
    and its own identifier, to one of the key's addresses, and when the servers
    answer, in any order, it returns the dictionary that says for each key
    whether the servers reported no error.  The addresses of exactly those keys
    that the servers called stale leave the cache; the lattices are unchanged. *)
Theorem put_correct `{C : Codec, !CodecLaws C} stored_ok stale
    (items : list (string * loc * (pbmsg * LatticeType))) pairs rs (w : world wire) :
  let keys := items.*1.*1 in
  let ids := request_ids (self w) (length items) in
  socket_cache_ok (pusher_cache (self w)) → rid_ok (self w) → NoDup keys →
  Forall (item_ok (self w) (w_heap w)) items →
  omap_each (response_puller w) parse_KeyResponse = Ret rs →
  pairs ≡ₚ zip keys ids →
  Forall2 (acknowledges stored_ok stale) pairs (answers kp_response_id ids rs) →
  ∃ results w' msgs,
    AnnaTcpClient_put (KeyList keys) (VList (VRef <$> items.*1.*2)) w =
      (Ret (PutResults results), w') ∧
    (∀ key, dget key results = if decide (key ∈ keys) then Some (stored_ok key) else None) ∧
    sent w' = sent w ++ msgs ∧
    Forall2 (put_sent_ok (self w) (pusher_cache (self w'))) (zip items ids) msgs ∧
    w_heap w' = w_heap w ∧
    ∀ key, address_cache (self w') !! key =
      if decide (key ∈ keys ∧ stale key) then None else address_cache (self w) !! key.
Proof.
  intros keys ids Hsc Hr Hnd Hit Hq Hpairs Hans.
  destruct (put_run stored_ok stale items pairs rs w Hsc Hr Hnd Hit Hq Hpairs Hans)
    as (results & w' & msgs & H1 & H2 & H3 & H4 & H5 & _ & _ & H6).
  by exists results, w', msgs.
Qed.

Definition example_acks : list (KeyResponse (payload (Codec:=model_codec))) :=
  [mkKeyResponse [mkKeyTuple "k" 0 0 (SetValue []) 0 true []] "10.0.0.1:9999"].
Definition example_put_world : world (wire (Codec:=model_codec)) :=
  mkWorld example_client example_heap [] [] (MKeyResponse <$> example_acks) [] (λ _, 0) 0.

Lemma put_correct_witness :
  ∃ results w', AnnaTcpClient_put (KeyList ["k"%string]) (VList [VRef 0]) example_put_world =
    (Ret (PutResults results), w') ∧ dget "k"%string results = Some true ∧
    address_cache (self w') !! "k"%string = None.
Proof.
  destruct (put_correct (λ _, true) (λ _, true) [("k"%string, 0, (LWWValue 7 "v", LT_LWW))]
    [("k", "10.0.0.1:9999")]%string example_acks example_put_world)
    as (results & w' & _ & Hp & Hr & _ & _ & _ & Hc).
  - apply socket_cache_init_ok.
  - done.
  - apply NoDup_singleton.
  - constructor; [|constructor]. split; [|by constructor].
    pose proof example_cached as Hc. by inversion Hc.
  - done.
  - done.
  - constructor; [|constructor]. split; [done|]. by do 2 eexists.
  - exists results, w'. split; [exact Hp|]. split; [by rewrite Hr|]. by rewrite Hc.
Defined.


(** The addresses a routing response gives for a key. *)
Definition routed (key : string) (r : KeyAddressResponse) : list string :=
  if bool_decide (kas_error r ≠ 0%Z) then []
  else mjoin (filter (λ t, t.1 = key) (kas_addresses r)).*2.

Lemma routed_fold key (ts : list (string * list string)) acc :
  foldl (λ result t, if decide (t.1 = key) then result ++ t.2 else result) acc ts =
  acc ++ mjoin (filter (λ t, t.1 = key) ts).*2.
Proof.
  revert acc. induction ts as [|t ts IH]; intros acc; simpl; [by rewrite app_nil_r|].
  rewrite IH filter_cons. case_decide; [|done]. by rewrite fmap_cons /= app_assoc.
Qed.

(** What the client is left with after a routing query. *)
Lemma query_routing_run `{C : Codec} (w : world wire) key port rs r rest :
  rid_ok (self w) → socket_cache_ok (pusher_cache (self w)) →
  omap_each (key_address_puller w) parse_KeyAddressResponse = Ret rs →
  answers kas_response_id [request_id_of (self w) 0] rs = r :: rest →
  ∃ w' sock, query_routing key port w = (Ret (routed key r), w') ∧
    sent w' = sent w ++ [(sock, serialize_KeyAddressRequest
      (mkKeyAddressRequest (get_key_address_connect_addr (ut (self w))) [key]
         (request_id_of (self w) 0)))] ∧
    sc_socks (pusher_cache (self w')) !! sock =
      Some ("tcp://" +:+ elb_addr (self w) +:+ ":" +:+ py_str port) ∧
    address_cache (self w') = address_cache (self w) ∧ w_heap w' = w_heap w ∧
    response_puller w' = response_puller w.
Proof.
  intros Hr Hsc Hq Ha.
  set (dst := "tcp://" +:+ elb_addr (self w) +:+ ":" +:+ py_str port).
  pose proof (SocketCache_get_spec dst _ Hsc) as Hget.
  destruct (SocketCache_get dst (pusher_cache (self w))) as [sock sc] eqn:E.
  destruct Hget as (_ & Hsock & _).
  pose proof (recv_loop_spec parse_KeyAddressResponse kas_response_id
    [request_id_of (self w) 0] 1 [] _ _ Hq) as Hrecv.
  rewrite Ha bool_decide_true in Hrecv; [|simpl; lia].
  destruct Hrecv as (q & rs2 & Hrecv & _).
  eexists. exists sock. split.
  - rewrite /query_routing. erewrite bind_ret by reflexivity.
    erewrite bind_ret by (by apply get_request_id_run). erewrite bind_ret by reflexivity.
    erewrite bind_ret by (by rewrite /pusher_get /= -/dst E).
    erewrite bind_ret by reflexivity.
    erewrite bind_ret; last first.
    { rewrite /on_key_address_puller /recv_response. cbn [length]. by rewrite Hrecv. }
    erewrite bind_ret by reflexivity. rewrite /routed.
    case_bool_decide; [reflexivity|]. by rewrite routed_fold.
  - done.
Qed.

(** Also: For a key without cached addresses the client asks the routing tier: it
    sends one address request for that key to the load balancer, on one of its
    ports, waits for the response to this request, caches exactly the addresses
    the response lists for the key (none if the response reports an error), and
    picks one of them, or returns [None] when there are none. *)
Theorem routing_query_correct `{C : Codec} (w : world wire) key rs r rest :
  address_cache (self w) !! key = None ∨ address_cache (self w) !! key = Some [] →
  elb_ports (self w) ≠ [] → rid_ok (self w) → socket_cache_ok (pusher_cache (self w)) →
  omap_each (key_address_puller w) parse_KeyAddressResponse = Ret rs →
  answers kas_response_id [request_id_of (self w) 0] rs = r :: rest →
  ∃ a w' port sock, get_worker_address key true w = (Ret a, w') ∧
    port ∈ elb_ports (self w) ∧
    sent w' = sent w ++ [(sock, serialize_KeyAddressRequest
      (mkKeyAddressRequest (get_key_address_connect_addr (ut (self w))) [key]
         (request_id_of (self w) 0)))] ∧
    sc_socks (pusher_cache (self w')) !! sock =
      Some ("tcp://" +:+ elb_addr (self w) +:+ ":" +:+ py_str port) ∧
    address_cache (self w') = <[key:=routed key r]> (address_cache (self w)) ∧
    match a with Some a => a ∈ routed key r | None => routed key r = [] end.
Proof.
  intros Hmiss Hports Hr Hsc Hq Ha.
  destruct (random_choice_run (elb_ports (self w)) w Hports) as (port & Hp & Hch).
  destruct (query_routing_run (next_random w) key port rs r rest)
    as (w1 & sock & Hquery & Hsent & Hsock & Hcache & _); [done..|].
  set (w2 := upd_self (λ c, set_address_cache (<[key:=routed key r]> (address_cache c)) c) w1).
  assert (get_worker_address key true w =
    (match routed key r with
     | [] => mret None
     | addresses => a ← random_choice addresses; mret (Some a)
     end : M _ (worker true)) w2) as ->.
  { rewrite /get_worker_address. erewrite bind_ret by reflexivity.
    erewrite bind_ret; last first.
    { destruct Hmiss as [->| ->]; (erewrite bind_ret by exact Hch);
        (erewrite bind_ret by exact Hquery); reflexivity. }
    erewrite bind_ret by reflexivity. rewrite /= lookup_insert_eq. by destruct (routed key r). }
  assert (address_cache (self w2) = <[key:=routed key r]> (address_cache (self w))) as Hc2.
  { by rewrite /= Hcache. }
  destruct (routed key r) as [|a1 l1] eqn:Er.
  { by exists None, w2, port, sock. }
  destruct (random_choice_run (a1 :: l1) w2) as (a & Hin & Hpick); [done|].
  exists (Some a), (next_random w2), port, sock.
  split; [by erewrite bind_ret by exact Hpick|done].
Qed.

Definition example_routing_world : world (wire (Codec:=model_codec)) :=
  mkWorld example_client [] [] [] []
    [MKeyAddressResponse (mkKeyAddressResponse [("x", ["tcp://10.0.0.9:6200"])] 0 "10.0.0.1:9999")]%string
    (λ _, 0) 0.

Lemma routing_query_correct_witness :
  ∃ a w', get_worker_address "x" true example_routing_world = (Ret a, w') ∧
    address_cache (self w') !! "x"%string = Some ["tcp://10.0.0.9:6200"%string].
Proof.
  destruct (routing_query_correct example_routing_world "x"
    [mkKeyAddressResponse [("x", ["tcp://10.0.0.9:6200"])] 0 "10.0.0.1:9999"]%string
    (mkKeyAddressResponse [("x", ["tcp://10.0.0.9:6200"])] 0 "10.0.0.1:9999")%string [])
    as (a & w' & port & sock & Hg & _ & _ & _ & Hc & _);
    [by left|done|done|apply socket_cache_init_ok|done|done|].
  exists a, w'. split; [exact Hg|]. by rewrite Hc lookup_insert_eq.
Defined.

Section GetAll.
Context `{C : Codec}.
Implicit Types (w : world wire).

(** The identifiers [get_all] waits for: those of the last key with workers,
    and of these the last. *)
Lemma get_all_send_ids workers keys acc w r w' :
  fold_each keys acc (get_all_send workers) w = (Ret r, w') →
  (∀ ids, acc = Some ids → length ids = 1) → ∀ ids, r = Some ids → length ids = 1.
Proof.
  revert acc w. induction keys as [|key keys IH]; intros acc w Hf Hacc ids Hids.
  { injection Hf as <- <-. by apply Hacc. }
  cbn [fold_each] in Hf. apply bind_ret_inv in Hf as (acc1 & w1 & Hs & Hf).
  refine (IH acc1 w1 Hf _ ids Hids). clear IH Hf Hids ids. intros ids ->.
  rewrite /get_all_send in Hs. destruct (dget key workers) as [[[|a l]|]|]; try done.
  - injection Hs as -> _. by apply Hacc.
  - apply bind_ret_inv in Hs as (rt & w2 & _ & Hs).
    apply bind_ret_inv in Hs as (req & w3 & _ & Hs). by injection Hs as <- <-.
  - injection Hs as -> _. by apply Hacc.
Qed.

Lemma recv_key_responses_in ids w rs w' :
  recv_key_responses ids w = (Ret rs, w') →
  length rs = length ids ∧ Forall (λ r, kp_response_id r ∈ ids) rs.
Proof.
  rewrite /recv_key_responses /on_response_puller.
  destruct (recv_response _ _ _ _) as [o q] eqn:E. intros [= -> _].
  apply recv_loop_in in E as (rs' & -> & Hl & Hf). by rewrite app_nil_l.
Qed.

End GetAll.

(** Also: [get_all] does not collect all versions: however many keys it was given
    and however many replicas hold them, a call that returns has waited for one
    response, and the result is what the tuples of that response make of the
    dictionary of [None]s. *)
Theorem get_all_one_response `{C : Codec} keys kv (w w' : world wire) :
  AnnaTcpClient_get_all (KeyList keys) w = (Ret kv, w') →
  ∃ w1 r, fold_each (kp_tuples r) (none_pairs keys) get_all_tuple w1 = (Ret kv, w').
Proof.
  rewrite /AnnaTcpClient_get_all. intros Hg.
  apply bind_ret_inv in Hg as (workers & w1 & _ & Hg).
  apply bind_ret_inv in Hg as ([ids|] & w2 & Hs & Hg); [|done].
  assert (length ids = 1) as Hl by (by eapply get_all_send_ids).
  apply bind_ret_inv in Hg as (rs & w3 & Hr & Hg).
  apply recv_key_responses_in in Hr as [Hlen _].
  destruct rs as [|r [|]]; simpl in *; [lia| |lia].
  exists w3, r. apply bind_ret_inv in Hg as (kv' & w4 & Hg & Hret). by injection Hret as <- <-.
Qed.

Definition example_all_world : world (wire (Codec:=model_codec)) :=
  mkWorld example_client [] [] []
    [MKeyResponse (mkKeyResponse [mkKeyTuple "m" 1 0 (LWWValue 7 "v") 0 false []] "10.0.0.1:1")]
    [] (λ _, 0) 0.

Lemma get_all_one_response_witness :
  AnnaTcpClient_get_all (KeyList ["m"%string]) example_all_world =
    (Ret [("m"%string, Some 0)], (AnnaTcpClient_get_all (KeyList ["m"%string]) example_all_world).2) ∧
  ∃ w1 (r : KeyResponse payload),
    fold_each (kp_tuples r) (none_pairs ["m"%string]) get_all_tuple w1 =
    (Ret [("m"%string, Some 0)],
     (AnnaTcpClient_get_all (KeyList ["m"%string]) example_all_world).2).
Proof.
  split; [vm_compute; reflexivity|].
  apply (get_all_one_response ["m"%string] _ example_all_world). vm_compute; reflexivity.
Defined.

(** Statements that send nothing, whatever their outcome. *)
Section Keeps.
Context `{C : Codec}.
Implicit Types (w : world wire).

Definition keeps_sent {A} (m : M (world wire) A) : Prop := ∀ w, sent (m w).2 = sent w.

Lemma keeps_sent_bind {A B} (m : M (world wire) A) (k : A → M (world wire) B) :
  keeps_sent m → (∀ a, keeps_sent (k a)) → keeps_sent (m ≫= k).
Proof.
  intros Hm Hk w. rewrite /mbind /M_bind. specialize (Hm w).
  destruct (m w) as [[a| | |] w1]; simpl in *; [by rewrite Hk|done..].
Qed.

Lemma keeps_map_each {A B} (xs : list A) (f : A → M (world wire) B) :
  (∀ x, keeps_sent (f x)) → keeps_sent (map_each xs f).
Proof.
  intros Hf. induction xs as [|x xs IH]; [done|]. cbn [map_each].
  apply keeps_sent_bind; [done|]. intros y. by apply keeps_sent_bind.
Qed.

Lemma keeps_on_heap {A} (m : M heap A) : keeps_sent (on_heap m).
Proof. intros w. rewrite /on_heap. by destruct (m (w_heap w)). Qed.

Lemma keeps_prepare ks : keeps_sent (prepare_data_request ks).
Proof.
  apply keeps_sent_bind; [done|]. intros id. apply keeps_sent_bind; [done|]. intros addr.
  apply keeps_sent_bind; [|done]. apply keeps_map_each. intros key.
  intros w. rewrite /mbind /M_bind /=. by destruct (address_cache (self w) !! key);
    [rewrite /pb_uint; case_bool_decide|].
Qed.

Lemma keeps_serialize v : keeps_sent (serialize v).
Proof.
  apply keeps_sent_bind; [done|]. intros w1. case_match; [|done]. destruct v; try done.
  apply keeps_sent_bind; [apply keeps_on_heap|done].
Qed.

End Keeps.

(** Also: [put_all] cannot store anything: it returns [False] when no worker is
    known and otherwise raises before the first PUT request is sent; it never
    returns [True]. *)
Theorem put_all_never_succeeds `{C : Codec} key value (w : world wire) :
  let '(o, w') := AnnaTcpClient_put_all key value w in
  o ≠ Ret true ∧ sent w' = sent (get_worker_address key false w).2.
Proof.
  rewrite /AnnaTcpClient_put_all.
  destruct (get_worker_address key false w) as [[wa| | |] w1] eqn:E;
    rewrite /mbind /M_bind E; [|done..].
  destruct wa as [[|a l]|]; [done| |done].
  pose proof (keeps_prepare (OneKey key) w1) as Hp.
  destruct (prepare_data_request (OneKey key) w1) as [[rt| | |] w2]; [|done..].
  pose proof (keeps_serialize value w2) as Hv.
  destruct (serialize value w2) as [[pt| | |] w3]; split; (done || by rewrite -Hp).
Qed.

(** Also: [_prepare_data_request] given a name instead of a list, as [get_all] and
    [put_all] call it, prepares one tuple per character of the name. *)
Theorem string_request_splits `{C : Codec} ks (w w' : world wire) req tuples :
  prepare_data_request ks w = (Ret (req, tuples), w') →
  kt_key <$> kr_tuples req =
    match ks with OneKey key => str_chars key | KeyList keys => keys end ∧
  tuples = seq 0 (length (kr_tuples req)).
Proof.
  rewrite /prepare_data_request. intros Hp.
  apply bind_ret_inv in Hp as (id & w1 & _ & Hp).
  apply bind_ret_inv in Hp as (addr & w2 & _ & Hp).
  apply bind_ret_inv in Hp as (tups & w3 & Hm & Hp).
  injection Hp as <- <- <-. split; [|done]. simpl.
  assert (kt_key <$> tups = iter_keys ks) as Hk; [|by destruct ks].
  revert tups w2 w3 Hm. generalize (iter_keys ks) as keys.
  induction keys as [|key keys IH]; intros tups w2 w3 Hm; cbn [map_each] in Hm.
  { by injection Hm as <- <-. }
  apply bind_ret_inv in Hm as (t & w4 & Ht & Hm).
  apply bind_ret_inv in Hm as (ts & w5 & Hts & Hm). injection Hm as <- <-.
  rewrite fmap_cons (IH _ _ _ Hts). f_equal.
  apply bind_ret_inv in Ht as (w6 & w7 & _ & Ht).
  apply bind_ret_inv in Ht as (size & w8 & _ & Ht). by injection Ht as <- <-.
Qed.

Lemma string_request_splits_witness :
  ∃ req tuples w', prepare_data_request (OneKey "ab") example_world = (Ret (req, tuples), w') ∧
    kt_key <$> kr_tuples req = ["a"; "b"]%string.
Proof.
  eexists _, _, _. split; [vm_compute; reflexivity|].
  by eapply (string_request_splits (OneKey "ab") example_world).
Defined.

(** Also: Causal values cannot be read back: for every tuple with a causal lattice
    type whose payload parses, [_deserialize] raises [ValueError], since the
    clock field of a message is no [dict]. *)
Theorem deserialize_causal_raises `{C : Codec} (w : world wire) tup :
  (kt_lattice_type tup = LatticeType_value LT_SINGLE_CAUSAL ∧
     is_Ret (parse_SingleKeyCausalValue (kt_payload tup))) ∨
  (kt_lattice_type tup = LatticeType_value LT_MULTI_CAUSAL ∧
     is_Ret (parse_MultiKeyCausalValue (kt_payload tup))) →
  deserialize (inl tup) w = (Raise ValueError, w).
Proof.
  rewrite /deserialize. intros [[-> Hp]|[-> Hp]]; cbn [LatticeType_value].
  - do 3 rewrite bool_decide_false //. rewrite bool_decide_true //.
    destruct (parse_SingleKeyCausalValue (kt_payload tup)); try done.
    rewrite /mbind /M_bind /=. by rewrite /on_heap /= set_heap_id.
  - do 4 rewrite bool_decide_false //. rewrite bool_decide_true //.
    rewrite /deserialize_multi_causal.
    destruct (parse_MultiKeyCausalValue (kt_payload tup)) as [[[vc deps] vs]| | |]; try done.
    rewrite /mbind /M_bind /=. by rewrite /on_heap /= set_heap_id.
Qed.

Lemma deserialize_causal_raises_witness :
  deserialize (inl (mkKeyTuple "k" 3 0 (SingleKeyCausalValue [("n"%string, 1%Z)] []) 1 false []))
    example_world = (Raise ValueError, example_world).
Proof. apply (deserialize_causal_raises example_world). by left. Defined.
