(* ===== verification/ClientServer.v ===== *)
(** * The client and its servers

    What [put] stores, [get] returns.  The storage servers are programs of their
    own; here is the specification that the client relies on: they keep for each
    key the payload and the type of the last PUT request, and answer GET requests
    from what they keep. *)

From S2P Require Import Prelude Objects OrderedSet Lattices LatticeProps Transport Client ClientProps Messages.

Section Server.
Context `{C : Codec, !CodecLaws C}.

(** [ParseFromString] of the request, which only the servers call. *)
Context (parse_KeyRequest : wire → outcome (KeyRequest payload)).
Hypothesis parse_serialize_KeyRequest : ∀ r, parse_KeyRequest (serialize_KeyRequest r) = Ret r.

(** ** Specification of the servers *)

(** Payload and lattice type by key. *)
Definition server_state : Type := gmap string (payload * Z).

Definition server_put (st : server_state) (tup : KeyTuple payload) : server_state :=
  <[kt_key tup := (kt_payload tup, kt_lattice_type tup)]> st.

Definition server_step (st : server_state) (m : nat * wire) : server_state :=
  match parse_KeyRequest m.2 with
  | Ret r => match kr_type r with PUT => foldl server_put st (kr_tuples r) | _ => st end
  | _ => st
  end.

(** What the servers keep after the messages that the client sent. *)
Definition server_after (msgs : list (nat * wire)) : server_state := foldl server_step ∅ msgs.

(** The answer to the GET request [ki.2] for the key [ki.1]. *)
Definition answers_get (st : server_state) (ki : string * string) (r : KeyResponse payload) : Prop :=
  kp_response_id r = ki.2 ∧ ∃ tup, kp_tuples r = [tup] ∧ kt_key tup = ki.1 ∧
    kt_invalidate tup = false ∧
    match st !! ki.1 with
    | None => kt_error tup ≠ NO_ERROR
    | Some pt => kt_error tup = NO_ERROR ∧ (kt_payload tup, kt_lattice_type tup) = pt
    end.

(** ** What they keep of a [put] *)

Notation item := (string * loc * (pbmsg * LatticeType))%type.
Implicit Types (it : item) (items : list item) (st : server_state).

Definition kept it : payload * Z :=
  (SerializeToString it.2.1, LatticeType_value it.2.2).

Lemma server_step_put c sc it id m st :
  put_sent_ok c sc (it, id) m → server_step st m = <[it.1.1 := kept it]> st.
Proof. intros [_ Hm]. by rewrite /server_step Hm parse_serialize_KeyRequest. Qed.

Lemma server_after_put c sc items ids msgs st :
  length items = length ids → NoDup items.*1.*1 →
  Forall2 (put_sent_ok c sc) (zip items ids) msgs →
  ∀ it, it ∈ items → foldl server_step st msgs !! it.1.1 = Some (kept it).
Proof.
  revert ids msgs st.
  assert (∀ its ids msgs st key, key ∉ its.*1.*1 →
    Forall2 (put_sent_ok c sc) (zip its ids) msgs →
    foldl server_step st msgs !! key = st !! key) as Hother.
  { induction its as [|it its IH]; intros ids msgs st key Hk Hf.
    { by apply Forall2_nil_inv_l in Hf as ->. }
    destruct ids as [|id ids]; [by apply Forall2_nil_inv_l in Hf as ->|].
    apply Forall2_cons_inv_l in Hf as (m & msgs' & Hm & Hf & ->).
    rewrite !fmap_cons not_elem_of_cons in Hk. destruct Hk as [Hne Hk]. cbn [foldl].
    rewrite (IH ids msgs' _ key Hk Hf) (server_step_put _ _ _ _ _ _ Hm).
    by apply lookup_insert_ne, not_eq_sym. }
  induction items as [|it items IH]; intros ids msgs st Hlen Hnd Hf it' Hit.
  { by apply elem_of_nil in Hit. }
  destruct ids as [|id ids]; [done|]. rewrite !fmap_cons in Hnd.
  apply NoDup_cons in Hnd as [Hn Hnd].
  apply Forall2_cons_inv_l in Hf as (m & msgs' & Hm & Hf & ->). cbn [foldl].
  apply elem_of_cons in Hit as [->|Hit]; [|eapply IH; eauto].
  by rewrite (Hother items ids msgs' _ _ Hn Hf) (server_step_put _ _ _ _ _ _ Hm) lookup_insert_eq.
Qed.

(** Where the items are, as [get] is specified. *)
Definition locations items : gmap string loc := list_to_map items.*1.

Lemma locations_item items it :
  NoDup items.*1.*1 → it ∈ items → locations items !! it.1.1 = Some it.1.2.
Proof.
  intros Hnd Hit. apply elem_of_list_to_map_1; [done|].
  apply list_elem_of_fmap. exists it. by destruct it as [[]].
Qed.

Lemma answers_get_key h st items key id r :
  NoDup items.*1.*1 → key ∈ items.*1.*1 →
  Forall (λ it, serializable h it.1.2 it.2.1 it.2.2) items →
  (∀ it, it ∈ items → st !! it.1.1 = Some (kept it)) →
  answers_get st (key, id) r → answers_key h (locations items) (λ _, false) (key, id) r.
Proof.
  intros Hnd Hkey Hser Hst (Hid & tup & Ht & Hk & Hi & Hm). split; [done|].
  exists tup. do 3 (split; [done|]).
  apply list_elem_of_fmap in Hkey as (kl & -> & (it & -> & Hit)%list_elem_of_fmap).
  cbn [fst snd] in *. rewrite (locations_item items it Hnd Hit).
  rewrite (Hst it Hit) in Hm. destruct Hm as [He [= Hp Hty]]. split; [done|].
  rewrite Forall_forall in Hser. exists it.2.1, it.2.2. by split; [apply Hser|].
Qed.

End Server.

Lemma Forall2_impl_elem {A B} (P Q : A → B → Prop) l k :
  Forall2 P l k → (∀ x y, x ∈ l → P x y → Q x y) → Forall2 Q l k.
Proof.
  induction 1 as [|x y l k HP _ IH]; intros HPQ; constructor; [apply HPQ; [left|done]|].
  apply IH. intros x' y' Hx. apply HPQ. by right.
Qed.

Lemma distinct_id keys : NoDup keys → distinct keys = keys.
Proof.
  rewrite /distinct. intros Hnd. enough (∀ acc, NoDup (acc ++ keys) →
    foldl add_key acc keys = acc ++ keys) as H by (by apply (H [])). clear Hnd.
  induction keys as [|k keys IH]; intros acc Hnd; [by rewrite app_nil_r|].
  cbn [foldl]. rewrite {2}/add_key decide_False.
  - rewrite IH -app_assoc //.
  - intros Hk. apply NoDup_app in Hnd as (_ & Hd & _). apply (Hd k Hk). left.
Qed.

Lemma item_serializable `{C : Codec} c h (items : list (string * loc * (pbmsg * LatticeType))) :
  Forall (item_ok c h) items → Forall (λ it, serializable h it.1.2 it.2.1 it.2.2) items.
Proof. intros Hit. eapply Forall_impl; [exact Hit|]. by intros it []. Qed.

(** C3: a client reads its own writes.  When the servers acknowledge the requests
    of a [put] and then answer those of a [get] for the same keys from what they
    keep of the messages sent, in any order and among other responses, [put]
    reports success for every key and [get] returns for each key a lattice with
    the content of the one that was put. *)
Theorem read_your_writes `{C : Codec, !CodecLaws C}
    (parse_KeyRequest : wire → outcome (KeyRequest payload))
    (items : list (string * loc * (pbmsg * LatticeType))) pairs pairs' rs rs' q (w w1 : world wire) o :
  let keys := items.*1.*1 in
  let ids := request_ids (self w) (length items) in
  let ids' := request_ids (self w1) (length items) in
  (∀ r, parse_KeyRequest (serialize_KeyRequest r) = Ret r) →
  (∀ s vs, w_heap w !! s = Some (OListBasedOrderedSet vs) → Forall is_bytes vs →
     ordered is_bytes vs) →
  socket_cache_ok (pusher_cache (self w)) → rid_ok (self w) → NoDup keys →
  Forall (item_ok (self w) (w_heap w)) items →
  omap_each (response_puller w) parse_KeyResponse = Ret rs →
  pairs ≡ₚ zip keys ids →
  Forall2 (acknowledges (λ _, true) (λ _, false)) pairs (answers kp_response_id ids rs) →
  AnnaTcpClient_put (KeyList keys) (VList (VRef <$> items.*1.*2)) w = (o, w1) →
  omap_each q parse_KeyResponse = Ret rs' →
  pairs' ≡ₚ zip keys ids' →
  Forall2 (answers_get (server_after parse_KeyRequest (sent w1))) pairs'
    (answers kp_response_id ids' rs') →
  (∃ results, o = Ret (PutResults results) ∧ ∀ key, key ∈ keys → dget key results = Some true) ∧
  ∃ kv w', AnnaTcpClient_get (KeyList keys) (set_response_puller q w1) = (Ret kv, w') ∧
    kv.*1 = keys ∧
    Forall (λ it, ∃ l', dget it.1.1 kv = Some (Some l') ∧
      same_content (w_heap w) it.1.2 (w_heap w') l') items.
Proof.
  intros keys ids ids' Hcodec Hord Hsc Hr Hnd Hit Hq Hp Hack Hput Hq' Hp' Hans.
  destruct (put_run _ _ items pairs rs w Hsc Hr Hnd Hit Hq Hp Hack)
    as (results & w1' & msgs & Hrun & Hres & Hsent & Hmsgs & Hheap & Hsc1 & Hr1 & Hcache).
  rewrite Hput in Hrun. injection Hrun as -> <-. split.
  { exists results. split; [done|]. intros key Hkey. by rewrite Hres decide_True. }
  assert (∀ key, address_cache (self w1) !! key = address_cache (self w) !! key) as Hsame.
  { intros key. by rewrite Hcache decide_False; [|intros []]. }
  assert (length keys = length items) as Hlen by (by rewrite /keys !length_fmap).
  assert (∀ it, it ∈ items → server_after parse_KeyRequest (sent w1) !! it.1.1 = Some (kept it)) as Hst.
  { rewrite /server_after Hsent foldl_app. eapply (server_after_put _ Hcodec); [|done|exact Hmsgs].
    by rewrite /request_ids length_fmap length_seq. }
  destruct (get_run (w_heap w) (locations items) (λ _, false) (KeyList keys) pairs' rs' (set_response_puller q w1))
    as (kv & w' & _ & _ & Hget & Hkv & Hok & _); cbn [as_key_list self response_puller set_response_puller];
    rewrite ?(distinct_id keys Hnd) ?Hlen; try done.
  - apply Forall_forall. intros key Hkey. rewrite /cached Hsame.
    apply list_elem_of_fmap in Hkey as (kl & -> & (it & -> & Hin)%list_elem_of_fmap).
    rewrite Forall_forall in Hit. by destruct (Hit it Hin).
  - apply (Forall2_impl_elem _ _ _ _ Hans). intros [key id] r Hin.
    apply answers_get_key; [done| |by eapply item_serializable|done].
    rewrite Hp' in Hin. by apply elem_of_zip_l in Hin.
  - exists kv, w'. split; [exact Hget|]. split; [by rewrite Hkv /= distinct_id|].
    apply Forall_forall. intros it Hin. specialize (Hok it.1.1).
    rewrite /result_ok (locations_item items it Hnd Hin) in Hok. apply Hok.
    apply list_elem_of_fmap. eexists. split; [done|]. by apply list_elem_of_fmap_2.
Qed.

(** *** Instance *)

Definition model_parse_KeyRequest (m : message) : outcome (KeyRequest pbmsg) :=
  match m with MKeyRequest r => Ret r | _ => Raise DecodeError end.

Definition example_item : string * loc * (pbmsg * LatticeType) :=
  ("k"%string, 0, (LWWValue 7 "v", LT_LWW)).

Definition example_write_world : world (wire (Codec:=model_codec)) :=
  mkWorld example_client example_heap [] []
    [MKeyResponse (mkKeyResponse [mkKeyTuple "k" 0 0 (SetValue []) 0 false []] "10.0.0.1:9999")]
    [] (λ _, 0) 0.

(** The response to the second request, which has the number 0 again. *)
Definition example_read : KeyResponse pbmsg :=
  mkKeyResponse [mkKeyTuple "k" 1 0 (LWWValue 7 "v") 0 false []] "10.0.0.1:0".

Lemma read_your_writes_witness :
  ∃ kv w', AnnaTcpClient_get (KeyList ["k"%string])
      (set_response_puller [MKeyResponse example_read]
        (AnnaTcpClient_put (KeyList ["k"%string]) (VList [VRef 0]) example_write_world).2) =
      (Ret kv, w') ∧
    ∃ l', dget "k"%string kv = Some (Some l') ∧ same_content example_heap 0 (w_heap w') l'.
Proof.
  destruct (read_your_writes (C := model_codec) model_parse_KeyRequest [example_item]
    [("k", "10.0.0.1:9999")]%string [("k", "10.0.0.1:0")]%string
    [mkKeyResponse [mkKeyTuple "k" 0 0 (SetValue []) 0 false []] "10.0.0.1:9999"] [example_read]
    [MKeyResponse example_read] example_write_world
    (AnnaTcpClient_put (KeyList ["k"%string]) (VList [VRef 0]) example_write_world).2
    (AnnaTcpClient_put (KeyList ["k"%string]) (VList [VRef 0]) example_write_world).1)
    as (_ & kv & w' & Hget & _ & Hkv).
  - done.
  - exact example_heap_ordered.
  - apply socket_cache_init_ok.
  - done.
  - apply NoDup_singleton.
  - constructor; [|constructor]. split; [|by constructor].
    pose proof example_cached as Hc. by inversion Hc.
  - done.
  - done.
  - constructor; [|constructor]. split; [done|]. by do 2 eexists.
  - apply surjective_pairing.
  - done.
  - done.
  - constructor; [|constructor]. split; [done|]. by eexists.
  - exists kv, w'. split; [exact Hget|]. by inversion Hkv.
Defined.
