(* ===== verification/ArgParse.v ===== *)
(** * Command lines

    The part of the standard library's [argparse] that the scripts use: options
    with one value, with [nargs=1], with [nargs='?'] and with
    [action='store_true'], positional arguments, [type=int], required options
    and required exclusive groups, [--opt=value], [-ovalue], unambiguous
    abbreviations and [-h].  A usage error exits with status 2, the help with
    status 0. *)

From S2P Require Import Prelude.

Inductive arg_action : Type :=
| AStore       (* one value *)
| AStoreOne    (* nargs=1: a list with one value *)
| AStoreOpt    (* nargs='?': a value or None *)
| AStoreTrue.

Inductive arg_val : Type :=
| ANone
| ABool (b : bool)
| AInt (z : Z)
| AStr (s : string)
| AList (vs : list arg_val).

Record arg_spec : Type := mkArg {
  arg_flags : list string;      (* empty for a positional argument *)
  arg_dest : string;
  arg_action_of : arg_action;
  arg_is_int : bool;
  arg_default : arg_val;
  arg_required : bool
}.

(** What an argument string is. *)
Inductive arg_class : Type :=
| CArg                                        (* a value *)
| COpt (spec : arg_spec) (explicit : option string)
| CHelp
| CUnknown                                    (* looks like an option *)
| CAmbiguous.

(** A parser: its arguments and the exclusive group that is required, if any. *)
Record arg_parser : Type := mkParser {
  parser_args : list arg_spec;
  parser_group : list string
}.

(** [-5] or [-.5]. *)
Fixpoint all_digits (s : string) : bool :=
  match s with
  | EmptyString => true
  | String c s' => is_digit c && all_digits s'
  end.

Definition negative_number (s : string) : bool :=
  match s with
  | String "-" (String _ _ as r) =>
      all_digits r ||
      match py_split1 "." r with
      | Some (a, String _ _ as b) => all_digits a && all_digits b
      | _ => false
      end
  | _ => false
  end.

(** All flags, with the spec they belong to; [None] is the help option. *)
Definition all_flags (specs : list arg_spec) : list (string * option arg_spec) :=
  [("-h", None); ("--help", None)]%string ++
  (specs ≫= λ sp, (λ f, (f, Some sp)) <$> arg_flags sp).

Definition opt_class (sp : option arg_spec) (explicit : option string) : arg_class :=
  match sp with Some sp => COpt sp explicit | None => CHelp end.

(** The text before the first [=] and the explicit value after it. *)
Definition split_eq (a : string) : string * option string :=
  match py_split1 "=" a with Some (o, v) => (o, Some v) | None => (a, None) end.

(** Options that [a] abbreviates. *)
Definition option_tuples (specs : list arg_spec) (a : string)
  : list (option arg_spec * option string) :=
  let flags := all_flags specs in
  if py_startswith "--" a then
    let '(o, v) := split_eq a in
    (λ f, (f.2, v)) <$> filter (λ f, py_startswith o f.1 = true) flags
  else
    match a with
    | String "-" (String c rest) =>
        flags ≫= λ f,
          if String.eqb f.1 (String "-" (String c EmptyString)) then [(f.2, Some rest)]
          else if py_startswith a f.1 then [(f.2, None)] else []
    | _ => []
    end.

Definition classify (specs : list arg_spec) (a : string) : arg_class :=
  match a with
  | String "-" (String _ _) =>
      match dget a (all_flags specs) with
      | Some sp => opt_class sp None
      | None =>
          let '(o, v) := split_eq a in
          match v, dget o (all_flags specs) with
          | Some _, Some sp => opt_class sp v
          | _, _ =>
              match option_tuples specs a with
              | [(sp, v)] => opt_class sp v
              | _ :: _ :: _ => CAmbiguous
              | [] => if negative_number a || str_has " " a then CArg else CUnknown
              end
          end
      end
  | _ => CArg
  end.

(** [type=int] and the shape of the stored value. *)
Definition convert (sp : arg_spec) (v : string) : outcome arg_val :=
  if arg_is_int sp
  then match py_int v with Ret z => Ret (AInt z) | _ => Raise (SystemExit 2) end
  else Ret (AStr v).

Definition stored (sp : arg_spec) (v : string) : outcome arg_val :=
  x ← convert sp v;
  match arg_action_of sp with
  | AStoreOne => Ret (AList [x])
  | _ => Ret x
  end.

(** What has been read so far: the values, the destinations that were given, the
    positional arguments still missing, and whether something was not
    recognised. *)
Record arg_state : Type := mkArgState {
  st_values : list (string * arg_val);
  st_seen : list string;
  st_positionals : list arg_spec;
  st_extras : bool
}.

Definition set_value (sp : arg_spec) (v : arg_val) (st : arg_state) : arg_state :=
  mkArgState (dset (arg_dest sp) v (st_values st)) (arg_dest sp :: st_seen st)
    (st_positionals st) (st_extras st).
Definition set_extra (st : arg_state) : arg_state :=
  mkArgState (st_values st) (st_seen st) (st_positionals st) true.

(** A second option of the exclusive group is an error. *)
Definition group_conflict (group : list string) (sp : arg_spec) (st : arg_state) : bool :=
  bool_decide (arg_dest sp ∈ group) &&
  existsb (λ d, bool_decide (d ∈ group) && negb (String.eqb d (arg_dest sp))) (st_seen st).

(** A value that no option takes: the next positional argument, or an extra. *)
Definition take_positional (v : string) (st : arg_state) : outcome arg_state :=
  match st_positionals st with
  | sp :: rest =>
      x ← convert sp v;
      Ret (mkArgState (dset (arg_dest sp) x (st_values st)) (arg_dest sp :: st_seen st)
             rest (st_extras st))
  | [] => Ret (set_extra st)
  end.

Fixpoint take_positionals (vs : list string) (st : arg_state) : outcome arg_state :=
  match vs with
  | [] => Ret st
  | v :: vs' => st' ← take_positional v st; take_positionals vs' st'
  end.

(** An option, with the strings that follow it. *)
Section Consume.
Variable p : arg_parser.

Definition is_value (a : string) : bool :=
  match classify (parser_args p) a with CArg => true | _ => false end.

Fixpoint consume (args : list string) (st : arg_state) : outcome arg_state :=
  match args with
  | [] => Ret st
  | a :: rest =>
      if String.eqb a "--" then take_positionals rest st
      else match classify (parser_args p) a with
      | CHelp => Raise (SystemExit 0)
      | CAmbiguous => Raise (SystemExit 2)
      | CUnknown => consume rest (set_extra st)
      | CArg => st' ← take_positional a st; consume rest st'
      | COpt sp explicit =>
          if group_conflict (parser_group p) sp st then Raise (SystemExit 2)
          else match arg_action_of sp, explicit, rest with
          | AStoreTrue, Some _, _ => Raise (SystemExit 2)
          | AStoreTrue, None, _ => consume rest (set_value sp (ABool true) st)
          | _, Some v, _ => x ← stored sp v; consume rest (set_value sp x st)
          | act, None, v :: rest' =>
              if is_value v && negb (String.eqb v "--")
              then x ← stored sp v; consume rest' (set_value sp x st)
              else match act with
                   | AStoreOpt => consume rest (set_value sp ANone st)
                   | _ => Raise (SystemExit 2)
                   end
          | AStoreOpt, None, [] => Ret (set_value sp ANone st)
          | _, None, [] => Raise (SystemExit 2)
          end
      end
  end.

(** The strings before a [--] that ends the options. *)
Fixpoint before_dashes (args : list string) : list string :=
  match args with
  | [] => []
  | a :: rest => if String.eqb a "--" then [] else a :: before_dashes rest
  end.

(** [parser.parse_args(argv)]: the values by destination. *)
Definition parse_args (argv : list string) : outcome (list (string * arg_val)) :=
  if existsb (λ a, match classify (parser_args p) a with CAmbiguous => true | _ => false end)
       (before_dashes argv)
  then Raise (SystemExit 2)
  else
    let init := mkArgState ((λ sp, (arg_dest sp, arg_default sp)) <$> parser_args p) []
                  (filter (λ sp, arg_flags sp = []) (parser_args p)) false in
    st ← consume argv init;
    if st_extras st
       || existsb (λ sp, arg_required sp && negb (bool_decide (arg_dest sp ∈ st_seen st)))
            (parser_args p)
       || (negb (bool_decide (parser_group p = []))
           && forallb (λ d, negb (bool_decide (d ∈ st_seen st))) (parser_group p))
    then Raise (SystemExit 2)
    else Ret (st_values st).

End Consume.

(** Reading a parsed value. *)
Definition arg_str (d : list (string * arg_val)) (k : string) : outcome (option string) :=
  match dget k d with
  | Some (AStr s) => Ret (Some s)
  | Some ANone => Ret None
  | Some _ => Raise TypeError
  | None => Raise AttributeError
  end.

Definition arg_int (d : list (string * arg_val)) (k : string) : outcome (option Z) :=
  match dget k d with
  | Some (AInt z) => Ret (Some z)
  | Some ANone => Ret None
  | Some _ => Raise TypeError
  | None => Raise AttributeError
  end.

Definition arg_bool (d : list (string * arg_val)) (k : string) : bool :=
  match dget k d with Some (ABool b) => b | _ => false end.

(** [args.k[0]] *)
Definition arg_int0 (d : list (string * arg_val)) (k : string) : outcome Z :=
  match dget k d with
  | Some (AList (AInt z :: _)) => Ret z
  | Some (AList []) => Raise IndexError
  | Some _ => Raise TypeError
  | None => Raise AttributeError
  end.
