(* ===== verification/Yaml.v ===== *)
(** * YAML and JSON documents

    The values that the YAML and JSON libraries return, with the operations of
    Python's dictionaries and lists on them.  Keys are strings. *)

From S2P Require Import Prelude.

Inductive yaml : Type :=
| YNull
| YBool (b : bool)
| YInt (z : Z)
| YStr (s : string)
| YList (l : list yaml)
| YMap (m : list (string * yaml)).

(** [y[k]] and [y[i]]. *)
Definition yaml_get (k : string) (y : yaml) : outcome yaml :=
  match y with
  | YMap m => py_getitem m k
  | _ => Raise TypeError
  end.

Definition yaml_nth (i : nat) (y : yaml) : outcome yaml :=
  match y with
  | YList l => py_nth l i
  | YMap _ => Raise KeyError
  | _ => Raise TypeError
  end.

Arguments yaml_get : simpl never.
Arguments yaml_nth : simpl never.

(** A change made in place to the value at [y[k]], [y[i]], or to each element
    of a list. *)
Definition at_key (k : string) (f : yaml → outcome yaml) (y : yaml) : outcome yaml :=
  v ← yaml_get k y;
  v' ← f v;
  match y with YMap m => Ret (YMap (dset k v' m)) | _ => Raise TypeError end.

Definition at_index (i : nat) (f : yaml → outcome yaml) (y : yaml) : outcome yaml :=
  v ← yaml_nth i y;
  v' ← f v;
  match y with YList l => Ret (YList (<[i:=v']> l)) | _ => Raise TypeError end.

Definition at_each (f : yaml → outcome yaml) (y : yaml) : outcome yaml :=
  match y with
  | YList l => l' ← omap_each l f; Ret (YList l')
  | YMap [] => Ret y
  | YStr EmptyString => Ret y
  | _ => Raise TypeError
  end.

(** What opening and parsing a file gives. *)
Inductive yaml_file : Type := YamlMissing | YamlInvalid | YamlDoc (y : yaml).

(** [bool(y)] *)
Definition yaml_true (y : yaml) : bool :=
  match y with
  | YNull | YBool false | YInt 0 | YStr EmptyString | YList [] | YMap [] => false
  | _ => true
  end.

(** [k in y] *)
Definition yaml_in (k : string) (y : yaml) : outcome bool :=
  match y with
  | YMap m => Ret (dmem k m)
  | YList l => Ret (existsb (λ v, match v with YStr s => String.eqb s k | _ => false end) l)
  | YStr s => Ret (py_contains k s)
  | _ => Raise TypeError
  end.

(** [y[k] = v], [del y[k]], [len(y)] *)
Definition yaml_set (k : string) (v : yaml) (y : yaml) : outcome yaml :=
  match y with YMap m => Ret (YMap (dset k v m)) | _ => Raise TypeError end.

Definition yaml_del (k : string) (y : yaml) : outcome yaml :=
  match y with
  | YMap m => if dmem k m then Ret (YMap (ddel k m)) else Raise KeyError
  | _ => Raise TypeError
  end.

Definition yaml_len (y : yaml) : outcome nat :=
  match y with
  | YMap m => Ret (length m)
  | YList l => Ret (length l)
  | YStr s => Ret (length (str_chars s))
  | _ => Raise TypeError
  end.

(** The keys of a dictionary, for a [for] loop, [y.keys()] or [y.copy()]; and its
    items. *)
Definition yaml_keys (y : yaml) : outcome (list string) :=
  match y with YMap m => Ret m.*1 | _ => Raise AttributeError end.

Definition yaml_items (y : yaml) : outcome (list (string * yaml)) :=
  match y with YMap m => Ret m | _ => Raise AttributeError end.

(** The strings a [for] loop over [y] visits. *)
Definition yaml_iter (y : yaml) : outcome (list yaml) :=
  match y with
  | YMap m => Ret (YStr <$> m.*1)
  | YList l => Ret l
  | YStr s => Ret (YStr <$> str_chars s)
  | _ => Raise TypeError
  end.

Arguments yaml_set : simpl never.
Arguments yaml_del : simpl never.
Arguments yaml_in : simpl never.
Arguments yaml_len : simpl never.

(** [y.get(k, d)] *)
Definition yaml_get_or (k : string) (d y : yaml) : outcome yaml :=
  match y with YMap m => Ret (default d (dget k m)) | _ => Raise AttributeError end.

(** ** Texts *)

Definition hex_digit (n : nat) : ascii := ascii_of_nat (if Nat.ltb n 10 then 48 + n else 87 + n).

(** A character in the text that [repr] makes of a string quoted with [q]. *)
Definition repr_char (q c : ascii) : string :=
  let n := nat_of_ascii c in
  let esc (s : string) := String "\" s in
  if Ascii.eqb c "\" || Ascii.eqb c q then esc (String c EmptyString)
  else if Nat.eqb n 10 then esc "n"%string
  else if Nat.eqb n 13 then esc "r"%string
  else if Nat.eqb n 9 then esc "t"%string
  else if Nat.ltb n 32 || Nat.eqb n 127
       then esc (String "x" (String (hex_digit (n / 16)) (String (hex_digit (n mod 16)) EmptyString)))
  else String c EmptyString.

Definition repr_string (s : string) : string :=
  let dq := ascii_of_nat 34 in
  let q := if str_has "'" s && negb (str_has dq s) then dq else "'"%char in
  String q EmptyString +:+
  String.concat EmptyString (repr_char q <$> list_ascii_of_string s) +:+
  String q EmptyString.

(** [repr(y)] and [str(y)]; characters outside ASCII count as printable. *)
Fixpoint yaml_repr (y : yaml) : string :=
  match y with
  | YNull => "None"
  | YBool b => if b then "True" else "False"
  | YInt z => py_str z
  | YStr s => repr_string s
  | YList l => "[" +:+ py_join ", " (yaml_repr <$> l) +:+ "]"
  | YMap m =>
      "{" +:+ py_join ", " ((λ kv, repr_string kv.1 +:+ ": " +:+ yaml_repr kv.2) <$> m) +:+ "}"
  end.

Definition yaml_str (y : yaml) : string := match y with YStr s => s | _ => yaml_repr y end.

(** The value as a string; [e] is raised for anything else. *)
Definition as_string (e : exn) (y : yaml) : outcome string :=
  match y with YStr s => Ret s | _ => Raise e end.

(** The value as the key of a dictionary or an element of a set: equal numbers
    and booleans are the same key, lists and dictionaries are none. *)
Inductive pykey : Type := KNone | KInt (z : Z) | KStr (s : string).

#[export] Instance pykey_eq_dec : EqDecision pykey.
Proof. solve_decision. Defined.

Definition as_key (y : yaml) : outcome pykey :=
  match y with
  | YNull => Ret KNone
  | YBool b => Ret (KInt (if b then 1 else 0)%Z)
  | YInt z => Ret (KInt z)
  | YStr s => Ret (KStr s)
  | YList _ | YMap _ => Raise TypeError
  end.
