(* ===== verification/Kube.v ===== *)
(** * The cluster's surroundings and the shared helpers
      (src/cluster/dinomo/shared/util.py)

    The cluster scripts act on a Kubernetes cluster, on files and on processes.
    These are not part of the sources: the class [Kube] has one function for
    each question the scripts ask, with the number of questions asked so far as
    an argument, so that the answers may change over time, and the state has
    the trace of everything the scripts did.  Messages printed or logged are
    left out. *)

From S2P Require Import Prelude Yaml.

(** ** What the scripts see and do *)

Record pod : Type := mkPod {
  pod_name : string;
  node_name : option string;
  containers : list string;
  pod_ip : option string;
  phase : string;
  restart_counts : list Z
}.

Class Kube : Type := {
  (** [list_namespaced_pod], with the label selector if there is one *)
  list_namespaced_pod : nat → option string → list pod;
  (** [list_node]: the addresses in each node's status *)
  list_node : nat → list (list string);
  (** the parsed content of a file *)
  yaml_content : string → yaml_file;
  (** whether a command exits with status 0 *)
  command_ok : nat → list string → bool;
  (** the output of [subprocess.getoutput] *)
  command_output : nat → string → string;
  (** [str(tar, 'utf-8')] of the archive with a file under a name *)
  tar_text : string → string → outcome string;
  (** [is_open] and [peek_stderr] of an exec stream *)
  stream_open : nat → bool;
  stream_stderr : nat → bool;
  (** [os.path.isfile] *)
  isfile : nat → string → bool;
  (** the numbers behind [random.choice] *)
  random_nat : nat → nat
}.

Inductive effect : Type :=
| ERun (command : list string) (cwd : string)
| EPopen (command : list string) (cwd : string)
| ESystem (command : string)
| ECreatePod (body : yaml)
| ECreateDaemonSet (body : yaml)
| EExec (pod container : string) (command : list string)
| EStdin (data : string)
| EBind (address : string)
| ESend (address message : string)
| ERequest (address message : string)
| EReply (message : string).

Record kstate : Type := mkKstate {
  asked : nat;
  trace : list effect;
  environ : list (string * string)
}.

Definition emit (e : effect) : M kstate unit :=
  modify (λ s, mkKstate (asked s) (trace s ++ [e]) (environ s)).

(** The next answer of a function of [Kube]. *)
Definition ask {A} (q : nat → A) : M kstate A := λ s,
  (Ret (q (asked s)), mkKstate (S (asked s)) (trace s) (environ s)).

Definition setenv (k v : string) : M kstate unit :=
  modify (λ s, mkKstate (asked s) (trace s) (dset k v (environ s))).

(** [os.environ[k]] and [k in os.environ]. *)
Definition getenv (k : string) : M kstate string :=
  s ← get_state; lift (py_getitem (environ s) k).
Definition hasenv (k : string) : M kstate bool := gets (λ s, dmem k (environ s)).

(** ** shared/util.py *)

(** Sets the value of the first pair with the name. *)
Fixpoint replace_yaml_pairs (pairs : list yaml) (name val : string) : outcome (list yaml) :=
  match pairs with
  | [] => Ret []
  | p :: rest =>
      n ← yaml_get "name" p;
      match n, p with
      | YStr n', YMap m =>
          if String.eqb n' name then Ret (YMap (dset "value"%string (YStr val) m) :: rest)
          else rest' ← replace_yaml_pairs rest name val; Ret (p :: rest')
      | _, _ => rest' ← replace_yaml_pairs rest name val; Ret (p :: rest')
      end
  end.

Definition replace_yaml_val (name val : string) (yaml_dict : yaml) : outcome yaml :=
  match yaml_dict with
  | YList pairs => pairs' ← replace_yaml_pairs pairs name val; Ret (YList pairs')
  | YMap [] => Ret yaml_dict
  | YStr EmptyString => Ret yaml_dict
  | _ => Raise TypeError
  end.

Section Util.
Context `{K : Kube}.
Notation W := (M kstate).

(** The handler of [load_yaml] reads [e.stderr], which a YAML error lacks. *)
Definition load_yaml (filename : string) (prefix : option string) : W yaml :=
  let filename := match prefix with
                  | Some (String _ _ as p) => os_path_join p filename
                  | _ => filename
                  end in
  match yaml_content filename with
  | YamlMissing => raise OSError
  | YamlInvalid => raise AttributeError
  | YamlDoc y => mret y
  end.

Definition run_process (command : list string) (current_workdir : string) : W unit :=
  emit (ERun command current_workdir) ;;
  ok ← ask (λ n, command_ok n command);
  if (ok : bool) then mret tt else raise (SystemExit 1).

Definition run_background_process (command : list string) (current_workdir : string) : W unit :=
  emit (EPopen command current_workdir).

Definition check_or_get_env_arg (arg_name : string) : W string :=
  b ← hasenv arg_name;
  if (b : bool) then getenv arg_name else raise ValueError.

Definition role (kind : string) : option string := Some ("role=" +:+ kind).

(** The loop of [get_pod_ips]: list again until every pod has an address and,
    if asked for, every pod is running. *)
Fixpoint get_pod_ips_loop (fuel : nat) (selector : option string) (is_running : bool)
  : W (list string) :=
  match fuel with
  | O => out_of_fuel
  | S fuel' =>
      pod_list ← ask (λ n, list_namespaced_pod n selector);
      let running := if is_running
                     then forallb (λ p, String.eqb (phase p) "Running") pod_list else true in
      match mapM pod_ip pod_list with
      | Some pod_ips => if running then mret pod_ips
                        else get_pod_ips_loop fuel' selector is_running
      | None => get_pod_ips_loop fuel' selector is_running
      end
  end.

Definition get_pod_ips (fuel : nat) (selector : option string) (is_running : bool)
  : W (list string) :=
  _ ← ask (λ n, list_namespaced_pod n selector);
  get_pod_ips_loop fuel selector is_running.

Definition get_previous_count (kind : string) : W Z :=
  items ← ask (λ n, list_namespaced_pod n (role kind));
  mret (Z.of_nat (length items)).

(** The loop over [nodes.items]; [None] when no node has the address. *)
Fixpoint hostname_loop (items : list (list string)) (ip : string) : outcome (option string) :=
  match items with
  | [] => Ret None
  | addresses :: rest =>
      a ← py_nth addresses 0;
      if String.eqb a ip then h ← py_nth addresses 1; Ret (Some h)
      else hostname_loop rest ip
  end.

Definition get_hostname_from_ip (ip : string) : W (option string) :=
  nodes ← ask list_node;
  lift (hostname_loop nodes ip).

Definition get_pod_from_ip (ip : string) : W pod :=
  pods ← ask (λ n, list_namespaced_pod n None);
  lift (py_nth (filter (λ p, pod_ip p = Some ip) pods) 0).

(** The loop over the exec stream; [commands] is what is left to write. *)
Fixpoint copy_loop (commands : list string) : W unit :=
  is_open ← ask stream_open;
  if (is_open : bool) then
    err ← ask stream_stderr;
    if (err : bool) then raise (SystemExit 1)
    else match commands with
         | c :: commands' => emit (EStdin c) ;; copy_loop commands'
         | [] => mret tt
         end
  else mret tt.

Definition copy_file_to_pod (file_path pod_name pod_path container : string) : W unit :=
  emit (EExec pod_name container ["tar"; "xmvf"; "-"; "-C"; pod_path]%string) ;;
  filename ← lift (py_last (py_split "/" file_path));
  text ← lift (tar_text file_path filename);
  copy_loop [text].

(** [random.choice(seq)]. *)
Definition choice {A} (seq : list A) : W A :=
  r ← ask random_nat;
  match seq !! (r mod length seq) with
  | Some a => mret a
  | None => raise IndexError
  end.

End Util.
