(* ===== verification/Cluster.v ===== *)
(** * Creating and growing a cluster (src/cluster/dinomo/cluster)

    [add_nodes.py], [remove_node.py], [create_cluster.py] and [run_cluster.py]
    as programs over the state of [Kube].  [fuel] bounds the polling loops,
    which wait for Kubernetes. *)

From S2P Require Import Prelude ArgParse Yaml Kube.

(** ** add_nodes.py *)

(** A container of a pod: pod name, container name, node name. *)
Notation pod_container := (string * string * option string)%type.

(** [set.add] and [set.difference], with the elements in the order in which they
    were added. *)
Definition set_add_new {A} `{EqDecision A} (s : list A) (x : A) : list A :=
  if decide (x ∈ s) then s else s ++ [x].
Definition set_difference {A} `{EqDecision A} (s1 s2 : list A) : list A :=
  filter (λ x, x ∉ s2) s1.

Definition get_current_pod_container_pairs (pods : list pod) : list pod_container :=
  foldl (λ s p, foldl (λ s c, set_add_new s (pod_name p, c, node_name p)) s (containers p))
    [] pods.

(** The role under which the pods of a kind of server run. *)
Definition kind_role (kind : string) : string :=
  if bool_decide (kind = "clover" ∨ kind = "asymnvm")%string then "memory"
  else if bool_decide (kind = "clover-bench" ∨ kind = "asymnvm-bench")%string then "benchmark"
  else kind.

(** [container['env']] with the addresses filled in. *)
Definition fill_env (route_str mon_str management_ip seed_ip : string) (env : yaml)
  : outcome yaml :=
  env ← replace_yaml_val "ROUTING_IPS" route_str env;
  env ← replace_yaml_val "MON_IPS" mon_str env;
  env ← replace_yaml_val "MGMT_IP" management_ip env;
  replace_yaml_val "SEED_IP" seed_ip env.

Section Cluster.
Context `{K : Kube}.
Variable fuel : nat.
Notation W := (M kstate).

(** The first loop for one kind: what exists, and start the servers. *)
Definition start_servers (kind : string) (count : Z) : W (list pod_container * Z) :=
  let kind := kind_role kind in
  pods ← ask (λ n, list_namespaced_pod n (role kind));
  prev_count ← get_previous_count kind;
  run_process ["./add_servers.sh"; kind; py_str count]%string "dinomo/cluster/kubespray" ;;
  mret (get_current_pod_container_pairs pods, (count + prev_count)%Z).

(** Wait until [expected] pods are running; [res] is the last list of addresses. *)
Fixpoint wait_for_pods (n : nat) (kind : string) (expected : Z) (res : list string) : W unit :=
  if bool_decide (Z.of_nat (length res) = expected) then mret tt
  else match n with
       | O => out_of_fuel
       | S n' =>
           res ← get_pod_ips fuel (role kind) true;
           wait_for_pods n' kind expected res
       end.

(** Copy the configuration into one container. *)
Definition configure_pod (cfile kind : string) (pc : pod_container) : W unit :=
  let '(pname, cname, hname) := pc in
  emit (ESystem ("cp " +:+ cfile +:+ " ./dinomo-config.yml")) ;;
  (if String.eqb kind "memory" then
     match hname with
     | Some h => emit (ESystem ("sed -i " +:+ dquote +:+ "s|NODE_UID|" +:+ py_from 6 h +:+
                                "|g" +:+ dquote +:+ " ./dinomo-config.yml"))
     | None => raise TypeError
     end
   else mret tt) ;;
  copy_file_to_pod "dinomo-config.yml" pname "/DINOMO/conf/" cname ;;
  emit (ESystem "rm ./dinomo-config.yml").

(** Create the DaemonSet of a kind. *)
Definition create_daemon_set (kind : string) (prefix : option string)
    (route_str mon_str management_ip seed_ip : string) : W unit :=
  yml ← load_yaml ("yaml/ds/" +:+ kind +:+ "-ds.yml") prefix;
  yml ← lift (at_key "spec" (at_key "template" (at_key "spec" (at_key "containers"
    (at_each (at_key "env" (fill_env route_str mon_str management_ip seed_ip)))))) yml);
  emit (ECreateDaemonSet yml).

(** The second loop for one kind. *)
Definition join_servers (cfile kind : string) (create : bool) (prefix : option string)
    (route_str mon_str management_ip seed_ip : string)
    (before : list pod_container) (expected : Z) : W unit :=
  (if create then create_daemon_set kind prefix route_str mon_str management_ip seed_ip
   else mret tt) ;;
  let kind := kind_role kind in
  wait_for_pods fuel kind expected [] ;;
  pods ← ask (λ n, list_namespaced_pod n (role kind));
  let new_pods := set_difference (get_current_pod_container_pairs pods) before in
  for_each new_pods (configure_pod cfile kind).

Definition add_nodes (cfile : string) (kinds : list string) (counts : list Z) (create : bool)
    (prefix : option string) : W unit :=
  started ← map_each (seq 0 (length kinds)) (λ i,
    kind ← lift (py_nth kinds i);
    count ← lift (py_nth counts i);
    start_servers kind count);
  management_ips ← get_pod_ips fuel (role "management") false;
  management_ip ← lift (py_nth management_ips 0);
  route_ips ← get_pod_ips fuel (role "routing") false;
  seed_ip ← (if bool_decide (0 < length route_ips) then choice route_ips else mret EmptyString);
  mon_ips ← get_pod_ips fuel (role "monitoring") false;
  let mon_str := py_join " " mon_ips in
  let route_str := py_join " " route_ips in
  for_each (seq 0 (length kinds)) (λ i,
    kind ← lift (py_nth kinds i);
    be ← lift (py_nth started i);
    join_servers cfile kind create prefix route_str mon_str management_ip seed_ip be.1 be.2).

(** The [while remaining_count > 0] loop of [batch_add_nodes]. *)
Fixpoint batch_rest (n : nat) (cfile node_type : string) (remaining batch_size : Z)
    (prefix : option string) : W unit :=
  if bool_decide (0 < remaining)%Z then
    match n with
    | O => out_of_fuel
    | S n' =>
        if bool_decide (remaining ≤ batch_size)%Z then
          add_nodes cfile [node_type] [remaining] false prefix ;;
          batch_rest n' cfile node_type 0 batch_size prefix
        else
          add_nodes cfile [node_type] [batch_size] false prefix ;;
          batch_rest n' cfile node_type (remaining - batch_size) batch_size prefix
    end
  else mret tt.

Definition sum_counts (counts : list Z) : Z := foldl Z.add 0%Z counts.

(** [depth] bounds the recursion. *)
Fixpoint batch_add_nodes (depth : nat) (cfile : string) (node_types : list string)
    (node_counts : list Z) (batch_size : Z) (prefix : option string) : W unit :=
  match depth with
  | O => out_of_fuel
  | S depth' =>
      if bool_decide (sum_counts node_counts ≤ batch_size)%Z then
        add_nodes cfile node_types node_counts true prefix
      else
        for_each (seq 0 (length node_types)) (λ i,
          node_type ← lift (py_nth node_types i);
          count ← lift (py_nth node_counts i);
          if bool_decide (count ≤ batch_size)%Z then
            batch_add_nodes depth' cfile [node_type] [count] batch_size prefix
          else
            add_nodes cfile [node_type] [batch_size] true prefix ;;
            batch_rest fuel cfile node_type (count - batch_size) batch_size prefix)
  end.

(** ** remove_node.py *)

(** A command with [None] in it cannot be run. *)
Definition remove_node (ip ntype : string) : W unit :=
  hostname ← get_hostname_from_ip ip;
  match hostname with
  | Some h => run_process ["./remove_server.sh"; h; ntype]%string "dinomo/cluster/kubespray"
  | None => raise TypeError
  end.

(** ** run_cluster.py *)

Definition BATCH_SIZE : Z := 100.

(** The recursion of [batch_add_nodes] is at most two calls deep. *)
Definition batch_add (cfile : string) (kind : string) (count : Z) (prefix : string) : W unit :=
  batch_add_nodes 2 cfile [kind] [count] BATCH_SIZE (Some prefix).

(** A field that must be a string. *)
Definition yaml_str (y : yaml) : outcome string :=
  match y with YStr s => Ret s | _ => Raise TypeError end.

Definition container_field (spec : yaml) (k : string) : outcome yaml :=
  s ← yaml_get "spec" spec;
  cs ← yaml_get "containers" s;
  c ← yaml_nth 0 cs;
  yaml_get k c.

Definition in_first_container_env (f : yaml → outcome yaml) : yaml → outcome yaml :=
  at_key "spec" (at_key "containers" (at_index 0 (at_key "env" f))).

Definition metadata_name (spec : yaml) : outcome string :=
  md ← yaml_get "metadata" spec;
  n ← yaml_get "name" md;
  yaml_str n.

(** ['%s' % x] where [x] may be [None]. *)
Definition fmt_s (x : option string) : string := default "None"%string x.

(** The management pod: its address, name and container.  Without a key file
    the second copy fails when it takes the file name apart. *)
Definition create_management (cfile : string) (ssh_key : option string)
    (cluster_name prefix : string) : W (string * string * string) :=
  management_spec ← load_yaml "yaml/pods/management-pod.yml" (Some prefix);
  management_spec ← lift (in_first_container_env
    (replace_yaml_val "DINOMO_CLUSTER_NAME" cluster_name) management_spec);
  emit (ECreatePod management_spec) ;;
  ips ← get_pod_ips fuel (role "management") true;
  management_ip ← lift (py_nth ips 0);
  management_podname ← lift (metadata_name management_spec);
  kc ← lift (container_field management_spec "name");
  kcname ← lift (yaml_str kc);
  emit (ESystem ("cp " +:+ cfile +:+ " dinomo-config.yml")) ;;
  home ← getenv "HOME";
  let kubecfg := os_path_join home ".kube/config" in
  master_ip ← ask (λ n, command_output n "hostname -I | awk '{print $1}'");
  emit (ESystem ("sed -i " +:+ dquote +:+ "s|127.0.0.1|" +:+ master_ip +:+ "|g" +:+ dquote +:+
                 " " +:+ kubecfg)) ;;
  copy_file_to_pod kubecfg management_podname "/root/.kube/" kcname ;;
  match ssh_key with
  | Some key =>
      copy_file_to_pod key management_podname "/root/.ssh/" kcname ;;
      copy_file_to_pod (key +:+ ".pub") management_podname "/root/.ssh/" kcname
  | None =>
      emit (EExec management_podname kcname ["tar"; "xmvf"; "-"; "-C"; "/root/.ssh/"]%string) ;;
      raise AttributeError
  end ;;
  copy_file_to_pod "dinomo-config.yml" management_podname "/DINOMO/conf/" kcname ;;
  mret (management_ip, management_podname, kcname).

Definition create_monitoring (management_ip prefix : string) : W unit :=
  mon_spec ← load_yaml "yaml/pods/monitoring-pod.yml" (Some prefix);
  mon_spec ← lift (in_first_container_env (replace_yaml_val "MGMT_IP" management_ip) mon_spec);
  emit (ECreatePod mon_spec) ;;
  get_pod_ips fuel (role "monitoring") false ;;
  mname ← lift (metadata_name mon_spec);
  mc ← lift (container_field mon_spec "name");
  mcname ← lift (yaml_str mc);
  copy_file_to_pod "dinomo-config.yml" mname "/DINOMO/conf/" mcname ;;
  emit (ESystem "rm dinomo-config.yml").

(** The routing, memory and benchmark servers.  The number of benchmark servers
    is [None] when the option is given without a number; it is formatted with
    [%d] first. *)
Definition create_servers (mem_count route_count : Z) (bench_count : option Z)
    (cfile : string) (kvs_type : option string) (prefix : string) : W unit :=
  batch_add cfile "routing" route_count prefix ;;
  get_pod_ips fuel (role "routing") false ;;
  (if bool_decide (kvs_type = Some "clover"%string) then batch_add cfile "clover" mem_count prefix
   else if bool_decide (kvs_type = Some "asymnvm"%string)
        then batch_add cfile "asymnvm" mem_count prefix
   else batch_add cfile "memory" mem_count prefix) ;;
  bench_count ← match bench_count with Some b => mret b | None => raise TypeError end;
  if bool_decide (kvs_type = Some "clover"%string)
  then batch_add cfile "clover-bench" bench_count prefix
  else if bool_decide (kvs_type = Some "asymnvm"%string)
       then batch_add cfile "asymnvm-bench" bench_count prefix
  else batch_add cfile "benchmark" bench_count prefix.

(** Tell the management pod that the cluster is up, and start the trigger. *)
Definition finish_setup (management_podname kcname : string) : W unit :=
  emit (ESystem "touch setup_complete") ;;
  copy_file_to_pod "setup_complete" management_podname "/DINOMO/" kcname ;;
  emit (ESystem "rm setup_complete") ;;
  bench ← get_pod_ips fuel (role "benchmark") false;
  setenv "BENCH_IPS" (py_join " " bench) ;;
  mgmt ← get_pod_ips fuel (role "management") false;
  setenv "MGMT_IPS" (py_join " " mgmt) ;;
  emit (ESystem "cp ../conf/dinomo-base.yml ../conf/dinomo-config.yml") ;;
  run_process ["./start-dinomo.sh"; "bt"]%string "../dockerfiles/".

Definition run_cluster (mem_count route_count : Z) (bench_count : option Z)
    (cfile ssh_key kvs_type : option string) (cluster_name : string) : W unit :=
  has ← hasenv "DINOMO_HOME";
  if negb has then raise ValueError
  else
    home ← getenv "DINOMO_HOME";
    let prefix := os_path_join home "cluster/dinomo/cluster" in
    m ← create_management (fmt_s cfile) ssh_key cluster_name prefix;
    let '(management_ip, management_podname, kcname) := m in
    create_monitoring management_ip prefix ;;
    create_servers mem_count route_count bench_count (fmt_s cfile) kvs_type prefix ;;
    finish_setup management_podname kcname.

(** ** create_cluster.py *)

(** A command with [None] in it cannot be run. *)
Definition create_cluster (mem_count route_count : Z) (bench_count : option Z)
    (cfile ssh_key kvs_type : option string) (cluster_name : string) : W unit :=
  has ← hasenv "DINOMO_HOME";
  if negb has then raise ValueError
  else match ssh_key with
  | None => raise TypeError
  | Some ssh_key =>
      run_process ["./prepare_host_configurations.sh"; ssh_key]%string
        "dinomo/cluster/kubespray" ;;
      run_process ["./run_storage_nodes.sh"]%string "dinomo/cluster/kubespray" ;;
      run_process ["./create_cluster_object.sh"; ssh_key]%string "dinomo/cluster/kubespray"
  end.

(** ** The command lines of run_cluster.py and create_cluster.py *)

Definition default_env (k v : string) : W unit :=
  has ← hasenv k; if (has : bool) then mret tt else setenv k v.

Definition cluster_parser (conf sshkey : string) : arg_parser :=
  mkParser
    [mkArg ["-m"; "--memory"] "memory" AStoreOne true ANone true;
     mkArg ["-r"; "--routing"] "routing" AStoreOne true ANone true;
     mkArg ["-b"; "--benchmark"] "benchmark" AStoreOpt true (AInt 0) false;
     mkArg ["--conf"] "conf" AStoreOpt false (AStr conf) false;
     mkArg ["--ssh-key"] "sshkey" AStoreOpt false (AStr sshkey) false;
     mkArg ["--kvs-type"] "kvstype" AStoreOpt false (AStr "memory") false]%string [].

(** The two scripts have the same main program but for the function they call. *)
Definition cluster_main
    (run : Z → Z → option Z → option string → option string → option string → string → W unit)
    (argv : list string) : W unit :=
  default_env "DINOMO_HOME" "/home/cc/projects/DINOMO/" ;;
  default_env "DINOMO_CLUSTER_NAME" "DINOMO_k8s_CLUSTER" ;;
  default_env "REMOTE_USER_NAME" "cc" ;;
  dinomo_home ← getenv "DINOMO_HOME";
  home ← getenv "HOME";
  cluster_name ← check_or_get_env_arg "DINOMO_CLUSTER_NAME";
  args ← lift (parse_args (cluster_parser (os_path_join dinomo_home "conf/dinomo-base.yml")
                             (os_path_join home ".ssh/id_rsa")) argv);
  memory ← lift (arg_int0 args "memory");
  routing ← lift (arg_int0 args "routing");
  benchmark ← lift (arg_int args "benchmark");
  conf ← lift (arg_str args "conf");
  sshkey ← lift (arg_str args "sshkey");
  kvstype ← lift (arg_str args "kvstype");
  run memory routing benchmark conf sshkey kvstype cluster_name.

Definition run_cluster_main : list string → W unit := cluster_main run_cluster.
Definition create_cluster_main : list string → W unit := cluster_main create_cluster.

End Cluster.
