(* ===== verification/ClusterProps.v ===== *)
(** * Properties of the cluster scripts

    Editing pod specifications, waiting for pods, adding servers in batches,
    configuring exactly the new containers, and the order of the steps of
    [run_cluster]. *)

From S2P Require Import Prelude ArgParse Yaml Kube Cluster.

(** ** Effects of a program *)

(** Whatever [m] does, the effects it adds satisfy [P]. *)
Definition emits {A} (P : effect → Prop) (m : M kstate A) : Prop :=
  ∀ s, ∃ es, trace (m s).2 = trace s ++ es ∧ Forall P es.

Section Emits.
Context (P : effect → Prop).

Lemma emits_quiet {A} (m : M kstate A) : (∀ s, trace (m s).2 = trace s) → emits P m.
Proof. intros H s. exists []. by rewrite H app_nil_r. Qed.

Lemma emits_emit e : P e → emits P (emit e).
Proof. intros H s. exists [e]. by repeat constructor. Qed.

Lemma emits_bind {A B} (m : M kstate A) (k : A → M kstate B) :
  emits P m → (∀ a, emits P (k a)) → emits P (m ≫= k).
Proof.
  intros Hm Hk s. rewrite /mbind /M_bind. destruct (Hm s) as (es & Ht & Hf).
  destruct (m s) as [[a| | |] s1]; simpl in *; [|by exists es..].
  destruct (Hk a s1) as (es2 & Ht2 & Hf2). exists (es ++ es2).
  rewrite Ht2 Ht app_assoc. split; [done|]. by apply Forall_app.
Qed.

Lemma emits_for_each {A} (xs : list A) (f : A → M kstate unit) :
  (∀ x, emits P (f x)) → emits P (for_each xs f).
Proof.
  intros Hf. induction xs as [|x xs IH]; [by apply emits_quiet|]. by apply emits_bind.
Qed.

Lemma emits_map_each {A B} (xs : list A) (f : A → M kstate B) :
  (∀ x, emits P (f x)) → emits P (map_each xs f).
Proof.
  intros Hf. induction xs as [|x xs IH]; [by apply emits_quiet|]. cbn [map_each].
  apply emits_bind; [done|]. intros y. apply emits_bind; [done|]. intros. by apply emits_quiet.
Qed.

Lemma emits_fold_each {A B} (xs : list A) (b : B) (f : B → A → M kstate B) :
  (∀ b x, emits P (f b x)) → emits P (fold_each xs b f).
Proof.
  intros Hf. revert b. induction xs as [|x xs IH]; intros b; [by apply emits_quiet|].
  by apply emits_bind.
Qed.

Lemma emits_ret {A} (a : A) : emits P (mret a).
Proof. by apply emits_quiet. Qed.
Lemma emits_raise {A} e : emits P (@raise kstate A e).
Proof. by apply emits_quiet. Qed.
Lemma emits_lift {A} (o : outcome A) : emits P (lift o).
Proof. by apply emits_quiet. Qed.
Lemma emits_ask {A} (q : nat → A) : emits P (ask q).
Proof. by apply emits_quiet. Qed.
Lemma emits_fuel {A} : emits P (@out_of_fuel kstate A).
Proof. by apply emits_quiet. Qed.
Lemma emits_block {A} : emits P (@block kstate A).
Proof. by apply emits_quiet. Qed.
Lemma emits_getenv k : emits P (getenv k).
Proof. by apply emits_quiet. Qed.
Lemma emits_hasenv k : emits P (hasenv k).
Proof. by apply emits_quiet. Qed.
Lemma emits_setenv k v : emits P (setenv k v).
Proof. by apply emits_quiet. Qed.
End Emits.

Create HintDb effects.
#[export] Hint Resolve emits_ret emits_raise emits_lift emits_ask emits_fuel emits_block
  emits_getenv emits_hasenv emits_setenv : effects.

(** Takes a program apart down to its effects. *)
Ltac emits_step :=
  match goal with
  | |- emits _ (_ ≫= _) => apply emits_bind; [|intros ?]
  | |- emits _ (for_each _ _) => apply emits_for_each; intros ?
  | |- emits _ (map_each _ _) => apply emits_map_each; intros ?
  | |- emits _ (fold_each _ _ _) => apply emits_fold_each; intros ? ?
  | |- emits _ (emit _) => apply emits_emit
  | |- emits _ (match _ with _ => _ end) => case_match
  | |- emits _ _ => solve [eauto with effects]
  end.
Ltac emits_go := repeat emits_step.

Section UtilEffects.
Context `{K : Kube} (P : effect → Prop).

Lemma emits_pod_loop fuel sel run : emits P (get_pod_ips_loop fuel sel run).
Proof. induction fuel as [|fuel IH]; cbn [get_pod_ips_loop]; emits_go. Qed.
Lemma emits_get_pod_ips fuel sel run : emits P (get_pod_ips fuel sel run).
Proof. rewrite /get_pod_ips. emits_go. apply emits_pod_loop. Qed.
Lemma emits_previous_count kind : emits P (get_previous_count kind).
Proof. rewrite /get_previous_count. emits_go. Qed.
Lemma emits_hostname ip : emits P (get_hostname_from_ip ip).
Proof. rewrite /get_hostname_from_ip. emits_go. Qed.
Lemma emits_load_yaml f p : emits P (load_yaml f p).
Proof. rewrite /load_yaml. emits_go. Qed.
Lemma emits_choice {A} (xs : list A) : emits P (choice xs).
Proof. rewrite /choice. emits_go. Qed.

Lemma emits_copy_loop cs : (∀ d, P (EStdin d)) → emits P (copy_loop cs).
Proof. intros HP. induction cs as [|c cs IH]; cbn [copy_loop]; emits_go; auto. Qed.

Lemma emits_copy f p pp c :
  (∀ d, P (EStdin d)) → (∀ p c cmd, P (EExec p c cmd)) → emits P (copy_file_to_pod f p pp c).
Proof. intros H1 H2. rewrite /copy_file_to_pod. emits_go; [done|]. by apply emits_copy_loop. Qed.

Lemma emits_run_process cmd cwd : (∀ c d, P (ERun c d)) → emits P (run_process cmd cwd).
Proof. intros H. rewrite /run_process. emits_go. done. Qed.

Lemma emits_wait_for_pods fuel n kind expected res :
  emits P (wait_for_pods fuel n kind expected res).
Proof.
  revert res. induction n as [|n IH]; intros res; cbn [wait_for_pods]; emits_go.
  apply emits_get_pod_ips.
Qed.
End UtilEffects.
#[export] Hint Resolve emits_get_pod_ips emits_previous_count emits_hostname emits_load_yaml
  emits_choice emits_wait_for_pods : effects.

(** ** Replacing values in a specification *)

(** A list of name/value pairs, as in the environment of a container. *)
Definition env_pair (name : string) (rest : list (string * yaml)) : yaml :=
  YMap (("name"%string, YStr name) :: rest).

Definition env_names (pairs : list yaml) : option (list string) :=
  mapM (λ p, match yaml_get "name" p with Ret (YStr n) => Some n | _ => None end) pairs.

(** The value of the first pair with a name. *)
Fixpoint env_value (name : string) (pairs : list yaml) : option yaml :=
  match pairs with
  | [] => None
  | p :: rest =>
      match yaml_get "name" p with
      | Ret (YStr n) =>
          if decide (n = name)
          then match yaml_get "value" p with Ret v => Some v | _ => None end
          else env_value name rest
      | _ => env_value name rest
      end
  end.

Lemma replace_pairs_spec pairs names name val :
  env_names pairs = Some names →
  ∃ pairs', replace_yaml_pairs pairs name val = Ret pairs' ∧
    env_names pairs' = Some names ∧
    ∀ name', env_value name' pairs' =
      if decide (name' = name ∧ name ∈ names) then Some (YStr val) else env_value name' pairs.
Proof.
  revert names. induction pairs as [|p pairs IH]; intros names Hn.
  { injection Hn as <-. exists []. split; [done|]. split; [done|].
    intros name'. rewrite decide_False //. by intros [_ ?%elem_of_nil]. }
  rewrite /env_names /= in Hn.
  destruct (yaml_get "name" p) as [[| | |n| |]| | |] eqn:Hp; simplify_eq/=.
  destruct (mapM _ pairs) as [names'|] eqn:Hm; [|done]. injection Hn as <-. simpl.
  rewrite Hp /=.
  destruct p as [| | | | |m]; try discriminate Hp.
  assert (∀ v, yaml_get "name" (YMap (dset "value"%string v m)) = Ret (YStr n)) as Hname.
  { intros v. move: Hp. by rewrite /yaml_get /py_getitem dget_dset_ne. }
  destruct (String.eqb_spec n name) as [->|Hne].
  - eexists. split; [done|]. split.
    + by rewrite /env_names /= Hname /= Hm.
    + intros name'. cbn [env_value]. rewrite Hname. case_decide as Heq.
      * subst name'. rewrite decide_True; [|split; [done|left]].
        by rewrite /yaml_get /py_getitem dget_dset_eq.
      * rewrite decide_False; [done|naive_solver].
  - destruct (IH names' Hm) as (pairs' & -> & Hn' & Hv). eexists. split; [done|]. split.
    + rewrite /env_names /= Hp /=. rewrite /env_names in Hn'. by rewrite Hn'.
    + intros name'. cbn [env_value]. rewrite Hp Hv. destruct (decide (n = name')) as [->|Hn2].
      * rewrite decide_False; [done|naive_solver].
      * destruct (decide (name' = name ∧ name ∈ names')) as [[]|Hd].
        { rewrite decide_True //. split; [done|by right]. }
        rewrite decide_False; [done|]. intros [-> [?|?]%elem_of_cons]; [done|naive_solver].
Qed.

(** ** Waiting for pods *)

Section Pods.
Context `{K : Kube}.
Implicit Types s : kstate.

(** The answer number [n] lists pods that all have addresses and, if asked for,
    are all running. *)
Definition pods_ready (selector : option string) (is_running : bool) (n : nat)
    (ips : list string) : Prop :=
  mapM pod_ip (list_namespaced_pod n selector) = Some ips ∧
  (is_running = true →
   Forall (λ p, phase p = "Running"%string) (list_namespaced_pod n selector)).

Definition after_asks (n : nat) s : kstate := mkKstate n (trace s) (environ s).

Lemma running_forallb (pods : list pod) :
  forallb (λ p, String.eqb (phase p) "Running") pods = true ↔
  Forall (λ p, phase p = "Running"%string) pods.
Proof.
  rewrite forallb_forall Forall_forall. setoid_rewrite list_elem_of_In.
  by setoid_rewrite String.eqb_eq.
Qed.

Lemma pod_loop_step fuel sel run s ips :
  (pods_ready sel run (asked s) ips →
   get_pod_ips_loop (S fuel) sel run s = (Ret ips, after_asks (S (asked s)) s)) ∧
  ((∀ ips, ¬ pods_ready sel run (asked s) ips) →
   get_pod_ips_loop (S fuel) sel run s =
   get_pod_ips_loop fuel sel run (after_asks (S (asked s)) s)).
Proof.
  cbn [get_pod_ips_loop]. rewrite /mbind /M_bind /pods_ready /=.
  destruct (mapM pod_ip _) as [ips'|]; [|split; naive_solver].
  destruct run; [|split; naive_solver].
  destruct (forallb _ _) eqn:Hr.
  - apply running_forallb in Hr. split; naive_solver.
  - split; [|done]. intros [_ Hf]. specialize (Hf eq_refl).
    apply running_forallb in Hf. congruence.
Qed.

Lemma pod_loop_ready k fuel sel run s ips :
  (∀ j ips, j < k → ¬ pods_ready sel run (asked s + j) ips) →
  pods_ready sel run (asked s + k) ips → k < fuel →
  get_pod_ips_loop fuel sel run s = (Ret ips, after_asks (S (asked s + k)) s).
Proof.
  revert fuel s. induction k as [|k IH]; intros fuel s Hn Hr Hf; (destruct fuel; [lia|]).
  - rewrite Nat.add_0_r in Hr. rewrite Nat.add_0_r. by apply pod_loop_step.
  - rewrite (proj2 (pod_loop_step fuel sel run s [])).
    + rewrite IH; [by rewrite /after_asks /= Nat.add_succ_r| | |lia].
      * intros j ips' Hj. rewrite /= -Nat.add_succ_r. apply Hn. lia.
      * by rewrite /= -Nat.add_succ_r.
    + intros ips'. rewrite -(Nat.add_0_r (asked s)). apply Hn. lia.
Qed.

Lemma pods_ready_dec sel run n :
  (∃ ips, pods_ready sel run n ips) ∨ (∀ ips, ¬ pods_ready sel run n ips).
Proof.
  rewrite /pods_ready. destruct (mapM pod_ip _) as [ips|]; [|naive_solver].
  destruct run; [|naive_solver]. destruct (forallb (λ p, String.eqb (phase p) "Running")
    (list_namespaced_pod n sel)) eqn:Hr.
  - apply running_forallb in Hr. naive_solver.
  - right. intros _ [_ Hf]. specialize (Hf eq_refl). apply running_forallb in Hf. congruence.
Qed.

Lemma pod_loop_returns fuel sel run s ips s' :
  get_pod_ips_loop fuel sel run s = (Ret ips, s') →
  ∃ n, asked s ≤ n ∧ pods_ready sel run n ips ∧ s' = after_asks (S n) s.
Proof.
  revert s. induction fuel as [|fuel IH]; intros s Hl; [done|].
  destruct (pods_ready_dec sel run (asked s)) as [[ips' Hr]|Hn].
  - rewrite (proj1 (pod_loop_step fuel sel run s ips') Hr) in Hl. injection Hl as <- <-.
    by exists (asked s).
  - rewrite (proj2 (pod_loop_step fuel sel run s [])) in Hl; [|naive_solver].
    apply IH in Hl as (n & Hle & Hr & ->). exists n. simpl in Hle. split; [lia|]. by split.
Qed.

End Pods.

(** ** Batches *)

Section Batches.
Context `{K : Kube}.
Variable fuel : nat.
Implicit Types s : kstate.

(** One call of [add_nodes] per chunk, the first with [create]. *)
Fixpoint add_chunks (cfile t : string) (create : bool) (prefix : option string)
    (chunks : list Z) : M kstate unit :=
  match chunks with
  | [] => mret tt
  | c :: rest => add_nodes fuel cfile [t] [c] create prefix ;;
                 add_chunks cfile t false prefix rest
  end.

(** Chunks for [count] servers: they add up to it and none exceeds the batch
    size, and all are positive if there are any servers to add. *)
Definition chunks_ok (batch_size count : Z) (chunks : list Z) : Prop :=
  sum_counts chunks = count ∧ chunks ≠ [] ∧ Forall (λ c, c ≤ batch_size)%Z chunks ∧
  ((0 < count)%Z → Forall (λ c, 0 < c)%Z chunks).

Lemma sum_counts_from acc (xs : list Z) : foldl Z.add acc xs = (acc + sum_counts xs)%Z.
Proof.
  rewrite /sum_counts. revert acc. induction xs as [|x xs IH]; intros acc; simpl; [lia|].
  rewrite IH (IH x). lia.
Qed.

Lemma sum_counts_cons x xs : sum_counts (x :: xs) = (x + sum_counts xs)%Z.
Proof. by rewrite {1}/sum_counts /= sum_counts_from. Qed.

Lemma batch_rest_chunks n cfile t remaining batch prefix :
  (0 < batch)%Z → (0 ≤ remaining)%Z → Z.to_nat remaining ≤ n →
  ∃ chunks, sum_counts chunks = remaining ∧
    Forall (λ c, 0 < c ≤ batch)%Z chunks ∧
    ∀ s, batch_rest fuel n cfile t remaining batch prefix s =
         add_chunks cfile t false prefix chunks s.
Proof.
  intros Hb. revert remaining. induction n as [|n IH]; intros r Hr Hn.
  { exists []. split; [by assert (r = 0%Z) as -> by lia|]. split; [done|].
    intros s. simpl. by rewrite bool_decide_false; [|lia]. }
  destruct (decide (0 < r)%Z) as [Hpos|Hz]; last first.
  { exists []. split; [by assert (r = 0%Z) as -> by lia|]. split; [done|].
    intros s. simpl. by rewrite bool_decide_false. }
  destruct (decide (r ≤ batch)%Z) as [Hle|Hgt].
  - destruct (IH 0%Z) as (ch & Hs & Hf & Hrun); [done|lia|].
    exists (r :: ch). rewrite sum_counts_cons Hs. split; [lia|]. split; [by constructor|].
    intros s. cbn [batch_rest add_chunks]. rewrite bool_decide_true // bool_decide_true //.
    rewrite /mbind /M_bind. destruct (add_nodes _ _ _ _ _ _ s) as [[] s1]; [|done..].
    apply Hrun.
  - destruct (IH (r - batch)%Z) as (ch & Hs & Hf & Hrun); [lia..|].
    exists (batch :: ch). rewrite sum_counts_cons Hs. split; [lia|].
    split; [constructor; [lia|done]|].
    intros s. cbn [batch_rest add_chunks]. rewrite bool_decide_true // bool_decide_false //.
    rewrite /mbind /M_bind. destruct (add_nodes _ _ _ _ _ _ s) as [[] s1]; [|done..].
    apply Hrun.
Qed.

(** A loop over the indices of two lists is a loop over the pairs. *)
Lemma for_each_index_from {A B} (pre1 ts : list A) (pre2 cs : list B)
    (F : A → B → M kstate unit) s :
  length pre1 = length pre2 → length ts = length cs →
  for_each (seq (length pre1) (length ts)) (λ i,
    t ← lift (py_nth (pre1 ++ ts) i); c ← lift (py_nth (pre2 ++ cs) i); F t c) s =
  for_each (zip ts cs) (λ p, F p.1 p.2) s.
Proof.
  revert pre1 pre2 cs s. induction ts as [|t ts IH]; intros pre1 pre2 [|c cs] s Hp Hl;
    simplify_eq/=; [done|].
  rewrite /mbind /M_bind /lift /py_nth lookup_app_r // Nat.sub_diag /=.
  rewrite Hp lookup_app_r // Nat.sub_diag /=. destruct (F t c s) as [[] s1]; [|done..].
  specialize (IH (pre1 ++ [t]) (pre2 ++ [c]) cs s1).
  rewrite !length_app /= -!app_assoc /= Nat.add_1_r Hp in IH. apply IH; [lia|done].
Qed.

Lemma for_each_index {A B} (ts : list A) (cs : list B) (F : A → B → M kstate unit) s :
  length ts = length cs →
  for_each (seq 0 (length ts)) (λ i,
    t ← lift (py_nth ts i); c ← lift (py_nth cs i); F t c) s =
  for_each (zip ts cs) (λ p, F p.1 p.2) s.
Proof. intros Hl. by apply (for_each_index_from [] ts [] cs). Qed.

(** The body of the batching loop for one kind. *)
Lemma batch_one cfile t c batch prefix :
  (0 < batch)%Z → Z.to_nat c ≤ fuel →
  ∃ chunks, chunks_ok batch c chunks ∧
  ∀ s, (if bool_decide (c ≤ batch)%Z
        then batch_add_nodes fuel 1 cfile [t] [c] batch prefix
        else add_nodes fuel cfile [t] [batch] true prefix ;;
             batch_rest fuel fuel cfile t (c - batch) batch prefix) s =
       add_chunks cfile t true prefix chunks s.
Proof.
  intros Hb Hf. case_bool_decide as Hc.
  - exists [c]. split; [by repeat constructor|]. intros s.
    cbn [batch_add_nodes add_chunks]. rewrite bool_decide_true //.
    rewrite /mbind /M_bind. by destruct (add_nodes _ _ _ _ _ _ s) as [[[]| | |] s1].
  - destruct (batch_rest_chunks fuel cfile t (c - batch) batch prefix)
      as (ch & Hs & Hch & Hrun); [lia..|].
    exists (batch :: ch). split.
    + split; [rewrite sum_counts_cons Hs; lia|]. split; [done|].
      split; [|intros _]; (constructor; [lia|]); (eapply Forall_impl; [exact Hch|]); cbv beta; lia.
    + intros s. cbn [add_chunks]. rewrite /mbind /M_bind.
      destruct (add_nodes _ _ _ _ _ _ s) as [[] s1]; [|done..]. apply Hrun.
Qed.

Lemma batch_many cfile types counts batch prefix :
  (0 < batch)%Z → length types = length counts → Forall (λ c, Z.to_nat c ≤ fuel) counts →
  ∃ chunks, Forall2 (chunks_ok batch) counts chunks ∧
  ∀ s, for_each (zip types counts) (λ p,
         if bool_decide (p.2 ≤ batch)%Z
         then batch_add_nodes fuel 1 cfile [p.1] [p.2] batch prefix
         else add_nodes fuel cfile [p.1] [batch] true prefix ;;
              batch_rest fuel fuel cfile p.1 (p.2 - batch) batch prefix) s =
       for_each (zip types chunks) (λ p, add_chunks cfile p.1 true prefix p.2) s.
Proof.
  intros Hb. revert types. induction counts as [|c counts IH]; intros [|t types] Hl Hf;
    simplify_eq/=; [by exists []|].
  apply Forall_cons in Hf as [Hc Hf].
  destruct (batch_one cfile t c batch prefix Hb Hc) as (ch & Hok & Hrun).
  destruct (IH types Hl Hf) as (chs & Hoks & Hruns). exists (ch :: chs).
  split; [by constructor|]. intros s. cbn [zip zip_with for_each fst snd].
  rewrite /mbind /M_bind Hrun. destruct (add_chunks _ _ _ _ _ s) as [[] s1]; [|done..].
  apply Hruns.
Qed.

End Batches.

(** ** Configuring new containers *)

Section Configure.
Context `{K : Kube}.
Variable fuel : nat.
Implicit Types s : kstate.

(** Exec streams stay open and report nothing on stderr, and the file can be
    archived. *)
Definition copies_work (text : string) : Prop :=
  (∀ n, stream_open n = true) ∧ (∀ n, stream_stderr n = false) ∧
  tar_text "dinomo-config.yml" "dinomo-config.yml" = Ret text.

(** What is done for one container. *)
Definition config_effects (cfile kind text : string) (pc : pod_container) : list effect :=
  let '(pname, cname, hname) := pc in
  [ESystem ("cp " +:+ cfile +:+ " ./dinomo-config.yml")] ++
  (if String.eqb kind "memory"
   then [ESystem ("sed -i " +:+ dquote +:+ "s|NODE_UID|" +:+ py_from 6 (default EmptyString hname)
                  +:+ "|g" +:+ dquote +:+ " ./dinomo-config.yml")] else []) ++
  [EExec pname cname ["tar"; "xmvf"; "-"; "-C"; "/DINOMO/conf/"]%string; EStdin text;
   ESystem "rm ./dinomo-config.yml"].

Lemma copy_loop_run text s :
  copies_work text →
  ∃ n, copy_loop [text] s = (Ret tt, mkKstate n (trace s ++ [EStdin text]) (environ s)).
Proof.
  intros (Ho & He & _). eexists. rewrite /copy_loop.
  do 8 (rewrite /mbind /M_bind /ask ?Ho ?He /=). reflexivity.
Qed.

Lemma configure_pod_run cfile kind text pc s :
  copies_work text → (kind = "memory"%string → is_Some pc.2) →
  ∃ n, configure_pod cfile kind pc s =
    (Ret tt, mkKstate n (trace s ++ config_effects cfile kind text pc) (environ s)).
Proof.
  intros Hw Hn. destruct pc as [[pname cname] hname]. simpl in Hn.
  set (cp := ESystem ("cp " +:+ cfile +:+ " ./dinomo-config.yml")).
  set (sed := if String.eqb kind "memory"
     then [ESystem ("sed -i " +:+ dquote +:+ "s|NODE_UID|" +:+ py_from 6 (default EmptyString hname)
                  +:+ "|g" +:+ dquote +:+ " ./dinomo-config.yml")] else []).
  set (ex := EExec pname cname ["tar"; "xmvf"; "-"; "-C"; "/DINOMO/conf/"]%string).
  destruct (copy_loop_run text
    (mkKstate (asked s) (((trace s ++ [cp]) ++ sed) ++ [ex]) (environ s)) Hw) as (n & Hc).
  exists n. rewrite /configure_pod. erewrite bind_ret by reflexivity.
  erewrite (bind_ret _ _ _ tt (mkKstate (asked s) ((trace s ++ [cp]) ++ sed) (environ s))).
  - erewrite bind_ret; last first.
    { rewrite /copy_file_to_pod. erewrite bind_ret by reflexivity.
      erewrite bind_ret by reflexivity. destruct Hw as (_ & _ & Htar).
      erewrite bind_ret by (by rewrite Htar). exact Hc. }
    rewrite /emit /modify /config_effects /= -/sed -!app_assoc. done.
  - rewrite /sed. destruct (String.eqb_spec kind "memory") as [Hk|_].
    + by destruct (Hn Hk) as [h ->].
    + by rewrite app_nil_r.
Qed.

Lemma configure_pods_run cfile kind text pcs s :
  copies_work text → (kind = "memory"%string → Forall (λ pc, is_Some pc.2) pcs) →
  ∃ n, for_each pcs (configure_pod cfile kind) s =
    (Ret tt, mkKstate n (trace s ++ (pcs ≫= config_effects cfile kind text)) (environ s)).
Proof.
  intros Hw. revert s. induction pcs as [|pc pcs IH]; intros s Hn.
  { exists (asked s). rewrite app_nil_r. by destruct s. }
  destruct (configure_pod_run cfile kind text pc s Hw) as (n1 & H1).
  { intros Hk. specialize (Hn Hk). by inversion Hn. }
  cbn [for_each]. rewrite (bind_ret _ _ _ _ _ H1).
  destruct (IH (mkKstate n1 (trace s ++ config_effects cfile kind text pc) (environ s)))
    as (n2 & H2).
  { intros Hk. specialize (Hn Hk). by inversion Hn. }
  exists n2. rewrite H2. by rewrite -app_assoc.
Qed.

(** The containers of a list of pods. *)
Definition container_of (pods : list pod) (pc : pod_container) : Prop :=
  ∃ p c, p ∈ pods ∧ c ∈ containers p ∧ pc = (pod_name p, c, node_name p).

Lemma set_add_new_elem {A} `{EqDecision A} (l : list A) x y :
  y ∈ set_add_new l x ↔ y = x ∨ y ∈ l.
Proof. rewrite /set_add_new. case_decide; set_solver. Qed.

Lemma set_add_new_NoDup {A} `{EqDecision A} (l : list A) x : NoDup l → NoDup (set_add_new l x).
Proof.
  intros Hl. rewrite /set_add_new. case_decide; [done|]. apply NoDup_app.
  split; [done|]. split; [set_solver|apply NoDup_singleton].
Qed.

Lemma add_containers_spec (p : pod) (cs : list string) (l : list pod_container) :
  NoDup l →
  let l' := foldl (λ acc c, set_add_new acc (pod_name p, c, node_name p)) l cs in
  NoDup l' ∧ ∀ pc, pc ∈ l' ↔ pc ∈ l ∨ ∃ c, c ∈ cs ∧ pc = (pod_name p, c, node_name p).
Proof.
  revert l. induction cs as [|c cs IH]; intros l Hl; simpl; [set_solver|].
  destruct (IH _ (set_add_new_NoDup l (pod_name p, c, node_name p) Hl)) as [H1 H2].
  split; [done|]. intros pc. rewrite H2 set_add_new_elem. set_solver.
Qed.

Lemma pod_container_pairs_spec pods :
  NoDup (get_current_pod_container_pairs pods) ∧
  ∀ pc, pc ∈ get_current_pod_container_pairs pods ↔ container_of pods pc.
Proof.
  rewrite /get_current_pod_container_pairs /container_of.
  assert (∀ l : list pod_container, NoDup l →
    let l' := foldl (λ acc p, foldl (λ acc c, set_add_new acc (pod_name p, c, node_name p)) acc
                (containers p)) l pods in
    NoDup l' ∧ ∀ pc, pc ∈ l' ↔ pc ∈ l ∨ container_of pods pc) as H.
  { induction pods as [|p pods IH]; intros l Hl; simpl.
    - split; [done|]. intros pc. rewrite /container_of. set_solver.
    - destruct (add_containers_spec p (containers p) l Hl) as [H1 H2].
      destruct (IH _ H1) as [H3 H4]. split; [done|]. intros pc. rewrite H4 H2 /container_of.
      set_solver. }
  destruct (H [] (NoDup_nil_2)) as [H1 H2]. split; [done|]. intros pc. rewrite H2.
  split; [by intros [?%elem_of_nil|?]|by right].
Qed.

(** A program that may emit nothing leaves the trace. *)
Lemma emits_nothing {A} (m : M kstate A) s : emits (λ _, False) m → trace (m s).2 = trace s.
Proof.
  intros H. destruct (H s) as (es & -> & Hes). destruct es; [by rewrite app_nil_r|].
  by inversion Hes.
Qed.

End Configure.

(** ** The order of the steps of [run_cluster] *)

Section Order.
Context `{K : Kube}.
Variable fuel : nat.
Implicit Types s : kstate.

Definition setup_complete : effect := ESystem "touch setup_complete".

(** Everything but the signal that the cluster is up. *)
Notation silent := (λ e, e ≠ setup_complete).

Lemma cp_silent x : ESystem ("cp " +:+ x) ≠ setup_complete.
Proof. rewrite !str_app_cons. by intros [=]. Qed.
Lemma sed_silent x : ESystem ("sed -i " +:+ x) ≠ setup_complete.
Proof. rewrite !str_app_cons. by intros [=]. Qed.

Lemma configure_pod_silent cfile kind pc : emits silent (configure_pod cfile kind pc).
Proof.
  destruct pc as [[pname cname] hname]. rewrite /configure_pod. emits_go;
    try (apply cp_silent || apply sed_silent || done). by apply emits_copy.
Qed.

Lemma add_nodes_silent cfile kinds counts create prefix :
  emits silent (add_nodes fuel cfile kinds counts create prefix).
Proof.
  rewrite /add_nodes /start_servers /join_servers /create_daemon_set.
  emits_go; try done; try (by apply emits_run_process); apply configure_pod_silent.
Qed.

Lemma batch_silent depth cfile types counts batch prefix :
  emits silent (batch_add_nodes fuel depth cfile types counts batch prefix).
Proof.
  assert (∀ n t r, emits silent (batch_rest fuel n cfile t r batch prefix)) as Hrest.
  { induction n as [|n IH]; intros t r; cbn [batch_rest]; emits_go;
      try apply add_nodes_silent; apply IH. }
  revert types counts. induction depth as [|depth IH]; intros types counts;
    cbn [batch_add_nodes]; emits_go; try apply add_nodes_silent; auto.
Qed.

Lemma create_servers_silent mem route bench cfile kvs prefix :
  emits silent (create_servers fuel mem route bench cfile kvs prefix).
Proof. rewrite /create_servers /batch_add. emits_go; apply batch_silent. Qed.

Lemma create_management_silent cfile key name prefix :
  emits silent (create_management fuel cfile key name prefix).
Proof.
  rewrite /create_management. emits_go;
    try (apply cp_silent || apply sed_silent || done); by apply emits_copy.
Qed.

Lemma create_monitoring_silent ip prefix : emits silent (create_monitoring fuel ip prefix).
Proof. rewrite /create_monitoring. emits_go; try done. by apply emits_copy. Qed.

(** Two silent programs one after the other. *)
Lemma silent_prefix {A} (m : M kstate A) s o s' :
  emits silent m → m s = (o, s') →
  ∃ es, trace s' = trace s ++ es ∧ setup_complete ∉ es.
Proof.
  intros Hm E. destruct (Hm s) as (es & Ht & Hf). rewrite E in Ht. exists es.
  split; [done|]. intros Hin. rewrite Forall_forall in Hf. by apply (Hf _ Hin).
Qed.

(** A silent step of a run that sends the signal returns. *)
Lemma silent_step {A B} (m : M kstate A) (k : A → M kstate B) s0 s es0 o s' es :
  emits silent m → (m ≫= k) s = (o, s') →
  trace s = trace s0 ++ es0 → setup_complete ∉ es0 →
  trace s' = trace s0 ++ es → setup_complete ∈ es →
  ∃ a s1 es1, m s = (Ret a, s1) ∧ k a s1 = (o, s') ∧
    trace s1 = trace s0 ++ es1 ∧ setup_complete ∉ es1.
Proof.
  intros Hm Hb Ht Hn Ht' Hin. rewrite /mbind /M_bind in Hb.
  destruct (m s) as [oa s1] eqn:E. destruct (silent_prefix m s oa s1 Hm E) as (es1 & Hs1 & Hn1).
  rewrite Ht -app_assoc in Hs1. assert (setup_complete ∉ es0 ++ es1) as Hn01 by set_solver.
  destruct oa as [a| | |]; [by exists a, s1, (es0 ++ es1)|..];
    injection Hb as <- <-; rewrite Ht' in Hs1; apply app_inv_head in Hs1; by subst.
Qed.

Lemma finish_setup_extends p c s :
  ∃ es, trace (finish_setup fuel p c s).2 = trace s ++ es.
Proof.
  assert (emits (λ _, True) (finish_setup fuel p c)) as H.
  { rewrite /finish_setup. emits_go; try done; [by apply emits_copy|by apply emits_run_process]. }
  destruct (H s) as (es & -> & _). by exists es.
Qed.

End Order.

(** ** Properties *)

(** A cluster for examples: one memory pod that is pending at first and a fixed
    set of nodes; every command succeeds. *)
Definition example_pod (ph : string) : pod :=
  mkPod "memory-pod" (Some "node-m7"%string) ["memory-container"%string]
    (if String.eqb ph "Running" then Some "10.0.0.5"%string else None) ph [0%Z].

#[global] Instance example_kube : Kube := {|
  list_namespaced_pod n _ := [example_pod (if n <? 3 then "Pending" else "Running")];
  list_node _ := [["10.0.0.5"; "node-m7"]]%string;
  yaml_content _ := YamlMissing;
  command_ok _ _ := true;
  command_output _ _ := EmptyString;
  tar_text _ _ := Ret "archive"%string;
  stream_open _ := true;
  stream_stderr _ := false;
  isfile _ _ := true;
  random_nat _ := 0
|}.

(** Also: [replace_yaml_val] on a list of named pairs sets the value of the first
    pair with the name and changes no other value; without such a pair the list
    is unchanged, and it never fails. *)
Theorem replace_yaml_val_correct pairs names name val :
  env_names pairs = Some names →
  ∃ pairs', replace_yaml_val name val (YList pairs) = Ret (YList pairs') ∧
    env_names pairs' = Some names ∧
    ∀ name', env_value name' pairs' =
      if decide (name' = name ∧ name ∈ names) then Some (YStr val) else env_value name' pairs.
Proof.
  intros Hn. destruct (replace_pairs_spec pairs names name val Hn) as (pairs' & Hr & H).
  exists pairs'. by rewrite /replace_yaml_val Hr.
Qed.

Lemma replace_yaml_val_correct_witness :
  ∃ pairs', replace_yaml_val "MGMT_IP" "10.0.0.9"
      (YList [env_pair "SERVER_TYPE" [("value"%string, YStr "mn")];
              env_pair "MGMT_IP" [("value"%string, YStr "DUMMY")]]) = Ret (YList pairs') ∧
    env_value "MGMT_IP" pairs' = Some (YStr "10.0.0.9").
Proof.
  destruct (replace_yaml_val_correct
    [env_pair "SERVER_TYPE" [("value"%string, YStr "mn")];
     env_pair "MGMT_IP" [("value"%string, YStr "DUMMY")]] ["SERVER_TYPE"; "MGMT_IP"]%string
    "MGMT_IP" "10.0.0.9" eq_refl) as (pairs' & H1 & _ & H2).
  exists pairs'. split; [exact H1|]. by rewrite H2.
Defined.

(** Also: [get_pod_ips] waits exactly as long as it has to: if the answer number
    [n] is the first, after one it does not look at, in which every pod has an
    address (and, if asked for, is running), it returns the addresses of that
    answer, having asked no more and done nothing else. *)
Theorem get_pod_ips_correct `{K : Kube} fuel sel run n ips s :
  asked s < n → (∀ j ips, asked s < j < n → ¬ pods_ready sel run j ips) →
  pods_ready sel run n ips → n ≤ asked s + fuel →
  get_pod_ips fuel sel run s = (Ret ips, after_asks (S n) s).
Proof.
  intros Hlt Hn Hr Hf. rewrite /get_pod_ips. erewrite bind_ret by reflexivity.
  rewrite (pod_loop_ready (n - S (asked s)) fuel sel run _ ips); simpl.
  - rewrite /after_asks /=. do 2 f_equal. lia.
  - intros j ips' Hj. apply Hn. lia.
  - by replace (S (asked s + (n - S (asked s)))) with n by lia.
  - lia.
Qed.

Lemma get_pod_ips_correct_witness :
  get_pod_ips 5 (role "memory") true (mkKstate 0 [] []) =
    (Ret ["10.0.0.5"%string], mkKstate 4 [] []).
Proof.
  apply (get_pod_ips_correct 5 (role "memory") true 3 ["10.0.0.5"%string] (mkKstate 0 [] []));
    simpl; [lia| |split; [done|by repeat constructor]|lia].
  intros j ips Hj [Hm _]. by destruct j as [|[|[|j]]]; [lia|..|lia].
Defined.

(** C25: [batch_add_nodes] starts exactly the servers asked for, in batches: if the
    counts fit into one batch there is one call of [add_nodes]; otherwise each
    kind is added on its own, in chunks that add up to its count, are positive
    and at most the batch size, and only the first of which creates the
    DaemonSet.  Two levels of recursion are enough. *)
Theorem batch_add_nodes_correct `{K : Kube} fuel cfile types counts batch prefix :
  (0 < batch)%Z → length types = length counts → Forall (λ c, Z.to_nat c ≤ fuel) counts →
  ((sum_counts counts ≤ batch)%Z ∧
   ∀ s, batch_add_nodes fuel 2 cfile types counts batch prefix s =
        add_nodes fuel cfile types counts true prefix s) ∨
  ∃ chunks, Forall2 (chunks_ok batch) counts chunks ∧
   ∀ s, batch_add_nodes fuel 2 cfile types counts batch prefix s =
        for_each (zip types chunks) (λ p, add_chunks fuel cfile p.1 true prefix p.2) s.
Proof.
  intros Hb Hl Hf. destruct (decide (sum_counts counts ≤ batch)%Z) as [Hs|Hs].
  - left. split; [done|]. intros s. remember 1 as d. cbn [batch_add_nodes].
    by rewrite bool_decide_true.
  - right. destruct (batch_many fuel cfile types counts batch prefix Hb Hl Hf)
      as (chunks & Hok & Hrun). exists chunks. split; [done|]. intros s. rewrite -Hrun.
    remember 1 as d. cbn [batch_add_nodes]. rewrite bool_decide_false //.
    exact (for_each_index types counts (λ t c,
      if bool_decide (c ≤ batch)%Z then batch_add_nodes fuel d cfile [t] [c] batch prefix
      else add_nodes fuel cfile [t] [batch] true prefix ;;
           batch_rest fuel fuel cfile t (c - batch) batch prefix) s Hl).
Qed.

Lemma batch_add_nodes_correct_witness :
  ∃ chunks, Forall2 (chunks_ok 100) [250%Z] chunks ∧
   ∀ s, batch_add_nodes 300 2 "c.yml" ["memory"%string] [250%Z] 100 None s =
        for_each (zip ["memory"%string] chunks)
          (λ p, add_chunks 300 "c.yml" p.1 true None p.2) s.
Proof.
  destruct (batch_add_nodes_correct 300 "c.yml" ["memory"%string] [250%Z] 100 None)
    as [[H _]|H]; [done|done|repeat constructor; lia| |exact H].
  exfalso. vm_compute in H. by apply H.
Defined.

(** Also: Once the expected pods run, [join_servers] configures every container that
    was not there before and no other, each once: it copies the configuration,
    with the node's identifier filled in for memory servers, into the container
    and removes the local copy. *)
Theorem join_servers_configures `{K : Kube} fuel cfile kind prefix rs ms mi si before expected
    text s s1 :
  copies_work text →
  wait_for_pods fuel fuel (kind_role kind) expected [] s = (Ret tt, s1) →
  let pods := list_namespaced_pod (asked s1) (role (kind_role kind)) in
  (kind_role kind = "memory"%string → Forall (λ p, is_Some (node_name p)) pods) →
  ∃ new s', join_servers fuel cfile kind false prefix rs ms mi si before expected s =
      (Ret tt, s') ∧
    NoDup new ∧ (∀ pc, pc ∈ new ↔ container_of pods pc ∧ pc ∉ before) ∧
    trace s' = trace s ++ (new ≫= config_effects cfile (kind_role kind) text).
Proof.
  intros Hw Hwait pods Hn. destruct (pod_container_pairs_spec pods) as [Hnd Hel].
  set (new := set_difference (get_current_pod_container_pairs pods) before).
  assert (∀ pc, pc ∈ new ↔ container_of pods pc ∧ pc ∉ before) as Hnew.
  { intros pc. rewrite /new /set_difference list_elem_of_filter Hel. naive_solver. }
  destruct (configure_pods_run cfile (kind_role kind) text new
    (mkKstate (S (asked s1)) (trace s1) (environ s1)) Hw) as (n & Hrun).
  { intros Hk. apply Forall_forall. intros pc [(p & c & Hp & _ & ->) _]%Hnew. simpl.
    specialize (Hn Hk). rewrite Forall_forall in Hn. by apply Hn. }
  exists new. eexists. split; [|split; [|split; [exact Hnew|]]].
  - rewrite /join_servers. erewrite bind_ret by reflexivity.
    erewrite bind_ret by exact Hwait. erewrite bind_ret by reflexivity. exact Hrun.
  - by apply NoDup_filter.
  - simpl. pose proof (emits_nothing _ s (emits_wait_for_pods (λ _, False) fuel fuel
      (kind_role kind) expected [])) as Ht. rewrite Hwait in Ht. by rewrite -Ht.
Qed.

Lemma join_servers_configures_witness :
  ∃ new s', join_servers 5 "c.yml" "memory" false None "" "" "" "" [] 1 (mkKstate 3 [] []) =
      (Ret tt, s') ∧ NoDup new ∧
    trace s' = [] ++ (new ≫= config_effects "c.yml" "memory" "archive").
Proof.
  destruct (join_servers_configures 5 "c.yml" "memory" None "" "" "" "" [] 1 "archive"
    (mkKstate 3 [] []) (mkKstate 5 [] [])) as (new & s' & H1 & H2 & _ & H3).
  - by split.
  - vm_compute. reflexivity.
  - intros _. by repeat constructor.
  - by exists new, s'.
Defined.

(** Also: [run_cluster] tells the management pod that the cluster is up only after
    all servers were added: if the signal is in the trace of a run, then
    [create_servers] returned, and no signal was sent before that. *)
Theorem run_cluster_signals_last `{K : Kube} fuel mem route bench cfile key kvs name s o s' es :
  run_cluster fuel mem route bench cfile key kvs name s = (o, s') →
  trace s' = trace s ++ es → setup_complete ∈ es →
  ∃ prefix s1 s2 es1 es2, create_servers fuel mem route bench (fmt_s cfile) kvs prefix s1 =
      (Ret tt, s2) ∧
    trace s2 = trace s ++ es1 ∧ setup_complete ∉ es1 ∧ es = es1 ++ es2.
Proof.
  intros Hr Ht Hin. rewrite /run_cluster in Hr.
  eapply (silent_step _ _ s s []) in Hr as (has & s1 & es1 & _ & Hr & Ht1 & Hn1);
    [|by auto with effects|by rewrite app_nil_r|by intros ?%elem_of_nil|done..].
  destruct (negb has).
  { injection Hr as _ <-. rewrite Ht1 in Ht. apply app_inv_head in Ht. by subst. }
  eapply (silent_step _ _ s s1 es1) in Hr as (home & s2 & es2 & _ & Hr & Ht2 & Hn2);
    [|by auto with effects|done..].
  eapply (silent_step _ _ s s2 es2) in Hr as ([[mip mp] kc] & s3 & es3 & _ & Hr & Ht3 & Hn3);
    [|apply create_management_silent|done..].
  eapply (silent_step _ _ s s3 es3) in Hr as ([] & s4 & es4 & _ & Hr & Ht4 & Hn4);
    [|apply create_monitoring_silent|done..].
  eapply (silent_step _ _ s s4 es4) in Hr as ([] & s5 & es5 & Hc & Hr & Ht5 & Hn5);
    [|apply create_servers_silent|done..].
  destruct (finish_setup_extends fuel mp kc s5) as (es6 & Hf). rewrite Hr /= Ht5 in Hf.
  exists (os_path_join home "cluster/dinomo/cluster"), s4, s5, es5, es6.
  repeat split; try done. rewrite Ht -app_assoc in Hf. by apply app_inv_head in Hf.
Qed.

(** A cluster in which only the management pod runs and all goes well. *)
Definition example_spec : yaml :=
  YMap [("metadata", YMap [("name", YStr "management-pod")]);
        ("spec", YMap [("containers", YList [YMap [("name", YStr "management-container");
                                                   ("env", YList [])]]);
                       ("template", YMap [("spec", YMap [("containers", YList [])])])])]%string.

#[global] Instance example_cloud : Kube := {|
  list_namespaced_pod _ sel :=
    if bool_decide (sel = role "management")
    then [mkPod "management-pod" (Some "node-g1"%string) ["management-container"%string]
            (Some "10.0.0.2"%string) "Running" [0%Z]] else [];
  list_node _ := [];
  yaml_content _ := YamlDoc example_spec;
  command_ok _ _ := true;
  command_output _ _ := "10.0.0.1"%string;
  tar_text _ _ := Ret "archive"%string;
  stream_open _ := true;
  stream_stderr _ := false;
  isfile _ _ := true;
  random_nat _ := 0
|}.

Definition example_env : kstate :=
  mkKstate 0 [] [("DINOMO_HOME", "/dinomo"); ("HOME", "/root")]%string.

Notation example_run := (run_cluster (K:=example_cloud) 2 0 0 (Some 0%Z) (Some "base.yml"%string)
    (Some "/root/.ssh/id_rsa"%string) (Some "memory"%string) "cluster" example_env).

Lemma example_run_signals : trace example_run.2 !! 21 = Some setup_complete.
Proof. vm_compute. reflexivity. Qed.

Lemma run_cluster_signals_last_witness :
  ∃ o s', example_run = (o, s') ∧
  ∃ prefix s1 s2 es1 es2,
    create_servers (K:=example_cloud) 2 0 0 (Some 0%Z) "base.yml" (Some "memory"%string) prefix s1 =
      (Ret tt, s2) ∧
    trace s2 = trace example_env ++ es1 ∧ setup_complete ∉ es1 ∧ trace s' = es1 ++ es2.
Proof.
  pose proof example_run_signals as Hs. destruct example_run as [o s'] eqn:E.
  exists o, s'. split; [reflexivity|].
  apply (run_cluster_signals_last (K:=example_cloud) 2 0 0 (Some 0%Z) (Some "base.yml"%string)
    (Some "/root/.ssh/id_rsa"%string) (Some "memory"%string) "cluster" example_env
    o s' (trace s') E).
  - exact (eq_sym (app_nil_l (trace s'))).
  - by eapply list_elem_of_lookup_2.
Defined.
