(* ===== verification/Management.v ===== *)
(** * The management server (src/cluster/dinomo/management)

    Addresses, the scaler, the check of the hash ring, and the event loops of
    the management and Kubernetes servers.  A loop is driven by the list of
    what each poll returned. *)

From S2P Require Import Prelude Yaml Kube Cluster Messages.

(** ** management/util.py *)

Definition NUM_EXEC_THREADS : Z := 3.
Definition EXECUTOR_DEPART_PORT : Z := 4050.
Definition EXECUTOR_PIN_PORT : Z := 4000.
Definition EXECUTOR_UNPIN_PORT : Z := 4010.
Definition KVS_NODE_DEPART_PORT : Z := 6100.
Definition KVS_NODE_FAILOVER_PORT : Z := 6600.
Definition ROUTING_SEED_PORT : Z := 7000.
Definition ROUTING_NOTIFY_PORT : Z := 7100.
Definition MONITORING_NOTIFY_PORT : Z := 7400.

(** [TCP_BASE % (ip, port)]. *)
Definition TCP_BASE (ip : string) (port : Z) : string :=
  "tcp://" +:+ ip +:+ ":" +:+ py_str port.

Definition get_executor_depart_address (ip : string) (tid : Z) : string :=
  TCP_BASE ip (tid + EXECUTOR_DEPART_PORT).
Definition get_executor_pin_address (ip : string) (tid : Z) : string :=
  TCP_BASE ip (tid + EXECUTOR_PIN_PORT).
Definition get_executor_unpin_address (ip : string) (tid : Z) : string :=
  TCP_BASE ip (tid + EXECUTOR_UNPIN_PORT).
Definition get_routing_seed_address (ip : string) (tid : Z) : string :=
  TCP_BASE ip (tid + ROUTING_SEED_PORT).
Definition get_storage_depart_address (ip : string) (tid : Z) : string :=
  TCP_BASE ip (tid + KVS_NODE_DEPART_PORT).
Definition get_storage_failover_address (ip : string) (tid : Z) : string :=
  TCP_BASE ip (tid + KVS_NODE_FAILOVER_PORT).
Definition get_routing_depart_address (ip : string) (tid : Z) : string :=
  TCP_BASE ip (tid + ROUTING_NOTIFY_PORT).
Definition get_monitoring_depart_address (ip : string) : string :=
  TCP_BASE ip MONITORING_NOTIFY_PORT.

Definition send_message (message address : string) : M kstate unit :=
  emit (ESend address message).

(** ** scaler/base_scaler.py, scaler/default_scaler.py *)

Definition BaseScaler_init : M kstate unit := raise NotImplementedError.
Definition BaseScaler_add_vms (kind count : string) : M kstate unit :=
  raise NotImplementedError.
Definition BaseScaler_remove_vms (kind ip : string) : M kstate unit :=
  raise NotImplementedError.

(** The scaler keeps the two sockets it was given. *)
Record DefaultScaler : Type := mkDefaultScaler {
  scaler_ip : string;
  add_socket : string;
  remove_socket : string
}.

Definition DefaultScaler_add_vms (sc : DefaultScaler) (kind count : string) : M kstate unit :=
  emit (ESend (add_socket sc) (kind +:+ ":" +:+ count)).
Definition DefaultScaler_remove_vms (sc : DefaultScaler) (kind ip : string) : M kstate unit :=
  emit (ESend (remove_socket sc) (kind +:+ ":" +:+ ip)).

(** ** Peers *)

(** What the management server hears besides the Kubernetes API: the answer to
    a request (none if it never comes), parsed as a cluster membership. *)
Class Peers : Type := {
  reply : nat → string → option string;
  parse_ClusterMembership : string → outcome (list TierMembership)
}.

Section Server.
Context `{K : Kube, P : Peers}.
Variable fuel : nat.
Notation W := (M kstate).

(** A request on a new REQ socket, and its answer. *)
Definition request (address message : string) : W string :=
  emit (ERequest address message) ;;
  r ← ask (λ n, reply n address);
  match r with Some resp => mret resp | None => block end.

(** [range(n)]. *)
Definition range_of (n : yaml) : outcome (list Z) :=
  match n with
  | YInt z => Ret (Z.of_nat <$> seq 0 (Z.to_nat z))
  | YBool b => Ret (if b then [0%Z] else [])
  | _ => Raise TypeError
  end.

(** ** management_server.py *)

(** The memory tier and the EBS tier, if there is one; [None] without tiers. *)
Definition pick_tiers (tiers : list TierMembership)
  : option (TierMembership * option TierMembership) :=
  match tiers with
  | [] => None
  | [t] => Some (t, None)
  | t0 :: t1 :: _ => if bool_decide (tier_id t0 = MEMORY) then Some (t0, Some t1)
                     else Some (t1, Some t0)
  end.

Definition departed_of (tag : string) (t : TierMembership) (ips : list string)
  : list (string * Server) :=
  (λ node, (tag, node)) <$> filter (λ node, private_ip node ∉ ips) (servers t).

(** Delegate the merge of a failed node's logs. *)
Definition failover (storage_ips : list string) (d : string * Server) : W unit :=
  hostname ← get_hostname_from_ip (private_ip d.2);
  ip ← choice storage_ips;
  match hostname with
  | None => raise TypeError
  | Some h =>
      request (get_storage_failover_address ip 0) (d.1 +:+ ":" +:+ py_from 6 h) ;;
      mret tt
  end.

(** Tell everyone that a node has departed. *)
Definition notify (storage_ips route_ips mon_ips : list string)
    (num_memory_threads num_routing_threads : yaml) (d : string * Server) : W unit :=
  let msg := d.1 +:+ ":" +:+ public_ip d.2 +:+ ":" +:+ private_ip d.2 in
  for_each storage_ips (λ ip,
    ts ← lift (range_of num_memory_threads);
    for_each ts (λ t, send_message msg (get_storage_depart_address ip t))) ;;
  let msg := "depart:" +:+ msg in
  for_each route_ips (λ ip,
    ts ← lift (range_of num_routing_threads);
    for_each ts (λ t, send_message msg (get_routing_depart_address ip t))) ;;
  for_each mon_ips (λ ip, send_message msg (get_monitoring_depart_address ip)).

Definition check_hash_ring (num_memory_threads num_routing_threads : yaml) : W unit :=
  route_ips ← get_pod_ips fuel (role "routing") false;
  match route_ips with
  | [] => mret tt
  | _ =>
      ip ← choice route_ips;
      resp ← request (get_routing_seed_address ip 0) EmptyString;
      tiers ← lift (parse_ClusterMembership resp);
      match pick_tiers tiers with
      | None => mret tt
      | Some (mem_tier, ebs_tier) =>
          mem_ips ← get_pod_ips fuel (role "memory") false;
          let departed := departed_of "MEMORY" mem_tier mem_ips in
          de ← match ebs_tier with
               | None => mret (departed, [])
               | Some t =>
                   ebs_ips ← get_pod_ips fuel (role "ebs") false;
                   mret (departed ++ departed_of "STORAGE" t ebs_ips, ebs_ips)
               end;
          mon_ips ← get_pod_ips fuel (role "monitoring") false;
          let storage_ips := mem_ips ++ de.2 in
          for_each de.1 (failover storage_ips) ;;
          for_each de.1 (notify storage_ips route_ips mon_ips
                           num_memory_threads num_routing_threads)
      end
  end.

(** What one poll returned: the messages on the two sockets, the time when the
    report period is checked and the time when the timer is restarted, in
    microseconds. *)
Record poll : Type := mkPoll {
  churn : option string;
  restart : option string;
  time_end : Z;
  time_restart : Z
}.

Definition REPORT_PERIOD : Z := 5000000.
Definition PIN_ACCEPT_PORT : string := "5010".

Definition churn_message (scaler : DefaultScaler) (msg : string) : W unit :=
  let args := py_split ":" msg in
  a0 ← lift (py_nth args 0);
  if String.eqb a0 "add" then
    a2 ← lift (py_nth args 2); a1 ← lift (py_nth args 1);
    DefaultScaler_add_vms scaler a2 a1
  else if String.eqb a0 "remove" then
    a2 ← lift (py_nth args 2); a1 ← lift (py_nth args 1);
    DefaultScaler_remove_vms scaler a2 a1
  else mret tt.

Definition restart_message (msg : string) : W unit :=
  ip ← lift (py_nth (py_split ":" msg) 1);
  pod ← get_pod_from_ip ip;
  count ← lift (py_nth (restart_counts pod) 0);
  emit (EReply (py_str count)).

(** One round of the loop; the result is the new [start]. *)
Definition management_round (scaler : DefaultScaler) (num_memory_threads num_routing_threads : yaml)
    (start : Z) (p : poll) : W Z :=
  match churn p with Some msg => churn_message scaler msg | None => mret tt end ;;
  match restart p with Some msg => restart_message msg | None => mret tt end ;;
  if bool_decide (time_end p - start > REPORT_PERIOD)%Z then
    check_hash_ring num_memory_threads num_routing_threads ;;
    mret (time_restart p)
  else mret start.

Definition management_scaler (self_ip : string) : DefaultScaler :=
  mkDefaultScaler self_ip "ipc:///tmp/node_add" "ipc:///tmp/node_remove".

Definition management_run (self_ip : string) (start : Z) (polls : list poll) : W unit :=
  emit (EBind "tcp://*:8100") ;;
  emit (EBind "tcp://*:8101") ;;
  emit (EBind "tcp://*:8102") ;;
  emit (EBind ("tcp://*:" +:+ PIN_ACCEPT_PORT)) ;;
  kvs_spec ← load_yaml "/DINOMO/conf/dinomo-config.yml" None;
  threads ← lift (yaml_get "threads" kvs_spec);
  num_memory_threads ← lift (yaml_get "memory" threads);
  threads ← lift (yaml_get "threads" kvs_spec);
  num_routing_threads ← lift (yaml_get "routing" threads);
  fold_each polls start
    (management_round (management_scaler self_ip) num_memory_threads num_routing_threads) ;;
  block.

(** Busy waiting for a file. *)
Fixpoint wait_for_file (n : nat) (file : string) : W unit :=
  match n with
  | O => out_of_fuel
  | S n' => b ← ask (λ n, isfile n file); if (b : bool) then mret tt else wait_for_file n' file
  end.

Definition management_main (argv : list string) (start : Z) (polls : list poll) : W unit :=
  dinomo_home ← getenv "DINOMO_HOME";
  wait_for_file fuel (os_path_join dinomo_home "setup_complete") ;;
  home ← getenv "HOME";
  wait_for_file fuel (os_path_join home ".kube/config") ;;
  ip ← lift (py_nth argv 1);
  management_run ip start polls.

(** ** k8s_server.py *)

Record k8s_poll : Type := mkK8sPoll { node_add : option string; node_remove : option string }.

Definition k8s_round (cfile prefix : string) (p : k8s_poll) : W unit :=
  match node_add p with
  | None => mret tt
  | Some msg =>
      let args := py_split ":" msg in
      ntype ← lift (py_nth args 0);
      a1 ← lift (py_nth args 1);
      num ← lift (py_int a1);
      add_nodes fuel cfile [ntype] [num] false (Some prefix)
  end ;;
  match node_remove p with
  | None => mret tt
  | Some msg =>
      let args := py_split ":" msg in
      ntype ← lift (py_nth args 0);
      ip ← lift (py_nth args 1);
      remove_node ip ntype
  end.

Definition k8s_run (polls : list k8s_poll) : W unit :=
  dinomo_home ← getenv "DINOMO_HOME";
  let prefix := os_path_join dinomo_home "cluster/dinomo/cluster" in
  emit (EBind "ipc:///tmp/node_add") ;;
  emit (EBind "ipc:///tmp/node_remove") ;;
  dinomo_home ← getenv "DINOMO_HOME";
  let cfile := os_path_join dinomo_home "conf/dinomo-config.yml" in
  for_each polls (k8s_round cfile prefix) ;;
  block.

Definition k8s_main (polls : list k8s_poll) : W unit :=
  dinomo_home ← getenv "DINOMO_HOME";
  wait_for_file fuel (os_path_join dinomo_home "setup_complete") ;;
  k8s_run polls.

End Server.
