(* ===== verification/ManagementProps.v ===== *)
(** * Properties of the management server

    What the check of the hash ring does when servers have departed, when it
    fails, and that scaling requests reach [add_nodes] and [remove_node]
    unchanged. *)

From S2P Require Import Prelude ArgParse Yaml Kube Cluster ClusterProps Management Messages.

Implicit Types s : kstate.

(** The state after some more questions and effects. *)
Definition emitted (n : nat) (es : list effect) s : kstate :=
  mkKstate n (trace s ++ es) (environ s).

Lemma emitted_emitted n1 n2 es1 es2 s :
  emitted n2 es2 (emitted n1 es1 s) = emitted n2 (es1 ++ es2) s.
Proof. by rewrite /emitted /= app_assoc. Qed.

Lemma emitted_nil s : emitted (asked s) [] s = s.
Proof. rewrite /emitted app_nil_r. by destruct s. Qed.

(** A loop that only emits. *)
Lemma for_each_emits {A} (xs : list A) (f : A → M kstate unit) (g : A → list effect) s :
  (∀ x s, x ∈ xs → f x s = (Ret tt, emitted (asked s) (g x) s)) →
  for_each xs f s = (Ret tt, emitted (asked s) (xs ≫= g) s).
Proof.
  revert s. induction xs as [|x xs IH]; intros s Hf; [by rewrite emitted_nil|].
  cbn [for_each]. erewrite bind_ret by (apply Hf; left). rewrite IH.
  - by rewrite emitted_emitted.
  - intros y s' Hy. apply Hf. by right.
Qed.

Section Ring.
Context `{K : Kube, P : Peers}.
Variable fuel : nat.

(** The cluster as seen during one check: the pods of each role have these
    addresses, the Kubernetes nodes are these, and a routing server knows this
    membership. *)
Record ring_view : Type := mkRingView {
  view_routing : list string;
  view_memory : list string;
  view_ebs : list string;
  view_monitoring : list string;
  view_nodes : list (list string);
  view_tiers : list TierMembership
}.

(** The members of the ring that no pod stands for. *)
Definition departed (v : ring_view) : list (string * Server) :=
  match pick_tiers (view_tiers v) with
  | None => []
  | Some (mem, None) => departed_of "MEMORY" mem (view_memory v)
  | Some (mem, Some ebs) =>
      departed_of "MEMORY" mem (view_memory v) ++ departed_of "STORAGE" ebs (view_ebs v)
  end.

Definition storage (v : ring_view) : list string :=
  match pick_tiers (view_tiers v) with
  | Some (_, Some _) => view_memory v ++ view_ebs v
  | _ => view_memory v ++ []
  end.

(** The routing servers answer a request for seeds with the membership, and the
    storage servers answer a request to take over a log with anything: the check
    does not read that answer, and server.cpp sends an empty one. *)
Definition sees (v : ring_view) : Prop :=
  (∀ n, pods_ready (role "routing") false n (view_routing v)) ∧
  (∀ n, pods_ready (role "memory") false n (view_memory v)) ∧
  (∀ n, pods_ready (role "ebs") false n (view_ebs v)) ∧
  (∀ n, pods_ready (role "monitoring") false n (view_monitoring v)) ∧
  (∀ n, list_node n = view_nodes v) ∧
  (∀ n ip, ip ∈ view_routing v → ∃ r, reply n (get_routing_seed_address ip 0) = Some r ∧
     parse_ClusterMembership r = Ret (view_tiers v)) ∧
  (∀ n ip, ip ∈ storage v → is_Some (reply n (get_storage_failover_address ip 0))).

Lemma get_pod_ips_static sel ips s :
  (∀ n, pods_ready sel false n ips) → 0 < fuel →
  get_pod_ips fuel sel false s = (Ret ips, emitted (S (S (asked s))) [] s).
Proof.
  intros Hr Hf. rewrite /get_pod_ips. erewrite bind_ret by reflexivity.
  rewrite (pod_loop_ready 0 fuel sel false _ ips); [|lia| |done].
  - rewrite /emitted /after_asks /= app_nil_r. do 2 f_equal. lia.
  - apply Hr.
Qed.

Lemma choice_run {A} (xs : list A) s :
  xs ≠ [] → ∃ a, a ∈ xs ∧ choice xs s = (Ret a, emitted (S (asked s)) [] s).
Proof.
  intros Hne. rewrite /choice /mbind /M_bind /=.
  destruct (lookup_lt_is_Some_2 xs (random_nat (asked s) mod length xs)) as [a Ha].
  { apply Nat.mod_upper_bound. by destruct xs. }
  rewrite Ha. exists a. split; [by eapply list_elem_of_lookup_2|].
  by rewrite /mret /M_ret /emitted app_nil_r.
Qed.

Lemma request_run address msg r s :
  reply (asked s) address = Some r →
  request address msg s = (Ret r, emitted (S (asked s)) [ERequest address msg] s).
Proof. intros Hr. by rewrite /request /mbind /M_bind /= Hr. Qed.

(** ** Failover requests *)

(** The host name Kubernetes has for a departed node. *)
Definition hostname (v : ring_view) (d : string * Server) : outcome (option string) :=
  hostname_loop (view_nodes v) (private_ip d.2).

Definition failover_request (v : ring_view) (d : string * Server) (e : effect) : Prop :=
  ∃ ip h, ip ∈ storage v ∧ hostname v d = Ret (Some h) ∧
    e = ERequest (get_storage_failover_address ip 0) (d.1 +:+ ":" +:+ py_from 6 h).

Lemma failover_run v d h s :
  sees v → storage v ≠ [] → hostname v d = Ret (Some h) →
  ∃ n e, failover (storage v) d s = (Ret tt, emitted n [e] s) ∧ failover_request v d e.
Proof.
  intros Hv Hne Hh. rewrite /failover /get_hostname_from_ip.
  assert (∀ n, list_node n = view_nodes v) as Hn by apply Hv.
  erewrite bind_ret; last first.
  { erewrite bind_ret by reflexivity. rewrite Hn /lift.
    rewrite /hostname in Hh. by rewrite Hh. }
  set (s1 := mkKstate (S (asked s)) (trace s) (environ s)).
  destruct (choice_run (storage v) s1 Hne) as (ip & Hip & Hc). rewrite (bind_ret _ _ _ _ _ Hc).
  assert (is_Some (reply (S (asked s1)) (get_storage_failover_address ip 0))) as [r Hrep]
    by (by apply Hv).
  pose proof (request_run (get_storage_failover_address ip 0) (d.1 +:+ ":" +:+ py_from 6 h) r
    (emitted (S (asked s1)) [] s1) Hrep) as Hr.
  eexists. exists (ERequest (get_storage_failover_address ip 0) (d.1 +:+ ":" +:+ py_from 6 h)).
  split; [|by exists ip, h].
  rewrite (bind_ret _ _ _ _ _ Hr) emitted_emitted. reflexivity.
Qed.

Lemma failovers_run v ds s :
  sees v → storage v ≠ [] → Forall (λ d, ∃ h, hostname v d = Ret (Some h)) ds →
  ∃ n es, for_each ds (failover (storage v)) s = (Ret tt, emitted n es s) ∧
    Forall2 (failover_request v) ds es.
Proof.
  intros Hv Hne. revert s. induction ds as [|d ds IH]; intros s Hd.
  { exists (asked s), []. by rewrite emitted_nil. }
  apply Forall_cons in Hd as [[h Hh] Hd].
  destruct (failover_run v d h s Hv Hne Hh) as (n1 & e & H1 & He).
  destruct (IH (emitted n1 [e] s) Hd) as (n2 & es & H2 & Hes).
  exists n2, (e :: es). split; [|by constructor]. cbn [for_each].
  rewrite (bind_ret _ _ _ _ _ H1) H2. by rewrite emitted_emitted.
Qed.

(** ** Departure notices *)

Definition threads (n : Z) : list Z := Z.of_nat <$> seq 0 (Z.to_nat n).

Definition notices (v : ring_view) (nm nr : Z) (d : string * Server) : list effect :=
  let msg := d.1 +:+ ":" +:+ public_ip d.2 +:+ ":" +:+ private_ip d.2 in
  (storage v ≫= λ ip, threads nm ≫= λ t, [ESend (get_storage_depart_address ip t) msg]) ++
  (view_routing v ≫= λ ip, threads nr ≫= λ t,
     [ESend (get_routing_depart_address ip t) ("depart:" +:+ msg)]) ++
  (view_monitoring v ≫= λ ip, [ESend (get_monitoring_depart_address ip) ("depart:" +:+ msg)]).

Lemma notify_run v nm nr d s :
  notify (storage v) (view_routing v) (view_monitoring v) (YInt nm) (YInt nr) d s =
  (Ret tt, emitted (asked s) (notices v nm nr d) s).
Proof.
  rewrite /notify /notices. set (msg := d.1 +:+ _).
  erewrite bind_ret; last first.
  { apply for_each_emits. intros ip s1 _. erewrite bind_ret by reflexivity.
    by apply for_each_emits. }
  erewrite bind_ret; last first.
  { apply for_each_emits. intros ip s1 _. erewrite bind_ret by reflexivity.
    by apply for_each_emits. }
  erewrite for_each_emits by (intros; reflexivity). by rewrite !emitted_emitted.
Qed.

(** The check up to the failover requests. *)
Lemma check_prefix v nm nr s :
  sees v → 0 < fuel → view_routing v ≠ [] → pick_tiers (view_tiers v) ≠ None →
  ∃ n ip, ip ∈ view_routing v ∧
    check_hash_ring fuel nm nr s =
    (for_each (departed v) (failover (storage v)) ;;
     for_each (departed v) (notify (storage v) (view_routing v) (view_monitoring v) nm nr))
      (emitted n [ERequest (get_routing_seed_address ip 0) EmptyString] s).
Proof.
  intros Hv Hf Hr Ht. pose proof Hv as (Hro & Hme & Heb & Hmo & _ & Hseed & _).
  rewrite /check_hash_ring (bind_ret _ _ _ _ _ (get_pod_ips_static _ _ s Hro Hf)).
  destruct (choice_run (view_routing v) (emitted (S (S (asked s))) [] s) Hr)
    as (ip & Hip & Hc).
  destruct (view_routing v) as [|r0 rs] eqn:Er; [done|]. rewrite (bind_ret _ _ _ _ _ Hc).
  set (s2 := emitted _ [] (emitted _ [] s)).
  destruct (Hseed (asked s2) ip) as (r & Hrep & Hp); [done|].
  rewrite (bind_ret _ _ _ _ _ (request_run _ EmptyString r s2 Hrep)). erewrite bind_ret by (by rewrite Hp).
  rewrite /departed /storage. destruct (pick_tiers (view_tiers v)) as [[mem ebs]|]; [|done].
  rewrite (bind_ret _ _ _ _ _ (get_pod_ips_static _ _ _ Hme Hf)).
  destruct ebs as [ebs|].
  - erewrite bind_ret; last first.
    { by rewrite (bind_ret _ _ _ _ _ (get_pod_ips_static _ _ _ Heb Hf)). }
    rewrite (bind_ret _ _ _ _ _ (get_pod_ips_static _ _ _ Hmo Hf)).
    eexists _, ip. split; [done|]. rewrite !emitted_emitted. reflexivity.
  - erewrite bind_ret; [|reflexivity].
    rewrite (bind_ret _ _ _ _ _ (get_pod_ips_static _ _ _ Hmo Hf)).
    eexists _, ip. split; [done|]. rewrite !emitted_emitted. reflexivity.
Qed.

(** The failover loop when some host name is missing. *)
Lemma failovers_raise v ds s :
  sees v → storage v ≠ [] → Forall (λ d, ∃ h, hostname v d = Ret h) ds →
  Exists (λ d, hostname v d = Ret None) ds →
  ∃ n es, for_each ds (failover (storage v)) s = (Raise TypeError, emitted n es s) ∧
    Forall (λ e, ∃ a m, e = ERequest a m) es.
Proof.
  intros Hv Hne. revert s. induction ds as [|d ds IH]; intros s Hall Hex.
  { by inversion Hex. }
  apply Forall_cons in Hall as [[[h|] Hh] Hall].
  - destruct (failover_run v d h s Hv Hne Hh) as (n1 & e & H1 & (ip & h' & _ & _ & He)).
    apply Exists_cons in Hex as [Hd|Hex]; [congruence|].
    destruct (IH (emitted n1 [e] s) Hall Hex) as (n2 & es & H2 & Hes).
    exists n2, (e :: es). split; [|constructor; [by do 2 eexists|done]].
    cbn [for_each]. rewrite (bind_ret _ _ _ _ _ H1) H2. by rewrite emitted_emitted.
  - assert (∀ n, list_node n = view_nodes v) as Hn by apply Hv.
    eexists _, []. split; [|done]. cbn [for_each]. apply bind_raise.
    rewrite /failover /get_hostname_from_ip. erewrite bind_ret; last first.
    { erewrite bind_ret by reflexivity. rewrite Hn /lift.
      rewrite /hostname in Hh. by rewrite Hh. }
    set (s1 := mkKstate (S (asked s)) (trace s) (environ s)).
    destruct (choice_run (storage v) s1 Hne) as (ip & Hip & Hc).
    rewrite (bind_ret _ _ _ _ _ Hc). reflexivity.
Qed.

End Ring.

(** The whole check. *)
Lemma check_hash_ring_run `{K : Kube, P : Peers} fuel v nm nr s :
  sees v → 0 < fuel → view_routing v ≠ [] → pick_tiers (view_tiers v) ≠ None →
  storage v ≠ [] → Forall (λ d, ∃ h, hostname v d = Ret (Some h)) (departed v) →
  ∃ n ip failovers, ip ∈ view_routing v ∧
    Forall2 (failover_request v) (departed v) failovers ∧
    check_hash_ring fuel (YInt nm) (YInt nr) s =
      (Ret tt, emitted n (ERequest (get_routing_seed_address ip 0) EmptyString ::
                          failovers ++ (departed v ≫= notices v nm nr)) s).
Proof.
  intros Hv Hf Hr Ht Hst Hh.
  destruct (check_prefix fuel v (YInt nm) (YInt nr) s Hv Hf Hr Ht) as (n & ip & Hip & ->).
  set (s1 := emitted n _ s).
  destruct (failovers_run v (departed v) s1 Hv Hst Hh) as (n2 & es & H2 & Hes).
  exists n2, ip, es. split; [done|]. split; [done|]. rewrite (bind_ret _ _ _ _ _ H2).
  erewrite for_each_emits by (intros; apply notify_run).
  by rewrite /s1 !emitted_emitted.
Qed.

(** ** Properties *)


(** One memory server left the ring; its node is still known to Kubernetes. *)
Definition example_view : ring_view :=
  mkRingView ["10.0.0.2"] ["10.0.0.3"] [] ["10.0.0.9"] [["10.0.0.4"; "node-m4"]]
    [mkTier 1 [mkServer "1.1.1.3" "10.0.0.3"; mkServer "1.1.1.4" "10.0.0.4"]]%string.

Definition running_pod (ip : string) : pod :=
  mkPod "p" (Some "n"%string) ["c"%string] (Some ip) "Running" [0%Z].

(** A cluster that looks like a given view. *)
Definition view_kube (v : ring_view) : Kube := {|
  list_namespaced_pod _ sel := running_pod <$>
    (if bool_decide (sel = role "routing") then view_routing v
     else if bool_decide (sel = role "memory") then view_memory v
     else if bool_decide (sel = role "ebs") then view_ebs v
     else if bool_decide (sel = role "monitoring") then view_monitoring v else []);
  list_node _ := view_nodes v;
  yaml_content _ := YamlMissing;
  command_ok _ _ := true;
  command_output _ _ := EmptyString;
  tar_text _ _ := Ret EmptyString;
  stream_open _ := true;
  stream_stderr _ := false;
  isfile _ _ := true;
  random_nat _ := 0
|}.

(** Its servers: a routing server answers a request for seeds with the serialized
    membership, here any one string; every other request gets the empty answer
    of the failover responder, which parses as a membership without tiers. *)
Definition view_peers (v : ring_view) : Peers := {|
  reply _ a := Some (if bool_decide (a ∈ (λ ip, get_routing_seed_address ip 0) <$> view_routing v)
                     then "membership"%string else EmptyString);
  parse_ClusterMembership r := Ret (if String.eqb r EmptyString then [] else view_tiers v)
|}.

Lemma running_pods_ips ips : mapM pod_ip (running_pod <$> ips) = Some ips.
Proof. induction ips as [|ip ips IH]; [done|]. by rewrite fmap_cons /= IH. Qed.

Lemma view_sees v : sees (K:=view_kube v) (P:=view_peers v) v.
Proof.
  rewrite /sees. repeat split; try done; try apply running_pods_ips.
  intros n ip Hip. exists "membership"%string. split; [|done].
  cbn [reply view_peers]. rewrite bool_decide_eq_true_2 //. by apply (list_elem_of_fmap_2 (λ ip, get_routing_seed_address ip 0)).
Qed.


(** C40: A departed server that Kubernetes no longer lists as a node stops the
    check: it raises [TypeError] before any departure notice is sent, so no
    server learns of any of the departures; the same happens with [IndexError]
    when no storage server is left to delegate to. *)
Theorem check_hash_ring_raises `{K : Kube, P : Peers} fuel v nm nr s :
  sees v → 0 < fuel → view_routing v ≠ [] → departed v ≠ [] →
  Forall (λ d, ∃ h, hostname v d = Ret h) (departed v) →
  storage v = [] ∨ Exists (λ d, hostname v d = Ret None) (departed v) →
  ∃ n es, check_hash_ring fuel nm nr s =
      (Raise (if decide (storage v = []) then IndexError else TypeError), emitted n es s) ∧
    Forall (λ e, ∃ a m, e = ERequest a m) es.
Proof.
  intros Hv Hf Hr Hd Hall Hbad.
  assert (pick_tiers (view_tiers v) ≠ None) as Ht.
  { rewrite /departed in Hd. by destruct (pick_tiers (view_tiers v)). }
  destruct (check_prefix fuel v nm nr s Hv Hf Hr Ht) as (n & ip & Hip & ->).
  case_decide as Hst.
  - destruct (departed v) as [|d ds]; [done|]. apply Forall_cons in Hall as [[h Hh] _].
    eexists _, [_]. split; [|constructor; [by do 2 eexists|done]].
    apply bind_raise. cbn [for_each]. apply bind_raise.
    rewrite /failover /get_hostname_from_ip Hst. erewrite bind_ret; last first.
    { erewrite bind_ret by reflexivity.
      assert (∀ n, list_node n = view_nodes v) as -> by apply Hv.
      rewrite /lift. rewrite /hostname in Hh. by rewrite Hh. }
    apply bind_raise. reflexivity.
  - destruct Hbad as [?|Hex]; [done|].
    destruct (failovers_raise v (departed v)
      (emitted n [ERequest (get_routing_seed_address ip 0) EmptyString] s) Hv Hst Hall Hex)
      as (n2 & es & H2 & Hes).
    eexists n2, (_ :: es). split; [|constructor; [by do 2 eexists|exact Hes]].
    rewrite (bind_raise _ _ _ _ _ H2). by rewrite emitted_emitted.
Qed.

(** The same ring after the node has been removed from Kubernetes. *)
Definition example_removed : ring_view :=
  mkRingView ["10.0.0.2"] ["10.0.0.3"] [] ["10.0.0.9"] []
    [mkTier 1 [mkServer "1.1.1.3" "10.0.0.3"; mkServer "1.1.1.4" "10.0.0.4"]]%string.

Lemma check_hash_ring_raises_witness :
  ∃ n es, check_hash_ring (K:=view_kube example_removed) (P:=view_peers example_removed) 1
      (YInt 4) (YInt 4) (mkKstate 0 [] []) =
      (Raise (if decide (storage example_removed = []) then IndexError else TypeError),
       emitted n es (mkKstate 0 [] [])) ∧
    Forall (λ e, ∃ a m, e = ERequest a m) es.
Proof.
  apply (check_hash_ring_raises (K:=view_kube example_removed) (P:=view_peers example_removed) 1
    example_removed (YInt 4) (YInt 4) (mkKstate 0 [] []));
    [apply view_sees|lia|done|done|constructor; [by exists None|constructor]|].
  right. by constructor.
Defined.

(** The messages that ask for more servers and for the removal of one. *)
Definition add_request (kind : string) (count : Z) : string :=
  "add:" +:+ py_str count +:+ ":" +:+ kind.
Definition remove_request (kind ip : string) : string :=
  "remove:" +:+ ip +:+ ":" +:+ kind.

Lemma split_three a b c :
  str_has ":" a = false → str_has ":" b = false → str_has ":" c = false →
  py_split ":" (a +:+ ":" +:+ b +:+ ":" +:+ c) = [a; b; c].
Proof.
  intros Ha Hb Hc. rewrite !str_app_cons !str_app_empty.
  rewrite py_split_app // py_split_app // py_split_nohas //.
Qed.

Lemma split_two a b :
  str_has ":" a = false → str_has ":" b = false →
  py_split ":" (a +:+ ":" +:+ b) = [a; b].
Proof. intros Ha Hb. rewrite str_app_cons str_app_empty py_split_app // py_split_nohas //. Qed.

(** Both servers handle a request for servers of a kind, and one for a removal. *)
Lemma scaling_add_run `{K : Kube} fuel ip0 cfile prefix kind count s :
  str_has ":" kind = false →
  let sc := management_scaler ip0 in
  ∃ msg, churn_message sc (add_request kind count) s =
      (Ret tt, emitted (asked s) [ESend (add_socket sc) msg] s) ∧
    ∀ s, k8s_round fuel cfile prefix (mkK8sPoll (Some msg) None) s =
         (add_nodes fuel cfile [kind] [count] false (Some prefix) ;; mret tt) s.
Proof.
  intros Hk sc. assert (str_has ":" (py_str count) = false) as Hc by (by apply str_has_py_str).
  exists (kind +:+ ":" +:+ py_str count). split.
  - rewrite /churn_message /add_request. rewrite (split_three "add") //.
  - intros s1. rewrite /k8s_round /= split_two //.
    by rewrite /mbind /M_bind /lift /= py_int_py_str.
Qed.

Lemma scaling_remove_run `{K : Kube} fuel ip0 cfile prefix kind ip s :
  str_has ":" kind = false → str_has ":" ip = false →
  let sc := management_scaler ip0 in
  ∃ msg, churn_message sc (remove_request kind ip) s =
      (Ret tt, emitted (asked s) [ESend (remove_socket sc) msg] s) ∧
    ∀ s, k8s_round fuel cfile prefix (mkK8sPoll None (Some msg)) s = remove_node ip kind s.
Proof.
  intros Hk Hip sc. exists (kind +:+ ":" +:+ ip). split.
  - rewrite /churn_message /remove_request. rewrite (split_three "remove") //.
  - intros s1. by rewrite /k8s_round /= split_two.
Qed.

(** Also: A scaling request crosses both servers unchanged: the message
    [add:count:kind] makes the management server send one message to the
    Kubernetes server, on which that one calls [add_nodes] for this kind and
    count, without creating a DaemonSet; likewise [remove:ip:kind] and
    [remove_node]. *)
Theorem scaling_request_roundtrip `{K : Kube} fuel ip0 cfile prefix kind count ip s :
  str_has ":" kind = false → str_has ":" ip = false →
  let sc := management_scaler ip0 in
  (∃ msg, churn_message sc (add_request kind count) s =
      (Ret tt, emitted (asked s) [ESend (add_socket sc) msg] s) ∧
    ∀ s, k8s_round fuel cfile prefix (mkK8sPoll (Some msg) None) s =
         (add_nodes fuel cfile [kind] [count] false (Some prefix) ;; mret tt) s) ∧
  (∃ msg, churn_message sc (remove_request kind ip) s =
      (Ret tt, emitted (asked s) [ESend (remove_socket sc) msg] s) ∧
    ∀ s, k8s_round fuel cfile prefix (mkK8sPoll None (Some msg)) s = remove_node ip kind s).
Proof. intros Hk Hip sc. split; [by apply scaling_add_run|by apply scaling_remove_run]. Qed.

Lemma scaling_request_roundtrip_witness :
  ∃ msg, churn_message (management_scaler "10.0.0.2") (add_request "memory" 2) (mkKstate 0 [] []) =
      (Ret tt, emitted 0 [ESend "ipc:///tmp/node_add" msg] (mkKstate 0 [] [])) ∧
    ∀ s, k8s_round (K:=view_kube example_view) 1 "c.yml" "/p" (mkK8sPoll (Some msg) None) s =
         (add_nodes (K:=view_kube example_view) 1 "c.yml" ["memory"%string] [2%Z] false
            (Some "/p"%string) ;; mret tt) s.
Proof.
  exact (proj1 (scaling_request_roundtrip (K:=view_kube example_view) 1 "10.0.0.2" "c.yml" "/p"
    "memory" 2 "10.0.0.4" (mkKstate 0 [] []) eq_refl eq_refl)).
Defined.
