(* ===== verification/IpAddress.v ===== *)
(** * Internet addresses

    [ip_address] of the standard library's [ipaddress] module: the address a
    string denotes, and the text of the address with a given number. *)

From S2P Require Import Prelude.

Inductive ip_addr : Type := IPv4 (n : Z) | IPv6 (n : Z).

Definition ip_int (a : ip_addr) : Z := match a with IPv4 n | IPv6 n => n end.

(** ** IPv4 *)

(** One decimal octet: one to three digits without a leading zero, at most 255. *)
Definition parse_octet (s : string) : option Z :=
  if bool_decide (1 ≤ String.length s ≤ 3) &&
     (String.eqb s "0" || negb (py_startswith "0" s))
  then match int_digits false 0 s with
       | Some n => if negb (str_has "_" s) && (Z.of_N n <=? 255)%Z then Some (Z.of_N n) else None
       | None => None
       end
  else None.

Definition parse_ipv4 (s : string) : option Z :=
  match mapM parse_octet (py_split "." s) with
  | Some [a; b; c; d] => Some (((a * 256 + b) * 256 + c) * 256 + d)%Z
  | _ => None
  end.

Definition format_ipv4 (n : Z) : string :=
  py_str (n / 16777216 mod 256) +:+ "." +:+ py_str (n / 65536 mod 256) +:+ "." +:+
  py_str (n / 256 mod 256) +:+ "." +:+ py_str (n mod 256).

(** ** IPv6 *)

Definition hex_value (c : ascii) : option Z :=
  let n := Z.of_N (N_of_ascii c) in
  if is_digit c then Some (n - 48)%Z
  else if ((65 <=? n) && (n <=? 70))%Z then Some (n - 55)%Z
  else if ((97 <=? n) && (n <=? 102))%Z then Some (n - 87)%Z
  else None.

Fixpoint hex_digits (acc : Z) (s : string) : option Z :=
  match s with
  | EmptyString => Some acc
  | String c s' => match hex_value c with
                   | Some v => hex_digits (acc * 16 + v) s'
                   | None => None
                   end
  end.

Definition parse_hextet (s : string) : option Z :=
  if bool_decide (1 ≤ String.length s ≤ 4) then hex_digits 0 s else None.

Definition hextets_int (l : list Z) : Z := foldl (λ acc h, (acc * 65536 + h)%Z) 0%Z l.

(** The last part may be an IPv4 address, which stands for two hextets. *)
Definition expand_ipv4_part (parts : list string) : option (list (string + Z)) :=
  match last parts with
  | Some l =>
      if str_has "." l then
        match parse_ipv4 l with
        | Some n => Some ((inl <$> take (length parts - 1) parts)
                          ++ [inr (n / 65536)%Z; inr (n mod 65536)%Z])
        | None => None
        end
      else Some (inl <$> parts)
  | None => None
  end.

Definition is_empty_part (p : string + Z) : bool :=
  match p with inl EmptyString => true | _ => false end.

Definition part_hextet (p : string + Z) : option Z :=
  match p with inl s => parse_hextet s | inr n => Some n end.

(** The positions of empty parts that are neither first nor last. *)
Definition skip_positions (parts : list (string + Z)) : list nat :=
  filter (λ i, (is_empty_part <$> parts !! i) = Some true)
    (seq 1 (length parts - 2)).

Definition parse_ipv6_addr (s : string) : option Z :=
  let parts := py_split ":" s in
  if bool_decide (length parts < 3) then None
  else match expand_ipv4_part parts with
  | None => None
  | Some parts =>
      let n := length parts in
      let first_empty := match parts with p :: _ => is_empty_part p | [] => false end in
      let last_empty := match last parts with Some p => is_empty_part p | None => false end in
      if bool_decide (9 < n) then None
      else match skip_positions parts with
      | _ :: _ :: _ => None
      | [i] =>
          let hi := if first_empty then i - 1 else i in
          let lo := if last_empty then n - i - 1 - 1 else n - i - 1 in
          if (first_empty && negb (Nat.eqb hi 0)) || (last_empty && negb (Nat.eqb lo 0))
             || bool_decide (8 ≤ hi + lo) then None
          else match mapM part_hextet (take hi parts), mapM part_hextet (drop (n - lo) parts) with
               | Some hs, Some ls =>
                   Some (hextets_int (hs ++ replicate (8 - (hi + lo)) 0%Z ++ ls))
               | _, _ => None
               end
      | [] =>
          if negb (Nat.eqb n 8) || first_empty || last_empty then None
          else match mapM part_hextet parts with
               | Some hs => Some (hextets_int hs)
               | None => None
               end
      end
  end.

(** A zone may follow the address. *)
Definition parse_ipv6 (s : string) : option Z :=
  match py_split1 "%" s with
  | None => parse_ipv6_addr s
  | Some (a, zone) =>
      if String.eqb zone EmptyString || str_has "%" zone then None else parse_ipv6_addr a
  end.

Definition hex_char (n : Z) : ascii :=
  ascii_of_N (Z.to_N (if (n <? 10)%Z then (n + 48)%Z else (n + 87)%Z)).

Definition format_hextet (n : Z) : string :=
  String (hex_char (n / 4096 mod 16)) (String (hex_char (n / 256 mod 16))
    (String (hex_char (n / 16 mod 16)) (String (hex_char (n mod 16)) EmptyString))).

Definition format_ipv6 (n : Z) : string :=
  py_join ":" ((λ i, format_hextet (n / 65536 ^ (7 - Z.of_nat i) mod 65536)) <$> seq 0 8).

(** ** [ip_address] *)

(** On a string. *)
Definition ip_address (s : string) : outcome ip_addr :=
  if str_has "/" s then Raise ValueError
  else match parse_ipv4 s with
       | Some n => Ret (IPv4 n)
       | None => match parse_ipv6 s with
                 | Some n => Ret (IPv6 n)
                 | None => Raise ValueError
                 end
       end.

(** [ip_address(n).exploded] of a number: the version is chosen by the size. *)
Definition ip_exploded (n : Z) : outcome string :=
  if ((0 <=? n) && (n <? 2 ^ 32))%Z then Ret (format_ipv4 n)
  else if ((2 ^ 32 <=? n) && (n <? 2 ^ 128))%Z then Ret (format_ipv6 n)
  else Raise ValueError.

(** ** The round trip of IPv4 addresses *)

Lemma parse_octet_str n : (0 ≤ n < 256)%Z → parse_octet (py_str n) = Some n.
Proof.
  intros Hn. assert (n ∈ py_range 256) as Hin by (by apply elem_py_range).
  assert (Forall (λ n, parse_octet (py_str n) = Some n) (py_range 256)) as Hall.
  { apply (bool_decide_unpack _). vm_compute. exact I. }
  rewrite Forall_forall in Hall. by apply Hall.
Qed.

Lemma str_has_dot_str n : str_has "." (py_str n) = false.
Proof. by apply str_has_py_str. Qed.

Lemma parse_format_ipv4 n : (0 ≤ n < 2 ^ 32)%Z → parse_ipv4 (format_ipv4 n) = Some n.
Proof.
  intros Hn. rewrite /parse_ipv4 /format_ipv4 !str_app_cons !str_app_empty.
  rewrite py_split_app ?str_has_dot_str // py_split_app ?str_has_dot_str //.
  rewrite py_split_app ?str_has_dot_str // py_split_nohas ?str_has_dot_str //.
  assert (∀ k, 0 ≤ k mod 256 < 256)%Z as Hm by (intros k; apply Z.mod_pos_bound; lia).
  rewrite /mapM /= !parse_octet_str //. cbn.
  f_equal. pose proof (Z.div_mod n 256). pose proof (Z.div_mod (n / 256) 256).
  pose proof (Z.div_mod (n / 65536) 256).
  assert (n / 256 / 256 = n / 65536)%Z as E1 by (rewrite Z.div_div; [done|lia..]).
  assert (n / 65536 / 256 = n / 16777216)%Z as E2 by (rewrite Z.div_div; [done|lia..]).
  assert (n / 16777216 mod 256 = n / 16777216)%Z as E3.
  { apply Z.mod_small. split; [apply Z.div_pos; lia|]. apply Z.div_lt_upper_bound; lia. }
  rewrite E3. rewrite E1 in H0. rewrite E2 in H1. lia.
Qed.
