(* ===== verification/Inventory.v ===== *)
(** * The inventory builder (src/kubespray/contrib/inventory_builder/inventory.py)

    [KubesprayInventory] as programs over its [yaml_config] and what it prints
    and writes.  Files and the remote [hostname] command are parameters.
    Debugging output is left out; names and addresses are ASCII. *)

From S2P Require Import Prelude Yaml IpAddress.

Definition ROLES : list string :=
  ["all"; "kube_control_plane"; "kube_node"; "etcd"; "k8s_cluster"; "calico_rr"]%string.
Definition PROTECTED_NAMES : list string := ROLES.
Definition AVAILABLE_COMMANDS : list string :=
  ["help"; "print_cfg"; "print_ips"; "print_hostnames"; "load"; "add"]%string.

Definition boolean_states : list (string * bool) :=
  [("1", true); ("yes", true); ("true", true); ("on", true);
   ("0", false); ("no", false); ("false", false); ("off", false)]%string.

Definition environment := list (string * string).

Definition get_var_as_bool (env : environment) (name : string) (dflt : bool) : bool :=
  let value := default EmptyString (dget name env) in
  default dflt (dget (py_lower value) boolean_states).

(** The module's settings, read from the environment. *)
Record settings : Type := mkSettings {
  CONFIG_FILE : string;
  KUBE_CONTROL_HOSTS : Z;
  SCALE_THRESHOLD : Z;
  MASSIVE_SCALE_THRESHOLD : Z;
  DEBUG : bool;
  HOST_PREFIX : string;
  USE_REAL_HOSTNAME : bool
}.

Definition env_int (env : environment) (names : list string) (dflt : Z) : outcome Z :=
  match omap (λ n, dget n env) names with
  | v :: _ => py_int v
  | [] => Ret dflt
  end.

Definition load_settings (env : environment) : outcome settings :=
  control ← env_int env ["KUBE_CONTROL_HOSTS"; "KUBE_MASTERS"]%string 2;
  scale ← env_int env ["SCALE_THRESHOLD"]%string 50;
  massive ← env_int env ["MASSIVE_SCALE_THRESHOLD"]%string 200;
  Ret (mkSettings (default "./inventory/sample/hosts.yaml"%string (dget "CONFIG_FILE"%string env))
         control scale massive (get_var_as_bool env "DEBUG" true)
         (default "node"%string (dget "HOST_PREFIX"%string env))
         (get_var_as_bool env "USE_REAL_HOSTNAME" false)).

(** ** State *)

Record inventory : Type := mkInventory {
  yaml_config : yaml;
  printed : list string;
  written : list (string * yaml)
}.

Definition set_config (y : yaml) : M inventory unit :=
  modify (λ s, mkInventory y (printed s) (written s)).
Definition py_print (line : string) : M inventory unit :=
  modify (λ s, mkInventory (yaml_config s) (printed s ++ [line]) (written s)).

(** A read and a change of the configuration. *)
Definition read_config {A} (f : yaml → outcome A) : M inventory A :=
  s ← get_state; lift (f (yaml_config s)).
Definition update_config (f : yaml → outcome yaml) : M inventory unit :=
  s ← get_state; y ← lift (f (yaml_config s)); set_config y.

(** [self.yaml_config['all']['hosts']] and [...['children'][group]['hosts']]. *)
Definition all_hosts (y : yaml) : outcome yaml :=
  a ← yaml_get "all" y; yaml_get "hosts" a.
Definition child (group : string) (y : yaml) : outcome yaml :=
  a ← yaml_get "all" y; c ← yaml_get "children" a; yaml_get group c.
Definition child_hosts (group : string) (y : yaml) : outcome yaml :=
  c ← child group y; yaml_get "hosts" c.

Definition at_all_hosts (f : yaml → outcome yaml) : yaml → outcome yaml :=
  at_key "all" (at_key "hosts" f).
Definition at_children (f : yaml → outcome yaml) : yaml → outcome yaml :=
  at_key "all" (at_key "children" f).

Section Inventory.
Variable cfg : settings.
(** The YAML and JSON files that can be read, and [ssh host 'hostname -s']. *)
Variables (open_yaml open_json : string → yaml_file).
Variable ssh_hostname : string → outcome string.
(** The text [yaml.dump] makes of a document. *)
Variable yaml_dump : yaml → string.
Notation W := (M inventory).

Definition write_config (config_file : option string) : W unit :=
  match config_file with
  | Some (String _ _ as f) =>
      modify (λ s, mkInventory (yaml_config s) (printed s) (written s ++ [(f, yaml_config s)]))
  | _ => py_print "WARNING: Unable to save config. Make sure you set CONFIG_FILE env var."
  end.

Definition get_ip_from_opts (optstring : yaml) : outcome yaml :=
  b ← yaml_in "ip" optstring;
  if (b : bool) then yaml_get "ip" optstring else Raise ValueError.

Definition empty_all : yaml :=
  YMap [("all", YMap [("hosts", YMap []); ("children", YMap [])])]%string.

Definition ensure_required_group (group : string) (y : yaml) : outcome yaml :=
  if String.eqb group "all" then
    b ← yaml_in group y;
    if (b : bool) then Ret y else Ret empty_all
  else
    at_children (λ c,
      b ← yaml_in group c;
      if (b : bool) then Ret c else yaml_set group (YMap [("hosts"%string, YMap [])]) c) y.

Definition ensure_required_groups (groups : list string) : W unit :=
  for_each groups (λ g, update_config (ensure_required_group g)).

(** [re.findall("\\d+$", s)[-1]]: the digits at the end. *)
Fixpoint trailing_digits (rev_chars : list ascii) : list ascii :=
  match rev_chars with
  | c :: rest => if is_digit c then c :: trailing_digits rest else []
  | [] => []
  end.

Definition get_host_id (host : string) : outcome Z :=
  short_hostname ← py_nth (py_split "." host) 0;
  let rev := reverse (list_ascii_of_string short_hostname) in
  let rev := match rev with
             | c :: rest => if decide (c = ascii_of_nat 10) then rest else rev
             | [] => rev
             end in
  match trailing_digits rev with
  | [] => Raise ValueError
  | ds => py_int (string_of_list_ascii (reverse ds))
  end.

(** Hosts by name, with their options. *)
Notation hosts_dict := (list (string * yaml)).

Definition exists_hostname (existing_hosts : hosts_dict) (hostname : string) : bool :=
  dmem hostname existing_hosts.

Definition yaml_is_str (y : yaml) (s : string) : bool :=
  match y with YStr s' => String.eqb s' s | _ => false end.

Fixpoint exists_ip (existing_hosts : hosts_dict) (ip : string) : outcome bool :=
  match existing_hosts with
  | [] => Ret false
  | (_, opts) :: rest =>
      v ← get_ip_from_opts opts;
      if yaml_is_str v ip then Ret true else exists_ip rest ip
  end.

Fixpoint delete_host_by_ip (existing_hosts : hosts_dict) (ip : string) : outcome hosts_dict :=
  match existing_hosts with
  | [] => Raise ValueError
  | (name, opts) :: rest =>
      v ← get_ip_from_opts opts;
      if yaml_is_str v ip then Ret rest
      else rest' ← delete_host_by_ip rest ip; Ret ((name, opts) :: rest')
  end.

(** The options of a new host. *)
Definition host_opts (ip access_ip : string) : yaml :=
  YMap [("ansible_host", YStr access_ip); ("ip", YStr ip); ("access_ip", YStr access_ip)]%string.

(** The existing hosts and the highest number among the generated names. *)
Definition existing_loop (y : yaml) : outcome (hosts_dict * Z) :=
  hosts ← all_hosts y;
  match hosts with
  | YMap m =>
      ofold m ([], 0%Z) (λ acc kv,
        let '(hs, highest) := acc in
        let hs := dset kv.1 kv.2 hs in
        if py_startswith (HOST_PREFIX cfg) kv.1 then
          id ← get_host_id kv.1;
          Ret (hs, if (highest <? id)%Z then id else highest)
        else Ret (hs, highest))
  | _ => Raise TypeError
  end.

(** The variables of the loop over the changed hosts; a name may still be
    unbound, and it keeps its value from one round to the next. *)
Record build_state : Type := mkBuild {
  b_hosts : hosts_dict;
  b_next_id : Z;
  b_ip : option string;
  b_access_ip : option string;
  b_hostname : option string
}.

(** Reading a variable. *)
Definition bound_var (v : option string) : outcome string :=
  match v with Some s => Ret s | None => Raise UnboundLocalError end.

Definition remove_host (st : build_state) (realhost : string) : outcome build_state :=
  let hosts := b_hosts st in
  hosts' ← (if exists_hostname hosts realhost then Ret (ddel realhost hosts)
            else b ← exists_ip hosts realhost;
                 if (b : bool) then delete_host_by_ip hosts realhost else Ret hosts);
  Ret (mkBuild hosts' (b_next_id st) (b_ip st) (b_access_ip st) (b_hostname st)).

(** An argument that starts with a digit. *)
Definition add_address (st : build_state) (host : string) : outcome build_state :=
  ia ← (if str_has "," host
        then match py_split "," host with [ip; access] => Ret (ip, access) | _ => Raise ValueError end
        else Ret (host, host));
  let '(ip, access_ip) := ia in
  let st := mkBuild (b_hosts st) (b_next_id st) (Some ip) (Some access_ip) (b_hostname st) in
  if exists_hostname (b_hosts st) host then Ret st
  else
    b ← exists_ip (b_hosts st) ip;
    if (b : bool) then Ret st
    else
      nh ← (if USE_REAL_HOSTNAME cfg
            then name ← ssh_hostname access_ip; Ret (py_strip name, b_next_id st)
            else Ret (HOST_PREFIX cfg +:+ py_str (b_next_id st), (b_next_id st + 1)%Z));
      Ret (mkBuild (dset nh.1 (host_opts ip access_ip) (b_hosts st)) nh.2
             (b_ip st) (b_access_ip st) (b_hostname st)).

(** An argument that starts with a letter. *)
Definition add_named (st : build_state) (host : string) : outcome build_state :=
  st ← (if str_has "," host
        then match py_split "," host with
             | [hostname; ip; access_ip] =>
                 Ret (mkBuild (b_hosts st) (b_next_id st) (Some ip) (Some access_ip) (Some hostname))
             | [hostname; ip] =>
                 Ret (mkBuild (b_hosts st) (b_next_id st) (Some ip) (Some ip) (Some hostname))
             | _ => Raise ValueError
             end
        else Ret st);
  if exists_hostname (b_hosts st) host then Ret st
  else
    ip ← bound_var (b_ip st);
    b ← exists_ip (b_hosts st) ip;
    if (b : bool) then Ret st
    else
      access_ip ← bound_var (b_access_ip st);
      hostname ← bound_var (b_hostname st);
      Ret (mkBuild (dset hostname (host_opts ip access_ip) (b_hosts st)) (b_next_id st)
             (b_ip st) (b_access_ip st) (b_hostname st)).

Definition build_step (st : build_state) (host : string) : outcome build_state :=
  match host with
  | EmptyString => Raise IndexError
  | String c rest =>
      if Ascii.eqb c "-" then remove_host st rest
      else if is_digit c then add_address st host
      else if is_alpha c then add_named st host
      else Ret st
  end.

Definition build_hostnames (changed_hosts : list string) (loadPreviousConfig : bool)
  : W hosts_dict :=
  existing ← (if loadPreviousConfig
              then s ← get_state;
                   match existing_loop (yaml_config s) with
                   | Ret r => mret r
                   | _ => raise (SystemExit 1)
                   end
              else mret ([], 0%Z));
  let '(existing_hosts, highest_host_id) := existing in
  st ← lift (ofold changed_hosts
               (mkBuild existing_hosts (highest_host_id + 1) None None None) build_step);
  mret (b_hosts st).

(** [ips(start, end)] *)
Definition ips (start_address end_address : string) : outcome (list string) :=
  a ← ip_address start_address;
  b ← ip_address end_address;
  omap_each ((λ i, (ip_int a + Z.of_nat i)%Z) <$> seq 0 (Z.to_nat (ip_int b + 1 - ip_int a)))
    ip_exploded.

(** An address range: it has a [-] and starts neither with one nor with a
    letter. *)
Definition is_range (host : string) : bool :=
  str_has "-" host && negb (py_startswith "-" host) &&
  match host with String c _ => negb (is_alpha c) | EmptyString => true end.

Definition expand_host (host : string) : outcome (list string) :=
  if is_range host then
    match py_split "-" (py_strip host) with
    | [s; e] => match ips s e with
                | Raise ValueError => Raise GenericException
                | r => r
                end
    | _ => Raise ValueError
    end
  else Ret [host].

Definition range2ips (hosts : list string) : outcome (list string) :=
  ofold hosts [] (λ reworked_hosts host, l ← expand_host host; Ret (reworked_hosts ++ l)).

(** The names under which a host is removed from a dictionary of hosts. *)
Definition purge_dict (hostnames protected_names : list string) (y : yaml) : outcome yaml :=
  if yaml_true y then
    keys ← yaml_keys y;
    ofold keys y (λ y host,
      if bool_decide (host ∉ hostnames ∧ host ∉ protected_names) then yaml_del host y else Ret y)
  else Ret y.

Definition purge_invalid_hosts (hostnames protected_names : list string) : W unit :=
  roles ← read_config (λ y, a ← yaml_get "all" y; c ← yaml_get "children" a; yaml_iter c);
  for_each roles (λ role,
    match role with
    | YStr role =>
        if String.eqb role "k8s_cluster" then mret tt
        else update_config (at_children (at_key role (at_key "hosts"
               (purge_dict hostnames protected_names))))
    | _ => raise TypeError
    end) ;;
  update_config (at_all_hosts (purge_dict hostnames protected_names)).

Definition add_host_to_group (group host : string) (opts : yaml) : W unit :=
  if String.eqb group "all" then
    update_config (at_all_hosts (λ h,
      match h with
      | YNull => yaml_set host opts (YMap [(host, YNull)])
      | _ => yaml_set host opts h
      end))
  else if String.eqb group "k8s_cluster:children" then mret tt
  else
    update_config (at_children (at_key group (at_key "hosts" (λ h,
      match h with
      | YNull => Ret (YMap [(host, YNull)])
      | _ => yaml_set host YNull h
      end)))).

Definition no_opts : yaml := YStr EmptyString.

Definition set_kube_control_plane (hosts : list string) : W unit :=
  for_each hosts (λ host, add_host_to_group "kube_control_plane" host no_opts).

Definition set_all (hosts : hosts_dict) : W unit :=
  for_each hosts (λ ho, add_host_to_group "all" ho.1 ho.2).

Definition set_k8s_cluster : W unit :=
  let k8s_cluster :=
    YMap [("children", YMap [("kube_control_plane", YNull); ("kube_node", YNull)])]%string in
  update_config (at_children (yaml_set "k8s_cluster" k8s_cluster)).

(** The membership tests look into the group, not into its hosts. *)
Definition set_calico_rr (hosts : list string) : W unit :=
  for_each hosts (λ host,
    b1 ← read_config (λ y, g ← child "kube_control_plane" y; yaml_in host g);
    if (b1 : bool) then mret tt
    else
      b2 ← read_config (λ y, g ← child "kube_node" y; yaml_in host g);
      if (b2 : bool) then mret tt
      else add_host_to_group "calico_rr" host no_opts).

Definition set_kube_node (hosts : list string) : W unit :=
  for_each hosts (λ host,
    n ← read_config (λ y, h ← all_hosts y; yaml_len h);
    in_etcd ← (if (SCALE_THRESHOLD cfg <=? Z.of_nat n)%Z
               then read_config (λ y, h ← child_hosts "etcd" y; yaml_in host h)
               else mret false);
    if (in_etcd : bool) then mret tt
    else
      n ← read_config (λ y, h ← all_hosts y; yaml_len h);
      in_control ← (if (MASSIVE_SCALE_THRESHOLD cfg <=? Z.of_nat n)%Z
                    then read_config (λ y, h ← child_hosts "kube_control_plane" y; yaml_in host h)
                    else mret false);
      if (in_control : bool) then mret tt
      else add_host_to_group "kube_node" host no_opts).

Definition set_etcd (hosts : list string) : W unit :=
  for_each hosts (λ host, add_host_to_group "etcd" host no_opts).

(** ** Commands *)

Definition load_host (group : string) (ho : string * yaml) : W unit :=
  ip ← lift (yaml_get "ip" ho.2);
  let optstring := YMap [("ansible_host", ip); ("ip", ip); ("access_ip", ip)]%string in
  add_host_to_group "all" ho.1 optstring ;;
  add_host_to_group group ho.1 no_opts.

Definition load_file (config_file : option string) (files : list string) : W unit :=
  match files with
  | [] => raise GenericException
  | _ =>
      for_each files (λ filename,
        data ← match open_json filename with
               | YamlMissing => raise OSError
               | YamlInvalid => raise GenericException
               | YamlDoc d => mret d
               end;
        ensure_required_groups ROLES ;;
        set_k8s_cluster ;;
        groups ← lift (yaml_items data);
        for_each groups (λ gh,
          ensure_required_groups [gh.1] ;;
          hosts ← lift (yaml_items gh.2);
          for_each hosts (load_host gh.1)) ;;
        write_config config_file)
  end.

Definition help_text : string := py_join newline
  ["Usage: inventory.py ip1 [ip2 ...]";
   "Examples: inventory.py 10.10.1.3 10.10.1.4 10.10.1.5";
   EmptyString;
   "Available commands:";
   "help - Display this message";
   "print_cfg - Write inventory file to stdout";
   ("print_ips - Write a space-delimited list of IPs from " +:+ dquote +:+ "all" +:+ dquote +:+ " group");
   ("print_hostnames - Write a space-delimited list of Hostnames from " +:+ dquote +:+ "all" +:+ dquote +:+ " group");
   "add - Adds specified hosts into an already existing inventory";
   EmptyString;
   "Advanced usage:";
   "Create new or overwrite old inventory file: inventory.py 10.10.1.5";
   "Add another host after initial creation: inventory.py add 10.10.1.6";
   "Add range of hosts: inventory.py 10.10.1.3-10.10.1.5";
   "Add hosts with different ip and access ip: inventory.py 10.0.0.1,192.168.10.1 10.0.0.2,192.168.10.2 10.0.0.3,192.168.10.3";
   "Add hosts with a specific hostname, ip, and optional access ip: first,10.0.0.1,192.168.10.1 second,10.0.0.2 last,10.0.0.3";
   "Delete a host: inventory.py -10.10.1.3";
   "Delete a host by id: inventory.py -node1";
   EmptyString;
   "Configurable env vars:";
   "DEBUG                   Enable debug printing. Default: True";
   "CONFIG_FILE             File to write config to Default: ./inventory/sample/hosts.yaml";
   "HOST_PREFIX             Host prefix for generated hosts. Default: node";
   "KUBE_CONTROL_HOSTS      Set the number of kube-control-planes. Default: 2";
   "SCALE_THRESHOLD         Separate ETCD role if # of nodes >= 50";
   "MASSIVE_SCALE_THRESHOLD Separate K8s control-plane and ETCD if # of nodes >= 200";
   EmptyString]%string.
Definition show_help : W unit := py_print help_text.

Definition print_config : W unit :=
  s ← get_state; py_print (yaml_dump (yaml_config s)).

Definition print_hostnames : W unit :=
  keys ← read_config (λ y, h ← all_hosts y; yaml_keys h);
  py_print (py_join " " keys).

Definition print_ips : W unit :=
  items ← read_config (λ y, h ← all_hosts y; yaml_items h);
  ips ← lift (omap_each items (λ ho, get_ip_from_opts ho.2));
  line ← lift (omap_each ips (λ v, match v with YStr s => Ret s | _ => Raise TypeError end));
  py_print (py_join " " line).

Definition parse_command (config_file : option string) (command : string) (args : list string)
  : W unit :=
  if String.eqb command "help" then show_help
  else if String.eqb command "print_cfg" then print_config
  else if String.eqb command "print_ips" then print_ips
  else if String.eqb command "print_hostnames" then print_hostnames
  else if String.eqb command "load" then load_file config_file args
  else raise GenericException.

(** [changed_hosts and changed_hosts[0][0] == "-"] *)
Definition removes_first (changed_hosts : list string) : outcome bool :=
  match changed_hosts with
  | [] => Ret false
  | EmptyString :: _ => Raise IndexError
  | String c _ :: _ => Ret (Ascii.eqb c "-")
  end.

(** The assignment of hosts to groups. *)
Definition assign_groups (hosts : hosts_dict) : W unit :=
  let names := hosts.*1 in
  purge_invalid_hosts names PROTECTED_NAMES ;;
  set_all hosts ;;
  set_k8s_cluster ;;
  let etcd_hosts_count := if Nat.leb 3 (length names) then 3%Z else 1%Z in
  set_etcd (py_slice names 0 etcd_hosts_count) ;;
  (if (SCALE_THRESHOLD cfg <=? Z.of_nat (length hosts))%Z
   then set_kube_control_plane
          (py_slice names etcd_hosts_count (etcd_hosts_count + KUBE_CONTROL_HOSTS cfg))
   else set_kube_control_plane (py_slice names 0 (KUBE_CONTROL_HOSTS cfg))) ;;
  set_kube_node names ;;
  (if (SCALE_THRESHOLD cfg <=? Z.of_nat (length hosts))%Z
   then set_calico_rr (py_slice names 0 etcd_hosts_count) else mret tt).

(** [__init__], which does all the work; [self.yaml_config] starts empty. *)
Definition KubesprayInventory (changed_hosts : list string) (config_file : option string) : W unit :=
  set_config (YMap []) ;;
  cl ← match changed_hosts with
       | c :: args =>
           if bool_decide (c ∈ AVAILABLE_COMMANDS) then
             if String.eqb c "add" then mret (args, true)
             else parse_command config_file c args ;; raise (SystemExit 0)
           else mret (changed_hosts, false)
       | [] => mret ([], false)
       end;
  let '(changed_hosts, add) := cl in
  removes ← lift (removes_first changed_hosts);
  let loadPreviousConfig := add || removes in
  match config_file with
  | Some (String _ _ as f) =>
      if loadPreviousConfig then
        match open_yaml f with
        | YamlMissing => raise (SystemExit 1)
        | YamlInvalid => raise GenericException
        | YamlDoc y => set_config y
        end
      else mret tt
  | _ => mret tt
  end ;;
  ensure_required_groups ROLES ;;
  match changed_hosts with
  | [] => show_help ;; raise (SystemExit 0)
  | _ =>
      changed_hosts ← lift (range2ips changed_hosts);
      hosts ← build_hostnames changed_hosts loadPreviousConfig;
      assign_groups hosts
  end ;;
  write_config config_file.

End Inventory.

(** The main program: the settings, then the builder on the arguments. *)
Definition inventory_main (env : environment) (open_yaml open_json : string → yaml_file)
    (ssh_hostname : string → outcome string) (yaml_dump : yaml → string) (argv : list string)
  : M inventory Z :=
  cfg ← lift (load_settings env);
  KubesprayInventory cfg open_yaml open_json ssh_hostname yaml_dump argv (Some (CONFIG_FILE cfg)) ;;
  mret 0%Z.
