(* ===== verification/InventoryProps.v ===== *)
(** * Properties of the inventory builder

    Address ranges, the groups of a new inventory, and the arguments and
    commands that fail. *)

From S2P Require Import Prelude Yaml IpAddress Inventory.

Implicit Types (names : list string) (s : inventory).

(** ** Address ranges *)

Lemma str_has_format c n :
  is_digit c = false → c ≠ "-"%char → c ≠ "."%char → str_has c (format_ipv4 n) = false.
Proof.
  intros Hd Hm Hp. rewrite /format_ipv4 !str_has_app !str_has_py_str //=.
  destruct (Ascii.eqb_spec c "."); [done|]. done.
Qed.

Lemma str_has_minus_nonneg n : (0 ≤ n)%Z → str_has "-" (py_str n) = false.
Proof.
  intros Hn. destruct n as [|p|p]; [done| |lia].
  rewrite /py_str /pretty /pretty_Z /pretty /pretty_N /=. by rewrite str_has_pretty_go.
Qed.

Lemma str_has_minus_format n : str_has "-" (format_ipv4 n) = false.
Proof.
  assert (∀ k, str_has "-" (py_str (k mod 256)) = false) as H.
  { intros k. apply str_has_minus_nonneg. apply Z.mod_pos_bound. lia. }
  by rewrite /format_ipv4 !str_has_app /= !H.
Qed.

Lemma py_str_digit n : (0 ≤ n)%Z → ∃ c r, py_str n = String c r ∧ is_digit c = true.
Proof.
  intros Hn. pose proof (py_int_py_str n) as Hi. pose proof (str_has_minus_nonneg n Hn) as Hm.
  destruct n as [|p|p]; [by exists "0"%char, EmptyString| |lia].
  pose proof (int_digits_pretty (Npos p)) as Hd.
  change (pretty (N.pos p)) with (py_str (Zpos p)) in Hd.
  destruct (py_str (Zpos p)) as [|c r]; [done|]. exists c, r. split; [done|].
  simpl in Hd. destruct (is_digit c); [done|]. by rewrite andb_false_r in Hd.
Qed.

Lemma format_ipv4_digit n : ∃ c r, format_ipv4 n = String c r ∧ is_digit c = true.
Proof.
  destruct (py_str_digit (n / 16777216 mod 256)) as (c & r & Hc & Hd).
  { apply Z.mod_pos_bound. lia. }
  exists c. eexists. split; [|done]. rewrite /format_ipv4 Hc str_app_cons. reflexivity.
Qed.

Lemma digit_not_alpha c : is_digit c = true → is_alpha c = false ∧ c ≠ "-"%char.
Proof. destruct c as [[] [] [] [] [] [] [] []]; done. Qed.

Lemma startswith_minus c r : py_startswith "-" (String c r) = Ascii.eqb "-" c.
Proof. destruct c as [[] [] [] [] [] [] [] []]; try done; by destruct r. Qed.

Lemma ip_address_format n : (0 ≤ n < 2 ^ 32)%Z → ip_address (format_ipv4 n) = Ret (IPv4 n).
Proof. intros Hn. by rewrite /ip_address str_has_format // parse_format_ipv4. Qed.

(** The addresses from [a] to [b]. *)
Definition address_range (a b : Z) : list string :=
  (λ i, format_ipv4 (a + Z.of_nat i)) <$> seq 0 (Z.to_nat (b + 1 - a)).

Lemma ips_range a b :
  (0 ≤ a < 2 ^ 32)%Z → (0 ≤ b < 2 ^ 32)%Z →
  ips (format_ipv4 a) (format_ipv4 b) = Ret (address_range a b).
Proof.
  intros Ha Hb. rewrite /ips !ip_address_format //=. rewrite /address_range.
  assert (∀ l : list nat, Forall (λ i, a + Z.of_nat i ≤ b)%Z l →
    omap_each ((λ i, (a + Z.of_nat i)%Z) <$> l) ip_exploded =
    Ret ((λ i, format_ipv4 (a + Z.of_nat i)) <$> l)) as H.
  { induction l as [|i l IH]; [done|]. intros [Hi Hl]%Forall_cons. rewrite !fmap_cons /=.
    rewrite /ip_exploded. destruct (Z.leb_spec 0 (a + Z.of_nat i)); [|lia].
    destruct (Z.ltb_spec (a + Z.of_nat i) (2 ^ 32)); [|lia]. simpl. by rewrite IH. }
  apply H. apply Forall_forall. intros i [_ Hi]%elem_of_seq. lia.
Qed.

Lemma range_text a b :
  no_space (format_ipv4 a +:+ "-" +:+ format_ipv4 b).
Proof.
  intros c Hc. rewrite (str_has_app c (format_ipv4 a)) (str_has_app c "-").
  rewrite !str_has_format /=; try by intros ->.
  - destruct (Ascii.eqb_spec c "-"); [by subst|done].
  - destruct c as [[] [] [] [] [] [] [] []]; done.
  - destruct c as [[] [] [] [] [] [] [] []]; done.
Qed.

Lemma expand_range a b :
  (0 ≤ a < 2 ^ 32)%Z → (0 ≤ b < 2 ^ 32)%Z →
  expand_host (format_ipv4 a +:+ "-" +:+ format_ipv4 b) = Ret (address_range a b).
Proof.
  intros Ha Hb. rewrite /expand_host.
  assert (is_range (format_ipv4 a +:+ "-" +:+ format_ipv4 b) = true) as ->.
  { rewrite /is_range (str_has_app "-" (format_ipv4 a)) (str_has_app "-" "-") orb_true_r.
    destruct (format_ipv4_digit a) as (c & r & -> & Hd). rewrite str_app_cons.
    destruct (digit_not_alpha c Hd) as [-> Hne]. rewrite startswith_minus.
    by destruct (Ascii.eqb_spec "-" c); [congruence|]. }
  rewrite py_strip_no_space; [|apply range_text]. rewrite str_app_cons str_app_empty.
  rewrite py_split_app ?str_has_minus_format // py_split_nohas ?str_has_minus_format //.
  by rewrite ips_range.
Qed.

(** ** The shape of an inventory *)

Definition host_set names : yaml := YMap ((λ n, (n, YNull)) <$> names).
Definition group_of (hosts : yaml) : yaml := YMap [("hosts"%string, hosts)].

Definition cluster_group : yaml :=
  YMap [("children", YMap [("kube_control_plane", YNull); ("kube_node", YNull)])]%string.

(** An inventory with the hosts [h] and the groups of control plane, node, etcd
    and route reflector hosts; [k] is the group of groups. *)
Definition layout (h control node etcd k calico : yaml) : yaml :=
  YMap [("all", YMap [("hosts", h);
    ("children", YMap [("kube_control_plane", group_of control); ("kube_node", group_of node);
                       ("etcd", group_of etcd); ("k8s_cluster", k);
                       ("calico_rr", group_of calico)])])]%string.

Definition with_config (y : yaml) s : inventory := mkInventory y (printed s) (written s).

Lemma with_config_id s : with_config (yaml_config s) s = s.
Proof. by destruct s. Qed.

Ltac layout_tac :=
  rewrite /at_all_hosts /at_children /at_key /yaml_get /layout /group_of /py_getitem /=.

Section Layout.
Context (cfg : settings).
Implicit Types (h c n e k r y : yaml) (f : yaml → outcome yaml).

Lemma at_hosts_layout f h c n e k r :
  at_all_hosts f (layout h c n e k r) = (y ← f h; Ret (layout y c n e k r)).
Proof. layout_tac. by destruct (f h). Qed.

Lemma at_control_layout f h c n e k r :
  at_children (at_key "kube_control_plane" (at_key "hosts" f)) (layout h c n e k r) =
  (y ← f c; Ret (layout h y n e k r)).
Proof. layout_tac. by destruct (f c). Qed.

Lemma at_node_layout f h c n e k r :
  at_children (at_key "kube_node" (at_key "hosts" f)) (layout h c n e k r) =
  (y ← f n; Ret (layout h c y e k r)).
Proof. layout_tac. by destruct (f n). Qed.

Lemma at_etcd_layout f h c n e k r :
  at_children (at_key "etcd" (at_key "hosts" f)) (layout h c n e k r) =
  (y ← f e; Ret (layout h c n y k r)).
Proof. layout_tac. by destruct (f e). Qed.

Lemma at_calico_layout f h c n e k r :
  at_children (at_key "calico_rr" (at_key "hosts" f)) (layout h c n e k r) =
  (y ← f r; Ret (layout h c n e k y)).
Proof. layout_tac. by destruct (f r). Qed.

Lemma host_set_add names x :
  x ∉ names → yaml_set x YNull (host_set names) = Ret (host_set (names ++ [x])).
Proof.
  intros Hx. rewrite /yaml_set /host_set dset_new; [by rewrite fmap_app|].
  by rewrite -list_fmap_compose list_fmap_id.
Qed.

Lemma host_set_in names x : yaml_in x (host_set names) = Ret (bool_decide (x ∈ names)).
Proof.
  rewrite /yaml_in /host_set. f_equal. apply eq_true_iff_eq. rewrite dmem_true bool_decide_eq_true.
  by rewrite -list_fmap_compose list_fmap_id.
Qed.

Lemma update_run f s y :
  f (yaml_config s) = Ret y → update_config f s = (Ret tt, with_config y s).
Proof. intros Hf. by rewrite /update_config /mbind /M_bind /= Hf. Qed.

Lemma read_run {A} (f : yaml → outcome A) s a :
  f (yaml_config s) = Ret a → read_config f s = (Ret a, s).
Proof. intros Hf. by rewrite /read_config /mbind /M_bind /= Hf. Qed.

(** Adding distinct hosts to a group appends them; [at_] changes the hosts of
    the group in a configuration [view]. *)
Lemma add_to_group_run (at_ : (yaml → outcome yaml) → yaml → outcome yaml) (view : yaml → yaml)
    x es s :
  (∀ f y, at_ f (view y) = (y' ← f y; Ret (view y'))) →
  yaml_config s = view (host_set es) → x ∉ es →
  update_config (at_ (λ h, match h with YNull => Ret (YMap [(x, YNull)])
                                      | _ => yaml_set x YNull h end)) s =
  (Ret tt, with_config (view (host_set (es ++ [x]))) s).
Proof.
  intros Hat Hc Hx. apply update_run. rewrite Hc Hat.
  cbn [host_set]. by rewrite -/(host_set es) host_set_add.
Qed.

Lemma group_loop at_ view xs es s :
  (∀ f y, at_ f (view y) = (y' ← f y; Ret (view y'))) →
  yaml_config s = view (host_set es) → NoDup (es ++ xs) →
  for_each xs (λ x, update_config (at_ (λ h, match h with YNull => Ret (YMap [(x, YNull)])
                                                        | _ => yaml_set x YNull h end))) s =
  (Ret tt, with_config (view (host_set (es ++ xs))) s).
Proof.
  intros Hat. revert es s. induction xs as [|x xs IH]; intros es s Hc Hnd.
  { rewrite app_nil_r -Hc. by rewrite with_config_id. }
  cbn [for_each]. erewrite bind_ret; last first.
  { apply (add_to_group_run at_ view x es s Hat Hc).
    apply NoDup_app in Hnd as (_ & Hd & _). intros Hin. by apply (Hd _ Hin); left. }
  rewrite (IH (es ++ [x])) -?app_assoc //.
Qed.

Lemma set_all_run (hosts acc : list (string * yaml)) c n e k r s :
  yaml_config s = layout (YMap acc) c n e k r → NoDup (acc ++ hosts).*1 →
  set_all hosts s = (Ret tt, with_config (layout (YMap (acc ++ hosts)) c n e k r) s).
Proof.
  revert acc s. induction hosts as [|[x o] hosts IH]; intros acc s Hc Hnd.
  { rewrite app_nil_r -Hc. by rewrite with_config_id. }
  rewrite /set_all. cbn [for_each]. erewrite bind_ret; last first.
  { apply update_run. rewrite Hc at_hosts_layout /yaml_set dset_new; [reflexivity|].
    rewrite fmap_app in Hnd. apply NoDup_app in Hnd as (_ & Hd & _). intros Hin.
    by apply (Hd _ Hin); left. }
  rewrite -/(set_all hosts) (IH (acc ++ [(x, o)])) -?app_assoc //.
Qed.

(** Which hosts become nodes. *)
Definition is_node (size : nat) (cs es : list string) (x : string) : Prop :=
  ¬ ((SCALE_THRESHOLD cfg ≤ Z.of_nat size)%Z ∧ x ∈ es) ∧
  ¬ ((MASSIVE_SCALE_THRESHOLD cfg ≤ Z.of_nat size)%Z ∧ x ∈ cs).

#[local] Instance is_node_dec size cs es x : Decision (is_node size cs es x).
Proof. rewrite /is_node. apply _. Defined.

(** One round of [set_kube_node]. *)
Lemma kube_node_step x hosts cs ns es k r s :
  yaml_config s = layout (YMap hosts) (host_set cs) (host_set ns) (host_set es) k r →
  x ∉ ns →
  set_kube_node cfg [x] s =
  (Ret tt, with_config (layout (YMap hosts) (host_set cs)
     (host_set (ns ++ filter (is_node (length hosts) cs es) [x])) (host_set es) k r) s).
Proof.
  intros Hc Hx. set (size := length hosts).
  assert (read_config (λ y, h ← all_hosts y; yaml_len h) s = (Ret size, s)) as Hlen.
  { apply read_run. by rewrite Hc. }
  assert (∀ b : bool, (if b then read_config (λ y, h ← child_hosts "etcd" y; yaml_in x h)
                       else mret false) s = (Ret (b && bool_decide (x ∈ es)), s)) as Hetcd.
  { intros [|]; [|done]. apply read_run. rewrite Hc. apply host_set_in. }
  assert (∀ b : bool, (if b then read_config (λ y, h ← child_hosts "kube_control_plane" y; yaml_in x h)
                       else mret false) s = (Ret (b && bool_decide (x ∈ cs)), s)) as Hctl.
  { intros [|]; [|done]. apply read_run. rewrite Hc. apply host_set_in. }
  rewrite filter_cons filter_nil /set_kube_node. cbn [for_each].
  assert (∀ p : bool, p = bool_decide (is_node size cs es x) →
    (if p then add_host_to_group "kube_node" x no_opts else mret tt) s =
    (Ret tt, with_config (layout (YMap hosts) (host_set cs)
      (host_set (ns ++ (if decide (is_node size cs es x) then [x] else []))) (host_set es) k r) s))
    as Hadd.
  { intros p ->. destruct (decide (is_node size cs es x)) as [Hn|Hn];
      [rewrite bool_decide_true //|rewrite bool_decide_false //].
    - by apply (add_to_group_run (λ f, at_children (at_key "kube_node" (at_key "hosts" f)))
        (λ y, layout (YMap hosts) (host_set cs) y (host_set es) k r)
        x ns s (λ f y, at_node_layout f _ _ y _ _ _)).
    - by rewrite app_nil_r -Hc with_config_id. }
  erewrite bind_ret; [reflexivity|]. rewrite (bind_ret _ _ _ _ _ Hlen) (bind_ret _ _ _ _ _ (Hetcd _)).
  set (b1 := (SCALE_THRESHOLD cfg <=? Z.of_nat size)%Z && bool_decide (x ∈ es)).
  set (b2 := (MASSIVE_SCALE_THRESHOLD cfg <=? Z.of_nat size)%Z && bool_decide (x ∈ cs)).
  assert (negb b1 && negb b2 = bool_decide (is_node size cs es x)) as Hb.
  { apply eq_true_iff_eq. rewrite andb_true_iff !negb_true_iff bool_decide_eq_true /is_node.
    rewrite /b1 /b2 !andb_false_iff !Z.leb_gt !bool_decide_eq_false.
    destruct (decide (x ∈ es)), (decide (x ∈ cs)),
      (decide (SCALE_THRESHOLD cfg ≤ Z.of_nat size)%Z),
      (decide (MASSIVE_SCALE_THRESHOLD cfg ≤ Z.of_nat size)%Z); naive_solver lia. }
  destruct b1; [exact (Hadd false Hb)|].
  rewrite (bind_ret _ _ _ _ _ Hlen) (bind_ret _ _ _ _ _ (Hctl _)) -/b2.
  destruct b2; [exact (Hadd false Hb)|exact (Hadd true Hb)].
Qed.

Lemma set_kube_node_run xs hosts cs ns es k r s :
  yaml_config s = layout (YMap hosts) (host_set cs) (host_set ns) (host_set es) k r →
  NoDup (ns ++ xs) →
  set_kube_node cfg xs s =
  (Ret tt, with_config (layout (YMap hosts) (host_set cs)
     (host_set (ns ++ filter (is_node (length hosts) cs es) xs)) (host_set es) k r) s).
Proof.
  revert ns s. induction xs as [|x xs IH]; intros ns s Hc Hnd.
  { rewrite app_nil_r -Hc. by rewrite with_config_id. }
  assert (x ∉ ns) as Hx.
  { apply NoDup_app in Hnd as (_ & Hd & _). intros Hin. by apply (Hd _ Hin); left. }
  rewrite /set_kube_node (for_each_app [x] xs) -/(set_kube_node cfg [x]) -/(set_kube_node cfg xs).
  rewrite (bind_ret _ _ _ _ _ (kube_node_step x hosts cs ns es k r s Hc Hx)).
  rewrite (IH (ns ++ filter (is_node (length hosts) cs es) [x])) //.
  - by rewrite -app_assoc -filter_app.
  - rewrite filter_cons filter_nil. case_decide; [by rewrite -app_assoc|]. rewrite app_nil_r.
    apply NoDup_app in Hnd as (Hn & Hd & [_ Hxs]%NoDup_cons). apply NoDup_app.
    split; [done|]. split; [|done]. intros y Hy Hin. apply (Hd y Hy). by right.
Qed.

(** The tests of [set_calico_rr] look for the host among the fields of the
    groups: only a host called [hosts] is left out. *)
Lemma set_calico_rr_run xs h c n e k rs s :
  yaml_config s = layout h c n e k (host_set rs) → NoDup (rs ++ xs) →
  set_calico_rr xs s =
  (Ret tt, with_config (layout h c n e k
     (host_set (rs ++ filter (λ x, x ≠ "hosts"%string) xs))) s).
Proof.
  revert rs s. induction xs as [|x xs IH]; intros rs s Hc Hnd.
  { rewrite app_nil_r -Hc. by rewrite with_config_id. }
  assert (x ∉ rs) as Hx.
  { apply NoDup_app in Hnd as (_ & Hd & _). intros Hin. by apply (Hd _ Hin); left. }
  assert (∀ y, yaml_in x (group_of y) = Ret (bool_decide (x = "hosts"%string))) as Hin.
  { intros y. rewrite /yaml_in /group_of. f_equal. apply eq_true_iff_eq.
    rewrite dmem_true bool_decide_eq_true. set_solver. }
  rewrite /set_calico_rr. cbn [for_each]. rewrite -/(set_calico_rr xs) filter_cons.
  destruct (decide (x = "hosts"%string)) as [Heq|Hne].
  - erewrite bind_ret; last first.
    { erewrite bind_ret by (apply read_run; rewrite Hc; apply Hin).
      by rewrite bool_decide_true. }
    rewrite (IH rs) //; [by rewrite decide_False; [|naive_solver]|].
    apply NoDup_app in Hnd as (Hn & Hd & [_ Hxs]%NoDup_cons). apply NoDup_app.
    split; [done|]. split; [|done]. intros y Hy Hiny. apply (Hd y Hy). by right.
  - erewrite bind_ret; last first.
    { erewrite bind_ret by (apply read_run; rewrite Hc; apply Hin).
      rewrite bool_decide_false //.
      erewrite bind_ret by (apply read_run; rewrite Hc; apply Hin).
      rewrite bool_decide_false //.
      apply (add_to_group_run (λ f, at_children (at_key "calico_rr" (at_key "hosts" f)))
        (λ y, layout h c n e k y) x rs s (λ f y, at_calico_layout f _ _ _ _ _ y) Hc Hx). }
    rewrite (IH (rs ++ [x])) // -?app_assoc //. by rewrite decide_True.
Qed.

(** The inventory with the required groups and no hosts. *)
Definition empty_layout : yaml :=
  layout (YMap []) (host_set []) (host_set []) (host_set []) (group_of (YMap [])) (host_set []).

Lemma ensure_groups_run s :
  yaml_config s = YMap [] →
  ensure_required_groups ROLES s = (Ret tt, with_config empty_layout s).
Proof. destruct s as [y p w]. simpl. by intros ->. Qed.

Lemma purge_empty_run names s :
  yaml_config s = empty_layout →
  purge_invalid_hosts names PROTECTED_NAMES s = (Ret tt, s).
Proof. destruct s as [y p w]. simpl. by intros ->. Qed.

(** ** Assigning hosts to groups *)

Definition etcd_of names : list string := take (if Nat.leb 3 (length names) then 3 else 1) names.

Definition control_of names : list string :=
  let k := if Nat.leb 3 (length names) then 3%Z else 1%Z in
  if (SCALE_THRESHOLD cfg <=? Z.of_nat (length names))%Z
  then py_slice names k (k + KUBE_CONTROL_HOSTS cfg)
  else py_slice names 0 (KUBE_CONTROL_HOSTS cfg).

Definition nodes_of names : list string :=
  filter (is_node (length names) (control_of names) (etcd_of names)) names.

Definition calico_of names : list string :=
  if (SCALE_THRESHOLD cfg <=? Z.of_nat (length names))%Z
  then filter (λ x, x ≠ "hosts"%string) (etcd_of names) else [].

Definition new_layout (hosts : list (string * yaml)) : yaml :=
  let names := hosts.*1 in
  layout (YMap hosts) (host_set (control_of names)) (host_set (nodes_of names))
    (host_set (etcd_of names)) cluster_group (host_set (calico_of names)).

Lemma slice_prefix {A} (l : list A) (i : Z) : (0 ≤ i)%Z → py_slice l 0 i = take (Z.to_nat i) l.
Proof.
  intros Hi. rewrite /py_slice /slice_bound (proj2 (Z.ltb_ge i 0) Hi) /= Nat.min_0_r Nat.sub_0_r drop_0.
  destruct (Nat.min_spec (length l) (Z.to_nat i)) as [[Hlt ->]|[_ ->]]; [|done].
  by rewrite !take_ge //; lia.
Qed.

Lemma slice_etcd names :
  py_slice names 0 (if Nat.leb 3 (length names) then 3 else 1)%Z = etcd_of names.
Proof. rewrite slice_prefix /etcd_of; by case_match. Qed.

Lemma slice_sublist {A} (l : list A) a b : sublist (py_slice l a b) l.
Proof. rewrite /py_slice. etrans; [apply sublist_take|apply sublist_drop]. Qed.

Lemma control_sublist names : sublist (control_of names) names.
Proof. rewrite /control_of. case_match; apply slice_sublist. Qed.

Lemma assign_groups_run (hosts : list (string * yaml)) s :
  yaml_config s = empty_layout → NoDup hosts.*1 →
  assign_groups cfg hosts s = (Ret tt, with_config (new_layout hosts) s).
Proof.
  intros Hc Hnd. set (names := hosts.*1).
  assert (length hosts = length names) as Hlen by (by rewrite /names length_fmap).
  rewrite /assign_groups -/names Hlen (bind_ret _ _ _ _ _ (purge_empty_run names s Hc)).
  erewrite bind_ret by (by apply (set_all_run hosts [])).
  erewrite bind_ret by (by apply update_run).
  erewrite bind_ret; last first.
  { rewrite slice_etcd. apply (group_loop (λ f, at_children (at_key "etcd" (at_key "hosts" f)))
      (λ y, layout (YMap hosts) (host_set []) (host_set []) y cluster_group (host_set []))
      _ [] _ (λ f y, at_etcd_layout f _ _ _ y _ _)); [done|].
    by eapply sublist_NoDup, sublist_take. }
  erewrite bind_ret; last first.
  { transitivity (set_kube_control_plane (control_of names)
      (with_config (layout (YMap hosts) (host_set []) (host_set []) (host_set (etcd_of names))
         cluster_group (host_set [])) s)); [rewrite /control_of; by case_match|].
    apply (group_loop (λ f, at_children (at_key "kube_control_plane" (at_key "hosts" f)))
      (λ y, layout (YMap hosts) y (host_set []) (host_set (etcd_of names)) cluster_group
              (host_set [])) _ [] _ (λ f y, at_control_layout f _ y _ _ _ _)); [done|].
    by eapply sublist_NoDup, control_sublist. }
  erewrite bind_ret; last first.
  { by apply (set_kube_node_run names hosts (control_of names) [] (etcd_of names)
      cluster_group (host_set [])). }
  rewrite /new_layout /nodes_of /calico_of -/names Hlen. destruct (_ <=? _)%Z; [|done].
  rewrite slice_etcd. erewrite (set_calico_rr_run _ _ _ _ _ _ []); [done|done|].
  by eapply sublist_NoDup, sublist_take.
Qed.

End Layout.

(** ** Groups of an inventory *)

Section Roles.
Context (cfg : settings).

#[local] Existing Instance is_node_dec.

Lemma control_etcd_disjoint names :
  NoDup names → (SCALE_THRESHOLD cfg ≤ Z.of_nat (length names))%Z →
  ∀ x, x ∈ control_of cfg names → x ∉ etcd_of names.
Proof.
  intros Hnd Hs x. rewrite /control_of (proj2 (Z.leb_le _ _) Hs) /etcd_of /py_slice.
  set (k := if Nat.leb 3 (length names) then 3 else 1).
  assert (slice_bound (length names) (if Nat.leb 3 (length names) then 3 else 1)%Z =
          Nat.min (length names) k) as ->.
  { rewrite /slice_bound /k. by destruct (Nat.leb 3 (length names)). }
  intros Hc%subseteq_take He.
  rewrite -(take_drop (Nat.min (length names) k) names) in Hnd.
  apply NoDup_app in Hnd as (_ & Hd & _). apply (Hd x); [|done].
  destruct (Nat.min_spec (length names) k) as [[Hlt ->]|[_ ->]]; [|done].
  rewrite take_ge; [|done]. by apply subseteq_take in He.
Qed.

Lemma roles_cover names x :
  x ∈ names ↔ x ∈ control_of cfg names ∨ x ∈ nodes_of cfg names ∨ x ∈ etcd_of names.
Proof.
  rewrite /nodes_of list_elem_of_filter. split.
  - intros Hx. destruct (decide (x ∈ control_of cfg names)); [by left|].
    destruct (decide (x ∈ etcd_of names)); [by right; right|].
    right. left. rewrite /is_node. naive_solver.
  - intros [Hx|[[_ Hx]|Hx]]; [|done|by apply subseteq_take in Hx].
    by eapply elem_of_sublist, control_sublist.
Qed.

(** The control plane is the next [KUBE_CONTROL_HOSTS] hosts. *)
Lemma control_taken names :
  (0 ≤ KUBE_CONTROL_HOSTS cfg)%Z →
  control_of cfg names = take (Z.to_nat (KUBE_CONTROL_HOSTS cfg))
    (drop (if (SCALE_THRESHOLD cfg <=? Z.of_nat (length names))%Z
           then if Nat.leb 3 (length names) then 3 else 1 else 0) names).
Proof.
  intros HK. rewrite /control_of. set (k := if Nat.leb 3 (length names) then 3 else 1).
  assert ((if Nat.leb 3 (length names) then 3%Z else 1%Z) = Z.of_nat k) as ->
    by (rewrite /k; by destruct (Nat.leb 3 (length names))).
  assert (∀ a : nat, py_slice names (Z.of_nat a) (Z.of_nat a + KUBE_CONTROL_HOSTS cfg) =
    take (Z.to_nat (KUBE_CONTROL_HOSTS cfg)) (drop a names)) as Hs.
  { intros a. rewrite /py_slice /slice_bound.
    rewrite (proj2 (Z.ltb_ge (Z.of_nat a) 0)) ?(proj2 (Z.ltb_ge (Z.of_nat a + _) 0)); [|lia..].
    destruct (decide (length names ≤ a)%nat) as [Hle|Hlt].
    - rewrite (drop_ge names a) // drop_ge; [by rewrite !take_nil|lia].
    - replace (Nat.min (length names) (Z.to_nat (Z.of_nat a))) with a by lia.
      destruct (decide (length names ≤ a + Z.to_nat (KUBE_CONTROL_HOSTS cfg))%nat).
      + rewrite !take_ge //; rewrite length_drop; lia.
      + f_equal. lia. }
  case_match; [apply (Hs k)|apply (Hs 0)].
Qed.

(** C27: a first run distributes its distinct hosts over the groups as the
    settings say: every host is listed under all hosts, with its options, and
    has a role; the first three hosts (one, for fewer than three) form etcd; the
    control plane is the first [KUBE_CONTROL_HOSTS] hosts, or from
    [SCALE_THRESHOLD] hosts on those that follow etcd, which is then separate from
    both control plane and nodes and reflects the routes of calico; from
    [MASSIVE_SCALE_THRESHOLD] on the control plane is separate from the nodes too;
    below both thresholds every host is a node. *)
Theorem assign_groups_correct (hosts : list (string * yaml)) s :
  yaml_config s = empty_layout → NoDup hosts.*1 →
  ∃ control node etcd calico,
    assign_groups cfg hosts s =
      (Ret tt, with_config (layout (YMap hosts) (host_set control) (host_set node)
                              (host_set etcd) cluster_group (host_set calico)) s) ∧
    NoDup control ∧ NoDup node ∧ NoDup etcd ∧
    length etcd = (if Nat.leb 3 (length hosts) then 3 else Nat.min 1 (length hosts)) ∧
    etcd `prefix_of` hosts.*1 ∧
    ((0 ≤ KUBE_CONTROL_HOSTS cfg)%Z →
     control = take (Z.to_nat (KUBE_CONTROL_HOSTS cfg))
       (if (SCALE_THRESHOLD cfg <=? Z.of_nat (length hosts))%Z then drop (length etcd) hosts.*1 else hosts.*1)) ∧
    (∀ x, x ∈ hosts.*1 ↔ x ∈ control ∨ x ∈ node ∨ x ∈ etcd) ∧
    ((Z.of_nat (length hosts) < SCALE_THRESHOLD cfg)%Z →
     (Z.of_nat (length hosts) < MASSIVE_SCALE_THRESHOLD cfg)%Z → node = hosts.*1 ∧ calico = []) ∧
    ((SCALE_THRESHOLD cfg ≤ Z.of_nat (length hosts))%Z →
     etcd ## control ∧ etcd ## node ∧ calico = filter (λ x, x ≠ "hosts"%string) etcd) ∧
    ((MASSIVE_SCALE_THRESHOLD cfg ≤ Z.of_nat (length hosts))%Z → control ## node).
Proof.
  intros Hc Hnd. set (names := hosts.*1).
  assert (length hosts = length names) as -> by (by rewrite /names length_fmap).
  assert (∀ x, x ∈ nodes_of cfg names ↔
    is_node cfg (length names) (control_of cfg names) (etcd_of names) x ∧ x ∈ names) as Hnode.
  { intros x. by rewrite /nodes_of list_elem_of_filter. }
  exists (control_of cfg names), (nodes_of cfg names), (etcd_of names), (calico_of cfg names).
  split; [by apply assign_groups_run|].
  split; [by eapply sublist_NoDup, control_sublist|].
  split; [by apply NoDup_filter|].
  split; [by eapply sublist_NoDup, sublist_take|].
  split; [rewrite length_take; destruct (Nat.leb_spec 3 (length names)); lia|].
  split; [apply prefix_take|].
  split.
  { intros HK. rewrite control_taken //. case_match; [|by rewrite drop_0].
    f_equal. rewrite /etcd_of length_take. set (k := if Nat.leb 3 (length names) then 3 else 1).
    destruct (Nat.min_spec k (length names)) as [[_ ->]|[Hle ->]]; [done|]. rewrite !drop_ge //. }
  split; [apply roles_cover|].
  split; [|split].
  - intros H1 H2. rewrite /calico_of (proj2 (Z.leb_gt _ _) H1). split; [|done].
    apply filter_all. apply Forall_forall. intros x _. rewrite /is_node. lia.
  - intros Hs. split; [|split].
    + intros x He Hx. by eapply control_etcd_disjoint.
    + intros x He Hx. apply Hnode in Hx as [[Hn _] _]. by apply Hn.
    + by rewrite /calico_of (proj2 (Z.leb_le _ _) Hs).
  - intros Hs x Hx Hn. apply Hnode in Hn as [[_ Hn] _]. by apply Hn.
Qed.

End Roles.

(** The settings of an empty environment. *)
Definition default_settings : settings :=
  mkSettings "./inventory/sample/hosts.yaml" 2 50 200 true "node" false.

Lemma assign_groups_witness :
  ∃ control node etcd calico,
    (assign_groups default_settings [("a", YNull); ("b", YNull); ("c", YNull); ("d", YNull)]%string
       (mkInventory empty_layout [] [])).2 =
      mkInventory (layout (YMap [("a", YNull); ("b", YNull); ("c", YNull); ("d", YNull)]%string)
        (host_set control) (host_set node) (host_set etcd) cluster_group (host_set calico)) [] [] ∧
    node = ["a"; "b"; "c"; "d"]%string ∧ control = ["a"; "b"]%string.
Proof.
  destruct (assign_groups_correct default_settings
    [("a", YNull); ("b", YNull); ("c", YNull); ("d", YNull)]%string (mkInventory empty_layout [] []))
    as (c & n & e & r & Hrun & _ & _ & _ & _ & _ & Hk & _ & Hn & _).
  - reflexivity.
  - by apply (bool_decide_unpack _).
  - exists c, n, e, r. rewrite Hrun. split; [reflexivity|]. split; [by apply Hn|]. by apply Hk.
Defined.

(** ** A new inventory from addresses *)

(** An argument: one address, or a range of them. *)
Definition range_arg (r : Z * Z) : string :=
  if (r.1 =? r.2)%Z then format_ipv4 r.1
  else format_ipv4 r.1 +:+ "-" +:+ format_ipv4 r.2.

Definition valid_range (r : Z * Z) : Prop := (0 ≤ r.1 < 2 ^ 32 ∧ 0 ≤ r.2 < 2 ^ 32)%Z.

Definition range_addresses (rs : list (Z * Z)) : list string :=
  rs ≫= λ r, address_range r.1 r.2.

Lemma expand_arg r : valid_range r → expand_host (range_arg r) = Ret (address_range r.1 r.2).
Proof.
  destruct r as [a b]. intros [Ha Hb]. rewrite /range_arg. simpl in *.
  destruct (Z.eqb_spec a b) as [<-|Hne]; [|by apply expand_range].
  rewrite /expand_host /is_range str_has_minus_format /= /address_range.
  replace (Z.to_nat (a + 1 - a)) with 1 by lia. simpl. by rewrite Z.add_0_r.
Qed.

Lemma range2ips_from rs acc :
  Forall valid_range rs →
  ofold (range_arg <$> rs) acc (λ reworked_hosts host,
    l ← expand_host host; Ret (reworked_hosts ++ l)) = Ret (acc ++ range_addresses rs).
Proof.
  intros Hrs. revert acc. induction Hrs as [|r rs Hr Hrs IH]; intros acc.
  { by rewrite /= app_nil_r. }
  rewrite fmap_cons. cbn [ofold]. rewrite (expand_arg r Hr). cbn. rewrite IH. by rewrite -app_assoc.
Qed.

(** Also: [range2ips] expands address arguments in order: a range of IPv4
    addresses becomes every address from the first to the last, each in the
    notation [ip_address] reads back. *)
Theorem range2ips_correct rs :
  Forall valid_range rs →
  range2ips (range_arg <$> rs) = Ret (range_addresses rs) ∧
  ∀ a b i, (a, b) ∈ rs → (a ≤ i ≤ b)%Z →
    format_ipv4 i ∈ range_addresses rs ∧ ip_address (format_ipv4 i) = Ret (IPv4 i).
Proof.
  intros Hrs. split; [by apply (range2ips_from rs [])|]. intros a b i Hin Hi.
  rewrite Forall_forall in Hrs. destruct (Hrs _ Hin) as [Ha Hb]. simpl in *.
  split; [|by apply ip_address_format; lia].
  apply list_elem_of_bind. exists (a, b). split; [|done]. simpl. apply list_elem_of_fmap.
  exists (Z.to_nat (i - a)). split; [f_equal; lia|]. apply elem_of_seq. lia.
Qed.

Lemma range2ips_witness :
  range2ips ["10.10.1.3"; "10.10.1.4-10.10.1.6"]%string =
  Ret ["10.10.1.3"; "10.10.1.4"; "10.10.1.5"; "10.10.1.6"]%string.
Proof.
  apply (range2ips_correct [(168427779, 168427779); (168427780, 168427782)]%Z).
  repeat constructor; simpl; lia.
Defined.

Section NewInventory.
Context (cfg : settings) (open_yaml open_json : string → yaml_file).
Context (ssh_hostname : string → outcome string) (yaml_dump : yaml → string).
Context (Hreal : USE_REAL_HOSTNAME cfg = false).
Context (Hprefix : match HOST_PREFIX cfg with String c _ => is_digit c = false | EmptyString => False end).

(** The hosts named after their position. *)
Definition node_name (i : nat) : string := HOST_PREFIX cfg +:+ py_str (Z.of_nat i + 1).

Definition named_hosts (addresses : list string) : list (string * yaml) :=
  imap (λ i a, (node_name i, host_opts a a)) addresses.

Lemma named_hosts_snoc l a :
  named_hosts (l ++ [a]) = named_hosts l ++ [(node_name (length l), host_opts a a)].
Proof. by rewrite /named_hosts imap_app /= Nat.add_0_r. Qed.

Lemma node_name_inj i j : node_name i = node_name j → i = j.
Proof.
  intros Hij%(inj (String.append _)). enough (Z.of_nat i + 1 = Z.of_nat j + 1)%Z by lia.
  pose proof (py_int_py_str (Z.of_nat i + 1)) as Hi. rewrite Hij py_int_py_str in Hi. congruence.
Qed.

Lemma node_name_in l x :
  x ∈ (named_hosts l).*1 ↔ ∃ i, i < length l ∧ x = node_name i.
Proof.
  rewrite list_elem_of_fmap. setoid_rewrite elem_of_lookup_imap. split.
  - intros (y & -> & i & a & -> & Hi%lookup_lt_Some). by exists i.
  - intros (i & [a Ha]%lookup_lt_is_Some & ->). exists (node_name i, host_opts a a).
    split; [done|]. by exists i, a.
Qed.

Lemma node_name_fresh l : node_name (length l) ∉ (named_hosts l).*1.
Proof. rewrite node_name_in. intros (i & Hi & Heq%node_name_inj). lia. Qed.

Lemma named_hosts_NoDup l : NoDup (named_hosts l).*1.
Proof.
  induction l as [|a l IH] using rev_ind; [constructor|].
  rewrite named_hosts_snoc fmap_app. apply NoDup_app. split; [done|].
  split; [|by apply NoDup_singleton].
  intros x Hx ->%list_elem_of_singleton. by apply (node_name_fresh l).
Qed.

(** An address is not the name of a host. *)
Lemma address_not_name l n : format_ipv4 n ∉ (named_hosts l).*1.
Proof.
  rewrite node_name_in. intros (i & _ & Hi). rewrite /node_name in Hi.
  destruct (format_ipv4_digit n) as (c & r & Hc & Hd). rewrite Hc in Hi.
  destruct (HOST_PREFIX cfg) as [|c' r']; [done|]. rewrite str_app_cons in Hi. congruence.
Qed.

Lemma exists_ip_named l a : exists_ip (named_hosts l) a = Ret (bool_decide (a ∈ l)).
Proof.
  rewrite /named_hosts. set (g := λ (i : nat) (b : string), (node_name i, host_opts b b)).
  assert (∀ k, exists_ip (imap (λ i, g (k + i)) l) a = Ret (bool_decide (a ∈ l))) as H;
    [|apply (H 0)].
  induction l as [|b l IH]; intros k; [by rewrite bool_decide_false; [|by intros ?%elem_of_nil]|].
  rewrite imap_cons. cbn [exists_ip g]. lazy beta iota.
  change (get_ip_from_opts (host_opts b b)) with (Ret (YStr b)).
  cbn -[imap String.eqb exists_ip]. destruct (String.eqb_spec b a) as [->|Hne].
  { rewrite bool_decide_true; [done|]. apply list_elem_of_here. }
  rewrite (imap_ext _ (λ i, g (S k + i))); [|intros; by rewrite /= -Nat.add_succ_comm].
  rewrite IH. f_equal. apply bool_decide_ext. set_solver.
Qed.

(** Adding an address that no host has yet. *)
Lemma build_address l n ip access_ip :
  format_ipv4 n ∉ l →
  build_step cfg ssh_hostname
    (mkBuild (named_hosts l) (Z.of_nat (length l) + 1) ip access_ip None) (format_ipv4 n) =
  Ret (mkBuild (named_hosts (l ++ [format_ipv4 n])) (Z.of_nat (length (l ++ [format_ipv4 n])) + 1)
         (Some (format_ipv4 n)) (Some (format_ipv4 n)) None).
Proof.
  intros Hn. destruct (format_ipv4_digit n) as (c & r & Hc & Hd).
  rewrite {1}Hc. cbn [build_step]. destruct (digit_not_alpha c Hd) as [_ Hm].
  rewrite (proj2 (Ascii.eqb_neq c "-") Hm) Hd -Hc /add_address str_has_format //=.
  assert (exists_hostname (named_hosts l) (format_ipv4 n) = false) as ->.
  { apply not_true_iff_false. rewrite dmem_true. apply address_not_name. }
  rewrite exists_ip_named bool_decide_false // Hreal /=.
  rewrite named_hosts_snoc dset_new; [|apply node_name_fresh].
  do 2 f_equal. rewrite length_app /=. lia.
Qed.

Lemma build_addresses l ns ip access_ip :
  NoDup (l ++ (format_ipv4 <$> ns)) →
  ∃ ip' access_ip',
    ofold (format_ipv4 <$> ns)
      (mkBuild (named_hosts l) (Z.of_nat (length l) + 1) ip access_ip None)
      (build_step cfg ssh_hostname) =
    Ret (mkBuild (named_hosts (l ++ (format_ipv4 <$> ns)))
           (Z.of_nat (length (l ++ (format_ipv4 <$> ns))) + 1) ip' access_ip' None).
Proof.
  revert l ip access_ip. induction ns as [|n ns IH]; intros l ip access_ip Hnd.
  { exists ip, access_ip. by rewrite app_nil_r. }
  rewrite fmap_cons. cbn [ofold]. rewrite build_address; last first.
  { apply NoDup_app in Hnd as (_ & Hd & _). intros Hin. by apply (Hd _ Hin); left. }
  destruct (IH (l ++ [format_ipv4 n]) (Some (format_ipv4 n)) (Some (format_ipv4 n)))
    as (ip' & access_ip' & H); [by rewrite -app_assoc|].
  exists ip', access_ip'. rewrite -!(app_assoc l [format_ipv4 n]) in H. exact H.
Qed.

Lemma range_arg_digit r : ∃ c t, range_arg r = String c t ∧ is_digit c = true.
Proof.
  destruct (format_ipv4_digit r.1) as (c & t & Hc & Hd). rewrite /range_arg Hc.
  destruct (r.1 =? r.2)%Z; [by exists c, t|]. eexists c, _. split; [|done]. apply str_app_cons.
Qed.

Lemma range_addresses_format rs : ∃ ns, range_addresses rs = format_ipv4 <$> ns.
Proof.
  induction rs as [|[a b] rs [ns IH]]; [by exists []|].
  exists (((λ i, a + Z.of_nat i)%Z <$> seq 0 (Z.to_nat (b + 1 - a))) ++ ns).
  by rewrite fmap_app -IH -list_fmap_compose.
Qed.

Lemma build_hosts_run rs s :
  NoDup (range_addresses rs) →
  build_hostnames cfg ssh_hostname (range_addresses rs) false s =
  (Ret (named_hosts (range_addresses rs)), s).
Proof.
  destruct (range_addresses_format rs) as [ns ->]. intros Hnd.
  destruct (build_addresses [] ns None None Hnd) as (ip & access_ip & H).
  rewrite /build_hostnames. erewrite bind_ret by reflexivity. lazy beta iota.
  by erewrite bind_ret by (rewrite /lift; cbn in H; by rewrite H).
Qed.

(** An argument that starts with a digit is not a command. *)
Lemma digit_not_command c t : is_digit c = true → String c t ∉ AVAILABLE_COMMANDS.
Proof.
  intros Hd Hin. rewrite /AVAILABLE_COMMANDS in Hin.
  repeat (apply elem_of_cons in Hin as [[= -> ->]|Hin]; [done|]). by apply elem_of_nil in Hin.
Qed.

(** C26: run on addresses and address ranges (IPv4, no address twice), the
    builder writes one inventory to the file: the addresses in order as hosts
    [node1], [node2], ..., each with its own address as options, in the groups
    of [assign_groups_correct].  It reads no file and, apart from the debug output,
    which is not modelled, prints nothing. *)
Theorem new_inventory_correct rs f s :
  rs ≠ [] → Forall valid_range rs → NoDup (range_addresses rs) → f ≠ EmptyString →
  let inv := new_layout cfg (named_hosts (range_addresses rs)) in
  KubesprayInventory cfg open_yaml open_json ssh_hostname yaml_dump (range_arg <$> rs) (Some f) s =
  (Ret tt, mkInventory inv (printed s) (written s ++ [(f, inv)])).
Proof.
  intros Hne Hrs Hnd Hf inv. destruct rs as [|r rs]; [done|]. destruct f as [|fc f]; [done|].
  rewrite /KubesprayInventory. erewrite bind_ret by reflexivity.
  destruct (range_arg_digit r) as (c & t & Hr & Hd). rewrite fmap_cons.
  rewrite bool_decide_false; [|rewrite Hr; by apply digit_not_command].
  erewrite bind_ret by reflexivity. lazy beta iota.
  assert (removes_first (range_arg r :: (range_arg <$> rs)) = Ret false) as ->.
  { rewrite Hr /=. destruct (digit_not_alpha c Hd) as [_ Hm].
    by rewrite (proj2 (Ascii.eqb_neq c "-") Hm). }
  erewrite bind_ret by reflexivity. lazy beta iota zeta. cbn [orb].
  erewrite bind_ret by reflexivity. erewrite bind_ret by (by apply ensure_groups_run).
  erewrite bind_ret; last first.
  { erewrite bind_ret; last first.
    { rewrite /range2ips -fmap_cons (range2ips_from _ [] Hrs). reflexivity. }
    cbn [app]. erewrite bind_ret; last first.
    { apply build_hosts_run. exact Hnd. }
    by apply assign_groups_run; [|apply named_hosts_NoDup]. }
  reflexivity.
Qed.
End NewInventory.

Lemma new_inventory_witness :
  (KubesprayInventory default_settings (λ _, YamlMissing) (λ _, YamlMissing) (λ _, Raise OSError)
     (λ _, EmptyString) ["10.0.0.1"; "10.0.0.7-10.0.0.8"]%string (Some "hosts.yaml"%string)
     (mkInventory (YMap []) [] [])).2 =
  let opts a := host_opts a a in
  let inv := layout
    (YMap [("node1", opts "10.0.0.1"); ("node2", opts "10.0.0.7"); ("node3", opts "10.0.0.8")]%string)
    (host_set ["node1"; "node2"]%string) (host_set ["node1"; "node2"; "node3"]%string)
    (host_set ["node1"; "node2"; "node3"]%string) cluster_group (host_set []) in
  mkInventory inv [] [("hosts.yaml"%string, inv)].
Proof.
  pose proof (new_inventory_correct default_settings (λ _, YamlMissing) (λ _, YamlMissing)
    (λ _, Raise OSError) (λ _, EmptyString) eq_refl eq_refl
    [(167772161, 167772161); (167772167, 167772168)]%Z "hosts.yaml"
    (mkInventory (YMap []) [] [])) as H.
  cbv zeta in H. rewrite H; [reflexivity|done| | |done].
  - repeat constructor; simpl; lia.
  - by apply (bool_decide_unpack _).
Defined.

(** ** Arguments and commands that fail *)

Section Failures.
Context (cfg : settings) (open_yaml open_json : string → yaml_file).
Context (ssh_hostname : string → outcome string) (yaml_dump : yaml → string).

(** Also: a host name alone is not accepted as the first argument, whatever the
    name: its address is read from a variable that has no value yet. *)
Theorem bare_hostname_raises c t rest config_file s :
  is_alpha c = true → str_has "," (String c t) = false → String c t ∉ AVAILABLE_COMMANDS →
  Forall (λ h, is_range h = false) rest →
  (KubesprayInventory cfg open_yaml open_json ssh_hostname yaml_dump
     (String c t :: rest) config_file s).1 = Raise UnboundLocalError.
Proof.
  intros Ha Hcomma Hcmd Hrest.
  assert (Ascii.eqb c "-" = false ∧ is_digit c = false) as [Hm Hd].
  { by destruct c as [[] [] [] [] [] [] [] []]. }
  assert (Hr : ∀ l acc, Forall (λ h, is_range h = false) l →
    ofold l acc (λ hs h, r ← expand_host h; Ret (hs ++ r)) = Ret (acc ++ l)).
  { intros l acc Hl. revert acc. induction Hl as [|h l Hh _ IH]; intros acc; [by rewrite app_nil_r|].
    cbn [ofold]. rewrite /expand_host Hh. cbn. rewrite IH. by rewrite -app_assoc. }
  rewrite /KubesprayInventory. erewrite bind_ret by reflexivity.
  rewrite bool_decide_false //. erewrite bind_ret by reflexivity. lazy beta iota.
  rewrite /removes_first Hm. erewrite bind_ret by reflexivity. lazy beta iota zeta. cbn [orb].
  erewrite bind_ret by (by destruct config_file as [[|]|]).
  erewrite bind_ret by (by apply ensure_groups_run).
  erewrite bind_raise; [reflexivity|].
  erewrite bind_ret; last first.
  { rewrite /range2ips (Hr _ []); [reflexivity|]. constructor; [|done].
    by rewrite /is_range Ha andb_false_r. }
  erewrite bind_raise; [reflexivity|]. rewrite /build_hostnames. erewrite bind_ret by reflexivity.
  lazy beta iota. cbn [app ofold build_step]. rewrite Hm Hd Ha /add_named Hcomma. reflexivity.
Qed.

(** Also: the commands that print addresses or host names fail with a
    [KeyError] whatever the file holds: the configuration is not loaded. *)
Theorem print_commands_raise command args config_file s :
  command ∈ ["print_ips"; "print_hostnames"]%string →
  (KubesprayInventory cfg open_yaml open_json ssh_hostname yaml_dump
     (command :: args) config_file s).1 = Raise KeyError.
Proof.
  intros [->|[->|[]%elem_of_nil]%elem_of_cons]%elem_of_cons; reflexivity.
Qed.
End Failures.
