(* ===== verification/KubeModule.v ===== *)
(** * The Ansible module [kube] (src/kubespray/library/kube.py)

    [KubeManager] and [main].  Ansible is the environment: the checked options,
    [get_bin_path] and [run_command] are parameters; [fail_json] and [exit_json]
    report a result and end the process, as Ansible documents.  What [kubectl]
    answers may depend on the commands run before.  Its output is ASCII text. *)

From S2P Require Import Prelude Yaml.

(** ** Options *)

Record option_spec : Type := mkOption {
  opt_name : string;
  opt_type : string;
  opt_default : yaml;
  opt_choices : list string;
  opt_aliases : list string
}.

Definition plain_option (name : string) : option_spec := mkOption name "str" YNull [] [].
Definition flag_option (name : string) : option_spec := mkOption name "bool" (YBool false) [] [].

Definition argument_spec : list option_spec :=
  [plain_option "name";
   mkOption "filename" "list" YNull [] ["files"; "file"; "filenames"];
   plain_option "namespace";
   plain_option "resource";
   plain_option "label";
   plain_option "server";
   plain_option "kubectl";
   flag_option "force";
   flag_option "wait";
   flag_option "all";
   mkOption "log_level" "int" (YInt 0) [] [];
   mkOption "state" "str" (YStr "present") ["present"; "absent"; "latest"; "reloaded"; "stopped"] [];
   flag_option "recursive"]%string.

Definition mutually_exclusive : list (list string) := [["filename"; "list"]]%string.

(** The options that [DOCUMENTATION] lists: name, default, choices, aliases. *)
Definition DOCUMENTATION : list (string * yaml * list string * list string) :=
  [("name", YNull, [], []);
   ("filename", YNull, [], ["files"; "file"; "filenames"]);
   ("kubectl", YNull, [], []);
   ("namespace", YNull, [], []);
   ("resource", YNull, [], []);
   ("label", YNull, [], []);
   ("server", YNull, [], []);
   ("force", YBool false, [], []);
   ("wait", YBool false, [], []);
   ("all", YBool false, [], []);
   ("log_level", YInt 0, [], []);
   ("state", YStr "present", ["present"; "absent"; "latest"; "reloaded"; "stopped"], []);
   ("recursive", YBool false, [], [])]%string.

(** [module.params]: the options after Ansible's conversions and defaults. *)
Record params : Type := mkParams {
  p_name : option string;
  p_filename : option (list string);
  p_namespace : option string;
  p_resource : option string;
  p_label : option string;
  p_server : option string;
  p_kubectl : option string;
  p_force : bool;
  p_wait : bool;
  p_all : bool;
  p_log_level : Z;
  p_state : string;
  p_recursive : bool
}.

(** ** State *)

Inductive report : Type :=
| Failed (msg : string)
| Exited (changed : bool) (msg : string).

Record module_state : Type := mkModule {
  ran : list (list string);
  reported : list report
}.

Definition report_it (r : report) : M module_state unit :=
  modify (λ s, mkModule (ran s) (reported s ++ [r])).
Definition fail_json {A} (msg : string) : M module_state A :=
  report_it (Failed msg) ;; raise (SystemExit 1).
Definition exit_json {A} (changed : bool) (msg : string) : M module_state A :=
  report_it (Exited changed msg) ;; raise (SystemExit 0).

(** An option that is set to something else than the empty string. *)
Definition set_option (o : option string) : option string :=
  match o with Some (String _ _ as s) => Some s | _ => None end.

(** [out.splitlines()] *)
Definition line_end (c : ascii) : bool :=
  bool_decide (nat_of_ascii c ∈ [10; 11; 12; 13; 28; 29; 30]).

Fixpoint splitlines (s : string) : list string :=
  match s with
  | EmptyString => []
  | String c r =>
      if line_end c then
        match c, r with
        | "013"%char, String "010" r' => EmptyString :: splitlines r'
        | _, _ => EmptyString :: splitlines r
        end
      else
        match splitlines r with
        | [] => [String c EmptyString]
        | l :: ls => String c l :: ls
        end
  end.

(** ** KubeManager *)

Record KubeManager : Type := mkManager {
  base_cmd : list string;
  km_all : bool;
  km_force : bool;
  km_wait : bool;
  km_name : option string;
  km_filename : list string;
  km_resource : option string;
  km_label : option string;
  km_recursive : bool
}.

Section Kube.
(** What [kubectl] answers to a command, given the commands run before it, and
    the text of an exception. *)
Variable run_command : list (list string) → list string → outcome (Z * string * string).
Variable get_bin_path : string → bool → M module_state string.
Variable exn_str : exn → string.
Notation W := (M module_state).

Definition run (args : list string) : W (Z * string * string) := λ s,
  (run_command (ran s) args, mkModule (ran s ++ [args]) (reported s)).

Definition KubeManager_init (p : params) : W KubeManager :=
  kubectl ← match p_kubectl p with
            | Some k => mret k
            | None => get_bin_path "kubectl" true
            end;
  let base := [kubectl] ++
    match set_option (p_server p) with Some v => ["--server=" +:+ v] | None => [] end ++
    (if (p_log_level p =? 0)%Z then [] else ["--v=" +:+ py_str (p_log_level p)]) ++
    match set_option (p_namespace p) with Some v => ["--namespace=" +:+ v] | None => [] end in
  mret (mkManager base (p_all p) (p_force p) (p_wait p) (p_name p)
          (py_strip <$> default [] (p_filename p)) (p_resource p) (p_label p) (p_recursive p)).

Definition kubectl_failed (args : list string) : string :=
  "error running kubectl (" +:+ py_join " " args +:+ ") command".

Definition _execute (m : KubeManager) (cmd : list string) : W (list string) :=
  let args := base_cmd m ++ cmd in
  out ← catch
    (r ← run args;
     let '(rc, out, err) := r in
     if (rc =? 0)%Z then mret out
     else fail_json (kubectl_failed args +:+ " (rc=" +:+ py_str rc +:+ "), out='" +:+ out +:+
                     "', err='" +:+ err +:+ "'"))
    (λ e, match e with
          | SystemExit _ => raise e
          | _ => fail_json (kubectl_failed args +:+ ": " +:+ exn_str e)
          end);
  mret (splitlines out).

Definition _execute_nofail (m : KubeManager) (cmd : list string) : W (option (list string)) :=
  r ← run (base_cmd m ++ cmd);
  let '(rc, out, err) := r in
  mret (if (rc =? 0)%Z then Some (splitlines out) else None).

Definition recursive_flag (m : KubeManager) : list string :=
  if km_recursive m then ["--recursive=True"%string] else [].
Definition filename_flag (m : KubeManager) : string :=
  "--filename=" +:+ py_join "," (km_filename m).
Definition flag_when (b : bool) (flag : string) : list string := if b then [flag] else [].

(** The name and the label that narrow a resource down. *)
Definition selection (m : KubeManager) (resource : string) : list string :=
  [resource] ++
  match set_option (km_name m) with Some n => [n] | None => [] end ++
  match set_option (km_label m) with Some l => ["--selector=" +:+ l] | None => [] end.

Definition exists_ (m : KubeManager) : W bool :=
  target ← match km_filename m with
           | _ :: _ => mret (filename_flag m :: recursive_flag m)
           | [] => match set_option (km_resource m) with
                   | None => fail_json "resource required without filename"
                   | Some r => mret (selection m r ++ flag_when (km_all m) "--all-namespaces")
                   end
           end;
  result ← _execute_nofail m (["get"%string] ++ target ++ ["--no-headers"%string]);
  mret match result with Some (_ :: _) => true | _ => false end.

(** [apply]: the body that [create] and [replace] share. *)
Definition apply_cmd (m : KubeManager) (force : bool) : list string :=
  ["apply"%string] ++ flag_when force "--force" ++ flag_when (km_wait m) "--wait" ++ recursive_flag m.

Definition create (m : KubeManager) (check force : bool) : W (list string) :=
  present ← (if check then exists_ m else mret false);
  if (present : bool) then mret []
  else match km_filename m with
       | [] => fail_json "filename required to create"
       | _ => _execute m (apply_cmd m force ++ [filename_flag m])
       end.

Definition replace (m : KubeManager) (force : bool) : W (list string) :=
  match km_filename m with
  | [] => fail_json "filename required to reload"
  | _ => _execute m (apply_cmd m force ++ [filename_flag m])
  end.

Definition delete_ (m : KubeManager) : W (list string) :=
  present ← (if km_force m then mret true else exists_ m);
  if negb present then mret []
  else
    target ← match km_filename m with
             | _ :: _ => mret (filename_flag m :: recursive_flag m)
             | [] => match set_option (km_resource m) with
                     | None => fail_json "resource required to delete without filename"
                     | Some r => mret (selection m r ++ flag_when (km_all m) "--all" ++
                                       flag_when (km_force m) "--ignore-not-found" ++
                                       recursive_flag m)
                     end
             end;
    _execute m (["delete"%string] ++ target).

Definition stop (m : KubeManager) : W (list string) :=
  present ← (if km_force m then mret true else exists_ m);
  if negb present then mret []
  else
    target ← match km_filename m with
             | _ :: _ => mret (filename_flag m :: recursive_flag m)
             | [] => match set_option (km_resource m) with
                     | None => fail_json "resource required to stop without filename"
                     | Some r => mret (selection m r ++ flag_when (km_all m) "--all" ++
                                       flag_when (km_force m) "--ignore-not-found")
                     end
             end;
    _execute m (["stop"%string] ++ target).

(** [main], on the options that [AnsibleModule(argument_spec)] returns. *)
Definition kube_main (AnsibleModule : list option_spec → list (list string) → W params) : W unit :=
  p ← AnsibleModule argument_spec mutually_exclusive;
  let changed := false in
  manager ← KubeManager_init p;
  let state := p_state p in
  result ← (if String.eqb state "present" then create manager false true
            else if String.eqb state "absent" then delete_ manager
            else if String.eqb state "reloaded" then replace manager true
            else if String.eqb state "stopped" then stop manager
            else if String.eqb state "latest" then replace manager true
            else fail_json ("Unrecognized state " +:+ state +:+ "."));
  exit_json changed ("success: " +:+ py_join " " result).

End Kube.
