(* ===== verification/KubeModuleProps.v ===== *)
(** * Properties of the Ansible module [kube]

    What each state runs and reports, and that a removal is guarded by a look-up
    of the same resource. *)

From S2P Require Import Prelude Yaml KubeModule.

Section KubeProps.
Context (run_command : list (list string) → list string → outcome (Z * string * string)).
Context (get_bin_path : string → bool → M module_state string).
Context (exn_str : exn → string).
Context (AnsibleModule : list option_spec → list (list string) → M module_state params).
Context (p : params) (kubectl : string).
(** The program is the one given as an option, or else the one that
    [get_bin_path] finds. *)
Context (Hkubectl : p_kubectl p = Some kubectl ∨
  p_kubectl p = None ∧ ∀ s, get_bin_path "kubectl" true s = (Ret kubectl, s)).

Implicit Types (c : list string) (m : KubeManager).

(** The manager that [main] makes of the options. *)
Definition manager : KubeManager :=
  mkManager
    ([kubectl] ++
     match set_option (p_server p) with Some v => ["--server=" +:+ v] | None => [] end ++
     (if (p_log_level p =? 0)%Z then [] else ["--v=" +:+ py_str (p_log_level p)]) ++
     match set_option (p_namespace p) with Some v => ["--namespace=" +:+ v] | None => [] end)
    (p_all p) (p_force p) (p_wait p) (p_name p)
    (py_strip <$> default [] (p_filename p)) (p_resource p) (p_label p) (p_recursive p).

Lemma init_run s : KubeManager_init get_bin_path p s = (Ret manager, s).
Proof.
  rewrite /KubeManager_init. destruct Hkubectl as [->|[-> Hfound]]; [done|].
  by rewrite (bind_ret _ _ _ _ _ (Hfound s)).
Qed.

(** What follows the choice of the state. *)
Definition finish (m : M module_state (list string)) : M module_state unit :=
  result ← m; exit_json false ("success: " +:+ py_join " " result).

(** One command whose failure fails the module. *)
Definition final (c : list string) : M module_state unit :=
  finish (_execute run_command exn_str manager c).

Lemma final_run c s rc out err :
  run_command (ran s) (base_cmd manager ++ c) = Ret (rc, out, err) →
  ∃ msg, final c s =
    if (rc =? 0)%Z
    then (Raise (SystemExit 0), mkModule (ran s ++ [base_cmd manager ++ c])
            (reported s ++ [Exited false ("success: " +:+ py_join " " (splitlines out))]))
    else (Raise (SystemExit 1), mkModule (ran s ++ [base_cmd manager ++ c])
            (reported s ++ [Failed msg])).
Proof.
  intros Hrun. rewrite /final /finish /_execute. set (args := base_cmd manager ++ c) in *.
  assert (∀ k : Z * string * string → M module_state string,
    (run run_command args ≫= k) s =
    k (rc, out, err) (mkModule (ran s ++ [args]) (reported s))) as Hstep.
  { intros k. apply bind_ret. by rewrite /run Hrun. }
  destruct (Z.eqb_spec rc 0) as [->|Hrc].
  - exists EmptyString. erewrite bind_ret; last first.
    { erewrite bind_ret; [reflexivity|]. rewrite /catch Hstep. reflexivity. }
    reflexivity.
  - eexists. erewrite bind_raise; [reflexivity|]. erewrite bind_raise; [reflexivity|].
    rewrite /catch Hstep (proj2 (Z.eqb_neq rc 0) Hrc). reflexivity.
Qed.

Context (Hmodule : ∀ s, AnsibleModule argument_spec mutually_exclusive s = (Ret p, s)).
Notation kube := (kube_main run_command get_bin_path exn_str AnsibleModule).

Definition action : M module_state (list string) :=
  if String.eqb (p_state p) "present" then create run_command exn_str manager false true
  else if String.eqb (p_state p) "absent" then delete_ run_command exn_str manager
  else if String.eqb (p_state p) "reloaded" then replace run_command exn_str manager true
  else if String.eqb (p_state p) "stopped" then stop run_command exn_str manager
  else if String.eqb (p_state p) "latest" then replace run_command exn_str manager true
  else fail_json ("Unrecognized state " +:+ p_state p +:+ ".").

Lemma kube_run s : kube s = finish action s.
Proof.
  rewrite /kube_main (bind_ret _ _ _ _ _ (Hmodule s)). lazy zeta.
  by rewrite (bind_ret _ _ _ _ _ (init_run s)).
Qed.

(** The command that [present], [reloaded] and [latest] stand for. *)
Definition apply_args : list string :=
  base_cmd manager ++ apply_cmd manager true ++ [filename_flag manager].

(** Also: with definition files, the states [present], [reloaded] and [latest] all
    run exactly one [kubectl apply] of those files, and nothing else; its exit
    status decides between the one success and the one failure report. *)
Theorem apply_states_correct s f fs rc out err :
  p_state p ∈ ["present"; "reloaded"; "latest"]%string →
  p_filename p = Some (f :: fs) →
  run_command (ran s) apply_args = Ret (rc, out, err) →
  ∃ msg, kube s =
    if (rc =? 0)%Z
    then (Raise (SystemExit 0), mkModule (ran s ++ [apply_args])
            (reported s ++ [Exited false ("success: " +:+ py_join " " (splitlines out))]))
    else (Raise (SystemExit 1), mkModule (ran s ++ [apply_args]) (reported s ++ [Failed msg])).
Proof.
  intros Hst Hf Hrun. destruct (final_run _ s rc out err Hrun) as [msg Hfin].
  exists msg. rewrite -Hfin kube_run /finish /final /action.
  assert (∃ f' fs', km_filename manager = f' :: fs') as (f' & fs' & Hfn).
  { rewrite /= Hf. by eexists _, _. }
  set_unfold in Hst. destruct Hst as [->|[->|[->|[]]]]; cbn [String.eqb Ascii.eqb Bool.eqb].
  - rewrite /create. by rewrite Hfn.
  - by rewrite /replace Hfn.
  - by rewrite /replace Hfn.
Qed.

(** What is looked up and removed: the files, or the resource with its name and
    label. *)
Definition target : option (list string) :=
  match km_filename manager with
  | _ :: _ => Some [filename_flag manager]
  | [] => selection manager <$> set_option (km_resource manager)
  end.

Definition extra_flags (c : list string) : Prop :=
  c ⊆ ["--recursive=True"; "--all-namespaces"; "--all"; "--ignore-not-found"]%string.

(** A [kubectl get] of the target. *)
Definition lookup_cmd (t c : list string) : Prop :=
  ∃ fl, extra_flags fl ∧ c = base_cmd manager ++ ["get"%string] ++ t ++ fl ++ ["--no-headers"%string].

Lemma exists_run s :
  match target with
  | None => ∃ msg, exists_ run_command manager s =
      (Raise (SystemExit 1), mkModule (ran s) (reported s ++ [Failed msg]))
  | Some t => ∃ c, lookup_cmd t c ∧
      let s' := mkModule (ran s ++ [c]) (reported s) in
      exists_ run_command manager s =
      match run_command (ran s) c with
      | Ret (rc, out, err) => (Ret (bool_decide (rc = 0%Z ∧ splitlines out ≠ [])), s')
      | Raise e => (Raise e, s')
      | Blocked => (Blocked, s')
      | OutOfFuel => (OutOfFuel, s')
      end
  end.
Proof.
  assert (∀ t fl, extra_flags fl →
    ∃ c, lookup_cmd t c ∧
      let s' := mkModule (ran s ++ [c]) (reported s) in
      (result ← _execute_nofail run_command manager
                  (["get"%string] ++ (t ++ fl) ++ ["--no-headers"%string]);
       mret match result with Some (_ :: _) => true | _ => false end) s =
      match run_command (ran s) c with
      | Ret (rc, out, err) => (Ret (bool_decide (rc = 0%Z ∧ splitlines out ≠ [])), s')
      | Raise e => (Raise e, s')
      | Blocked => (Blocked, s')
      | OutOfFuel => (OutOfFuel, s')
      end) as Hget.
  { intros t fl Hfl. eexists. split; [by exists fl|]. cbv zeta.
    rewrite /_execute_nofail -(app_assoc t) /mbind /M_bind /run.
    destruct (run_command _ _) as [[[rc out] err]| | |]; [|done..].
    simpl. do 2 f_equal. destruct (Z.eqb_spec rc 0) as [->|Hrc].
    - destruct (splitlines out); [by rewrite bool_decide_false; [|naive_solver]|].
      by rewrite bool_decide_true.
    - rewrite bool_decide_false; naive_solver. }
  rewrite /target /exists_. destruct (km_filename manager) as [|f fs] eqn:Hf.
  - destruct (set_option (km_resource manager)) as [r|]; [|by eexists].
    apply (Hget (selection manager r)). rewrite /flag_when. destruct (km_all manager); set_solver.
  - apply (Hget [filename_flag manager]). rewrite /recursive_flag.
    destruct (km_recursive manager); set_solver.
Qed.

Lemma execute_ran c s :
  ran (_execute run_command exn_str manager c s).2 = ran s ++ [base_cmd manager ++ c].
Proof.
  rewrite /_execute /catch /mbind /M_bind /run.
  destruct (run_command _ _) as [[[rc out] err]|e| |]; [|by destruct e|done..].
  by destruct (rc =? 0)%Z.
Qed.

Lemma finish_ran (m : M module_state (list string)) s : ran (finish m s).2 = ran (m s).2.
Proof. rewrite /finish /mbind /M_bind. by destruct (m s) as [[]]. Qed.

(** A command that removes or stops the target. *)
Definition removal_cmd (t c : list string) : Prop :=
  ∃ verb fl, verb ∈ ["delete"; "stop"]%string ∧ extra_flags fl ∧
    c = base_cmd manager ++ [verb] ++ t ++ fl.

(** The common part of [delete] and [stop]. *)
Definition removal (verb none : string) (fl : list string) : M module_state (list string) :=
  present ← (if km_force manager then mret true else exists_ run_command manager);
  if negb present then mret []
  else
    tg ← match km_filename manager with
         | _ :: _ => mret (filename_flag manager :: recursive_flag manager)
         | [] => match set_option (km_resource manager) with
                 | None => fail_json none
                 | Some r => mret (selection manager r ++ fl)
                 end
         end;
    _execute run_command exn_str manager ([verb] ++ tg).

Lemma removal_target verb none fl s :
  verb ∈ ["delete"; "stop"]%string → extra_flags fl →
  ∃ cs, ran ((tg ← match km_filename manager with
         | _ :: _ => mret (filename_flag manager :: recursive_flag manager)
         | [] => match set_option (km_resource manager) with
                 | None => fail_json none
                 | Some r => mret (selection manager r ++ fl)
                 end
         end;
    _execute run_command exn_str manager ([verb] ++ tg)) s).2 = ran s ++ cs ∧
  match target with
  | None => cs = []
  | Some t => ∃ c, cs = [c] ∧ removal_cmd t c
  end.
Proof.
  intros Hv Hfl. rewrite /target.
  assert (extra_flags (recursive_flag manager)) as Hrec.
  { rewrite /recursive_flag. destruct (km_recursive manager); set_solver. }
  destruct (km_filename manager) as [|f fs].
  - destruct (set_option (km_resource manager)) as [r|].
    + eexists. erewrite bind_ret by reflexivity. split; [apply execute_ran|].
      eexists. split; [done|]. by exists verb, fl.
    + exists []. split; [symmetry; apply app_nil_r|done].
  - eexists. erewrite bind_ret by reflexivity. split; [apply execute_ran|].
    eexists. split; [done|]. by exists verb, (recursive_flag manager).
Qed.

Lemma removal_trace verb none fl s :
  verb ∈ ["delete"; "stop"]%string → extra_flags fl → km_force manager = false →
  ∃ cs, ran (removal verb none fl s).2 = ran s ++ cs ∧
    match target with
    | None => cs = []
    | Some t => ∃ get, lookup_cmd t get ∧
        (cs = [get] ∨
         ∃ c out err, cs = [get; c] ∧ removal_cmd t c ∧
           run_command (ran s) get = Ret (0%Z, out, err) ∧ splitlines out ≠ [])
    end.
Proof.
  intros Hv Hfl Hforce. rewrite /removal Hforce. pose proof (exists_run s) as Hex.
  pose proof (λ s, removal_target verb none fl s Hv Hfl) as Htg.
  destruct target as [t|].
  - destruct Hex as (get & Hget & Hex). cbv zeta in Hex.
    destruct (run_command (ran s) get) as [[[rc out] err]|e| |] eqn:Hrun.
    2-4: exists [get]; split; [by rewrite /mbind /M_bind Hex|]; exists get; by split; [|left].
    rewrite (bind_ret _ _ _ _ _ Hex).
    destruct (decide (rc = 0%Z ∧ splitlines out ≠ [])) as [[-> Hout]|Hno].
    + rewrite bool_decide_true //. cbn [negb].
      destruct (Htg (mkModule (ran s ++ [get]) (reported s))) as (cs & Hcs & c & -> & Hc).
      exists [get; c]. split; [by rewrite Hcs -app_assoc|].
      exists get. split; [done|]. right. by exists c, out, err.
    + rewrite bool_decide_false //. exists [get]. split; [done|].
      exists get. by split; [|left].
  - destruct Hex as [msg Hex]. exists []. split; [|done].
    rewrite (bind_raise _ _ _ _ _ Hex). by rewrite app_nil_r.
Qed.

(** C31: run with the [kubectl] given as an option or, by default, with the one that
    [get_bin_path] finds, and without [force], the states [absent] and [stopped]
    remove nothing unless [kubectl get] of the same files, or of the same resource
    with the same name and label, has just succeeded and listed something.  At most
    one removal is run, and nothing at all without files and resource. *)
Theorem removal_guarded s :
  p_state p ∈ ["absent"; "stopped"]%string → p_force p = false →
  ∃ cs, ran (kube s).2 = ran s ++ cs ∧
    match target with
    | None => cs = []
    | Some t => ∃ get, lookup_cmd t get ∧
        (cs = [get] ∨
         ∃ c out err, cs = [get; c] ∧ removal_cmd t c ∧
           run_command (ran s) get = Ret (0%Z, out, err) ∧ splitlines out ≠ [])
    end.
Proof.
  intros Hst Hforce. rewrite kube_run finish_ran /action.
  assert (∀ b fl, extra_flags fl → extra_flags (flag_when b "--all" ++ fl)) as Hall.
  { intros [] fl Hfl; [|done]. rewrite /flag_when. set_solver. }
  set_unfold in Hst. destruct Hst as [->|[->|[]]]; cbn [String.eqb Ascii.eqb Bool.eqb].
  - apply (removal_trace "delete" _ (flag_when (km_all manager) "--all" ++
      flag_when (km_force manager) "--ignore-not-found" ++ recursive_flag manager));
      [set_solver| |done].
    apply Hall. rewrite /= Hforce /= /recursive_flag. destruct (km_recursive manager); set_solver.
  - apply (removal_trace "stop" _ (flag_when (km_all manager) "--all" ++
      flag_when (km_force manager) "--ignore-not-found")); [set_solver| |done].
    apply Hall. rewrite /= Hforce. set_solver.
Qed.

(** *** Reports *)

(** A computation that returns without a report, or fails with one. *)
Definition settles {A} (m : M module_state A) : Prop := ∀ s, ∃ s',
  (∃ a, m s = (Ret a, s') ∧ reported s' = reported s) ∨
  (∃ msg, m s = (Raise (SystemExit 1), s') ∧ reported s' = reported s ++ [Failed msg]).

Lemma settles_ret {A} (a : A) : settles (mret a).
Proof. intros s. exists s. left. by exists a. Qed.

Lemma settles_fail {A} msg : settles (A := A) (fail_json msg).
Proof. intros s. eexists. right. by exists msg. Qed.

Lemma settles_bind {A B} (m : M module_state A) (k : A → M module_state B) :
  settles m → (∀ a, settles (k a)) → settles (m ≫= k).
Proof.
  intros Hm Hk s. destruct (Hm s) as (s1 & [(a & Ha & H1)|(msg & Ha & H1)]).
  - rewrite (bind_ret _ _ _ _ _ Ha). destruct (Hk a s1) as (s2 & [(b & Hb & H2)|(msg & Hb & H2)]);
      exists s2; [left; exists b|right; exists msg]; by rewrite H2 H1.
  - exists s1. right. exists msg. by rewrite (bind_raise _ _ _ _ _ Ha).
Qed.

Context (Hkube : ∀ h c, ∃ r, run_command h c = Ret r).

Lemma settles_run c : settles (run run_command c).
Proof.
  intros s. destruct (Hkube (ran s) c) as [r Hr]. eexists. left. exists r. by rewrite /run Hr.
Qed.

Lemma settles_execute c : settles (_execute run_command exn_str manager c).
Proof.
  apply settles_bind; [|intros; apply settles_ret]. intros s.
  destruct (settles_bind _ (λ r : Z * string * string, let '(rc, out, err) := r in
    if (rc =? 0)%Z then mret out
    else fail_json (kubectl_failed (base_cmd manager ++ c) +:+ " (rc=" +:+ py_str rc +:+
                    "), out='" +:+ out +:+ "', err='" +:+ err +:+ "'"))
    (settles_run (base_cmd manager ++ c))) with s as (s' & [(a & Ha & H1)|(msg & Ha & H1)]).
  - intros [[rc out] err]. destruct (rc =? 0)%Z; [apply settles_ret|apply settles_fail].
  - exists s'. left. exists a. by rewrite /catch Ha.
  - exists s'. right. exists msg. by rewrite /catch Ha.
Qed.

Lemma settles_exists : settles (exists_ run_command manager).
Proof.
  apply settles_bind.
  - destruct (km_filename manager); [|apply settles_ret].
    destruct (set_option _); [apply settles_ret|apply settles_fail].
  - intros tg. apply settles_bind; [|intros; apply settles_ret].
    apply settles_bind; [apply settles_run|]. intros [[rc out] err]. apply settles_ret.
Qed.

Lemma settles_removal verb none fl : settles (removal verb none fl).
Proof.
  apply settles_bind; [destruct (km_force manager); [apply settles_ret|apply settles_exists]|].
  intros []; [|apply settles_ret]. cbn [negb].
  apply settles_bind; [|intros; apply settles_execute].
  destruct (km_filename manager); [|apply settles_ret].
  destruct (set_option _); [apply settles_ret|apply settles_fail].
Qed.

Lemma settles_action : settles action.
Proof.
  assert (∀ msg, settles match km_filename manager with
    | [] => fail_json msg
    | _ => _execute run_command exn_str manager (apply_cmd manager true ++ [filename_flag manager])
    end) as Happly.
  { intros msg. destruct (km_filename manager); [apply settles_fail|apply settles_execute]. }
  rewrite /action.
  destruct (String.eqb (p_state p) "present"); [apply Happly|].
  destruct (String.eqb (p_state p) "absent"); [apply settles_removal|].
  destruct (String.eqb (p_state p) "reloaded"); [apply Happly|].
  destruct (String.eqb (p_state p) "stopped"); [apply settles_removal|].
  destruct (String.eqb (p_state p) "latest"); [apply Happly|apply settles_fail].
Qed.

(** Also: whatever the options, if every [kubectl] command runs to completion then
    the module ends with exactly one report: exit status 0 with a success, or
    exit status 1 with a failure.  A success always says that nothing changed. *)
Theorem kube_reports_once s :
  (∃ msg s', kube_main run_command get_bin_path exn_str AnsibleModule s = (Raise (SystemExit 0), s') ∧
     reported s' = reported s ++ [Exited false msg]) ∨
  (∃ msg s', kube_main run_command get_bin_path exn_str AnsibleModule s = (Raise (SystemExit 1), s') ∧
     reported s' = reported s ++ [Failed msg]).
Proof.
  rewrite kube_run /finish.
  destruct (settles_action s) as (s' & [(l & Hl & H1)|(msg & Hl & H1)]).
  - left. rewrite (bind_ret _ _ _ _ _ Hl). eexists _, _. split; [reflexivity|]. by rewrite /= H1.
  - right. rewrite (bind_raise _ _ _ _ _ Hl). by exists msg, s'.
Qed.

(** Also: [present] does not check existence, as its documentation says, but
    requires a file: the documented example without one fails. *)
Theorem present_needs_filename s :
  p_state p = "present"%string → p_filename p = None →
  kube s = (Raise (SystemExit 1),
            mkModule (ran s) (reported s ++ [Failed "filename required to create"%string])).
Proof.
  intros Hst Hf. rewrite kube_run /finish /action Hst /=. rewrite /create. cbn [manager].
  rewrite /= Hf. reflexivity.
Qed.

End KubeProps.

(** Also: the documented options, with their defaults, choices and aliases, are
    the options of [argument_spec]. *)
Theorem documentation_matches n d ch al :
  (n, d, ch, al) ∈ DOCUMENTATION ↔ ∃ t, mkOption n t d ch al ∈ argument_spec.
Proof. rewrite /DOCUMENTATION /argument_spec /plain_option /flag_option. set_unfold. naive_solver. Qed.

(** *** Instances *)

(** A cluster with one replication controller, that answers every command. *)
Definition nginx_run (h : list (list string)) (c : list string) : outcome (Z * string * string) :=
  if bool_decide ("get"%string ∈ c) then Ret (0%Z, "nginx   1   1"%string, EmptyString)
  else Ret (0%Z, "done"%string, EmptyString).

Definition nginx_params (state : string) (filename : option (list string)) : params :=
  mkParams (Some "nginx"%string) filename None (Some "rc"%string) None None
    (Some "kubectl"%string) false false false 0 state false.

Notation nginx_module state filename :=
  (kube_main nginx_run (λ _ _, raise OSError) (λ _, EmptyString)
     (λ _ _, mret (nginx_params state filename))).

Lemma apply_states_witness :
  ran (nginx_module "latest" (Some ["nginx.yml"]) (mkModule [] [])).2 =
  [["kubectl"; "apply"; "--force"; "--filename=nginx.yml"]]%string.
Proof.
  destruct (apply_states_correct nginx_run (λ _ _, raise OSError) (λ _, EmptyString)
    (λ _ _, mret (nginx_params "latest" (Some ["nginx.yml"%string])))
    (nginx_params "latest" (Some ["nginx.yml"%string])) "kubectl" (or_introl eq_refl) (λ _, eq_refl)
    (mkModule [] []) "nginx.yml" [] 0 "done" EmptyString) as [msg Hm].
  - by apply (bool_decide_unpack _).
  - reflexivity.
  - reflexivity.
  - rewrite Hm. reflexivity.
Defined.

(** The documented use: no option [kubectl]. *)
Definition found_params : params :=
  mkParams (Some "nginx"%string) None None (Some "rc"%string) None None None false false false 0 "absent" false.
Notation found_module :=
  (kube_main nginx_run (λ _ _, mret "/usr/bin/kubectl"%string) (λ _, EmptyString) (λ _ _, mret found_params)).

Lemma removal_guarded_witness :
  ran (found_module (mkModule [] [])).2 =
    [["/usr/bin/kubectl"; "get"; "rc"; "nginx"; "--no-headers"];
     ["/usr/bin/kubectl"; "delete"; "rc"; "nginx"]]%string ∧
  ∃ cs, ran (found_module (mkModule [] [])).2 = [] ++ cs ∧ length cs ≤ 2.
Proof.
  split; [vm_compute; reflexivity|].
  destruct (removal_guarded nginx_run (λ _ _, mret "/usr/bin/kubectl"%string) (λ _, EmptyString)
    (λ _ _, mret found_params) found_params "/usr/bin/kubectl"
    (or_intror (conj eq_refl (λ _, eq_refl))) (λ _, eq_refl) (mkModule [] [])) as (cs & Hcs & get & _ & Hc).
  - by apply (bool_decide_unpack _).
  - reflexivity.
  - exists cs. split; [exact Hcs|]. destruct Hc as [->|(c & out & err & -> & _)]; simpl; lia.
Defined.

Lemma kube_reports_witness :
  (nginx_module "absent" None (mkModule [] [])).1 = Raise (SystemExit 0).
Proof.
  destruct (kube_reports_once nginx_run (λ _ _, raise OSError) (λ _, EmptyString)
    (λ _ _, mret (nginx_params "absent" None)) (nginx_params "absent" None) "kubectl"
    (or_introl eq_refl) (λ _, eq_refl)) with (s := mkModule [] []) as [(msg & s' & Hs & _)|(msg & s' & Hs & _)].
  - intros h c. rewrite /nginx_run. case_bool_decide; by eexists.
  - by rewrite Hs.
  - exfalso. vm_compute in Hs. discriminate Hs.
Defined.
