(* ===== verification/Terraform.v ===== *)
(** * The Terraform inventory (src/kubespray/contrib/terraform/terraform.py)

    The script reads the state files of Terraform and prints an inventory for
    Ansible.  The files and directories are parameters; JSON numbers are
    integers.  A generator is the list of what it yields and how it ends: a
    consumer that stops early does not see its end.  Sets are listed in an order
    that is a parameter, as Python does not fix it; random numbers are a
    sequence. *)

From S2P Require Import Prelude Yaml ArgParse.

(** ** Generators *)

Definition stream (A : Type) : Type := list A * outcome unit.

(** A generator that maps another one, skipping some elements. *)
Fixpoint gen_map {A B} (f : A → outcome (option B)) (items : list A) (fin : outcome unit)
  : stream B :=
  match items with
  | [] => ([], fin)
  | x :: items' =>
      match f x with
      | Ret (Some y) => let '(ys, e) := gen_map f items' fin in (y :: ys, e)
      | Ret None => gen_map f items' fin
      | Raise e => ([], Raise e)
      | Blocked => ([], Blocked)
      | OutOfFuel => ([], OutOfFuel)
      end
  end.

(** A loop over a generator to its end. *)
Definition gen_fold {A B} (g : stream A) (acc : B) (f : B → A → outcome B) : outcome B :=
  r ← ofold g.1 acc f; _ ← g.2; Ret r.

(** ** State files *)

Definition VERSION : string := "0.4.0pre".

(** [os.path.splitext(name)[-1]] for a name without slashes: the text from the
    last dot on, unless only dots come before it. *)
Fixpoint last_dot (s : string) : option (string * string) :=
  match s with
  | EmptyString => None
  | String c r =>
      match last_dot r with
      | Some (a, b) => Some (String c a, b)
      | None => if Ascii.eqb c "." then Some (EmptyString, s) else None
      end
  end.

Fixpoint only_dots (s : string) : bool :=
  match s with EmptyString => true | String c r => Ascii.eqb c "." && only_dots r end.

Definition extension (name : string) : string :=
  match last_dot name with
  | Some (a, ext) => if only_dots a then EmptyString else ext
  | None => EmptyString
  end.

(** [os.walk] gives directories with their files. *)
Definition tfstates (os_walk : string → list (string * list string)) (getcwd : string)
    (root : option string) : list string :=
  let root := match root with Some (String _ _ as r) => r | _ => getcwd end in
  os_walk root ≫= λ d, os_path_join d.1 <$> filter (λ n, extension n = ".tfstate"%string) d.2.

(** What a run of the script changes: the random numbers it drew, and the
    resources [iterresources] yielded. *)
Record tf_state : Type := mkTf {
  draws : nat;
  yielded : list (yaml * string * yaml)
}.

Section Resources.
Variable random : nat → Z.
Notation W := (M tf_state).

Definition randint : W Z := λ s, (Ret (random (draws s)), mkTf (S (draws s)) (yielded s)).
Definition yield (r : yaml * string * yaml) : W unit :=
  modify (λ s, mkTf (draws s) (yielded s ++ [r])).

Fixpoint convert_to_v3_structure (attributes : yaml) (prefix : string)
  : W (list (string * yaml)) :=
  match attributes with
  | YStr s => i ← randint; mret [(prefix +:+ py_str i, YStr s)]
  | YMap m =>
      (fix items (m : list (string * yaml)) (result : list (string * yaml)) :=
         match m with
         | [] => mret result
         | (key, value) :: m' =>
             result ←
               match value with
               | YList l =>
                   (fix elements (l : list yaml) (i : nat) (result : list (string * yaml)) :=
                      match l with
                      | [] => mret result
                      | v :: l' =>
                          d ← convert_to_v3_structure v
                                (prefix +:+ key +:+ "." +:+ py_str (Z.of_nat i) +:+ ".");
                          elements l' (S i) (dupdate result d)
                      end) l 0
                     (match l with
                      | [] => result
                      | _ => dset (prefix +:+ key +:+ ".#") (YInt (Z.of_nat (length l))) result
                      end)
               | YMap d =>
                   mret (foldl (λ r kv, dset (prefix +:+ key +:+ "." +:+ kv.1) kv.2 r)
                           (dset (prefix +:+ key +:+ ".%") (YInt (Z.of_nat (length d))) result) d)
               | v => mret (dset (prefix +:+ key) v result)
               end;
             items m' result
         end) m []
  | _ => raise AttributeError
  end.

(** [module['path'][-1]] *)
Definition yaml_last (y : yaml) : outcome yaml :=
  match y with
  | YList l => py_last l
  | YStr s => c ← py_last (str_chars s); Ret (YStr c)
  | YMap _ => Raise KeyError
  | _ => Raise TypeError
  end.

(** The resources of a module in version 3. *)
Definition v3_module (md : yaml) : W unit :=
  path ← lift (yaml_get "path" md);
  name ← lift (yaml_last path);
  resources ← lift (yaml_get "resources" md);
  items ← lift (yaml_items resources);
  for_each items (λ kr, yield (name, kr.1, kr.2)).

(** An instance of a resource in version 4, as version 3 describes it. *)
Definition v4_instance (name : string) (resource inst : yaml) : W unit :=
  type ← lift (yaml_get "type" resource);
  rname ← lift (yaml_get "name" resource);
  let key := yaml_str type +:+ "." +:+ yaml_str rname in
  indexed ← lift (yaml_in "index_key" inst);
  key ← (if (indexed : bool)
         then i ← lift (yaml_get "index_key" inst); mret (key +:+ "." +:+ yaml_str i)
         else mret key);
  provider ← lift (yaml_get "provider" resource);
  depends ← lift (yaml_get_or "depends_on" (YList []) inst);
  attributes ← lift (yaml_get "attributes" inst);
  converted ← convert_to_v3_structure attributes EmptyString;
  has_id ← lift (yaml_in "id" attributes);
  id ← (if (has_id : bool)
        then i ← lift (yaml_get "id" attributes); mret [("id"%string, i)]
        else mret []);
  meta ← lift (yaml_get_or "meta" (YMap []) attributes);
  yield (YStr name, key,
    YMap [("type", type); ("provider", provider); ("depends_on", depends);
          ("primary", YMap ([("attributes", YMap converted)] ++ id ++ [("meta", meta)]))]%string).

Definition v4_resource (resource : yaml) : W unit :=
  provider ← lift (yaml_get "provider" resource);
  provider ← lift (as_string AttributeError provider);
  name ← lift (py_last (py_split "." provider));
  instances ← lift (yaml_get "instances" resource);
  instances ← lift (yaml_iter instances);
  for_each instances (v4_instance name resource).

(** The files, by name. *)
Variable open_json : string → yaml_file.

Definition iter_file (filename : string) : W unit :=
  state ← match open_json filename with
          | YamlMissing => raise OSError
          | YamlInvalid => raise ValueError
          | YamlDoc d => mret d
          end;
  tf_version ← lift (yaml_get "version" state);
  match tf_version with
  | YInt 3 =>
      modules ← lift (yaml_get "modules" state);
      modules ← lift (yaml_iter modules);
      for_each modules v3_module
  | YInt 4 =>
      resources ← lift (yaml_get "resources" state);
      resources ← lift (yaml_iter resources);
      for_each resources v4_resource
  | YInt _ | YBool _ => raise KeyError
  | _ => raise TypeError
  end.

Definition iterresources (filenames : list string) : W unit := for_each filenames iter_file.

End Resources.

(** ** Hosts *)

(** The attributes of a host. *)
Notation attributes := (list (string * yaml)).
(** A host: its name, its attributes and its groups. *)
Notation host := (yaml * attributes * list yaml)%type.

(** [\w] (in ASCII), an underscore or a hyphen. *)
Definition dc_char (c : ascii) : bool :=
  is_digit c || is_alpha c || Ascii.eqb c "_" || Ascii.eqb c "-".

Definition _clean_dc (dcname : string) : string :=
  string_of_list_ascii ((λ c, if dc_char c then c else "-"%char) <$> list_ascii_of_string dcname).

(** [key.split('.', 1)] into two variables. *)
Definition split_key (key : string) : outcome (string * string) :=
  match py_split1 "." key with Some r => Ret r | None => Raise ValueError end.

Definition _parse_prefix (source : attributes) (prefix : string) (sep : ascii) : attributes :=
  omap (λ kv,
    match py_split1 sep kv.1 with
    | Some (curprefix, rest) =>
        if negb (String.eqb curprefix prefix) || String.eqb rest "#" then None
        else Some (rest, kv.2)
    | None => None
    end) source.

(** [attrs[idx][key] = value] in a dictionary of dictionaries. *)
Definition set_nested (d : list (string * attributes)) (idx key : string) (v : yaml)
  : list (string * attributes) := dset idx (dset key v (default [] (dget idx d))) d.

Definition parse_attr_list (source : attributes) (prefix : string) (sep : ascii)
  : outcome (list yaml) :=
  attrs ← ofold (_parse_prefix source prefix sep) [] (λ attrs kv,
    match py_split1 sep kv.1 with
    | Some (idx, key) => Ret (set_nested attrs idx key kv.2)
    | None => Raise ValueError
    end);
  Ret (YMap <$> attrs.*2).

Definition parse_dict (source : attributes) (prefix : string) (sep : ascii) : attributes :=
  dupdate [] (_parse_prefix source prefix sep).

Definition parse_list (source : attributes) (prefix : string) (sep : ascii) : list yaml :=
  (_parse_prefix source prefix sep).*2.

Definition parse_bool (string_form : yaml) : outcome bool :=
  match string_form with
  | YBool b => Ret b
  | YStr s =>
      match py_lower s with
      | EmptyString => Raise IndexError
      | String c _ =>
          if Ascii.eqb c "t" then Ret true
          else if Ascii.eqb c "f" then Ret false
          else Raise ValueError
      end
  | _ => Raise AttributeError
  end.

Definition yaml_is (y : yaml) (s : string) : bool :=
  match y with YStr s' => String.eqb s' s | _ => false end.

(** [resource['primary']['attributes']], a dictionary. *)
Definition raw_attributes (resource : yaml) : outcome yaml :=
  p ← yaml_get "primary" resource; yaml_get "attributes" p.

Definition packet_device (resource : yaml) : outcome host :=
  raw_attrs ← raw_attributes resource;
  name ← yaml_get "hostname" raw_attrs;
  id ← yaml_get "id" raw_attrs;
  source ← yaml_items raw_attrs;
  hostname ← yaml_get "hostname" raw_attrs;
  operating_system ← yaml_get "operating_system" raw_attrs;
  locked ← yaml_get "locked" raw_attrs;
  locked ← parse_bool locked;
  let tags := parse_list source "tags" "." in
  plan ← yaml_get "plan" raw_attrs;
  project_id ← yaml_get "project_id" raw_attrs;
  state ← yaml_get "state" raw_attrs;
  address0 ← yaml_get "network.0.address" raw_attrs;
  address1 ← yaml_get "network.1.address" raw_attrs;
  address2 ← yaml_get "network.2.address" raw_attrs;
  let attrs :=
    [("id", id);
     ("facilities", YList (parse_list source "facilities" "."));
     ("hostname", hostname);
     ("operating_system", operating_system);
     ("locked", YBool locked);
     ("tags", YList tags);
     ("plan", plan);
     ("project_id", project_id);
     ("state", state);
     ("ansible_ssh_host", address0);
     ("ansible_ssh_user", YStr "root");
     ("ipv4_address", address0);
     ("public_ipv4", address0);
     ("ipv6_address", address1);
     ("public_ipv6", address1);
     ("private_ipv4", address2);
     ("provider", YStr "packet")]%string in
  let attrs := if yaml_is operating_system "flatcar_stable"
               then dset "ansible_ssh_user"%string (YStr "core") attrs else attrs in
  os ← as_string TypeError operating_system;
  st ← as_string TypeError state;
  pl ← as_string TypeError plan;
  Ret (name, attrs,
       (YStr <$> ["packet_operating_system=" +:+ os;
                  "packet_locked=" +:+ yaml_str (YBool locked);
                  "packet_state=" +:+ st;
                  "packet_plan=" +:+ pl]) ++ tags).

(** The second of the two definitions of this name, the one in force. *)
Definition openstack_floating_ips (resource : yaml) : outcome (yaml * yaml) :=
  raw_attrs ← raw_attributes resource;
  i ← yaml_get "instance_id" raw_attrs;
  ip ← yaml_get "floating_ip" raw_attrs;
  Ret (i, ip).

(** [re.sub("[\[\]]", "", s)] *)
Definition strip_brackets (s : string) : string :=
  string_of_list_ascii (filter (λ c, c ≠ "["%char ∧ c ≠ "]"%char) (list_ascii_of_string s)).

(** [re.search("^volume.*.device$", key)]: the dots match no line feed, the end
    may come before a last one. *)
Definition volume_device (key : string) : bool :=
  let key := if py_endswith newline key then substring 0 (String.length key - 1) key else key in
  py_startswith "volume" key && py_endswith "device" key &&
  Nat.ltb 12 (String.length key) && negb (str_has "010" key).

(** [int(v)] *)
Definition yaml_int (v : yaml) : outcome Z :=
  match v with
  | YInt z => Ret z
  | YBool b => Ret (if b then 1 else 0)%Z
  | YStr s => py_int s
  | _ => Raise TypeError
  end.

(** The volumes of a host, numbered in the order of the attributes. *)
Definition volume_devices (source attrs : attributes) : attributes :=
  (foldl (λ acc kv,
     if volume_device kv.1
     then (dset ("disk_volume_device_" +:+ py_str acc.2) kv.2 acc.1, (acc.2 + 1)%Z)
     else acc) (attrs, 1%Z) source).1.

(** Where Ansible reaches the host. *)
Definition ssh_attributes (raw_attrs access_ip_v4 access_ip_v6 : yaml) : outcome attributes :=
  let attempt :=
    prefer ← yaml_in "metadata.prefer_ipv6" raw_attrs;
    prefer ← (if (prefer : bool)
              then v ← yaml_get "metadata.prefer_ipv6" raw_attrs; Ret (yaml_is v "1")
              else Ret false);
    if (prefer : bool)
    then ip ← as_string TypeError access_ip_v6;
         Ret [("ansible_ssh_host", YStr (strip_brackets ip)); ("publicly_routable", YBool true)]%string
    else Ret [("ansible_ssh_host", access_ip_v4); ("publicly_routable", YBool true)]%string in
  match attempt with
  | Raise KeyError | Raise ValueError =>
      Ret [("ansible_ssh_host", YStr EmptyString); ("publicly_routable", YBool false)]%string
  | r => r
  end.

(** The attributes that do not depend on a condition. *)
Definition openstack_attributes (raw_attrs : yaml) : outcome attributes :=
  access_ip_v4 ← yaml_get "access_ip_v4" raw_attrs;
  access_ip_v6 ← yaml_get "access_ip_v6" raw_attrs;
  ip ← yaml_get "network.0.fixed_ip_v4" raw_attrs;
  source ← yaml_items raw_attrs;
  id ← yaml_get "id" raw_attrs;
  key_pair ← yaml_get "key_pair" raw_attrs;
  network ← parse_attr_list source "network" ".";
  region ← yaml_get_or "region" (YStr EmptyString) raw_attrs;
  Ret [("access_ip_v4", access_ip_v4);
       ("access_ip_v6", access_ip_v6);
       ("access_ip", access_ip_v4);
       ("ip", ip);
       ("flavor", YMap (parse_dict source "flavor" "_"));
       ("id", id);
       ("image", YMap (parse_dict source "image" "_"));
       ("key_pair", key_pair);
       ("metadata", YMap (parse_dict source "metadata" "."));
       ("network", YList network);
       ("region", region);
       ("security_groups", YList (parse_list source "security_groups" "."));
       ("ansible_ssh_port", YInt 22);
       ("host_domain", YStr "novalocal");
       ("use_host_domain", YBool true);
       ("public_ipv4", access_ip_v4);
       ("private_ipv4", access_ip_v4);
       ("provider", YStr "openstack")]%string.

(** The groups that the attributes give. *)
Definition openstack_groups (attrs : attributes) : outcome (list yaml) :=
  image ← py_getitem attrs "image"%string;
  image_id ← yaml_get "id" image;
  flavor ← py_getitem attrs "flavor"%string;
  flavor_name ← yaml_get "name" flavor;
  metadata ← py_getitem attrs "metadata"%string;
  items ← yaml_items metadata;
  region ← py_getitem attrs "region"%string;
  groups ← yaml_get_or "kubespray_groups" (YStr EmptyString) metadata;
  groups ← as_string AttributeError groups;
  Ret (YStr <$> ["os_image=" +:+ yaml_str image_id; "os_flavor=" +:+ yaml_str flavor_name] ++
       ((λ kv, "os_metadata_" +:+ kv.1 +:+ "=" +:+ yaml_str kv.2) <$> items) ++
       ["os_region=" +:+ yaml_str region] ++ py_split "," groups).

Definition openstack_host (resource : yaml) : outcome host :=
  raw_attrs ← raw_attributes resource;
  name ← yaml_get "name" raw_attrs;
  attrs ← openstack_attributes raw_attrs;
  source ← yaml_items raw_attrs;
  fixed_ip ← yaml_get "network.0.fixed_ip_v4" raw_attrs;
  let attrs := if dmem "floating_ip"%string source
               then dset "private_ipv4"%string fixed_ip attrs else attrs in
  access_ip_v4 ← yaml_get "access_ip_v4" raw_attrs;
  access_ip_v6 ← yaml_get "access_ip_v6" raw_attrs;
  ssh ← ssh_attributes raw_attrs access_ip_v4 access_ip_v6;
  let attrs := dupdate attrs ssh in
  let attrs := match dget "metadata.ssh_user"%string source with
               | Some u => dset "ansible_ssh_user"%string u attrs
               | None => attrs
               end in
  attrs ← match dget "volume.#"%string source with
          | Some v => n ← yaml_int v;
                      Ret (if (0 <? n)%Z then volume_devices source attrs else attrs)
          | None => Ret attrs
          end;
  metadata ← py_getitem attrs "metadata"%string;
  role ← yaml_get_or "role" (YStr "none") metadata;
  let attrs := dset "role"%string role attrs in
  groups ← openstack_groups attrs;
  Ret (name, attrs, groups).

Definition calculate_mantl_vars (func : yaml → outcome host) (resource : yaml) : outcome host :=
  h ← func resource;
  let '(name, attrs, groups) := h in
  let control := yaml_is (default (YStr EmptyString) (dget "role"%string attrs)) "control" in
  let attrs := dset "consul_is_server"%string (YBool control) attrs in
  let public := yaml_true (default (YBool false) (dget "publicly_routable"%string attrs)) in
  Ret (name, attrs, if public then groups ++ [YStr "publicly_routable"] else groups).

(** The parsers that [parses] registers, by type of resource. *)
Definition PARSERS : list (string * (yaml → outcome host)) :=
  [("packet_device", packet_device);
   ("openstack_compute_instance_v2", calculate_mantl_vars openstack_host)]%string.

Definition iterhosts (resources : stream (yaml * string * yaml)) : stream host :=
  gen_map (λ r,
    tn ← split_key r.1.2;
    match dget tn.1 PARSERS with
    | None => Ret None
    | Some parser => h ← parser r.2; Ret (Some h)
    end) resources.1 resources.2.

Definition iterips (resources : stream (yaml * string * yaml)) : stream (yaml * yaml) :=
  gen_map (λ r,
    tn ← split_key r.1.2;
    if String.eqb tn.1 "openstack_compute_floatingip_associate_v2"
    then i ← openstack_floating_ips r.2; Ret (Some i)
    else Ret None) resources.1 resources.2.

(** [dict(ips)] *)
Definition ips_dict (ips : stream (yaml * yaml)) : outcome (list (pykey * yaml)) :=
  gen_fold ips [] (λ d ip, k ← as_key ip.1; Ret (dset k ip.2 d)).

Definition host_ips (ips : list (pykey * yaml)) (h : host) : outcome host :=
  let '(name, attrs, groups) := h in
  host_id ← py_getitem attrs "id"%string;
  k ← as_key host_id;
  let attrs := match dget k ips with
               | Some ip => dupdate attrs [("access_ip_v4", ip); ("access_ip", ip);
                                           ("public_ipv4", ip); ("ansible_ssh_host", ip)]%string
               | None => attrs
               end in
  metadata ← py_getitem attrs "metadata"%string;
  use ← yaml_in "use_access_ip" metadata;
  no_access ← (if (use : bool)
               then v ← yaml_get "use_access_ip" metadata; Ret (yaml_is v "0")
               else Ret false);
  attrs ← (if (no_access : bool)
           then if dmem "access_ip"%string attrs then Ret (ddel "access_ip"%string attrs)
                else Raise KeyError
           else Ret attrs);
  Ret (name, attrs, groups).

Definition iter_host_ips (hosts : stream host) (ips : list (pykey * yaml)) : stream host :=
  gen_map (λ h, h' ← host_ips ips h; Ret (Some h')) hosts.1 hosts.2.

(** ** Queries *)

(** Stops at the first host of that name: what comes later is not read. *)
Fixpoint query_host (hosts : list host) (fin : outcome unit) (target : string)
  : outcome attributes :=
  match hosts with
  | [] => _ ← fin; Ret []
  | (name, attrs, _) :: hosts' =>
      if yaml_is name target then Ret attrs else query_host hosts' fin target
  end.

(** What [--list] prints for a key: the hosts of a group, or the variables of
    all hosts. *)
Inductive group_entry : Type :=
| GroupHosts (names : list yaml)
| HostVars (vars : list (pykey * attributes)).

(** [not group]: an empty name stands for all hosts. *)
Definition group_name (k : pykey) : pykey :=
  match k with
  | KNone | KInt 0 | KStr EmptyString => KStr "all"
  | _ => k
  end.

Definition add_to_group (groups : list (pykey * list yaml)) (name : yaml) (k : pykey)
  : list (pykey * list yaml) :=
  let g := group_name k in
  dset g (default [] (dget g groups) ++ [name]) groups.

Section Queries.
(** The elements of [set(l)], in the order of iteration. *)
Variable set_iter : list pykey → list pykey.

Definition list_host (acc : list (pykey * list yaml) * list (pykey * attributes)) (h : host)
  : outcome (list (pykey * list yaml) * list (pykey * attributes)) :=
  let '(name, attrs, hostgroups) := h in
  ks ← omap_each hostgroups as_key;
  let groups := foldl (λ gs k, add_to_group gs name k) acc.1 (set_iter ks) in
  n ← as_key name;
  Ret (groups, dset n attrs acc.2).

Definition query_list (hosts : stream host) : outcome (list (pykey * group_entry)) :=
  r ← gen_fold hosts ([], []) list_host;
  Ret (dset (KStr "_meta") (HostVars r.2) (prod_map id GroupHosts <$> r.1)).

(** [s.ljust(n)] *)
Definition py_ljust (n : nat) (s : string) : string :=
  s +:+ string_of_list_ascii (replicate (n - length (str_chars s)) " "%char).

Definition tab : string := String "009" EmptyString.

Definition query_hostfile (hosts : stream host) : outcome string :=
  lines ← gen_fold hosts [] (λ out h,
    let '(name, attrs, _) := h in
    v ← py_getitem attrs "ansible_ssh_host"%string;
    ip ← as_string AttributeError v;
    Ret (out ++ [py_ljust 16 ip +:+ tab +:+ yaml_str name]));
  Ret (py_join newline (["## begin hosts generated by terraform.py ##"%string] ++ lines ++
                        ["## end hosts generated by terraform.py ##"%string])).

(** ** The main program *)

(** What is printed: text, or a value as JSON, indented or not. *)
Inductive tf_output : Type :=
| OutText (s : string)
| OutList (l : list (pykey * group_entry)) (pretty : bool)
| OutHost (attrs : attributes) (pretty : bool).

Record tf_world : Type := mkTfWorld {
  tf_draws : nat;
  tf_printed : list tf_output
}.

Variable random : nat → Z.
Variable open_json : string → yaml_file.
Variable os_walk : string → list (string * list string).
Variables (file getcwd parent : string).
Notation W := (M tf_world).

(** [iterresources(tfstates(root))]: what it yields and how it ends. *)
Definition read_resources (root : option string) : W (stream (yaml * string * yaml)) := λ w,
  let '(o, s) := iterresources random open_json (tfstates os_walk getcwd root)
                   (mkTf (tf_draws w) []) in
  (Ret (yielded s, o), mkTfWorld (draws s) (tf_printed w)).

Definition tf_print (o : tf_output) : W unit :=
  modify (λ w, mkTfWorld (tf_draws w) (tf_printed w ++ [o])).

Definition tf_parser (env : list (string * string)) : arg_parser :=
  let flag (name : string) := mkArg ["--" +:+ name] name AStoreTrue false (ABool false) false in
  mkParser
    [flag "list";
     mkArg ["--host"] "host" AStore false ANone false;
     flag "version"; flag "hostfile"; flag "pretty"; flag "nometa";
     mkArg ["--root"] "root" AStore false
       (AStr (default parent (dget "TERRAFORM_STATE_ROOT"%string env))) false]%string
    ["list"; "host"; "version"; "hostfile"]%string.

Definition terraform_main (env : list (string * string)) (argv : list string) : W unit :=
  args ← lift (parse_args (tf_parser env) argv);
  if arg_bool args "version" then
    tf_print (OutText (file +:+ " " +:+ VERSION)) ;; raise (SystemExit 0)
  else
    root ← lift (arg_str args "root");
    (* the hosts are read when they are consumed, after the addresses *)
    resources ← read_resources root;
    ips ← lift (ips_dict (iterips resources));
    resources ← read_resources root;
    let hosts := iterhosts resources in
    let hosts := match ips with [] => hosts | _ => iter_host_ips hosts ips end in
    target ← lift (arg_str args "host");
    (if arg_bool args "list" then
       output ← lift (query_list hosts);
       let output := if arg_bool args "nometa" then ddel (KStr "_meta") output else output in
       tf_print (OutList output (arg_bool args "pretty"))
     else
       match target with
       | Some (String _ _ as t) =>
           output ← lift (query_host hosts.1 hosts.2 t);
           tf_print (OutHost output (arg_bool args "pretty"))
       | _ =>
           if arg_bool args "hostfile"
           then output ← lift (query_hostfile hosts); tf_print (OutText output)
           else mret tt
       end) ;;
    raise (SystemExit 0).

End Queries.
