(* ===== verification/Datetime.v ===== *)
(** * Dates and times

    The part of Python's [datetime] that the cleanup scripts use: dates of the
    Gregorian calendar, times in microseconds, offsets from UTC, and the formats
    that [fromisoformat] and [strptime] document. *)

From S2P Require Import Prelude.

#[local] Open Scope Z_scope.

(** ** Calendar *)

Definition is_leap (y : Z) : bool :=
  (y mod 4 =? 0) && (negb (y mod 100 =? 0) || (y mod 400 =? 0)).

Definition days_in_month (y m : Z) : Z :=
  if m =? 2 then (if is_leap y then 29 else 28)
  else if bool_decide (m ∈ [4; 6; 9; 11]) then 30 else 31.

(** The days before the first of January of the year [y], from year 1 on. *)
Definition days_before_year (y : Z) : Z :=
  let p := y - 1 in p * 365 + p / 4 - p / 100 + p / 400.

Definition days_before_month (y m : Z) : Z :=
  foldr Z.add 0 (days_in_month y <$> ((λ i, Z.of_nat i + 1) <$> seq 0 (Z.to_nat (m - 1)))).

Definition MINYEAR : Z := 1.
Definition MAXYEAR : Z := 9999.
Definition day_micros : Z := 86400000000.

(** A date with a time of the day in microseconds; without an offset it is
    naive. *)
Record datetime : Type := mkDatetime {
  dt_year : Z;
  dt_month : Z;
  dt_day : Z;
  dt_time : Z;
  dt_offset : option Z
}.

Definition date_ok (y m d : Z) : bool :=
  (MINYEAR <=? y) && (y <=? MAXYEAR) && (1 <=? m) && (m <=? 12) &&
  (1 <=? d) && (d <=? days_in_month y m).

(** The microseconds since the beginning of year 1, as the clock shows them. *)
Definition wall_clock (t : datetime) : Z :=
  (days_before_year (dt_year t) + days_before_month (dt_year t) (dt_month t) + dt_day t - 1)
    * day_micros + dt_time t.

Definition instant (t : datetime) : Z := wall_clock t - default 0 (dt_offset t).

(** [now - timedelta]: a point in time that [datetime] can represent. *)
Definition time_before (now delta : Z) : outcome Z :=
  let t := now - delta in
  if (0 <=? t) && (t <? days_before_year (MAXYEAR + 1) * day_micros) then Ret t
  else Raise OverflowError.

(** ** Texts *)

Definition digit_value (c : ascii) : Z := Z.of_N (N_of_ascii c) - 48.

(** Exactly [n] digits. *)
Fixpoint digits (n : nat) (acc : Z) (s : string) : option (Z * string) :=
  match n, s with
  | O, _ => Some (acc, s)
  | S n', String c s' => if is_digit c then digits n' (acc * 10 + digit_value c) s' else None
  | S _, EmptyString => None
  end.

Definition number (n : nat) (s : string) : option (Z * string) := digits n 0 s.

(** A given character. *)
Definition expect (c : ascii) (s : string) : option string :=
  match s with String c' s' => if Ascii.eqb c c' then Some s' else None | EmptyString => None end.

(** [HH[:MM[:SS[.fff[fff]]]]], in microseconds, up to the end or an offset. *)
Definition at_offset (s : string) : bool :=
  match s with EmptyString => true | String c _ => Ascii.eqb c "+" || Ascii.eqb c "-" end.

Definition iso_fraction (s : string) : option (Z * string) :=
  if at_offset s then Some (0, s)
  else
    s ← expect "." s;
    match number 6 s with
    | Some (f, r) => Some (f, r)
    | None => '(f, r) ← number 3 s; Some (f * 1000, r)
    end.

Definition iso_seconds (s : string) : option (Z * string) :=
  if at_offset s then Some (0, s)
  else
    s ← expect ":" s;
    '(sec, s) ← number 2 s;
    if sec <? 60 then '(f, r) ← iso_fraction s; Some (sec * 1000000 + f, r) else None.

Definition iso_time (s : string) : option (Z * string) :=
  '(h, s) ← number 2 s;
  if negb (h <? 24) then None
  else if at_offset s then Some (h * 3600000000, s)
  else
    s ← expect ":" s;
    '(m, s) ← number 2 s;
    if negb (m <? 60) then None
    else '(sec, r) ← iso_seconds s; Some (h * 3600000000 + m * 60000000 + sec, r).

(** [+HH:MM[:SS[.ffffff]]] or nothing. *)
Definition iso_offset (s : string) : option (option Z) :=
  match s with
  | EmptyString => Some None
  | String c r =>
      '(h, r) ← number 2 r;
      r ← expect ":" r;
      '(m, r) ← number 2 r;
      '(sec, r) ← match r with EmptyString => Some (0, r) | _ => iso_seconds r end;
      if (h <? 24) && (m <? 60) && String.eqb r EmptyString
      then let off := h * 3600000000 + m * 60000000 + sec in
           Some (Some (if Ascii.eqb c "-" then - off else off))
      else None
  end.

Definition iso_parts (s : string) : option datetime :=
  '(y, s) ← number 4 s; s ← expect "-" s;
  '(m, s) ← number 2 s; s ← expect "-" s;
  '(d, s) ← number 2 s;
  if negb (date_ok y m d) then None
  else match s with
       | EmptyString => Some (mkDatetime y m d 0 None)
       | String _ s =>
           '(t, s) ← iso_time s;
           off ← iso_offset s;
           Some (mkDatetime y m d t off)
       end.

(** [datetime.fromisoformat(s)] *)
Definition fromisoformat (s : string) : outcome datetime :=
  match iso_parts s with Some t => Ret t | None => Raise ValueError end.

(** A field of [strptime]: one or two digits. *)
Definition short_number (s : string) : option (Z * string) :=
  match number 2 s with Some r => Some r | None => number 1 s end.

(** The day may have a space for its first digit. *)
Definition short_day (s : string) : option (Z * string) :=
  match s with String " " r => number 1 r | _ => short_number s end.

Definition letter (c : ascii) (s : string) : option string :=
  match s with
  | String c' s' => if Ascii.eqb (lower_char c) (lower_char c') then Some s' else None
  | EmptyString => None
  end.

(** [strptime(s, '%Y-%m-%dT%H:%M:%SZ')] *)
Definition strptime_parts (s : string) : option datetime :=
  '(y, s) ← number 4 s; s ← expect "-" s;
  '(m, s) ← short_number s; s ← expect "-" s;
  '(d, s) ← short_day s; s ← letter "T" s;
  '(h, s) ← short_number s; s ← expect ":" s;
  '(mi, s) ← short_number s; s ← expect ":" s;
  '(sec, s) ← short_number s; s ← letter "Z" s;
  if date_ok y m d && (h <? 24) && (mi <? 60) && (sec <? 60) && String.eqb s EmptyString
  then Some (mkDatetime y m d ((h * 3600 + mi * 60 + sec) * 1000000) None)
  else None.

Definition strptime (s : string) : outcome datetime :=
  match strptime_parts s with Some t => Ret t | None => Raise ValueError end.

(** [n] digits, with zeros in front. *)
Definition padded (n : nat) (z : Z) : string :=
  let s := py_str z in
  string_of_list_ascii (replicate (n - String.length s) "0"%char) +:+ s.

(** [t.date().isoformat()] *)
Definition date_isoformat (t : datetime) : string :=
  padded 4 (dt_year t) +:+ "-" +:+ padded 2 (dt_month t) +:+ "-" +:+ padded 2 (dt_day t).
