(* ===== verification/Cleanup.v ===== *)
(** * The cleanup scripts

    src/kubespray/scripts/gitlab-branch-cleanup/main.py deletes old branches of a
    GitLab project, src/kubespray/scripts/openstack-cleanup/main.py old resources
    of an OpenStack project.  The two services and the clocks are parameters. *)

From S2P Require Import Prelude ArgParse Datetime.

(** ** GitLab branches *)

Module Gitlab.

Record branch : Type := mkBranch {
  b_name : string;
  b_protected : bool;
  b_default : bool;
  b_created_at : string
}.

Record gl_state : Type := mkGl {
  gl_printed : list string;
  gl_deleted : list string
}.

Definition gitlab_parser : arg_parser :=
  mkParser
    [mkArg ["--api"] "api" AStore false (AStr "https://gitlab.com/") false;
     mkArg ["--age"] "age" AStore true (AInt 30) false;
     mkArg ["--prefix"] "prefix" AStore false (AStr "pr-") false;
     mkArg ["--dry-run"] "dry_run" AStoreTrue false (ABool false) false;
     mkArg [] "project" AStore false ANone true]%string [].

Section Script.
(** The time in UTC, the branches of a project as the service lists them for a
    server, a token and a project, and the answer to a deletion. *)
Variable now : Z.
Variable branches : string → string → string → outcome (list branch).
Variable delete_branch : string → outcome unit.
Notation W := (M gl_state).

Definition gl_print (line : string) : W unit :=
  modify (λ s, mkGl (gl_printed s ++ [line]) (gl_deleted s)).

(** [b.delete()] *)
Definition gl_delete (name : string) : W unit :=
  lift (delete_branch name) ;; modify (λ s, mkGl (gl_printed s) (gl_deleted s ++ [name])).

(** [date < limit] with an aware [limit]. *)
Definition older (date : datetime) (limit : Z) : outcome bool :=
  match dt_offset date with
  | Some _ => Ret (instant date <? limit)%Z
  | None => Raise TypeError
  end.

Definition clean_branch (limit : Z) (prefix : string) (dry_run : bool) (b : branch) : W unit :=
  date ← lift (fromisoformat (b_created_at b));
  old ← lift (older date limit);
  if old && negb (b_protected b) && negb (b_default b) && py_startswith prefix (b_name b) then
    gl_print ("Deleting branch " +:+ b_name b +:+ " from " +:+ date_isoformat date +:+ " ...") ;;
    (if dry_run then mret tt else gl_delete (b_name b))
  else mret tt.

Definition gitlab_main (env : list (string * string)) (argv : list string) : W unit :=
  args ← lift (parse_args gitlab_parser argv);
  age ← lift (arg_int args "age");
  limit ← lift (time_before now (default 0%Z age * day_micros));
  match dget "GITLAB_API_TOKEN"%string env with
  | None | Some EmptyString =>
      gl_print "Environment variable GITLAB_API_TOKEN is required." ;; raise (SystemExit 2)
  | Some token =>
      api ← lift (arg_str args "api");
      project ← lift (arg_str args "project");
      prefix ← lift (arg_str args "prefix");
      bs ← lift (branches (default EmptyString api) token (default EmptyString project));
      for_each bs (clean_branch limit (default EmptyString prefix) (arg_bool args "dry_run"))
  end.

End Script.
End Gitlab.

(** ** OpenStack resources *)

Module Openstack.

Inductive kind : Type := Server | SecurityGroup | Port | Subnet | Network.

#[export] Instance kind_eq_dec : EqDecision kind.
Proof. solve_decision. Defined.

Record item : Type := mkItem {
  i_id : string;
  i_name : string;
  i_created_at : string;
  i_is_router_external : bool
}.

Record os_state : Type := mkOs {
  os_printed : list string;
  os_slept : Z;
  os_deleted : list (kind * string)
}.

Definition PAUSE_SECONDS : Z := 5.

Definition openstack_parser : arg_parser :=
  mkParser
    [mkArg ["-v"; "--verbose"] "verbose" AStoreTrue false (ABool false) false;
     mkArg ["--hours"] "hours" AStore true (AInt 4) false;
     mkArg ["--dry-run"] "dry_run" AStoreTrue false (ABool false) false]%string [].

Section Script.
(** The local time, what the cloud lists of each kind after some deletions, and
    the answer to a deletion. *)
Variable now : Z.
Variable items : kind → list (kind * string) → outcome (list item).
Variable delete_item : kind → string → outcome unit.
Notation W := (M os_state).

Definition os_print (line : string) : W unit :=
  modify (λ s, mkOs (os_printed s ++ [line]) (os_slept s) (os_deleted s)).
Definition sleep (seconds : Z) : W unit :=
  modify (λ s, mkOs (os_printed s) (os_slept s + seconds)%Z (os_deleted s)).

(** [conn....delete_...(item)] *)
Definition os_delete (k : kind) (i : item) : W unit :=
  lift (delete_item k (i_id i)) ;;
  modify (λ s, mkOs (os_printed s) (os_slept s) (os_deleted s ++ [(k, i_id i)])).

(** [conn....()] *)
Definition list_items (k : kind) : W (list item) := s ← get_state; lift (items k (os_deleted s)).

Definition fn_if_old (oldest_allowed : Z) (dry_run : bool) (fn : item → W unit) (i : item) : W unit :=
  created_at ← lift (strptime (i_created_at i));
  if String.eqb (i_name i) "default" then mret tt
  else if (wall_clock created_at <? oldest_allowed)%Z then
    os_print ("Will delete " +:+ i_name i +:+ " (" +:+ i_id i +:+ ")") ;;
    (if dry_run then mret tt else fn i)
  else mret tt.

Definition map_if_old (oldest_allowed : Z) (dry_run : bool) (fn : item → W unit) (l : list item)
  : W unit := for_each l (fn_if_old oldest_allowed dry_run fn).

Definition clean_kind (oldest_allowed : Z) (dry_run : bool) (k : kind) (title : string) : W unit :=
  os_print title ;;
  l ← list_items k;
  map_if_old oldest_allowed dry_run (os_delete k) l.

(** [main], with the module's [args] and [oldest_allowed]. *)
Definition openstack_body (oldest_allowed : Z) (dry_run : bool) : W unit :=
  (if dry_run then os_print "Running in dry-run mode"
   else os_print "This will delete resources... (ctrl+c to cancel)" ;; sleep PAUSE_SECONDS) ;;
  clean_kind oldest_allowed dry_run Server "Servers..." ;;
  clean_kind oldest_allowed dry_run SecurityGroup "Security groups..." ;;
  clean_kind oldest_allowed dry_run Port "Ports..." ;;
  clean_kind oldest_allowed dry_run Subnet "Subnets..." ;;
  os_print "Networks..." ;;
  l ← list_items Network;
  for_each l (λ n,
    if i_is_router_external n then mret tt
    else fn_if_old oldest_allowed dry_run (os_delete Network) n).

Definition hour_micros : Z := 3600000000.

Definition openstack_main (argv : list string) : W unit :=
  args ← lift (parse_args openstack_parser argv);
  hours ← lift (arg_int args "hours");
  oldest_allowed ← lift (time_before now (default 0%Z hours * hour_micros));
  openstack_body oldest_allowed (arg_bool args "dry_run").

End Script.
End Openstack.
