(* ===== verification/CleanupProps.v ===== *)
(** * Properties of the cleanup scripts

    What is deleted is old and not protected, and a dry run deletes nothing,
    whatever the services answer. *)

From S2P Require Import Prelude ArgParse Datetime Cleanup.

(** ** GitLab branches *)

Section GitlabProps.
Import Gitlab.
Context (now : Z) (branches : string → string → string → outcome (list branch)).
Context (delete_branch : string → outcome unit).

(** A branch to delete: committed before the limit, neither protected nor the
    default branch, and named like a pull request. *)
Definition eligible (limit : Z) (prefix : string) (b : branch) : Prop :=
  (∃ date off, fromisoformat (b_created_at b) = Ret date ∧ dt_offset date = Some off ∧
     (instant date < limit)%Z) ∧
  b_protected b = false ∧ b_default b = false ∧ py_startswith prefix (b_name b) = true.

#[local] Instance eligible_dec limit prefix b : Decision (eligible limit prefix b).
Proof.
  rewrite /eligible. apply and_dec; [|apply _].
  destruct (fromisoformat (b_created_at b)) as [date| | |]; [|right; naive_solver..].
  destruct (dt_offset date) as [off|] eqn:Hoff; [|right; naive_solver].
  destruct (decide (instant date < limit)%Z); [left; eauto|right; naive_solver].
Defined.

(** One branch: what it deletes, and all of it when nothing is raised. *)
Lemma clean_branch_run limit prefix dry_run b s :
  let r := clean_branch delete_branch limit prefix dry_run b s in
  (gl_deleted r.2 = gl_deleted s ∧
   (r.1 = Ret tt → dry_run = true ∨ ¬ eligible limit prefix b)) ∨
  (gl_deleted r.2 = gl_deleted s ++ [b_name b] ∧ dry_run = false ∧ eligible limit prefix b).
Proof.
  rewrite /clean_branch /eligible /older /=.
  destruct (fromisoformat (b_created_at b)) as [date|e| |] eqn:Hd; [|left; naive_solver..].
  erewrite bind_ret by reflexivity.
  destruct (dt_offset date) as [off|] eqn:Hoff; [|left; naive_solver].
  erewrite bind_ret by reflexivity.
  destruct (Z.ltb_spec (instant date) limit) as [Hlt|Hge]; cbn [andb];
    [|left; split; [done|]; intros _; right; intros ((d & o & ? & ? & ?) & _); simplify_eq; lia].
  destruct (b_protected b) eqn:Hp; cbn [andb negb]; [left; naive_solver|].
  destruct (b_default b) eqn:Hdf; cbn [andb negb]; [left; naive_solver|].
  destruct (py_startswith prefix (b_name b)) eqn:Hpre; [|left; naive_solver].
  erewrite bind_ret by reflexivity. destruct dry_run; [left; naive_solver|].
  rewrite /gl_delete /mbind /M_bind /lift /=.
  destruct (delete_branch (b_name b)) as [[]|e| |]; [|left; naive_solver..].
  right. split; [done|]. split; [done|]. split; [|done]. by exists date, off.
Qed.

Lemma clean_branches_run limit prefix dry_run bs s :
  let r := for_each bs (clean_branch delete_branch limit prefix dry_run) s in
  ∃ bs', gl_deleted r.2 = gl_deleted s ++ (b_name <$> bs') ∧
    bs' `sublist_of` filter (eligible limit prefix) bs ∧
    (dry_run = true → bs' = []) ∧
    (r.1 = Ret tt → dry_run = false → bs' = filter (eligible limit prefix) bs).
Proof.
  revert s. induction bs as [|b bs IH]; intros s; cbn zeta in *.
  { exists []. by rewrite app_nil_r. }
  cbn [for_each]. rewrite /mbind /M_bind filter_cons.
  pose proof (clean_branch_run limit prefix dry_run b s) as Hb. cbn zeta in Hb.
  destruct (clean_branch delete_branch limit prefix dry_run b s) as [[[]|e| |] s1]; simpl in Hb.
  2-4: destruct Hb as [[Hb _]|(Hb & -> & He)];
    [exists []; rewrite app_nil_r; split; [done|]; split; [apply sublist_nil_l|done]|].
  2-4: exists [b]; split; [done|]; rewrite decide_True //; split; [|done];
    apply sublist_skip, sublist_nil_l.
  destruct (IH s1) as (bs' & Hbs & Hsub & Hdry & Hall).
  destruct Hb as [[Hb Hno]|(Hb & -> & He)].
  - exists bs'. rewrite Hbs Hb. split; [done|]. specialize (Hno eq_refl).
    destruct (decide (eligible limit prefix b)) as [He|He].
    + destruct Hno as [->|]; [|done]. split; [by apply sublist_cons|]. split; [done|done].
    + split; [done|]. by split.
  - exists (b :: bs'). rewrite Hbs Hb -app_assoc decide_True //. split; [done|].
    split; [by apply sublist_skip|]. split; [done|]. intros Hr _. f_equal. by apply Hall.
Qed.

(** C32: the script deletes only branches that are older than the given age,
    unprotected, not the default branch, and carry the prefix, each at most once
    and in order, even when it stops at an error; in a dry run it deletes none.
    When it ends without an error it has deleted all of them. *)
Theorem gitlab_cleanup_correct env argv args token age prefix limit bs s :
  parse_args gitlab_parser argv = Ret args →
  arg_int args "age" = Ret (Some age) → arg_str args "prefix" = Ret (Some prefix) →
  time_before now (age * day_micros) = Ret limit →
  dget "GITLAB_API_TOKEN"%string env = Some token → token ≠ EmptyString →
  (∀ api project, branches api token project = Ret bs) →
  let r := gitlab_main now branches delete_branch env argv s in
  ∃ bs', gl_deleted r.2 = gl_deleted s ++ (b_name <$> bs') ∧
    bs' `sublist_of` filter (eligible limit prefix) bs ∧
    (arg_bool args "dry_run" = true → bs' = []) ∧
    (r.1 = Ret tt → arg_bool args "dry_run" = false → bs' = filter (eligible limit prefix) bs).
Proof.
  intros Hargs Hage Hprefix Hlimit Htoken Hne Hbs. rewrite /gitlab_main Hargs.
  erewrite bind_ret by reflexivity. rewrite Hage. erewrite bind_ret by reflexivity.
  cbn [default from_option id]. rewrite Hlimit. erewrite bind_ret by reflexivity. rewrite Htoken.
  destruct token as [|c token]; [done|].
  destruct (arg_str args "api") as [api| | |] eqn:Hapi.
  2-4: exists []; rewrite app_nil_r; split; [done|]; split; [apply sublist_nil_l|done].
  erewrite bind_ret by reflexivity.
  destruct (arg_str args "project") as [project| | |] eqn:Hproject.
  2-4: exists []; rewrite app_nil_r; split; [done|]; split; [apply sublist_nil_l|done].
  erewrite bind_ret by reflexivity. rewrite Hprefix. erewrite bind_ret by reflexivity.
  rewrite Hbs. erewrite bind_ret by reflexivity. apply clean_branches_run.
Qed.
End GitlabProps.

(** The first of March 2022, noon, UTC; an old and a protected branch. *)
Definition sample_now : Z := wall_clock (mkDatetime 2022 3 1 (12 * 3600000000) None).
Definition sample_branches : list Gitlab.branch :=
  [Gitlab.mkBranch "pr-1" false false "2021-12-24T10:00:00.000+01:00";
   Gitlab.mkBranch "pr-2" true false "2021-12-24T10:00:00.000+01:00";
   Gitlab.mkBranch "pr-3" false false "2022-02-28T10:00:00.000+01:00"].

Lemma gitlab_cleanup_witness :
  Gitlab.gl_deleted (Gitlab.gitlab_main sample_now (λ _ _ _, Ret sample_branches) (λ _, Ret tt)
    [("GITLAB_API_TOKEN", "t")]%string ["group/project"]%string (Gitlab.mkGl [] [])).2 =
    ["pr-1"]%string ∧
  ∃ bs', Gitlab.gl_deleted (Gitlab.gitlab_main sample_now (λ _ _ _, Ret sample_branches) (λ _, Ret tt)
    [("GITLAB_API_TOKEN", "t")]%string ["group/project"]%string (Gitlab.mkGl [] [])).2 =
    [] ++ (Gitlab.b_name <$> bs').
Proof.
  split; [vm_compute; reflexivity|].
  destruct (parse_args Gitlab.gitlab_parser ["group/project"]%string) as [args| | |] eqn:Hargs;
    [|by vm_compute in Hargs..].
  destruct (gitlab_cleanup_correct sample_now (λ _ _ _, Ret sample_branches) (λ _, Ret tt)
    [("GITLAB_API_TOKEN", "t")]%string ["group/project"]%string args "t" 30 "pr-"
    (sample_now - 30 * day_micros)%Z sample_branches (Gitlab.mkGl [] [])) as (bs' & Hbs & _).
  - exact Hargs.
  - vm_compute in Hargs. by injection Hargs as <-.
  - vm_compute in Hargs. by injection Hargs as <-.
  - vm_compute. reflexivity.
  - reflexivity.
  - done.
  - done.
  - by exists bs'.
Defined.

(** ** OpenStack resources *)

Section OpenstackProps.
Import Openstack.
Context (now : Z) (items : kind → list (kind * string) → outcome (list item)).
Context (delete_item : kind → string → outcome unit).

(** A resource that may go: one that the cloud listed, not named [default],
    created before the limit, and no external network. *)
Definition deletable (limit : Z) (dry_run : bool) (e : kind * string) : Prop :=
  dry_run = false ∧
  ∃ h l i t, items e.1 h = Ret l ∧ i ∈ l ∧ e.2 = i_id i ∧ i_name i ≠ "default"%string ∧
    strptime (i_created_at i) = Ret t ∧ (wall_clock t < limit)%Z ∧
    (e.1 = Network → i_is_router_external i = false).

Lemma print_appends P line : appends os_deleted P (os_print line).
Proof. by apply appends_same. Qed.

Lemma fn_if_old_appends limit dry_run k h l i :
  items k h = Ret l → i ∈ l → (k = Network → i_is_router_external i = false) →
  appends os_deleted (deletable limit dry_run) (fn_if_old limit dry_run (os_delete delete_item k) i).
Proof.
  intros Hl Hi Hext. apply appends_bind; [auto with logs|].
  intros s t Ht. simpl in Ht. destruct (String.eqb_spec (i_name i) "default"); [auto with logs|].
  destruct (Z.ltb_spec (wall_clock t) limit); [|auto with logs].
  apply appends_bind; [apply print_appends|]. intros _ _ _. destruct dry_run; [auto with logs|].
  apply appends_bind; [auto with logs|]. intros _ _ _.
  apply (appends_modify _ _ _ [(k, i_id i)]); [done|]. constructor; [|constructor].
  split; [done|]. by exists h, l, i, t.
Qed.

Lemma list_items_ret k s l :
  (list_items items k s).1 = Ret l → ∃ h, items k h = Ret l.
Proof. intros H. by exists (os_deleted s). Qed.

Lemma clean_kind_appends limit dry_run k title :
  k ≠ Network →
  appends os_deleted (deletable limit dry_run)
    (clean_kind items delete_item limit dry_run k title).
Proof.
  intros Hk. apply appends_bind; [apply print_appends|]. intros _ _ _.
  apply appends_bind; [by apply appends_same|]. intros s l [h Hl]%list_items_ret.
  apply appends_for_each. intros i Hi. by eapply fn_if_old_appends.
Qed.

Lemma openstack_body_appends limit dry_run :
  appends os_deleted (deletable limit dry_run) (openstack_body items delete_item limit dry_run).
Proof.
  apply appends_bind; [destruct dry_run; by apply appends_same|]. intros _ _ _.
  do 4 (apply appends_bind; [by apply clean_kind_appends|]; intros _ _ _).
  apply appends_bind; [apply print_appends|]. intros _ _ _.
  apply appends_bind; [by apply appends_same|]. intros s l [h Hl]%list_items_ret.
  apply appends_for_each. intros i Hi. destruct (i_is_router_external i) eqn:Hext; [auto with logs|].
  by eapply fn_if_old_appends.
Qed.

(** C33: whatever the cloud lists and answers, and even when it stops at an error,
    the script deletes only resources that the cloud listed, that are not named
    [default], whose creation time, as the script compares it, lies before its
    clock minus [--hours], and that are not external networks; a dry run deletes
    nothing.  The creation time is in UTC and the clock is local, so in some time
    zones fresh resources count as old: [fresh_server_deleted]. *)
Theorem openstack_cleanup_safe argv args hours limit s :
  parse_args openstack_parser argv = Ret args →
  arg_int args "hours" = Ret (Some hours) →
  time_before now (hours * hour_micros) = Ret limit →
  ∃ ds, os_deleted (openstack_main now items delete_item argv s).2 = os_deleted s ++ ds ∧
    Forall (deletable limit (arg_bool args "dry_run")) ds.
Proof.
  intros Hargs Hhours Hlimit. rewrite /openstack_main Hargs. erewrite bind_ret by reflexivity.
  rewrite Hhours. erewrite bind_ret by reflexivity. cbn [default from_option id].
  rewrite Hlimit. erewrite bind_ret by reflexivity. apply openstack_body_appends.
Qed.
End OpenstackProps.

(** A cloud with one server, one external network and the default group. *)
Definition sample_items (k : Openstack.kind) (_ : list (Openstack.kind * string))
  : outcome (list Openstack.item) :=
  Ret match k with
      | Openstack.Server => [Openstack.mkItem "s1" "web" "2022-03-01T12:00:00Z" false]
      | Openstack.SecurityGroup => [Openstack.mkItem "g1" "default" "2021-01-01T00:00:00Z" false]
      | Openstack.Network => [Openstack.mkItem "n1" "public" "2021-01-01T00:00:00Z" true]
      | _ => []
      end.

Notation sample_run now argv :=
  (Openstack.openstack_main now sample_items (λ _ _, Ret tt) argv (Openstack.mkOs [] 0 [])).

Lemma openstack_cleanup_witness :
  Openstack.os_deleted (sample_run (sample_now + 5 * Openstack.hour_micros)%Z ["--hours"; "3"]%string).2
    = [(Openstack.Server, "s1"%string)] ∧
  ∃ ds, Openstack.os_deleted
      (sample_run (sample_now + 5 * Openstack.hour_micros)%Z ["--hours"; "3"]%string).2 = [] ++ ds ∧
    Forall (λ e, e.1 ≠ Openstack.Network ∨ e.2 ≠ "n1"%string) ds.
Proof.
  split; [vm_compute; reflexivity|].
  destruct (parse_args Openstack.openstack_parser ["--hours"; "3"]%string) as [args| | |] eqn:Hargs;
    [|by vm_compute in Hargs..].
  destruct (openstack_cleanup_safe (sample_now + 5 * Openstack.hour_micros)%Z sample_items
    (λ _ _, Ret tt) ["--hours"; "3"]%string args 3 (sample_now + 2 * Openstack.hour_micros)%Z
    (Openstack.mkOs [] 0 [])) as (ds & Hds & HP).
  - exact Hargs.
  - vm_compute in Hargs. by injection Hargs as <-.
  - vm_compute. reflexivity.
  - exists ds. split; [exact Hds|]. eapply Forall_impl; [exact HP|].
    intros [k x] (_ & h & l & i & t & Hl & Hi & Hx & _ & _ & _ & Hext).
    destruct k; try (left; done). right. simpl in *. injection Hl as <-.
    apply list_elem_of_singleton in Hi as ->. by specialize (Hext eq_refl).
Defined.

(** Also: creation times are in UTC and the script's clock is local.  East of
    Greenwich by more than [--hours], a server is deleted in the moment it is
    created. *)
Theorem fresh_server_deleted :
  Openstack.os_deleted (sample_run (sample_now + 5 * Openstack.hour_micros)%Z []).2 =
  [(Openstack.Server, "s1"%string)].
Proof. vm_compute. reflexivity. Qed.
