(* ===== verification/TerraformProps.v ===== *)
(** * Properties of the Terraform inventory

    State files of version 4 are described as version 3 did, and the attributes
    read back from that description are the ones of the file; the listing has
    every host in its groups. *)

From S2P Require Import Prelude Yaml Terraform.

(** ** Version 4 attributes *)

Section Flatten.
Context (random : nat → Z).
Notation convert := (convert_to_v3_structure random).
Notation dict := (list (string * yaml)).
Implicit Types (m d : list (string * yaml)) (l : list yaml) (p key : string) (s : tf_state).

(** The two loops of the conversion. *)
Definition v3_elements p key : list yaml → nat → dict → M tf_state dict :=
  fix elements l i result :=
    match l with
    | [] => mret result
    | v :: l' =>
        e ← convert v (p +:+ key +:+ "." +:+ py_str (Z.of_nat i) +:+ ".");
        elements l' (S i) (dupdate result e)
    end.

Definition v3_items p : dict → dict → M tf_state dict :=
  fix items m result :=
    match m with
    | [] => mret result
    | (key, value) :: m' =>
        result ←
          match value with
          | YList l =>
              v3_elements p key l 0
                (match l with
                 | [] => result
                 | _ => dset (p +:+ key +:+ ".#") (YInt (Z.of_nat (length l))) result
                 end)
          | YMap d =>
              mret (foldl (λ r kv, dset (p +:+ key +:+ "." +:+ kv.1) kv.2 r)
                      (dset (p +:+ key +:+ ".%") (YInt (Z.of_nat (length d))) result) d)
          | v => mret (dset (p +:+ key) v result)
          end;
        items m' result
    end.

Lemma convert_map p m : convert (YMap m) p = v3_items p m [].
Proof. reflexivity. Qed.

(** Values that are neither lists nor dictionaries. *)
Definition scalar (y : yaml) : Prop :=
  match y with YList _ | YMap _ => False | _ => True end.

(** A dictionary of scalars with distinct keys. *)
Definition flat_dict d : Prop := Forall (λ kv, scalar kv.2) d ∧ NoDup d.*1.

Definition prefixed p d : dict := (λ kv, (p +:+ kv.1, kv.2)) <$> d.

Lemma prefixed_keys p d x : x ∈ (prefixed p d).*1 ↔ ∃ f, f ∈ d.*1 ∧ x = p +:+ f.
Proof.
  rewrite /prefixed -list_fmap_compose list_elem_of_fmap. setoid_rewrite list_elem_of_fmap.
  naive_solver.
Qed.

Lemma prefixed_NoDup p d : NoDup d.*1 → NoDup (prefixed p d).*1.
Proof.
  intros Hd. rewrite /prefixed -list_fmap_compose.
  apply (NoDup_fmap_2 (String.append p)) in Hd. by rewrite -list_fmap_compose in Hd.
Qed.

(** Setting new keys one after the other appends them. *)
Lemma dupdate_new {K V} `{EqDecision K} (r e : list (K * V)) :
  NoDup (r ++ e).*1 → dupdate r e = r ++ e.
Proof.
  revert r. induction e as [|[k v] e IH]; intros r Hnd; [by rewrite app_nil_r|].
  rewrite /dupdate /=. rewrite dset_new.
  - rewrite -/(dupdate (r ++ [(k, v)]) e) IH -?app_assoc //.
  - rewrite fmap_app in Hnd. apply NoDup_app in Hnd as (_ & Hd & _). intros Hin.
    by apply (Hd _ Hin); left.
Qed.

Lemma convert_scalars p d s :
  flat_dict d → convert (YMap d) p s = (Ret (prefixed p d), s).
Proof.
  rewrite convert_map. intros [Hs Hnd].
  assert (∀ r, NoDup (r ++ prefixed p d).*1 →
    v3_items p d r s = (Ret (r ++ prefixed p d), s)) as H.
  { clear Hnd. induction Hs as [|[key v] d Hv Hs IH]; intros r Hnd.
    { by rewrite app_nil_r. }
    cbn [v3_items].
    assert (dset (p +:+ key) v r = r ++ [(p +:+ key, v)]) as Hset.
    { apply dset_new. rewrite fmap_app in Hnd. apply NoDup_app in Hnd as (_ & Hd & _).
      intros Hin. by apply (Hd _ Hin); left. }
    rewrite (bind_ret _ _ s (r ++ [(p +:+ key, v)]) s); [|rewrite -Hset; by destruct v].
    rewrite (IH (r ++ [(p +:+ key, v)])) -?app_assoc //. }
  rewrite (H []) //. by apply prefixed_NoDup.
Qed.

(** The attributes that the conversion covers here: scalars, dictionaries of
    scalars, lists of strings and lists of dictionaries of scalars; names
    without dots. *)
Definition element_ok (v : yaml) : Prop :=
  match v with YStr _ => True | YMap d => flat_dict d | _ => False end.

Definition value_ok (v : yaml) : Prop :=
  match v with
  | YList l => Forall element_ok l
  | YMap d => NoDup d.*1 ∧ "%"%string ∉ d.*1
  | _ => True
  end.

Definition attributes_ok m : Prop :=
  Forall (λ kv, str_has "." kv.1 = false ∧ value_ok kv.2) m ∧ NoDup m.*1.

(** The flat description: the entries of an element, of a value and of all. *)
Definition flat_element p (n : nat) (v : yaml) : dict :=
  match v with
  | YStr x => [(p +:+ py_str (random n), v)]
  | YMap d => prefixed p d
  | _ => []
  end.

Definition next_draw (n : nat) (v : yaml) : nat := match v with YStr _ => S n | _ => n end.

Fixpoint flat_elements key (i n : nat) l : dict :=
  match l with
  | [] => []
  | v :: l' =>
      flat_element (key +:+ "." +:+ py_str (Z.of_nat i) +:+ ".") n v ++
      flat_elements key (S i) (next_draw n v) l'
  end.

Definition flat_value key (n : nat) (v : yaml) : dict :=
  match v with
  | YList [] => []
  | YList l => (key +:+ ".#", YInt (Z.of_nat (length l))) :: flat_elements key 0 n l
  | YMap d => (key +:+ ".%", YInt (Z.of_nat (length d))) :: prefixed (key +:+ ".") d
  | _ => [(key, v)]
  end.

Definition value_draws (n : nat) (v : yaml) : nat :=
  match v with YList l => foldl next_draw n l | _ => n end.

Fixpoint flat_attributes (n : nat) m : dict :=
  match m with
  | [] => []
  | (key, v) :: m' => flat_value key n v ++ flat_attributes (value_draws n v) m'
  end.

(** *** The keys of the description are distinct *)

(** Every key of an element starts with its index. *)
Lemma flat_element_key p n v x : x ∈ (flat_element p n v).*1 → ∃ f, x = p +:+ f.
Proof.
  destruct v; simpl; try by intros ?%elem_of_nil.
  - intros ->%list_elem_of_singleton. by eexists.
  - intros (f & _ & ->)%prefixed_keys. by exists f.
Qed.

Lemma flat_elements_key key i n l x :
  x ∈ (flat_elements key i n l).*1 →
  ∃ j f, i ≤ j ∧ x = key +:+ "." +:+ py_str (Z.of_nat j) +:+ "." +:+ f.
Proof.
  revert i n. induction l as [|v l IH]; intros i n; [by intros ?%elem_of_nil|].
  cbn [flat_elements]. rewrite fmap_app. intros [Hx|Hx]%elem_of_app.
  - apply flat_element_key in Hx as [f ->]. exists i, f. split; [lia|]. by rewrite !str_app_assoc.
  - apply IH in Hx as (j & f & Hj & ->). exists j, f. split; [lia|done].
Qed.

Lemma index_inj i j f g :
  py_str (Z.of_nat i) +:+ "." +:+ f = py_str (Z.of_nat j) +:+ "." +:+ g → i = j ∧ f = g.
Proof.
  intros H. assert (∀ k, str_has "." (py_str (Z.of_nat k)) = false) as Hdot.
  { intros k. by apply str_has_py_str. }
  pose proof (py_split1_app "." _ f (Hdot i)) as Hi. pose proof (py_split1_app "." _ g (Hdot j)) as Hj.
  change (String "." f) with ("." +:+ f) in Hi. change (String "." g) with ("." +:+ g) in Hj.
  rewrite H Hj in Hi. injection Hi as Hs ->. split; [|done].
  pose proof (py_int_py_str (Z.of_nat i)) as E. rewrite -Hs py_int_py_str in E. injection E. lia.
Qed.

Lemma flat_element_NoDup p n v : element_ok v → NoDup (flat_element p n v).*1.
Proof.
  destruct v; simpl; try constructor; try (by intros ?%elem_of_nil); try constructor.
  intros [_ Hd]. by apply prefixed_NoDup.
Qed.

Lemma flat_elements_NoDup key i n l : Forall element_ok l → NoDup (flat_elements key i n l).*1.
Proof.
  intros Hl. revert i n. induction Hl as [|v l Hv _ IH]; intros i n; [constructor|].
  cbn [flat_elements]. rewrite fmap_app. apply NoDup_app.
  split; [by apply flat_element_NoDup|]. split; [|apply IH].
  intros x [f ->]%flat_element_key (j & g & Hj & Hx)%flat_elements_key.
  rewrite !str_app_assoc in Hx. apply (inj (String.append key)) in Hx. injection Hx as Hx.
  apply (index_inj i j f g) in Hx as [-> _]. lia.
Qed.

Lemma index_not_hash i f : py_str (Z.of_nat i) +:+ "." +:+ f ≠ "#"%string.
Proof.
  intros H. assert (str_has "." (py_str (Z.of_nat i) +:+ "." +:+ f) = true) as Hd.
  { by rewrite (str_has_app "." (py_str (Z.of_nat i))) orb_true_r. }
  by rewrite H in Hd.
Qed.

(** The keys of an attribute: its name, or its name, a dot and more. *)
Lemma flat_value_key key n v x :
  x ∈ (flat_value key n v).*1 → x = key ∨ ∃ f, x = key +:+ "." +:+ f.
Proof.
  destruct v as [| | | |[|v l]|d]; simpl; try (by intros ->%list_elem_of_singleton; left).
  - by intros ?%elem_of_nil.
  - intros [->|Hx]%elem_of_cons; [right; by exists "#"%string|].
    apply (flat_elements_key key 0 n (v :: l)) in Hx as (j & f & _ & ->). right. by eexists.
  - intros [->|(f & _ & ->)%prefixed_keys]%elem_of_cons; right; [by exists "%"%string|].
    exists f. by rewrite str_app_assoc.
Qed.

Lemma flat_value_NoDup key n v : value_ok v → NoDup (flat_value key n v).*1.
Proof.
  destruct v as [| | | |[|v l]|d]; simpl; intros Hv; try apply NoDup_singleton; [constructor| |].
  - constructor; [|by apply (flat_elements_NoDup key 0 n (v :: l))].
    intros (j & f & _ & Hx)%(flat_elements_key key 0 n (v :: l)).
    apply (inj (String.append key)) in Hx. injection Hx as Hx. by apply (index_not_hash j f).
  - destruct Hv as [Hd Hp]. constructor; [|by apply prefixed_NoDup].
    intros (f & Hf & Hx)%prefixed_keys. rewrite str_app_assoc in Hx.
    apply (inj (String.append key)) in Hx. injection Hx as Hx.
    change ("%"%string = f) in Hx. by subst.
Qed.

(** The name of the attribute that a key belongs to. *)
Definition key_root (x : string) : string :=
  match py_split1 "." x with Some (a, _) => a | None => x end.

Lemma key_root_value key n v x :
  str_has "." key = false → x ∈ (flat_value key n v).*1 → key_root x = key.
Proof.
  intros Hk [->|[f ->]]%flat_value_key; rewrite /key_root.
  - by rewrite (proj2 (py_split1_None "." key) Hk).
  - by rewrite (py_split1_app "." key f Hk).
Qed.

Lemma key_root_attributes n m x :
  Forall (λ kv, str_has "." kv.1 = false ∧ value_ok kv.2) m →
  x ∈ (flat_attributes n m).*1 → key_root x ∈ m.*1.
Proof.
  intros Hm. revert n. induction Hm as [|[key v] m [Hk Hv] _ IH]; intros n; [by intros ?%elem_of_nil|].
  cbn [flat_attributes]. rewrite fmap_app. intros [Hx|Hx]%elem_of_app.
  - rewrite (key_root_value key n v x Hk Hx). left.
  - right. by eapply IH.
Qed.

Lemma flat_attributes_NoDup n m : attributes_ok m → NoDup (flat_attributes n m).*1.
Proof.
  intros [Hm Hnd]. revert n. induction Hm as [|[key v] m [Hk Hv] Hm IH]; intros n; [constructor|].
  apply NoDup_cons in Hnd as [Hnot Hnd]. cbn [flat_attributes]. rewrite fmap_app.
  apply NoDup_app. split; [by apply flat_value_NoDup|]. split; [|by apply IH].
  intros x Hx Hx'. apply Hnot. rewrite -(key_root_value key n v x Hk Hx).
  by eapply key_root_attributes.
Qed.

(** *** The conversion gives the flat description *)

Definition with_draws (n : nat) s : tf_state := mkTf n (yielded s).

Lemma convert_element p v s :
  element_ok v →
  convert v p s = (Ret (flat_element p (draws s) v), with_draws (next_draw (draws s) v) s).
Proof.
  destruct s as [n ys]. destruct v; try done. intros Hd. by apply convert_scalars.
Qed.

Lemma elements_run key l i r s :
  Forall element_ok l → NoDup (r ++ flat_elements key i (draws s) l).*1 →
  v3_elements EmptyString key l i r s =
  (Ret (r ++ flat_elements key i (draws s) l), with_draws (foldl next_draw (draws s) l) s).
Proof.
  intros Hl. revert i r s. induction Hl as [|v l Hv _ IH]; intros i r s Hnd.
  { rewrite app_nil_r. by destruct s. }
  cbn [v3_elements flat_elements] in *. rewrite (bind_ret _ _ _ _ _ (convert_element _ _ _ Hv)).
  rewrite app_assoc in Hnd. rewrite dupdate_new; last first.
  { rewrite fmap_app in Hnd. by apply NoDup_app in Hnd as (? & _ & _). }
  rewrite (IH (S i)) /=; [by rewrite app_assoc|done].
Qed.

Lemma value_run key v m r s :
  value_ok v → NoDup (r ++ flat_value key (draws s) v).*1 →
  v3_items EmptyString ((key, v) :: m) r s =
  v3_items EmptyString m (r ++ flat_value key (draws s) v)
    (with_draws (value_draws (draws s) v) s).
Proof.
  intros Hv Hnd. cbn [v3_items].
  assert (∀ k x e, NoDup (r ++ (k, x) :: e).*1 → dset k x r = r ++ [(k, x)]) as Hset.
  { intros k x e H. apply dset_new. rewrite fmap_app in H. apply NoDup_app in H as (_ & Hd & _).
    intros Hin. by apply (Hd _ Hin); left. }
  destruct v as [|b|z|t|[|v l]|d]; cbn [flat_value value_ok value_draws] in *.
  1-4: erewrite bind_ret by reflexivity; rewrite str_app_empty (Hset _ _ _ Hnd); by destruct s.
  - erewrite bind_ret by reflexivity. rewrite app_nil_r. by destruct s.
  - rewrite str_app_empty (Hset _ _ _ Hnd). erewrite bind_ret; [|apply (elements_run key (v :: l) 0)].
    + by rewrite -app_assoc.
    + done.
    + by rewrite -app_assoc.
  - erewrite bind_ret by reflexivity. rewrite str_app_empty (Hset _ _ _ Hnd).
    replace (foldl _ _ d) with (dupdate (r ++ [(key +:+ ".%", YInt (Z.of_nat (length d)))])
      (prefixed (key +:+ ".") d)); last first.
    { rewrite /dupdate /prefixed. generalize (r ++ [(key +:+ ".%", YInt (Z.of_nat (length d)))]).
      clear. induction d as [|[f x] d IH]; intros acc; [done|]. simpl. rewrite IH.
      by rewrite str_app_assoc. }
    rewrite dupdate_new -app_assoc //. by destruct s.
Qed.

Lemma items_run m r s :
  Forall (λ kv, str_has "." kv.1 = false ∧ value_ok kv.2) m →
  NoDup (r ++ flat_attributes (draws s) m).*1 →
  ∃ n, v3_items EmptyString m r s = (Ret (r ++ flat_attributes (draws s) m), with_draws n s).
Proof.
  intros Hm. revert r s. induction Hm as [|[key v] m [_ Hv] _ IH]; intros r s Hnd.
  { exists (draws s). rewrite app_nil_r. by destruct s. }
  cbn [flat_attributes] in *. rewrite app_assoc in Hnd.
  rewrite value_run //; last first.
  { rewrite fmap_app in Hnd. by apply NoDup_app in Hnd as (? & _ & _). }
  destruct (IH (r ++ flat_value key (draws s) v) (with_draws (value_draws (draws s) v) s) Hnd)
    as [n Hn]. exists n. by rewrite Hn app_assoc.
Qed.

Lemma convert_run m s :
  attributes_ok m →
  ∃ n, convert (YMap m) EmptyString s = (Ret (flat_attributes (draws s) m), with_draws n s).
Proof.
  intros Hm. rewrite convert_map. apply (items_run m []); [apply Hm|].
  by apply flat_attributes_NoDup.
Qed.

(** *** Reading the flat description *)

Lemma parse_prefix_app (d1 d2 : dict) k c :
  _parse_prefix (d1 ++ d2) k c = _parse_prefix d1 k c ++ _parse_prefix d2 k c.
Proof. apply omap_app. Qed.

Lemma parse_prefix_other d k :
  (∀ x, x ∈ d.*1 → key_root x ≠ k) → _parse_prefix d k "." = [].
Proof.
  induction d as [|[x v] d IH]; intros Hd; [done|]. cbn.
  assert (key_root x ≠ k) as Hx by (apply Hd; left). rewrite /key_root in Hx.
  rewrite /_parse_prefix in IH. rewrite IH; [|intros y Hy; apply Hd; by right].
  destruct (py_split1 "." x) as [[a b]|]; [|done]. by destruct (String.eqb_spec a k).
Qed.

Lemma parse_prefix_own d k :
  str_has "." k = false → "#"%string ∉ d.*1 → _parse_prefix (prefixed (k +:+ ".") d) k "." = d.
Proof.
  intros Hk. induction d as [|[x v] d IH]; intros Hd; [done|].
  rewrite /prefixed fmap_cons. cbn [_parse_prefix omap list_omap fst snd].
  rewrite str_app_assoc. change ("." +:+ x) with (String "." x). rewrite py_split1_app //.
  rewrite String.eqb_refl. destruct (String.eqb_spec x "#") as [->|Hx]; [by destruct Hd; left|].
  cbn. f_equal. apply IH. intros ?. apply Hd. by right.
Qed.

(** The entries of the elements, under their index. *)
Fixpoint index_elements (i n : nat) l : dict :=
  match l with
  | [] => []
  | v :: l' => flat_element (py_str (Z.of_nat i) +:+ ".") n v ++
               index_elements (S i) (next_draw n v) l'
  end.

Lemma prefixed_app p d d' : prefixed p (d ++ d') = prefixed p d ++ prefixed p d'.
Proof. apply fmap_app. Qed.

Lemma flat_element_prefixed p q n v :
  flat_element (p +:+ q) n v = prefixed p (flat_element q n v).
Proof.
  destruct v; try done; simpl; rewrite /prefixed /=.
  - by rewrite str_app_assoc.
  - rewrite -list_fmap_compose. apply list_fmap_ext. intros ? [x v] _. by rewrite /= str_app_assoc.
Qed.

Lemma flat_elements_index key i n l :
  flat_elements key i n l = prefixed (key +:+ ".") (index_elements i n l).
Proof.
  revert i n. induction l as [|v l IH]; intros i n; [done|]. cbn [flat_elements index_elements].
  rewrite prefixed_app -IH -flat_element_prefixed. by rewrite !str_app_assoc.
Qed.

Lemma index_elements_not_hash i n l : "#"%string ∉ (index_elements i n l).*1.
Proof.
  revert i n. induction l as [|v l IH]; intros i n; [by intros ?%elem_of_nil|].
  cbn [index_elements]. rewrite fmap_app. intros [[f Hf]%flat_element_key|Hx]%elem_of_app.
  - rewrite str_app_assoc in Hf. by apply (index_not_hash i f).
  - by eapply IH.
Qed.

Lemma parse_prefix_value key n l :
  str_has "." key = false →
  _parse_prefix (flat_value key n (YList l)) key "." = index_elements 0 n l.
Proof.
  intros Hk. destruct l as [|v l]; [done|]. cbn [flat_value].
  rewrite -(parse_prefix_own (index_elements 0 n (v :: l)) key) -?flat_elements_index //;
    [|apply index_elements_not_hash].
  cbn [_parse_prefix omap list_omap fst snd].
  change (key +:+ ".#") with (key +:+ String "." "#"). by rewrite py_split1_app // String.eqb_refl.
Qed.

(** Only the entries of the attribute itself are read. *)
Lemma parse_prefix_attributes n m key v :
  attributes_ok m → (key, v) ∈ m →
  ∃ n', _parse_prefix (flat_attributes n m) key "." = _parse_prefix (flat_value key n' v) key "." ∧
    flat_value key n' v ⊆ flat_attributes n m.
Proof.
  intros [Hm Hnd]. revert n. induction Hm as [|[key' v'] m [Hk Hv] Hm IH]; intros n;
    [by intros ?%elem_of_nil|].
  apply NoDup_cons in Hnd as [Hnot Hnd]. intros Hin. cbn [flat_attributes].
  rewrite parse_prefix_app. apply elem_of_cons in Hin as [[= -> ->]|Hin].
  - exists n. rewrite (parse_prefix_other (flat_attributes _ m)) ?app_nil_r; [split; [done|set_solver]|].
    intros x Hx Hr. apply Hnot. rewrite -Hr. by eapply key_root_attributes.
  - destruct (IH Hnd (value_draws n v') Hin) as (n' & Heq & Hsub).
    exists n'. rewrite (parse_prefix_other (flat_value key' n v')); [split; [done|set_solver]|].
    intros x Hx. rewrite (key_root_value key' n v' x Hk Hx). intros ->. apply Hnot.
    apply list_elem_of_fmap. by exists (key, v).
Qed.

Lemma dget_last {V} (acc : list (string * V)) k x : k ∉ acc.*1 → dget k (acc ++ [(k, x)]) = Some x.
Proof.
  induction acc as [|[k' x'] acc IH]; intros Hk; simpl; [by rewrite decide_True|].
  rewrite decide_False; [|set_solver]. apply IH. set_solver.
Qed.

Lemma dset_last {V} (acc : list (string * V)) k x y :
  k ∉ acc.*1 → dset k y (acc ++ [(k, x)]) = acc ++ [(k, y)].
Proof.
  induction acc as [|[k' x'] acc IH]; intros Hk; simpl; [by rewrite decide_True|].
  rewrite decide_False; [|set_solver]. f_equal. apply IH. set_solver.
Qed.

(** The step of [parse_attr_list]. *)
Definition attr_step (attrs : list (string * dict)) (kv : string * yaml)
  : outcome (list (string * dict)) :=
  match py_split1 "." kv.1 with
  | Some (idx, key) => Ret (set_nested attrs idx key kv.2)
  | None => Raise ValueError
  end.

Lemma index_str_no_dot i : str_has "." (py_str (Z.of_nat i)) = false.
Proof. by apply str_has_py_str. Qed.

Lemma attr_step_entry acc i f v :
  attr_step acc ((py_str (Z.of_nat i) +:+ ".") +:+ f, v) =
  Ret (set_nested acc (py_str (Z.of_nat i)) f v).
Proof.
  rewrite /attr_step. cbn [fst snd]. rewrite str_app_assoc.
  change ("." +:+ f) with (String "." f). by rewrite py_split1_app; [|apply index_str_no_dot].
Qed.

Lemma attr_steps_more i (acc : list (string * dict)) d d' rest :
  py_str (Z.of_nat i) ∉ acc.*1 → NoDup (d ++ d').*1 →
  ofold (prefixed (py_str (Z.of_nat i) +:+ ".") d' ++ rest)
    (acc ++ [(py_str (Z.of_nat i), d)]) attr_step =
  ofold rest (acc ++ [(py_str (Z.of_nat i), d ++ d')]) attr_step.
Proof.
  intros Hi. revert d. induction d' as [|[f v] d' IH]; intros d Hnd; [by rewrite app_nil_r|].
  rewrite /prefixed fmap_cons -/(prefixed _ d') -app_comm_cons. cbn [ofold].
  rewrite attr_step_entry /set_nested dget_last //=. rewrite dset_last //. rewrite dset_new; last first.
  { rewrite fmap_app in Hnd. apply NoDup_app in Hnd as (_ & Hd & _). intros Hin.
    by apply (Hd _ Hin); left. }
  cbn. rewrite (IH (d ++ [(f, v)])) -?app_assoc //.
Qed.

Lemma attr_steps i (acc : list (string * dict)) d rest :
  py_str (Z.of_nat i) ∉ acc.*1 → NoDup d.*1 → d ≠ [] →
  ofold (prefixed (py_str (Z.of_nat i) +:+ ".") d ++ rest) acc attr_step =
  ofold rest (acc ++ [(py_str (Z.of_nat i), d)]) attr_step.
Proof.
  intros Hi Hnd Hne. destruct d as [|[f v] d]; [done|].
  rewrite -(attr_steps_more i acc [(f, v)] d rest) //.
  rewrite /prefixed fmap_cons -/(prefixed _ d) -app_comm_cons. cbn [ofold].
  rewrite attr_step_entry /set_nested (proj2 (dget_None _ acc) Hi) dset_new //.
Qed.

Lemma py_str_nat_inj i j : py_str (Z.of_nat i) = py_str (Z.of_nat j) → i = j.
Proof.
  intros H. pose proof (py_int_py_str (Z.of_nat i)) as E. rewrite H py_int_py_str in E.
  injection E. lia.
Qed.

Lemma attr_list_elements (ds : list dict) i n (acc : list (string * dict)) :
  Forall (λ d, flat_dict d ∧ d ≠ []) ds →
  (∀ j, i ≤ j → py_str (Z.of_nat j) ∉ acc.*1) →
  ∃ r, ofold (index_elements i n (YMap <$> ds)) acc attr_step = Ret r ∧ r.*2 = acc.*2 ++ ds.
Proof.
  intros Hds. revert i acc. induction Hds as [|d ds [[_ Hd] Hne] _ IH]; intros i acc Hacc.
  { exists acc. by rewrite app_nil_r. }
  rewrite fmap_cons. cbn [index_elements flat_element next_draw].
  rewrite attr_steps //; [|by apply Hacc].
  destruct (IH (S i) (acc ++ [(py_str (Z.of_nat i), d)])) as (r & Hr & Heq).
  - intros j Hj. rewrite fmap_app. intros [Hin|Hin]%elem_of_app.
    + eapply Hacc; [|done]. lia.
    + apply list_elem_of_singleton, py_str_nat_inj in Hin. lia.
  - exists r. split; [done|]. by rewrite Heq fmap_app -app_assoc.
Qed.

Lemma index_elements_strings i n (l : list string) :
  (index_elements i n (YStr <$> l)).*2 = YStr <$> l.
Proof.
  revert i n. induction l as [|x l IH]; intros i n; [done|].
  rewrite fmap_cons. cbn [index_elements flat_element next_draw]. by rewrite fmap_app IH.
Qed.

(** C28: the attributes of a version 4 state file survive the translation to
    version 3 names: scalars are found under their name, and [parse_list],
    [parse_attr_list] read lists of strings and lists of (non-empty)
    dictionaries back as they were.  [parse_dict] gives a dictionary back with
    one entry more, its size under [%]. *)
Theorem v4_attributes_roundtrip m s :
  attributes_ok m →
  ∃ d n, convert (YMap m) EmptyString s = (Ret d, with_draws n s) ∧
    (∀ k v, (k, v) ∈ m → scalar v → dget k d = Some v) ∧
    (∀ k (l : list string), (k, YList (YStr <$> l)) ∈ m → parse_list d k "." = YStr <$> l) ∧
    (∀ k (ds : list dict), (k, YList (YMap <$> ds)) ∈ m → Forall (λ e, e ≠ []) ds →
       parse_attr_list d k "." = Ret (YMap <$> ds)) ∧
    (∀ k e, (k, YMap e) ∈ m → "#"%string ∉ e.*1 →
       parse_dict d k "." = ("%"%string, YInt (Z.of_nat (length e))) :: e).
Proof.
  intros Hm. destruct (convert_run m s Hm) as [n Hn].
  exists (flat_attributes (draws s) m), n. split; [done|].
  assert (∀ k v, (k, v) ∈ m → str_has "." k = false ∧ value_ok v) as Hok.
  { intros k v Hin. destruct Hm as [Hm _]. rewrite Forall_forall in Hm. by apply (Hm (k, v)). }
  pose proof (λ k v, parse_prefix_attributes (draws s) m k v Hm) as Hread.
  split; [|split; [|split]].
  - intros k v Hin Hv. destruct (Hread k v Hin) as (n' & _ & Hsub).
    apply elem_dget; [by apply flat_attributes_NoDup|]. apply Hsub.
    destruct v; try done; apply list_elem_of_singleton; done.
  - intros k l Hin. destruct (Hread k _ Hin) as (n' & Heq & _). destruct (Hok _ _ Hin) as [Hk _].
    by rewrite /parse_list Heq parse_prefix_value // index_elements_strings.
  - intros k ds Hin Hne. destruct (Hread k _ Hin) as (n' & Heq & _).
    destruct (Hok _ _ Hin) as [Hk Hv]. rewrite /parse_attr_list Heq parse_prefix_value //.
    destruct (attr_list_elements ds 0 n' []) as (r & Hr & Heqr).
    + simpl in Hv. rewrite Forall_fmap in Hv. by apply Forall_and.
    + intros j _. by intros ?%elem_of_nil.
    + rewrite -/attr_step Hr /=. by rewrite Heqr.
  - intros k e Hin Hhash. destruct (Hread k _ Hin) as (n' & Heq & _).
    destruct (Hok _ _ Hin) as [Hk [He Hp]]. rewrite /parse_dict Heq. cbn [flat_value].
    assert (∀ v, (k +:+ ".%", v) :: prefixed (k +:+ ".") e =
      prefixed (k +:+ ".") (("%"%string, v) :: e)) as Hcons.
    { intros v. rewrite /prefixed fmap_cons /=. by rewrite str_app_assoc. }
    rewrite Hcons parse_prefix_own //; [|set_solver].
    apply (dupdate_new [] (("%"%string, YInt (Z.of_nat (length e))) :: e)). by constructor.
Qed.

End Flatten.

(** The attributes of a host with two networks, metadata and groups. *)
Definition sample_attributes : list (string * yaml) :=
  [("name", YStr "web"); ("id", YInt 7);
   ("security_groups", YList (YStr <$> ["default"; "ssh"]));
   ("network", YList (YMap <$> [[("name", YStr "a"); ("port", YInt 1)]; [("name", YStr "b")]]));
   ("metadata", YMap [("role", YStr "node")])]%string.

Lemma v4_attributes_witness :
  ∃ d n, convert_to_v3_structure Z.of_nat (YMap sample_attributes) EmptyString (mkTf 0 []) =
      (Ret d, mkTf n []) ∧
    parse_attr_list d "network" "." =
      Ret [YMap [("name", YStr "a"); ("port", YInt 1)]; YMap [("name", YStr "b")]]%string ∧
    parse_dict d "metadata" "." = [("%", YInt 1); ("role", YStr "node")]%string.
Proof.
  destruct (v4_attributes_roundtrip Z.of_nat sample_attributes (mkTf 0 []))
    as (d & n & Hd & _ & _ & Hlist & Hdict).
  - split.
    + repeat constructor; simpl; try done; try (by apply (bool_decide_unpack _)).
    + by apply (bool_decide_unpack _).
  - exists d, n. split; [exact Hd|]. split.
    + apply (Hlist "network"%string [[("name", YStr "a"); ("port", YInt 1)]; [("name", YStr "b")]]%string).
      * do 3 apply list_elem_of_further. apply list_elem_of_here.
      * by repeat constructor.
    + apply (Hdict "metadata"%string [("role"%string, YStr "node")]).
      * do 4 apply list_elem_of_further. apply list_elem_of_here.
      * by apply (bool_decide_unpack _).
Defined.

(** ** The listing *)

Lemma dget_fmap_snd {K V W} `{EqDecision K} (f : V → W) (d : list (K * V)) k :
  dget k (prod_map id f <$> d) = f <$> dget k d.
Proof. induction d as [|[k' v] d IH]; [done|]. simpl. by destruct (decide _). Qed.

Section Listing.
(** The order in which Python lists a set is arbitrary, the elements are not. *)
Context (set_iter : list pykey → list pykey).
Context (Hset : ∀ l, NoDup (set_iter l) ∧ ∀ x, x ∈ set_iter l ↔ x ∈ l).

(** A host with a name and groups that are strings. *)
Record named_host : Type := mkHost {
  h_name : string;
  h_attrs : list (string * yaml);
  h_groups : list string
}.
Definition to_host (h : named_host) : yaml * list (string * yaml) * list yaml :=
  (YStr (h_name h), h_attrs h, YStr <$> h_groups h).

Definition non_empty {A} (l : list A) : option (list A) :=
  match l with [] => None | _ => Some l end.

(** The name under which the hosts of the group [g] have it. *)
Definition own_name (g : string) : string := if String.eqb g "all" then EmptyString else g.

(** The hosts of a group. *)
Definition members (g : string) (hs : list named_host) : list named_host :=
  filter (λ h, own_name g ∈ h_groups h) hs.

Lemma as_keys (gs : list string) : omap_each (YStr <$> gs) as_key = Ret (KStr <$> gs).
Proof. induction gs as [|g gs IH]; [done|]. rewrite !fmap_cons /=. by rewrite IH. Qed.

Lemma add_to_group_get groups name k g l :
  dget g groups = non_empty l →
  dget g (add_to_group groups name k) =
  non_empty (if decide (group_name k = g) then l ++ [name] else l).
Proof.
  intros Hg. rewrite /add_to_group. destruct (decide (group_name k = g)) as [<-|Hne].
  - rewrite dget_dset_eq Hg. by destruct l.
  - by rewrite dget_dset_ne.
Qed.

Lemma add_all_get ks groups name g l :
  dget g groups = non_empty l →
  dget g (foldl (λ gs k, add_to_group gs name k) groups ks) =
  non_empty (l ++ replicate (length (filter (λ k, group_name k = g) ks)) name).
Proof.
  revert groups l. induction ks as [|k ks IH]; intros groups l Hg; [by rewrite app_nil_r|].
  cbn [foldl]. rewrite (IH _ _ (add_to_group_get groups name k g l Hg)) filter_cons.
  destruct (decide (group_name k = g)); [|done]. by rewrite -app_assoc.
Qed.

(** A group without the literal name [all] is entered at most once. *)
Lemma group_name_own g (gs : list string) k :
  g ≠ EmptyString → "all"%string ∉ gs → k ∈ KStr <$> gs →
  group_name k = KStr g ↔ k = KStr (own_name g).
Proof.
  intros Hg Hall (x & -> & Hx)%list_elem_of_fmap. rewrite /own_name.
  destruct (String.eqb_spec g "all") as [->|Hne]; destruct x as [|c x]; cbn [group_name].
  - done.
  - split; [|done]. intros Hc. exfalso. apply Hall. injection Hc as -> ->. done.
  - split; intros [= <-]; done.
  - done.
Qed.

Lemma filter_own g (gs : list string) :
  g ≠ EmptyString → "all"%string ∉ gs →
  length (filter (λ k, group_name k = KStr g) (set_iter (KStr <$> gs))) =
  if decide (own_name g ∈ gs) then 1 else 0.
Proof.
  intros Hg Hall. destruct (Hset (KStr <$> gs)) as [Hnd Hin].
  set (l := filter (λ k, group_name k = KStr g) (set_iter (KStr <$> gs))).
  assert (∀ k, k ∈ l ↔ k = KStr (own_name g) ∧ own_name g ∈ gs) as Hl.
  { intros k. rewrite list_elem_of_filter Hin. split.
    - intros [Hk Hks]. apply (group_name_own g gs k Hg Hall Hks) in Hk as ->. split; [done|].
      apply list_elem_of_fmap in Hks as (x & [= ->] & ?). done.
    - intros [-> Ho]. assert (KStr (own_name g) ∈ KStr <$> gs) as Hks by (by apply list_elem_of_fmap_2).
      split; [|done]. by apply (group_name_own g gs _ Hg Hall). }
  assert (NoDup l) as Hndl by (by apply NoDup_filter).
  destruct l as [|k1 [|k2 l]]; simpl.
  - rewrite decide_False // => Ho.
    pose proof (proj2 (Hl (KStr (own_name g))) (conj eq_refl Ho)) as Hn. by apply elem_of_nil in Hn.
  - rewrite decide_True //. by apply (Hl k1); left.
  - exfalso. apply NoDup_cons in Hndl as [H12 _]. apply H12.
    assert (k1 = KStr (own_name g)) as -> by (apply (Hl k1); left).
    assert (k2 = KStr (own_name g)) as -> by (apply (Hl k2); right; left). left.
Qed.

Lemma list_host_run groups vars h :
  list_host set_iter (groups, vars) (to_host h) =
  Ret (foldl (λ gs k, add_to_group gs (YStr (h_name h)) k) groups (set_iter (KStr <$> h_groups h)),
       dset (KStr (h_name h)) (h_attrs h) vars).
Proof. rewrite /list_host /to_host as_keys. reflexivity. Qed.

(** The loop of [query_list]: what it has listed of the hosts seen. *)
Definition listed (seen : list named_host) (groups : list (pykey * list yaml))
    (vars : list (pykey * list (string * yaml))) : Prop :=
  (∀ g, g ≠ EmptyString →
     dget (KStr g) groups = non_empty (YStr ∘ h_name <$> members g seen)) ∧
  (∀ h, h ∈ seen → dget (KStr (h_name h)) vars = Some (h_attrs h)).

Lemma list_hosts_run seen hs groups vars :
  listed seen groups vars → NoDup (h_name <$> seen ++ hs) →
  Forall (λ h, "all"%string ∉ h_groups h) hs →
  ∃ groups' vars', ofold (to_host <$> hs) (groups, vars) (list_host set_iter) =
      Ret (groups', vars') ∧ listed (seen ++ hs) groups' vars'.
Proof.
  revert seen groups vars. induction hs as [|h hs IH]; intros seen groups vars [Hg Hv] Hnd Hall.
  { exists groups, vars. by rewrite app_nil_r. }
  apply Forall_cons in Hall as [Hh Hall]. rewrite fmap_cons. cbn [ofold]. rewrite list_host_run.
  edestruct (IH (seen ++ [h])) as (groups' & vars' & Hrun & Hlisted).
  3: done.
  3: { exists groups', vars'. split; [exact Hrun|]. by rewrite -app_assoc in Hlisted. }
  2: by rewrite -app_assoc.
  split.
  - intros g Hne. rewrite (add_all_get _ _ _ _ _ (Hg g Hne)) filter_own //.
    rewrite /members filter_app filter_cons filter_nil fmap_app.
    by destruct (decide (own_name g ∈ h_groups h)); rewrite /= ?app_nil_r.
  - intros h' [Hin| ->%list_elem_of_singleton]%elem_of_app; [|by rewrite dget_dset_eq].
    rewrite dget_dset_ne; [by apply Hv|]. intros [= Heq].
    rewrite fmap_app fmap_cons in Hnd. apply NoDup_app in Hnd as (_ & Hd & _).
    apply (Hd (h_name h')); [by apply list_elem_of_fmap_2|]. rewrite Heq. left.
Qed.

(** Also: [--list] puts every host, once and in the order of the state files, in
    each of its groups and in no other, a host of the group without a name in
    [all]; the entry [_meta] has the variables of every host.  (Names are
    distinct and no group is literally called [all].) *)
Theorem query_list_correct hs :
  NoDup (h_name <$> hs) → Forall (λ h, "all"%string ∉ h_groups h) hs →
  ∃ out vars, query_list set_iter (to_host <$> hs, Ret tt) = Ret out ∧
    (∀ g, g ≠ EmptyString → g ≠ "_meta"%string →
       dget (KStr g) out = GroupHosts <$> non_empty (YStr ∘ h_name <$> members g hs)) ∧
    dget (KStr "_meta") out = Some (HostVars vars) ∧
    (∀ h, h ∈ hs → dget (KStr (h_name h)) vars = Some (h_attrs h)).
Proof.
  intros Hnd Hall. destruct (list_hosts_run [] hs [] []) as (groups & vars & Hrun & Hg & Hv);
    [|done|done|].
  { split; [done|]. by intros h ?%elem_of_nil. }
  eexists _, vars. rewrite /query_list /gen_fold Hrun. split; [reflexivity|]. simpl.
  split; [|split; [apply dget_dset_eq|exact Hv]].
  intros g H1 H2. rewrite dget_dset_ne; [|congruence]. by rewrite dget_fmap_snd Hg.
Qed.

End Listing.

Definition sample_hosts : list named_host :=
  [mkHost "a" [("id", YInt 1)] ["etcd"; "os_region=x"; EmptyString];
   mkHost "b" [("id", YInt 2)] ["etcd"; "etcd"; "kube_node"]]%string.

Lemma query_list_witness :
  ∃ out, query_list (λ l, remove_dups l) (to_host <$> sample_hosts, Ret tt) = Ret out ∧
    dget (KStr "etcd") out = Some (GroupHosts [YStr "a"; YStr "b"]) ∧
    dget (KStr "all") out = Some (GroupHosts [YStr "a"]).
Proof.
  destruct (query_list_correct (λ l, remove_dups l)
    (λ l, conj (NoDup_remove_dups l) (λ x, elem_of_remove_dups l x)) sample_hosts)
    as (out & vars & Hrun & Hg & _).
  - by apply (bool_decide_unpack _).
  - by apply (bool_decide_unpack _).
  - exists out. split; [exact Hrun|]. split; rewrite Hg //.
Defined.

(** ** Floating addresses *)

Definition address_fields : list string :=
  ["access_ip_v4"; "access_ip"; "public_ipv4"; "ansible_ssh_host"]%string.

Definition no_access_ip (metadata : list (string * yaml)) : bool :=
  match dget "use_access_ip"%string metadata with Some v => yaml_is v "0" | None => false end.

Lemma address_update (attrs : list (string * yaml)) (ip : yaml) f :
  dget f (dupdate attrs ((λ k, (k, ip)) <$> address_fields)) =
  if decide (f ∈ address_fields) then Some ip else dget f attrs.
Proof.
  destruct (decide (f ∈ address_fields)) as [Hf|Hf].
  - set_unfold in Hf. destruct Hf as [->|[->|[->|[->|[]]]]]; rewrite /dupdate /= !dget_dset; reflexivity.
  - rewrite /dupdate /= !dget_dset_ne //; set_solver.
Qed.

(** Also: a host with a floating address keeps its name, its groups and its other
    attributes, and is reached at that address; a host without one keeps all of
    its addresses.  The access address is dropped when the metadata say so. *)
Theorem host_ips_correct ips name attrs groups id k metadata :
  NoDup attrs.*1 →
  dget "id"%string attrs = Some id → as_key id = Ret k →
  dget "metadata"%string attrs = Some (YMap metadata) → "access_ip"%string ∈ attrs.*1 →
  ∃ attrs', host_ips ips (name, attrs, groups) = Ret (name, attrs', groups) ∧
    (∀ f, f ≠ "access_ip"%string → dget f attrs' =
       if decide (f ∈ address_fields) then from_option Some (dget f attrs) (dget k ips)
       else dget f attrs) ∧
    dget "access_ip"%string attrs' =
      if no_access_ip metadata then None
      else from_option Some (dget "access_ip"%string attrs) (dget k ips).
Proof.
  intros Hnd Hid Hk Hmeta Hacc.
  set (a1 := match dget k ips with
             | Some ip => dupdate attrs ((λ f, (f, ip)) <$> address_fields)
             | None => attrs
             end).
  assert (∀ f, dget f a1 = if decide (f ∈ address_fields)
    then from_option Some (dget f attrs) (dget k ips) else dget f attrs) as Ha1.
  { intros f. rewrite /a1. destruct (dget k ips); [apply address_update|]. by destruct (decide _). }
  assert (dget "access_ip"%string a1 =
    from_option Some (dget "access_ip"%string attrs) (dget k ips)) as Hip by apply Ha1.
  assert (dget "metadata"%string a1 = dget "metadata"%string attrs) as Hmd by apply Ha1.
  assert (NoDup a1.*1) as Hnd1.
  { rewrite /a1. destruct (dget k ips); [by apply dupdate_NoDup|done]. }
  assert (dmem "access_ip"%string a1 = true) as Hmem.
  { rewrite /dmem Hip. destruct (dget k ips); [done|].
    simpl. by apply dget_is_Some in Hacc as [? ->]. }
  exists (if no_access_ip metadata then ddel "access_ip"%string a1 else a1). split.
  - rewrite /host_ips /py_getitem Hid. cbn [mbind outcome_bind]. rewrite Hk.
    cbn [mbind outcome_bind]. change (match dget k ips with Some _ => _ | None => _ end) with a1.
    rewrite Hmd Hmeta. cbn [mbind outcome_bind].
    rewrite /yaml_in /no_access_ip /dmem /yaml_get /py_getitem.
    destruct (dget "use_access_ip"%string metadata) as [v|]; [|done]. cbn [mbind outcome_bind].
    destruct (yaml_is v "0"); [|done]. rewrite /dmem in Hmem. by destruct (dget _ a1).
  - split.
    + intros f Hf. rewrite -Ha1. destruct (no_access_ip metadata); [|done]. by apply dget_ddel_ne.
    + destruct (no_access_ip metadata); [by apply dget_ddel_eq|done].
Qed.

Lemma host_ips_witness :
  ∃ attrs', host_ips [(KStr "i-1", YStr "1.2.3.4")]
      (YStr "web", [("id", YStr "i-1"); ("metadata", YMap []); ("access_ip", YStr "10.0.0.1")]%string, [])
      = Ret (YStr "web", attrs', []) ∧
    dget "access_ip"%string attrs' = Some (YStr "1.2.3.4").
Proof.
  destruct (host_ips_correct [(KStr "i-1", YStr "1.2.3.4")] (YStr "web")
    [("id", YStr "i-1"); ("metadata", YMap []); ("access_ip", YStr "10.0.0.1")]%string []
    (YStr "i-1") (KStr "i-1") []) as (attrs' & Hrun & _ & Ha).
  - by apply (bool_decide_unpack _).
  - reflexivity.
  - reflexivity.
  - reflexivity.
  - by apply (bool_decide_unpack _).
  - exists attrs'. split; [exact Hrun|]. rewrite Ha. reflexivity.
Defined.
