(* ===== verification/Sha256.v ===== *)
(** * SHA-256

    [hashlib.sha256(data).hexdigest()] as FIPS 180-4 defines it: 32-bit words are
    integers kept below [2 ^ 32], the message is a string of bytes. *)

From S2P Require Import Prelude.

#[local] Open Scope Z_scope.

Definition word_size : Z := 2 ^ 32.
Definition wrap (x : Z) : Z := x mod word_size.
Definition wadd (x y : Z) : Z := wrap (x + y).
Definition rotr (n x : Z) : Z := wrap (Z.lor (Z.shiftr x n) (Z.shiftl x (32 - n))).
Definition wnot (x : Z) : Z := word_size - 1 - x.

Definition Ch (x y z : Z) : Z := Z.lxor (Z.land x y) (Z.land (wnot x) z).
Definition Maj (x y z : Z) : Z := Z.lxor (Z.land x y) (Z.lxor (Z.land x z) (Z.land y z)).
Definition Sigma0 (x : Z) : Z := Z.lxor (rotr 2 x) (Z.lxor (rotr 13 x) (rotr 22 x)).
Definition Sigma1 (x : Z) : Z := Z.lxor (rotr 6 x) (Z.lxor (rotr 11 x) (rotr 25 x)).
Definition sigma0 (x : Z) : Z := Z.lxor (rotr 7 x) (Z.lxor (rotr 18 x) (Z.shiftr x 3)).
Definition sigma1 (x : Z) : Z := Z.lxor (rotr 17 x) (Z.lxor (rotr 19 x) (Z.shiftr x 10)).

(** ** Constants

    They are not tables: the standard takes the first 32 bits of the fractional
    parts of the cube and square roots of the first primes. *)

Definition is_prime (n : Z) : bool :=
  forallb (λ d, negb (n mod Z.of_nat d =? 0)) (seq 2 (Z.to_nat (Z.sqrt n) - 1)).

Definition primes : list Z := filter (λ n, is_prime n = true) (Z.of_nat <$> seq 2 310).

(** The largest [r] below [2 ^ n] with [r ^ 3 ≤ x], bit by bit. *)
Fixpoint cube_root (n : nat) (r x : Z) : Z :=
  match n with
  | O => r
  | S n' =>
      let r' := Z.setbit r (Z.of_nat n') in
      cube_root n' (if r' ^ 3 <=? x then r' else r) x
  end.

Definition K256 : list Z := Eval vm_compute in
  (λ p, wrap (cube_root 36 0 (p * 2 ^ 96))) <$> primes.

Record hash_state : Type := mkHash { ha : Z; hb : Z; hc : Z; hd : Z; he : Z; hf : Z; hg : Z; hh : Z }.

Definition H256 : hash_state := Eval vm_compute in
  match (λ p, wrap (Z.sqrt (p * 2 ^ 64))) <$> take 8 primes with
  | [a; b; c; d; e; f; g; h] => mkHash a b c d e f g h
  | _ => mkHash 0 0 0 0 0 0 0 0
  end.

(** ** The message in words *)

Definition bytes_of (s : string) : list Z := (λ c, Z.of_N (N_of_ascii c)) <$> list_ascii_of_string s.

Definition be_bytes (n : nat) (x : Z) : list Z :=
  (λ i, Z.shiftr x (8 * Z.of_nat (n - 1 - i)) mod 256) <$> seq 0 n.

Definition pad (data : list Z) : list Z :=
  let n := Z.of_nat (length data) in
  data ++ [128] ++ replicate (Z.to_nat ((55 - n) mod 64)) 0 ++ be_bytes 8 (8 * n).

Fixpoint words (l : list Z) : list Z :=
  match l with
  | b0 :: b1 :: b2 :: b3 :: l' => (((b0 * 256 + b1) * 256 + b2) * 256 + b3) :: words l'
  | _ => []
  end.

(** Blocks of sixteen words. *)
Fixpoint blocks (n : nat) (l : list Z) : list (list Z) :=
  match n with
  | O => []
  | S n' => take 16 l :: blocks n' (drop 16 l)
  end.

(** ** Compression *)

(** The next word of the schedule, from the sixteen last ones. *)
Definition schedule_word (ws : list Z) : Z :=
  let w i := default 0 (ws !! i) in
  wadd (wadd (sigma1 (w 14%nat)) (w 9%nat)) (wadd (sigma0 (w 1%nat)) (w 0%nat)).

Definition round (st : hash_state) (k w : Z) : hash_state :=
  let t1 := wadd (wadd (wadd (wadd (hh st) (Sigma1 (he st))) (Ch (he st) (hf st) (hg st))) k) w in
  let t2 := wadd (Sigma0 (ha st)) (Maj (ha st) (hb st) (hc st)) in
  mkHash (wadd t1 t2) (ha st) (hb st) (hc st) (wadd (hd st) t1) (he st) (hf st) (hg st).

(** The rounds; [ws] is the window of sixteen words that starts at the current
    one. *)
Fixpoint rounds (ks : list Z) (ws : list Z) (st : hash_state) : hash_state :=
  match ks with
  | [] => st
  | k :: ks' => rounds ks' (drop 1 ws ++ [schedule_word ws]) (round st k (default 0 (head ws)))
  end.

Definition compress (st : hash_state) (block : list Z) : hash_state :=
  let r := rounds K256 block st in
  mkHash (wadd (ha st) (ha r)) (wadd (hb st) (hb r)) (wadd (hc st) (hc r)) (wadd (hd st) (hd r))
         (wadd (he st) (he r)) (wadd (hf st) (hf r)) (wadd (hg st) (hg r)) (wadd (hh st) (hh r)).

Definition digest (data : list Z) : hash_state :=
  let ws := words (pad data) in foldl compress H256 (blocks (length ws / 16) ws).

(** ** The digest in hexadecimal *)

Definition hex_char (x : Z) : ascii :=
  ascii_of_N (Z.to_N (if x <? 10 then x + 48 else x + 87)).

Definition hex_word (x : Z) : string :=
  string_of_list_ascii ((λ i, hex_char (Z.shiftr x (4 * Z.of_nat (7 - i)) mod 16)) <$> seq 0 8).

Definition sha256_hexdigest (data : string) : string :=
  let st := digest (bytes_of data) in
  py_join EmptyString
    (hex_word <$> [ha st; hb st; hc st; hd st; he st; hf st; hg st; hh st]).

(** The published digests of the empty message and of [abc]. *)
Lemma sha256_vectors :
  sha256_hexdigest EmptyString =
    "e3b0c44298fc1c149afbf4c8996fb92427ae41e4649b934ca495991b7852b855"%string ∧
  sha256_hexdigest "abc" =
    "ba7816bf8f01cfea414140de5dae2223b00361a396177a9cb410ff61f20015ad"%string.
Proof. split; vm_compute; reflexivity. Qed.

Lemma hex_char_digit x :
  0 ≤ x < 16 → hex_char x ∈ list_ascii_of_string "0123456789abcdef".
Proof.
  intros Hx. assert (x ∈ Z.of_nat <$> seq 0 16) as Hin.
  { apply list_elem_of_fmap. exists (Z.to_nat x). split; [lia|]. apply elem_of_seq. lia. }
  revert Hin. clear Hx. revert x. apply Forall_forall. repeat constructor.
  all: by apply (bool_decide_unpack _).
Qed.

Lemma list_of_concat (l : list string) :
  list_ascii_of_string (py_join EmptyString l) = concat (list_ascii_of_string <$> l).
Proof.
  rewrite /py_join. assert (∀ a b : string,
    list_ascii_of_string (a +:+ b) = list_ascii_of_string a ++ list_ascii_of_string b) as Happ.
  { induction a as [|c a IH]; intros b; [done|]. rewrite str_app_cons /=. by f_equal. }
  induction l as [|s l IH]; [done|]. destruct l as [|s' l]; [by rewrite /= app_nil_r|].
  change (String.concat EmptyString (s :: s' :: l)) with
    (s +:+ (EmptyString +:+ String.concat EmptyString (s' :: l))).
  by rewrite Happ str_app_empty IH.
Qed.

Lemma list_of_hex_word x :
  length (list_ascii_of_string (hex_word x)) = 8%nat ∧
  Forall (λ c, c ∈ list_ascii_of_string "0123456789abcdef") (list_ascii_of_string (hex_word x)).
Proof.
  rewrite /hex_word list_ascii_of_string_of_list_ascii length_fmap length_seq. split; [done|].
  apply Forall_fmap, Forall_forall. intros i _. apply hex_char_digit. apply Z.mod_pos_bound. lia.
Qed.

(** The digest has sixty-four hexadecimal digits. *)
Lemma sha256_hexdigest_format data :
  length (list_ascii_of_string (sha256_hexdigest data)) = 64%nat ∧
  Forall (λ c, c ∈ list_ascii_of_string "0123456789abcdef")
    (list_ascii_of_string (sha256_hexdigest data)).
Proof.
  rewrite /sha256_hexdigest list_of_concat. generalize (digest (bytes_of data)). intros st.
  cbn [fmap list_fmap concat]. rewrite !length_app. split.
  - by rewrite !(proj1 (list_of_hex_word _)).
  - rewrite !Forall_app. repeat split; try apply list_of_hex_word. constructor.
Qed.
