(* ===== verification/DownloadHash.v ===== *)
(** * The checksum updater (src/kubespray/scripts/download_hash.py)

    For each version it downloads three programs for three architectures and
    records their SHA-256 digests in a YAML file.  The file, the YAML library and
    the web are parameters: the document in the file, and for an address the
    content of the answer or the exception that [get] or [raise_for_status]
    raises. *)

From S2P Require Import Prelude Yaml Sha256.

Definition MAIN_YML : string := "../roles/download/defaults/main.yml".

Record hash_run : Type := mkRun {
  hr_data : yaml;
  hr_written : list (string * yaml);
  hr_printed : list string
}.

Section DownloadHash.
Variable main_yml : yaml_file.
Variable http_get : string → outcome string.
Variable argv0 : string.
Notation W := (M hash_run).

Definition open_main_yaml : outcome yaml :=
  match main_yml with
  | YamlMissing => Raise OSError
  | YamlInvalid => Raise GenericException
  | YamlDoc d => Ret d
  end.

Definition hr_print (line : string) : W unit :=
  modify (λ s, mkRun (hr_data s) (hr_written s) (hr_printed s ++ [line])).
Definition set_data (d : yaml) : W unit := modify (λ s, mkRun d (hr_written s) (hr_printed s)).

Definition architectures : list string := ["arm"; "arm64"; "amd64"]%string.
Definition downloads : list string := ["kubelet"; "kubectl"; "kubeadm"]%string.

Definition v_version (version : string) : string :=
  if py_startswith "v" version then version else "v" +:+ version.

Definition checksum_name (download : string) : string := download +:+ "_checksums".

Definition download_url (version arch download : string) : string :=
  "https://storage.googleapis.com/kubernetes-release/release/" +:+ version +:+ "/bin/linux/" +:+
  arch +:+ "/" +:+ download.

(** [data[name][arch][version] = sum] *)
Definition set_checksum (name arch version sum : string) (data : yaml) : outcome yaml :=
  at_key name (at_key arch (yaml_set version (YStr sum))) data.

Definition hash_one (download arch version : string) : W unit :=
  let version := v_version version in
  content ← lift (http_get (download_url version arch download));
  let sha256sum := sha256_hexdigest content in
  s ← get_state;
  d ← lift (set_checksum (checksum_name download) arch version sha256sum (hr_data s));
  set_data d.

Definition download_hash (versions : list string) : W unit :=
  data ← lift open_main_yaml;
  set_data data ;;
  for_each downloads (λ download,
    for_each architectures (λ arch,
      for_each versions (λ version, hash_one download arch version))) ;;
  modify (λ s, mkRun (hr_data s) (hr_written s ++ [(MAIN_YML, hr_data s)]) (hr_printed s)) ;;
  hr_print (newline +:+ newline +:+ "Updated " +:+ MAIN_YML +:+ newline).

Definition usage : W unit :=
  hr_print ("USAGE:" +:+ newline +:+ "    " +:+ argv0 +:+
            " [k8s_version1] [[k8s_version2]....[k8s_versionN]]").

(** [main()]: [args] are the arguments of the command line. *)
Definition hash_main (argv : option (list string)) (args : list string) : W Z :=
  let argv := match argv with Some ((_ :: _) as a) => a | _ => args end in
  match argv with
  | [] => usage ;; mret 1%Z
  | _ => download_hash argv ;; mret 0%Z
  end.

End DownloadHash.

(** ** Correctness *)

(** The value under a path of keys. *)
Fixpoint lookup_path (path : list string) (y : yaml) : option yaml :=
  match path with
  | [] => Some y
  | k :: path' =>
      match y with YMap m => dget k m ≫= lookup_path path' | _ => None end
  end.

(** Neither of two paths leads through the other. *)
Definition apart (p q : list string) : Prop := ¬ p `prefix_of` q ∧ ¬ q `prefix_of` p.

(** The settings of the file, in their order. *)
Definition top_keys (y : yaml) : list string := match y with YMap m => m.*1 | _ => [] end.

Lemma apart_cons k p q : apart (k :: p) (k :: q) → apart p q.
Proof. intros [H1 H2]. split; intros H; [apply H1|apply H2]; by apply prefix_cons. Qed.

Lemma apart_nil q : ¬ apart [] q.
Proof. intros [H _]. apply H, prefix_nil. Qed.

Lemma lookup_dset k v m path :
  lookup_path path v = lookup_path path (default YNull (dget k m)) → ∀ k', is_Some (dget k m) →
  lookup_path (k' :: path) (YMap (dset k v m)) = lookup_path (k' :: path) (YMap m).
Proof.
  intros Hv k' [w Hw]. cbn [lookup_path]. rewrite dget_dset. case_decide as Hk; [subst k'|done].
  rewrite Hw in Hv |- *. exact Hv.
Qed.

Lemma lookup_dset_ne k v m k' path :
  k' ≠ k → lookup_path (k' :: path) (YMap (dset k v m)) = lookup_path (k' :: path) (YMap m).
Proof. intros Hk. cbn [lookup_path]. by rewrite dget_dset_ne. Qed.

(** The table of a program and an architecture. *)
Definition has_table (a b : string) (y : yaml) : Prop :=
  ∃ m m1 m2, y = YMap m ∧ dget a m = Some (YMap m1) ∧ dget b m1 = Some (YMap m2).

(** The document with an entry set in a table. *)
Lemma set_checksum_run a b c x y :
  has_table a b y →
  ∃ y', set_checksum a b c x y = Ret y' ∧
    (∀ a' b', has_table a' b' y → has_table a' b' y') ∧
    lookup_path [a; b; c] y' = Some (YStr x) ∧ top_keys y' = top_keys y ∧
    (∀ path, apart path [a; b; c] → lookup_path path y' = lookup_path path y).
Proof.
  intros (m & m1 & m2 & -> & Ha & Hb).
  exists (YMap (dset a (YMap (dset b (YMap (dset c (YStr x) m2)) m1)) m)).
  split; [by rewrite /set_checksum /at_key /yaml_get /py_getitem Ha /= Hb|].
  split; [|split; [|split]].
  - intros a' b' (n & n1 & n2 & [= <-] & Ha' & Hb'). rewrite /has_table.
    set (m1' := dset b (YMap (dset c (YStr x) m2)) m1). exists (dset a (YMap m1') m).
    destruct (decide (a' = a)) as [->|Hne].
    + rewrite Ha in Ha'. injection Ha' as <-. exists m1'.
      destruct (decide (b' = b)) as [->|Hne]; [exists (dset c (YStr x) m2)|exists n2].
      * split; [reflexivity|]. by rewrite /m1' !dget_dset_eq.
      * split; [reflexivity|]. by rewrite dget_dset_eq /m1' dget_dset_ne.
    + exists n1, n2. split; [reflexivity|]. by rewrite dget_dset_ne.
  - cbn [lookup_path]. rewrite dget_dset_eq. cbn [mbind option_bind lookup_path].
    rewrite dget_dset_eq. cbn [mbind option_bind lookup_path]. by rewrite dget_dset_eq.
  - cbn [top_keys]. rewrite dset_keys decide_True //. apply dget_is_Some. by eexists.
  - intros [|a' path] Hp; [by apply apart_nil in Hp|].
    destruct (decide (a' = a)) as [->|Hne]; [|by apply lookup_dset_ne].
    apply apart_cons in Hp. apply lookup_dset; [|by eexists]. rewrite Ha. cbn [default from_option].
    destruct path as [|b' path]; [by apply apart_nil in Hp|].
    destruct (decide (b' = b)) as [->|Hne]; [|by apply lookup_dset_ne].
    apply apart_cons in Hp. apply lookup_dset; [|by eexists]. rewrite Hb. cbn [default from_option].
    destruct path as [|c' path]; [by apply apart_nil in Hp|]. apply lookup_dset_ne.
    intros ->. apply apart_cons in Hp as [_ Hp]. apply Hp, prefix_nil.
Qed.

Lemma for_each_bind {S A B} (l : list A) (f : A → list B) (g : B → M S unit) s :
  for_each (l ≫= f) g s = for_each l (λ x, for_each (f x) g) s.
Proof.
  revert s. induction l as [|x l IH]; intros s; [done|].
  change ((x :: l) ≫= f) with (f x ++ (l ≫= f)). rewrite for_each_app. cbn [for_each].
  rewrite /mbind /M_bind. by destruct (for_each (f x) g s) as [[]].
Qed.

(** What is downloaded: program, architecture and version. *)
Definition hash_entries (versions : list string) : list (string * string * string) :=
  downloads ≫= λ d, architectures ≫= λ a, (λ v, (d, a, v)) <$> versions.

Section Correct.
Context (http_get : string → outcome string).

Definition hash_entry (e : string * string * string) : M hash_run unit :=
  hash_one http_get e.1.1 e.1.2 e.2.

(** Where the digest of an entry is recorded. *)
Definition entry_key (e : string * string * string) : string * string * string :=
  (checksum_name e.1.1, e.1.2, v_version e.2).
Definition entry_path (e : string * string * string) : list string :=
  [(entry_key e).1.1; (entry_key e).1.2; (entry_key e).2].
Definition entry_url (e : string * string * string) : string :=
  download_url (v_version e.2) e.1.2 e.1.1.

Lemma hash_loops versions s :
  for_each downloads (λ download,
    for_each architectures (λ arch,
      for_each versions (λ version, hash_one http_get download arch version))) s =
  for_each (hash_entries versions) hash_entry s.
Proof.
  rewrite /hash_entries for_each_bind. apply for_each_ext. intros d s' _.
  rewrite for_each_bind. apply for_each_ext. intros a s'' _. by rewrite for_each_fmap.
Qed.

Lemma entry_key_url e e' : entry_key e = entry_key e' → entry_url e = entry_url e'.
Proof.
  destruct e as [[d a] v], e' as [[d' a'] v']. rewrite /entry_key /entry_url /=.
  intros [= Hd -> Hv]. rewrite Hv. f_equal. rewrite /checksum_name in Hd.
  apply (f_equal str_rev) in Hd.
  assert (∀ x y : string, str_rev (x +:+ y) = str_rev y +:+ str_rev x) as Happ.
  { intros x y. rewrite /str_rev.
    assert (∀ p q : string, list_ascii_of_string (p +:+ q) =
      list_ascii_of_string p ++ list_ascii_of_string q) as H1.
    { induction p as [|c p IH]; intros q; [done|]. rewrite str_app_cons /=. by f_equal. }
    assert (∀ p q, string_of_list_ascii (p ++ q) =
      string_of_list_ascii p +:+ string_of_list_ascii q) as H2.
    { induction p as [|c p IH]; intros q; [done|]. simpl. by rewrite IH str_app_cons. }
    by rewrite H1 reverse_app H2. }
  rewrite !Happ in Hd. apply (inj (String.append _)) in Hd.
  by rewrite -(str_rev_rev d) Hd str_rev_rev.
Qed.

Lemma entry_paths_apart e e' : entry_key e ≠ entry_key e' → apart (entry_path e) (entry_path e').
Proof.
  rewrite /entry_path. destruct (entry_key e) as [[a b] c], (entry_key e') as [[a' b'] c'].
  intros Hne. split; intros H; apply prefix_length_eq in H; try done; simpl in H; congruence.
Qed.

Context (content : string → string).

Lemma hash_entries_run es y s :
  hr_data s = y → Forall (λ e, has_table (entry_key e).1.1 (entry_key e).1.2 y) es →
  Forall (λ e, http_get (entry_url e) = Ret (content (entry_url e))) es →
  ∃ y', for_each es hash_entry s = (Ret tt, mkRun y' (hr_written s) (hr_printed s)) ∧
    top_keys y' = top_keys y ∧
    (∀ e, e ∈ es → lookup_path (entry_path e) y' =
       Some (YStr (sha256_hexdigest (content (entry_url e))))) ∧
    (∀ path, (∀ e, e ∈ es → apart path (entry_path e)) → lookup_path path y' = lookup_path path y).
Proof.
  revert y s. induction es as [|e es IH]; intros y s Hy Htab Hget.
  { exists y. rewrite -Hy. split; [by destruct s|]. split; [done|].
    split; [by intros e ?%elem_of_nil|done]. }
  apply Forall_cons in Htab as [He Htab]. apply Forall_cons in Hget as [Hu Hget].
  destruct (set_checksum_run _ _ (entry_key e).2 (sha256_hexdigest (content (entry_url e))) y He)
    as (y1 & Hset & Hkeep & Hthis & Hkeys & Hlook).
  destruct (IH y1 (mkRun y1 (hr_written s) (hr_printed s))) as (y' & Hrun & Hkeys' & Hin & Hout);
    [done| |done|].
  { eapply Forall_impl; [exact Htab|]. intros e'. apply Hkeep. }
  exists y'. split; [|split; [by rewrite Hkeys'|split]].
  - cbn [for_each]. erewrite bind_ret; [exact Hrun|].
    rewrite /hash_entry /hash_one. erewrite bind_ret; [|by rewrite Hu].
    erewrite bind_ret by reflexivity. rewrite Hy.
    change (v_version e.2) with (entry_key e).2. erewrite bind_ret; [|by rewrite Hset].
    reflexivity.
  - intros e' [->|He']%elem_of_cons; [|by apply Hin].
    destruct (decide (entry_key e ∈ entry_key <$> es)) as [Hdup|Hnew].
    + apply list_elem_of_fmap in Hdup as (e2 & Heq & He2).
      rewrite /entry_path Heq (entry_key_url _ _ Heq). by apply Hin.
    + rewrite Hout; [exact Hthis|]. intros e2 He2. apply entry_paths_apart. intros Heq.
      apply Hnew. rewrite Heq. apply list_elem_of_fmap. by exists e2.
  - intros path Hp. rewrite Hout; [apply Hlook, Hp; by left|]. intros e2 He2. apply Hp. by right.
Qed.

(** C36: when the file has the nine tables and every download succeeds, the file
    is written once, with the SHA-256 digest of each downloaded program under
    its name, architecture and version (with its [v]).  The settings of the file
    stay, in their order, and under every path of keys, short or long, that does
    not lead to or through a recorded digest, the value is what it was. *)
Theorem download_hash_correct y versions s :
  Forall (λ e, has_table (entry_key e).1.1 (entry_key e).1.2 y ∧
    http_get (entry_url e) = Ret (content (entry_url e))) (hash_entries versions) →
  ∃ y' line, download_hash (YamlDoc y) http_get versions s =
      (Ret tt, mkRun y' (hr_written s ++ [(MAIN_YML, y')]) (hr_printed s ++ [line])) ∧
    top_keys y' = top_keys y ∧
    (∀ e, e ∈ hash_entries versions → lookup_path (entry_path e) y' =
       Some (YStr (sha256_hexdigest (content (entry_url e))))) ∧
    (∀ path, (∀ e, e ∈ hash_entries versions → apart path (entry_path e)) →
       lookup_path path y' = lookup_path path y).
Proof.
  intros [Htab Hget]%Forall_and. rewrite /download_hash. erewrite bind_ret by reflexivity.
  erewrite bind_ret by reflexivity.
  destruct (hash_entries_run (hash_entries versions) y
    (mkRun y (hr_written s) (hr_printed s)) eq_refl Htab Hget) as (y' & Hrun & Hout).
  exists y'. eexists. split; [|exact Hout].
  erewrite bind_ret; [|rewrite hash_loops; exact Hrun]. by erewrite bind_ret by reflexivity.
Qed.

(** Also: when a download fails, or the file lacks a table, the file is left as it
    is: it is written only in a run that ends without an exception. *)
Theorem download_hash_atomic main_yml versions s :
  (download_hash main_yml http_get versions s).1 ≠ Ret tt →
  hr_written (download_hash main_yml http_get versions s).2 = hr_written s.
Proof.
  assert (∀ es s, hr_written (for_each es hash_entry s).2 = hr_written s) as Hkeep.
  { intros es s'. destruct (appends_for_each hr_written (λ _, False) es hash_entry) with s'
      as (l & Hl & HF); [|by destruct HF; rewrite Hl ?app_nil_r].
    intros e _. apply appends_bind; [auto with logs|]. intros _ c _.
    apply appends_bind; [auto with logs|]. intros _ s1 _. apply appends_bind; [auto with logs|].
    intros _ d _. by apply appends_same. }
  destruct main_yml as [| |y]; [done..|].
  assert (∃ k : M hash_run unit, (∀ s, (k s).1 = Ret tt) ∧
    download_hash (YamlDoc y) http_get versions s =
    (for_each (hash_entries versions) hash_entry ;; k) (mkRun y (hr_written s) (hr_printed s)))
    as (k & Hk & ->).
  { eexists. split; [|rewrite /download_hash; erewrite bind_ret by reflexivity;
      erewrite bind_ret by reflexivity; rewrite /mbind /M_bind hash_loops; reflexivity]. done. }
  pose proof (Hkeep (hash_entries versions) (mkRun y (hr_written s) (hr_printed s))) as Hw.
  rewrite /mbind /M_bind. destruct (for_each _ hash_entry _) as [[[]|e| |] s']; [|done..].
  intros Hne. by destruct Hne.
Qed.
End Correct.

(** A file with a setting, a table of another program and empty tables. *)
Definition sample_tables : yaml :=
  YMap ([("local_release_dir", YStr "/tmp/releases");
         ("etcd_checksums", YMap [("arm", YNull)])]%string ++
        ((λ d, (checksum_name d, YMap ((λ a, (a, YMap [])) <$> architectures))) <$> downloads)).

Lemma download_hash_witness :
  ∃ y' line, download_hash (YamlDoc sample_tables) Ret ["1.22.0"]%string (mkRun YNull [] []) =
      (Ret tt, mkRun y' [(MAIN_YML, y')] [line]) ∧
    lookup_path ["kubectl_checksums"; "amd64"; "v1.22.0"]%string y' =
      Some (YStr (sha256_hexdigest (download_url "v1.22.0" "amd64" "kubectl"))) ∧
    lookup_path ["local_release_dir"]%string y' = Some (YStr "/tmp/releases") ∧
    lookup_path ["etcd_checksums"; "arm"]%string y' = Some YNull.
Proof.
  destruct (download_hash_correct Ret (λ u, u) sample_tables ["1.22.0"]%string (mkRun YNull [] []))
    as (y' & line & Hrun & _ & Hin & Hout).
  - repeat constructor; (eexists _, _, _; split; [reflexivity|split; reflexivity]).
  - assert (∀ k path, k ∉ checksum_name <$> downloads →
      lookup_path (k :: path) y' = lookup_path (k :: path) sample_tables) as Hother.
    { intros k path Hk. apply Hout. intros e (d & He & Hd)%list_elem_of_bind.
      apply list_elem_of_bind in He as (a & He & _). apply list_elem_of_fmap in He as (v & -> & _).
      split; intros [r Hr]; injection Hr as Hr _; apply Hk, list_elem_of_fmap; by exists d. }
    exists y', line. split; [exact Hrun|].
    split; [|split; rewrite Hother; [reflexivity|by apply (bool_decide_unpack _)|reflexivity
              |by apply (bool_decide_unpack _)]].
    apply (Hin ("kubectl", "amd64", "1.22.0")%string). by apply (bool_decide_unpack _).
Defined.

Lemma download_hash_atomic_witness :
  hr_written (download_hash (YamlDoc sample_tables) (λ _, Raise OSError) ["1.22.0"]%string
                (mkRun YNull [] [])).2 = [].
Proof.
  apply (download_hash_atomic (λ _, Raise OSError) (YamlDoc sample_tables) ["1.22.0"]%string
    (mkRun YNull [] [])). done.
Defined.
