(* ===== verification/AwsInventory.v ===== *)
(** * The AWS inventory (src/kubespray/contrib/aws_inventory/kubespray-aws-inventory.py)

    [SearchEC2Tags] asks EC2 for the running instances of each role and prints an
    inventory.  EC2 is a parameter: the instances of a region that match a list
    of filters. *)

From S2P Require Import Prelude Yaml ArgParse.

Record ec2_instance : Type := mkInstance {
  private_dns_name : string;
  private_ip_address : option string;
  public_dns_name : string;
  public_ip_address : option string;
  tags : list (string * string)
}.

(** What the script prints: a value as JSON, with sorted keys or not. *)
Record aws_output : Type := mkAws {
  aws_printed : list (yaml * bool)
}.

Definition yaml_opt (o : option string) : yaml :=
  match o with Some s => YStr s | None => YNull end.

Definition aws_groups : list string := ["kube_control_plane"; "kube_node"; "etcd"]%string.

Definition ec2_filter := (string * list string)%type.

(** The filters for a role, and the cluster if one is named. *)
Definition role_filters (env : list (string * string)) (group : string) : list ec2_filter :=
  [("tag:kubespray-role", ["*" +:+ group +:+ "*"]); ("instance-state-name", ["running"])]%string ++
  match dget "CLUSTER_NAME"%string env with
  | Some (String _ _ as cluster_name) =>
      [("tag-key", ["kubernetes.io/cluster/" +:+ cluster_name])]%string
  | _ => []
  end.

(** [dict([label.strip().split('=') for label in text.split(',')])] *)
Definition parse_labels (text : string) : outcome (list (string * yaml)) :=
  ofold (py_split "," text) [] (λ d label,
    match py_split "=" (py_strip label) with
    | [k; v] => Ret (dset k (YStr v) d)
    | _ => Raise ValueError
    end).

(** The variables of a host; [dict(...)] runs over all labels before it fails or
    returns. *)
Definition ansible_host (public : bool) (i : ec2_instance) : outcome (string * yaml) :=
  let dns_name := if public then public_dns_name i else private_dns_name i in
  let address := if public then public_ip_address i else private_ip_address i in
  let vars := [("ansible_ssh_host"%string, yaml_opt address)] in
  match filter (λ t, t.1 = "kubespray-node-labels"%string) (tags i) with
  | (_, text) :: _ =>
      labels ← parse_labels text;
      Ret (dns_name, YMap (vars ++ [("node_labels"%string, YMap labels)]))
  | [] => Ret (dns_name, YMap vars)
  end.

Section Aws.
Variable instances : string → list ec2_filter → outcome (list ec2_instance).
Notation W := (M aws_output).

Definition aws_print (y : yaml) (sort_keys : bool) : W unit :=
  modify (λ s, mkAws (aws_printed s ++ [(y, sort_keys)])).

(** The hosts of a role, added to the variables of all hosts. *)
Definition search_role (env : list (string * string)) (public : bool)
    (hostvars : list (string * yaml)) (group : string)
  : outcome (list string * list (string * yaml)) :=
  match dget "REGION"%string env with
  | None => Raise KeyError
  | Some region =>
      found ← instances region (role_filters env group);
      ofold found ([], hostvars) (λ acc i,
        h ← ansible_host public i;
        Ret (acc.1 ++ [h.1], dset h.1 h.2 acc.2))
  end.

(** The roles with their hosts, and the variables of all hosts. *)
Definition search_roles (env : list (string * string)) (public : bool) (groups : list string)
  : outcome (list (string * list string) * list (string * yaml)) :=
  ofold groups ([], []) (λ acc group,
    r ← search_role env public acc.2 group;
    Ret (acc.1 ++ [(group, r.1)], r.2)).

Definition inventory_json (groups : list (string * list string)) (hostvars : list (string * yaml))
  : yaml :=
  YMap ([("_meta", YMap [("hostvars", YMap hostvars)])]%string ++
        ((λ g, (g.1, YList (YStr <$> g.2))) <$> groups) ++
        [("k8s_cluster", YMap [("children", YList [YStr "kube_control_plane"; YStr "kube_node"])])]%string).

Definition search_tags (env : list (string * string)) (vpc_visibility : string) : W unit :=
  r ← lift (search_roles env (String.eqb vpc_visibility "public") aws_groups);
  aws_print (inventory_json r.1 r.2) true.

Definition aws_parser : arg_parser :=
  mkParser [mkArg ["--list"] "list" AStoreTrue false (ABool false) false;
            mkArg ["--host"] "host" AStoreTrue false (ABool false) false]%string [].

Definition SearchEC2Tags (env : list (string * string)) (argv : list string) : W unit :=
  let vpc_visibility := default "private"%string (dget "VPC_VISIBILITY"%string env) in
  args ← lift (parse_args aws_parser argv);
  (if arg_bool args "list" then search_tags env vpc_visibility else mret tt) ;;
  (if arg_bool args "host" then aws_print (YMap []) false else mret tt).

End Aws.

(** ** Correctness *)

(** A host of the inventory, as it should be listed. *)
Definition host_entry (public : bool) (i : ec2_instance) (h : string * yaml) : Prop :=
  ansible_host public i = Ret h.

Lemma search_instances_run public found hs hosts hostvars :
  Forall2 (host_entry public) found hs →
  ofold found (hosts, hostvars) (λ acc i,
    h ← ansible_host public i; Ret (acc.1 ++ [h.1], dset h.1 h.2 acc.2)) =
  Ret (hosts ++ hs.*1, dupdate hostvars hs).
Proof.
  intros H. revert hosts hostvars. induction H as [|i h found hs Hi _ IH]; intros hosts hostvars.
  { by rewrite app_nil_r. }
  cbn [ofold]. rewrite Hi. cbn [mbind outcome_bind]. rewrite IH. cbn. by rewrite -app_assoc.
Qed.

Section AwsProps.
Context (instances : string → list ec2_filter → outcome (list ec2_instance)).
Context (env : list (string * string)) (region : string).
Context (Hregion : dget "REGION"%string env = Some region).
Context (public : bool).
(** The hosts that the instances of each role describe. *)
Context (hosts_of : string → list (string * yaml)).

Definition role_ok (group : string) : Prop :=
  ∃ found, instances region (role_filters env group) = Ret found ∧
    Forall2 (host_entry public) found (hosts_of group).

Lemma search_role_run hostvars group :
  role_ok group →
  search_role instances env public hostvars group =
  Ret ((hosts_of group).*1, dupdate hostvars (hosts_of group)).
Proof.
  intros (found & Hfound & Hall). rewrite /search_role Hregion Hfound. cbn [mbind outcome_bind].
  by rewrite (search_instances_run _ _ _ _ _ Hall).
Qed.

Lemma search_roles_run groups acc hostvars :
  Forall role_ok groups →
  ofold groups (acc, hostvars) (λ acc group,
    r ← search_role instances env public acc.2 group;
    Ret (acc.1 ++ [(group, r.1)], r.2)) =
  Ret (acc ++ ((λ g, (g, (hosts_of g).*1)) <$> groups),
       foldl dupdate hostvars (hosts_of <$> groups)).
Proof.
  intros Hg. revert acc hostvars. induction Hg as [|g groups Hg _ IH]; intros acc hostvars.
  { by rewrite app_nil_r. }
  cbn [ofold]. rewrite (search_role_run hostvars g Hg). cbn [mbind outcome_bind fst snd].
  rewrite IH. by rewrite fmap_cons -app_assoc.
Qed.

Lemma foldl_dupdate_keys (ds : list (list (string * yaml))) acc x :
  x ∈ (foldl dupdate acc ds).*1 ↔ x ∈ acc.*1 ∨ ∃ d, d ∈ ds ∧ x ∈ d.*1.
Proof.
  revert acc. induction ds as [|d ds IH]; intros acc; cbn [foldl].
  - split; [by left|]. intros [?|(d & []%elem_of_nil & _)]. done.
  - rewrite IH elem_dupdate_keys. set_solver.
Qed.

(** Also: with [--list], one inventory is printed: each role with exactly the hosts
    that EC2 returned for it, in that order, and variables for exactly the hosts
    that some role lists. *)
Theorem search_tags_correct vpc s :
  public = String.eqb vpc "public" → Forall role_ok aws_groups →
  ∃ groups hostvars,
    search_tags instances env vpc s =
      (Ret tt, mkAws (aws_printed s ++ [(inventory_json groups hostvars, true)])) ∧
    groups = (λ g, (g, (hosts_of g).*1)) <$> aws_groups ∧
    (∀ x, x ∈ hostvars.*1 ↔ ∃ g hs, (g, hs) ∈ groups ∧ x ∈ hs).
Proof.
  intros Hpub Hok. eexists _, _. split; [|split; [reflexivity|]].
  - rewrite /search_tags -Hpub /search_roles (search_roles_run aws_groups [] [] Hok). reflexivity.
  - intros x. rewrite foldl_dupdate_keys. split.
    + intros [?%elem_of_nil|(d & (g & -> & Hg)%list_elem_of_fmap & Hx)]; [done|].
      exists g, ((hosts_of g).*1). split; [|done]. apply list_elem_of_fmap. by exists g.
    + intros (g & hs & (g' & [= -> ->] & Hg)%list_elem_of_fmap & Hx). right.
      exists (hosts_of g'). split; [|done]. by apply list_elem_of_fmap_2.
Qed.

(** Also: [--host] takes no host name: with one, as Ansible passes it, the
    script ends with a usage error. *)
Theorem host_option_rejected c name s :
  c ≠ "-"%char →
  (SearchEC2Tags instances env ["--host"%string; String c name] s).1 = Raise (SystemExit 2).
Proof.
  intros Hc. rewrite /SearchEC2Tags.
  assert (parse_args aws_parser ["--host"%string; String c name] = Raise (SystemExit 2)) as ->;
    [|done].
  destruct c as [[] [] [] [] [] [] [] []]; try reflexivity. by destruct Hc.
Qed.
End AwsProps.

(** Two machines, one of them with both roles. *)
Definition machine (name ip : string) (labels : list (string * string)) : ec2_instance :=
  mkInstance name (Some ip) EmptyString None labels.

Definition sample_instances (_ : string) (filters : list ec2_filter) : outcome (list ec2_instance) :=
  match filters with
  | (_, [role]) :: _ =>
      if String.eqb role "*kube_node*"
      then Ret [machine "a" "10.0.0.1" [("kubespray-node-labels", "tier=web, zone=x")]%string;
                machine "b" "10.0.0.2" []]
      else Ret [machine "b" "10.0.0.2" []]
  | _ => Ret []
  end.

Lemma search_tags_witness :
  ∃ groups hostvars,
    search_tags sample_instances [("REGION", "eu")]%string "private" (mkAws []) =
      (Ret tt, mkAws [(inventory_json groups hostvars, true)]) ∧
    groups = [("kube_control_plane", ["b"]); ("kube_node", ["a"; "b"]); ("etcd", ["b"])]%string.
Proof.
  set (b := ("b"%string, YMap [("ansible_ssh_host"%string, YStr "10.0.0.2")])).
  set (a := ("a"%string, YMap [("ansible_ssh_host", YStr "10.0.0.1");
    ("node_labels", YMap [("tier", YStr "web"); ("zone", YStr "x")])]%string)).
  destruct (search_tags_correct sample_instances [("REGION", "eu")]%string "eu" eq_refl false
    (λ g, if String.eqb g "kube_node" then [a; b] else [b]) "private" (mkAws []))
    as (groups & hostvars & Hrun & Hgroups & _).
  - reflexivity.
  - repeat constructor; eexists; (split; [reflexivity|]); repeat constructor; vm_compute; reflexivity.
  - exists groups, hostvars. split; [exact Hrun|]. by rewrite Hgroups.
Defined.
