(* ===== verification/Base85.v ===== *)
(** * Base 85

    [base64.b85decode]: five characters stand for a 32-bit word; a last group is
    completed with [~], and as many bytes are dropped.  Bytes are integers from 0
    to 255. *)

From S2P Require Import Prelude.

#[local] Open Scope Z_scope.

Definition b85alphabet : list ascii := list_ascii_of_string
  "0123456789ABCDEFGHIJKLMNOPQRSTUVWXYZabcdefghijklmnopqrstuvwxyz!#$%&()*+-;<=>?@^_`{|}~".

(** The value of a character. *)
Fixpoint index_of (c : ascii) (l : list ascii) (i : Z) : option Z :=
  match l with
  | [] => None
  | c' :: l' => if Ascii.eqb c c' then Some i else index_of c l' (i + 1)
  end.
Definition b85_value (c : ascii) : option Z := index_of c b85alphabet 0.

(** The word that five characters stand for. *)
Definition b85_word (chunk : list ascii) : outcome Z :=
  acc ← ofold chunk 0 (λ acc c,
    match b85_value c with Some v => Ret (acc * 85 + v) | None => Raise ValueError end);
  if acc <? 2 ^ 32 then Ret acc else Raise ValueError.

Definition word_bytes (w : Z) : list Z :=
  [w / 16777216 mod 256; w / 65536 mod 256; w / 256 mod 256; w mod 256].

Fixpoint b85_groups (t : list ascii) : outcome (list Z) :=
  match t with
  | c0 :: c1 :: c2 :: c3 :: c4 :: t' =>
      w ← b85_word [c0; c1; c2; c3; c4];
      out ← b85_groups t';
      Ret (word_bytes w ++ out)
  | _ => Ret []
  end.

Definition b85_padding (t : list ascii) : nat := Z.to_nat (- Z.of_nat (length t) mod 5).

(** [b85decode(t)] *)
Definition b85decode (t : list ascii) : outcome (list Z) :=
  let padding := b85_padding t in
  result ← b85_groups (t ++ replicate padding "~"%char);
  Ret (take (length result - padding) result).

(** ** The encoding *)

Definition b85_char (d : Z) : ascii := default "0"%char (b85alphabet !! Z.to_nat d).

Definition encode_word (w : Z) : list ascii :=
  b85_char <$> [w / 52200625; w / 614125 mod 85; w / 7225 mod 85; w / 85 mod 85; w mod 85].

Definition bytes_word (b0 b1 b2 b3 : Z) : Z := ((b0 * 256 + b1) * 256 + b2) * 256 + b3.

(** [b85encode(bs)] *)
Fixpoint b85encode (bs : list Z) : list ascii :=
  match bs with
  | b0 :: b1 :: b2 :: b3 :: bs' => encode_word (bytes_word b0 b1 b2 b3) ++ b85encode bs'
  | [b0; b1; b2] => take 4 (encode_word (bytes_word b0 b1 b2 0))
  | [b0; b1] => take 3 (encode_word (bytes_word b0 b1 0 0))
  | [b0] => take 2 (encode_word (bytes_word b0 0 0 0))
  | [] => []
  end.

Definition is_byte (b : Z) : Prop := 0 ≤ b < 256.

Lemma b85_value_char d : 0 ≤ d < 85 → b85_value (b85_char d) = Some d.
Proof.
  intros Hd. assert (d ∈ Z.of_nat <$> seq 0 85) as Hin.
  { apply list_elem_of_fmap. exists (Z.to_nat d). split; [lia|]. apply elem_of_seq. lia. }
  revert Hin. clear Hd. revert d. apply Forall_forall. vm_compute. repeat constructor.
Qed.

(** The digits of a word, and the word of its digits. *)
Lemma encode_word_value w d1 d2 d3 d4 :
  0 ≤ w < 2 ^ 32 → 0 ≤ d1 < 85 → 0 ≤ d2 < 85 → 0 ≤ d3 < 85 → 0 ≤ d4 < 85 →
  let v := ((((w / 52200625) * 85 + d1) * 85 + d2) * 85 + d3) * 85 + d4 in
  v < 2 ^ 32 →
  b85_word (b85_char <$> [w / 52200625; d1; d2; d3; d4]) = Ret v.
Proof.
  intros Hw H1 H2 H3 H4 v Hv. assert (0 ≤ w / 52200625 < 85) as H0.
  { split; [apply Z.div_pos; lia|]. apply Z.div_lt_upper_bound; lia. }
  rewrite /b85_word !fmap_cons fmap_nil. cbn [ofold].
  do 5 (rewrite b85_value_char; [cbn [mbind outcome_bind]|lia]).
  by rewrite (proj2 (Z.ltb_lt v (2 ^ 32)) Hv).
Qed.

Lemma digits_word w :
  ((((w / 52200625) * 85 + w / 614125 mod 85) * 85 + w / 7225 mod 85) * 85 + w / 85 mod 85) * 85
    + w mod 85 = w.
Proof.
  replace (w / 52200625) with (w / 85 / 85 / 85 / 85) by (by rewrite !Z.div_div).
  replace (w / 614125) with (w / 85 / 85 / 85) by (by rewrite !Z.div_div).
  replace (w / 7225) with (w / 85 / 85) by (by rewrite !Z.div_div).
  pose proof (Z.div_mod w 85). pose proof (Z.div_mod (w / 85) 85).
  pose proof (Z.div_mod (w / 85 / 85) 85). pose proof (Z.div_mod (w / 85 / 85 / 85) 85). lia.
Qed.

Lemma word_bytes_of b0 b1 b2 b3 :
  is_byte b0 → is_byte b1 → is_byte b2 → is_byte b3 →
  word_bytes (bytes_word b0 b1 b2 b3) = [b0; b1; b2; b3].
Proof.
  rewrite /is_byte /word_bytes /bytes_word. intros H0 H1 H2 H3.
  repeat f_equal; Z.to_euclidean_division_equations; lia.
Qed.

Lemma groups_word w t :
  0 ≤ w < 2 ^ 32 →
  b85_groups (encode_word w ++ t) = (out ← b85_groups t; Ret (word_bytes w ++ out)).
Proof.
  intros Hw. assert (b85_word (encode_word w) = Ret w) as Hword.
  { rewrite /encode_word encode_word_value ?digits_word //; try (apply Z.mod_pos_bound; lia); lia. }
  rewrite /encode_word !fmap_cons fmap_nil in Hword *. cbn [app b85_groups]. by rewrite Hword.
Qed.

Lemma padding_word w t : b85_padding (encode_word w ++ t) = b85_padding t.
Proof.
  rewrite /b85_padding length_app. f_equal.
  replace (- Z.of_nat (length (encode_word w) + length t)) with (- Z.of_nat (length t) + (-1) * 5)
    by (simpl; lia).
  by rewrite Z.mod_add.
Qed.

(** A word whose last digits were replaced by the highest one. *)
Lemma groups_partial b0 b1 b2 b3 v l :
  is_byte b0 → is_byte b1 → is_byte b2 → is_byte b3 →
  v = bytes_word b0 b1 b2 b3 → b85_word l = Ret v → length l = 5%nat →
  b85_groups l = Ret [b0; b1; b2; b3].
Proof.
  intros H0 H1 H2 H3 -> Hl Hlen. destruct l as [|c0 [|c1 [|c2 [|c3 [|c4 [|]]]]]]; try done.
  cbn [b85_groups]. rewrite Hl. cbn [mbind outcome_bind]. by rewrite word_bytes_of.
Qed.

Lemma split_low n e : 0 ≤ e < 256 * n → 0 < n → e = e / n * n + e mod n ∧ is_byte (e / n) ∧ 0 ≤ e mod n < n.
Proof.
  intros He Hn. split; [rewrite Z.mul_comm; apply Z.div_mod; lia|]. split; [|by apply Z.mod_pos_bound].
  split; [by apply Z.div_pos; lia|]. apply Z.div_lt_upper_bound; lia.
Qed.

(** The digits of [w] with the last [p] of them replaced. *)
Lemma digits_partial w :
  let hi := w / 52200625 in
  (((hi * 85 + w / 614125 mod 85) * 85 + w / 7225 mod 85) * 85 + w / 85 mod 85) * 85 = w - w mod 85 ∧
  (((hi * 85 + w / 614125 mod 85) * 85 + w / 7225 mod 85) * 85) * 85 = w - w mod 7225 ∧
  ((hi * 85 + w / 614125 mod 85) * 85) * 85 * 85 = w - w mod 614125.
Proof.
  cbv zeta. pose proof (digits_word w) as Hw.
  assert (w mod 7225 = (w / 85 mod 85) * 85 + w mod 85) as ->.
  { change 7225 with (85 * 85). rewrite Z.rem_mul_r; lia. }
  assert (w mod 614125 = (w / 7225 mod 85) * 7225 + ((w / 85 mod 85) * 85 + w mod 85)) as ->.
  { change 614125 with (7225 * 85). rewrite (Z.rem_mul_r w 7225 85); [|lia..].
    change 7225 with (85 * 85) at 1. rewrite (Z.rem_mul_r w 85 85); lia. }
  lia.
Qed.

Lemma bytes_word_bound b0 b1 b2 b3 :
  is_byte b0 → is_byte b1 → is_byte b2 → is_byte b3 → 0 ≤ bytes_word b0 b1 b2 b3 < 2 ^ 32.
Proof. rewrite /is_byte /bytes_word. lia. Qed.

Ltac digit_bounds := try (apply Z.mod_pos_bound; lia); try lia.

(** The last group of three, two or one bytes. *)
Lemma groups_last3 b0 b1 b2 :
  is_byte b0 → is_byte b1 → is_byte b2 →
  ∃ e, b85_groups (take 4 (encode_word (bytes_word b0 b1 b2 0)) ++ ["~"%char]) = Ret [b0; b1; b2; e].
Proof.
  intros H0 H1 H2. set (w := bytes_word b0 b1 b2 0). set (e := 84 - w mod 85).
  assert (0 ≤ w < 2 ^ 32) as Hw by (by apply bytes_word_bound).
  assert (is_byte e) as He.
  { pose proof (Z.mod_pos_bound w 85). rewrite /is_byte /e. lia. }
  destruct (digits_partial w) as (Hd & _ & _). cbv zeta in Hd.
  assert (w - w mod 85 + 84 = bytes_word b0 b1 b2 e) as Hv.
  { assert (w = ((b0 * 256 + b1) * 256 + b2) * 256) as Hwe by (rewrite /w /bytes_word; lia).
    rewrite /bytes_word. assert (e = 84 - w mod 85) by done. lia. }
  exists e. eapply groups_partial; [done..| | |done]; [reflexivity|].
  rewrite -Hv -Hd. change "~"%char with (b85_char 84).
  apply (encode_word_value w _ _ _ 84 Hw); digit_bounds.
  rewrite Hd Hv. by apply bytes_word_bound.
Qed.

Lemma groups_last2 b0 b1 :
  is_byte b0 → is_byte b1 →
  ∃ e1 e2, b85_groups (take 3 (encode_word (bytes_word b0 b1 0 0)) ++ ["~"%char; "~"%char]) =
    Ret [b0; b1; e1; e2].
Proof.
  intros H0 H1. set (w := bytes_word b0 b1 0 0). set (e := 7224 - w mod 7225).
  assert (0 ≤ w < 2 ^ 32) as Hw by (by apply bytes_word_bound).
  destruct (split_low 256 e) as (Hsplit & He1 & He2); [|done|].
  { pose proof (Z.mod_pos_bound w 7225). rewrite /e. lia. }
  destruct (digits_partial w) as (_ & Hd & _). cbv zeta in Hd.
  assert (w - w mod 7225 + 84 * 85 + 84 = bytes_word b0 b1 (e / 256) (e mod 256)) as Hv.
  { assert (w = (b0 * 256 + b1) * 65536) as Hwe by (rewrite /w /bytes_word; lia).
    rewrite /bytes_word. assert (e = 7224 - w mod 7225) by done. lia. }
  exists (e / 256), (e mod 256). eapply groups_partial; [done..| | |done]; [reflexivity|].
  rewrite -Hv. change "~"%char with (b85_char 84).
  rewrite (encode_word_value w _ _ 84 84 Hw); digit_bounds; [f_equal; lia|].
  apply Z.le_lt_trans with (bytes_word b0 b1 (e / 256) (e mod 256)); [lia|]. by apply bytes_word_bound.
Qed.

Lemma groups_last1 b0 :
  is_byte b0 →
  ∃ e1 e2 e3, b85_groups (take 2 (encode_word (bytes_word b0 0 0 0)) ++
    ["~"%char; "~"%char; "~"%char]) = Ret [b0; e1; e2; e3].
Proof.
  intros H0. set (w := bytes_word b0 0 0 0). set (e := 614124 - w mod 614125).
  assert (0 ≤ w < 2 ^ 32) as Hw by (by apply bytes_word_bound).
  destruct (split_low 65536 e) as (Hsplit & He1 & Hr); [|done|].
  { pose proof (Z.mod_pos_bound w 614125). rewrite /e. lia. }
  destruct (split_low 256 (e mod 65536)) as (Hsplit2 & He2 & He3); [lia|done|].
  destruct (digits_partial w) as (_ & _ & Hd). cbv zeta in Hd.
  set (e2 := e mod 65536 / 256) in *. set (e3 := (e mod 65536) mod 256) in *.
  assert (w - w mod 614125 + 84 * 7225 + 84 * 85 + 84 = bytes_word b0 (e / 65536) e2 e3) as Hv.
  { assert (w = b0 * 16777216) as Hwe by (rewrite /w /bytes_word; lia).
    rewrite /bytes_word. assert (e = 614124 - w mod 614125) by done. lia. }
  exists (e / 65536), e2, e3. eapply groups_partial; [done..| | |done]; [reflexivity|].
  rewrite -Hv. change "~"%char with (b85_char 84).
  rewrite (encode_word_value w _ 84 84 84 Hw); digit_bounds; [f_equal; lia|].
  apply Z.le_lt_trans with (bytes_word b0 (e / 65536) e2 e3); [lia|]. by apply bytes_word_bound.
Qed.

Lemma groups_encode bs :
  Forall is_byte bs →
  ∃ extra, b85_groups (b85encode bs ++ replicate (b85_padding (b85encode bs)) "~"%char) =
      Ret (bs ++ extra) ∧ length extra = b85_padding (b85encode bs).
Proof.
  remember (length bs) as n eqn:Hn. revert bs Hn.
  induction n as [n IH] using lt_wf_ind. intros bs -> Hbs.
  destruct bs as [|b0 [|b1 [|b2 [|b3 bs]]]].
  - exists []. done.
  - apply Forall_cons in Hbs as [H0 _]. destruct (groups_last1 b0 H0) as (e1 & e2 & e3 & He).
    exists [e1; e2; e3]. done.
  - apply Forall_cons in Hbs as [H0 [H1 _]%Forall_cons].
    destruct (groups_last2 b0 b1 H0 H1) as (e1 & e2 & He). by exists [e1; e2].
  - apply Forall_cons in Hbs as [H0 [H1 [H2 _]%Forall_cons]%Forall_cons].
    destruct (groups_last3 b0 b1 b2 H0 H1 H2) as (e & He). by exists [e].
  - apply Forall_cons in Hbs as [H0 [H1 [H2 [H3 Hbs]%Forall_cons]%Forall_cons]%Forall_cons].
    destruct (IH (length bs)) with (bs := bs) as (extra & Hx & Hlen); [simpl; lia|done|done|].
    exists extra. cbn [b85encode]. rewrite padding_word -app_assoc groups_word;
      [|by apply bytes_word_bound].
    rewrite Hx. cbn [mbind outcome_bind]. by rewrite word_bytes_of.
Qed.

(** Decoding undoes the encoding, for any bytes. *)
Lemma b85_decode_encode bs : Forall is_byte bs → b85decode (b85encode bs) = Ret bs.
Proof.
  intros Hbs. destruct (groups_encode bs Hbs) as (extra & Hx & Hlen).
  rewrite /b85decode Hx. cbn [mbind outcome_bind]. rewrite length_app Hlen.
  replace (length bs + _ - _)%nat with (length bs) by lia. by rewrite take_app_length.
Qed.

(** Whole words in front of other groups. *)
Lemma groups_encode_app k bs t :
  length bs = (4 * k)%nat → Forall is_byte bs →
  length (b85encode bs) = (5 * k)%nat ∧
  b85_groups (b85encode bs ++ t) = (out ← b85_groups t; Ret (bs ++ out)).
Proof.
  revert bs. induction k as [|k IH]; intros bs Hlen Hbs.
  { destruct bs; [|simpl in Hlen; lia]. split; [done|]. simpl. by destruct (b85_groups t). }
  destruct bs as [|b0 [|b1 [|b2 [|b3 bs]]]]; try (simpl in Hlen; lia).
  apply Forall_cons in Hbs as [H0 [H1 [H2 [H3 Hbs]%Forall_cons]%Forall_cons]%Forall_cons].
  destruct (IH bs) as [Hl Hg]; [simpl in Hlen; lia|done|]. cbn [b85encode]. split.
  - rewrite length_app Hl. simpl. lia.
  - rewrite -app_assoc groups_word; [|by apply bytes_word_bound]. rewrite Hg word_bytes_of //.
    by destruct (b85_groups t).
Qed.
