(* ===== verification/GetPip.v ===== *)
(** * The pip installer (src/kubespray/get-pip.py)

    The script unpacks the copy of pip it carries and runs it.  pip itself, the
    file system and the import machinery are parameters; the payload [DATA] is
    the text of the file.  The decoding of the payload is [b85decode]. *)

From S2P Require Import Prelude Base85.

Definition min_version : Z * Z := (3, 6)%Z.

(** [this_python < min_version] *)
Definition too_old (this_python : Z * Z) : bool :=
  let '(major, minor) := this_python in
  (major <? min_version.1)%Z || ((major =? min_version.1)%Z && (minor <? min_version.2)%Z).

Definition dotted (v : Z * Z) : string := py_str v.1 +:+ "." +:+ py_str v.2.

Definition version_message (this_python : Z * Z) : string :=
  "ERROR: " +:+ py_join " "
    ["This script does not work on Python " +:+ dotted this_python;
     "The minimum supported Python version is " +:+ dotted min_version +:+ ".";
     "Please use https://bootstrap.pypa.io/pip/" +:+ dotted this_python +:+ "/get-pip.py instead."].

(** [DATA.replace(b"\n", b"")] *)
Definition without_newlines (data : string) : list ascii :=
  filter (λ c, c ≠ ascii_of_nat 10) (list_ascii_of_string data).

(** [try: m finally: f].  What [f] raises replaces the outcome of [m]. *)
Definition try_finally {S A} (m : M S A) (f : M S unit) : M S A := λ s,
  match m s with
  | (Blocked, s') => (Blocked, s')
  | (OutOfFuel, s') => (OutOfFuel, s')
  | (o, s') =>
      match f s' with
      | (Ret _, s'') => (o, s'')
      | (Raise e, s'') => (Raise e, s'')
      | (Blocked, s'') => (Blocked, s'')
      | (OutOfFuel, s'') => (OutOfFuel, s'')
      end
  end.

Section GetPip.
(** The options that pip parses, from defaults and arguments. *)
Context {options : Type}.
Definition parse_fn : Type := list (string * string) → list string → outcome options.
Notation files := (list (string * list Z)).

(** A call of pip's entry point: the files and the search path it starts with,
    the [parse_args] of its install command, and the arguments. *)
Record pip_run : Type := mkRun {
  run_files : files;
  run_path : list string;
  run_parse_args : parse_fn;
  run_args : list string
}.

Record pip_state : Type := mkPip {
  ps_files : files;
  ps_path : list string;
  ps_parse_args : parse_fn;
  ps_runs : list pip_run;
  ps_removed : list string;
  ps_printed : list string
}.
Notation W := (M pip_state).

(** The environment: variables, arguments with the script's name first, modules
    that can be imported; the certificate that pip's defaults name; [mkdtemp];
    opening a file for writing; the files that [rmtree] fails to delete; the
    import of a module of pip and the data of its certifi package, given the
    files and the search path; what pip's entry point returns and the files it
    leaves. *)
Variable env : list (string * string).
Variable argv : list string.
Variable importable : string → bool.
Variable default_cert : list (string * string) → option string.
Variable mkdtemp : outcome string.
Variable open_wb : string → outcome unit.
Variable undeletable : string → bool.
Variable import_pip : string → files → list string → outcome unit.
Variable certifi_data : files → list string → outcome (list Z).
Variable pip_entry_point : pip_run → outcome Z * files.
Variable DATA : string.

(** A variable that is set to something else than the empty string. *)
Definition env_set (name : string) : bool :=
  match dget name env with Some (String _ _) => true | _ => false end.

Definition determine_pip_install_arguments : list string :=
  let no_setuptools := bool_decide ("--no-setuptools"%string ∈ argv) || env_set "PIP_NO_SETUPTOOLS" in
  let args := if no_setuptools then filter (λ x, x ≠ "--no-setuptools"%string) (tail argv)
              else tail argv in
  let no_wheel := bool_decide ("--no-wheel"%string ∈ args) || env_set "PIP_NO_WHEEL" in
  let args := if no_wheel then filter (λ x, x ≠ "--no-wheel"%string) args else args in
  let implicit_setuptools := negb no_setuptools && negb (importable "setuptools") in
  let implicit_wheel := negb no_wheel && negb (importable "wheel") in
  ["install"; "--upgrade"; "--force-reinstall"]%string ++ args ++ ["pip"%string] ++
  (if implicit_setuptools then ["setuptools"%string] else []) ++
  (if implicit_wheel then ["wheel"%string] else []).

Definition write_file (path : string) (data : list Z) : W unit :=
  modify (λ s, mkPip (dset path data (ps_files s)) (ps_path s) (ps_parse_args s) (ps_runs s)
                 (ps_removed s) (ps_printed s)).

(** Opening a file for writing empties it. *)
Definition open_file (path : string) : W unit := lift (open_wb path) ;; write_file path [].

(** The patched [parse_args]: the bundled certificates unless pip's defaults
    name others. *)
Definition cert_parse_args (cert_path : string) (install_parse_args : parse_fn) : parse_fn :=
  λ defaults args,
    match default_cert defaults with
    | Some (String _ _) => install_parse_args defaults args
    | _ => install_parse_args (dset "cert"%string cert_path defaults) args
    end.

Definition monkeypatch_for_cert (tmpdir : string) : W unit :=
  s ← get_state;
  lift (import_pip "pip._internal.commands.install" (ps_files s) (ps_path s)) ;;
  let cert_path := os_path_join tmpdir "cacert.pem" in
  open_file cert_path ;;
  s ← get_state;
  data ← lift (certifi_data (ps_files s) (ps_path s));
  write_file cert_path data ;;
  modify (λ s, mkPip (ps_files s) (ps_path s) (cert_parse_args cert_path (ps_parse_args s))
                 (ps_runs s) (ps_removed s) (ps_printed s)).

(** [pip_entry_point(args)]: pip may change any file. *)
Definition run_pip (args : list string) : W Z := λ s,
  let r := mkRun (ps_files s) (ps_path s) (ps_parse_args s) args in
  let '(o, fs) := pip_entry_point r in
  (o, mkPip fs (ps_path s) (ps_parse_args s) (ps_runs s ++ [r]) (ps_removed s) (ps_printed s)).

Definition bootstrap (tmpdir : string) : W unit :=
  monkeypatch_for_cert tmpdir ;;
  s ← get_state;
  lift (import_pip "pip._internal.cli.main" (ps_files s) (ps_path s)) ;;
  let args := determine_pip_install_arguments in
  code ← run_pip args;
  raise (SystemExit code).

(** The paths below a directory. *)
Definition below (dir path : string) : bool := py_startswith (os_path_join dir EmptyString) path.

(** [shutil.rmtree(dir, ignore_errors=True)]: what cannot be deleted stays. *)
Definition stays (dir path : string) : bool := negb (below dir path) || undeletable path.

Definition rmtree (dir : string) : W unit :=
  modify (λ s, mkPip (filter (λ e, stays dir e.1 = true) (ps_files s)) (ps_path s)
                 (ps_parse_args s) (ps_runs s) (ps_removed s ++ [dir]) (ps_printed s)).

Definition unpack_and_run (tmpdir : string) : W unit :=
  let pip_zip := os_path_join tmpdir "pip.zip" in
  open_file pip_zip ;;
  data ← lift (b85decode (without_newlines DATA));
  write_file pip_zip data ;;
  modify (λ s, mkPip (ps_files s) (pip_zip :: ps_path s) (ps_parse_args s) (ps_runs s) (ps_removed s)
                 (ps_printed s)) ;;
  bootstrap tmpdir.

(** [main]: without a directory there is nothing to clean up. *)
Definition pip_main : W unit :=
  match mkdtemp with
  | Ret tmpdir =>
      try_finally (unpack_and_run tmpdir)
        (if String.eqb tmpdir EmptyString then mret tt else rmtree tmpdir)
  | o => lift (_ ← o; Ret tt)
  end.

(** The whole script. *)
Definition get_pip (this_python : Z * Z) : W unit :=
  if too_old this_python then
    modify (λ s, mkPip (ps_files s) (ps_path s) (ps_parse_args s) (ps_runs s) (ps_removed s)
                   (ps_printed s ++ [version_message this_python])) ;;
    raise (SystemExit 1)
  else pip_main.

(** ** Correctness *)

Lemma drop_switch (b : bool) (x : string) (l : list string) :
  (x ∈ l → b = true) → (if b then filter (λ y, y ≠ x) l else l) = filter (λ y, y ≠ x) l.
Proof.
  destruct b; [done|]. intros Hx. induction l as [|y l IH]; [done|].
  rewrite filter_cons. destruct (decide (y ≠ x)) as [Hne|Heq].
  - f_equal. apply IH. intros Hin. apply Hx. by right.
  - exfalso. apply Heq. intros ->. discriminate Hx. left.
Qed.

(** Also: the two switches of the script are never handed on to pip, the other
    arguments are, in their order; pip itself is always installed, setuptools
    and wheel exactly when they are missing and not declined. *)
Theorem pip_arguments_correct :
  ∃ args extra, determine_pip_install_arguments =
      ["install"; "--upgrade"; "--force-reinstall"]%string ++ args ++ ["pip"%string] ++ extra ∧
    args = filter (λ x, x ≠ "--no-setuptools"%string ∧ x ≠ "--no-wheel"%string) (tail argv) ∧
    ("setuptools"%string ∈ extra ↔ importable "setuptools" = false ∧
       "--no-setuptools"%string ∉ argv ∧ env_set "PIP_NO_SETUPTOOLS" = false) ∧
    ("wheel"%string ∈ extra ↔ importable "wheel" = false ∧
       "--no-wheel"%string ∉ tail argv ∧ env_set "PIP_NO_WHEEL" = false).
Proof.
  rewrite /determine_pip_install_arguments.
  set (b1 := bool_decide ("--no-setuptools"%string ∈ argv) || env_set "PIP_NO_SETUPTOOLS").
  rewrite (drop_switch b1 "--no-setuptools"); last first.
  { intros Hin. rewrite /b1 bool_decide_true //. by destruct argv; [|right]. }
  set (args := filter (λ y, y ≠ "--no-setuptools"%string) (tail argv)).
  set (b2 := bool_decide ("--no-wheel"%string ∈ args) || env_set "PIP_NO_WHEEL").
  rewrite (drop_switch b2 "--no-wheel"); last first.
  { intros Hin. by rewrite /b2 bool_decide_true. }
  assert (b1 = false ↔ "--no-setuptools"%string ∉ argv ∧ env_set "PIP_NO_SETUPTOOLS" = false) as Hb1.
  { rewrite /b1 orb_false_iff bool_decide_eq_false. done. }
  assert (b2 = false ↔ "--no-wheel"%string ∉ tail argv ∧ env_set "PIP_NO_WHEEL" = false) as Hb2.
  { rewrite /b2 orb_false_iff bool_decide_eq_false /args list_elem_of_filter. naive_solver. }
  eexists _, _. split; [reflexivity|]. split; [|split].
  - rewrite /args list_filter_filter. apply list_filter_iff. intros x. naive_solver.
  - rewrite -Hb1. destruct b1, (importable "setuptools"), (negb b2 && negb (importable "wheel"));
      set_solver.
  - rewrite -Hb2. destruct b2, (importable "wheel"), (negb b1 && negb (importable "setuptools"));
      set_solver.
Qed.

(** *** The run of pip *)

Lemma prefix_app a b : py_startswith a (a +:+ b) = true.
Proof.
  rewrite /py_startswith. induction a as [|c a IH]; [by destruct b|]. simpl.
  by destruct (ascii_dec c c).
Qed.

(** A file name joined to a directory. *)
Lemma join_below dir name :
  py_startswith "/" name = false → below dir (os_path_join dir name) = true.
Proof.
  intros Hname. rewrite /below /os_path_join Hname.
  change (py_startswith "/" EmptyString) with false. cbv iota.
  destruct (_ || _); [|rewrite -!str_app_assoc]; rewrite str_app_nil; apply prefix_app.
Qed.

Lemma join_distinct dir : os_path_join dir "cacert.pem" ≠ os_path_join dir "pip.zip".
Proof.
  rewrite /os_path_join. cbn [py_startswith String.prefix]. simpl.
  destruct (_ || _); rewrite ?str_app_assoc; by intros ?%(inj (String.append _)).
Qed.

Lemma dget_filter {A} (Q : string → bool) (k : string) (d : list (string * A)) :
  dget k (filter (λ e, Q e.1 = true) d) = if Q k then dget k d else None.
Proof.
  induction d as [|[k' v] d IH]; [by destruct (Q k)|].
  rewrite filter_cons. cbn [fst]. destruct (decide (Q k' = true)) as [H'|H']; cbn [dget]; rewrite IH;
    destruct (decide (k = k')) as [->|]; try done; by destruct (Q k').
Qed.

(** Two sets of files agree outside of a directory. *)
Definition same_outside (dir : string) (fs fs' : files) : Prop :=
  ∀ path, below dir path = false → dget path fs' = dget path fs.

Lemma same_outside_dset dir name data fs fs' :
  py_startswith "/" name = false → same_outside dir fs fs' →
  same_outside dir fs (dset (os_path_join dir name) data fs').
Proof.
  intros Hname H path Hp. rewrite dget_dset_ne; [by apply H|]. intros ->.
  by rewrite join_below in Hp.
Qed.

Section Run.
(** A fresh directory in which files can be created, and the content of the
    payload. *)
Variables (tmpdir : string) (zip : list Z).
Hypothesis Htmp : mkdtemp = Ret tmpdir.
Hypothesis Hdir : tmpdir ≠ EmptyString.
Hypothesis Hopen : ∀ name, open_wb (os_path_join tmpdir name) = Ret tt.
Notation pip_zip := (os_path_join tmpdir "pip.zip").
Notation cert_path := (os_path_join tmpdir "cacert.pem").

(** What pip finds when it is called after a start in [s]. *)
Definition prepared (s : pip_state) (r : pip_run) : Prop :=
  dget pip_zip (run_files r) = Some zip ∧
  (∃ fs certs, dget pip_zip fs = Some zip ∧ certifi_data fs (run_path r) = Ret certs ∧
     dget cert_path (run_files r) = Some certs) ∧
  same_outside tmpdir (ps_files s) (run_files r) ∧
  run_path r = pip_zip :: ps_path s ∧
  run_parse_args r = cert_parse_args cert_path (ps_parse_args s) ∧
  run_args r = determine_pip_install_arguments.

(** The only reasons not to call pip. *)
Definition unusable (path : list string) : Prop :=
  ∃ fs, dget pip_zip fs = Some zip ∧
    (import_pip "pip._internal.commands.install" fs path ≠ Ret tt ∨
     import_pip "pip._internal.cli.main" fs path ≠ Ret tt ∨
     ∀ certs, certifi_data fs path ≠ Ret certs).

(** The exit status that pip returns, or what it raises. *)
Definition exits_with (o : outcome Z) : outcome unit :=
  code ← o; Raise (SystemExit code).

(** A run that ends with the outcome and the state [res]: without a call of pip,
    or with one. *)
Definition called (s : pip_state) (res : outcome unit * pip_state) : Prop :=
  ps_runs res.2 = ps_runs s ∧ unusable (pip_zip :: ps_path s) ∧
    same_outside tmpdir (ps_files s) (ps_files res.2) ∨
  ∃ r, ps_runs res.2 = ps_runs s ++ [r] ∧ prepared s r ∧
    res.1 = exits_with (pip_entry_point r).1 ∧
    same_outside tmpdir (pip_entry_point r).2 (ps_files res.2).

Lemma zip_kept data fs :
  dget pip_zip fs = Some zip → dget pip_zip (dset cert_path data fs) = Some zip.
Proof. intros. rewrite dget_dset_ne //. by apply not_eq_sym, join_distinct. Qed.

(** A step that is not followed by a call of pip. *)
Lemma no_call s o s' :
  ps_runs s' = ps_runs s → ps_removed s' = ps_removed s →
  same_outside tmpdir (ps_files s) (ps_files s') → unusable (pip_zip :: ps_path s) →
  called s (o, s') ∧ ps_removed s' = ps_removed s.
Proof. intros Hr Hd Hf Hu. split; [by left|done]. Qed.

(** The state with [pip.zip] and the search path in place. *)
Definition unpacked (s : pip_state) : pip_state :=
  mkPip (dset pip_zip zip (ps_files s)) (pip_zip :: ps_path s) (ps_parse_args s) (ps_runs s)
    (ps_removed s) (ps_printed s).

(** The state with the certificates in place. *)
Definition certified (certs : list Z) (s : pip_state) : pip_state :=
  mkPip (dset cert_path certs (ps_files (unpacked s))) (pip_zip :: ps_path s)
    (cert_parse_args cert_path (ps_parse_args s)) (ps_runs s) (ps_removed s) (ps_printed s).

Lemma monkeypatch_cases s :
  (∃ o s', monkeypatch_for_cert tmpdir (unpacked s) = (o, s') ∧ o ≠ Ret tt ∧
     called s (o, s') ∧ ps_removed s' = ps_removed s) ∨
  (∃ fs certs, dget pip_zip fs = Some zip ∧ certifi_data fs (pip_zip :: ps_path s) = Ret certs ∧
     monkeypatch_for_cert tmpdir (unpacked s) = (Ret tt, certified certs s)).
Proof.
  pose proof (dget_dset_eq pip_zip zip (ps_files s)) as H1.
  rewrite /monkeypatch_for_cert /open_file Hopen. erewrite bind_ret by reflexivity.
  destruct (import_pip _ _ _) as [[]| e | |] eqn:Himp; last first.
  1-3: left; eexists _, _; split; [reflexivity|split; [done|]]; apply no_call;
    [done|done|by apply same_outside_dset|]; exists (ps_files (unpacked s)); split; [done|left];
    change (pip_zip :: ps_path s) with (ps_path (unpacked s)); by rewrite Himp.
  erewrite bind_ret by reflexivity. cbv zeta. erewrite bind_ret by reflexivity.
  erewrite bind_ret by reflexivity. cbv beta.
  set (fs := dset cert_path [] (ps_files (unpacked s))).
  change (lift (certifi_data _ _)) with
    (lift (S := pip_state) (certifi_data fs (pip_zip :: ps_path s))).
  assert (dget pip_zip fs = Some zip) as H2 by (by apply zip_kept).
  destruct (certifi_data fs _) as [certs| e | |] eqn:Hcerts; last first.
  1-3: left; eexists _, _; split; [reflexivity|split; [done|]]; apply no_call;
    [done|done|by repeat apply same_outside_dset|]; exists fs; split; [done|right; right];
    by rewrite Hcerts.
  right. exists fs, certs. split; [done|split; [done|]]. erewrite bind_ret by reflexivity.
  erewrite bind_ret by reflexivity. rewrite /modify /certified /= dset_dset //.
Qed.

Lemma bootstrap_called s :
  called s (bootstrap tmpdir (unpacked s)) ∧
  ps_removed (bootstrap tmpdir (unpacked s)).2 = ps_removed s.
Proof.
  rewrite /bootstrap.
  destruct (monkeypatch_cases s) as [(o & s' & Hrun & Ho & Hs)|(fs & certs & Hfs & Hcerts & Hrun)].
  { rewrite /mbind /M_bind Hrun. by destruct o as [[]| | |]. }
  erewrite bind_ret by exact Hrun. erewrite bind_ret by reflexivity. cbv beta.
  assert (dget pip_zip (ps_files (certified certs s)) = Some zip) as H3.
  { apply zip_kept, dget_dset_eq. }
  destruct (import_pip _ _ _) as [[]| e | |] eqn:Himp; last first.
  1-3: apply no_call; [done|done|by repeat apply same_outside_dset|];
    exists (ps_files (certified certs s)); split; [done|right; left];
    change (pip_zip :: ps_path s) with (ps_path (certified certs s)); by rewrite Himp.
  erewrite bind_ret by reflexivity. cbv zeta.
  set (r := mkRun (ps_files (certified certs s)) (ps_path (certified certs s))
              (ps_parse_args (certified certs s)) determine_pip_install_arguments).
  assert (prepared s r) as Hr.
  { split; [done|]. split; [exists fs, certs; split; [done|split; [done|]]; apply dget_dset_eq|].
    split; [by repeat apply same_outside_dset|done]. }
  rewrite /mbind /M_bind /run_pip. fold r. destruct (pip_entry_point r) as [o fs'] eqn:Ho.
  split; [right; exists r|by destruct o].
  rewrite Ho /exits_with. by destruct o.
Qed.

Lemma unpack_run s :
  b85decode (without_newlines DATA) = Ret zip →
  unpack_and_run tmpdir s = bootstrap tmpdir (unpacked s).
Proof.
  intros Hdata. rewrite /unpack_and_run /open_file Hopen. erewrite bind_ret by reflexivity.
  rewrite Hdata. erewrite bind_ret by reflexivity. erewrite bind_ret by reflexivity.
  erewrite bind_ret by reflexivity. rewrite /unpacked /= dset_dset //.
Qed.

(** What is left when the script ends. *)
Definition cleaned (s s' : pip_state) : Prop :=
  ps_removed s' = ps_removed s ++ [tmpdir] ∧
  ∀ path, below tmpdir path = true → undeletable path = false → dget path (ps_files s') = None.

Lemma rmtree_outside fs fs' :
  same_outside tmpdir fs fs' →
  same_outside tmpdir fs (filter (λ e, stays tmpdir e.1 = true) fs').
Proof. intros H path Hp. rewrite dget_filter /stays Hp. by apply H. Qed.

Lemma main_called s :
  b85decode (without_newlines DATA) = Ret zip →
  called s (pip_main s) ∧
  ((pip_main s).1 = Blocked ∨ (pip_main s).1 = OutOfFuel ∨ cleaned s (pip_main s).2).
Proof.
  intros Hdata. rewrite /pip_main Htmp /try_finally unpack_run //.
  rewrite (proj2 (String.eqb_neq tmpdir EmptyString) Hdir).
  destruct (bootstrap_called s) as [Hcall Hrem].
  destruct (bootstrap tmpdir (unpacked s)) as [o s']. cbn in Hrem.
  assert (called s (o, (rmtree tmpdir s').2) ∧ cleaned s (rmtree tmpdir s').2) as [Hc Hcl].
  { split.
    - destruct Hcall as [(H1 & H2 & H3)|(r & H1 & H2 & H3 & H4)]; [left|right; exists r];
        repeat (split; [done|]); by apply rmtree_outside.
    - split; [by rewrite /= Hrem|]. intros path Hb Hu. cbn [rmtree modify snd ps_files].
      by rewrite dget_filter /stays Hb Hu. }
  destruct o as [[]|e| |]; split; try done; auto.
Qed.


End Run.
End GetPip.

(** *** Instances *)

Definition sample_start : pip_state (options := unit) := mkPip [] [] (λ _ _, Ret tt) [] [] [].

(** A pip that installs one file. *)
Definition sample_entry (code : outcome Z) (r : pip_run (options := unit)) :
    outcome Z * list (string * list Z) :=
  (code, dset "/usr/bin/pip"%string [35%Z] (run_files r)).

Notation sample_pip env argv installed import certs code data :=
  (pip_main (options := unit) env argv installed (λ _, None) (Ret "/tmp/x"%string) (λ _, Ret tt)
     (λ _, false) import certs (sample_entry code) data sample_start).

