(* ===== verification/PipPayload.v ===== *)
(** * The end of the payload of get-pip.py

    The last lines of [DATA] in src/kubespray/get-pip.py, as they are in the
    file: they hold the directory of the zip file, which Python reads to import
    from it.  Here is the text, its decoding, and what the directory lists.  The
    lines before, with the compressed files, are not transcribed. *)

From S2P Require Import Prelude Base85 GetPip.

Definition DATA_directory_1 : string :=
"7=2>&iP0xUpBQ~&^oh|YMxPjcB>G77k?14QN1~5JABjE^eI)uw^pWTz(MO_>L?4Mh5`7Z%Nzf-jp9Fm
p^hwYsL7xPD67)&XCqbVCeG>FZ&?iBk1br0xDD+Y2qtHj8k3t`XJ_>yl`Y7~K=%dg_p^rizg+2;>H2P
@t(deVmN28BMAB{d5eKh)L^wH>}(MO|?Mjwqn8hr?T2z>~B2z>~B2z>~B2z>~B2z>~B2z>~B2z>~B2z
?Ct81ymdW6;N-k3k=UJ_daZ`WW;v=wr~wppQWxgFeRjbn1VvPxu2wRR8xjHoxV<*N6YIN|tG++qb_>{
{v7<0Rj{Q6aWAK2mt$eR#TliG(h+O003nH000jF0000000000005+c00000aA|NaUtei%X>?y-E^v8J
O928D0~7!N00;p4c~(;+8{@xi0ssK61ONaJ00000000000001_fh7R|0B~t=FJE76VQFq(UoLQYP)h*
<6ay3h000O8`*~JV&BwqszyJUM9svLV3;+NC0000000000q=CN!003}la4&FqE_8WtWn@rG0Rj{Q6aW
AK2mt$eR#TR>aG_BF002D#000>P0000000000005+csRRH3aA|NaUukZ1WpZv|Y%gD5X>MtBUtcb8c~
DCM0u%!j000080Q-4XQ(rU*uN({j0Ny4502%-Q00000000000HlF21^@tXX>c!JX>N37a&BR4FJg6RY
-C?$Zgwtkc~DCM0u%!j000080Q-4XQw7u2l@$vB0O2G602TlM00000000000HlG15&!^jX>c!JX>N37
a&BR4FJob2Xk{*Nc~DCM0u%!j000080Q-4XQ=-7pTFMUq0AVu#03HAU00000000000HlG=9RL7uX>c!
JX>N37a&BR4FJo_RW@%@2a$$67Z*DGdc~DCM0u%!j000080Q-4XQ{;JOYzz<p0NODC02=@R00000000
000HlG`EdT&;X>c!JX>N37a&BR4FJ*XRWpH$9Z*FrgaCuNm0Rj{Q6aWAK2mt$eR#PVcqo?Qq002}000
0#L0000000000005+c89o32aA|NaUukZ1WpZv|Y%gtLX>KlXc~DCM0u%!j000080Q-4XQ#;j?=0FJm0
52Q>02%-Q00000000000HlF5KL7x5X>c!JX>N37a&BR4FK~Hqa&Ky7V{|TXc~DCM0u%!j000080Q-4X
Q;uiz4&(>`0QndI03-ka00000000000HlGeNB{tEX>c!JX>N37a&BR4FLPyVW?yf0bYx+4Wn^DtXk}w
-E^v8JO928D0~7!N00;p4c~(=hw_o*?3;+PvF8}}@00000000000001_fznX`0B~t=FJEbHbY*gGVQe
pVXk}$=Ut)D>Y-D9}E^v8JO928D0~7!N00;p4c~(=-cj`1~0001l0000T00000000000001_fuddj0B
~t=FJEbHbY*gGVQepBY-ulFUukY>bYEXCaCuNm0Rj{Q6aWAK2mt$eR#VjdaF^N#0093O001KZ000000
0000005+cMPC2_aA|NaUukZ1WpZv|Y%gPMX)j@QbZ=vCZE$R5bZKvHE^v8JO928D0~7!N00;p4c~(<)
AAbh82><|Y9smF#00000000000001_fna9<0B~t=FJEbHbY*gGVQepBY-ulIVRL0)V{dJ3VQyqDaCuN
m0Rj{Q6aWAK2mt$eR#V<dghXi`008H10018V0000000000005+cS8)IUaA|NaUukZ1WpZv|Y%gPMX)j
}KWN&bEX>V?GE^v8JO928D0~7!N00;p4c~(;(W`@cs0RRB_0ssIc00000000000001_f&GsF0B~t=FJ
EbHbY*gGVQepBY-ulJZ*6U1Ze(9$Z*FvDcyumsc~DCM0u%!j000080Q-4XQ)*dce2@eH0H_H702u%P0
0000000000HlFvkpKX2X>c!JX>N37a&BR4FJo+JFKuCIZZ2?nP)h*<6ay3h000O8`*~JVm>Usq2Lu2B
HVOa$AOHXW0000000000q=7G%003}la4%nJZggdGZeeUMV{B<JZDDC{UvOb^b7gWaaCuNm0Rj{Q6aWA
K2mt$eR#U^Vgc8LJ001N^000{R0000000000005+cbeaGFaA|NaUukZ1WpZv|Y%gPMX)kbLa&u*JE^v
8JO928D0~7!N00;p4c~(<%olgav3IG6XAOHX&00000000000001_fpVt+0B~t=FJEbHbY*gGVQepBY-
ulWa&KpHWpi_1VqtP~E^v8JO928D0~7!N00;p4c~(;;^QYg35&!_nLI40D00000000000001_fljgj0
B~t=FJEbHbY*gGVQepBY-ulYWpQ6)Z*6U1Ze%WSc~DCM0u%!j000080Q-4XQzRv+u!{x&0Mruz0384T
00000000000HlEv#Q*?sX>c!JX>N37a&BR4FJo+JFLQ8dZf<3Ab1rasP)h*<6ay3h000O8`*~JV{dxd
PSO5S3bN~PVApigX0000000000q=DJX003}la4%nJZggdGZeeUMV{B<Jb97;Jb#q^1Z)9b2E^v8JO92
8D0~7!N00;p4c~(>6he1Pj1ONb-4gdfm00000000000001_fpE+K0B~t=FJEbHbY*gGVQepBZ*6U1Ze
(*WUtei%X>?y-E^v8JO928D0~7!N00;p4c~(<6gYW%*2mk<N9RL6y00000000000001_fhN%a0B~t=F
JEbHbY*gGVQepBZ*6U1Ze(*WV_{=xWiD`eP)h*<6ay3h000O8`*~JV8a8Z+F#-Spl?DI+9{>OV00000
00000q=Dht003}la4%nJZggdGZeeUMV{dJ3VQyq|FJowBV{0yOc~DCM0u%!j000080Q-4XQ|fU;s?`G
k0FDa)03-ka00000000000HlFW+yDS@X>c!JX>N37a&BR4FJo_QZDDR?b1!3WZE$R5bZKvHE^v8JO92
8D0~7!N00;p4c~(=T(w7#`2><}_A^-p<00000000000001_fo9+U0B~t=FJEbHbY*gGVQepBZ*6U1Ze
(*WV{dL|X=inEVRUJ4ZZ2?nP)h*<6ay3h000O8`*~JVT3!3Cp$Gr~<rx3~9{>OV0000000000q=9<s0
03}la4%nJZggdGZeeUMV{dJ3VQyq|FJxt6b!RScc~DCM0u%!j000080Q-4XQ@yQ_ZIJ~404Ngx03rYY
00000000000HlFf^8f&FX>c!JX>N37a&BR4FJo_QZDDR?b1!6XcW!KNVPr0Fc~DCM0u%!j000080Q-4
XQ~$H#<-r300EY_z03ZMW00000000000HlE_`2YZLX>c!JX>N37a&BR4FJo_QZDDR?b1!CcWo3G0E^v
8JO928D0~7!N00;p4c~(=u$ot^q0ssJ~1^@sa00000000000001_fhhd|0B~t=FJEbHbY*gGVQepBZ*
6U1Ze(*WXkl|`E^v8JO928D0~7!N00;p4c~(=2!<0Pg0RRAO1ONaY00000000000001_fkyxV0B~t=F
JEbHbY*gGVQepBZ*6U1Ze(*WXk~10E^v8JO928D0~7!N00;p4c~(;`3unU81pok=5&!@n0000000000
0001_fo%c-0B~t=FJEbHbY*gGVQepBZ*6U1Ze(*WX>Md?crI{xP)h*<6ay3h000O8`*~JV9AJnmU>g7
c%WMDuApigX0000000000q=9@00RV7ma4%nJZggdGZeeUMV{dJ3VQyq|FKKRbbYX04E^v8JO928D0~7
!N00;p4c~(>7Sb)bq3;+PDF8}}@00000000000001_fg2<N0B~t=FJEbHbY*gGVQepBZ*6U1Ze(*WY-
w|JE^v8JO928D0~7!N00;p4c~(<buJbQq2LJ#;761Ss00000000000001_ft4@;0B~t=FJEbHbY*gGV
QepBZ*6U1Ze(*Wb7f(2V`wgLc~DCM0u%!j000080Q-4XQ{X~L^z#V-0DvC=03HAU00000000000HlF6
H~|1~X>c!JX>N37a&BR4FJo_QZDDR?b1!pfZ+9+mc~DCM0u%!j000080Q-4XQ!gWy@R<Yv0LBdf03!e
Z00000000000HlFrLID79X>c!JX>N37a&BR4FJo_QZDDR?b1!vnX>N0LVQg$JaCuNm0Rj{Q6aWAK2mt
$eR#OXid4LQD000;m0018V0000000000005+cK1TrnaA|NaUukZ1WpZv|Y%gPPZEaz0WOFZfXk}$=E^
v8JO928D0~7!N00;p4c~(=?bqy{%0RRA60{{Rg00000000000001_frm~30B~t=FJEbHbY*gGVQepCX
>)XPX<~JBX>V?GFJE72ZfSI1UoLQYP)h*<6ay3h000O8`*~JVXbO;_`~d&}lmq|(BLDyZ0000000000
q=5%e0RV7ma4%nJZggdGZeeUMWNCABa%p09bZKvHb1!0Hb7d}Yc~DCM0u%!j000080Q-4XQ;*`ja$Nx
c0RI9204M+e00000000000HlFLQUL&PX>c!JX>N37a&BR4FJx(RbaH88b#!TOZgVebZgX^DY;0v@E^v
8JO928D0~7!N00;p4c~(;vfl9b{1^@uw6#xJv00000000000001_f#*{J0B~t=FJEbHbY*gGVQepCX>
)XPX<~JBX>V?GFLPvRb963nc~DCM0u%!j000080Q-4XQvgu2Xxae)09ynA03-ka00000000000HlGSS
^)rXX>c!JX>N37a&BR4FJx(RbaH88b#!TOZgVepXk}$=E^v8JO928D0~7!N00;p4c~(<HKTFOa0000U
0000V00000000000001_fxKJ+0B~t=FJEbHbY*gGVQepHZe(S6FJE72ZfSI1UoLQYP)h*<6ay3h000O
8`*~JV-bvs4$Q1wpenbEOAOHXW0000000000q=6Y-0RV7ma4%nJZggdGZeeUMX>Md?crRmbY;0v?bZ>
GlaCuNm0Rj{Q6aWAK2mt$eR#Ts`S07&@008)n001Qb0000000000005+cA9Dc!aA|NaUukZ1WpZv|Y%
ghUWMz0SaA9L>VP|DuW@&C@WpXZXc~DCM0u%!j000080Q-4XQ`;-Z>hA>r0G$~C03HAU00000000000
HlGzl>q>7X>c!JX>N37a&BR4FKKRMWq2=hZ*_8GWpgfYc~DCM0u%!j000080Q-4XQ^k>Mqx%p50Bkq_
03!eZ00000000000HlHJn*jiDX>c!JX>N37a&BR4FKlmPVRUJ4ZgVeRUukY>bYEXCaCuNm0Rj{Q6aWA
K2mt$eR#Wqj+MRm{008e6001Qb0000000000005+cD6IhiaA|NaUukZ1WpZv|Y%gqYV_|e@Z*FrhUu0
=>baixTY;!Jfc~DCM0u%!j000080Q-4XQ#cE&dK(G=0PY?D03`qb00000000000HlHDwE+NdX>c!JX>
N37a&BR4FKlmPVRUJ4ZgVeRb9r-PZ*FF3XD)DgP)h*<6ay3h000O8`*~JVv-DZ*7XttQD+T}n9{>OV0
000000000q=7`h0RV7ma4%nJZggdGZeeUMY;R*>bZKvHb1!0Hb7d}Yc~DCM0u%!j000080Q-4XQw(z&
$U*`D0DJ}j03rYY00000000000HlGK!vO$rX>c!JX>N37a&BR4FKuOXVPs)+VJ}}_X>MtBUtcb8c~DC
M0u%!j000080Q-4XQ!azP_Xi9B0ADKr03HAU00000000000HlE$#sL6uX>c!JX>N37a&BR4FKuOXVPs
)+VJ~7~b7d}Yc~DCM0u%!j000080Q-4XQwc9KIy?pd0O1n=04D$d00000000000HlFk(g6T)X>c!JX>
N37a&BR4FKuOXVPs)+VJ~oNXJ2w<b8mHWV`XzLaCuNm0Rj{Q6aWAK2mt$eR#SV)DE>PD002J#001BW0
000000000005+c-q-;EaA|NaUukZ1WpZv|Y%gtZWMyn~FJE72ZfSI1UoLQYP)h*<6ay3h000O8`*~JV
6)>Prc>w?b-U9#tApigX0000000000q=8r20RV7ma4%nJZggdGZeeUMZEs{{Y;!MTVQyq;WMOn=E^v8
JO928D0~7!N00;p4c~(<Z=shaH1^@ug7ytkw00000000000001_fe+gO0B~t=FJEbHbY*gGVQepLZ)9
a`b1!6Ra%E$5Uv+Y9E^v8JO928D0~7!N00;p4c~(<m=#67&0{{Tn2><{l00000000000001_fe+#V0B
~t=FJEbHbY*gGVQepLZ)9a`b1!CZa&2LBUt@1>baHQOE^v8JO928D0~7!N00;p4c~(>3m#NLd0RR971
ONaX00000000000001_fxG1a0B~t=FJEbHbY*gGVQepLZ)9a`b1!LbWMz0RaCuNm0Rj{Q6aWAK2mt$e
R#RFqbX4mM003Dg000~S0000000000005+cxaR=?aA|NaUukZ1WpZv|Y%gtZWMyn~FKlUUYc6nkP)h*
<6ay3h000O8`*~JV8yxcLYykiO;sO8w9smFU0000000000q=DV^0RV7ma4%nJZggdGZeeUMZEs{{Y;!
MjV`yb<WiD`eP)h*<6ay3h000O8`*~JVAXg4IOa=e|s1X1FBme*a0000000000q=AL@0RV7ma4%nJZg
gdGZeeUMZEs{{Y;!MjWnpq-XkT+<Z*XNUaCuNm0Rj{Q6aWAK2mt$eR#S?CsOHZC0046b001Wd000000
0000005+c6a4`IaA|NaUukZ1WpZv|Y%gtZWMyn~FLPyVWn*+{Z*E_3a%E<7E^v8JO928D0~7!N00;p4
c~(<V1xIDS1ONaM4*&oq00000000000001_fhPb00B~t=FJEbHbY*gGVQepLZ)9a`b1!sZa%W|9UvPP
JXm4&VaCuNm0Rj{Q6aWAK2mt$eR#PYGR6)-K0068F0012T0000000000005+cDFp%maA|NaUukZ1WpZ
v|Y%gtZWMyn~FL!8VWo#~Rc~DCM0u%!j000080Q-4XQw|@2N-_Wd05Sjo03iSX00000000000HlF43I
YIdX>c!JX>N37a&BR4FK%UYcW-iQFJE72ZfSI1UoLQYP)h*<6ay3h000O8`*~JVt357KN(}%2o-Y6Z9
RL6T0000000000q=BRg0swGna4%nJZggdGZeeUMZe?_LZ*prdVRdw9E^v8JO928D0~7!N00;p4c~(<L
T+cx`0{{Rt2mk;c00000000000001_fhiaQ0B~t=FJEbHbY*gGVQepMWpsCMa%(SRVPj}zE^v8JO928
D0~7!N00;p4c~(;|#ZZvi1^@tn7XSbu00000000000001_ft?!y0B~t=FJEbHbY*gGVQepMWpsCMa%(
SSZ+C8NZ((FEaCuNm0Rj{Q6aWAK2mt$eR#Vw`{h`|l007G!001KZ0000000000005+cwju%maA|NaUu
kZ1WpZv|Y%gwQba!uZYcFhJdU;=WXk}$=E^v8JO928D0~7!N00;p4c~(=MVHVw<6#xKPK>z?C000000
00000001_fzm7j0B~t=FJEbHbY*gGVQepMWpsCMa%(ShWpi_BZ*DGdc~DCM0u%!j000080Q-4XQ`3)D
F}no-0NW1$03HAU00000000000HlGgLIMDAX>c!JX>N37a&BR4FK%UYcW-iQFLiWjY;!Jfc~DCM0u%!
j000080Q-4XQ!TH1U%CPS0RIL603QGV00000000000HlGXNCE(GX>c!JX>N37a&BR4FK%UYcW-iQFL-
Tia&TiVaCuNm0Rj{Q6aWAK2mt$eR#N}~0006200000001Na0000000000005+coJ#@#aA|NaUukZ1Wp
Zv|Y%gzcWpZJ3X>V?GFJE72ZfSI1UoLQYP)h*<6ay3h000O8`*~JV>CLabA_f2e^%DR9ApigX000000
0000q=Dc|0swGna4%nJZggdGZeeUMZ*XODVRUJ4ZgVeVXk}w-E^v8JO928D0~7!N00;p4c~(=zz6u&A
3IG5qCIA2;00000000000001_fk9FN0B~t=FJEbHbY*gGVQepNaAk5~bZKvHb1!CcWo3G0E^v8JO928
D0~7!N00;p4c~(>WI%Nj382|ttT>t<h00000000000001_fv8*p0B~t=FJEbHbY*gGVQepNaAk5~bZK
vHb1!gmWpH6~WiD`eP)h*<6ay3h000O8`*~JV000000ssI200000DgXcg0000000000q=B1u0swGna4
%nJZggdGZeeUMZ*XODVRUJ4ZgVeUb!lv5FJE72ZfSI1UoLQYP)h*<6ay3h000O8`*~JVSuni*0|Ed5U
jzUEDgXcg0000000000q=Dsj0swGna4%nJZggdGZeeUMZ*XODVRUJ4ZgVeUb!lv5FKuOXVPs)+VJ>ia
P)h*<6ay3h000O8`*~JVz2<6y83F(RnFIg;GXMYp0000000000q=7Jb0swGna4%nJZggdGZeeUMZ*XO
DVRUJ4ZgVeUb!lv5FKuOXVPs)+VP9orX>?&?Y-KKRc~DCM0u%!j000080Q-4XQ>U8^`|<(+0GS5>05J
dn00000000000HlGMdjbG(X>c!JX>N37a&BR4FK=*Va$$67Z*FrhVs&Y3WG`)HbYWy+bYWj?WoKbyc`
k5yP)h*<6ay3h000O8`*~JV;ye;Y=m7u#Cj<ZhCjbBd0000000000q=DOh0swGna4%nJZggdGZeeUMZ
*XODVRUJ4ZgVeUb!lv5FL!8VWo#~Rc~DCM0u%!j000080Q-4XQ-`Re#X$l90DT1j05AXm0000000000
0HlEkfdT+<X>c!JX>N37a&BR4FK=*Va$$67Z*FrhVs&Y3WG{DUWo2w%Wn^h|VPb4$E^v8JO928D0~7!
N00;p4c~(<_$cJSK1ONc%3jhEv00000000000001_ftP~<0B~t=FJEbHbY*gGVQepNaAk5~bZKvHb1!
0bX>4RKcW7m0Y+r0;XJKP`E^v8JO928D0~7!N00;p4c~(>5-4uH@0000p0000i00000000000001_f$
WC@0B~t=FJEbHbY*gGVQepNaAk5~bZKvHb1!Lbb97;BY%gD5X>MtBUtcb8c~DCM0u%!j000080Q-4XQ
{h^v-UR{x01^cN05bpp00000000000HlFyhynm`X>c!JX>N37a&BR4FK=*Va$$67Z*FrhX>N0LVQg$K
Wn^h|VPb4$Uu<P(VPknNaCuNm0Rj{Q6aWAK2mt$eR#VIg_1AL+002G^001fg0000000000005+c!HNO
^aA|NaUukZ1WpZv|Y%gzcWpZJ3X>V?GFKKRbbYX04FKlIJVPknNaCuNm0Rj{Q6aWAK2mt$eR#T6qSSr
FG000zg001cf0000000000005+ce2@YFaA|NaUukZ1WpZv|Y%gzcWpZJ3X>V?GFKKRbbYX04FL!8VWo
#~Rc~DCM0u%!j000080Q-4XQwXG`bdLi70O<+<0384T00000000000HlG1u>t^aX>c!JX>N37a&BR4F
LGsZFJE72ZfSI1UoLQYP)h*<6ay3h000O8`*~JVWn*>Aln?*_wL1U+ApigX0000000000q=8Sh0swGn
a4%nJZggdGZeeUMa%FKZV{dMAbaHiLbZ>HVE^v8JO928D0~7!N00;p4c~(;=qt)2!6951WL;wIC0000
0000000001_fg;8N0B~t=FJEbHbY*gGVQepQWpOWZWpQ6-X>4UKaCuNm0Rj{Q6aWAK2mt$eR#R!EM9=
9W000bx001BW0000000000005+cNZJAbaA|NaUukZ1WpZv|Y%g+UaW8UZabIa}b97;BY%XwlP)h*<6a
y3h000O8`*~JVBLu(1a|i$cpdA1J8~^|S0000000000q=9e!0swGna4%nJZggdGZeeUMa%FKZa%FK}b
7gccaCuNm0Rj{Q6aWAK2mt$eR#O+blrnz>000#b001BW0000000000005+c90mgbaA|NaUukZ1WpZv|
Y%g+UaW8UZabI+DVPk7$axQRrP)h*<6ay3h000O8`*~JV<o)pnl^Os5#9ROXA^-pY0000000000q=DH
B0|0Poa4%nJZggdGZeeUMa%FKZa%FK}b#7^Hb97;BY%XwlP)h*<6ay3h000O8`*~JV000000ssI2000
00Bme*a0000000000q=Bv`0|0Poa4%nJZggdGZeeUMa%FRGY;|;LZ*DJNUukY>bYEXCaCuNm0Rj{Q6a
WAK2mt$eR#W90%c=hW002h<001BW0000000000005+c@+JcSaA|NaUukZ1WpZv|Y%g+Ub8l>QbZKvHF
JfVHWiD`eP)h*<6ay3h000O8`*~JV000000ssI200000D*ylh0000000000q=7Fe0|0Poa4%nJZggdG
ZeeUMa%FRGY;|;LZ*DJaWoKbyc`sjIX>MtBUtcb8c~DCM0u%!j000080Q-4XQ}{OHU%wOp0EkBb04o3
h00000000000HlF>C<6d+X>c!JX>N37a&BR4FLGsbZ)|mRX>V>XY-ML*V|g!fWpi(Ac4cxdaCuNm0Rj
{Q6aWAK2mt$eR#N}~0006200000001ul0000000000005+cf;|HOaA|NaUukZ1WpZv|Y%g+Ub8l>QbZ
KvHFLGsbZ)|pDY-wUIUtei%X>?y-E^v8JO928D0~7!N00;p4c~(=y03zQ=1pokK6aWA#00000000000
001_fzdq!0B~t=FJEbHbY*gGVQepQWpi(Ab#!TOZZC3Wb8l>RWo&6;FJfVHWiD`eP)h*<6ay3h000O8
`*~JVYKm(DsSp4FB1ZrKF#rGn0000000000q=8~X0|0Poa4%nJZggdGZeeUMa%FRGY;|;LZ*DJgWpi(
Ac4cg7VlQK1Ze(d>VRU74E^v8JO928D0~7!N00;p4c~(<pVQ9rB8vp>dXaE2%00000000000001_fm&
1p0B~t=FJEbHbY*gGVQepQWpi(Ab#!TOZZC3Wb8l>RWo&6;FJ@t5bZ>HbE^v8JO928D0~7!N00;p4c~
(;?)mp#21^@s_761S@00000000000001_fy{3M0B~t=FJEbHbY*gGVQepQWpi(Ab#!TOZZC3Wb8l>RW
o&6;FJ^CbZe(9$VQyq;WMOn=b1rasP)h*<6ay3h000O8`*~JVRpR%rEerqv^&<cPF8}}l0000000000
q=DUb0|0Poa4%nJZggdGZeeUMa%FRGY;|;LZ*DJgWpi(Ac4cg7VlQxVZ+2;9WpXZXc~DCM0u%!j0000
80Q-4XQ=5KpUlRiW0Nx1z051Rl00000000000HlFeg989?X>c!JX>N37a&BR4FLGsbZ)|mRX>V>Xa%F
RGY<6XAX<{#OWpHnDbY*fbaCuNm0Rj{Q6aWAK2mt$eR#RNV>E!MN002)F001)p0000000000005+cw}
t}%aA|NaUukZ1WpZv|Y%g+Ub8l>QbZKvHFLGsbZ)|pDY-wUIa%FLKX>w(4Wo~qHE^v8JO928D0~7!N0
0;p4c~(;z7guBI3jhFYB>(^~00000000000001_f%c070B~t=FJEbHbY*gGVQepQWpi(Ab#!TOZZC3W
b8l>RWo&6;FLGsbZ)|pDaxQRrP)h*<6ay3h000O8`*~JV000000ssI2000009{>OV0000000000q=7A
%0|0Poa4%nJZggdGZeeUMb#!TLb1z?CX>MtBUtcb8c~DCM0u%!j000080Q-4XQ%ZO_Kh^;N0QUm`02=
@R00000000000HlFzm;(TCX>c!JX>N37a&BR4FLiWjY;!MPY;R{SaCuNm0Rj{Q6aWAK2mt$eR#O9VLc
*5<004mo0015U0000000000005+cdzu3PaA|NaUukZ1WpZv|Y%g_mX>4;ZVQ_F{X>xNeaCuNm0Rj{Q6
aWAK2mt$eR#W6-jcert003ME0012T0000000000005+cPMre)aA|NaUukZ1WpZv|Y%g_mX>4;ZV{dJ6
".

Definition DATA_directory_2 : string :=
"VRSBVc~DCM0u%!j000080Q-4XQ?|5;v2z9h009*M04V?f00000000000HlF#p#uPLX>c!JX>N37a&BR
4FLiWjY;!MTZ*6d4bZKH~Y-x0PUvyz-b1rasP)h*<6ay3h000O8`*~JVY!f}Mm;e9(@&Et;9{>OV000
0000000q=6`?0|0Poa4%nJZggdGZeeUMb#!TLb1!6JbY*mDZDlTSc~DCM0u%!j000080Q-4XQ_!}>j!
Xpr04ojv03rYY00000000000HlHar~?3SX>c!JX>N37a&BR4FLiWjY;!MUWpHw3V_|e@Z*DGdc~DCM0
u%!j000080Q-4XQznk}UF`z^0EP?z04V?f00000000000HlG5t^)vYX>c!JX>N37a&BR4FLiWjY;!MU
X>w&_bYFFHY+q<)Y;a|Ab1rasP)h*<6ay3h000O8`*~JVxg+o|3jzQD;RFBxB>(^b0000000000q=CJ
%0|0Poa4%nJZggdGZeeUMb#!TLb1!6Rb98ldX>4;}VRC14E^v8JO928D0~7!N00;p4c~(<fcU`$Y0{{
S<2mk;d00000000000001_feW<*0B~t=FJEbHbY*gGVQepTbZKmJFJ)(EUu<b^Yc6nkP)h*<6ay3h00
0O8`*~JVst49#4gvrGkput$9{>OV0000000000q=AOG0|0Poa4%nJZggdGZeeUMb#!TLb1!9XV{c?>Z
f7oVc~DCM0u%!j000080Q-4XQ{g5JlS2Xk03QSZ03rYY00000000000HlG@x&r`kX>c!JX>N37a&BR4
FLiWjY;!MVZgg^aaBpdDbaO6nc~DCM0u%!j000080Q-4XQ^z}7-{%Mb00kES03iSX00000000000HlF
by#oMnX>c!JX>N37a&BR4FLiWjY;!MWX>4V4d2@7SZ7y(mP)h*<6ay3h000O8`*~JVqt#C>SOEY4%mM
%aAOHXW0000000000q=9<I0|0Poa4%nJZggdGZeeUMb#!TLb1!CTY-MzLaAk8YaCuNm0Rj{Q6aWAK2m
t$eR#Q^tJykCS001To000~S0000000000005+c5Xb`naA|NaUukZ1WpZv|Y%g_mX>4;ZXKZO=V=i!cP
)h*<6ay3h000O8`*~JV5m0CS*#-ar%Mt(p9RL6T0000000000q=9+O0|0Poa4%nJZggdGZeeUMb#!TL
b1!INb7*CAE^v8JO928D0~7!N00;p4c~(=`e-Wdi0RR9S0{{Rm00000000000001_fsNDy0B~t=FJEb
HbY*gGVQepTbZKmJFKKRSWn*+-b7f<7a%FUKVQzD9Z*p`laCuNm0Rj{Q6aWAK2mt$eR#O=t$&+0T000
av0015U0000000000005+cde#E~aA|NaUukZ1WpZv|Y%g_mX>4;ZY;R|0X>MmOaCuNm0Rj{Q6aWAK2m
t$eR#V=;&!#;a007WW000{R0000000000005+c6XXK`aA|NaUukZ1WpZv|Y%g_mX>4;ZZE163E^v8JO
928D0~7!N00;p4c~(<9v<$F!0RRB01ONaX00000000000001_fr<YE0B~t=FJEbHbY*gGVQepTbZKmJ
FKusRWo&aUaCuNm0Rj{Q6aWAK2mt$eR#Rp@g-?D2004*!001BW0000000000005+cI{^d$aA|NaUukZ
1WpZv|Y%g_mX>4;ZaA9L>VP|P>XD)DgP)h*<6ay3h000O8`*~JV$Uak^jsySzd<*~p9{>OV00000000
00q=EMZ1ORYpa4%nJZggdGZeeUMb#!TLb1!gVa$#(2Wo#~Rc~DCM0u%!j000080Q-4XQ<SJaIg<eZ0N
Voq03-ka00000000000HlG!3IqUfX>c!JX>N37a&BR4FLiWjY;!MgYiD0_Wpi(Ja${w4E^v8JO928D0
~7!N00;p4c~(<7l-3zA1pok95&!@v00000000000001_ftL&f0B~t=FJEbHbY*gGVQepTbZKmJFLPyd
b#QcVZ)|g4Vs&Y3WG--dP)h*<6ay3h000O8`*~JV$(R6($qWDhN+$pSApigX0000000000q=5_)1ORY
pa4%nJZggdGZeeUMb#!TLb1!psVsLVAV`X!5E^v8JO928D0~7!N00;p4c~(=8MVb@a2><}@9RL6y000
00000000001_ffOGE0B~t=FJEbHbY*gGVQepTbZKmJFLY&Xa9?C;axQRrP)h*<6ay3h000O8`*~JVJg
Ie^3<>}M$|3*&AOHXW0000000000q=76c1ORYpa4%nJZggdGZeeUMb#!TLb1!vnaA9L>X>MmOaCuNm0
Rj{Q6aWAK2mt$eR#SeVju$xt007?x000{R0000000000005+cb~6M3aA|NaUukZ1WpZv|Y%g_mX>4;Z
b#iQTE^v8JO928D0~7!N00;p4c~(<efwCte1pokp4FCWk00000000000001_f#@~_0B~t=FJEbHbY*g
GVQepTbZKmJFLr5ibai2DWo~vZaCuNm0Rj{Q6aWAK2mt$eR#Q2M1kvvY000vh000~S0000000000005
+cNjwAqaA|NaUukZ1WpZv|Y%g_mX>4;ZcW7m0Y%XwlP)h*<6ay3h000O8`*~JVFRk9iF984mR00419R
L6T0000000000q=9lo1ORYpa4%nJZggdGZeeUMc4KodUtei%X>?y-E^v8JO928D0~7!N00;p4c~(<FK
wPil0{{Ri3jhEc00000000000001_f!sv|0B~t=FJEbHbY*gGVQepUV{<QJVR~U<axQRrP)h*<6ay3h
000O8`*~JV>$_h7T@?TTj70zd7ytkO0000000000q=ENI1ORYpa4%nJZggdGZeeUMc4KodXK8dUaCuN
m0Rj{Q6aWAK2mt$eR#TU6$*GwI002=F0015U0000000000005+cieCf(aA|NaUukZ1WpZv|Y%g|Wb1!
XWa$|LJX<=+GaCuNm0Rj{Q6aWAK2mt$eR#R%uV*EA^002xa0018V0000000000005+cUu6UUaA|NaUu
kZ1WpZv|Y%g|Wb1!psVs>S6b7^mGE^v8JO928D0~7!N00;p4c~(<%F(Ir$7ytl{R{#Jb00000000000
001_fzopX0B~t=FJEbHbY*gGVQepUV{<QdWpZ<AZ*F66Zgg^QY%XwlP)h*<6ay3h000O8`*~JVTcW=K
Ck6ljWD)=X7XSbN0000000000q=8h71ORYpa4%nWWo~3|axY(BX>MtBUtcb8c~DCM0u%!j000080Q-4
XQ>83)(Elp{03N*n02KfL00000000000HlGik^}&7X>c!Jc4cm4Z*nhWX>)XPZ!U0oP)h*<6ay3h000
O8`*~JV1`i|L^ZNh*@+$-Y7ytkO0000000000q=DkT1ORYpa4%nWWo~3|axZXsaA9(DX>MmOaCuNm0R
j{Q6aWAK2mt$eR#VdT<j(;i008xd000sI0000000000005+c3%dmXaA|NaUv_0~WN&gWb7^=kaCuNm0
Rj{Q6aWAK2mt$eR#QEaJPHp1006K7000&M0000000000005+cJlq8UaA|NaUv_0~WN&gWc4cm4Z*nel
cyv%p0Rj{Q6aWAK2mt$eR#RH|qVcQ%001rl001Na0000000000005+cf87NDaA|NaUv_0~WN&gWV_{=
xWn*t{baHQOFJE72ZfSI1UoLQYP)h*<6ay3h000O8`*~JVN}GA70s;U44+Q`KAOHXW0000000000q=9
YT1pshqa4%nWWo~3|axY_HV`yb#Z*FvQZ)`7LV{K$EaCuNm0Rj{Q6aWAK2mt$eR#Qi57zdFB000sb00
1KZ0000000000005+ct>6U!aA|NaUv_0~WN&gWV_{=xWn*t{baHQOFJWY1aCBvIE^v8JO928D0~7!N0
0;p4c~(=#V!TZ<0RR9c0{{Ra00000000000001_fq&)&0B~t=FJE?LZe(wAFJob2Xk}w>Zgg^QY%gPB
V`ybAaCuNm0Rj{Q6aWAK2mt$eR#SzRWD^nr006fF001HY0000000000005+c@aF{paA|NaUv_0~WN&g
WV_{=xWn*t{baHQOFJo_QaA9;VaCuNm0Rj{Q6aWAK2mt$eR#TS#Z*33|002cd001Tc0000000000005
+cLg@tnaA|NaUv_0~WN&gWV_{=xWn*t{baHQOFJo_RbaHQOY-MsTaCuNm0Rj{Q6aWAK2mt$eR#WrQ{u
=rN0089)001Wd0000000000005+cmiYw$aA|NaUv_0~WN&gWV_{=xWn*t{baHQOFJ@_MWp{F6aByXEE
^v8JO928D0~7!N00;p4c~(=DC2d}>1pol%4*&or00000000000001_fz|y50B~t=FJE?LZe(wAFJob2
Xk}w>Zgg^QY%geKb#iHQbZKLAE^v8JO928D0~7!N00;p4c~(=m$h}$^2><}I8vp<$00000000000001
_fye^}0B~t=FJE?LZe(wAFJob2Xk}w>Zgg^QY%g<Va%o{~X?kTYaCuNm0Rj{Q6aWAK2mt$eR#T@vxzg
?c006QA001KZ0000000000005+cBMk-saA|NaUv_0~WN&gWV_{=xWn*t{baHQOFL!cbaByXEE^v8JO9
28D0~7!N00;p4c~(;yzql|r000110000h00000000000001_fl>|z0B~t=FJE?LZe(wAFJob2Xk}w>Z
gg^QY%gPBV`yb_FJE72ZfSI1UoLQYP)h*<6ay3h000O8`*~JV{LU}Q2?hWFIS>E<EdT%j0000000000
q=C{71^{qra4%nWWo~3|axY_HV`yb#Z*FvQZ)`7PVPj}zb1!CTY-L|#VPj}zE^v8JO928D0~7!N00;p
4c~(=X$3fp`0RRA40{{Rn00000000000001_fhH9O0B~t=FJE?LZe(wAFJob2Xk}w>Zgg^QY%gPBV`y
b_FLGsMX>(s=VPj}zE^v8JO928D0~7!N00;p4c~(=ukX5ii0000!0000V00000000000001_f!P)Y0B
~t=FJE?LZe(wAFJonLbZKU3FJE72ZfSI1UoLQYP)h*<6ay3h000O8`*~JVFCeYqo&W#<{{R309{>OV0
000000000q=8l!1^{qra4%nWWo~3|axY_La&&2CX)j-2ZDDC{Utcb8c~DCM0u%!j000080Q-4XQx_bf
z0f5B0EzVj03HAU00000000000HlF27zO}vX>c!Jc4cm4Z*nhVWpZ?BW@#^DVPj=-bS`jZZBR=A0u%!
j000080Q-4XQ<wy(J){Hx02m7Z02=@R00000000000HlFEJ_rDCX>c!Jc4cm4Z*nhVWpZ?BW@#^DZ*p
ZWaCuNm0Rj{Q6aWAK2mt$eR#T(rX47{B0074f0018V0000000000005+c8bb&GaA|NaUv_0~WN&gWV`
yP=WMy<OUtei%X>?y-E^v8JO928D0~7!N00;p4c~(<7zl0F)IRF3_dH?_)00000000000001_fzC$=0
B~t=FJE?LZe(wAFJow7a%5$6FJftDHD+>UaV~IqP)h*<6ay3h000O8`*~JV%jaiiJOcm#-39;vApigX
0000000000q=EW@2mo+ta4%nWWo~3|axY_OVRB?;bT49QXEktgZ(?O~E^v8JO928D0~7!N00;p4c~(>
4Stva{2><}YBme*>00000000000001_fpvul0B~t=FJE?LZe(wAFJow7a%5$6FJow7a%5?9baH88b#!
TOZZ2?nP)h*<6ay3h000O8`*~JV#p&<`cLV?c{|*2EDF6Tf0000000000q=EO22mo+ta4%nWWo~3|ax
Y_OVRB?;bT4CQVRCb2bZ2sJb#QQUZ(?O~E^v8JO928D0~7!N00;p4c~(>4mtk7J2LJ%}6951t000000
00000001_fwhwe0B~t=FJE?LZe(wAFJow7a%5$6FJow7a&u*LaB^>AWpXZXc~DCM0u%!j000080Q-4X
Q(XHuNTdY-00s^K04V?f00000000000HlGon+O1KX>c!Jc4cm4Z*nhVXkl_>WppoNZ)9n1XLEF6bY*Q
}V`yn^WiD`eP)h*<6ay3h000O8`*~JV*bE&BS^@w7umk`A9RL6T0000000000q=BKK2mo+ta4%nWWo~
3|axY_OVRB?;bT4CXZE#_9E^v8JO928D0~7!N00;p4c~(=sLYgsX0{{R&2LJ#f00000000000001_fi
|QF0B~t=FJE?LZe(wAFJow7a%5$6FJo{yG&yi`Z(?O~E^v8JO928D0~7!N00;p4c~(<I1gy!x0ssJg1
^@sY00000000000001_f!?PG0B~t=FJE?LZe(wAFJow7a%5$6FJ*3ZZF4Sgc~DCM0u%!j000080Q-4X
Qv`?wJv9XY0B#Qe03ZMW00000000000HlG~st5pZX>c!Jc4cm4Z*nhVXkl_>WppoPb7OFFZ(?O~E^v8
JO928D0~7!N00;p4c~(=w3SgoX1^@sKDF6T*00000000000001_flIIm0B~t=FJE?LZe(wAFJow7a%5
$6FJ*IMb8Rkgc~DCM0u%!j000080Q-4XQy@3Q&?*H00HqE903rYY00000000000HlGLwg>=lX>c!Jc4
cm4Z*nhVXkl_>WppoPbz^F9aB^>AWpXZXc~DCM0u%!j000080Q-4XQ}jUtd0`j;0O~XV03ZMW000000
00000HlEfya)hrX>c!Jc4cm4Z*nhVXkl_>WppoPbz^ICW^!e5E^v8JO928D0~7!N00;p4c~(;<1(*0Z
0{{Tj1^@se00000000000001_fuht10B~t=FJE?LZe(wAFJow7a%5$6FJ*OOYjSXMZ(?O~E^v8JO928
D0~7!N00;p4c~(=*+ey_kIsgELdjJ3+00000000000001_fg0Ed0B~t=FJE?LZe(wAFJow7a%5$6FJ*
OOba!TQWpOTWc~DCM0u%!j000080Q-4XQ=mbO7&rp}0MiBl03rYY00000000000HlG75(xlsX>c!Jc4
cm4Z*nhVXkl_>WppoPbz^jQaB^>AWpXZXc~DCM0u%!j000080Q-4XQyE3l*JCFD0P9cy03iSX000000
00000HlEf76|}wX>c!Jc4cm4Z*nhVXkl_>WppoRVlp!^GG=mRaV~IqP)h*<6ay3h000O8`*~JVeyjeE
HUj_v+6DjsBLDyZ0000000000q=BV92>@_ua4%nWWo~3|axY_OVRB?;bT4OOGBYtUaB^>AWpXZXc~DC
M0u%!j000080Q-4XQw=H8vY8S901h?)03!eZ00000000000HlE&K?wkGX>c!Jc4cm4Z*nhVXkl_>Wpp
oSWnyw=cW`oVVr6nJaCuNm0Rj{Q6aWAK2mt$eR#U<nIbjtr006OM0015U0000000000005+c_EQM}aA
|NaUv_0~WN&gWV`yP=WMy<OYH4$3a%FKYaCuNm0Rj{Q6aWAK2mt$eR#OIfC2CF+006s80012T000000
0000005+cM}!FgaA|NaUv_0~WN&gWV`yP=WMy<OYH(w2ba*asc~DCM0u%!j000080Q-4XQ{hnKnzkJP
0O6bg04V?f00000000000HlG?mk9uHX>c!Jc4cm4Z*nhVXkl_>WppoWVQyz)b!=y0a%o|1ZEs{{Y%Xw
lP)h*<6ay3h000O8`*~JVq|tlo_ZI*F^MnBaB>(^b0000000000q=C(~2>@_ua4%nWWo~3|axY_OVRB
?;bT4dSZf9q5Wo2t^Z)9a`E^v8JO928D0~7!N00;p4c~(>R2%Q%i7XSd*fdK#}00000000000001_fd
|eB0B~t=FJE?LZe(wAFJow7a%5$6FKl6MXJ}<&a%FdIZ)9a`E^v8JO928D0~7!N00;p4c~(>Ngpv<-8
vp=ekO2TG00000000000001_fo0_h0B~t=FJE?LZe(wAFJow7a%5$6FKl6MXJ~b9XJK+_VQy`2WMynF
aCuNm0Rj{Q6aWAK2mt$eR#V+O6}2NM003+N0stof0000000000005+cA^{2jaA|NaUv_0~WN&gWV`yP
=WMy<OY+-I^a&>caX<=?{Z)9a`E^v8JO928D0~7!N00;p4c~(<35Ym-B8vp>1lK}uE0000000000000
1_fr=>#0B~t=FJE?LZe(wAFJow7a%5$6FKl6MXLM*`X>D(0Wo#~Rc~DCM0u%!j000080Q-4XQyVYVGZ
-8I0Lpd&04D$d00000000000HlElMG63LX>c!Jc4cm4Z*nhVXkl_>WppoWVQy!1b#iNIb7*aEWMynFa
CuNm0Rj{Q6aWAK2mt$eR#W8c@T8Xp008<F001KZ0000000000005+cW?>2daA|NaUv_0~WN&gWV`yP=
WMy<OY+-b1ZZU9jZ(?O~E^v8JO928D0~7!N00;p4c~(<4br?<E1ONb44FCWp00000000000001_fj(#
o0B~t=FJE?LZe(wAFJow7a%5$6FKuFDXkl`5Wpr?IZ(?O~E^v8JO928D0~7!N00;p4c~(=c(-Ek00{{
Tr2LJ#j00000000000001_fnRM30B~t=FJE?LZe(wAFJow7a%5$6FKuFDb7yjIb#QQUZ(?O~E^v8JO9
28D0~7!N00;p4c~(<t_TdlZ3;+O$V*mgh00000000000001_ffaEI0B~t=FJE?LZe(wAFJow7a%5$6F
KuFDb8~GjaCuNm0Rj{Q6aWAK2mt$eR#Whxa&z(r008(G001Tc0000000000005+cHGT>JaA|NaUv_0~
WN&gWV`yP=WMy<Ob7Es?VRCb2bZ~NSVr6nJaCuNm0Rj{Q6aWAK2mt$eR#TK!?^=Nc007kx001Tc0000
000000005+cYlaE{aA|NaUv_0~WN&gWV`yP=WMy<Ob7Et2XL4_KaBy;OVr6nJaCuNm0Rj{Q6aWAK2mt
$eR#VoIXEGoK006!Y001EX0000000000005+cFpLTSaA|NaUv_0~WN&gWV`yP=WMy<Ob82aGaB^>AWp
XZXc~DCM0u%!j000080Q-4XQ^$+OgLe%80M{@804M+e00000000000HlGBkqQ8CX>c!Jc4cm4Z*nhVX
kl_>WppofZfSO9a&uv9WMy<^V{~tFE^v8JO928D0~7!N00;p4c~(>Pzq~y~1ONce3IG5h0000000000
0001_flQwY0B~t=FJE?LZe(wAFJow7a%5$6FLiWgIB;@rVr6nJaCuNm0Rj{Q6aWAK2mt$eR#S&;{S~<
Y008m;0015U0000000000005+c(4z_faA|NaUv_0~WN&gWV`yP=WMy<Oc4cyNX>V>WaCuNm0Rj{Q6aW
AK2mt$eR#TG(*D?bD00031001KZ0000000000005+c#iR-VaA|NaUv_0~WN&gWV`yP=WMy<OV{B<JUt
ei%X>?y-E^v8JO928D0~7!N00;p4c~(<!7gzF&1ONcL3IG5l00000000000001_feEDw0B~t=FJE?LZ
e(wAFJow7a%5$6FJo+JFJow7a%5$6Wn*+MaCuNm0Rj{Q6aWAK2mt$eR#N}~0006200000001Ze00000
00000005+c*Qp8saA|NaUv_0~WN&gWV`yP=WMy<OZDn*}WMOn+FJE72ZfSI1UoLQYP)h*<6ay3h000O
8`*~JVOr<)w!V&-g5=;O9DF6Tf0000000000q=6r*3IK3va4%nWWo~3|axY_OVRB?;bT4gXbYWy+bYU
-SVQy!2VP|D?E^v8JO928D0~7!N00;p4c~(<~h-=le0002*0000W00000000000001_fhfHS0B~t=FJ
E?LZe(wAFJo_PZ*pO6VJ}}_X>MtBUtcb8c~DCM0u%!j000080Q-4XQ&QQjhKd6K0NM!v02}}S000000
00000HlE#z6t<vX>c!Jc4cm4Z*nhVZ)|UJVQpbAVQzD2E^v8JO928D0~7!N00;p4c~(=)#1YeR3jhEW
DF6T?00000000000001_f!)Ch0B~t=FJE?LZe(wAFJo_PZ*pO6VJ~5Bb7^#McWG`jGA?j=P)h*<6ay3
h000O8`*~JV8*fE&g8~2mdj|jjA^-pY0000000000q=Apk3IK3va4%nWWo~3|axY_VY;SU5ZDB8IZfS
IBVQgu0WiD`eP)h*<6ay3h000O8`*~JV2pbF$Pz3-092Ecn9RL6T0000000000q=8b<3IK3va4%nWWo
~3|axY_VY;SU5ZDB8WX>KzzE^v8JO928D0~7!N00;p4c~(=RDAwlg1pojh82|tu00000000000001_f
!);#0B~t=FJE?LZe(wAFJo_PZ*pO6VJ~-SZggdGZ7y(mP)h*<6ay3h000O8`*~JVU2hWoT>$_9MFIc-
9{>OV0000000000q=5+B3IK3va4%nWWo~3|axY|Qb98KJVlQ7`X>MtBUtcb8c~DCM0u%!j000080Q-4
XQ!LZH4qz()02iVF0384T00000000000HlGU-3kD3X>c!Jc4cm4Z*nhWX>)XJX<{#9Z*6d4bS`jtP)h
*<6ay3h000O8`*~JVhCpNd_%8qebH@Mx9{>OV0000000000q=7vN3jlCwa4%nWWo~3|axY|Qb98KJVl
QN2bYWs)b7d}Yc~DCM0u%!j000080Q-4XQ!?pD%+?eD00U6~02}}S00000000000HlF(IST-AX>c!Jc
4cm4Z*nhWX>)XJX<{#FZe(S6E^v8JO928D0~7!N00;p4c~(>1NpBz`GXMbn$^ZZ#00000000000001_
fr3s80B~t=FJE?LZe(wAFJx(RbZlv2FKlmPVRUbDb1rasP)h*<6ay3h000O8`*~JVc&0UHY!Cnd+c^L
L9{>OV0000000000q=Dgq3jlCwa4%nWWo~3|axY|Qb98KJVlQoBZfRy^b963nc~DCM0u%!j000080Q-
4XQ}nBO_}2yi0DThx03HAU00000000000HlG6k_!NEX>c!Jc4cm4Z*nhWX>)XJX<{#JVRCC_a&s<lc~
DCM0u%!j000080Q-4XQ^wRiSmPuB0L7R903QGV00000000000HlGPnF|1LX>c!Jc4cm4Z*nhWX>)XJX
<{#JWprU=VRT_GaCuNm0Rj{Q6aWAK2mt$eR#Tn5)qt=I002ZP001BW0000000000005+cy}k<oaA|Na
Uv_0~WN&gWWNCABY-wUIa%FRGb#h~6b1rasP)h*<6ay3h000O8`*~JV$Mi+H85IBkI7I*e9smFU0000
000000q=Bo-3jlCwa4%nWWo~3|axY|Qb98KJVlQ)Ja%pgMb1rasP)h*<6ay3h000O8`*~JVuz=PAm$?
7{0D1uc8vp<R0000000000q=5k73jlCwa4%nWWo~3|axY|Qb98KJVlQ+vGA?C!Wl&220u%!j000080Q
-4XQ|reQRoyxP006=Q03QGV00000000000HlG?nG67MX>c!Jc4cm4Z*nhWX>)XJX<{#QHZ(0^a&0bUc
x6ya0Rj{Q6aWAK2mt$eR#SN)bMBJK0001<0RS5S0000000000005+c>eLMYaA|NaUv_0~WN&gWWNCAB
Y-wUIbT%|DWq4&!O928D0~7!N00;p4c~(=j<ZY|GNB{t~2mt^a00000000000001_fwi6v0B~t=FJE?
LZe(wAFJx(RbZlv2FLiWjY%XwlP)h*<6ay3h000O8`*~JVr=>FEei;A&*;@br9smFU0000000000q=B
mE4ghdza4%nWWo~3|axY|Qb98KJVlQ@Oa&u{KZZ2?nP)h*<6ay3h000O8`*~JV92gG9H?RNz0AK+C8v
p<R0000000000q=94s4*+m!a4%nWWo~3|axY|Qb98KJVlQ_yGA?C!Wl&220u%!j000080Q-4XQ(7}x)
JG`+004>t03QGV00000000000HlG`u@3-nX>c!Jc4cm4Z*nhWX>)XJX<{#THZ(0^a&0bUcx6ya0Rj{Q
".

Definition DATA_directory_3 : string :=
"6aWAK2mt$eR#W>LvixVj0001n0RS5S0000000000005+cSlbW)aA|NaUv_0~WN&gWWNCABY-wUIcQ!O
GWq4&!O928D0~7!N00;p4c~(=j{uZzcDF6V!rvLyP00000000000001_f%uyd0B~t=FJE?LZe(wAFJx
(RbZlv2FL!8VWo#~Rc~DCM0u%!j000080Q-4XQzP$Z{KEhM01^QJ04V?f00000000000HlFE#Ss8-X>
c!Jc4cm4Z*nhWX>)XJX<{#5Vqs%zaBp&SFJE72ZfSI1UoLQYP)h*<6ay3h000O8`*~JVuZk~a&H(@b%
L4!aB>(^b0000000000q=84q5dd&$a4%nWWo~3|axY|Qb98KJVlQ7}VPk7>Z*p`mZE163E^v8JO928D
0~7!N00;p4c~(=#IR?{F8~^}oWB>ps00000000000001_fmp~90B~t=FJE?LZe(wAFJx(RbZlv2FJEF
|V{344a&#|qXmxaHY%XwlP)h*<6ay3h000O8`*~JVZx#Tp_5lC@ISK#(D*ylh0000000000q=D|_5dd
&$a4%nWWo~3|axY|Qb98KJVlQ7}VPk7>Z*p`mb9r-PZ*FF3XD(xAXHZK40u%!j000080Q-4XQ~r7Dqp
2PM0On`_04e|g00000000000HlE}=MeyKX>c!Jc4cm4Z*nhWX>)XJX<{#5Vqs%zaBp&SFLQZwV{dL|X
=g5Qc~DCM0u%!j000080Q-4XQ$#`^Lt<F~0Muy#04M+e00000000000HlE)1`+^pX>c!Jc4cm4Z*nhW
X>)XJX<{#5Vqs%zaBp&SFLYsYW@&6?E^v8JO928D0~7!N00;p4c~(=2mv5*<0ssJr1ONaa000000000
00001_fyQ4F0B~t=FJE?LZe(wAFKBdaY&C3YVlQ7`X>MtBUtcb8c~DCM0u%!j000080Q-4XQ_80;;Vl
#Z09Zi)03iSX00000000000HlFPViEvwX>c!Jc4cm4Z*nhabZu-kY-wUIUukGzbY*yLY%XwlP)h*<6a
y3h000O8`*~JViZ&5F4j%vjVSWGrBme*a0000000000q=B?{5&&>%a4%nWWo~3|axZ9fZEQ7cX<{#5X
>M?JbaQlaWnpbDaCuNm0Rj{Q6aWAK2mt$eR#P<&;B8MG008hT0RSQZ0000000000005+c1eOv2aA|Na
Uv_0~WN&gWXmo9CHEd~OFJE+TYh`X}dS!AhaCuNm0Rj{Q6aWAK2mt$eR#T4CiAmiC002W10015U0000
000000005+cld}>4aA|NaUv_0~WN&gWXmo9CHEd~OFJE<ZX>4;YaCuNm0Rj{Q6aWAK2mt$eR#RIt113
O7000O^0RSNY0000000000005+cthy2aaA|NaUv_0~WN&gWXmo9CHEd~OFJo_Rb97;DbaO6nc~DCM0u
%!j000080Q-4XQ?aYPpWj3P0K&-u03!eZ00000000000HlE{0}}vnX>c!Jc4cm4Z*nhabZu-kY-wUIX
mo9CHE>~ab7gWaaCuNm0Rj{Q6aWAK2mt$eR#S*`+2Ohn0056Y001HY0000000000005+cOGpy{aA|Na
Uv_0~WN&gWXmo9CHEd~OFLPybX<=+>dS!AhaCuNm0Rj{Q6aWAK2mt$eR#VdDT~t~C003<O001Tc0000
000000005+cMOhO7aA|NaUv_0~WN&gWXmo9CHEd~OFJE+WX=N{8UukY>bYEXCaCuNm0Rj{Q6aWAK2mt
$eR#O=o=YggH008v^001KZ0000000000005+c<5?2`aA|NaUv_0~WN&gWXmo9CHEd~OFJE+WX=N{8Vq
tS-E^v8JO928D0~7!N00;p4c~(<PPj1c~0ssK-1^@sc00000000000001_fy!GG0B~t=FJE?LZe(wAF
KBdaY&C3YVlQ8Ga%p8RaCt6pc~DCM0u%!j000080Q-4XQvd(}00IC20000004M+e00000000000HlE>
UK0RtX>c!Jc4cm4Z*nhabZu-kY-wUIW@&76WpZ;bUtei%X>?y-E^v8JO928D0~7!N00;p4c~(<^umlj
o0RRA(0{{Rv00000000000001_fo)zB0B~t=FJE?LZe(wAFKBdaY&C3YVlQTCY;<LEb1z|RaA;v-Wpr
s{VQgV^baH88b#!HOE^v8JO928D0~7!N00;p4c~(;*fcwOi0000U0RR9b00000000000001_frDTZ0B
~t=FJE?LZe(wAFKBdaY&C3YVlQTCY;<LEb1!0Hb7d}Yc~DCM0u%!j000080Q-4XQ}e(-7Zw8m0D%ht0
5bpp00000000000HlFhVG{swX>c!Jc4cm4Z*nhabZu-kY-wUIW@&76WpZ;bX>Mv|V{~6_WprU*V`yP=
b7gccaCuNm0Rj{Q6aWAK2mt$eR#TGEWT0#V0027<001Na0000000000005+c!DJHvaA|NaUv_0~WN&g
WXmo9CHEd~OFJ@_MbY*gLFKlUUbS`jtP)h*<6ay3h000O8`*~JV7j>E{<pux%TqytmEC2ui00000000
00q=9c}698~&a4%nWWo~3|axZ9fZEQ7cX<{#CX>4?5a&s?laCB*JZeeV6VP|tLaCuNm0Rj{Q6aWAK2m
t$eR#Q>FVND4b000qb001cf0000000000005+co^KNXaA|NaUv_0~WN&gWXmo9CHEd~OFJ@_MbY*gLF
LPmTX>@6NWpXZXc~DCM0u%!j000080Q-4XQ($uc5A^{60KNnO04e|g00000000000HlHLhZ6vBX>c!J
c4cm4Z*nhabZu-kY-wUIW@&76WpZ;bcW7yJWpi+0V`VOIc~DCM0u%!j000080Q-4XQ=U0-T4w<O0H*=
~04)Fj00000000000HlE{iW2~EX>c!Jc4cm4Z*nhabZu-kY-wUIbaG{7VPs)&bY*gLFJE72ZfSI1UoL
QYP)h*<6ay3h000O8`*~JVQj8HPR0041vjzYFD*ylh0000000000q=DUw698~&a4%nWWo~3|axZ9fZE
Q7cX<{#Qa%E*<WMOc0WpZ;bXJu}4XlX8Rc~DCM0u%!j000080Q-4XQ-EoymqY>p0PqF?04M+e000000
00000HlF>juQZIX>c!Jc4cm4Z*nhabZu-kY-wUIbaG{7VPs)&bY*gLFLPmdE^v8JO928D0~7!N00;p4
c~(<p+iOfy1pojD4gdfx00000000000001_fdr8g0B~t=FJE?LZe(wAFKBdaY&C3YVlQ-ZWo2S@X>4R
=a&s?VUukY>bYEXCaCuNm0Rj{Q6aWAK2mt$eR#QGcX#DaH008AU001cf0000000000005+cqLvc?aA|
NaUv_0~WN&gWXmo9CHEd~OFLZKcWny({Y-D9}b1!0Hb7d}Yc~DCM0u%!j000080Q-4XQ&0q_vHu4E0N
o-004M+e00000000000HlH2r4s;fX>c!Jc4cm4Z*nhabZu-kY-wUIbaG{7Vs&Y3WMy)5FJy0RE^v8JO
928D0~7!N00;p4c~(<Rt<Z;33IG5kG5`Q700000000000001_fgr9E0B~t=FJE?LZe(wAFKBdaY&C3Y
VlQ-ZWo2S@X>4R=a&s?bbaG{7E^v8JO928D0~7!N00;p4c~(=g8MlBL4gdhIIRF4J00000000000001
_fx5U80B~t=FJE?LZe(wAFKBdaY&C3YVlQ-ZWo2S@X>4R=a&s?bbaG{7Uu<}7Y%XwlP)h*<6ay3h000
O8`*~JV+jeS&o(2E_R~7&OEC2ui0000000000q=6vE698~&a4%nWWo~3|axZ9fZEQ7cX<{#Qa%E+AVQ
gz<a&s?VUukY>bYEXCaCuNm0Rj{Q6aWAK2mt$eR#PD@+Cmox001-{001Ze0000000000005+c2+k7#a
A|NaUv_0~WN&gWXmo9CHEd~OFLZKcWp`n0Yh`kCFJfVHWiD`eP)h*<6ay3h000O8`*~JVWr}a9_W=L^
g#`crCjbBd0000000000q=9AC698~&a4%nWWo~3|axZ9fZEQ7cX<{#Qa%E+AVQgz<a&s?aZ*4Acc~DC
M0u%!j000080Q-4XQ`XPNL+b<p0LKvk04V?f00000000000HlGT*AoD6X>c!Jc4cm4Z*nhabZu-kY-w
UIbaG{7cVTR6WpZ;bWpr|7WiD`eP)h*<6ay3h000O8`*~JVFatz%c?JLg)ffN(E&u=k0000000000q=
D1i698~&a4%nWWo~3|axZ9fZEQ7cX<{#Qa%E+AVQgz<a&s?bbaG{7Uu<}7Y%XwlP)h*<6ay3h000O8`
*~JV6JKo*$N~TW1qlEEDgXcg0000000000q=A^@698~&a4%nWWo~3|axZ9fZEQ7cX<{#Qa%E+AVQgz<
a&s?dWo~n5X)bViP)h*<6ay3h000O8`*~JVg?PHC9033TQ3C(~8~^|S0000000000q=BgB698~&a4%n
WWo~3|axZCQZecH9UukY>bYEXCaCuNm0Rj{Q6aWAK2mt$eR#RmaV{t13004ar000>P0000000000005
+c{^t__aA|NaUv_0~WN&gWX=H9;FJo_HWn(UIc~DCM0u%!j000080Q-4XQ!S&#-OB&~0B8XK02%-Q00
000000000HlFn>k|NQX>c!Jc4cm4Z*nhbWNu+EV{dJ6VRSBVc~DCM0u%!j000080Q-4XQ&gZqI-Lsu0
2(p?02lxO00000000000HlFq>=OWRX>c!Jc4cm4Z*nhbWNu+EV{dY0E^v8JO928D0~7!N00;p4c~(<)
7#cEfBLDzyr2qgN00000000000001_fj0OP0B~t=FJE?LZe(wAFKJ|MVJ~T9Zee6$bYU)Vc~DCM0u%!
j000080Q-4XQ!L0`TPFhm0F4I#0384T00000000000HlH68x#O=X>c!Jc4cm4Z*nhbWNu+EX>N3KVQy
z-b1rasP)h*<6ay3h000O8`*~JV>7zsD7XSbN6#xJLAOHXW0000000000q=7*n6aa8(a4%nWWo~3|ax
ZCQZecHQVPk7yXJubxVRT_GaCuNm0Rj{Q6aWAK2mt$eR#Uvk5`-O?004Ou0{|TW0000000000005+cm
LC)VaA|NaUv_0~WN&gWX=H9;FLiWtG&W>mbYU)Vc~DCM0u%!j000080Q-4XQ;jEASl|Hw0A2(D03QGV
00000000000HlHLw-f+yX>c!Jc4cm4Z*nhfb7yd2V{0#8UukY>bYEXCaCuNm0Rj{Q6aWAK2mt$eR#P$
fug4Yu000yK0018V0000000000005+c3%V2laA|NaUv_0~WN&gWZF6UEVPk7AUv_13b7^mGE^v8JO92
8D0~7!N00;p4c~(<9JDt<50RR9w1ONab00000000000001_fnK^40B~t=FJE?LZe(wAFKu&YaA9L>FJ
*XRWpH$9Z*FrgaCuNm0Rj{Q6aWAK2mt$eR#S=pt2_V)0077r000^Q0000000000005+cO1u;RaA|NaU
v_0~WN&gWZF6UEVPk7AWq5QhaCuNm0Rj{Q6aWAK2mt$eR#U62=1n9W004@V0018V0000000000005+c
g2NO5aA|NaUv_0~WN&gWZF6UEVPk7AW?^h>Vqs%zE^v8JO928D0~7!N00;p4c~(;<3Bjgi0RRA%0ssI
a00000000000001_f#cv50B~t=FJE?LZe(wAFK}UFYhh<;Zf7rFUtwZzb#z}}E^v8JO928D0~7!N00;
p4c~(;ut&*Vh0002-0RR9Y00000000000001_fr#Q10B~t=FJE?LZe(wAFK}UFYhh<;Zf7rFUukY>bY
EXCaCuNm0Rj{Q6aWAK2mt$eR#O`)I%9|q007`D001KZ0000000000005+cyW<o9aA|NaUv_0~WN&gWa
A9L>VP|P>XD?rEVQzVBX>N6RE^v8JO928D0~7!N00;p4c~(=Z>u=dG2LJ#X5dZ)q00000000000001_
frRoD0B~t=FJE?LZe(wAFK}UFYhh<;Zf7rFZFO^OY-w(FcrI{xP)h*<6ay3h000O8`*~JVaRPJ<X#oH
LT?POEBme*a0000000000q=EJM6aa8(a4%nWWo~3|axZXUV{2h&X>MmPUvqSFbz^jOa%FQaaCuNm0Rj
{Q6aWAK2mt$eR#R>K>OXr5001W;001BW0000000000005+cp!*a6aA|NaUv_0~WN&gWaA9L>VP|P>XD
@AGa%*LBb1rasP)h*<6ay3h000O8`*~JVZj(V;@&*6^L=pf1B>(^b0000000000q=8um6##H)a4%nWW
o~3|axZXUV{2h&X>MmPa%FLKX>w(4Wo~qHE^v8JO928D0~7!N00;p4c~(<2WSxN$8vp?GcmMz+00000
000000001_fsPFo0B~t=FJE?LZe(wAFK}UFYhh<;Zf7rZaAjj@W@%+|b1rasP)h*<6ay3h000O8`*~J
V5aMk*l@R~{Vm$x=9RL6T0000000000q=Dfm6##H)a4%nWWo~3|axZXUV{2h&X>MmPbYW+6E^v8JO92
8D0~7!N00;p4c~(<F^XN0q1pokO5C8xk00000000000001_fw4Lj0B~t=FJE?LZe(wAFK}UFYhh<;Zf
7rbbZKmJE^v8JO928D0~7!N00;p4c~(;kG7F{e4*&p3IRF4400000000000001_fxAEz0B~t=FJE?LZ
e(wAFK}UFYhh<;Zf7rcWpZ<AZ*DGdc~DCM0u%!j000080Q-4XQ-YpC>URJD0D=Gj03HAU0000000000
0HlHFP!#}hX>c!Jc4cm4Z*nhiWpFhyH!ojbX>MtBUtcb8c~DCM0u%!j000080Q-4XQ~N##QYZxg0D%n
v02=@R00000000000HlGNQ567iX>c!Jc4cm4Z*nhiWpFhyH!os!X>4RJaCuNm0Rj{Q6aWAK2mt$eR#S
7On+w7P006`n000{R0000000000005+c{8kkJaA|NaUv_0~WN&gWaAj~cF*h$`Xk}w-E^v8JO928D0~
7!N00;p4c~(;mu~yKE1^@s85C8xk00000000000001_f%jY$0B~t=FJE?LZe(wAFK}gWH8D3YV{dG4a
%^vBE^v8JO928D0~7!N00;p4c~(=83#T>70RRBy1ONaW00000000000001_fxTlD0B~t=FJE?LZe(wA
FK}gWH8D3YV{dJ6VRSBVc~DCM0u%!j000080Q-4XQ#;SNM$Z8N0BHmO03HAU00000000000HlGyWfcH
$X>c!Jc4cm4Z*nhiWpFhyH!oyqa&&KRY;!Jfc~DCM0u%!j000080Q-4XQxx<f{ul@V0Mr)%03HAU000
00000000HlG-XB7Z&X>c!Jc4cm4Z*nhiWpFhyH!o#wc4BpDY-BEQc~DCM0u%!j000080Q-4XQ<uBx-q
8a90G|l}02%-Q00000000000HlE*a1{V>X>c!Jc4cm4Z*nhiWpFhyH!p2vbYU)Vc~DCM0u%!j000080
Q-4XQx;WthTRMR0Ch9~03HAU00000000000HlE^bQJ(_X>c!Jc4cm4Z*nhiWpFhyH!pW`VQ_F|a&s<l
c~DCM0u%!j000080Q-4XQ=%N&2qXaj05bvr04V?f00000000000HlFIffWF7X>c!Jc4cm4Z*nhiWpFh
yH!o>!UvP47V`X!5FJE72ZfSI1UoLQYP)h*<6ay3h000O8`*~JVv=buUNDBY}!7Bg&EC2ui00000000
00q=Br06##H)a4%nWWo~3|axZXYa5XVEFKKRHaB^>BWpi^cUukY%aB^>BWpi^baCuNm0Rj{Q6aWAK2m
t$eR#U)|DV@Y~0094{0RSZc0000000000005+cK8_UtaA|NaUv_0~WN&gWaBF8@a%FRGb#h~6b1z?CX
>MtBUtcb8c~DCM0u%!j000080Q-4XQ(+_n)=L2Z05Spq04D$d00000000000HlFM0u}&pX>c!Jc4cm4
Z*nhiYiD0_Wpi(Ja${w4FK~G?F=KCSaA9;VaCuNm0Rj{Q6aWAK2mt$eR#WeURQTcq0028O001Na0000
000000005+c)dLm)aA|NaUv_0~WN&gWaBN|8W^ZzBWNC79FJE72ZfSI1UoLQYP)h*<6ay3h000O8`*~
JVR)sLnTmb+8bOZnZBme*a0000000000q=ESe765Q*a4%nWWo~3|axZXfVRUA1a&2U3a&s?VUu|J&Ze
L$6aCuNm0Rj{Q6aWAK2mt$eR#WZ?Ez&*&005c~001KZ0000000000005+cmkJgDaA|NaUv_0~WN&gWa
BN|8W^ZzBWNC79FJW$Ea&Kv5E^v8JO928D0~7!N00;p4c~(<uKd^oK1ONa!6951o00000000000001_
fff%I0B~t=FJE?LZe(wAFK}#ObY^dIZDeV3b1z|VX)bViP)h*<6ay3h000O8`*~JV#i}l$YXSfOI|={
*ApigX0000000000q=8Np765Q*a4%nWWo~3|axZXfVRUA1a&2U3a&s?jVPkJ|E^v8JO928D0~7!N00;
p4c~(>4IUfGI1^@v08UO$w00000000000001_f%p~{0B~t=FJE?LZe(wAFK}#ObY^dIZDeV3b1!vnX?
QMhc~DCM0u%!j000080Q-4XQ-k>iYCQk|08jt`03!eZ00000000000HlHO9Tos^X>c!Jc4cm4Z*nhiY
+-a}Z*py9X>xNfc4cyNX>V>WaCuNm0Rj{Q6aWAK2mt$eR#S!>I518J000mf001KZ0000000000005+c
Zypu^aA|NaUv_0~WN&gWaBN|8W^ZzBWNC79FL!BfWN&wKE^v8JO928D0~7!N00;p4c~(;r+t4op2LJ%
B6aWAq00000000000001_f&L{H0B~t=FJE?LZe(wAFK}{iXL4n8b1z?CX>MtBUtcb8c~DCM0u%!j000
080Q-4XQ|?3ZU&aIg0DcPq02=@R00000000000HlFFEfxT9X>c!Jc4cm4Z*nhia&KpHWpi^cVqtPFaC
uNm0Rj{Q6aWAK2mt$eR#TCk?2lvw003VK0015U0000000000005+cJu(&maA|NaUv_0~WN&gWaB^>Fa
%FRKFJo_PZ*p@kaCuNm0Rj{Q6aWAK2mt$eR#Q%e)_ffU002z}0018V0000000000005+c-8L2gaA|Na
Uv_0~WN&gWaB^>Fa%FRKFJo_YZggdGE^v8JO928D0~7!N00;p4c~(>8*Y@fz0{{TE1poja000000000
00001_fj2r90B~t=FJE?LZe(wAFK}{iXL4n8b1!pnX>M+1axQRrP)h*<6ay3h000O8`*~JVxf(FQYzF
`U`4a#DAOHXW0000000000q=BM6765Q*a4%nWWo~3|axZdaadl;LbaO9XUukY>bYEXCaCuNm0Rj{Q6a
WAK2mt$eR#VF+@nr@9006lG001KZ0000000000005+cOhpy|aA|NaUv_0~WN&gWa%FLKWpi|MFJE7FW
pZ<AZ*E^-E^v8JO928D0~7!N00;p4c~(=1sX4n80ssI=1ONah00000000000001_fs;lS0B~t=FJE?L
Ze(wAFLGsZb!BsOb1z?MZggdGZeeU+b#!TLb1rasP)h*<6ay3h000O8`*~JVoH;H;j1&L>EK~phAOHX
W0000000000q=D>6765Q*a4%nWWo~3|axZdaadl;LbaO9ZWMOc0WpZ;aaCuNm0Rj{Q6aWAK2mt$eR#O
71vL9&%0006R000{R0000000000005+cwp|tgaA|NaUv_0~WN&gWa%FLKWpi|MFJW+LE^v8JO928D0~
7!N00;p4c~(=qw23Qo3jhG$CjbB(00000000000001_fmmb~0B~t=FJE?LZe(wAFLGsZb!BsOb1z|ab
Z9Pcc~DCM0u%!j000080Q-4XQ-ZRh&n^J~0MP*e0384T00000000000HlEha25b?X>c!Jc4cm4Z*nhk
WpQ<7b98erV`Xx5b1rasP)h*<6ay3h000O8`*~JVuV#XD<N^Qy{RaR59smFU0000000000q=9a6765Q
*a4%nWWo~3|axZdaadl;LbaO9bZ*6d4bS`jtP)h*<6ay3h000O8`*~JVy(bqsz!Lxf{zm`+9{>OV000
0000000q=Alf765Q*a4%nWWo~3|axZdaadl;LbaO9bZ*Oa9WpgfYc~DCM0u%!j000080Q-4XQ)i?&gh
vDb0J01K03rYY00000000000HlG7h!y~FX>c!Jc4cm4Z*nhkWpQ<7b98erWq4y{aCB*JZgVbhc~DCM0
u%!j000080Q-4XQ(+b-xsC(?0E7<!02}}S00000000000HlEujTQiKX>c!Jc4cm4Z*nhkWpQ<7b98er
Xk~10E^v8JO928D0~7!N00;p4c~(;!N^{|P0RRB?0ssIV00000000000001_f!dK40B~t=FJE?LZe(w
AFLGsZb!BsOb1!IbZ)<ZdaCuNm0Rj{Q6aWAK2mt$eR#R9k2X5Xb003-=0015U0000000000005+cj*}
JuaA|NaUv_0~WN&gWa%FLKWpi|MFKusRWo&aUaCuNm0Rj{Q6aWAK2mt$eR#Or@-hpcY006fF001BW00
00000000005+csJa#aaA|NaUv_0~WN&gWa%FLKWpi|MFK}UFYhh<)b1rasP)h*<6ay3h000O8`*~JV4
zx6=I3WN4*mVE^AOHXW0000000000q=8Yq765Q*a4%nWWo~3|axZdaadl;LbaO9rWpi_BZ*FrgaCuNm
0Rj{Q6aWAK2mt$eR#QF8-+GM(003MN001Na0000000000005+c$K4hHaA|NaUv_0~WN&gWa%FLKWpi|
MFLQKZbaiuIV{c?-b1rasP)h*<6ay3h000O8`*~JV2#vMhd;|ahy$b*UA^-pY0000000000q=A;?765
Q*a4%nWWo~3|axZdaadl;LbaO9rbaHiLbairNb1rasP)h*<6ay3h000O8`*~JVR?BT%7bgG!qIv)T9R
L6T0000000000q=8cD765Q*a4%nWWo~3|axZdaadl;LbaO9tbZKmJE^v8JO928D0~7!N00;p4c~(=Kq
Te;w0000P0ssIa00000000000001_fus-@0B~t=FJE?LZe(wAFLGsbZ)|pDY-wUIUtei%X>?y-E^v8J
O928D0~7!N00;p4c~(;&WxEeF2LJ%@761Sv00000000000001_fx8hG0B~t=FJE?LZe(wAFLGsbZ)|p
DY-wUIaB^>UX=G(`b1rasP)h*<6ay3h000O8`*~JV%K=~A>Hz=%R0RM4BLDyZ0000000000q=7IQ7XW
Z+a4%nWWo~3|axZdab8l>RWo&6;FLGsYZ*p{Ha&s<lc~DCM0u%!j000080Q-4XQ)7ee!7>s60E9#U03
!eZ00000000000HlFi8y5g@X>c!Jc4cm4Z*nhkWpi(Ac4cg7VlQ%Kb8l>RWpZ;aaCuNm0Rj{Q6aWAK2
mt$eR#Q~m&~Q@)006oY001EX0000000000005+c&Mg-JaA|NaUv_0~WN&gWa%FRGY<6XAX<{#PbaHiL
baO6nc~DCM0u%!j000080Q-4XQvd(}00IC20000004V?f00000000000HlFnGZz4GX>c!Jc4cm4Z*nh
kWpi(Ac4cg7VlQKFZE#_9FJE72ZfSI1UoLQYP)h*<6ay3h000O8`*~JV8`mypV*mgEoB#j-FaQ7m000
0000000q=Bh37XWZ+a4%nWWo~3|axZdab8l>RWo&6;FJo_QaA9;WV{dG1Wn*+{Z*Fs6VPa!0aCuNm0R
j{Q6aWAK2mt$eR#WC47Qf{a002=(001BW0000000000005+cS~M2`aA|NaUv_0~WN&gWbY*T~V`+4GF
JE72ZfSI1UoLQYP)h*<6ay3h000O8`*~JV8Qg7btpor7@(cg~AOHXW0000000000q=9`%7XWZ+a4%nW
".

Definition DATA_directory_4 : string :=
"Wo~3|axZjcZee3-ba^jdVRLzIV`*<LaCuNm0Rj{Q6aWAK2mt$eR#R0xYXyA+005W=0015U000000000
0005+cXiXOYaA|NaUv_0~WN&gWbY*T~V`+4GFJE<ZX>4;YaCuNm0Rj{Q6aWAK2mt$eR#T|q81C`{007
tp0012T0000000000005+cAyF3qaA|NaUv_0~WN&gWbY*T~V`+4GFJWeMWpXZXc~DCM0u%!j000080Q
-4XQ_y|osl5UK0AK|G03HAU00000000000HlFVR2KknX>c!Jc4cm4Z*nhmWo}_(X>@rnVr6D;a%C=Xc
~DCM0u%!j000080Q-4XQv?g`YhnWc0CWcc03-ka00000000000HlFOR~G<qX>c!Jc4cm4Z*nhmWo}_(
X>@rnVr6D;a%Eq0Y-MF|E^v8JO928D0~7!N00;p4c~(=VY_ikb0ssJK1pojW00000000000001_f$Lf
q0B~t=FJE?LZe(wAFLY&YVPk1@c`t5Za4v9pP)h*<6ay3h000O8`*~JVm{Kjfv;_bF^%(#F9RL6T000
0000000q=5il7XWZ+a4%nWWo~3|axZjcZee3-ba^jwWpr|RE^v8JO928D0~7!N00;p4c~(>PR?T&(0{
{T#3IG5c00000000000001_f$w7%0B~t=FJE?LZe(wAFLY&YVPk1@c`tKxZ*VSfc~DCM0u%!j000080
Q-4XQytzSIjjQ!0AUCK03rYY00000000000HlG^XBPl)X>c!Jc4cm4Z*nhmWo}_(X>@rnbZ>HQVPtQ2
WnwOHc~DCM0u%!j000080Q-4XQ(9$!S(69=03#Xz02}}S00000000000HlGwYZm};X>c!Jc4cm4Z*nh
mWo}_(X>@rncVTICE^v8JO928D0~7!N00;p4c~(=s(5w5a0002y0000T00000000000001_fs1q(0B~
t=FJE?LZe(wAFLZBhY-ulFUukY>bYEXCaCuNm0Rj{Q6aWAK2mt$eR#V0R{PsW<0056y000~S0000000
000005+cadj5}aA|NaUv_0~WN&gWbZ>2JX)j-JVRCb2axQRrP)h*<6ay3h000O8`*~JVg4{8H&I14dc
?tjk7ytkO0000000000q=D;-7XWZ+a4%nWWo~3|axZjmZER^TUvgzGaCuNm0Rj{Q6aWAK2mt$eR#PEK
Z5&Yq007Gh0018V0000000000005+c?~WG$aA|NaUv_0~WN&gWb#iQMX<{=kUtei%X>?y-E^v8JO928
D0~7!N00;p4c~(;$KNE5S4FCW;DgXc@00000000000001_fqjz~0B~t=FJE?LZe(wAFLiQkY-wUMFJE
JCY;0v?bZKvHb1rasP)h*<6ay3h000O8`*~JVTd^H-KL7v#KL7v#9{>OV0000000000q=CSo7XWZ+a4
%nWWo~3|axZmqY;0*_GcR9uWpZ<AZ*DGdc~DCM0u%!j000080Q-4XQ@$%-kqZ|90B}wK03iSX000000
00000HlFDp%(yfX>c!Jc4cm4Z*nhna%^mAVlyveZ*Fd7V{~b6ZZ2?nP)h*<6ay3h000O8`*~JVo&cQ-
MkoLP(~<xHB>(^b0000000000q=AOG7XWZ+a4%nWWo~3|axZmqY;0*_GcRLrZf<2`bZKvHaBpvHE^v8
JO928D0~7!N00;p4c~(<i%t^KD2><{YAOHX%00000000000001_fe+yq0B~t=FJE?LZe(wAFLiQkY-w
UMFJ*XRWpH$9Z*FrgaCuNm0Rj{Q6aWAK2mt$eR#V3)ODrG?004s_0012T0000000000005+cIqMeyaA
|NaUv_0~WN&gWb#iQMX<{=kW@%+?WOFWXc~DCM0u%!j000080Q-4XQ-`a+qkaPb0Eh_y03QGV000000
00000HlGG^%nqeX>c!Jc4cm4Z*nhna%^mAVlyvhX>4V1Z*z1maCuNm0Rj{Q6aWAK2mt$eR#WJrk&9>+
001*h001HY0000000000005+cPx%)BaA|NaUv_0~WN&gWb#iQMX<{=kaBpvHZDDR<XJv9OaCuNm0Rj{
Q6aWAK2mt$eR#W_s?gFO=003bZ0015U0000000000005+c_YW8VaA|NaUv_0~WN&gWb#iQMX<{=ka%F
LKWpi{caCuNm0Rj{Q6aWAK2mt$eR#Pc27zkq>001j)0018V0000000000005+c+7}oAaA|NaUv_0~WN
&gWb#iQMX<{=ka%FRHZ*FsCE^v8JO928D0~7!N00;p4c~(;Z00002000000000d00000000000001_f
qFF<0B~t=FJE?LZe(wAFLiQkY-wUMFJo_RbaH88FJE72ZfSI1UoLQYP)h*<6ay3h000O8`*~JVDud}2
wE+MCy#oLMF#rGn0000000000q=CUT7yxi-a4%nWWo~3|axZmqY;0*_GcRLrZgg^KVlQ7|aByXAXK8L
_UuAA~X>xCFE^v8JO928D0~7!N00;p4c~(<6WeLe=3;+NcD*yl}00000000000001_fyFl%0B~t=FJE
?LZe(wAFLiQkY-wUMFJo_RbaH88FJW+SWo~C_Ze=cTc~DCM0u%!j000080Q-4XQ@F=N{!|740J;$X04
D$d00000000000HlF(L>K^YX>c!Jc4cm4Z*nhna%^mAVlyveZ*FvQX<{#KbZl*KZ*OcaaCuNm0Rj{Q6
aWAK2mt$eR#RZPnqGkv000C+001Ze0000000000005+c3riRPaA|NaUv_0~WN&gWb#iQMX<{=kV{dMB
a%o~OaCvWVWo~nGY%XwlP)h*<6ay3h000O8`*~JV!0)=_!6g6yk%j;OE&u=k0000000000q=C|37yxi
-a4%nWWo~3|axZmqY;0*_GcRLrZgg^KVlQ)LV|8+6baG*Cb8v5RbS`jtP)h*<6ay3h000O8`*~JV%Tm
ZcSqK0Cxf=igBme*a0000000000q=Das7yxi-a4%nWWo~3|axZmqY;0*_GcRLrZgg^KVlQ)VV{3CRaC
uNm0Rj{Q6aWAK2mt$eR#N}~0006200000001}u0000000000005+cdX5+XaA|NaUv_0~WN&gWb#iQMX
<{=kV{dMBa%o~OUvp(+b#i5Na$#<BaBp&SFJE72ZfSI1UoLQYP)h*<6ay3h000O8`*~JVGS7fX_z(a9
@k9UsH~;_u0000000000q=C|o7yxi-a4%nWWo~3|axZmqY;0*_GcRLrZgg^KVlQ8FWn*=6Wpr|3ZgX&
Na&#|ZX>Md`ZfA2YaCuNm0Rj{Q6aWAK2mt$eR#UDjr@UDa003e(0021v0000000000005+cAfOlkaA|
NaUv_0~WN&gWb#iQMX<{=kV{dMBa%o~OUvp(+b#i5Na$#<BaBp&SFKlmjUu<P|Wo#~Rc~DCM0u%!j00
0080Q-4XQ>;0RtWW>|0BisN04M+e00000000000HlG?u^0ewX>c!Jc4cm4Z*nhna%^mAVlyvrVPk7yX
JvCQUtei%X>?y-E^v8JO928D0~7!N00;p4c~(>3X^-9}ApihshX4R000000000000001_fo8H80B~t=
FJE?LZe(wAFLiQkY-wUMFK}UFYhh<)b1!pgcrI{xP)h*<6ay3h000O8`*~JV000000ssI200000G5`P
o0000000000q=C)T7yxi-a4%nWWo~3|axZmqY;0*_GcRyqV{2h&WpgiLVPk7>Z*p{VFJE72ZfSI1UoL
QYP)h*<6ay3h000O8`*~JV-ne74NCE%=i3I=vG5`Po0000000000q=6sQ7yxi-a4%nWWo~3|axZmqY;
0*_GcRyqV{2h&WpgiLVPk7>Z*p{VFKuCKWoBt?WiD`eP)h*<6ay3h000O8`*~JV1rwupqyYc`p925@I
{*Lx0000000000q=C2A7yxi-a4%nWWo~3|axZmqY;0*_GcRyqV{2h&Wpgicb8KI2VRU0?UubW0bZ%j7
WiMY}X>MtBUtcb8c~DCM0u%!j000080Q-4XQ$B=C*0Bfx0528*073u&00000000000HlGm*cbqCX>c!
Jc4cm4Z*nhna%^mAVlyvrVPk7yXJvCQb8~E8ZDDj{XkTb=b98QDZDlWCX>D+9Wo>0{bYXO9Z*DGdc~D
CM0u%!j000080Q-4XQ|5}9n%DsV0D}Yo03-ka00000000000HlG%;TQmLX>c!Jc4cm4Z*nhna%^mAVl
yvwbZKlaUtei%X>?y-E^v8JO928D0~7!N00;p4c~(<%5t5pw2LJ##6951v00000000000001_f#2g80
B~t=FJE?LZe(wAFLiQkY-wUMFLiWjY%gPPZf<2`bZKvHE^v8JO928D0~7!N00;p4c~(;j&s+yy0ssI-
1^@sd00000000000001_fywI_0B~t=FJE?LZe(wAFLiQkY-wUMFLiWjY%g$fZ+LkwaCuNm0Rj{Q6aWA
K2mt$eR#Q#`_MiL!008m<001EX0000000000005+cX6_gOaA|NaUv_0~WN&gWb#iQMX<{=kb#!TLFL8
Bcb!9Gac~DCM0u%!j000080Q-4XQ<7w_RO$r)02>eh03!eZ00000000000HlGT?-&4ZX>c!Jc4cm4Z*
nhna%^mAVlyvwbZKlaa%FLKWpi{caCuNm0Rj{Q6aWAK2mt$eR#P@8)wEy*006cP001Na00000000000
05+c%=H)maA|NaUv_0~WN&gWb#iQMX<{=kb#!TLFLGsbaBpsNWiD`eP)h*<6ay3h000O8`*~JVmFNkb
&=vpyk5d2uApigX0000000000q=9bx7yxi-a4%nWWo~3|axZmqY;0*_GcR>?X>2cYWpr|RE^v8JO928
D0~7!N00;p4c~(=TlKaP}761SlLjV9E00000000000001_fqfDg0B~t=FJE?LZe(wAFLiQkY-wUMFLi
WjY%g<jY+o*Lc~DCM0u%!j000080Q-4XQ~AJb^9=|9023Pk04M+e00000000000HlFpDH#B8X>c!Jc4
cm4Z*nhna%^mAVlyvwbZKlab8~ETa$#<BaBp&SE^v8JO928D0~7!N00;p4c~(;-$><2c3jhEUCjbB=0
0000000000001_fweIi0B~t=FJE?LZe(wAFLiQkY-wUMFLiWjY%g?aZDntDbS`jtP)h*<6ay3h000O8
`*~JV=c|?Zr4j%D-!=dM9{>OV0000000000q=B|Q831r;a4%nWWo~3|axZmqY;0*_GcR>?X>2cba%?V
ec~DCM0u%!j000080Q-4XQ=&${ali)v02~zn03ZMW00000000000HlGKP#FMlX>c!Jc4cm4Z*nhna%^
mAVlyvwbZKlacVTICE^v8JO928D0~7!N00;p4c~(<+&>wL!3jhF9DF6T@00000000000001_ftFYq0B
~t=FJE?LZe(wAFLz~PWo~0{WNB_^b1z?CX>MtBUtcb8c~DCM0u%!j000080Q-4XQ^&0civ<P%023ns0
3rYY00000000000HlEmWElW(X>c!Jc4cm4Z*nhpWnyJ+V{c?>ZfA2ZY++($Y;!Jfc~DCM0u%!j00008
0Q-4XQ&4{~A4CEG02u`U03-ka00000000000HlFWY8e1<X>c!Jc4cm4Z*nhpWnyJ+V{c?>ZfA2ZZEI{
{Vr6V|E^v8JO928D0~7!N00;p4c~(<rIB=)A1pok}82|tw00000000000001_fz@mo0B~t=FJE?LZe(
wAFLz~PWo~0{WNB_^b1!sdb98eqaCuNm0Rj{Q6aWAK2mt$eR#V#s{MMxe007ev001fg000000000000
5+c&2kw4aA|NaUv_0~WN&gWcV%K_Zewp`X>Mn8FL+;db7gX0WMyV)Ze?UHaCuNm1qJ{B005Z*nE_CM0
06po82|tP
".

Definition DATA_directory : string :=
  DATA_directory_1 +:+ DATA_directory_2 +:+ DATA_directory_3 +:+ DATA_directory_4.

#[local] Open Scope Z_scope.

(** ** Decoding *)

(** The decoder with shifts for divisions and a table for the alphabet. *)
Definition table_value (c : ascii) : option Z :=
  match c with
  | "0"%char => Some 0 | "1"%char => Some 1 | "2"%char => Some 2 | "3"%char => Some 3 | "4"%char => Some 4 | "5"%char => Some 5 | "6"%char => Some 6 | "7"%char => Some 7
  | "8"%char => Some 8 | "9"%char => Some 9 | "A"%char => Some 10 | "B"%char => Some 11 | "C"%char => Some 12 | "D"%char => Some 13 | "E"%char => Some 14 | "F"%char => Some 15
  | "G"%char => Some 16 | "H"%char => Some 17 | "I"%char => Some 18 | "J"%char => Some 19 | "K"%char => Some 20 | "L"%char => Some 21 | "M"%char => Some 22 | "N"%char => Some 23
  | "O"%char => Some 24 | "P"%char => Some 25 | "Q"%char => Some 26 | "R"%char => Some 27 | "S"%char => Some 28 | "T"%char => Some 29 | "U"%char => Some 30 | "V"%char => Some 31
  | "W"%char => Some 32 | "X"%char => Some 33 | "Y"%char => Some 34 | "Z"%char => Some 35 | "a"%char => Some 36 | "b"%char => Some 37 | "c"%char => Some 38 | "d"%char => Some 39
  | "e"%char => Some 40 | "f"%char => Some 41 | "g"%char => Some 42 | "h"%char => Some 43 | "i"%char => Some 44 | "j"%char => Some 45 | "k"%char => Some 46 | "l"%char => Some 47
  | "m"%char => Some 48 | "n"%char => Some 49 | "o"%char => Some 50 | "p"%char => Some 51 | "q"%char => Some 52 | "r"%char => Some 53 | "s"%char => Some 54 | "t"%char => Some 55
  | "u"%char => Some 56 | "v"%char => Some 57 | "w"%char => Some 58 | "x"%char => Some 59 | "y"%char => Some 60 | "z"%char => Some 61 | "!"%char => Some 62 | "#"%char => Some 63
  | "$"%char => Some 64 | "%"%char => Some 65 | "&"%char => Some 66 | "("%char => Some 67 | ")"%char => Some 68 | "*"%char => Some 69 | "+"%char => Some 70 | "-"%char => Some 71
  | ";"%char => Some 72 | "<"%char => Some 73 | "="%char => Some 74 | ">"%char => Some 75 | "?"%char => Some 76 | "@"%char => Some 77 | "^"%char => Some 78 | "_"%char => Some 79
  | "`"%char => Some 80 | "{"%char => Some 81 | "|"%char => Some 82 | "}"%char => Some 83 | "~"%char => Some 84
  | _ => None
  end.

Lemma table_value_correct c : table_value c = b85_value c.
Proof. by destruct c as [[] [] [] [] [] [] [] []]. Qed.

Definition fast_bytes (w : Z) : list Z :=
  [Z.shiftr w 24; Z.land (Z.shiftr w 16) 255; Z.land (Z.shiftr w 8) 255; Z.land w 255].

Fixpoint fast_groups (t : list ascii) : option (list Z) :=
  match t with
  | c0 :: c1 :: c2 :: c3 :: c4 :: t' =>
      v0 ← table_value c0; v1 ← table_value c1; v2 ← table_value c2;
      v3 ← table_value c3; v4 ← table_value c4;
      let w := (((v0 * 85 + v1) * 85 + v2) * 85 + v3) * 85 + v4 in
      if Z.ltb w (2 ^ 32) then out ← fast_groups t'; Some (fast_bytes w ++ out) else None
  | _ => Some []
  end.

Lemma fast_bytes_correct w : 0 ≤ w < 2 ^ 32 → fast_bytes w = word_bytes w.
Proof.
  intros Hw. rewrite /fast_bytes /word_bytes. change 255 with (Z.ones 8).
  rewrite !Z.land_ones // !Z.shiftr_div_pow2 //. change (2 ^ 8) with 256.
  change (2 ^ 24) with 16777216. change (2 ^ 16) with 65536.
  rewrite (Z.mod_small (w / 16777216)) //. split; [apply Z.div_pos; lia|].
  apply Z.div_lt_upper_bound; lia.
Qed.

Lemma b85_value_nonneg c v : b85_value c = Some v → 0 ≤ v.
Proof.
  assert (∀ l i, 0 ≤ i → index_of c l i = Some v → 0 ≤ v) as H; [|by apply H].
  induction l as [|c' l IH]; intros i Hi; simpl; [done|].
  destruct (Ascii.eqb c c'); [by intros [= <-]|]. apply IH. lia.
Qed.

Lemma fast_groups_correct n t bs :
  (length t ≤ n)%nat → fast_groups t = Some bs → b85_groups t = Ret bs.
Proof.
  revert t bs. induction n as [|n IH]; intros t bs Hn.
  { destruct t; [|simpl in Hn; lia]. by intros [= <-]. }
  destruct t as [|c0 [|c1 [|c2 [|c3 [|c4 t]]]]]; try (by intros [= <-]).
  cbn [fast_groups b85_groups]. rewrite !table_value_correct. intros H.
  destruct (b85_value c0) as [v0|] eqn:H0; [|done]. destruct (b85_value c1) as [v1|] eqn:H1; [|done].
  destruct (b85_value c2) as [v2|] eqn:H2; [|done]. destruct (b85_value c3) as [v3|] eqn:H3; [|done].
  destruct (b85_value c4) as [v4|] eqn:H4; [|done]. cbn [mbind option_bind] in H.
  set (w := (((v0 * 85 + v1) * 85 + v2) * 85 + v3) * 85 + v4) in *.
  destruct (Z.ltb_spec w (2 ^ 32)) as [Hw|]; [|done].
  destruct (fast_groups t) as [out|] eqn:Ht; [|done]. injection H as <-.
  assert (b85_word [c0; c1; c2; c3; c4] = Ret w) as ->.
  { rewrite /b85_word. cbn [ofold]. rewrite H0 H1 H2 H3 H4. cbn [mbind outcome_bind].
    change (0 * 85 + v0) with v0. fold w. by rewrite (proj2 (Z.ltb_lt w (2 ^ 32)) Hw). }
  cbn [mbind outcome_bind]. rewrite (IH t out) //; [|simpl in Hn; lia].
  change (Ret (word_bytes w ++ out) = Ret (fast_bytes w ++ out)).
  rewrite fast_bytes_correct //. split; [|done].
  pose proof (b85_value_nonneg _ _ H0). pose proof (b85_value_nonneg _ _ H1).
  pose proof (b85_value_nonneg _ _ H2). pose proof (b85_value_nonneg _ _ H3).
  pose proof (b85_value_nonneg _ _ H4). rewrite /w. lia.
Qed.

(** ** The directory of a zip file *)

(** A little-endian number of [n] bytes at a position. *)
Definition little_endian (bs : list Z) : Z := foldr (λ b acc, b + 256 * acc) 0 bs.
Definition field (off n : nat) (bs : list Z) : Z := little_endian (take n (drop off bs)).

Definition byte_string (bs : list Z) : string :=
  string_of_list_ascii ((λ b, ascii_of_N (Z.to_N b)) <$> bs).

(** The names of consecutive directory entries, up to something else; an entry
    must not point behind the directory. *)
Fixpoint entry_names (fuel : nat) (dir_offset : Z) (bs : list Z) : option (list string) :=
  match fuel with
  | O => None
  | S fuel' =>
      if field 0 4 bs =? 0x02014b50 then
        let name_size := Z.to_nat (field 28 2 bs) in
        let size := (46 + name_size + Z.to_nat (field 30 2 bs) + Z.to_nat (field 32 2 bs))%nat in
        if dir_offset <? field 42 4 bs then None
        else
          names ← entry_names fuel' dir_offset (drop size bs);
          Some (byte_string (take name_size (drop 46 bs)) :: names)
      else Some []
  end.

(** The directory that Python's [zipimport] finds in an archive without a
    comment. *)
Definition archive_names (content : list Z) : option (list string) :=
  let last := drop (length content - 22) content in
  let size := field 12 4 last in
  let offset := field 16 4 last in
  let pos := Z.of_nat (length content) - 22 in
  if negb (field 0 4 last =? 0x06054b50) || (pos <? size) || (pos <? offset) ||
     (pos - size - offset <? 0)
  then None
  else entry_names (length content) offset (drop (Z.to_nat (pos - size)) content).

(** The files that the script imports or reads. *)
Definition needed_files : list string :=
  ["pip/__init__.py"; "pip/_internal/__init__.py"; "pip/_internal/cli/__init__.py";
   "pip/_internal/cli/main.py"; "pip/_internal/commands/__init__.py";
   "pip/_internal/commands/install.py"; "pip/_vendor/__init__.py";
   "pip/_vendor/certifi/__init__.py"; "pip/_vendor/certifi/cacert.pem"]%string.

(** What is left of the decoded lines before the directory. *)
Definition dir_start : nat := 254.
Definition dir_offset : Z := 1669050.
Definition dir_size : Z := 32848.

(** The checks on the transcribed lines. *)
Definition directory_ok (t : list ascii) : bool :=
  match fast_groups t with
  | None => false
  | Some bs =>
      let last := drop (length bs - 22) bs in
      (Z.of_nat (length t) mod 5 =? 0) &&
      (Z.of_nat (length bs) =? Z.of_nat dir_start + dir_size + 22) &&
      (field 0 4 last =? 0x06054b50) && (field 12 4 last =? dir_size) &&
      (field 16 4 last =? dir_offset) &&
      match entry_names 500 dir_offset (drop dir_start bs) with
      | None => false
      | Some names =>
          (Z.of_nat (length names) =? 409) && forallb (py_startswith "pip/") names &&
          bool_decide (needed_files ⊆ names)
      end
  end.

Lemma directory_checked : directory_ok (without_newlines DATA_directory) = true.
Proof. vm_compute. reflexivity. Qed.

(** What the checks say. *)
Lemma directory_facts t :
  directory_ok t = true →
  ∃ bs names, b85_groups t = Ret bs ∧
    Z.of_nat (length t) mod 5 = 0 ∧
    Z.of_nat (length bs) = Z.of_nat dir_start + dir_size + 22 ∧
    (let last := drop (length bs - 22) bs in
     field 0 4 last = 0x06054b50 ∧ field 12 4 last = dir_size ∧ field 16 4 last = dir_offset) ∧
    entry_names 500 dir_offset (drop dir_start bs) = Some names ∧
    Z.of_nat (length names) = 409 ∧ Forall (λ n, py_startswith "pip/" n = true) names ∧
    needed_files ⊆ names.
Proof.
  rewrite /directory_ok. destruct (fast_groups t) as [bs|] eqn:Hbs; [|done].
  apply (fast_groups_correct (length t)) in Hbs; [|apply le_n]. cbv zeta. intros H.
  destruct (entry_names 500 dir_offset (drop dir_start bs)) as [names|] eqn:Hn;
    [|by rewrite andb_false_r in H].
  rewrite !andb_true_iff !Z.eqb_eq bool_decide_eq_true in H.
  destruct H as (((((H1 & H2) & H3) & H4) & H5) & ((H6 & H7) & H8)).
  exists bs, names. rewrite forallb_forall in H7.
  refine (conj Hbs (conj H1 (conj H2 (conj (conj H3 (conj H4 H5))
            (conj Hn (conj H6 (conj _ H8))))))).
  apply Forall_forall. intros n Hin. apply H7. by apply list_elem_of_In.
Qed.

Lemma entry_names_more fuel fuel' off bs names :
  entry_names fuel off bs = Some names → (fuel ≤ fuel')%nat → entry_names fuel' off bs = Some names.
Proof.
  revert fuel' bs names. induction fuel as [|fuel IH]; intros fuel' bs names H Hle; [done|].
  destruct fuel' as [|fuel']; [lia|]. cbn [entry_names] in *.
  destruct (field 0 4 bs =? 0x02014b50); [|done]. cbv zeta in *.
  destruct (off <? field 42 4 bs); [done|].
  destruct (entry_names fuel off _) as [l|] eqn:Hl; [|done].
  rewrite (IH fuel' _ l Hl); [done|lia].
Qed.

(** An archive that ends with the transcribed directory, at its place. *)
Lemma archive_directory pre bs names :
  Z.of_nat (length bs) = Z.of_nat dir_start + dir_size + 22 →
  (let last := drop (length bs - 22) bs in
   field 0 4 last = 0x06054b50 ∧ field 12 4 last = dir_size ∧ field 16 4 last = dir_offset) →
  entry_names 500 dir_offset (drop dir_start bs) = Some names →
  Z.of_nat (length pre) = dir_offset - Z.of_nat dir_start →
  archive_names (pre ++ bs) = Some names.
Proof.
  intros Hlen Hlast Hnames Hpre. rewrite /archive_names length_app. cbv zeta in Hlast.
  replace (length pre + length bs - 22)%nat with (length pre + (length bs - 22))%nat
    by (unfold dir_size in Hlen; lia).
  rewrite drop_app_add. destruct Hlast as (H1 & H2 & H3). rewrite H1 H2 H3.
  assert (Z.of_nat (length pre + length bs) - 22 - dir_size = dir_offset) as Hpos by lia.
  rewrite Hpos Z.eqb_refl. cbn [negb orb].
  rewrite (proj2 (Z.ltb_ge (Z.of_nat (length pre + length bs) - 22) dir_size));
    [|unfold dir_size, dir_offset in *; lia].
  rewrite (proj2 (Z.ltb_ge (Z.of_nat (length pre + length bs) - 22) dir_offset));
    [|unfold dir_size, dir_offset in *; lia].
  rewrite Z.sub_diag. cbn [orb Z.ltb Z.compare].
  replace (Z.to_nat dir_offset) with (length pre + dir_start)%nat by lia.
  rewrite drop_app_add. eapply entry_names_more; [exact Hnames|].
  unfold dir_size in Hlen. lia.
Qed.

Lemma b85_padding_zero t : Z.of_nat (length t) mod 5 = 0 → b85_padding t = 0%nat.
Proof.
  intros Ht. rewrite /b85_padding Z.mod_opp_l_z //.
Qed.

Lemma whole_words n : Z.of_nat n = dir_offset - Z.of_nat dir_start → ∃ k, n = (4 * k)%nat.
Proof.
  intros Hn. exists (Z.to_nat (Z.of_nat n / 4)).
  assert (Z.of_nat n mod 4 = 0) as Hm by (by rewrite Hn).
  pose proof (Z.div_mod (Z.of_nat n) 4). lia.
Qed.

(** The payload that ends with the transcribed lines, decoded. *)
Lemma payload_decoded DATA pre :
  Forall is_byte pre → Z.of_nat (length pre) = 1668796 →
  without_newlines DATA = b85encode pre ++ without_newlines DATA_directory →
  ∃ content names, b85decode (without_newlines DATA) = Ret content ∧
    archive_names content = Some names ∧ Z.of_nat (length names) = 409 ∧
    Forall (λ n, py_startswith "pip/" n = true) names ∧ needed_files ⊆ names.
Proof.
  intros Hbytes Hpre Hdata.
  pose proof directory_checked as Hok. revert Hok Hdata.
  generalize (without_newlines DATA_directory). intros t Hok Hdata.
  destruct (directory_facts t Hok) as (bs & names & Hbs & Hmod & Hlen & Hlast & Hnames & Hcount & Hpip & Hneed).
  destruct (whole_words (length pre) Hpre) as [k Hk].
  destruct (groups_encode_app k pre t Hk Hbytes) as [Hl Hg].
  exists (pre ++ bs), names. split; [|split; [by apply archive_directory|done]].
  rewrite Hdata /b85decode b85_padding_zero.
  - rewrite app_nil_r Hg Hbs. cbn [mbind outcome_bind]. by rewrite Nat.sub_0_r firstn_all.
  - rewrite length_app Hl. replace (Z.of_nat (5 * k + length t)) with (Z.of_nat (length t) + Z.of_nat k * 5) by lia.
    by rewrite Z.mod_add.
Qed.

(** The file of a module of pip. *)
Definition module_file (m : string) : string :=
  if String.eqb m "pip._internal.commands.install" then "pip/_internal/commands/install.py"
  else if String.eqb m "pip._internal.cli.main" then "pip/_internal/cli/main.py"
  else EmptyString.

(** [zipimport] imports the modules of pip that the directory of the archive at
    the head of the search path lists. *)
Definition imports_listed
    (import_pip : string → list (string * list Z) → list string → outcome unit) : Prop :=
  ∀ m fs archive path content names,
    dget archive fs = Some content → archive_names content = Some names →
    module_file m ∈ names → import_pip m fs (archive :: path) = Ret tt.

(** [pkgutil.get_data] reads a file of such an archive. *)
Definition reads_listed
    (certifi_data : list (string * list Z) → list string → outcome (list Z)) : Prop :=
  ∀ fs archive path content names,
    dget archive fs = Some content → archive_names content = Some names →
    "pip/_vendor/certifi/cacert.pem"%string ∈ names →
    ∃ certs, certifi_data fs (archive :: path) = Ret certs.


(** A payload of this form: the text of an encoding has no line breaks. *)
Lemma b85_char_printable d : b85_char d ≠ ascii_of_nat 10.
Proof.
  rewrite /b85_char. destruct (b85alphabet !! Z.to_nat d) as [c|] eqn:Hc; [|done]. simpl.
  apply list_elem_of_lookup_2 in Hc. revert c Hc. apply Forall_forall.
  repeat constructor; discriminate.
Qed.

Lemma b85encode_printable n bs :
  (length bs ≤ n)%nat → Forall (λ c, c ≠ ascii_of_nat 10) (b85encode bs).
Proof.
  assert (∀ w, Forall (λ c, c ≠ ascii_of_nat 10) (encode_word w)) as Hw.
  { intros w. apply Forall_fmap, Forall_true, b85_char_printable. }
  revert bs. induction n as [|n IH]; intros bs Hn.
  { destruct bs; [constructor|simpl in Hn; lia]. }
  destruct bs as [|b0 [|b1 [|b2 [|b3 bs]]]]; cbn [b85encode];
    [constructor|by apply Forall_take..|].
  apply Forall_app. split; [done|]. apply IH. simpl in Hn. lia.
Qed.

Lemma without_newlines_app l data :
  Forall (λ c, c ≠ ascii_of_nat 10) l →
  without_newlines (string_of_list_ascii l +:+ data) = l ++ without_newlines data.
Proof.
  rewrite /without_newlines. induction 1 as [|c l Hc _ IH]; [done|].
  change (filter (λ c, c ≠ ascii_of_nat 10)
    (c :: list_ascii_of_string (string_of_list_ascii l +:+ data)) =
    c :: l ++ filter (λ c, c ≠ ascii_of_nat 10) (list_ascii_of_string data)).
  by rewrite filter_cons_True // IH.
Qed.

Lemma payload_exists :
  ∃ DATA pre, Forall is_byte pre ∧ Z.of_nat (length pre) = 1668796 ∧
    without_newlines DATA = b85encode pre ++ without_newlines DATA_directory.
Proof.
  generalize DATA_directory. intros d.
  exists (string_of_list_ascii (b85encode (replicate (Z.to_nat 1668796) 0)) +:+ d),
    (replicate (Z.to_nat 1668796) 0).
  generalize (Z.to_nat 1668796) (Z2Nat.id 1668796 ltac:(lia)). intros n Hn.
  split; [by apply Forall_replicate|]. split; [by rewrite length_replicate|].
  apply without_newlines_app. by apply (b85encode_printable (length (replicate n 0))).
Qed.

(** An import system that looks a file up in the archive at the head of the
    search path. *)
Definition in_archive (file : string) (fs : list (string * list Z)) (path : list string) : bool :=
  match path with
  | archive :: _ =>
      match dget archive fs ≫= archive_names with
      | Some names => bool_decide (file ∈ names)
      | None => false
      end
  | [] => false
  end.

Definition archive_import (m : string) (fs : list (string * list Z)) (path : list string) :
    outcome unit :=
  if in_archive (module_file m) fs path then Ret tt else Raise ImportError.

Definition archive_certs (fs : list (string * list Z)) (path : list string) : outcome (list Z) :=
  if in_archive "pip/_vendor/certifi/cacert.pem" fs path then Ret [1] else Raise OSError.

Lemma in_archive_listed file fs archive path content names :
  dget archive fs = Some content → archive_names content = Some names → file ∈ names →
  in_archive file fs (archive :: path) = true.
Proof.
  intros Hc Hn Hin. rewrite /in_archive Hc. cbn [mbind option_bind]. rewrite Hn.
  by apply bool_decide_eq_true.
Qed.

