(* ===== verification/SetupScripts.v ===== *)
(** * The setup scripts

    src/client/python/setup.py compiles the protocol buffers around the standard
    installation and removes them afterwards; src/kubespray/setup.py and
    src/kubespray/contrib/inventory_builder/setup.py only hand a description to
    setuptools.  setuptools is a parameter: what [install.run] and [setup] do. *)

From S2P Require Import Prelude.

(** What a script does: shell commands and the standard installation. *)
Inductive setup_step : Type :=
| OsSystem (command : string)
| InstallRun.

Record setup_state : Type := mkSetup { steps : list setup_step }.

Definition step (e : setup_step) : M setup_state unit := modify (λ s, mkSetup (steps s ++ [e])).

(** [os.system] returns the status of the command, which the script ignores. *)
Definition os_system (command : string) : M setup_state unit := step (OsSystem command).

Definition compile_proto : M setup_state unit := os_system "bash compile.sh".

Definition cleanup_commands : list string :=
  ["rm anna/anna_pb2.py"; "rm anna/shared_pb2.py"; "rm -rf build"; "rm -rf Anna.egg-info"]%string.

Definition cleanup : M setup_state unit := for_each cleanup_commands os_system.

(** [InstallWrapper.run]; [install_run] is the answer of the standard one. *)
Definition InstallWrapper_run (install_run : outcome unit) : M setup_state unit :=
  compile_proto ;;
  step InstallRun ;;
  lift install_run ;;
  cleanup.

(** The arguments of the [setup] of the client. *)
Record setup_args : Type := mkSetupArgs {
  sa_name : string;
  sa_version : string;
  sa_packages : list string;
  sa_license : string;
  sa_long_description : string;
  sa_install_requires : list string;
  sa_install : outcome unit → M setup_state unit
}.

Definition anna_setup : setup_args :=
  mkSetupArgs "Anna" "0.1" ["anna"%string] "Apache v2" "Client for the Anna KVS"
    ["zmq"; "protobuf"]%string InstallWrapper_run.

(** The arguments [setup_requires] and [pbr] of the other two. *)
Definition kubespray_setup : list string * bool := (["pbr"%string], true).

(** The import of [multiprocessing] may fail. *)
Definition builder_setup (has_multiprocessing : bool) : outcome (list string * bool) :=
  match (if has_multiprocessing then Ret tt else Raise ImportError) with
  | Ret _ | Raise ImportError => Ret ([], false)
  | Raise e => Raise e
  | Blocked => Blocked
  | OutOfFuel => OutOfFuel
  end.

(** Also: the client's installation command compiles the protocol buffers, then
    installs, then removes what was generated; if the installation raises, the
    generated files stay. *)
Theorem install_wrapper_steps install_run s :
  let r := sa_install anna_setup install_run s in
  r.1 = install_run ∧
  steps r.2 = steps s ++ [OsSystem "bash compile.sh"; InstallRun] ++
    (if is_Ret install_run then OsSystem <$> cleanup_commands else []).
Proof.
  rewrite /anna_setup /= /InstallWrapper_run /mbind /M_bind /=.
  destruct install_run as [[]|e| |]; rewrite /= -!app_assoc //.
Qed.
