(* ===== verification/Cpp.v ===== *)
(** * What the C++ programs use of their language and library

    Unsigned arithmetic, [split] of src/common/include/common.hpp, conversions of
    texts, vectors, ordered maps as sorted lists, and unordered containers, whose
    order of iteration is not specified. *)

From stdpp Require Export sorting.
From S2P Require Import Prelude.

#[local] Open Scope Z_scope.

(** ** Numbers *)

Definition u32 (z : Z) : Z := z mod 2 ^ 32.

Lemma u32_small z : 0 ≤ z < 2 ^ 32 → u32 z = z.
Proof. apply Z.mod_small. Qed.

(** [std::to_string] *)
Definition to_string (z : Z) : string := py_str z.

(** ** Texts *)

(** [split(s, delim, elems)]: a delimiter at the end ends the last item, it does
    not start an empty one. *)
Fixpoint split (delim : ascii) (s : string) : list string :=
  match s with
  | EmptyString => []
  | String c s' =>
      if Ascii.eqb c delim then EmptyString :: split delim s'
      else match split delim s' with
           | item :: items => String c item :: items
           | [] => [String c EmptyString]
           end
  end.

Lemma split_item c s t :
  str_has c s = false → split c (s +:+ String c t) = s :: split c t.
Proof.
  induction s as [|a s IH]; intros Hs.
  - rewrite str_app_empty /=. by rewrite Ascii.eqb_refl.
  - simpl in Hs. apply orb_false_iff in Hs as [Ha Hs]. rewrite str_app_cons /= IH //.
    rewrite Ascii.eqb_sym in Ha. by rewrite Ha.
Qed.

Lemma split_last c s : str_has c s = false → s ≠ EmptyString → split c s = [s].
Proof.
  induction s as [|a s IH]; [done|]. intros Hs _. simpl in Hs.
  apply orb_false_iff in Hs as [Ha Hs]. rewrite Ascii.eqb_sym in Ha. cbn [split]. rewrite Ha.
  destruct s as [|b s]; [done|]. by rewrite IH.
Qed.

(** [v[i]] of a vector. *)
Definition vector_at {A} (v : list A) (i : nat) : outcome A :=
  match v !! i with Some a => Ret a | None => Raise Undefined end.

(** [isspace] in the C locale. *)
Fixpoint skip_space (s : string) : string :=
  match s with
  | String c s' =>
      if bool_decide (nat_of_ascii c ∈ [9; 10; 11; 12; 13; 32]%nat) then skip_space s' else s
  | EmptyString => s
  end.

(** [std::stoi]: spaces, a sign, digits; what follows is not read. *)
Fixpoint leading_digits (acc : Z) (s : string) : Z :=
  match s with
  | String c s' =>
      if is_digit c then leading_digits (acc * 10 + (Z.of_nat (nat_of_ascii c) - 48)) s' else acc
  | EmptyString => acc
  end.

Definition stoi (s : string) : outcome Z :=
  let '(sign, t) := match skip_space s with
                    | String "-" t => (-1, t)
                    | String "+" t => (1, t)
                    | t => (1, t)
                    end in
  match t with
  | String c _ =>
      if is_digit c then
        let z := sign * leading_digits 0 t in
        if (- 2 ^ 31 <=? z) && (z <? 2 ^ 31) then Ret z else Raise std_out_of_range
      else Raise std_invalid_argument
  | EmptyString => Raise std_invalid_argument
  end.

(** [std::stoul(s, nullptr, 0)]: the base is 16 after 0x, 8 after 0 and 10
    otherwise; a negative number wraps. *)
Definition digit_value (c : ascii) : Z :=
  let n := Z.of_nat (nat_of_ascii c) in
  if is_digit c then n - 48
  else if (97 <=? n) && (n <=? 122) then n - 87
  else if (65 <=? n) && (n <=? 90) then n - 55 else 36.

Fixpoint leading_value (base acc : Z) (s : string) : Z :=
  match s with
  | String c s' =>
      if digit_value c <? base then leading_value base (acc * base + digit_value c) s' else acc
  | EmptyString => acc
  end.

Definition number_base (s : string) : Z * string :=
  match s with
  | String "0" (String x ((String d _) as t)) =>
      if (Ascii.eqb x "x" || Ascii.eqb x "X") && (digit_value d <? 16) then (16, t) else (8, s)
  | String "0" _ => (8, s)
  | _ => (10, s)
  end.

Definition stoul (s : string) : outcome Z :=
  let '(negative, t) := match skip_space s with
                        | String "-" t => (true, t)
                        | String "+" t => (false, t)
                        | t => (false, t)
                        end in
  let '(base, t) := number_base t in
  match t with
  | String c _ =>
      if digit_value c <? base then
        let z := leading_value base 0 t in
        if z <? 2 ^ 64 then Ret ((if (negative : bool) then - z else z) mod 2 ^ 64)
        else Raise std_out_of_range
      else Raise std_invalid_argument
  | EmptyString => Raise std_invalid_argument
  end.

(** ** Unordered containers

    [std::unordered_map] and [std::unordered_set] are lists of their elements;
    a loop over them visits each element once, in some order. *)
Class Unordered : Type := {
  iterate : ∀ {A : Type}, list A → list A;
  iterate_perm : ∀ {A : Type} (l : list A), iterate l ≡ₚ l
}.

Definition insertion_order : Unordered.
Proof. refine {| iterate A l := l |}. done. Defined.
