(* ===== verification/Threads.v ===== *)
(** * Threads and their addresses

    src/include/kvs_threads.hpp and src/common/include/threads.hpp: the ports of
    the servers, and the classes that build the addresses at which a thread binds
    its sockets and at which others connect to it.  Ports are added to thread
    numbers as 32-bit unsigned integers.  The sockets of each class are an
    enumeration with a table of their ports; the methods of the classes are
    abbreviations. *)

From S2P Require Import Prelude Cpp.

#[local] Open Scope Z_scope.

Definition kBindBase : string := "tcp://*:".

(** [base + std::to_string(tid_ + port)] *)
Definition at_port (base : string) (tid port : Z) : string := base +:+ to_string (u32 (tid + port)).
Definition tcp_base (ip : string) : string := "tcp://" +:+ ip +:+ ":".
Definition on_any (tid port : Z) : string := at_port kBindBase tid port.

(** ** ServerThread

    The constructor without a virtual number leaves the field uninitialised. *)
Record ServerThread : Type := mkServerThread {
  st_public_ip : string;
  st_private_ip : string;
  st_tid : Z;
  st_virtual_num : option Z
}.

#[export] Instance ServerThread_eq_dec : EqDecision ServerThread.
Proof. solve_decision. Defined.

Definition server_thread (public_ip private_ip : string) (tid : Z) : ServerThread :=
  mkServerThread public_ip private_ip tid None.
Definition virtual_thread (public_ip private_ip : string) (tid virtual_num : Z) : ServerThread :=
  mkServerThread public_ip private_ip tid (Some virtual_num).

Definition st_id (t : ServerThread) : string := st_private_ip t +:+ ":" +:+ to_string (st_tid t).
Definition virtual_id (t : ServerThread) : string :=
  st_private_ip t +:+ ":" +:+ to_string (st_tid t) +:+ "_" +:+
  to_string (default 0 (st_virtual_num t)).

(** [operator==] *)
Definition same_server (l r : ServerThread) : bool := String.eqb (st_id l) (st_id r).

Definition private_base (t : ServerThread) : string := tcp_base (st_private_ip t).
Definition public_base (t : ServerThread) : string := tcp_base (st_public_ip t).

Inductive server_socket : Type :=
  | NodeJoin | NodeDepart | SelfDepart | ServerReplicationResponse | KeyRequestSocket | Gossip | Failover
  | ServerReplicationChange | CacheIpResponse | ManagementNodeResponse | ServerResponse.

#[export] Instance server_socket_eq_dec : EqDecision server_socket.
Proof. solve_decision. Defined.

(** kNodeJoinPort, kNodeDepartPort, ... *)
Definition server_port (k : server_socket) : Z :=
  match k with
  | NodeJoin => 6000
  | NodeDepart => 6100
  | SelfDepart => 6200
  | ServerReplicationResponse => 6300
  | KeyRequestSocket => 6400
  | Gossip => 6500
  | Failover => 6600
  | ServerReplicationChange => 6700
  | CacheIpResponse => 6800
  | ManagementNodeResponse => 6900
  | ServerResponse => 7900
  end.

(** Clients connect to the public address. *)
Definition st_connect_address (k : server_socket) (t : ServerThread) : string :=
  at_port (match k with KeyRequestSocket => public_base t | _ => private_base t end) (st_tid t) (server_port k).
Definition st_bind_address (k : server_socket) (t : ServerThread) : string :=
  on_any (st_tid t) (server_port k).

Notation node_join_connect_address := (st_connect_address NodeJoin) (only parsing).
Notation node_join_bind_address := (st_bind_address NodeJoin) (only parsing).
Notation node_depart_connect_address := (st_connect_address NodeDepart) (only parsing).
Notation node_depart_bind_address := (st_bind_address NodeDepart) (only parsing).
Notation self_depart_connect_address := (st_connect_address SelfDepart) (only parsing).
Notation self_depart_bind_address := (st_bind_address SelfDepart) (only parsing).
Notation key_request_connect_address := (st_connect_address KeyRequestSocket) (only parsing).
Notation key_request_bind_address := (st_bind_address KeyRequestSocket) (only parsing).
Notation replication_response_connect_address := (st_connect_address ServerReplicationResponse) (only parsing).
Notation replication_response_bind_address := (st_bind_address ServerReplicationResponse) (only parsing).
Notation gossip_connect_address := (st_connect_address Gossip) (only parsing).
Notation gossip_bind_address := (st_bind_address Gossip) (only parsing).
Notation failover_connect_address := (st_connect_address Failover) (only parsing).
Notation failover_bind_address := (st_bind_address Failover) (only parsing).
Notation replication_change_connect_address := (st_connect_address ServerReplicationChange) (only parsing).
Notation replication_change_bind_address := (st_bind_address ServerReplicationChange) (only parsing).
Notation cache_ip_response_connect_address := (st_connect_address CacheIpResponse) (only parsing).
Notation cache_ip_response_bind_address := (st_bind_address CacheIpResponse) (only parsing).
Notation management_node_response_connect_address := (st_connect_address ManagementNodeResponse) (only parsing).
Notation management_node_response_bind_address := (st_bind_address ManagementNodeResponse) (only parsing).
Notation response_connect_address := (st_connect_address ServerResponse) (only parsing).
Notation response_bind_address := (st_bind_address ServerResponse) (only parsing).

(** ** RoutingThread *)
Record RoutingThread : Type := mkRoutingThread { rt_ip : string; rt_tid : Z }.

Inductive routing_socket : Type :=
  | Seed | RoutingNotify | RoutingReplicationResponse | RoutingReplicationChange | KeyAddressSocket.

(** kSeedPort, ..., and kKeyAddressPort, which clients know too. *)
Definition kKeyAddressPort : Z := 8200.
Definition routing_port (k : routing_socket) : Z :=
  match k with
  | Seed => 7000
  | RoutingNotify => 7100
  | RoutingReplicationResponse => 7200
  | RoutingReplicationChange => 7300
  | KeyAddressSocket => kKeyAddressPort
  end.

Definition rt_connect_address (k : routing_socket) (t : RoutingThread) : string :=
  at_port (tcp_base (rt_ip t)) (rt_tid t) (routing_port k).
Definition rt_bind_address (k : routing_socket) (t : RoutingThread) : string :=
  on_any (rt_tid t) (routing_port k).

Notation rt_seed_connect_address := (rt_connect_address Seed) (only parsing).
Notation rt_seed_bind_address := (rt_bind_address Seed) (only parsing).
Notation rt_notify_connect_address := (rt_connect_address RoutingNotify) (only parsing).
Notation rt_notify_bind_address := (rt_bind_address RoutingNotify) (only parsing).
Notation rt_key_address_connect_address := (rt_connect_address KeyAddressSocket) (only parsing).
Notation rt_key_address_bind_address := (rt_bind_address KeyAddressSocket) (only parsing).
Notation rt_replication_response_connect_address := (rt_connect_address RoutingReplicationResponse) (only parsing).
Notation rt_replication_response_bind_address := (rt_bind_address RoutingReplicationResponse) (only parsing).
Notation rt_replication_change_connect_address := (rt_connect_address RoutingReplicationChange) (only parsing).
Notation rt_replication_change_bind_address := (rt_bind_address RoutingReplicationChange) (only parsing).

(** ** MonitoringThread: one thread, ports without a thread number. *)
Inductive monitoring_socket : Type :=
  | MonitoringNotify | MonitoringResponse | DepartDone | FeedbackReport | InternalStatReport.

Definition monitoring_port (k : monitoring_socket) : Z :=
  match k with
  | MonitoringNotify => 7400
  | MonitoringResponse => 7500
  | DepartDone => 7600
  | FeedbackReport => 7700
  | InternalStatReport => 7800
  end.

Definition mt_connect_address (k : monitoring_socket) (ip : string) : string :=
  tcp_base ip +:+ to_string (monitoring_port k).
Definition mt_bind_address (k : monitoring_socket) : string := kBindBase +:+ to_string (monitoring_port k).

Notation mt_notify_connect_address := (mt_connect_address MonitoringNotify) (only parsing).
Notation mt_notify_bind_address := (mt_bind_address MonitoringNotify) (only parsing).
Notation mt_response_connect_address := (mt_connect_address MonitoringResponse) (only parsing).
Notation mt_response_bind_address := (mt_bind_address MonitoringResponse) (only parsing).
Notation mt_depart_done_connect_address := (mt_connect_address DepartDone) (only parsing).
Notation mt_depart_done_bind_address := (mt_bind_address DepartDone) (only parsing).
Notation mt_feedback_report_connect_address := (mt_connect_address FeedbackReport) (only parsing).
Notation mt_feedback_report_bind_address := (mt_bind_address FeedbackReport) (only parsing).
Notation mt_internal_stat_report_connect_address := (mt_connect_address InternalStatReport) (only parsing).
Notation mt_internal_stat_report_bind_address := (mt_bind_address InternalStatReport) (only parsing).

(** ** Benchmark, user and cache threads, requests to the management server *)
Definition benchmark_command_address (ip : string) (tid : Z) : string := at_port (tcp_base ip) tid 8000.
Definition get_join_count_req_address (management_ip : string) : string :=
  tcp_base management_ip +:+ to_string 8100.
Definition get_func_nodes_req_address (management_ip : string) : string :=
  tcp_base management_ip +:+ to_string 8102.

Inductive user_socket : Type := UserRouting | UserResponse | UserKeyAddress | CacheUpdate.

Definition user_port (k : user_socket) : Z :=
  match k with
  | UserRouting => kKeyAddressPort
  | UserResponse => 8300
  | UserKeyAddress => 8400
  | CacheUpdate => 8500
  end.

Definition user_connect_address (k : user_socket) (ip : string) (tid : Z) : string :=
  at_port (tcp_base ip) tid (user_port k).
Definition user_bind_address (k : user_socket) (tid : Z) : string := on_any tid (user_port k).

Definition cache_get_address : string := "ipc:///requests/get".
Definition cache_put_address : string := "ipc:///requests/put".

(** ** Properties *)

Lemma at_port_inj base tid tid' port port' :
  0 ≤ tid + port < 2 ^ 32 → 0 ≤ tid' + port' < 2 ^ 32 →
  at_port base tid port = at_port base tid' port' → tid + port = tid' + port'.
Proof.
  intros H H' E. apply (inj (String.append base)) in E. apply (inj pretty) in E.
  by rewrite !u32_small in E.
Qed.

#[export] Instance server_port_inj : Inj (=) (=) server_port.
Proof. by intros [] []. Qed.

Lemma server_port_hundreds k : ∃ n, server_port k = 100 * n ∧ 60 ≤ n ≤ 79.
Proof. exists (server_port k / 100). by destruct k. Qed.

(** C39: the ports of a storage server are a hundred apart: with up to a hundred
    threads no two sockets of the node bind the same address, and with one thread
    more two do. *)
Theorem server_binds_distinct k k' t u :
  0 ≤ st_tid t < 100 → 0 ≤ st_tid u < 100 →
  (st_bind_address k t = st_bind_address k' u → k = k' ∧ st_tid t = st_tid u) ∧
  ∀ public_ip private_ip, node_join_bind_address (server_thread public_ip private_ip 100) =
    node_depart_bind_address (server_thread public_ip private_ip 0).
Proof.
  intros Ht Hu. split; [|done]. intros E.
  destruct (server_port_hundreds k) as (n & Hn & ?), (server_port_hundreds k') as (n' & Hn' & ?).
  apply at_port_inj in E; [|lia..]. split; [|lia]. apply (inj server_port). lia.
Qed.

Lemma server_binds_distinct_witness :
  node_join_bind_address (server_thread "1.1.1.1" "10.0.0.1" 3) ≠
  node_depart_bind_address (server_thread "1.1.1.1" "10.0.0.1" 3).
Proof.
  intros E. assert (NodeJoin = NodeDepart) as [=].
  apply (server_binds_distinct NodeJoin NodeDepart
    (server_thread "1.1.1.1" "10.0.0.1" 3) (server_thread "1.1.1.1" "10.0.0.1" 3)); done.
Defined.
