(* ===== verification/HashRing.v ===== *)
(** * The hash ring

    src/include/consistent_hash_map.hpp, hashers.hpp, hash_ring.hpp and
    metadata.hpp, and src/src/hash_ring/hash_ring.cpp: threads on a ring of hash
    values, each at [kVirtualThreadNum] places, and which of them are responsible
    for a key.  The hash function of strings is a parameter. *)

From S2P Require Import Prelude Cpp Threads.

#[local] Open Scope Z_scope.

(** ** ConsistentHashMap

    [nodes_] is a [std::map]: a list sorted by hash value.  An iterator is a
    position; the end is the length of the list. *)

Definition node_map : Type := list (Z * ServerThread).

(** [insert] keeps the node that is already there. *)
Fixpoint map_insert (hash : Z) (node : ServerThread) (nodes : node_map) : node_map :=
  match nodes with
  | [] => [(hash, node)]
  | (hash', node') :: nodes' =>
      if hash <? hash' then (hash, node) :: nodes
      else if hash =? hash' then nodes
      else (hash', node') :: map_insert hash node nodes'
  end.

Definition map_erase (hash : Z) (nodes : node_map) : node_map :=
  filter (λ hn, hn.1 ≠ hash) nodes.

(** The first position whose hash value is not less. *)
Fixpoint lower_bound (hash : Z) (nodes : node_map) : nat :=
  match nodes with
  | [] => O
  | (hash', _) :: nodes' => if hash' <? hash then S (lower_bound hash nodes') else O
  end.

(** [++it], and back to the beginning from the end. *)
Definition next_pos (nodes : node_map) (pos : nat) : nat :=
  if (S pos =? length nodes)%nat then O else S pos.

Definition find_pos (hash : Z) (nodes : node_map) : nat :=
  let it := lower_bound hash nodes in
  if (it =? length nodes)%nat then O else it.

(** The functions that place threads and keys on the ring. *)
Record Hasher : Type := mkHasher {
  hash_thread : ServerThread → Z;
  hash_key : string → Z
}.

(** [std::hash<string>] *)
Class StdHash : Type := { std_hash : string → Z }.

Definition GlobalHasher `{StdHash} : Hasher := {|
  hash_thread th := u32 (std_hash ("GLOBAL" +:+ virtual_id th));
  hash_key key := u32 (std_hash ("GLOBAL" +:+ key))
|}.

Definition LocalHasher `{StdHash} : Hasher := {|
  hash_thread th := std_hash (to_string (st_tid th) +:+ "_" +:+
                              to_string (default 0 (st_virtual_num th)));
  hash_key key := std_hash key
|}.

(** [find_predecessor(node)]: the position after the lower bound; incrementing
    the end is undefined. *)
Definition find_predecessor (H : Hasher) (node : ServerThread) (nodes : node_map) : outcome nat :=
  match nodes with
  | [] => Ret O
  | _ => let it := lower_bound (hash_thread H node) nodes in
         if (it =? length nodes)%nat then Raise Undefined else Ret (next_pos nodes it)
  end.

(** ** HashRing *)

Definition kVirtualThreadNum : Z := 3000.

(** [unique_servers] is an unordered set of threads with [operator==]. *)
Record HashRing : Type := mkHashRing {
  nodes : node_map;
  unique_servers : list ServerThread;
  server_join_count : gmap string Z
}.

Definition empty_ring : HashRing := mkHashRing [] [] ∅.

(** [size()] *)
Definition ring_size (r : HashRing) : Z := Z.of_nat (length (nodes r)).

Definition has_server (t : ServerThread) (ts : list ServerThread) : bool := existsb (same_server t) ts.

(** The places of a thread. *)
Definition virtual_threads (public_ip private_ip : string) (tid : Z) : list ServerThread :=
  virtual_thread public_ip private_ip tid <$> seqZ 0 kVirtualThreadNum.

Lemma virtual_threads_elem public_ip private_ip tid t :
  t ∈ virtual_threads public_ip private_ip tid ↔
  ∃ v, 0 ≤ v < kVirtualThreadNum ∧ t = virtual_thread public_ip private_ip tid v.
Proof.
  rewrite /virtual_threads list_elem_of_fmap.
  split; [intros (v & -> & Hv%elem_of_seqZ)|intros (v & Hv & ->)]; exists v; split; try done.
  apply elem_of_seqZ. lia.
Qed.

Lemma virtual_threads_NoDup public_ip private_ip tid :
  NoDup (virtual_threads public_ip private_ip tid).
Proof. apply NoDup_fmap_2_strong; [|apply NoDup_seqZ]. by intros v w _ _ [= ->]. Qed.

#[global] Opaque virtual_threads.

Definition chm_insert (H : Hasher) (ns : node_map) (t : ServerThread) : node_map :=
  map_insert (hash_thread H t) t ns.
Definition chm_erase (H : Hasher) (ns : node_map) (t : ServerThread) : node_map :=
  map_erase (hash_thread H t) ns.

(** [insert]: a server that is there already is only told from a new one by its
    count of joins. *)
Definition ring_insert (H : Hasher) (public_ip private_ip : string) (join_count tid : Z)
    (r : HashRing) : bool * HashRing :=
  let new_thread := virtual_thread public_ip private_ip tid 0 in
  if has_server new_thread (unique_servers r) then
    let count := default 0 (server_join_count r !! private_ip) in
    if count <? join_count
    then (true, mkHashRing (nodes r) (unique_servers r)
                  (<[private_ip := join_count]> (server_join_count r)))
    else (false, mkHashRing (nodes r) (unique_servers r)
                   (<[private_ip := count]> (server_join_count r)))
  else
    (true, mkHashRing (foldl (chm_insert H) (nodes r) (virtual_threads public_ip private_ip tid))
             (unique_servers r ++ [new_thread])
             (<[private_ip := join_count]> (server_join_count r))).

Definition ring_remove (H : Hasher) (public_ip private_ip : string) (tid : Z) (r : HashRing) : HashRing :=
  mkHashRing (foldl (chm_erase H) (nodes r) (virtual_threads public_ip private_ip tid))
    (filter (λ t, same_server (virtual_thread public_ip private_ip tid 0) t = false)
       (unique_servers r))
    (delete private_ip (server_join_count r)).

Definition get_partition_range_changed_threads (H : Hasher) (public_ip private_ip : string)
    (tid : Z) (r : HashRing) : outcome (list ServerThread) :=
  ofold (virtual_threads public_ip private_ip tid) [] (λ threads st,
    pos ← find_predecessor H st (nodes r);
    node ← vector_at (nodes r) pos;
    Ret (if has_server node.2 threads then threads else threads ++ [node.2])).

(** ** Responsible threads (hash_ring.cpp) *)

(** The loops of [responsible_global] and [responsible_local]: from [pos] around
    the ring until [rep] different values were found.  A ring with fewer of them
    is walked forever. *)
Fixpoint walk {A} (value : ServerThread → A) (same : A → A → bool) (ns : node_map) (rep : Z)
    (fuel : nat) (i : Z) (pos : nat) (found : list A) : outcome (list A) :=
  match fuel with
  | O => OutOfFuel
  | S fuel' =>
      if i <? rep then
        node ← vector_at ns pos;
        let v := value node.2 in
        if existsb (same v) found
        then walk value same ns rep fuel' i (next_pos ns pos) found
        else walk value same ns rep fuel' (i + 1) (next_pos ns pos) (found ++ [v])
      else Ret found
  end.

(** One turn is enough, or no number of turns is. *)
Definition walk_fuel (ns : node_map) : nat := S (length ns).

Definition responsible_global (H : Hasher) (key : string) (global_rep : Z) (r : HashRing)
  : outcome (list ServerThread) :=
  match nodes r with
  | [] => Ret []
  | _ => walk id same_server (nodes r) global_rep (walk_fuel (nodes r)) 0
           (find_pos (hash_key H key) (nodes r)) []
  end.

(** The result is an unordered set. *)
Definition responsible_local (H : Hasher) (key : string) (local_rep : Z) (r : HashRing)
  : outcome (list Z) :=
  match nodes r with
  | [] => Ret []
  | _ => walk st_tid Z.eqb (nodes r) local_rep (walk_fuel (nodes r)) 0
           (find_pos (hash_key H key) (nodes r)) []
  end.
