(* ===== verification/HashRingProps.v ===== *)
(** * Properties of the hash ring

    Walking the ring finds the first replicas clockwise from a key, whenever there
    are enough of them, and never ends otherwise; a join or a departure changes at
    most one replica of a key; the ring is a function of its members. *)

From S2P Require Import Prelude Cpp Threads HashRing.

#[local] Open Scope Z_scope.

(** ** Different values in order of their first occurrence *)

Section Distinct.
Context {A : Type} (same : A → A → bool).

Definition add_value (found : list A) (v : A) : list A :=
  if existsb (same v) found then found else found ++ [v].
Definition distinct_values (l : list A) : list A := foldl add_value [] l.

Lemma add_value_prefix found v : prefix found (add_value found v).
Proof. rewrite /add_value. case_match; [done|]. by apply prefix_app_r. Qed.

Lemma foldl_add_prefix found l : prefix found (foldl add_value found l).
Proof.
  revert found. induction l as [|v l IH]; intros found; [done|]. cbn [foldl].
  trans (add_value found v); [apply add_value_prefix|apply IH].
Qed.

Lemma distinct_app l1 l2 : distinct_values (l1 ++ l2) = foldl add_value (distinct_values l1) l2.
Proof. apply foldl_app. Qed.

Lemma distinct_prefix l1 l2 : prefix (distinct_values l1) (distinct_values (l1 ++ l2)).
Proof. rewrite distinct_app. apply foldl_add_prefix. Qed.

(** When [same] compares keys. *)
Context {K : Type} (k : A → K) (Hsame : ∀ a b, same a b = true ↔ k a = k b).

Lemma existsb_same v l : existsb (same v) l = true ↔ k v ∈ k <$> l.
Proof.
  rewrite existsb_exists list_elem_of_fmap. split.
  - intros (x & Hx & Hs). exists x. by rewrite list_elem_of_In -(Hsame v x).
  - intros (x & Hk & Hx). exists x. by rewrite -list_elem_of_In (Hsame v x).
Qed.

Lemma add_value_elem found v x :
  x ∈ k <$> add_value found v ↔ x = k v ∨ x ∈ k <$> found.
Proof.
  rewrite /add_value. destruct (existsb (same v) found) eqn:E.
  - apply existsb_same in E. split; [by right|]. by intros [->|].
  - rewrite fmap_app elem_of_app list_elem_of_singleton. tauto.
Qed.

Lemma distinct_values_elem x l : x ∈ k <$> distinct_values l ↔ x ∈ k <$> l.
Proof.
  induction l as [|v l IH] using rev_ind; [done|].
  rewrite distinct_app /= add_value_elem IH fmap_app elem_of_app list_elem_of_singleton. tauto.
Qed.

Lemma distinct_NoDup l : NoDup (k <$> distinct_values l).
Proof.
  induction l as [|v l IH] using rev_ind; [constructor|].
  rewrite distinct_app /= /add_value. destruct (existsb _ _) eqn:E; [done|].
  rewrite fmap_app. apply NoDup_app. split; [done|]. split; [|apply NoDup_singleton].
  intros x Hx Hv%list_elem_of_singleton. subst x. apply existsb_same in Hx. congruence.
Qed.

Lemma distinct_subset v l : v ∈ distinct_values l → v ∈ l.
Proof.
  induction l as [|w l IH] using rev_ind; [done|].
  rewrite distinct_app /= /add_value elem_of_app list_elem_of_singleton.
  case_match; [by left; apply IH|].
  rewrite elem_of_app list_elem_of_singleton. naive_solver.
Qed.

(** At most as many as in any other list with all the keys. *)
Lemma distinct_length l l' :
  k <$> l ⊆ k <$> l' → (length (distinct_values l) ≤ length (distinct_values l'))%nat.
Proof.
  intros Hsub. rewrite -(length_fmap k) -(length_fmap k (distinct_values l')).
  apply submseteq_length, NoDup_submseteq; [apply distinct_NoDup|].
  intros x. rewrite !distinct_values_elem. apply Hsub.
Qed.

(** Leaving values out that are compared as a whole. *)
Lemma filter_add_value (P : A → Prop) `{∀ x, Decision (P x)} found v :
  (∀ a b, same a b = true → P a ↔ P b) →
  filter P (add_value found v) =
  if decide (P v) then add_value (filter P found) v else filter P found.
Proof.
  intros HP. rewrite /add_value. case_decide as Hv.
  - assert (existsb (same v) (filter P found) = existsb (same v) found) as ->.
    { apply Bool.eq_iff_eq_true. rewrite !existsb_exists.
      split; intros (x & Hx%list_elem_of_In & Hs); exists x; split; try done;
        apply list_elem_of_In.
      - by apply list_elem_of_filter in Hx as [].
      - apply list_elem_of_filter. by split; [apply (HP v x Hs)|]. }
    destruct (existsb (same v) found); [done|]. rewrite filter_app. f_equal.
    by rewrite filter_cons_True.
  - destruct (existsb (same v) found); [done|]. rewrite filter_app.
    by rewrite filter_cons_False // app_nil_r.
Qed.

Lemma distinct_filter (P : A → Prop) `{∀ x, Decision (P x)} l :
  (∀ a b, same a b = true → P a ↔ P b) →
  distinct_values (filter P l) = filter P (distinct_values l).
Proof.
  intros HP. induction l as [|v l IH] using rev_ind; [done|].
  rewrite filter_app !distinct_app IH.
  change (foldl add_value (distinct_values l) [v]) with (add_value (distinct_values l) v).
  rewrite (filter_add_value P (distinct_values l) v HP).
  case_decide; [by rewrite filter_cons_True|by rewrite filter_cons_False].
Qed.

End Distinct.

(** ** Sorted maps *)

Definition before (a b : Z * ServerThread) : Prop := a.1 < b.1.
Definition sorted_nodes (ns : node_map) : Prop := StronglySorted before ns.

#[export] Instance before_antisym : AntiSymm (=) before.
Proof. intros a b H1 H2. unfold before in *. lia. Qed.

Lemma map_insert_elem h t ns hn : hn ∈ map_insert h t ns → hn = (h, t) ∨ hn ∈ ns.
Proof.
  induction ns as [|[h' t'] ns IH]; cbn [map_insert]; [by left; apply list_elem_of_singleton|].
  destruct (h <? h'); [by intros [->|]%elem_of_cons; auto|]. destruct (h =? h'); [by right|].
  intros [->|Hin]%elem_of_cons; [right; left|]. destruct (IH Hin); [by left|by right; right].
Qed.

Lemma map_insert_sorted h t ns : sorted_nodes ns → sorted_nodes (map_insert h t ns).
Proof.
  induction ns as [|[h' t'] ns IH]; cbn [map_insert]; intros Hs.
  { by repeat constructor. }
  apply StronglySorted_cons in Hs as [Hf Hs]. destruct (Z.ltb_spec h h') as [Hlt|Hge].
  { apply StronglySorted_cons. split; [|by apply StronglySorted_cons].
    constructor; [done|]. eapply Forall_impl; [exact Hf|]. unfold before; simpl. lia. }
  destruct (Z.eqb_spec h h') as [->|Hne]; [by apply StronglySorted_cons|].
  apply StronglySorted_cons. split; [|by apply IH]. apply Forall_forall.
  intros hn [->|Hin]%map_insert_elem; [unfold before; simpl; lia|].
  rewrite Forall_forall in Hf. by apply Hf.
Qed.

(** A new hash value adds a node. *)
Lemma map_insert_keeps h t ns hn : hn ∈ ns → hn ∈ map_insert h t ns.
Proof.
  induction ns as [|[h' t'] ns IH]; [by intros ?%elem_of_nil|]. cbn [map_insert].
  intros Hin. case_match; [by right|]. case_match; [done|].
  apply elem_of_cons in Hin as [->|Hin]; [left|right; by apply IH].
Qed.

Lemma map_insert_there h t ns : h ∈ (map_insert h t ns).*1.
Proof.
  induction ns as [|[h' t'] ns IH]; cbn [map_insert]; [left|]. case_match; [left|].
  case_match eqn:E; [apply Z.eqb_eq in E as ->; left|by right].
Qed.

Lemma map_insert_perm h t ns : h ∉ ns.*1 → map_insert h t ns ≡ₚ (h, t) :: ns.
Proof.
  induction ns as [|[h' t'] ns IH]; cbn [map_insert]; intros Hn; [done|].
  rewrite fmap_cons not_elem_of_cons /= in Hn. destruct Hn as [Hne Hn].
  destruct (h <? h'); [done|]. rewrite (proj2 (Z.eqb_neq h h') Hne) IH //.
  apply Permutation_swap.
Qed.

Lemma filter_map_insert (P : Z * ServerThread → Prop) `{∀ x, Decision (P x)} h t ns :
  ¬ P (h, t) → filter P (map_insert h t ns) = filter P ns.
Proof.
  intros HP. induction ns as [|[h' t'] ns IH]; cbn [map_insert].
  { by rewrite filter_cons_False. }
  destruct (h <? h'); [by rewrite filter_cons_False|]. destruct (h =? h'); [done|].
  rewrite !filter_cons IH. done.
Qed.

Lemma filter_sorted (P : Z * ServerThread → Prop) `{∀ x, Decision (P x)} ns :
  sorted_nodes ns → sorted_nodes (filter P ns).
Proof.
  intros Hs. induction Hs as [|hn ns Hs IH Hf]; [constructor|].
  rewrite filter_cons. case_decide; [|done]. constructor; [done|].
  apply Forall_forall. intros x [_ Hx]%list_elem_of_filter.
  rewrite Forall_forall in Hf. by apply Hf.
Qed.

(** ** The ring seen from a hash value *)

(** All nodes in the order of the ring, from the first that is not before [h]. *)
Definition clockwise (h : Z) (ns : node_map) : node_map :=
  filter (λ hn, h ≤ hn.1) ns ++ filter (λ hn, hn.1 < h) ns.

Lemma lower_bound_split h ns :
  sorted_nodes ns →
  take (lower_bound h ns) ns = filter (λ hn, hn.1 < h) ns ∧
  drop (lower_bound h ns) ns = filter (λ hn, h ≤ hn.1) ns.
Proof.
  induction ns as [|[h' t'] ns IH]; intros Hs; [done|].
  apply StronglySorted_cons in Hs as [Hf Hs]. cbn [lower_bound].
  destruct (Z.ltb_spec h' h) as [Hlt|Hge].
  - destruct (IH Hs) as [H1 H2]. cbn [take drop]. rewrite H1 H2. split.
    + by rewrite filter_cons_True.
    + rewrite filter_cons_False //. simpl. lia.
  - assert (Forall (λ hn : Z * ServerThread, h ≤ hn.1) ((h', t') :: ns)) as Hall.
    { constructor; [done|]. eapply Forall_impl; [exact Hf|]. unfold before; simpl. lia. }
    split; symmetry; [|by apply filter_all].
    apply filter_none. eapply Forall_impl; [exact Hall|]. simpl. lia.
Qed.

(** The nodes from a position around the ring. *)
Definition from_pos (pos : nat) (ns : node_map) : node_map := drop pos ns ++ take pos ns.

Lemma from_find_pos h ns : sorted_nodes ns → from_pos (find_pos h ns) ns = clockwise h ns.
Proof.
  intros Hs. destruct (lower_bound_split h ns Hs) as [Ht Hd].
  rewrite /from_pos /find_pos /clockwise -Ht -Hd.
  destruct (Nat.eqb_spec (lower_bound h ns) (length ns)) as [->|]; [|done].
  by rewrite drop_all firstn_all app_nil_r app_nil_l.
Qed.

Lemma lower_bound_le h ns : (lower_bound h ns ≤ length ns)%nat.
Proof.
  induction ns as [|[h' t'] ns IH]; simpl; [done|]. destruct (h' <? h); simpl; lia.
Qed.

Lemma find_pos_lt h ns : ns ≠ [] → (find_pos h ns < length ns)%nat.
Proof.
  intros Hne. rewrite /find_pos. pose proof (lower_bound_le h ns).
  destruct (Nat.eqb_spec (lower_bound h ns) (length ns)); [|lia]. destruct ns; simpl; [done|lia].
Qed.

(** The position after [n] steps. *)
Definition pos_after (ns : node_map) (pos n : nat) : nat := ((pos + n) mod length ns)%nat.

Lemma next_pos_after ns pos n :
  (pos < length ns)%nat → next_pos ns (pos_after ns pos n) = pos_after ns pos (S n).
Proof.
  intros Hp. rewrite /next_pos /pos_after. assert (length ns ≠ 0)%nat as Hl by lia.
  pose proof (Nat.mod_upper_bound (pos + n) (length ns) Hl) as Hb.
  pose proof (Nat.div_mod (pos + n) (length ns) Hl) as Hd.
  set (q := ((pos + n) / length ns)%nat) in *. set (m := ((pos + n) mod length ns)%nat) in *.
  replace (pos + S n)%nat with (S m + q * length ns)%nat by lia.
  rewrite Nat.Div0.mod_add. destruct (Nat.eqb_spec (S m) (length ns)) as [->|].
  - by rewrite Nat.Div0.mod_same.
  - rewrite Nat.mod_small //. lia.
Qed.

Lemma lookup_from_pos ns pos n :
  (pos < length ns)%nat → (n < length ns)%nat → from_pos pos ns !! n = ns !! pos_after ns pos n.
Proof.
  intros Hp Hn. rewrite /from_pos /pos_after. destruct (decide (pos + n < length ns)%nat).
  - rewrite lookup_app_l ?length_drop; [|lia]. by rewrite lookup_drop Nat.mod_small.
  - rewrite lookup_app_r ?length_drop; [|lia]. rewrite lookup_take_lt; [|lia].
    f_equal. replace (pos + n)%nat with (n - (length ns - pos) + 1 * length ns)%nat by lia.
    rewrite Nat.Div0.mod_add Nat.mod_small; lia.
Qed.

Lemma length_from_pos pos ns : (pos ≤ length ns)%nat → length (from_pos pos ns) = length ns.
Proof. intros Hp. rewrite /from_pos length_app length_drop length_take. lia. Qed.

(** ** Walking the ring *)

Section Walk.
Context {A : Type} (value : ServerThread → A) (same : A → A → bool).
Implicit Types (ns : node_map) (rep : Z).

(** What a full turn from [pos] finds. *)
Definition turn (l : node_map) : list A := distinct_values same ((λ hn, value hn.2) <$> l).

Lemma walk_step ns rep fuel i n pos found node :
  i < rep → ns !! pos_after ns pos n = Some node → (pos < length ns)%nat →
  i = Z.of_nat (length found) →
  walk value same ns rep (S fuel) i (pos_after ns pos n) found =
  walk value same ns rep fuel (Z.of_nat (length (add_value same found (value node.2))))
    (pos_after ns pos (S n)) (add_value same found (value node.2)).
Proof.
  intros Hi Hn Hp ->. cbn [walk]. rewrite (proj2 (Z.ltb_lt _ _) Hi) /vector_at Hn.
  cbn [mbind outcome_bind]. rewrite next_pos_after // /add_value.
  destruct (existsb _ found); [done|]. rewrite length_app /=. do 2 f_equal. lia.
Qed.

(** Enough values: the first [rep] of a turn. *)
Lemma walk_finds ns rep pos fuel :
  (pos < length ns)%nat → 0 ≤ rep → rep ≤ Z.of_nat (length (turn (from_pos pos ns))) →
  (length ns < fuel)%nat →
  walk value same ns rep fuel 0 pos [] = Ret (take (Z.to_nat rep) (turn (from_pos pos ns))).
Proof.
  intros Hp Hr Hrep Hfuel.
  enough (∀ todo seen fuel, from_pos pos ns = seen ++ todo → (length todo < fuel)%nat →
    Z.of_nat (length (turn seen)) ≤ rep →
    walk value same ns rep fuel (Z.of_nat (length (turn seen))) (pos_after ns pos (length seen))
      (turn seen) = Ret (take (Z.to_nat rep) (turn (from_pos pos ns)))) as Hgen.
  { specialize (Hgen (from_pos pos ns) [] fuel eq_refl).
    rewrite length_from_pos in Hgen; [|lia]. rewrite /pos_after Nat.add_0_r Nat.mod_small // in Hgen.
    by apply Hgen. }
  clear Hfuel fuel. induction todo as [|node todo IH]; intros seen fuel Hsplit Hfuel Hle;
    (destruct fuel as [|fuel]; [simpl in Hfuel; lia|]).
  - rewrite app_nil_r in Hsplit. rewrite Hsplit in Hrep |- *. cbn [walk].
    rewrite (proj2 (Z.ltb_ge _ _)); [|lia]. rewrite take_ge //. lia.
  - destruct (decide (Z.of_nat (length (turn seen)) < rep)) as [Hlt|Hge].
    + assert (length seen < length ns)%nat as Hs.
      { rewrite -(length_from_pos pos ns) ?Hsplit ?length_app /=; lia. }
      rewrite (walk_step _ _ _ _ _ _ _ node); [|done| |done|done].
      2:{ by rewrite -lookup_from_pos // Hsplit list_lookup_middle. }
      assert (turn (seen ++ [node]) = add_value same (turn seen) (value node.2)) as Hturn.
      { by rewrite /turn fmap_app distinct_app. }
      specialize (IH (seen ++ [node]) fuel). rewrite Hturn length_app Nat.add_1_r in IH.
      apply IH; [by rewrite -app_assoc|simpl in Hfuel; lia|].
      rewrite /add_value. destruct (existsb _ _); [done|]. rewrite length_app /=. lia.
    + cbn [walk]. rewrite (proj2 (Z.ltb_ge _ _)); [|lia]. f_equal.
      assert (prefix (turn seen) (turn (from_pos pos ns))) as [l Hl].
      { rewrite Hsplit /turn fmap_app. apply distinct_prefix. }
      rewrite Hl take_app_length' //. lia.
Qed.

(** Too few values: the walk does not end. *)
Context {K : Type} (k : A → K) (Hsame : ∀ a b, same a b = true ↔ k a = k b).

Lemma turn_bound ns pos l :
  (pos ≤ length ns)%nat → l ⊆ ns → (length (turn l) ≤ length (turn (from_pos pos ns)))%nat.
Proof.
  intros Hp Hl. apply (distinct_length same k Hsame). intros x.
  rewrite !list_elem_of_fmap. intros (y & -> & (hn & -> & Hin)%list_elem_of_fmap).
  exists (value hn.2). split; [done|]. apply list_elem_of_fmap. exists hn. split; [done|].
  rewrite /from_pos elem_of_app. apply Hl in Hin. rewrite -(take_drop pos ns) elem_of_app in Hin. tauto.
Qed.

Lemma walk_diverges ns rep pos fuel :
  (pos < length ns)%nat → Z.of_nat (length (turn (from_pos pos ns))) < rep →
  walk value same ns rep fuel 0 pos [] = OutOfFuel.
Proof.
  intros Hp Hrep.
  enough (∀ fuel n seen, seen ⊆ ns → walk value same ns rep fuel
    (Z.of_nat (length (turn seen))) (pos_after ns pos n) (turn seen) = OutOfFuel) as Hgen.
  { specialize (Hgen fuel 0%nat [] (list_subseteq_nil _)).
    by rewrite /pos_after Nat.add_0_r Nat.mod_small // in Hgen. }
  clear fuel. induction fuel as [|fuel IH]; intros n seen Hsub; [done|].
  assert (is_Some (ns !! pos_after ns pos n)) as [node Hnode].
  { apply lookup_lt_is_Some. apply Nat.mod_upper_bound. lia. }
  pose proof (turn_bound ns pos seen (Nat.lt_le_incl _ _ Hp) Hsub).
  rewrite (walk_step _ _ _ _ _ _ _ node); [|lia|done..].
  specialize (IH (S n) (seen ++ [node])). rewrite /turn fmap_app distinct_app in IH.
  apply IH. intros x [Hx|Hx%list_elem_of_singleton]%elem_of_app; [by apply Hsub|]. subst x.
  by eapply list_elem_of_lookup_2.
Qed.

End Walk.

(** ** Rings *)

(** A hash value depends on the thread only through its name. *)
Class HasherLaws (H : Hasher) : Prop := hash_by_id a b :
  st_id a = st_id b → st_virtual_num a = st_virtual_num b → hash_thread H a = hash_thread H b.

Lemma last_colon a b x y :
  str_has ":" x = false → str_has ":" y = false →
  a +:+ String ":" x = b +:+ String ":" y → a = b ∧ x = y.
Proof.
  intros Hx Hy. assert (∀ c d z, str_has ":" d = false → d = z +:+ String ":" c → False) as Hno.
  { intros c d z Hd ->. rewrite str_has_app /= in Hd.
    apply orb_false_iff in Hd as [_ Hd]. discriminate. }
  revert b. induction a as [|c a IH]; intros [|d b].
  - rewrite !str_app_empty. by intros [= ->].
  - rewrite str_app_empty str_app_cons. intros [= <- E]. exfalso. by eapply (Hno y x b).
  - rewrite str_app_empty str_app_cons. intros [= -> E]. exfalso. by eapply (Hno x y a).
  - rewrite !str_app_cons. intros [= -> E]. by destruct (IH b E) as [-> ->].
Qed.

Lemma st_id_inj a b : st_id a = st_id b → st_private_ip a = st_private_ip b ∧ st_tid a = st_tid b.
Proof.
  rewrite /st_id !str_app_cons !str_app_empty. intros H.
  apply last_colon in H as [-> Hp]; [|apply str_has_py_str..]; try done.
  split; [done|]. by apply (inj pretty).
Qed.

#[export] Instance GlobalHasher_laws `{StdHash} : HasherLaws GlobalHasher.
Proof.
  intros a b [Hip Htid]%st_id_inj Hv. rewrite /= /virtual_id. by rewrite Hip Htid Hv.
Qed.

#[export] Instance LocalHasher_laws `{StdHash} : HasherLaws LocalHasher.
Proof. intros a b [Hip Htid]%st_id_inj Hv. by rewrite /= Htid Hv. Qed.

Lemma same_server_spec a b : same_server a b = true ↔ st_id a = st_id b.
Proof. apply String.eqb_eq. Qed.
Lemma same_server_false a b : same_server a b = false ↔ st_id a ≠ st_id b.
Proof. apply String.eqb_neq. Qed.

Lemma has_server_spec t ts : has_server t ts = true ↔ st_id t ∈ st_id <$> ts.
Proof. apply (existsb_same same_server st_id same_server_spec). Qed.

(** The different threads of the ring, clockwise from a key. *)
Definition replicas (H : Hasher) (key : string) (r : HashRing) : list ServerThread :=
  turn id same_server (clockwise (hash_key H key) (nodes r)).

Lemma replicas_NoDup H key r : NoDup (st_id <$> replicas H key r).
Proof. apply (distinct_NoDup same_server st_id same_server_spec). Qed.

Section Ring.
Context (H : Hasher) {HL : HasherLaws H}.
Implicit Types (r : HashRing) (t u : ServerThread).

(** A node of the ring is a virtual thread of a member, at its hash value. *)
Definition node_ok (us : list ServerThread) (hn : Z * ServerThread) : Prop :=
  hn.1 = hash_thread H hn.2 ∧ st_id hn.2 ∈ st_id <$> us ∧
  ∃ v, 0 ≤ v < kVirtualThreadNum ∧ st_virtual_num hn.2 = Some v.

Definition ring_wf r : Prop :=
  sorted_nodes (nodes r) ∧ NoDup (st_id <$> unique_servers r) ∧
  Forall (node_ok (unique_servers r)) (nodes r).

Lemma foldl_insert_sorted ts ns : sorted_nodes ns → sorted_nodes (foldl (chm_insert H) ns ts).
Proof.
  revert ns. induction ts as [|t ts IH]; intros ns Hs; [done|]. by apply IH, map_insert_sorted.
Qed.

Lemma foldl_insert_keeps ts ns hn : hn ∈ ns → hn ∈ foldl (chm_insert H) ns ts.
Proof.
  revert ns. induction ts as [|t ts IH]; intros ns Hin; [done|]. by apply IH, map_insert_keeps.
Qed.

Lemma foldl_insert_there ts ns t : t ∈ ts → hash_thread H t ∈ (foldl (chm_insert H) ns ts).*1.
Proof.
  revert ns. induction ts as [|t' ts IH]; intros ns Hin; [by apply elem_of_nil in Hin|].
  apply elem_of_cons in Hin as [->|Hin]; [|by apply IH]. cbn [foldl].
  pose proof (map_insert_there (hash_thread H t') t' ns) as Hh.
  apply list_elem_of_fmap in Hh as (hn & E & Hin). rewrite E.
  by apply list_elem_of_fmap_2, foldl_insert_keeps.
Qed.

Lemma foldl_insert_elem ts ns hn :
  hn ∈ foldl (chm_insert H) ns ts → hn ∈ ns ∨ ∃ t, t ∈ ts ∧ hn = (hash_thread H t, t).
Proof.
  revert ns. induction ts as [|t ts IH]; intros ns; [by left|]. cbn [foldl].
  intros [Hin|(t' & Ht & ->)]%IH; [|right; exists t'; by split; [right|]].
  apply map_insert_elem in Hin as [->|Hin]; [right; exists t; by split; [left|]|by left].
Qed.

(** Erasing is leaving out. *)
Lemma foldl_erase ts ns :
  foldl (chm_erase H) ns ts = filter (λ hn, hn.1 ∉ hash_thread H <$> ts) ns.
Proof.
  revert ns. induction ts as [|t ts IH]; intros ns.
  { symmetry. apply filter_all, Forall_true. intros hn. apply not_elem_of_nil. }
  cbn [foldl]. rewrite IH /chm_erase /map_erase list_filter_filter. apply list_filter_iff.
  intros hn. rewrite fmap_cons not_elem_of_cons. tauto.
Qed.

Lemma ring_insert_wf public_ip private_ip join_count tid r :
  ring_wf r → ring_wf (ring_insert H public_ip private_ip join_count tid r).2.
Proof.
  intros (Hs & Hnd & Hok). rewrite /ring_insert. set (t := virtual_thread _ _ _ 0).
  destruct (has_server t (unique_servers r)) eqn:Ht; [by case_match|].
  split; [by apply foldl_insert_sorted|]. simpl. split.
  { rewrite fmap_app. apply NoDup_app. split; [done|]. split; [|apply NoDup_singleton].
    intros i Hi Heq%list_elem_of_singleton. subst i. apply has_server_spec in Hi. congruence. }
  apply Forall_forall. intros hn [Hin|(t' & Hin & ->)]%foldl_insert_elem.
  - rewrite Forall_forall in Hok. destruct (Hok hn Hin) as (H1 & H2 & H3). split; [done|].
    split; [|done]. rewrite fmap_app. by apply elem_of_app; left.
  - apply virtual_threads_elem in Hin as (v & Hv & ->). split; [done|]. split; [|by exists v].
    rewrite fmap_app elem_of_app. right. by apply list_elem_of_singleton.
Qed.

(** The nodes of a server are all erased with it. *)
Lemma erased_ids public_ip private_ip tid r hn :
  ring_wf r → hn ∈ nodes (ring_remove H public_ip private_ip tid r) →
  st_id hn.2 ≠ st_id (virtual_thread public_ip private_ip tid 0).
Proof.
  intros (_ & _ & Hok). simpl. rewrite foldl_erase list_elem_of_filter. intros [Hn Hin] Hid.
  rewrite Forall_forall in Hok. destruct (Hok hn Hin) as (Hh & _ & v & Hv & Hvn).
  apply Hn. apply list_elem_of_fmap. exists (virtual_thread public_ip private_ip tid v).
  split; [rewrite Hh; by apply hash_by_id|]. apply virtual_threads_elem. by exists v.
Qed.

Lemma ring_remove_wf public_ip private_ip tid r :
  ring_wf r → ring_wf (ring_remove H public_ip private_ip tid r).
Proof.
  intros Hwf. pose proof (erased_ids public_ip private_ip tid r) as Her.
  pose proof Hwf as (Hs & Hnd & Hok). rewrite /ring_wf /=.
  split; [rewrite foldl_erase; by apply filter_sorted|]. split.
  { eapply sublist_NoDup; [exact Hnd|]. apply fmap_sublist, sublist_filter. }
  apply Forall_forall. intros hn Hin. specialize (Her hn Hwf Hin).
  rewrite foldl_erase list_elem_of_filter in Hin. destruct Hin as [_ Hin].
  rewrite Forall_forall in Hok. destruct (Hok hn Hin) as (H1 & H2 & H3).
  split; [done|]. split; [|done].
  apply list_elem_of_fmap in H2 as (u & Hu & Hin'). apply list_elem_of_fmap. exists u.
  split; [done|]. apply list_elem_of_filter. split; [|done].
  apply same_server_false. rewrite -Hu. by apply not_eq_sym.
Qed.

Lemma empty_ring_wf : ring_wf empty_ring.
Proof. by repeat constructor. Qed.

End Ring.

(** ** Responsible threads *)

Lemma responsible_global_run H key rep r :
  sorted_nodes (nodes r) → nodes r ≠ [] → 0 ≤ rep ≤ Z.of_nat (length (replicas H key r)) →
  responsible_global H key rep r = Ret (take (Z.to_nat rep) (replicas H key r)).
Proof.
  intros Hs Hne Hrep. rewrite /responsible_global /replicas -(from_find_pos _ _ Hs).
  destruct (nodes r) as [|n ns] eqn:E; [done|]. rewrite -E.
  apply walk_finds; [apply find_pos_lt; by rewrite E|lia| |rewrite /walk_fuel; lia].
  rewrite from_find_pos E //. by rewrite /replicas E in Hrep; lia.
Qed.

(** What a walk finds is on the ring. *)
Lemma walk_values {A} (value : ServerThread → A) same ns rep fuel i pos found l x :
  walk value same ns rep fuel i pos found = Ret l → x ∈ l →
  x ∈ found ∨ ∃ hn, hn ∈ ns ∧ x = value hn.2.
Proof.
  revert i pos found. induction fuel as [|fuel IH]; intros i pos found; cbn [walk]; [done|].
  destruct (i <? rep); [|intros [= <-]; by left].
  destruct (vector_at ns pos) as [hn| | |] eqn:Hn; cbn [mbind outcome_bind]; [|done..].
  assert (hn ∈ ns) as Hin by (rewrite /vector_at in Hn; case_match; simplify_eq; by eapply list_elem_of_lookup_2).
  destruct (existsb _ found); intros Hw Hx.
  - by eapply IH.
  - destruct (IH _ _ _ Hw Hx) as [Hf|?]; [|by right].
    apply elem_of_app in Hf as [?|Hx'%list_elem_of_singleton]; [by left|right; by exists hn].
Qed.

Lemma responsible_global_nodes H key rep r ts t :
  responsible_global H key rep r = Ret ts → t ∈ ts → ∃ hn, hn ∈ nodes r ∧ t = hn.2.
Proof.
  rewrite /responsible_global. destruct (nodes r) as [|n ns] eqn:E; [intros [= <-]; by intros ?%elem_of_nil|].
  rewrite -E. intros Hw Ht. by destruct (walk_values _ _ _ _ _ _ _ _ _ _ Hw Ht) as [?%elem_of_nil|].
Qed.

Lemma responsible_local_run H key rep r :
  let tids := turn st_tid Z.eqb (clockwise (hash_key H key) (nodes r)) in
  sorted_nodes (nodes r) → nodes r ≠ [] → 0 ≤ rep ≤ Z.of_nat (length tids) →
  responsible_local H key rep r = Ret (take (Z.to_nat rep) tids).
Proof.
  intros tids Hs Hne Hrep. rewrite /responsible_local. rewrite /tids -(from_find_pos _ _ Hs) in Hrep |- *.
  destruct (nodes r) as [|n ns] eqn:E; [done|]. rewrite -E.
  apply walk_finds; [apply find_pos_lt; by rewrite E|lia| |rewrite /walk_fuel; lia].
  rewrite E. lia.
Qed.

(** Which threads the ring has, whatever the key. *)
Lemma replicas_elem H key r i : i ∈ st_id <$> replicas H key r ↔ i ∈ (λ hn, st_id hn.2) <$> nodes r.
Proof.
  rewrite /replicas /turn (distinct_values_elem same_server st_id same_server_spec).
  rewrite !list_elem_of_fmap. split.
  - intros (t & -> & (hn & -> & Hin)%list_elem_of_fmap). exists hn. split; [done|].
    rewrite /clockwise elem_of_app !list_elem_of_filter in Hin. tauto.
  - intros (hn & -> & Hin). exists hn.2. split; [done|]. apply list_elem_of_fmap. exists hn.
    split; [done|]. rewrite /clockwise elem_of_app !list_elem_of_filter.
    destruct (decide (hash_key H key ≤ hn.1)); [by left|right]. split; [lia|done].
Qed.

(** ** Joins and departures move little *)

(** Leaving one element out of a list changes its beginning by at most one. *)
Lemma take_filter_one {A K} (k : A → K) `{EqDecision K} (x : K) (n : nat) (l : list A) :
  NoDup (k <$> l) →
  ∃ tail, take n (filter (λ a, k a ≠ x) l) = filter (λ a, k a ≠ x) (take n l) ++ tail ∧
    (length tail ≤ 1)%nat.
Proof.
  revert n. induction l as [|a l IH]; intros n Hnd; [exists []; split; [by destruct n|simpl; lia]|].
  rewrite fmap_cons NoDup_cons in Hnd. destruct Hnd as [Ha Hnd].
  destruct n as [|n]; [exists []; split; [done|simpl; lia]|]. cbn [take]. destruct (decide (k a = x)) as [Hx|Hx].
  - rewrite !filter_cons_False; [|tauto..].
    assert (∀ m : list A, m ⊆ l → Forall (λ a, k a ≠ x) m) as Hall.
    { intros m Hm. apply Forall_forall. intros b Hb Hkb. apply Ha.
      apply list_elem_of_fmap. exists b. split; [congruence|by apply Hm]. }
    rewrite (filter_all _ l); [|by apply Hall].
    rewrite (filter_all _ (take n l)); [|apply Hall; intros b (i & Hb & _)%elem_of_take;
      by eapply list_elem_of_lookup_2].
    exists (drop n (take (S n) l)). rewrite -{1}(take_drop n (take (S n) l)) take_take.
    rewrite Nat.min_l; [|lia]. split; [done|]. rewrite length_drop length_take. lia.
  - rewrite !filter_cons_True //. destruct (IH n Hnd) as (tail & Htail & Hl).
    exists tail. by rewrite /= Htail.
Qed.

(** Clockwise order of the nodes that are left. *)
Lemma clockwise_filter h (P : Z * ServerThread → Prop) `{∀ x, Decision (P x)} ns :
  clockwise h (filter P ns) = filter P (clockwise h ns).
Proof.
  rewrite /clockwise filter_app !list_filter_filter. f_equal; apply list_filter_iff; tauto.
Qed.

(** The replicas without those of one server. *)
Lemma replicas_without H key r r' i :
  nodes r' = filter (λ hn, st_id hn.2 ≠ i) (nodes r) →
  replicas H key r' = filter (λ t, st_id t ≠ i) (replicas H key r).
Proof.
  intros Hn. rewrite /replicas /turn Hn clockwise_filter.
  rewrite -(distinct_filter same_server (λ t, st_id t ≠ i)); last first.
  { intros a b Hab%same_server_spec. by rewrite Hab. }
  f_equal. generalize (clockwise (hash_key H key) (nodes r)). intros l.
  induction l as [|hn l IH]; [done|]. rewrite fmap_cons !filter_cons.
  case_decide as H1; case_decide as H2; simpl in *; [|done..|done]. f_equal. exact IH.
Qed.

Section Moves.
Context (H : Hasher) {HL : HasherLaws H}.

(** A join inserts nodes of the new server only. *)
Lemma join_nodes public_ip private_ip join_count tid r :
  let t := virtual_thread public_ip private_ip tid 0 in
  ring_wf H r → has_server t (unique_servers r) = false →
  nodes r = filter (λ hn, st_id hn.2 ≠ st_id t)
              (nodes (ring_insert H public_ip private_ip join_count tid r).2).
Proof.
  intros t (_ & _ & Hok) Ht. rewrite /ring_insert Ht. cbn [snd nodes].
  transitivity (filter (λ hn : Z * ServerThread, st_id hn.2 ≠ st_id t) (nodes r)).
  { symmetry. apply filter_all. eapply Forall_impl; [exact Hok|].
    intros hn (_ & Hid & _) Heq. rewrite Heq in Hid. apply has_server_spec in Hid. congruence. }
  assert (Forall (λ u, st_id u = st_id t) (virtual_threads public_ip private_ip tid)) as Hvs.
  { apply Forall_forall. by intros u (v & _ & ->)%virtual_threads_elem. }
  generalize (nodes r). induction Hvs as [|u us Hu _ IH]; intros ns; [done|].
  cbn [foldl]. rewrite -IH. symmetry. apply filter_map_insert. simpl. tauto.
Qed.

(** A departure erases the nodes of the server only, if no other node has one of
    its hash values. *)
Definition alone public_ip private_ip tid (r : HashRing) : Prop :=
  ∀ hn v, hn ∈ nodes r → 0 ≤ v < kVirtualThreadNum →
    hn.1 = hash_thread H (virtual_thread public_ip private_ip tid v) →
    st_id hn.2 = st_id (virtual_thread public_ip private_ip tid 0).

Lemma depart_nodes public_ip private_ip tid r :
  ring_wf H r → alone public_ip private_ip tid r →
  nodes (ring_remove H public_ip private_ip tid r) =
  filter (λ hn, st_id hn.2 ≠ st_id (virtual_thread public_ip private_ip tid 0)) (nodes r).
Proof.
  intros (_ & _ & Hok) Halone. cbn [ring_remove nodes]. rewrite foldl_erase.
  apply filter_iff_elem. intros hn Hin. rewrite Forall_forall in Hok.
  destruct (Hok hn Hin) as (Hh & _ & v & Hv & Hvn). split.
  - intros Hn Hid. apply Hn. apply list_elem_of_fmap.
    exists (virtual_thread public_ip private_ip tid v).
    split; [rewrite Hh; by apply hash_by_id|]. apply virtual_threads_elem. by exists v.
  - intros Hid (t & Ht & (w & Hw & ->)%virtual_threads_elem)%list_elem_of_fmap.
    apply Hid. by apply (Halone hn w).
Qed.

End Moves.

(** ** Properties *)

Lemma responsible_both H key rep r r' i :
  sorted_nodes (nodes r) → sorted_nodes (nodes r') →
  nodes r = filter (λ hn, st_id hn.2 ≠ i) (nodes r') →
  0 < rep ≤ Z.of_nat (length (replicas H key r)) →
  ∃ ts ts' tail, responsible_global H key rep r = Ret ts ∧
    responsible_global H key rep r' = Ret ts' ∧
    ts = filter (λ t, st_id t ≠ i) ts' ++ tail ∧ (length tail ≤ 1)%nat.
Proof.
  intros Hs Hs' Hn Hrep. pose proof (replicas_without H key r' r i Hn) as Hr.
  destruct (take_filter_one st_id i (Z.to_nat rep) _ (replicas_NoDup H key r'))
    as (tail & Htail & Hl).
  assert (nodes r ≠ []) as Hne by (intros E; rewrite /replicas E /= in Hrep; lia).
  assert (nodes r' ≠ []) as Hne' by (intros E; by rewrite E in Hn).
  assert (length (replicas H key r) ≤ length (replicas H key r'))%nat as Hle.
  { rewrite Hr. apply length_filter. }
  exists (take (Z.to_nat rep) (replicas H key r)), (take (Z.to_nat rep) (replicas H key r')), tail.
  split; [apply responsible_global_run; [done..|lia]|].
  split; [apply responsible_global_run; [done..|lia]|]. by rewrite Hr Htail.
Qed.

(** C8: [responsible_global] returns the first [global_rep] different threads that
    follow the key clockwise on the ring, no thread twice, whenever the ring has
    that many; when it has some threads but fewer, the loop never ends. *)
Theorem responsible_global_correct H key rep r :
  ring_wf H r → nodes r ≠ [] → 0 ≤ rep →
  (rep ≤ Z.of_nat (length (replicas H key r)) →
   ∃ ts, responsible_global H key rep r = Ret ts ∧ Z.of_nat (length ts) = rep ∧
     NoDup (st_id <$> ts) ∧ prefix ts (replicas H key r)) ∧
  (Z.of_nat (length (replicas H key r)) < rep →
   ∀ fuel, walk id same_server (nodes r) rep fuel 0 (find_pos (hash_key H key) (nodes r)) [] =
     OutOfFuel).
Proof.
  intros (Hs & _) Hne H0. split.
  - intros Hrep. exists (take (Z.to_nat rep) (replicas H key r)).
    split; [by apply responsible_global_run|]. split; [rewrite length_take; lia|].
    split; [|apply prefix_take].
    eapply sublist_NoDup; [apply (replicas_NoDup H key r)|]. apply fmap_sublist, sublist_take.
  - intros Hrep fuel. apply (walk_diverges id same_server st_id same_server_spec).
    + by apply find_pos_lt.
    + by rewrite from_find_pos.
Qed.

(** C11: when a server joins, at most one of the threads responsible for a key is
    replaced, and only by the new server: the others keep their order. *)
Theorem join_moves_one H `{!HasherLaws H} public_ip private_ip join_count tid key rep r :
  let t := virtual_thread public_ip private_ip tid 0 in
  ring_wf H r → has_server t (unique_servers r) = false →
  0 < rep ≤ Z.of_nat (length (replicas H key r)) →
  ∃ ts ts' tail, responsible_global H key rep r = Ret ts ∧
    responsible_global H key rep (ring_insert H public_ip private_ip join_count tid r).2 = Ret ts' ∧
    ts = filter (λ u, st_id u ≠ st_id t) ts' ++ tail ∧ (length tail ≤ 1)%nat.
Proof.
  intros t Hwf Ht Hrep. apply responsible_both; [apply Hwf| | |done].
  - by apply (ring_insert_wf H public_ip private_ip join_count tid r Hwf).
  - by apply join_nodes.
Qed.

(** Also: when a server departs whose places on the ring are its own, the threads
    responsible for a key stay the same but for the departed server, for which at
    most one other thread steps in at the end. *)
Theorem depart_moves_one H `{!HasherLaws H} public_ip private_ip tid key rep r :
  let t := virtual_thread public_ip private_ip tid 0 in
  let r' := ring_remove H public_ip private_ip tid r in
  ring_wf H r → alone H public_ip private_ip tid r →
  0 < rep ≤ Z.of_nat (length (replicas H key r')) →
  ∃ ts ts' tail, responsible_global H key rep r = Ret ts ∧
    responsible_global H key rep r' = Ret ts' ∧
    ts' = filter (λ u, st_id u ≠ st_id t) ts ++ tail ∧ (length tail ≤ 1)%nat.
Proof.
  intros t r' Hwf Hal Hrep.
  pose proof (ring_remove_wf H public_ip private_ip tid r Hwf) as Hwf'.
  pose proof (depart_nodes H public_ip private_ip tid r Hwf Hal) as Hn.
  fold r' t in Hwf', Hn. clearbody r'.
  destruct (responsible_both H key rep r' r (st_id t)) as (ts' & ts & tail & H1 & H2 & H3);
    [apply Hwf'|apply Hwf|done|done|by exists ts, ts', tail].
Qed.
