(* ===== verification/HashRingMembers.v ===== *)
(** * The ring as a function of its members

    What a hash ring promises: it holds the servers that joined and did not
    depart, and two rings with the same members agree on every key, whatever the
    order of the messages that built them.  The promise needs hash values without
    collisions; an example shows what happens with them. *)

From S2P Require Import Prelude Cpp Threads HashRing HashRingProps.

#[local] Open Scope Z_scope.

(** ** Specification *)

Inductive ring_op : Type :=
| Join (public_ip private_ip : string) (join_count tid : Z)
| Depart (public_ip private_ip : string) (tid : Z).

Definition op_server (op : ring_op) : ServerThread :=
  match op with
  | Join public_ip private_ip _ tid | Depart public_ip private_ip tid =>
      virtual_thread public_ip private_ip tid 0
  end.

(** The members by name: the first join of a server counts. *)
Definition member_step (m : gmap string ServerThread) (op : ring_op) : gmap string ServerThread :=
  let t := op_server op in
  match op with
  | Join _ _ _ _ => match m !! st_id t with Some _ => m | None => <[st_id t := t]> m end
  | Depart _ _ _ => delete (st_id t) m
  end.
Definition members (ops : list ring_op) : gmap string ServerThread := foldl member_step ∅ ops.

(** ** The ring *)

Definition ring_step (H : Hasher) (r : HashRing) (op : ring_op) : HashRing :=
  match op with
  | Join public_ip private_ip join_count tid => (ring_insert H public_ip private_ip join_count tid r).2
  | Depart public_ip private_ip tid => ring_remove H public_ip private_ip tid r
  end.
Definition ring_of (H : Hasher) (ops : list ring_op) : HashRing := foldl (ring_step H) empty_ring ops.

(** The places of a server, and of a list of servers. *)
Definition place (t : ServerThread) (v : Z) : ServerThread :=
  virtual_thread (st_public_ip t) (st_private_ip t) (st_tid t) v.
Definition places (H : Hasher) (t : ServerThread) : node_map :=
  (λ u, (hash_thread H u, u)) <$> virtual_threads (st_public_ip t) (st_private_ip t) (st_tid t).
Definition all_places (H : Hasher) (ts : list ServerThread) : node_map := ts ≫= places H.

#[export] Instance all_places_perm H : Proper ((≡ₚ) ==> (≡ₚ)) (all_places H).
Proof.
  intros ts us Hp. rewrite /all_places. induction Hp as [|t ts us _ IH|t u ts|ts us vs _ IH1 _ IH2].
  - done.
  - by rewrite !bind_cons IH.
  - rewrite !bind_cons !app_assoc. f_equiv. apply Permutation_app_comm.
  - by rewrite IH1.
Qed.

(** No two places have the same hash value. *)
Definition collision_free (H : Hasher) (us : list ServerThread) : Prop :=
  ∀ t u v w, t ∈ us → u ∈ us → 0 ≤ v < kVirtualThreadNum → 0 ≤ w < kVirtualThreadNum →
    hash_thread H (place t v) = hash_thread H (place u w) → st_id t = st_id u ∧ v = w.

Section Members.
Context (H : Hasher) {HL : HasherLaws H} (us : list ServerThread) (Hfree : collision_free H us).
Implicit Types (r : HashRing) (m : gmap string ServerThread) (ops : list ring_op).

Definition members_ok m : Prop :=
  ∀ i t, m !! i = Some t → st_id t = i ∧ t ∈ us.

(** A ring represents a set of members. *)
Definition represents r m : Prop :=
  ring_wf H r ∧ members_ok m ∧
  unique_servers r ≡ₚ (map_to_list m).*2 ∧ nodes r ≡ₚ all_places H (map_to_list m).*2.

Lemma foldl_insert_perm ts ns :
  NoDup (hash_thread H <$> ts) → Forall (λ t, hash_thread H t ∉ ns.*1) ts →
  foldl (chm_insert H) ns ts ≡ₚ ((λ t, (hash_thread H t, t)) <$> ts) ++ ns.
Proof.
  revert ns. induction ts as [|t ts IH]; intros ns Hnd Hf; [done|].
  rewrite fmap_cons NoDup_cons in Hnd. destruct Hnd as [Ht Hnd].
  apply Forall_cons in Hf as [Hn Hf]. cbn [foldl].
  assert (chm_insert H ns t ≡ₚ (hash_thread H t, t) :: ns) as Hp by (by apply map_insert_perm).
  rewrite IH //.
  - rewrite Hp fmap_cons. symmetry. apply Permutation_middle.
  - eapply Forall_impl; [apply Forall_and; split; [exact Hf|]|].
    { apply Forall_forall. intros u Hu. apply (list_elem_of_fmap_2 (hash_thread H)), Hu. }
    intros u [Hu Hin]. rewrite Hp fmap_cons not_elem_of_cons /=. split; [|done].
    intros E. apply Ht. by rewrite -E.
Qed.

Lemma members_elem m t : t ∈ (map_to_list m).*2 ↔ ∃ i, m !! i = Some t.
Proof.
  rewrite list_elem_of_fmap. split.
  - intros ([i u] & -> & Hin%elem_of_map_to_list). by exists i.
  - intros [i Hi]. exists (i, t). by rewrite elem_of_map_to_list.
Qed.

(** The hash values of the places of a server. *)
Lemma places_elem hn t :
  hn ∈ places H t ↔ ∃ v, 0 ≤ v < kVirtualThreadNum ∧ hn = (hash_thread H (place t v), place t v).
Proof.
  rewrite /places list_elem_of_fmap. split.
  - intros (u & -> & (v & Hv & ->)%virtual_threads_elem). by exists v.
  - intros (v & Hv & ->). exists (place t v). split; [done|]. apply virtual_threads_elem. by exists v.
Qed.

Lemma all_places_elem hn ts :
  hn ∈ all_places H ts ↔ ∃ t v, t ∈ ts ∧ 0 ≤ v < kVirtualThreadNum ∧
    hn = (hash_thread H (place t v), place t v).
Proof.
  rewrite /all_places list_elem_of_bind. split.
  - intros (t & (v & Hv & ->)%places_elem & Ht). by exists t, v.
  - intros (t & v & Ht & Hv & ->). exists t. split; [|done]. apply places_elem. by exists v.
Qed.

Lemma all_places_filter i ts :
  filter (λ hn, st_id hn.2 ≠ i) (all_places H ts) = all_places H (filter (λ t, st_id t ≠ i) ts).
Proof.
  induction ts as [|t ts IH]; [done|]. rewrite /all_places bind_cons filter_app -/(all_places H ts) IH.
  rewrite filter_cons. destruct (decide (st_id t = i)) as [Hi|Hi].
  - rewrite decide_False; [|tauto]. rewrite filter_none //. apply Forall_forall.
    intros hn (v & _ & ->)%places_elem. simpl. tauto.
  - rewrite decide_True // bind_cons. f_equal. apply filter_all, Forall_forall.
    by intros hn (v & _ & ->)%places_elem.
Qed.

Lemma hashes_NoDup t : t ∈ us → NoDup (hash_thread H <$> virtual_threads (st_public_ip t) (st_private_ip t) (st_tid t)).
Proof.
  intros Ht. apply NoDup_fmap_2_strong; [|apply virtual_threads_NoDup].
  intros a b (v & Hv & ->)%virtual_threads_elem (w & Hw & ->)%virtual_threads_elem Hh.
  by destruct (Hfree t t v w Ht Ht Hv Hw Hh) as [_ ->].
Qed.

Lemma join_represents public_ip private_ip join_count tid r m :
  let t := virtual_thread public_ip private_ip tid 0 in
  t ∈ us → represents r m →
  represents (ring_insert H public_ip private_ip join_count tid r).2
    (member_step m (Join public_ip private_ip join_count tid)).
Proof.
  intros t Ht (Hwf & Hm & Hu & Hn).
  pose proof (ring_insert_wf H public_ip private_ip join_count tid r Hwf) as Hwf'.
  assert (has_server t (unique_servers r) = true ↔ is_Some (m !! st_id t)) as Hhas.
  { rewrite has_server_spec Hu list_elem_of_fmap. split.
    - intros (u & Hid & (i & Hi)%members_elem). destruct (Hm i u Hi) as [<- _].
      rewrite Hid. by exists u.
    - intros [u Hi]. destruct (Hm _ _ Hi) as [Hid _]. exists u. split; [done|].
      apply members_elem. by eexists. }
  cbn [member_step op_server]. fold t.
  destruct (m !! st_id t) as [u|] eqn:Hmt.
  { split; [done|]. split; [done|].
    rewrite /ring_insert (proj2 Hhas ltac:(by eexists)). by case_match. }
  destruct (has_server t (unique_servers r)) eqn:Hs; [by destruct (proj1 Hhas eq_refl)|].
  split; [done|]. split.
  { intros i u. rewrite lookup_insert. case_decide as E; [|apply Hm]. intros [= <-]. by split. }
  rewrite /ring_insert Hs. cbn [snd nodes unique_servers].
  rewrite (map_to_list_insert m _ t Hmt) fmap_cons. split.
  { rewrite Hu. apply Permutation_app_comm. }
  rewrite foldl_insert_perm; [|by apply (hashes_NoDup t)|].
  { rewrite Hn. by rewrite /all_places bind_cons. }
  apply Forall_forall. intros u (v & Hv & ->)%virtual_threads_elem. rewrite Hn.
  intros (hn & Hh & (t' & w & Ht' & Hw & ->)%all_places_elem)%list_elem_of_fmap.
  apply members_elem in Ht' as (i & Hi). destruct (Hm i t' Hi) as [Hid Hin].
  destruct (Hfree t t' v w Ht Hin Hv Hw Hh) as [Heq _]. rewrite Heq Hid Hi in Hmt. done.
Qed.

(** Deleting a member. *)
Lemma members_delete m i :
  members_ok m → (map_to_list (delete i m)).*2 ≡ₚ filter (λ t, st_id t ≠ i) (map_to_list m).*2.
Proof.
  intros Hm. assert (Forall (λ t, st_id t ≠ i) (map_to_list (delete i m)).*2) as Hne.
  { apply Forall_forall. intros t (j & Hj)%members_elem Hi.
    apply lookup_delete_Some in Hj as [Hij Hj]. destruct (Hm j t Hj) as [Hid _]. congruence. }
  destruct (m !! i) as [t|] eqn:Hi.
  - rewrite -(map_to_list_delete m i t Hi) fmap_cons filter_cons_False.
    + by rewrite filter_all.
    + destruct (Hm i t Hi) as [Hid _]. simpl. tauto.
  - rewrite delete_id // in Hne |- *. by rewrite filter_all.
Qed.

Lemma represents_alone public_ip private_ip tid r m :
  virtual_thread public_ip private_ip tid 0 ∈ us → represents r m →
  alone H public_ip private_ip tid r.
Proof.
  intros Ht (_ & Hm & _ & Hn) hn v Hin Hv Hh. rewrite Hn in Hin.
  apply all_places_elem in Hin as (t' & w & (i & Hi)%members_elem & Hw & ->).
  destruct (Hm i t' Hi) as [_ Hin].
  by destruct (Hfree t' (virtual_thread public_ip private_ip tid 0) w v Hin Ht Hw Hv Hh) as [Hid _].
Qed.

Lemma depart_represents public_ip private_ip tid r m :
  virtual_thread public_ip private_ip tid 0 ∈ us → represents r m →
  represents (ring_remove H public_ip private_ip tid r)
    (member_step m (Depart public_ip private_ip tid)).
Proof.
  set (t := virtual_thread public_ip private_ip tid 0). intros Ht (Hwf & Hm & Hu & Hn).
  pose proof (represents_alone public_ip private_ip tid r m Ht (conj Hwf (conj Hm (conj Hu Hn)))) as Hal.
  split; [by apply ring_remove_wf|]. cbn [member_step op_server]. fold t. split.
  { intros i u Hi. apply Hm. by apply lookup_delete_Some in Hi as []. }
  rewrite (members_delete m (st_id t) Hm). split.
  - cbn [ring_remove unique_servers]. rewrite Hu. apply reflexive_eq, list_filter_iff.
    intros u. rewrite same_server_false. fold t. naive_solver.
  - rewrite (depart_nodes H public_ip private_ip tid r Hwf Hal) Hn all_places_filter. done.
Qed.

Lemma ring_of_represents ops :
  Forall (λ op, op_server op ∈ us) ops → represents (ring_of H ops) (members ops).
Proof.
  intros Hops. induction ops as [|op ops IH] using rev_ind.
  { split; [apply empty_ring_wf|]. rewrite /members /= map_to_list_empty. split; [|done].
    intros i t. by rewrite lookup_empty. }
  apply Forall_app in Hops as [Hops Hop]. apply Forall_cons in Hop as [Hop _].
  rewrite /ring_of /members !foldl_app. specialize (IH Hops).
  destruct op as [public_ip private_ip join_count tid|public_ip private_ip tid].
  - exact (join_represents _ _ join_count _ _ _ Hop IH).
  - exact (depart_represents _ _ _ _ _ Hop IH).
Qed.

Lemma represents_unique r r' m : represents r m → represents r' m → nodes r = nodes r'.
Proof.
  intros ((Hs & _) & _ & _ & Hn) ((Hs' & _) & _ & _ & Hn').
  apply (StronglySorted_unique before); [done..|]. by rewrite Hn Hn'.
Qed.

(** Every member is a replica of every key, at some distance. *)
Lemma replicas_members key r m : represents r m → st_id <$> replicas H key r ≡ₚ (map_to_list m).*1.
Proof.
  intros (_ & Hm & _ & Hn). apply NoDup_Permutation; [apply replicas_NoDup|apply NoDup_fst_map_to_list|].
  intros i. rewrite replicas_elem !list_elem_of_fmap. split.
  - intros (hn & -> & Hin). rewrite Hn in Hin.
    apply all_places_elem in Hin as (t & v & (i & Hi)%members_elem & _ & ->).
    exists (i, t). rewrite elem_of_map_to_list. split; [|done]. by destruct (Hm i t Hi).
  - intros ([j t] & -> & Hi%elem_of_map_to_list). destruct (Hm j t Hi) as [<- _].
    exists (hash_thread H (place t 0), place t 0). split; [done|]. rewrite Hn.
    apply all_places_elem. exists t, 0. split; [|done]. apply members_elem. by eexists.
Qed.

Lemma replicas_length key r m : represents r m → length (replicas H key r) = size m.
Proof.
  intros Hr. rewrite -(length_fmap st_id) (replicas_members key r m Hr) length_fmap.
  apply length_map_to_list.
Qed.

End Members.

Lemma responsible_nodes H key rep r r' :
  nodes r = nodes r' → responsible_global H key rep r = responsible_global H key rep r'.
Proof. intros Hn. by rewrite /responsible_global Hn. Qed.

(** ** Properties *)

(** C9: a ring built by any sequence of joins and departures of servers without
    colliding places holds exactly the servers that joined and did not depart since,
    each at all of its places and no other node. *)
Theorem ring_refines_members H `{!HasherLaws H} us ops :
  collision_free H us → Forall (λ op, op_server op ∈ us) ops →
  let r := ring_of H ops in
  sorted_nodes (nodes r) ∧ unique_servers r ≡ₚ (map_to_list (members ops)).*2 ∧
  nodes r ≡ₚ all_places H (map_to_list (members ops)).*2.
Proof.
  intros Hfree Hops r. by destruct (ring_of_represents H us Hfree ops Hops) as ((Hs & _) & _ & Hu & Hn).
Qed.

(** C10: among servers of which no two share a place on the ring, two nodes that
    heard of the same members, in whatever order of joins and departures, hold
    the same threads responsible for every key.  (With a shared place the order
    matters, as [collisions_diverge] shows.) *)
Theorem rings_converge H `{!HasherLaws H} us ops ops' key rep :
  collision_free H us → Forall (λ op, op_server op ∈ us) (ops ++ ops') →
  members ops = members ops' →
  responsible_global H key rep (ring_of H ops) = responsible_global H key rep (ring_of H ops').
Proof.
  intros Hfree [Hops Hops']%Forall_app Hm. apply responsible_nodes.
  apply (represents_unique H us _ _ (members ops)); [by apply ring_of_represents|].
  rewrite Hm. by apply ring_of_represents.
Qed.

(** *** Instances *)

(** A hash function: the last four bits of the last eight characters. *)
Definition sample_hash : StdHash := {|
  std_hash s := Z.land (foldl (λ h c, 16 * h + Z.land 15 (Z.of_N (N_of_ascii c))) 0
                          (list_ascii_of_string s)) 4294967295
|}.

(** A check for duplicates. *)
Fixpoint all_new (seen : gmap Z unit) (l : list Z) : bool :=
  match l with
  | [] => true
  | x :: l' => match seen !! x with Some _ => false | None => all_new (<[x := tt]> seen) l' end
  end.

Lemma all_new_NoDup l : all_new ∅ l = true → NoDup l.
Proof.
  enough (∀ seen, all_new seen l = true → NoDup l ∧ ∀ x, x ∈ l → seen !! x = None) as Hgen.
  { intros H. by apply Hgen in H as []. }
  induction l as [|y l IH]; intros seen; cbn [all_new]; [split; [constructor|set_solver]|].
  destruct (seen !! y) eqn:Hy; [done|]. intros [Hnd Hn]%IH. split.
  - constructor; [|done]. intros Hin. specialize (Hn y Hin). by rewrite lookup_insert_eq in Hn.
  - intros x [->|Hx]%elem_of_cons; [done|]. specialize (Hn x Hx).
    by apply lookup_insert_None in Hn as [].
Qed.

Definition server_a : ServerThread := virtual_thread "1.1.1.1" "10.0.0.1" 0 0.
Definition server_b : ServerThread := virtual_thread "1.1.1.2" "10.0.0.2" 0 0.

Definition sample_hashes : list Z :=
  hash_thread (GlobalHasher (H := sample_hash)) <$>
    (place server_a <$> seqZ 0 kVirtualThreadNum) ++ (place server_b <$> seqZ 0 kVirtualThreadNum).

Lemma sample_hashes_NoDup : NoDup sample_hashes.
Proof. apply all_new_NoDup. vm_compute. reflexivity. Qed.

Lemma fmap_NoDup_inj {A B} (f : A → B) (l : list A) x y :
  NoDup (f <$> l) → x ∈ l → y ∈ l → f x = f y → x = y.
Proof.
  intros Hnd (i & Hi)%list_elem_of_lookup (j & Hj)%list_elem_of_lookup Hf.
  assert (i = j) as ->; [|congruence].
  apply (NoDup_lookup _ i j (f x) Hnd); rewrite list_lookup_fmap ?Hi ?Hj //= Hf //.
Qed.

Lemma sample_collision_free :
  collision_free (GlobalHasher (H := sample_hash)) [server_a; server_b].
Proof.
  assert (∀ t v, t ∈ [server_a; server_b] → 0 ≤ v < kVirtualThreadNum →
    place t v ∈ (place server_a <$> seqZ 0 kVirtualThreadNum) ++
                (place server_b <$> seqZ 0 kVirtualThreadNum)) as Hin.
  { intros t v Ht Hv. rewrite elem_of_app !list_elem_of_fmap.
    apply elem_of_cons in Ht as [->|Ht%list_elem_of_singleton]; [left|right; subst t];
      (exists v; split; [done|]; apply elem_of_seqZ; lia). }
  intros t u v w Ht Hu Hv Hw Hh.
  pose proof (fmap_NoDup_inj _ _ _ _ sample_hashes_NoDup (Hin t v Ht Hv) (Hin u w Hu Hw) Hh) as E.
  injection E as _ Hp Htid ->. split; [|done]. by rewrite /st_id Hp Htid.
Qed.

(** The same two joins in both orders. *)
Definition sample_ops : list ring_op :=
  [Join "1.1.1.1" "10.0.0.1" 0 0; Join "1.1.1.2" "10.0.0.2" 0 0].

Lemma sample_ops_over : Forall (λ op, op_server op ∈ [server_a; server_b]) (sample_ops ++ rev sample_ops).
Proof. repeat constructor. Qed.

Lemma sample_represents ops :
  Forall (λ op, op_server op ∈ [server_a; server_b]) ops →
  represents (GlobalHasher (H := sample_hash)) [server_a; server_b]
    (ring_of (GlobalHasher (H := sample_hash)) ops) (members ops).
Proof. apply ring_of_represents, sample_collision_free. apply _. Qed.

Lemma sample_over : Forall (λ op, op_server op ∈ [server_a; server_b]) sample_ops.
Proof. repeat constructor. Qed.

Lemma sample_replicas key ops :
  Forall (λ op, op_server op ∈ [server_a; server_b]) ops →
  length (replicas (GlobalHasher (H := sample_hash)) key
            (ring_of (GlobalHasher (H := sample_hash)) ops)) = size (members ops).
Proof.
  intros Ho. apply (replicas_length _ [server_a; server_b]). by apply sample_represents.
Qed.

Lemma sample_size : size (members sample_ops) = 2%nat.
Proof. vm_compute. reflexivity. Qed.

(** Two servers and two replicas; with three the walk does not end. *)
Lemma responsible_global_witness :
  let H := GlobalHasher (H := sample_hash) in
  let r := ring_of H sample_ops in
  (∃ ts, responsible_global H "k" 2 r = Ret ts ∧ Z.of_nat (length ts) = 2) ∧
  ∀ fuel, walk id same_server (nodes r) 3 fuel 0 (find_pos (hash_key H "k") (nodes r)) [] = OutOfFuel.
Proof.
  intros H r. pose proof (sample_represents sample_ops sample_over) as Hr.
  pose proof (sample_replicas "k" sample_ops sample_over) as Hl. rewrite sample_size in Hl.
  fold H in Hr, Hl. fold r in Hr, Hl. clearbody r.
  assert (nodes r ≠ []) as Hne by (intros E; by rewrite /replicas E in Hl).
  destruct Hr as (Hwf & _). split.
  - destruct (proj1 (responsible_global_correct H "k" 2 r Hwf Hne ltac:(lia)))
      as (ts & H1 & H2 & _); [rewrite Hl; lia|]. by exists ts.
  - apply (proj2 (responsible_global_correct H "k" 3 r Hwf Hne ltac:(lia))). rewrite Hl. lia.
Defined.

Lemma ring_refines_members_witness :
  nodes (ring_of (GlobalHasher (H := sample_hash)) sample_ops) ≡ₚ
  all_places (GlobalHasher (H := sample_hash)) (map_to_list (members sample_ops)).*2.
Proof.
  apply (ring_refines_members (GlobalHasher (H := sample_hash)) [server_a; server_b] sample_ops).
  - exact sample_collision_free.
  - pose proof sample_ops_over as Ho. by apply Forall_app in Ho as [].
Defined.

Lemma rings_converge_witness :
  members sample_ops = members (rev sample_ops) ∧
  ∀ key, responsible_global (GlobalHasher (H := sample_hash)) key 2
           (ring_of (GlobalHasher (H := sample_hash)) sample_ops) =
         responsible_global (GlobalHasher (H := sample_hash)) key 2
           (ring_of (GlobalHasher (H := sample_hash)) (rev sample_ops)).
Proof.
  assert (members sample_ops = members (rev sample_ops)) as Hm by (vm_compute; reflexivity).
  split; [exact Hm|]. intros key.
  exact (rings_converge (GlobalHasher (H := sample_hash)) [server_a; server_b] sample_ops
    (rev sample_ops) key 2 sample_collision_free sample_ops_over Hm).
Defined.

(** The second server joins and departs again. *)
Lemma join_moves_one_witness :
  let H := GlobalHasher (H := sample_hash) in
  let r := ring_of H [Join "1.1.1.1" "10.0.0.1" 0 0] in
  ∃ ts ts' tail, responsible_global H "k" 1 r = Ret ts ∧
    responsible_global H "k" 1 (ring_insert H "1.1.1.2" "10.0.0.2" 0 0 r).2 = Ret ts' ∧
    ts = filter (λ u, st_id u ≠ st_id server_b) ts' ++ tail ∧ (length tail ≤ 1)%nat.
Proof.
  intros H r. assert (Forall (λ op, op_server op ∈ [server_a; server_b])
    [Join "1.1.1.1" "10.0.0.1" 0 0]) as Ho by repeat constructor.
  pose proof (sample_represents _ Ho) as Hr. pose proof (sample_replicas "k" _ Ho) as Hl.
  assert (unique_servers r = [server_a]) as Hu by reflexivity.
  fold H in Hr, Hl. fold r in Hr, Hl. clearbody r.
  apply (join_moves_one H "1.1.1.2" "10.0.0.2" 0 0 "k" 1 r).
  - apply Hr.
  - by rewrite Hu.
  - rewrite Hl. vm_compute. split; [reflexivity|discriminate].
Defined.

Lemma depart_moves_one_witness :
  let H := GlobalHasher (H := sample_hash) in
  let r := ring_of H sample_ops in
  ∃ ts ts' tail, responsible_global H "k" 1 r = Ret ts ∧
    responsible_global H "k" 1 (ring_remove H "1.1.1.2" "10.0.0.2" 0 r) = Ret ts' ∧
    ts' = filter (λ u, st_id u ≠ st_id server_b) ts ++ tail ∧ (length tail ≤ 1)%nat.
Proof.
  intros H r. pose proof (sample_represents sample_ops sample_over) as Hr.
  fold H in Hr. fold r in Hr. clearbody r. assert (server_b ∈ [server_a; server_b]) as Hb by set_solver.
  pose proof (depart_represents H [server_a; server_b] sample_collision_free
    "1.1.1.2" "10.0.0.2" 0 r _ Hb Hr) as Hr'.
  apply (depart_moves_one H "1.1.1.2" "10.0.0.2" 0 "k" 1 r).
  - apply Hr.
  - exact (represents_alone H [server_a; server_b] sample_collision_free
      "1.1.1.2" "10.0.0.2" 0 r _ Hb Hr).
  - rewrite (replicas_length H [server_a; server_b] "k" _ _ Hr').
    vm_compute. split; [reflexivity|discriminate].
Defined.

(** Also: with a collision the order of joins shows: of two servers with the same
    places only the first is on the ring, and its departure removes the other. *)
Theorem collisions_diverge :
  let H := GlobalHasher (H := {| std_hash _ := 0 |}) in
  members sample_ops = members (rev sample_ops) ∧
  nodes (ring_of H sample_ops) ≠ nodes (ring_of H (rev sample_ops)) ∧
  unique_servers (ring_of H (sample_ops ++ [Depart "1.1.1.1" "10.0.0.1" 0])) = [server_b] ∧
  nodes (ring_of H (sample_ops ++ [Depart "1.1.1.1" "10.0.0.1" 0])) = [].
Proof.
  vm_compute. split; [reflexivity|]. split; [discriminate|]. by split.
Qed.
