(* ===== verification/Metadata.v ===== *)
(** * Metadata

    src/include/metadata.hpp, src/include/kvs_common.hpp and the metadata keys of
    src/common/include/common.hpp: tiers, replication factors, and the keys under
    which the store keeps data about itself. *)

From S2P Require Import Prelude Cpp Threads Messages.

#[local] Open Scope Z_scope.

(** ** Tiers *)

Definition kAllTiers : list Z := [MEMORY; STORAGE].

Definition Tier_Name (tier : Z) : string :=
  if tier =? 0 then "TIER_UNSPECIFIED" else if tier =? MEMORY then "MEMORY"
  else if tier =? STORAGE then "STORAGE" else if tier =? ROUTING then "ROUTING" else EmptyString.

(** A variable that [Tier_Parse] does not set has no value: using it is
    undefined. *)
Definition Tier_Parse (name : string) : outcome Z :=
  if String.eqb name "TIER_UNSPECIFIED" then Ret 0 else if String.eqb name "MEMORY" then Ret MEMORY
  else if String.eqb name "STORAGE" then Ret STORAGE else if String.eqb name "ROUTING" then Ret ROUTING
  else Raise Undefined.

Record TierMetadata : Type := mkTierMetadata {
  tm_id : Z;
  thread_number : Z;
  default_replication : Z;
  node_capacity : Z
}.
Definition TierMetadata_default : TierMetadata := mkTierMetadata MEMORY 1 1 0.

(** ** Replication factors *)

Record KeyReplication : Type := mkKeyReplication {
  global_replication : gmap Z Z;
  local_replication : gmap Z Z
}.
Definition no_replication : KeyReplication := mkKeyReplication ∅ ∅.

Definition kMetadataReplicationFactor : Z := 1.

(** [operator==]: every factor of the left side is on the right side. *)
Definition factors_in (m m' : gmap Z Z) : bool := bool_decide (map_Forall (λ t n, m' !! t = Some n) m).
Definition KeyReplication_eq (l r : KeyReplication) : bool :=
  factors_in (global_replication l) (global_replication r) &&
  factors_in (local_replication l) (local_replication r).

(** [key_replication_map[key].global_replication_[tier] = n] *)
Definition set_global (key : string) (tier n : Z) (m : gmap string KeyReplication) : gmap string KeyReplication :=
  let k := default no_replication (m !! key) in
  <[key := mkKeyReplication (<[tier := n]> (global_replication k)) (local_replication k)]> m.
Definition set_local (key : string) (tier n : Z) (m : gmap string KeyReplication) : gmap string KeyReplication :=
  let k := default no_replication (m !! key) in
  <[key := mkKeyReplication (global_replication k) (<[tier := n]> (local_replication k))]> m.

Definition init_replication (kTierMetadata : Z → TierMetadata) (kDefaultLocalReplication : Z)
    (m : gmap string KeyReplication) (key : string) : gmap string KeyReplication :=
  foldl (λ m tier, set_local key tier kDefaultLocalReplication
                     (set_global key tier (default_replication (kTierMetadata tier)) m)) m kAllTiers.

(** [warmup_key_replication_map_to_defaults]: the keys 00000001 to 01000000. *)
Definition padded_key (i : Z) : string :=
  let s := to_string i in
  String.concat EmptyString (replicate (8 - String.length s) "0"%string) +:+ s.

Definition warmup_key_replication_map_to_defaults (memory storage local : Z)
    (m : gmap string KeyReplication) : gmap string KeyReplication :=
  foldl (λ m i, let key := padded_key i in
    set_local key STORAGE local (set_local key MEMORY local
      (set_global key STORAGE storage (set_global key MEMORY memory m)))) m (seqZ 1 1000000).

(** ** Keys of metadata *)

Definition kMetadataIdentifier : string := "ANNA_METADATA".
Definition kMetadataTypeReplication : string := "replication".
Definition kMetadataTypeCacheIP : string := "cache_ip".

Inductive MetadataType : Type := replication | server_stats | key_access | key_size.

(** [split(key, '|', v); v[0]]: an empty key has no first item. *)
Definition is_metadata (key : string) : outcome bool :=
  first ← vector_at (split "|" key) 0;
  Ret (String.eqb first kMetadataIdentifier).

Definition get_server_metadata_key (st : ServerThread) (tier_id thread_num : Z) (type : MetadataType) : string :=
  let key metadata_type :=
    kMetadataIdentifier +:+ "|" +:+ metadata_type +:+ "|" +:+ st_public_ip st +:+ "|" +:+
    st_private_ip st +:+ "|" +:+ to_string thread_num +:+ "|" +:+ Tier_Name tier_id in
  match type with
  | server_stats => key "stats"%string
  | key_access => key "access"%string
  | key_size => key "size"%string
  | replication => EmptyString
  end.

Definition get_metadata_key (data_key : string) (type : MetadataType) : string :=
  match type with
  | replication => kMetadataIdentifier +:+ "|" +:+ kMetadataTypeReplication +:+ "|" +:+ data_key
  | _ => EmptyString
  end.

(** What follows the second delimiter, if the type between them is the given one.
    Without a delimiter [find] returns [npos], and [npos + 1] is 0. *)
Definition key_of_type (metadata_type metadata_key : string) : string :=
  let rest := match py_split1 "|" metadata_key with Some (_, r) => r | None => metadata_key end in
  match py_split1 "|" rest with
  | Some (type, key) => if String.eqb type metadata_type then key else EmptyString
  | None => if String.eqb rest metadata_type then metadata_key else EmptyString
  end.

Definition get_key_from_metadata (metadata_key : string) : string :=
  key_of_type kMetadataTypeReplication metadata_key.

Definition get_user_metadata_key (data_key : string) : string :=
  kMetadataIdentifier +:+ "|" +:+ kMetadataTypeCacheIP +:+ "|" +:+ data_key.
Definition get_key_from_user_metadata (metadata_key : string) : string :=
  key_of_type kMetadataTypeCacheIP metadata_key.

Definition split_metadata_key (key : string) : list string := split "|" key.

(** ** Properties *)

Lemma key_of_type_of type data_key :
  str_has "|" type = false →
  key_of_type type (kMetadataIdentifier +:+ "|" +:+ type +:+ "|" +:+ data_key) = data_key.
Proof.
  intros Ht. rewrite /key_of_type (py_split1_app "|" kMetadataIdentifier) //.
  by rewrite (py_split1_app "|" type) // String.eqb_refl.
Qed.

Lemma identified_is_metadata rest : is_metadata (kMetadataIdentifier +:+ "|" +:+ rest) = Ret true.
Proof. by rewrite /is_metadata (split_item "|" kMetadataIdentifier). Qed.

(** Also: the key under which the replication factors of a key are kept is a metadata
    key, and the key is read back from it, whatever characters it has; the same
    holds for the keys of cache addresses. *)
Theorem metadata_key_roundtrip key :
  is_metadata (get_metadata_key key replication) = Ret true ∧
  get_key_from_metadata (get_metadata_key key replication) = key ∧
  is_metadata (get_user_metadata_key key) = Ret true ∧
  get_key_from_user_metadata (get_user_metadata_key key) = key.
Proof.
  split; [apply identified_is_metadata|]. split; [by apply key_of_type_of|].
  split; [apply identified_is_metadata|by apply key_of_type_of].
Qed.

(** Also: the items of the key for the statistics of a thread. *)
Theorem server_metadata_items st tier thread_num type :
  type ≠ replication →
  Forall (λ s, str_has "|" s = false) [st_public_ip st; st_private_ip st] → Tier_Name tier ≠ EmptyString →
  ∃ name, split_metadata_key (get_server_metadata_key st tier thread_num type) =
    [kMetadataIdentifier; name; st_public_ip st; st_private_ip st; to_string thread_num; Tier_Name tier].
Proof.
  intros Htype [Hpub [Hpriv _]%Forall_cons]%Forall_cons Hname.
  assert (str_has "|" (Tier_Name tier) = false) as Ht by (rewrite /Tier_Name; by repeat case_match).
  assert (∀ name, str_has "|" name = false → split_metadata_key (kMetadataIdentifier +:+ "|" +:+ name +:+ "|" +:+
    st_public_ip st +:+ "|" +:+ st_private_ip st +:+ "|" +:+ to_string thread_num +:+ "|" +:+
    Tier_Name tier) = [kMetadataIdentifier; name; st_public_ip st; st_private_ip st;
    to_string thread_num; Tier_Name tier]) as Hkey.
  { intros name Hn. rewrite /split_metadata_key (split_item "|" kMetadataIdentifier) //.
    rewrite (split_item "|" name) // (split_item "|" (st_public_ip st)) //.
    rewrite (split_item "|" (st_private_ip st)) // (split_item "|" (to_string thread_num)).
    - by rewrite split_last.
    - by apply str_has_py_str. }
  destruct type; [done|..]; eexists; by apply Hkey.
Qed.
