(* ===== verification/Routing.v ===== *)
(** * The routing server

    src/src/route: the handlers of a routing thread and its loop, and
    [get_responsible_threads] of src/src/hash_ring/hash_ring.cpp.  A thread keeps
    its own rings; what it sends is recorded.  The two build options are part of
    the configuration; CMakeLists.txt sets both. *)

From S2P Require Import Prelude Objects OrderedSet Lattices Messages Cpp Threads Metadata HashRing.

#[local] Open Scope Z_scope.

(** ** Configuration *)

Record routing_config : Type := mkRoutingConfig {
  enable_dinomo_kvs : bool;
  bench_cache_routing : bool;
  kTierMetadata : Z → TierMetadata;
  kDefaultLocalReplication : Z;
  kRoutingThreadCount : Z
}.

(** ** Messages and state *)

(** What the routing server calls of the protocol buffer library.  The result of
    [ParseFromString] is not checked: a message holds what could be read. *)
Class RoutingCodec (wire : Type) : Type := {
  rc_payload : Type;
  rc_no_payload : rc_payload;
  parse_KeyAddressRequest : wire → KeyAddressRequest;
  serialize_KeyAddressResponse : KeyAddressResponse → wire;
  serialize_ClusterMembership : list TierMembership → wire;
  serialize_NodeJoinRequest : NodeJoinRequest → wire;
  rc_serialize_KeyRequest : KeyRequest rc_payload → wire;
  rc_parse_KeyResponse : wire → KeyResponse rc_payload;
  parse_replication_payload : rc_payload → ReplicationFactor;
  parse_ReplicationFactorUpdate : wire → list ReplicationFactor
}.

(** A text or a serialized message. *)
Inductive packet (wire : Type) : Type := Text (s : string) | Packed (w : wire).
Arguments Text {_}.
Arguments Packed {_}.

Record routing_state (wire : Type) : Type := mkRoutingState {
  global_hash_rings : list (Z * HashRing);
  local_hash_rings : list (Z * HashRing);
  key_replication_map : gmap string KeyReplication;
  pending_requests : gmap string (list (string * string));
  rand_seed : Z;
  pushed : list (string * packet wire)
}.
Arguments mkRoutingState {_}.
Arguments global_hash_rings {_}.
Arguments local_hash_rings {_}.
Arguments key_replication_map {_}.
Arguments pending_requests {_}.
Arguments rand_seed {_}.
Arguments pushed {_}.

(** [rings[tier]] creates an empty ring. *)
Definition ring_at (tier : Z) (rings : list (Z * HashRing)) : HashRing :=
  default empty_ring (dget tier rings).
Definition touch (tier : Z) (rings : list (Z * HashRing)) : list (Z * HashRing) :=
  dset tier (ring_at tier rings) rings.

Section Routing.
Context {wire : Type} `{RC : RoutingCodec wire, SH : StdHash, U : Unordered}.
Context (cfg : routing_config).
(** [rand_r(&seed)]: a number and the next seed. *)
Context (rand_r : Z → Z * Z).
Notation W := (M (routing_state wire)).

Definition set_global_rings (rings : list (Z * HashRing)) (s : routing_state wire) :=
  mkRoutingState rings (local_hash_rings s) (key_replication_map s) (pending_requests s)
    (rand_seed s) (pushed s).
Definition set_local_rings (rings : list (Z * HashRing)) (s : routing_state wire) :=
  mkRoutingState (global_hash_rings s) rings (key_replication_map s) (pending_requests s)
    (rand_seed s) (pushed s).
Definition set_replication (m : gmap string KeyReplication) (s : routing_state wire) :=
  mkRoutingState (global_hash_rings s) (local_hash_rings s) m (pending_requests s)
    (rand_seed s) (pushed s).
Definition set_pending (m : gmap string (list (string * string))) (s : routing_state wire) :=
  mkRoutingState (global_hash_rings s) (local_hash_rings s) (key_replication_map s) m
    (rand_seed s) (pushed s).
Definition set_seed (z : Z) (s : routing_state wire) :=
  mkRoutingState (global_hash_rings s) (local_hash_rings s) (key_replication_map s)
    (pending_requests s) z (pushed s).
Definition add_pushed (p : string * packet wire) (s : routing_state wire) :=
  mkRoutingState (global_hash_rings s) (local_hash_rings s) (key_replication_map s)
    (pending_requests s) (rand_seed s) (pushed s ++ [p]).

(** [kZmqUtil->send_string(msg, &pushers[address])] *)
Definition push (address : string) (msg : packet wire) : W unit := modify (add_pushed (address, msg)).

Definition global_ring (tier : Z) : W HashRing :=
  modify (λ s, set_global_rings (touch tier (global_hash_rings s)) s) ;;
  gets (λ s, ring_at tier (global_hash_rings s)).
Definition local_ring (tier : Z) : W HashRing :=
  modify (λ s, set_local_rings (touch tier (local_hash_rings s)) s) ;;
  gets (λ s, ring_at tier (local_hash_rings s)).

(** ** hash_ring.cpp *)

(** The threads of a node that are responsible for a key. *)
Definition thread_list (key : string) (local_rep : Z) (local : HashRing) (thread : ServerThread)
  : outcome (list ServerThread) :=
  tids ← responsible_local LocalHasher key local_rep local;
  Ret (server_thread (st_public_ip thread) (st_private_ip thread) <$> iterate tids).

Definition get_responsible_threads_metadata (key : string) (global local : HashRing)
  : outcome (list ServerThread) :=
  threads ← responsible_global GlobalHasher key kMetadataReplicationFactor global;
  ofold threads [] (λ result thread,
    ts ← thread_list key (kDefaultLocalReplication cfg) local thread; Ret (result ++ ts)).

(** A factor that is not set is set to 0. *)
Definition global_factor (key : string) (tier : Z) : W Z :=
  s ← get_state;
  let n := default 0 (global_replication (default no_replication (key_replication_map s !! key)) !! tier) in
  modify (set_replication (set_global key tier n (key_replication_map s))) ;;
  mret n.
Definition local_factor (key : string) (tier : Z) : W Z :=
  s ← get_state;
  let n := default 0 (local_replication (default no_replication (key_replication_map s !! key)) !! tier) in
  modify (set_replication (set_local key tier n (key_replication_map s))) ;;
  mret n.

Definition issue_replication_factor_request (response_address key : string)
    (global local : HashRing) : W unit :=
  let replication_key := get_metadata_key key replication in
  threads ← lift (get_responsible_threads_metadata replication_key global local);
  s ← get_state;
  let '(n, seed') := rand_r (rand_seed s) in
  modify (set_seed seed') ;;
  (* the remainder of a division by zero is undefined *)
  target ← lift (vector_at threads (Z.to_nat (n mod Z.of_nat (length threads))));
  push (key_request_connect_address target)
    (Packed (rc_serialize_KeyRequest
      (mkKeyRequest GET [mkKeyTuple replication_key (LatticeType_value LT_LWW) 0 rc_no_payload 0 false []]
         response_address EmptyString))).

(** The responsible threads of one tier. *)
Definition tier_threads (key : string) (tier : Z) : W (list ServerThread) :=
  n ← global_factor key tier;
  ring ← global_ring tier;
  threads ← lift (responsible_global GlobalHasher key n ring);
  fold_each threads [] (λ result thread,
    m ← local_factor key tier;
    local ← local_ring tier;
    ts ← lift (thread_list key m local thread);
    mret (result ++ ts)).

(** The threads, and whether the replication factors are known. *)
Definition get_responsible_threads (response_address key : string) (metadata : bool) (tiers : list Z)
  : W (list ServerThread * bool) :=
  if metadata then
    global ← global_ring MEMORY;
    local ← local_ring MEMORY;
    threads ← lift (get_responsible_threads_metadata key global local);
    mret (threads, true)
  else
    let found :=
      threads ← fold_each tiers [] (λ result tier, ts ← tier_threads key tier; mret (result ++ ts));
      mret (threads, true) in
    s ← get_state;
    match key_replication_map s !! key with
    | Some _ => found
    | None =>
        if enable_dinomo_kvs cfg then
          modify (set_replication (init_replication (kTierMetadata cfg) (kDefaultLocalReplication cfg)
                                     (key_replication_map s) key)) ;;
          found
        else
          global ← global_ring MEMORY;
          local ← local_ring MEMORY;
          issue_replication_factor_request response_address key global local ;;
          mret ([], false)
    end.

(** ** seed_handler.cpp *)

Definition membership_of (rings : list (Z * HashRing)) : list TierMembership :=
  (λ tr, mkTier tr.1 ((λ st, mkServer (st_public_ip st) (st_private_ip st)) <$>
                        iterate (unique_servers tr.2))) <$> iterate rings.

Definition seed_handler : W wire :=
  gets (λ s, serialize_ClusterMembership (membership_of (global_hash_rings s))).

(** ** address_handler.cpp *)

(** The first tier with responsible threads; [None] if a replication factor is
    missing. *)
Fixpoint first_tier (response_address key : string) (metadata : bool) (tiers : list Z)
    (threads : list ServerThread) : W (option (list ServerThread)) :=
  match tiers with
  | [] => mret (Some threads)
  | tier :: tiers' =>
      ts ← get_responsible_threads response_address key metadata [tier];
      match ts.1 with
      | _ :: _ => mret (Some ts.1)
      | [] => if negb ts.2 then mret None
              else first_tier response_address key metadata tiers' ts.1
      end
  end.

(** The loop over the keys; [None] if it returned early. *)
Fixpoint address_keys (rt : RoutingThread) (request : KeyAddressRequest) (keys : list string)
    (addresses : list (string * list string)) : W (option (list (string * list string))) :=
  match keys with
  | [] => mret (Some addresses)
  | key :: keys' =>
      threads ← match key with
                | EmptyString => mret (Some [])
                | _ => metadata ← lift (is_metadata key);
                       first_tier (rt_replication_response_connect_address rt) key metadata kAllTiers []
                end;
      match threads with
      | None =>
          modify (λ s, set_pending (<[key := default [] (pending_requests s !! key) ++
              [(ka_response_address request, ka_request_id request)]]> (pending_requests s)) s) ;;
          mret None
      | Some ts =>
          address_keys rt request keys' (addresses ++ [(key, key_request_connect_address <$> ts)])
      end
  end.

Definition address_handler (rt : RoutingThread) (serialized : wire) : W unit :=
  let request := parse_KeyAddressRequest serialized in
  if bench_cache_routing cfg then
    s ← get_state;
    push (ka_response_address request)
      (Packed (serialize_ClusterMembership (membership_of (global_hash_rings s))))
  else
    s ← get_state;
    let num_servers := foldl (λ n tr, n + ring_size tr.2) 0 (global_hash_rings s) in
    let respond error addresses :=
      push (ka_response_address request)
        (Packed (serialize_KeyAddressResponse
          (mkKeyAddressResponse addresses error (ka_request_id request)))) in
    if num_servers =? 0 then respond NO_SERVERS ((λ key, (key, [])) <$> ka_keys request)
    else
      addresses ← address_keys rt request (ka_keys request) [];
      match addresses with
      | Some ((_ :: _) as l) => respond NO_ERROR l
      | _ => mret tt
      end.

(** ** membership_handler.cpp *)

(** Thread 0 passes a message on to the other threads. *)
Definition tell_workers (ip : string) (connect_address : RoutingThread → string) (msg : packet wire) : W unit :=
  for_each (seqZ 1 (kRoutingThreadCount cfg - 1)) (λ tid,
    push (connect_address (mkRoutingThread ip tid)) msg).

(** The other servers hear of a new one. *)
Definition gossip_join (msg new_private_ip : string) : W unit :=
  s ← get_state;
  for_each (iterate (global_hash_rings s)) (λ tr,
    for_each (iterate (unique_servers tr.2)) (λ st,
      if String.eqb (st_private_ip st) new_private_ip then mret tt
      else push (node_join_connect_address st)
             (Packed (serialize_NodeJoinRequest (mkNodeJoinRequest EmptyString EmptyString msg))))).

Definition membership_handler (serialized : string) (thread_id : Z) (ip : string) : W unit :=
  let v := split ":" serialized in
  type ← lift (vector_at v 0);
  v1 ← lift (vector_at v 1);
  new_public_ip ← lift (vector_at v 2);
  new_private_ip ← lift (vector_at v 3);
  if String.eqb type "join" then
    v4 ← lift (vector_at v 4);
    join_count ← lift (stoi v4);
    tier ← lift (Tier_Parse v1);
    ring ← global_ring tier;
    let '(inserted, ring') := ring_insert GlobalHasher new_public_ip new_private_ip join_count 0 ring in
    modify (λ s, set_global_rings (dset tier ring' (global_hash_rings s)) s) ;;
    if inserted && (thread_id =? 0) then
      gossip_join (v1 +:+ ":" +:+ new_public_ip +:+ ":" +:+ new_private_ip +:+ ":" +:+ v4) new_private_ip ;;
      tell_workers ip rt_notify_connect_address (Text serialized)
    else mret tt
  else if String.eqb type "depart" then
    tier ← lift (Tier_Parse v1);
    ring ← global_ring tier;
    modify (λ s, set_global_rings
      (dset tier (ring_remove GlobalHasher new_public_ip new_private_ip 0 ring) (global_hash_rings s)) s) ;;
    (if thread_id =? 0 then tell_workers ip rt_notify_connect_address (Text serialized) else mret tt) ;;
    (* the log line about the size of every tier creates the missing rings *)
    for_each kAllTiers (λ tier, global_ring tier ;; mret tt)
  else mret tt.

(** ** replication_response_handler.cpp, replication_change_handler.cpp *)

Definition apply_factors (key : string) (rf : ReplicationFactor) (m : gmap string KeyReplication)
  : gmap string KeyReplication :=
  foldl (λ m tn, set_local key tn.1 tn.2 m)
    (foldl (λ m tn, set_global key tn.1 tn.2 m) m (rf_global rf)) (rf_local rf).

Definition answer_pending (rt : RoutingThread) (key : string) : W unit :=
  s ← get_state;
  match pending_requests s !! key with
  | None => mret tt
  | Some requests =>
      threads ← first_tier (rt_replication_response_connect_address rt) key false kAllTiers [];
      match threads with
      | None => mret tt
      | Some ts =>
          for_each requests (λ req,
            push req.1 (Packed (serialize_KeyAddressResponse
              (mkKeyAddressResponse [(key, key_request_connect_address <$> ts)] NO_ERROR req.2)))) ;;
          modify (λ s, set_pending (delete key (pending_requests s)) s)
      end
  end.

Definition replication_response_handler (rt : RoutingThread) (serialized : wire) : W unit :=
  tuple ← lift (vector_at (kp_tuples (rc_parse_KeyResponse serialized)) 0);
  let key := get_key_from_metadata (kt_key tuple) in
  let error := kt_error tuple in
  if error =? NO_ERROR then
    modify (λ s, set_replication
      (apply_factors key (parse_replication_payload (kt_payload tuple)) (key_replication_map s)) s) ;;
    answer_pending rt key
  else if error =? KEY_DNE then
    modify (λ s, set_replication (init_replication (kTierMetadata cfg) (kDefaultLocalReplication cfg)
                                    (key_replication_map s) key) s) ;;
    answer_pending rt key
  else if error =? WRONG_THREAD then
    global ← global_ring MEMORY;
    local ← local_ring MEMORY;
    issue_replication_factor_request (rt_replication_response_connect_address rt) key global local
  else mret tt.

Definition replication_change_handler (serialized : wire) (thread_id : Z) (ip : string) : W unit :=
  (if thread_id =? 0
   then tell_workers ip rt_replication_change_connect_address (Packed serialized) else mret tt) ;;
  modify (λ s, set_replication
    (foldl (λ m rf, apply_factors (rf_key rf) rf m) (key_replication_map s)
       (parse_ReplicationFactorUpdate serialized)) s).

(** ** routing.cpp *)

(** What one poll found on the five sockets. *)
Record routing_poll : Type := mkRoutingPoll {
  rp_seed : bool;
  rp_notify : option string;
  rp_replication_response : option wire;
  rp_replication_change : option wire;
  rp_key_address : option wire
}.

Definition routing_round (rt : RoutingThread) (p : routing_poll) : W unit :=
  (if rp_seed p then serialized ← seed_handler; push (rt_seed_bind_address rt) (Packed serialized)
   else mret tt) ;;
  match rp_notify p with Some m => membership_handler m (rt_tid rt) (rt_ip rt) | None => mret tt end ;;
  match rp_replication_response p with
  | Some m => replication_response_handler rt m
  | None => mret tt
  end ;;
  match rp_replication_change p with
  | Some m => replication_change_handler m (rt_tid rt) (rt_ip rt)
  | None => mret tt
  end ;;
  match rp_key_address p with Some m => address_handler rt m | None => mret tt end.

(** The local rings: every thread of a node, at the address of this server. *)
Definition form_local_rings (ip : string) : list (Z * HashRing) :=
  foldl (λ rings t,
    let tier := kTierMetadata cfg t in
    foldl (λ rings tid, dset (tm_id tier)
        (ring_insert LocalHasher ip ip 0 tid (ring_at (tm_id tier) rings)).2 rings)
      rings (seqZ 0 (thread_number tier)))
    [] (iterate kAllTiers).

Definition init_rings (ip : string) (seed0 : Z) : W unit :=
  modify (λ s, mkRoutingState [] (form_local_rings ip) ∅ ∅ seed0 (pushed s)).

Definition routing_run (thread_id : Z) (ip : string) (monitoring_ips : list string) (seed0 : Z)
    (polls : list routing_poll) : W unit :=
  init_rings ip seed0 ;;
  (if thread_id =? 0 then
     for_each monitoring_ips (λ address,
       push (mt_notify_connect_address address)
         (Text ("join:" +:+ Tier_Name ROUTING +:+ ":" +:+ ip +:+ ":NULL")))
   else mret tt) ;;
  for_each polls (routing_round (mkRoutingThread ip thread_id)) ;;
  Prelude.block.

End Routing.

(** ** [main]

    What it calls of yaml-cpp: [node["key"]], [as<unsigned>], [as<string>] and the
    loop over a sequence.  The first of them that throws ends the program. *)
Class YamlCpp : Type := {
  node : Type;
  node_at : string → node → outcome node;
  as_unsigned : node → outcome Z;
  as_string : node → outcome string;
  elements : node → list node
}.

(** The configuration, the address of the server, and those of
    the monitoring servers.  A capacity is first multiplied within 32 bits. *)
Definition routing_main `{YamlCpp} (dinomo bench : bool) (conf : node)
  : outcome (routing_config * string * list string) :=
  threads ← node_at "threads" conf;
  memory_threads ← (y ← node_at "memory" threads; as_unsigned y);
  storage_threads ← (y ← node_at "storage" threads; as_unsigned y);
  routing_threads ← (y ← node_at "routing" threads; as_unsigned y);
  capacities ← node_at "capacities" conf;
  memory_cap ← (y ← node_at "memory-cap" capacities; as_unsigned y);
  storage_cap ← (y ← node_at "storage-cap" capacities; as_unsigned y);
  replication ← node_at "replication" conf;
  memory_rep ← (y ← node_at "memory" replication; as_unsigned y);
  storage_rep ← (y ← node_at "storage" replication; as_unsigned y);
  local_rep ← (y ← node_at "local" replication; as_unsigned y);
  routing ← node_at "routing" conf;
  ip ← (y ← node_at "ip" routing; as_string y);
  monitoring ← node_at "monitoring" routing;
  monitoring_ips ← omap_each (elements monitoring) as_string;
  Ret (mkRoutingConfig dinomo bench
         (λ tier, if tier =? MEMORY
                  then mkTierMetadata MEMORY memory_threads memory_rep (u32 (memory_cap * 1024) * 1024)
                  else if tier =? STORAGE
                  then mkTierMetadata STORAGE storage_threads storage_rep (u32 (storage_cap * 1024) * 1024)
                  else TierMetadata_default)
         local_rep routing_threads,
       ip, monitoring_ips).

(** The numbers of the threads it runs. *)
Definition routing_threads (cfg : routing_config) : list Z := seqZ 1 (kRoutingThreadCount cfg - 1) ++ [0].
