(* ===== verification/RoutingProps.v ===== *)
(** * Properties of the routing server

    Its rings stay well formed whatever it receives; what a membership message
    does; which addresses it answers. *)

From S2P Require Import Prelude Objects OrderedSet Lattices Messages Cpp Threads Metadata HashRing.
From S2P Require Import HashRingProps Routing.

#[local] Open Scope Z_scope.

Section Routing.
Context {wire : Type} `{RC : RoutingCodec wire, SH : StdHash, U : Unordered}.
Context (cfg : routing_config) (rand_r : Z → Z * Z).
Notation W := (M (routing_state wire)).
Implicit Types (s : routing_state wire) (rings : list (Z * HashRing)).

(** ** Rings by tier *)

Lemma ring_at_dset tier tier' r rings :
  ring_at tier (dset tier' r rings) = if decide (tier = tier') then r else ring_at tier rings.
Proof. rewrite /ring_at dget_dset. by case_decide. Qed.

Lemma ring_at_touch tier tier' rings : ring_at tier (touch tier' rings) = ring_at tier rings.
Proof. rewrite /touch ring_at_dset. by case_decide; simplify_eq. Qed.

Lemma global_ring_run tier s :
  global_ring tier s =
  (Ret (ring_at tier (global_hash_rings s)), set_global_rings (touch tier (global_hash_rings s)) s).
Proof. rewrite /global_ring. erewrite bind_ret by reflexivity. by rewrite /gets /= ring_at_touch. Qed.

Lemma local_ring_run tier s :
  local_ring tier s =
  (Ret (ring_at tier (local_hash_rings s)), set_local_rings (touch tier (local_hash_rings s)) s).
Proof. rewrite /local_ring. erewrite bind_ret by reflexivity. by rewrite /gets /= ring_at_touch. Qed.

(** ** Sending *)

Definition pushes (ps : list (string * packet wire)) s : routing_state wire :=
  mkRoutingState (global_hash_rings s) (local_hash_rings s) (key_replication_map s)
    (pending_requests s) (rand_seed s) (pushed s ++ ps).

Lemma pushes_pushes ps qs s : pushes qs (pushes ps s) = pushes (ps ++ qs) s.
Proof. by rewrite /pushes /= app_assoc. Qed.

Lemma pushes_nil s : pushes [] s = s.
Proof. destruct s. by rewrite /pushes /= app_nil_r. Qed.

(** A loop whose rounds send. *)
Lemma for_each_pushes {A} (l : list A) (f : A → W unit) (ps : A → list (string * packet wire)) s :
  (∀ x s, x ∈ l → f x s = (Ret tt, pushes (ps x) s)) →
  for_each l f s = (Ret tt, pushes (l ≫= ps) s).
Proof. apply for_each_adds; [apply pushes_nil|intros; apply pushes_pushes]. Qed.

Definition to_workers (ip : string) (connect_address : RoutingThread → string) (msg : packet wire)
  : list (string * packet wire) :=
  (λ tid, (connect_address (mkRoutingThread ip tid), msg)) <$> seqZ 1 (kRoutingThreadCount cfg - 1).

Lemma tell_workers_run ip connect_address msg s :
  tell_workers cfg ip connect_address msg s = (Ret tt, pushes (to_workers ip connect_address msg) s).
Proof.
  rewrite /tell_workers.
  rewrite (for_each_pushes _ _ (λ tid, [(connect_address (mkRoutingThread ip tid), msg)])); [|done].
  rewrite /to_workers. generalize (seqZ 1 (kRoutingThreadCount cfg - 1)). intros l.
  do 2 f_equal; by induction l as [|x l IH]; [|rewrite bind_cons fmap_cons IH].
Qed.

(** ** Membership messages *)

Definition depart_message (name public_ip private_ip : string) : string :=
  "depart:" +:+ name +:+ ":" +:+ public_ip +:+ ":" +:+ private_ip.
Definition join_message (name public_ip private_ip count : string) : string :=
  "join:" +:+ name +:+ ":" +:+ public_ip +:+ ":" +:+ private_ip +:+ ":" +:+ count.

(** A text that survives between colons. *)
Definition field_ok (s : string) : Prop := str_has ":" s = false ∧ s ≠ EmptyString.

Lemma split_depart name public_ip private_ip :
  field_ok name → field_ok public_ip → field_ok private_ip →
  split ":" (depart_message name public_ip private_ip) = ["depart"%string; name; public_ip; private_ip].
Proof.
  intros [Hn _] [Hp _] [Hq Hne]. rewrite /depart_message.
  rewrite (split_item ":" "depart" (name +:+ ":" +:+ public_ip +:+ ":" +:+ private_ip)) //.
  rewrite (split_item ":" name) // (split_item ":" public_ip) // split_last //.
Qed.

(** The rings after a departure: the log creates those of both tiers. *)
Definition rings_without (tier : Z) (public_ip private_ip : string) rings : list (Z * HashRing) :=
  foldl (λ rings t, touch t rings)
    (dset tier (ring_remove GlobalHasher public_ip private_ip 0 (ring_at tier rings)) (touch tier rings))
    kAllTiers.

Lemma touch_all_run tiers s :
  for_each tiers (λ tier, global_ring tier ;; mret tt) s =
  (Ret tt, set_global_rings (foldl (λ rings t, touch t rings) (global_hash_rings s) tiers) s).
Proof.
  revert s. induction tiers as [|t tiers IH]; intros s; [by destruct s|].
  cbn [for_each]. erewrite bind_ret; [|by rewrite (bind_ret _ _ _ _ _ (global_ring_run t s))].
  by rewrite IH.
Qed.

Lemma depart_run name tier public_ip private_ip thread_id ip s :
  field_ok name → field_ok public_ip → field_ok private_ip → Tier_Parse name = Ret tier →
  let m := depart_message name public_ip private_ip in
  membership_handler cfg m thread_id ip s =
  (Ret tt, pushes (if thread_id =? 0 then to_workers ip rt_notify_connect_address (Text m) else [])
             (set_global_rings (rings_without tier public_ip private_ip (global_hash_rings s)) s)).
Proof.
  intros Hn Hp Hq Ht m. rewrite /membership_handler (split_depart name public_ip private_ip) //.
  do 4 (erewrite bind_ret by reflexivity). lazy beta iota zeta.
  change (String.eqb "depart" "join") with false. change (String.eqb "depart" "depart") with true.
  lazy iota. rewrite Ht. erewrite bind_ret by reflexivity.
  rewrite (bind_ret _ _ _ _ _ (global_ring_run tier s)). erewrite bind_ret by reflexivity.
  cbn [global_hash_rings set_global_rings]. destruct (thread_id =? 0).
  - rewrite (bind_ret _ _ _ _ _ (tell_workers_run _ _ _ _)). by rewrite touch_all_run.
  - erewrite bind_ret by reflexivity. rewrite touch_all_run pushes_nil. done.
Qed.

Lemma ring_at_without tier tier' public_ip private_ip rings :
  ring_at tier' (rings_without tier public_ip private_ip rings) =
  if decide (tier' = tier) then ring_remove GlobalHasher public_ip private_ip 0 (ring_at tier rings)
  else ring_at tier' rings.
Proof.
  rewrite /rings_without /kAllTiers. cbn [foldl]. rewrite !ring_at_touch ring_at_dset.
  case_decide; [done|]. by rewrite ring_at_touch.
Qed.

Lemma split_join name public_ip private_ip count :
  field_ok name → field_ok public_ip → field_ok private_ip → field_ok count →
  split ":" (join_message name public_ip private_ip count) =
  ["join"%string; name; public_ip; private_ip; count].
Proof.
  intros [Hn _] [Hp _] [Hq _] [Hc Hne]. rewrite /join_message.
  rewrite (split_item ":" "join" (name +:+ ":" +:+ public_ip +:+ ":" +:+ private_ip +:+ ":" +:+ count)) //.
  rewrite (split_item ":" name) // (split_item ":" public_ip) // (split_item ":" private_ip) //.
  by rewrite split_last.
Qed.

(** One message to every server at another address. *)
Definition gossip (rings : list (Z * HashRing)) (msg private_ip : string) : list (string * packet wire) :=
  iterate rings ≫= λ tr, iterate (unique_servers tr.2) ≫= λ st,
    if String.eqb (st_private_ip st) private_ip then []
    else [(node_join_connect_address st,
           Packed (serialize_NodeJoinRequest (mkNodeJoinRequest EmptyString EmptyString msg)))].

Lemma gossip_join_run msg private_ip s :
  gossip_join msg private_ip s = (Ret tt, pushes (gossip (global_hash_rings s) msg private_ip) s).
Proof.
  rewrite /gossip_join. erewrite bind_ret by reflexivity. apply for_each_pushes. intros tr s1 _.
  apply for_each_pushes. intros st s2 _. destruct (String.eqb _ _); [|done]. by rewrite pushes_nil.
Qed.

Lemma join_run name tier public_ip private_ip count join_count thread_id ip s :
  field_ok name → field_ok public_ip → field_ok private_ip → field_ok count →
  Tier_Parse name = Ret tier → stoi count = Ret join_count →
  let m := join_message name public_ip private_ip count in
  let res := ring_insert GlobalHasher public_ip private_ip join_count 0
               (ring_at tier (global_hash_rings s)) in
  let rings := dset tier res.2 (touch tier (global_hash_rings s)) in
  membership_handler cfg m thread_id ip s =
  (Ret tt, pushes (if res.1 && (thread_id =? 0)
                   then gossip rings (name +:+ ":" +:+ public_ip +:+ ":" +:+ private_ip +:+ ":" +:+ count)
                          private_ip ++ to_workers ip rt_notify_connect_address (Text m)
                   else []) (set_global_rings rings s)).
Proof.
  intros Hn Hp Hq Hc Ht Hj m res rings.
  rewrite /membership_handler (split_join name public_ip private_ip count) //.
  do 4 (erewrite bind_ret by reflexivity). lazy beta iota zeta.
  change (String.eqb "join" "join") with true. lazy iota.
  erewrite bind_ret by reflexivity. rewrite Hj. erewrite bind_ret by reflexivity.
  rewrite Ht. erewrite bind_ret by reflexivity. rewrite (bind_ret _ _ _ _ _ (global_ring_run tier s)).
  fold res. destruct res as [inserted ring'] eqn:Eres. erewrite bind_ret by reflexivity.
  cbn [fst snd global_hash_rings set_global_rings] in *. fold rings.
  destruct (inserted && (thread_id =? 0)); [|by rewrite pushes_nil].
  rewrite (bind_ret _ _ _ _ _ (gossip_join_run _ _ _)) tell_workers_run pushes_pushes. done.
Qed.

(** ** Well-formed rings *)

(** The nodes of the global rings are threads 0 of their servers. *)
Definition global_wf (r : HashRing) : Prop :=
  ring_wf GlobalHasher r ∧ Forall (λ t, st_tid t = 0) (unique_servers r).
Definition rings_wf (P : HashRing → Prop) rings : Prop := Forall (λ tr, P tr.2) rings.
Definition routing_ok s : Prop :=
  rings_wf global_wf (global_hash_rings s) ∧ rings_wf (ring_wf LocalHasher) (local_hash_rings s).

Lemma rings_wf_dset P tier r rings : P r → rings_wf P rings → rings_wf P (dset tier r rings).
Proof.
  intros Hr. rewrite /rings_wf. induction 1 as [|[t r'] rings Ht Hall IH].
  { by apply Forall_singleton. }
  cbn [dset]. case_decide; by apply Forall_cons.
Qed.

Lemma rings_wf_at P tier rings : P empty_ring → rings_wf P rings → P (ring_at tier rings).
Proof.
  intros He Hall. rewrite /ring_at. destruct (dget tier rings) eqn:E; [|done].
  apply dget_elem in E. rewrite /rings_wf Forall_forall in Hall. exact (Hall _ E).
Qed.

Lemma rings_wf_touch P tier rings : P empty_ring → rings_wf P rings → rings_wf P (touch tier rings).
Proof. intros He Hall. apply rings_wf_dset; [by apply rings_wf_at|done]. Qed.

Lemma empty_global_wf : global_wf empty_ring.
Proof. split; [apply empty_ring_wf|constructor]. Qed.

Lemma insert_global_wf public_ip private_ip join_count r :
  global_wf r → global_wf (ring_insert GlobalHasher public_ip private_ip join_count 0 r).2.
Proof.
  intros [Hwf Ht]. split; [by apply (ring_insert_wf _)|].
  rewrite /ring_insert. repeat case_match; try done. cbn. apply Forall_app. by repeat constructor.
Qed.

Lemma remove_global_wf public_ip private_ip r :
  global_wf r → global_wf (ring_remove GlobalHasher public_ip private_ip 0 r).
Proof.
  intros [Hwf Ht]. split; [by apply (ring_remove_wf _)|]. cbn.
  apply Forall_forall. intros t [_ Hin]%list_elem_of_filter. rewrite Forall_forall in Ht. by apply Ht.
Qed.

Notation ok := (keeps routing_ok) (only parsing).

Lemma ok_global_ring tier : ok (global_ring tier).
Proof.
  intros s [Hg Hl]. rewrite global_ring_run. split; [|done].
  apply rings_wf_touch; [apply empty_global_wf|done].
Qed.
Lemma ok_local_ring tier : ok (local_ring tier).
Proof.
  intros s [Hg Hl]. rewrite local_ring_run. split; [done|].
  apply rings_wf_touch; [apply empty_ring_wf|done].
Qed.

(** Statements that do not change the rings. *)
Lemma ok_push address msg : ok (push address msg).
Proof. by intros s Hs. Qed.
Lemma ok_set_seed z : ok (modify (set_seed z)).
Proof. by intros s Hs. Qed.
Lemma ok_set_replication m : ok (modify (set_replication m)).
Proof. by intros s Hs. Qed.
Lemma ok_set_replication_of f : ok (modify (λ s, set_replication (f s) s)).
Proof. by intros s Hs. Qed.
Lemma ok_set_pending_of f : ok (modify (λ s, set_pending (f s) s)).
Proof. by intros s Hs. Qed.

#[local] Hint Resolve ok_global_ring ok_local_ring ok_push ok_set_seed ok_set_replication
  ok_set_replication_of ok_set_pending_of : keeps.

Lemma ok_issue response_address key global local :
  ok (issue_replication_factor_request cfg rand_r response_address key global local).
Proof. rewrite /issue_replication_factor_request. keeps_solve. Qed.

Lemma ok_tier_threads key tier : ok (tier_threads key tier).
Proof. rewrite /tier_threads /global_factor /local_factor. keeps_solve. Qed.
#[local] Hint Resolve ok_issue ok_tier_threads : keeps.

Lemma ok_get_responsible_threads response_address key metadata tiers :
  ok (get_responsible_threads cfg rand_r response_address key metadata tiers).
Proof. rewrite /get_responsible_threads. keeps_solve. Qed.
#[local] Hint Resolve ok_get_responsible_threads : keeps.

Lemma ok_first_tier response_address key metadata tiers threads :
  ok (first_tier cfg rand_r response_address key metadata tiers threads).
Proof. revert threads. induction tiers; intros threads; cbn [first_tier]; keeps_solve. Qed.
#[local] Hint Resolve ok_first_tier : keeps.

Lemma ok_address_keys rt request keys addresses :
  ok (address_keys cfg rand_r rt request keys addresses).
Proof. revert addresses. induction keys; intros addresses; cbn [address_keys]; keeps_solve. Qed.
#[local] Hint Resolve ok_address_keys : keeps.

Lemma ok_address_handler rt serialized : ok (address_handler cfg rand_r rt serialized).
Proof. rewrite /address_handler. keeps_solve. Qed.

Lemma ok_tell_workers ip connect_address msg : ok (tell_workers cfg ip connect_address msg).
Proof. rewrite /tell_workers. keeps_solve. Qed.
#[local] Hint Resolve ok_address_handler ok_tell_workers : keeps.

Lemma ok_answer_pending rt key : ok (answer_pending cfg rand_r rt key).
Proof. rewrite /answer_pending. keeps_solve. Qed.
#[local] Hint Resolve ok_answer_pending : keeps.

Lemma ok_replication_response_handler rt m : ok (replication_response_handler cfg rand_r rt m).
Proof. rewrite /replication_response_handler. keeps_solve. Qed.

Lemma ok_replication_change_handler m thread_id ip : ok (replication_change_handler cfg m thread_id ip).
Proof. rewrite /replication_change_handler. keeps_solve. Qed.

(** A ring is looked up, changed and put back. *)
Lemma ok_update_ring {A B} tier (f : HashRing → B * HashRing) (k : B → W A) :
  (∀ r, global_wf r → global_wf (f r).2) → (∀ b, ok (k b)) →
  ok (ring ← global_ring tier;
      let '(b, ring') := f ring in
      modify (λ s, set_global_rings (dset tier ring' (global_hash_rings s)) s) ;; k b).
Proof.
  intros Hf Hk s Hs. rewrite (bind_ret _ _ _ _ _ (global_ring_run tier s)).
  pose proof (ok_global_ring tier s Hs) as Hs'. rewrite global_ring_run in Hs'.
  specialize (Hf (ring_at tier (global_hash_rings s))). destruct (f _) as [b ring'].
  erewrite bind_ret by reflexivity. apply Hk. destruct Hs' as [Hg Hl]. split; [|done].
  apply rings_wf_dset; [|done]. apply Hf. apply rings_wf_at; [apply empty_global_wf|apply Hs].
Qed.

Lemma ok_membership_handler m thread_id ip : ok (membership_handler cfg m thread_id ip).
Proof.
  rewrite /membership_handler /gossip_join.
  do 4 (apply keeps_bind; [apply keeps_lift|]; intros ?).
  destruct (String.eqb _ "join").
  - do 3 (apply keeps_bind; [apply keeps_lift|]; intros ?).
    apply ok_update_ring; [intros r; apply insert_global_wf|intros inserted; keeps_solve].
  - destruct (String.eqb _ "depart"); [|apply keeps_mret].
    apply keeps_bind; [apply keeps_lift|]. intros tier.
    apply (ok_update_ring tier (λ r, (tt, ring_remove GlobalHasher _ _ 0 r)) (λ _, _)).
    + intros r. apply remove_global_wf.
    + intros ?. keeps_solve.
Qed.
#[local] Hint Resolve ok_replication_response_handler ok_replication_change_handler
  ok_membership_handler : keeps.

Lemma ok_routing_round rt p : ok (routing_round cfg rand_r rt p).
Proof. rewrite /routing_round /seed_handler. keeps_solve. Qed.

Lemma foldl_keeps {A B} (P : B → Prop) (f : B → A → B) (l : list A) b :
  (∀ b a, P b → P (f b a)) → P b → P (foldl f b l).
Proof. intros Hf. revert b. induction l as [|a l IH]; intros b Hb; [done|]. by apply IH, Hf. Qed.

Lemma form_local_rings_wf ip : rings_wf (ring_wf LocalHasher) (form_local_rings cfg ip).
Proof.
  apply (foldl_keeps (rings_wf _)); [|constructor]. intros rings t Hr.
  apply (foldl_keeps (rings_wf _)); [|done].
  intros rings' tid Hr'. apply rings_wf_dset; [|done]. apply ring_insert_wf.
  apply rings_wf_at; [apply empty_ring_wf|done].
Qed.

(** ** Locating keys *)

(** States that answer alike. *)
Definition factors_of s (key : string) : KeyReplication :=
  default (default no_replication
             (init_replication (kTierMetadata cfg) (kDefaultLocalReplication cfg) ∅ key !! key))
    (key_replication_map s !! key).
Definition global_of s key tier : Z := default 0 (global_replication (factors_of s key) !! tier).
Definition local_of s key tier : Z := default 0 (local_replication (factors_of s key) !! tier).

Record alike s s' : Prop := {
  alike_global tier : ring_at tier (global_hash_rings s') = ring_at tier (global_hash_rings s);
  alike_local tier : ring_at tier (local_hash_rings s') = ring_at tier (local_hash_rings s);
  alike_rep key tier : global_of s' key tier = global_of s key tier;
  alike_lrep key tier : local_of s' key tier = local_of s key tier;
  alike_known key : is_Some (key_replication_map s !! key) → is_Some (key_replication_map s' !! key);
  alike_pending : pending_requests s' = pending_requests s;
  alike_pushed : pushed s' = pushed s
}.

#[local] Instance alike_preorder : PreOrder alike.
Proof.
  split; [by constructor|]. intros s1 s2 s3 [] []. constructor; try (intros; etrans; eauto).
  all: naive_solver.
Qed.

(** The threads of a tier, read off the state. *)
Definition located s (key : string) (tier : Z) : outcome (list ServerThread) :=
  threads ← responsible_global GlobalHasher key (global_of s key tier)
              (ring_at tier (global_hash_rings s));
  ofold threads [] (λ result thread,
    ts ← thread_list key (local_of s key tier) (ring_at tier (local_hash_rings s)) thread;
    Ret (result ++ ts)).

(** The first answer that is not empty. *)
Fixpoint first_found (o : Z → outcome (list ServerThread)) (tiers : list Z)
    (threads : list ServerThread) : outcome (list ServerThread) :=
  match tiers with
  | [] => Ret threads
  | tier :: tiers' =>
      ts ← o tier;
      match ts with _ :: _ => Ret ts | [] => first_found o tiers' ts end
  end.

(** The answer for a key. *)
Definition locate s (key : string) : outcome (list ServerThread) :=
  match key with
  | EmptyString => Ret []
  | _ =>
      metadata ← is_metadata key;
      if (metadata : bool) then
        get_responsible_threads_metadata cfg key (ring_at MEMORY (global_hash_rings s))
          (ring_at MEMORY (local_hash_rings s))
      else
        first_found (located s key) kAllTiers []
  end.

Lemma located_alike s s' key tier : alike s s' → located s' key tier = located s key tier.
Proof. intros []. by rewrite /located alike_global0 alike_local0 alike_rep0 alike_lrep0. Qed.

Lemma locate_alike s s' key : alike s s' → locate s' key = locate s key.
Proof.
  intros Ha. pose proof (λ tier, located_alike s s' key tier Ha) as Hl.
  rewrite /locate /kAllTiers /= !Hl. destruct Ha. by rewrite alike_global0 alike_local0.
Qed.

Lemma global_ring_alike tier s :
  ∃ s', global_ring tier s = (Ret (ring_at tier (global_hash_rings s)), s') ∧ alike s s'.
Proof.
  eexists. split; [apply global_ring_run|]. constructor; try done. intros t. apply ring_at_touch.
Qed.
Lemma local_ring_alike tier s :
  ∃ s', local_ring tier s = (Ret (ring_at tier (local_hash_rings s)), s') ∧ alike s s'.
Proof.
  eexists. split; [apply local_ring_run|]. constructor; try done. intros t. apply ring_at_touch.
Qed.

(** Reading a factor may set it to 0. *)
Lemma factor_alike s key m :
  is_Some (key_replication_map s !! key) →
  (∀ tier, default 0 (global_replication (default no_replication (m !! key)) !! tier) =
           global_of s key tier) →
  (∀ tier, default 0 (local_replication (default no_replication (m !! key)) !! tier) =
           local_of s key tier) →
  is_Some (m !! key) → (∀ k, k ≠ key → m !! k = key_replication_map s !! k) →
  alike s (set_replication m s).
Proof.
  intros Hs Hg Hl [r Hr] Hk. constructor; try done; intros k.
  - intros tier. rewrite /global_of /factors_of. destruct (decide (k = key)) as [->|].
    + rewrite -/(factors_of s key) -/(global_of s key tier) -Hg /=. by rewrite !Hr.
    + by rewrite /= Hk.
  - intros tier. rewrite /local_of /factors_of. destruct (decide (k = key)) as [->|].
    + rewrite -/(factors_of s key) -/(local_of s key tier) -Hl /=. by rewrite !Hr.
    + by rewrite /= Hk.
  - destruct (decide (k = key)) as [->|]; [by rewrite /= Hr|]. by rewrite /= Hk.
Qed.

Lemma global_factor_alike s key tier :
  is_Some (key_replication_map s !! key) →
  ∃ s', global_factor key tier s = (Ret (global_of s key tier), s') ∧ alike s s'.
Proof.
  intros [k Hk]. rewrite /global_factor. erewrite bind_ret by reflexivity.
  erewrite bind_ret by reflexivity. eexists. split.
  { rewrite /global_of /factors_of Hk. reflexivity. }
  apply (factor_alike s key); rewrite /set_global ?lookup_insert_eq ?Hk; try done.
  - intros t. rewrite /global_of /factors_of Hk /= lookup_insert. by case_decide; simplify_eq.
  - intros t. by rewrite /local_of /factors_of Hk.
  - intros k' Hne. by rewrite lookup_insert_ne.
Qed.

Lemma local_factor_alike s key tier :
  is_Some (key_replication_map s !! key) →
  ∃ s', local_factor key tier s = (Ret (local_of s key tier), s') ∧ alike s s'.
Proof.
  intros [k Hk]. rewrite /local_factor. erewrite bind_ret by reflexivity.
  erewrite bind_ret by reflexivity. eexists. split.
  { rewrite /local_of /factors_of Hk. reflexivity. }
  apply (factor_alike s key); rewrite /set_local ?lookup_insert_eq ?Hk; try done.
  - intros t. by rewrite /global_of /factors_of Hk.
  - intros t. rewrite /local_of /factors_of Hk /= lookup_insert. by case_decide; simplify_eq.
  - intros k' Hne. by rewrite lookup_insert_ne.
Qed.

(** A statement that returns [o] and leaves a state that answers alike. *)
Definition responds {A} (m : W A) (o : outcome A) s : Prop := ∃ s', m s = (o, s') ∧ alike s s'.

Lemma responds_bind {A B} (m : W A) (k : A → W B) (o : outcome A) (o' : A → outcome B) s :
  responds m o s → (∀ a s', alike s s' → responds (k a) (o' a) s') →
  responds (m ≫= k) (a ← o; o' a) s.
Proof.
  intros (s1 & Hm & Ha) Hk. destruct o as [a|e| |].
  - destruct (Hk a s1 Ha) as (s2 & H2 & Ha2). exists s2.
    rewrite (bind_ret _ _ _ _ _ Hm). split; [done|by trans s1].
  - exists s1. by rewrite (bind_raise _ _ _ _ _ Hm).
  - exists s1. by rewrite (bind_blocked _ _ _ _ Hm).
  - exists s1. split; [|done]. by rewrite /mbind /M_bind Hm.
Qed.

Lemma responds_lift {A} (o : outcome A) s : responds (lift o) o s.
Proof. by exists s. Qed.
Lemma responds_mret {A} (a : A) s : responds (mret a) (Ret a) s.
Proof. by exists s. Qed.

Lemma fold_threads_answers key tier threads acc s :
  is_Some (key_replication_map s !! key) →
  responds (fold_each threads acc (λ result thread,
    m ← local_factor key tier;
    local ← local_ring tier;
    ts ← lift (thread_list key m local thread);
    mret (result ++ ts)))
  (ofold threads acc (λ result thread,
    ts ← thread_list key (local_of s key tier) (ring_at tier (local_hash_rings s)) thread;
    Ret (result ++ ts))) s.
Proof.
  revert acc s. induction threads as [|t threads IH]; intros acc s Hk; [apply responds_mret|].
  cbn [fold_each ofold]. apply responds_bind.
  - destruct (local_factor_alike s key tier Hk) as (s1 & H1 & Ha1).
    destruct (local_ring_alike tier s1) as (s2 & H2 & Ha2).
    rewrite (alike_local _ _ Ha1) in H2. assert (alike s s2) by (by trans s1).
    destruct (thread_list key (local_of s key tier) (ring_at tier (local_hash_rings s)) t) eqn:E;
      exists s2; rewrite (bind_ret _ _ _ _ _ H1) (bind_ret _ _ _ _ _ H2) E; done.
  - intros acc' s' Ha. destruct (IH acc' s' (alike_known _ _ Ha key Hk)) as (s2 & H2 & Ha2).
    exists s2. rewrite (alike_local _ _ Ha) (alike_lrep _ _ Ha) in H2. by split.
Qed.

Lemma tier_threads_answers key tier s :
  is_Some (key_replication_map s !! key) → responds (tier_threads key tier) (located s key tier) s.
Proof.
  intros Hk. destruct (global_factor_alike s key tier Hk) as (s1 & H1 & Ha1).
  destruct (global_ring_alike tier s1) as (s2 & H2 & Ha2).
  rewrite (alike_global _ _ Ha1) in H2. assert (alike s s2) as Ha by (by trans s1).
  enough (responds (lift (responsible_global GlobalHasher key (global_of s key tier)
    (ring_at tier (global_hash_rings s))) ≫= λ threads, fold_each threads [] (λ result thread,
      m ← local_factor key tier; local ← local_ring tier;
      ts ← lift (thread_list key m local thread); mret (result ++ ts))) (located s key tier) s2)
    as (s3 & H3 & Ha3).
  { exists s3. rewrite /tier_threads (bind_ret _ _ _ _ _ H1) (bind_ret _ _ _ _ _ H2).
    split; [done|by trans s2]. }
  apply responds_bind; [apply responds_lift|]. intros threads s3 Ha3.
  assert (alike s s3) as Ha' by (by trans s2).
  rewrite -(alike_lrep _ _ Ha') -(alike_local _ _ Ha').
  apply fold_threads_answers, (alike_known _ _ Ha'), Hk.
Qed.

(** Default factors. *)
Lemma init_alike s key :
  key_replication_map s !! key = None →
  alike s (set_replication (init_replication (kTierMetadata cfg) (kDefaultLocalReplication cfg)
                              (key_replication_map s) key) s).
Proof.
  intros Hk. assert (∀ m m' : gmap string KeyReplication, m !! key = m' !! key →
    init_replication (kTierMetadata cfg) (kDefaultLocalReplication cfg) m key !! key =
    init_replication (kTierMetadata cfg) (kDefaultLocalReplication cfg) m' key !! key) as Hext.
  { intros m m' Hm. rewrite /init_replication /kAllTiers. cbn [foldl].
    rewrite /set_local /set_global !lookup_insert_eq. by rewrite Hm. }
  assert (∀ k, factors_of (set_replication (init_replication (kTierMetadata cfg)
    (kDefaultLocalReplication cfg) (key_replication_map s) key) s) k = factors_of s k) as Hf.
  { intros k. rewrite /factors_of /=. destruct (decide (k = key)) as [->|Hne].
    - rewrite Hk. rewrite (Hext (key_replication_map s) ∅); [|by rewrite Hk lookup_empty].
      by destruct (init_replication _ _ ∅ key !! key).
    - f_equal. rewrite /init_replication /kAllTiers. cbn [foldl].
      by rewrite /set_local /set_global !lookup_insert_ne. }
  constructor; try done; intros k.
  - intros tier. by rewrite /global_of Hf.
  - intros tier. by rewrite /local_of Hf.
  - rewrite /= /init_replication /kAllTiers. cbn [foldl]. rewrite /set_local /set_global.
    destruct (decide (k = key)) as [->|]; [by rewrite Hk; intros []|by rewrite !lookup_insert_ne].
Qed.

(** The factors of a key are at hand. *)
Definition resolvable s (key : string) : Prop :=
  is_Some (key_replication_map s !! key) ∨ enable_dinomo_kvs cfg = true.

Lemma resolvable_alike s s' key : alike s s' → resolvable s key → resolvable s' key.
Proof. intros Ha [Hk|]; [left; by apply (alike_known _ _ Ha)|by right]. Qed.

Lemma get_responsible_threads_answers response_address key tier s :
  resolvable s key →
  responds (get_responsible_threads cfg rand_r response_address key false [tier])
    (ts ← located s key tier; Ret (ts, true)) s.
Proof.
  intros Hr. rewrite /get_responsible_threads.
  assert (∀ s', alike s s' → is_Some (key_replication_map s' !! key) → responds
    (threads ← fold_each [tier] [] (λ result tier, ts ← tier_threads key tier; mret (result ++ ts));
     mret (threads, true)) (ts ← located s key tier; Ret (ts, true)) s') as Hfound.
  { intros s' Ha Hk. destruct (tier_threads_answers key tier s' Hk) as (s2 & H2 & Ha2).
    rewrite (located_alike _ _ _ _ Ha) in H2. exists s2. split; [|done].
    cbn [fold_each]. rewrite /mbind /M_bind H2. by destruct (located s key tier). }
  destruct (key_replication_map s !! key) as [k|] eqn:Hk.
  - destruct (Hfound s) as (s2 & H2 & Ha2); [done|by rewrite Hk|].
    exists s2. erewrite bind_ret by reflexivity. by rewrite Hk.
  - destruct Hr as [[? ?]|Hd]; [congruence|].
    pose proof (init_alike s key Hk) as Ha.
    destruct (Hfound _ Ha) as (s2 & H2 & Ha2).
    { rewrite /= /init_replication /kAllTiers. cbn [foldl].
      by rewrite /set_local /set_global !lookup_insert_eq. }
    exists s2. split; [|by etrans]. erewrite bind_ret by reflexivity. rewrite Hk Hd.
    by erewrite bind_ret by reflexivity.
Qed.

Lemma metadata_threads_answers response_address key tiers s :
  responds (get_responsible_threads cfg rand_r response_address key true tiers)
    (ts ← get_responsible_threads_metadata cfg key (ring_at MEMORY (global_hash_rings s))
            (ring_at MEMORY (local_hash_rings s)); Ret (ts, true)) s.
Proof.
  rewrite /get_responsible_threads. destruct (global_ring_alike MEMORY s) as (s1 & H1 & Ha1).
  destruct (local_ring_alike MEMORY s1) as (s2 & H2 & Ha2). rewrite (alike_local _ _ Ha1) in H2.
  exists s2. split; [|by trans s1]. rewrite (bind_ret _ _ _ _ _ H1) (bind_ret _ _ _ _ _ H2).
  by destruct (get_responsible_threads_metadata _ _ _ _).
Qed.

(** What [address_handler] looks up for one key. *)
Definition look_up (response_address key : string) : W (option (list ServerThread)) :=
  match key with
  | EmptyString => mret (Some [])
  | _ => metadata ← lift (is_metadata key);
         first_tier cfg rand_r response_address key metadata kAllTiers []
  end.

Lemma first_tier_answers response_address key metadata o tiers threads s :
  (∀ tier s', alike s s' →
     responds (get_responsible_threads cfg rand_r response_address key metadata [tier])
       (ts ← o tier; Ret (ts, true)) s') →
  responds (first_tier cfg rand_r response_address key metadata tiers threads)
    (ts ← first_found o tiers threads; Ret (Some ts)) s.
Proof.
  revert threads s. induction tiers as [|tier tiers IH]; intros threads s Ho; [apply responds_mret|].
  destruct (Ho tier s ltac:(done)) as (s1 & H1 & Ha1). cbn [first_tier first_found].
  destruct (o tier) as [[|t ts]|e| |].
  - destruct (IH [] s1) as (s2 & H2 & Ha2); [intros tier' s' Ha; apply Ho; by trans s1|].
    exists s2. rewrite (bind_ret _ _ _ _ _ H1). split; [exact H2|by trans s1].
  - exists s1. by rewrite (bind_ret _ _ _ _ _ H1).
  - exists s1. by rewrite (bind_raise _ _ _ _ _ H1).
  - exists s1. by rewrite (bind_blocked _ _ _ _ H1).
  - exists s1. split; [|done]. by rewrite /mbind /M_bind H1.
Qed.

Lemma look_up_answers response_address key s :
  resolvable s key →
  responds (look_up response_address key) (ts ← locate s key; Ret (Some ts)) s.
Proof.
  intros Hr. rewrite /look_up /locate. destruct key as [|c key]; [apply responds_mret|].
  destruct (is_metadata (String c key)) as [[]|e| |]; try by exists s.
  - set (o := get_responsible_threads_metadata _ _ _ _).
    replace o with (first_found (λ _, o) kAllTiers []); last first.
    { rewrite /kAllTiers /=. by destruct o as [[]| | |]. }
    apply (first_tier_answers response_address _ true (λ _, o)). intros tier s' Ha.
    pose proof (metadata_threads_answers response_address (String c key) [tier] s') as Hm.
    by rewrite (alike_global _ _ Ha) (alike_local _ _ Ha) in Hm.
  - apply (first_tier_answers response_address _ false (located s (String c key))).
    intros tier s' Ha. rewrite -(located_alike s s') //.
    apply get_responsible_threads_answers, (resolvable_alike s s'); done.
Qed.

(** The addresses for a list of keys. *)
Definition addresses_of (ts : list ServerThread) : list string := key_request_connect_address <$> ts.
Definition key_addresses s (key : string) : outcome (string * list string) :=
  ts ← locate s key;
  Ret (key, addresses_of ts).
Definition located_addresses s (keys : list string) : outcome (list (string * list string)) :=
  omap_each keys (key_addresses s).

Lemma address_keys_answers rt request keys l addresses s :
  Forall (resolvable s) keys → located_addresses s keys = Ret l →
  responds (address_keys cfg rand_r rt request keys addresses) (Ret (Some (addresses ++ l))) s.
Proof.
  revert l addresses s. induction keys as [|key keys IH]; intros l addresses s Hr.
  { intros [= <-]. rewrite app_nil_r. apply responds_mret. }
  apply Forall_cons in Hr as [Hk Hr]. rewrite /located_addresses. cbn [omap_each]. rewrite /key_addresses.
  destruct (locate s key) as [ts|e| |] eqn:El; [|done..].
  cbn [mbind outcome_bind]. destruct (omap_each _ _) as [l'|e| |] eqn:Eo; [|done..]. intros [= <-].
  destruct (look_up_answers (rt_replication_response_connect_address rt) key s Hk) as (s1 & H1 & Ha1).
  rewrite El in H1. cbn [address_keys]. fold (look_up (rt_replication_response_connect_address rt) key).
  destruct (IH l' (addresses ++ [(key, key_request_connect_address <$> ts)]) s1) as (s2 & H2 & Ha2).
  - eapply Forall_impl; [exact Hr|]. intros k. by apply resolvable_alike.
  - rewrite -Eo /located_addresses. clear -Ha1. induction keys as [|k keys IHk]; [done|].
    cbn [omap_each]. by rewrite /key_addresses (locate_alike _ _ _ Ha1) IHk.
  - exists s2. rewrite (bind_ret _ _ _ _ _ H1) -app_assoc in H2 |- *. split; [exact H2|by trans s1].
Qed.

(** ** Servers of all tiers *)

Definition all_servers rings : list ServerThread := rings ≫= λ tr, unique_servers tr.2.

Lemma bind_perm {A B} (f g : A → list B) (l l' : list A) :
  (∀ x, f x ≡ₚ g x) → l ≡ₚ l' → l ≫= f ≡ₚ l' ≫= g.
Proof.
  intros Hf Hp. induction Hp as [|x l l' _ IH|x y l|l l1 l2 _ IH1 _ IH2]; [done| | |].
  - by rewrite !bind_cons Hf IH.
  - rewrite !bind_cons !app_assoc (Permutation_app_comm (f y)) !Hf. f_equiv.
    induction l as [|z l IH]; [done|]. by rewrite !bind_cons Hf IH.
  - rewrite IH1 -IH2. symmetry. clear -Hf. induction l1 as [|z l IH]; [done|]. by rewrite !bind_cons Hf IH.
Qed.

Definition join_request (msg : string) (st : ServerThread) : string * packet wire :=
  (node_join_connect_address st,
   Packed (serialize_NodeJoinRequest (mkNodeJoinRequest EmptyString EmptyString msg))).

Lemma gossip_perm rings msg private_ip :
  gossip rings msg private_ip ≡ₚ
  join_request msg <$> filter (λ st, st_private_ip st ≠ private_ip) (all_servers rings).
Proof.
  transitivity (all_servers rings ≫= λ st,
    if String.eqb (st_private_ip st) private_ip then [] else [join_request msg st]).
  { rewrite /gossip /all_servers. etransitivity.
    - apply (bind_perm _ (λ tr, unique_servers tr.2 ≫= λ st,
        if String.eqb (st_private_ip st) private_ip then [] else [join_request msg st]));
        [|apply iterate_perm]. intros tr. apply bind_perm; [done|apply iterate_perm].
    - apply reflexive_eq. clear. induction rings as [|tr rings IH]; [done|].
      by rewrite !bind_cons bind_app IH. }
  apply reflexive_eq. induction (all_servers rings) as [|st l IH]; [done|]. rewrite bind_cons IH filter_cons.
  destruct (String.eqb_spec (st_private_ip st) private_ip) as [E|E].
  - rewrite decide_False //. tauto.
  - by rewrite decide_True.
Qed.

Lemma all_servers_dset (P : ServerThread → Prop) `{∀ x, Decision (P x)} tier r rings :
  filter P (unique_servers r) = filter P (unique_servers (ring_at tier rings)) →
  filter P (all_servers (dset tier r rings)) = filter P (all_servers rings).
Proof.
  rewrite /ring_at. induction rings as [|[t r'] rings IH]; cbn [dset dget].
  { intros Hr. rewrite /all_servers bind_cons app_nil_r Hr. done. }
  rewrite /all_servers. case_decide as E; intros Hr; rewrite !bind_cons !filter_app.
  - by rewrite Hr.
  - f_equal. by apply IH.
Qed.

(** ** Joins *)

(** The nodes [ns'] are the nodes [ns] and the places of the threads [ts]. *)
Definition places_added (H : Hasher) (ts : list ServerThread) (ns ns' : node_map) : Prop :=
  (∀ hn, hn ∈ ns → hn ∈ ns') ∧
  (∀ t, t ∈ ts → hash_thread H t ∈ ns'.*1) ∧
  ∀ hn, hn ∈ ns' → hn ∈ ns ∨ ∃ t, t ∈ ts ∧ hn = (hash_thread H t, t).

Lemma insert_places_added (H : Hasher) ts ns : places_added H ts ns (foldl (chm_insert H) ns ts).
Proof.
  split; [|split].
  - intros hn. apply foldl_insert_keeps.
  - intros t. apply foldl_insert_there.
  - intros hn. apply foldl_insert_elem.
Qed.

(** ** Departures *)

Lemma member_at_zero public_ip private_ip u :
  st_tid u = 0 → same_server (virtual_thread public_ip private_ip 0 0) u = false ↔ st_private_ip u ≠ private_ip.
Proof.
  intros Hu. rewrite same_server_false. split; intros Hne E; apply Hne.
  - by rewrite /st_id E Hu.
  - by apply st_id_inj in E as [E _].
Qed.

Lemma removed_servers public_ip private_ip r :
  global_wf r → unique_servers (ring_remove GlobalHasher public_ip private_ip 0 r) =
    filter (λ u, st_private_ip u ≠ private_ip) (unique_servers r).
Proof.
  intros [_ Htid]. apply filter_iff_elem. intros u Hu. rewrite Forall_forall in Htid.
  apply member_at_zero. by apply Htid.
Qed.

(** The nodes of a ring are those of its members. *)
Lemma node_member r hn :
  ring_wf GlobalHasher r → hn ∈ nodes r → ∃ u, u ∈ unique_servers r ∧ st_private_ip hn.2 = st_private_ip u.
Proof.
  intros (_ & _ & Hok) Hin. rewrite Forall_forall in Hok. destruct (Hok hn Hin) as (_ & Hid & _).
  apply list_elem_of_fmap in Hid as (u & Hu & Hin'). exists u. split; [done|]. by apply st_id_inj in Hu as [].
Qed.

Lemma removed_nodes public_ip private_ip r :
  global_wf r →
  Forall (λ hn, st_private_ip hn.2 ≠ private_ip) (nodes (ring_remove GlobalHasher public_ip private_ip 0 r)).
Proof.
  intros Hwf. apply Forall_forall. intros hn Hin.
  destruct (node_member _ hn (proj1 (remove_global_wf public_ip private_ip r Hwf)) Hin) as (u & Hu & ->).
  rewrite (removed_servers public_ip private_ip r Hwf) in Hu. by apply list_elem_of_filter in Hu as [].
Qed.

(** ** Properties *)

(** C38: whatever a routing thread receives and in whatever order, its rings stay
    well formed: sorted, each node a virtual thread of a member at its hash value,
    no member twice, and on the global rings every member is a thread 0. *)
Theorem routing_rings_wf thread_id ip monitoring_ips seed0 polls s :
  routing_ok (routing_run cfg rand_r thread_id ip monitoring_ips seed0 polls s).2.
Proof.
  rewrite /routing_run. erewrite bind_ret by reflexivity.
  assert (routing_ok (mkRoutingState [] (form_local_rings cfg ip) ∅ ∅ seed0 (pushed s))) as Hs
    by (split; [constructor|apply form_local_rings_wf]).
  revert Hs. generalize (mkRoutingState [] (form_local_rings cfg ip) ∅ ∅ seed0 (pushed s)).
  match goal with |- ∀ s, routing_ok s → routing_ok (?m s).2 => change (ok m) end.
  pose proof ok_routing_round. keeps_solve. by intros s1 Hs1.
Qed.

(** C23: when a new server joins, the ring of its tier gains it as a member and gains
    its places: all the nodes it had stay, every virtual thread of the new server
    has its place taken, by that thread or by the node that was there, and there
    is no other node; the other rings stay.  Thread 0 sends one join request to every
    known server at another address and the message to every other routing thread,
    and nothing else is sent. *)
Theorem membership_join_correct name tier public_ip private_ip count join_count thread_id ip s :
  let t := virtual_thread public_ip private_ip 0 0 in
  let m := join_message name public_ip private_ip count in
  Forall field_ok [name; public_ip; private_ip; count] →
  Tier_Parse name = Ret tier → stoi count = Ret join_count →
  has_server t (unique_servers (ring_at tier (global_hash_rings s))) = false →
  ∃ s' ps, membership_handler cfg m thread_id ip s = (Ret tt, s') ∧
    unique_servers (ring_at tier (global_hash_rings s')) =
      unique_servers (ring_at tier (global_hash_rings s)) ++ [t] ∧
    places_added GlobalHasher (virtual_threads public_ip private_ip 0)
      (nodes (ring_at tier (global_hash_rings s))) (nodes (ring_at tier (global_hash_rings s'))) ∧
    (∀ tier', tier' ≠ tier → ring_at tier' (global_hash_rings s') = ring_at tier' (global_hash_rings s)) ∧
    pushed s' = pushed s ++ ps ∧
    ps ≡ₚ (if thread_id =? 0
           then (join_request (name +:+ ":" +:+ public_ip +:+ ":" +:+ private_ip +:+ ":" +:+ count) <$>
                   filter (λ st, st_private_ip st ≠ private_ip) (all_servers (global_hash_rings s))) ++
                to_workers ip rt_notify_connect_address (Text m)
           else []).
Proof.
  intros t m [Hn [Hp [Hq [Hc _]%Forall_cons]%Forall_cons]%Forall_cons]%Forall_cons Ht Hj Hnew.
  pose proof (join_run name tier public_ip private_ip count join_count thread_id ip s
    Hn Hp Hq Hc Ht Hj) as Hrun. cbv zeta in Hrun. fold m in Hrun.
  set (res := ring_insert _ _ _ _ _ _) in Hrun.
  assert (res.1 = true ∧ unique_servers res.2 = unique_servers (ring_at tier (global_hash_rings s)) ++ [t] ∧
    nodes res.2 = foldl (chm_insert GlobalHasher) (nodes (ring_at tier (global_hash_rings s)))
                    (virtual_threads public_ip private_ip 0))
    as (H1 & H2 & H3) by (rewrite /res /ring_insert -/t Hnew; done).
  do 2 eexists. split; [exact Hrun|]. cbn [global_hash_rings pushes set_global_rings pushed].
  split; [by rewrite ring_at_dset decide_True|].
  split; [rewrite ring_at_dset decide_True; [rewrite H3; apply insert_places_added|reflexivity]|]. clear H3.
  split; [intros tier' Hne; by rewrite ring_at_dset decide_False // ring_at_touch|].
  split; [done|]. rewrite H1 /=. destruct (thread_id =? 0); [|done].
  rewrite gossip_perm. apply reflexive_eq. do 2 f_equal. rewrite !all_servers_dset //.
  rewrite ring_at_touch H2 filter_app (filter_cons_False _ t) /= ?app_nil_r //.
  intros Hne. by apply Hne.
Qed.

(** Also: when a server departs, the ring of its tier loses it and all of its nodes,
    the other rings stay, thread 0 passes the message on to every other routing
    thread, and nothing else is sent. *)
Theorem membership_depart_correct name tier public_ip private_ip thread_id ip s :
  let m := depart_message name public_ip private_ip in
  routing_ok s → Forall field_ok [name; public_ip; private_ip] → Tier_Parse name = Ret tier →
  ∃ s', membership_handler cfg m thread_id ip s = (Ret tt, s') ∧
    unique_servers (ring_at tier (global_hash_rings s')) =
      filter (λ u, st_private_ip u ≠ private_ip) (unique_servers (ring_at tier (global_hash_rings s))) ∧
    Forall (λ hn, st_private_ip hn.2 ≠ private_ip) (nodes (ring_at tier (global_hash_rings s'))) ∧
    (∀ tier', tier' ≠ tier → ring_at tier' (global_hash_rings s') = ring_at tier' (global_hash_rings s)) ∧
    pushed s' = pushed s ++ (if thread_id =? 0 then to_workers ip rt_notify_connect_address (Text m) else []).
Proof.
  intros m [Hok _] [Hn [Hp [Hq _]%Forall_cons]%Forall_cons]%Forall_cons Ht.
  eexists. split; [by apply (depart_run name tier)|].
  cbn [global_hash_rings pushes set_global_rings pushed]. rewrite ring_at_without decide_True //.
  assert (global_wf (ring_at tier (global_hash_rings s))) as [Hwf Htid]
    by (apply rings_wf_at; [apply empty_global_wf|done]).
  split; [by apply removed_servers|]. split; [|split; [|done]].
  - by apply removed_nodes.
  - intros tier' Hne. by rewrite ring_at_without decide_False.
Qed.

Lemma address_handler_run rt serialized l s :
  let request := parse_KeyAddressRequest serialized in
  bench_cache_routing cfg = false → Forall (resolvable s) (ka_keys request) →
  foldl (λ n tr, n + ring_size tr.2) 0 (global_hash_rings s) ≠ 0 →
  ka_keys request ≠ [] → located_addresses s (ka_keys request) = Ret l →
  ∃ s', address_handler cfg rand_r rt serialized s = (Ret tt, s') ∧
    pushed s' = pushed s ++ [(ka_response_address request, Packed (serialize_KeyAddressResponse
                  (mkKeyAddressResponse l NO_ERROR (ka_request_id request))))] ∧
    pending_requests s' = pending_requests s ∧ ∀ key, locate s' key = locate s key.
Proof.
  intros request Hbench Hr Hsize Hne Hl. rewrite /address_handler Hbench.
  erewrite bind_ret by reflexivity. rewrite (proj2 (Z.eqb_neq _ _) Hsize) -/request.
  destruct (address_keys_answers rt request (ka_keys request) l [] s Hr Hl) as (s1 & H1 & Ha1).
  rewrite (bind_ret _ _ _ _ _ H1) app_nil_l. destruct l as [|a l].
  { exfalso. destruct (ka_keys request) as [|key keys]; [done|]. revert Hl. clear.
    rewrite /located_addresses /=. destruct (key_addresses s key); [|done..]. by destruct (omap_each _ _). }
  eexists. split; [reflexivity|]. cbn. rewrite (alike_pushed _ _ Ha1) (alike_pending _ _ Ha1).
  split; [done|]. split; [done|]. intros key. rewrite -(locate_alike _ _ key Ha1). done.
Qed.

(** A membership lists the members of every ring. *)
Definition lists_rings (ms : list TierMembership) (rings : list (Z * HashRing)) : Prop :=
  ∃ rings', rings' ≡ₚ rings ∧
    Forall2 (λ t tr, tier_id t = tr.1 ∧
      servers t ≡ₚ (λ st, mkServer (st_public_ip st) (st_private_ip st)) <$> unique_servers tr.2) ms rings'.

Lemma membership_lists rings : lists_rings (membership_of rings) rings.
Proof.
  exists (iterate rings). split; [apply iterate_perm|]. rewrite /membership_of.
  induction (iterate rings) as [|tr l IH]; [constructor|]. constructor; [|exact IH].
  split; [done|]. simpl. by rewrite iterate_perm.
Qed.

(** C14: a routing thread answers a request for addresses with one message to the
    requester.  As built by CMakeLists.txt, with BENCH_CACHE_ROUTING, the message is
    the membership of all rings, whatever the keys, and nothing else changes.  Built
    without it, the message has the id of the request and is made from the rings and
    replication factors: an error and no address when no server is known, otherwise
    the addresses of the responsible threads of every key in turn, if there is a key
    and the factors of each are known; the rings and factors it answers from stay. *)
Theorem address_handler_correct rt serialized s :
  let request := parse_KeyAddressRequest serialized in
  let answer error l := Packed (serialize_KeyAddressResponse
    (mkKeyAddressResponse l error (ka_request_id request))) in
  let num_servers := foldl (λ n tr, n + ring_size tr.2) 0 (global_hash_rings s) in
  (bench_cache_routing cfg = true →
   ∃ ms, lists_rings ms (global_hash_rings s) ∧
     address_handler cfg rand_r rt serialized s =
       (Ret tt, pushes [(ka_response_address request, Packed (serialize_ClusterMembership ms))] s)) ∧
  (bench_cache_routing cfg = false → num_servers = 0 →
   address_handler cfg rand_r rt serialized s =
     (Ret tt, pushes [(ka_response_address request,
                       answer NO_SERVERS ((λ key, (key, [])) <$> ka_keys request))] s)) ∧
  (∀ l, bench_cache_routing cfg = false → num_servers ≠ 0 → Forall (resolvable s) (ka_keys request) →
   ka_keys request ≠ [] → located_addresses s (ka_keys request) = Ret l →
   ∃ s', address_handler cfg rand_r rt serialized s = (Ret tt, s') ∧
     pushed s' = pushed s ++ [(ka_response_address request, answer NO_ERROR l)] ∧
     pending_requests s' = pending_requests s ∧ ∀ key, locate s' key = locate s key).
Proof.
  intros request answer num_servers. split; [|split].
  - intros Hb. exists (membership_of (global_hash_rings s)). split; [apply membership_lists|].
    by rewrite /address_handler Hb.
  - intros Hb Hn. rewrite /address_handler Hb. erewrite bind_ret by reflexivity.
    by rewrite -/num_servers Hn.
  - intros l Hb Hn Hr Hne Hl. by apply address_handler_run.
Qed.

(** The answer to a pending request. *)
Definition pending_answer (key : string) (ts : list ServerThread) (req : string * string)
  : string * packet wire :=
  (req.1, Packed (serialize_KeyAddressResponse
     (mkKeyAddressResponse [(key, addresses_of ts)] NO_ERROR req.2))).

Lemma answer_pending_run rt key requests ts s :
  pending_requests s !! key = Some requests → resolvable s key →
  first_found (located s key) kAllTiers [] = Ret ts →
  ∃ s', answer_pending cfg rand_r rt key s = (Ret tt, s') ∧
    pushed s' = pushed s ++ (pending_answer key ts <$> requests) ∧
    pending_requests s' = delete key (pending_requests s).
Proof.
  intros Hp Hr Hts. rewrite /answer_pending. erewrite bind_ret by reflexivity. rewrite Hp.
  destruct (first_tier_answers (rt_replication_response_connect_address rt) key false
    (located s key) kAllTiers [] s) as (s1 & H1 & Ha1).
  { intros tier s' Ha. rewrite -(located_alike s s') //.
    apply get_responsible_threads_answers, (resolvable_alike s s'); done. }
  rewrite Hts in H1. rewrite (bind_ret _ _ _ _ _ H1). lazy iota.
  erewrite bind_ret; [|apply (for_each_pushes _ _ (λ req, [pending_answer key ts req])); done].
  eexists. split; [reflexivity|]. cbn. rewrite (alike_pushed _ _ Ha1) (alike_pending _ _ Ha1).
  split; [|done]. by f_equal.
Qed.

(** C24: when the replication factors of a key arrive without an error, every
    request that waited for them is answered once, in the order of arrival, from
    the new factors, and no request for the key is left waiting.  (Requests wait
    only in a build without [BENCH_CACHE_ROUTING].) *)
Theorem pending_answered rt serialized key tuple rest requests ts s :
  let m := apply_factors key (parse_replication_payload (kt_payload tuple)) (key_replication_map s) in
  kp_tuples (rc_parse_KeyResponse serialized) = tuple :: rest →
  kt_key tuple = get_metadata_key key replication → kt_error tuple = NO_ERROR →
  is_Some (m !! key) → pending_requests s !! key = Some requests →
  first_found (located (set_replication m s) key) kAllTiers [] = Ret ts →
  ∃ s', replication_response_handler cfg rand_r rt serialized s = (Ret tt, s') ∧
    pushed s' = pushed s ++ (pending_answer key ts <$> requests) ∧
    pending_requests s' !! key = None.
Proof.
  intros m Htuples Hkey Herr Hm Hp Hts. rewrite /replication_response_handler Htuples.
  erewrite bind_ret by reflexivity. cbv zeta. rewrite Hkey Herr Z.eqb_refl.
  rewrite /get_key_from_metadata /get_metadata_key key_of_type_of //.
  erewrite bind_ret by reflexivity.
  destruct (answer_pending_run rt key requests ts (set_replication m s)) as (s' & H1 & H2 & H3);
    [done|by left|done|].
  exists s'. split; [exact H1|]. split; [exact H2|]. rewrite H3 /=. by apply lookup_delete_eq.
Qed.

End Routing.

(** ** Instances *)

(** Messages as they are. *)
Inductive sample_wire : Type :=
| WAddressRequest (m : KeyAddressRequest)
| WAddressResponse (m : KeyAddressResponse)
| WMembership (m : list TierMembership)
| WJoin (m : NodeJoinRequest)
| WRequest (m : KeyRequest ReplicationFactor)
| WResponse (m : KeyResponse ReplicationFactor)
| WFactors (m : list ReplicationFactor).

Definition sample_codec : RoutingCodec sample_wire := {|
  rc_payload := ReplicationFactor;
  rc_no_payload := mkReplicationFactor EmptyString [] [];
  parse_KeyAddressRequest w :=
    match w with WAddressRequest m => m | _ => mkKeyAddressRequest EmptyString [] EmptyString end;
  serialize_KeyAddressResponse := WAddressResponse;
  serialize_ClusterMembership := WMembership;
  serialize_NodeJoinRequest := WJoin;
  rc_serialize_KeyRequest := WRequest;
  rc_parse_KeyResponse w := match w with WResponse m => m | _ => mkKeyResponse [] EmptyString end;
  parse_replication_payload p := p;
  parse_ReplicationFactorUpdate w := match w with WFactors m => m | _ => [] end
|}.

Definition sample_std_hash : StdHash := {| std_hash s := Z.of_nat (String.length s) |}.

(** One tier of nodes with one thread each. *)
Definition sample_config (dinomo : bool) : routing_config :=
  mkRoutingConfig dinomo false (λ tier, mkTierMetadata tier 1 1 0) 1 2.

Definition sample_node : ServerThread := virtual_thread "1.1.1.1" "10.0.0.1" 0 0.
Definition sample_routing {wire} (waiting : list (string * string)) : routing_state wire :=
  let ring := mkHashRing [(18, sample_node)] [sample_node] {["10.0.0.1"%string := 0]} in
  mkRoutingState [(MEMORY, ring)] [(MEMORY, mkHashRing [(3, sample_node)] [sample_node] ∅)] ∅
    (match waiting with [] => ∅ | _ => {["k"%string := waiting]} end) 0 [].

#[local] Existing Instances sample_codec sample_std_hash insertion_order.

Lemma single_wf (H : Hasher) h t c :
  h = hash_thread H t → st_virtual_num t = Some 0 → ring_wf H (mkHashRing [(h, t)] [t] c).
Proof.
  intros -> Hv. split; [by repeat constructor|]. split; [apply NoDup_singleton|].
  apply Forall_singleton. split; [done|]. split; [by apply list_elem_of_singleton|by exists 0].
Qed.

Lemma sample_routing_ok {wire} waiting : routing_ok (sample_routing (wire := wire) waiting).
Proof.
  split; apply Forall_singleton; [split|]; [apply single_wf|by apply Forall_singleton|apply single_wf];
    vm_compute; reflexivity.
Qed.

Lemma membership_join_witness :
  ∃ s' ps, membership_handler (wire := sample_wire) (sample_config true)
             (join_message "MEMORY" "1.1.1.2" "10.0.0.2" "0") 0 "10.0.1.1" (sample_routing []) = (Ret tt, s') ∧
    unique_servers (ring_at MEMORY (global_hash_rings s')) =
      [sample_node; virtual_thread "1.1.1.2" "10.0.0.2" 0 0] ∧
    pushed s' = ps ∧ length ps = 2%nat.
Proof.
  destruct (membership_join_correct (sample_config true) "MEMORY" MEMORY "1.1.1.2" "10.0.0.2" "0" 0 0
    "10.0.1.1" (sample_routing [])) as (s' & ps & H1 & H2 & _ & _ & H3 & H4); try reflexivity.
  { by repeat constructor. }
  exists s', ps. split; [exact H1|]. split; [exact H2|]. split; [exact H3|].
  by rewrite (Permutation_length H4).
Defined.

Lemma membership_depart_witness :
  ∃ s', membership_handler (wire := sample_wire) (sample_config true)
          (depart_message "MEMORY" "1.1.1.1" "10.0.0.1") 1 "10.0.1.1" (sample_routing []) = (Ret tt, s') ∧
    unique_servers (ring_at MEMORY (global_hash_rings s')) = [] ∧ pushed s' = [].
Proof.
  destruct (membership_depart_correct (sample_config true) "MEMORY" MEMORY "1.1.1.1" "10.0.0.1" 1
    "10.0.1.1" (sample_routing [])) as (s' & H1 & H2 & _ & _ & H3); try reflexivity.
  { apply sample_routing_ok. }
  { by repeat constructor. }
  exists s'. split; [exact H1|]. by split.
Defined.

Definition sample_request : sample_wire :=
  WAddressRequest (mkKeyAddressRequest "tcp://9.9.9.9:6760" ["k"%string] "r0").

Lemma address_handler_witness :
  (∃ ms, address_handler (mkRoutingConfig true true (λ tier, mkTierMetadata tier 1 1 0) 1 2) (λ z, (z, z))
     (mkRoutingThread "10.0.1.1" 0) sample_request (sample_routing []) =
     (Ret tt, pushes [("tcp://9.9.9.9:6760"%string, Packed (WMembership ms))] (sample_routing []))) ∧
  ∃ s', address_handler (sample_config true) (λ z, (z, z)) (mkRoutingThread "10.0.1.1" 0)
          sample_request (sample_routing []) = (Ret tt, s') ∧
    pushed s' = [("tcp://9.9.9.9:6760"%string, Packed (WAddressResponse (mkKeyAddressResponse
      [("k"%string, ["tcp://1.1.1.1:6400"%string])] NO_ERROR "r0")))].
Proof.
  split.
  - destruct (proj1 (address_handler_correct (mkRoutingConfig true true (λ tier, mkTierMetadata tier 1 1 0) 1 2)
      (λ z, (z, z)) (mkRoutingThread "10.0.1.1" 0) sample_request (sample_routing [])) eq_refl)
      as (ms & _ & H). by exists ms.
  - destruct (proj2 (proj2 (address_handler_correct (sample_config true) (λ z, (z, z))
      (mkRoutingThread "10.0.1.1" 0) sample_request (sample_routing [])))
      [("k"%string, ["tcp://1.1.1.1:6400"%string])]) as (s' & H1 & H2 & _).
    + reflexivity.
    + discriminate.
    + apply Forall_singleton. by right.
    + discriminate.
    + vm_compute. reflexivity.
    + by exists s'.
Defined.

Definition sample_factors : KeyTuple ReplicationFactor :=
  mkKeyTuple (get_metadata_key "k" replication) 1 NO_ERROR
    (mkReplicationFactor "k" [(MEMORY, 1)] [(MEMORY, 1)]) 0 false [].

Lemma pending_answered_witness :
  ∃ s', replication_response_handler (sample_config false) (λ z, (z, z)) (mkRoutingThread "10.0.1.1" 0)
          (WResponse (mkKeyResponse [sample_factors] EmptyString))
          (sample_routing [("a", "r0"); ("b", "r1")]%string) = (Ret tt, s') ∧
    length (pushed s') = 2%nat ∧ pending_requests s' !! "k"%string = None.
Proof.
  destruct (pending_answered (RC := sample_codec) (sample_config false) (λ z, (z, z)) (mkRoutingThread "10.0.1.1" 0)
    (WResponse (mkKeyResponse [sample_factors] EmptyString)) "k" sample_factors []
    [("a", "r0"); ("b", "r1")]%string [server_thread "1.1.1.1" "10.0.0.1" 0]
    (sample_routing [("a", "r0"); ("b", "r1")]%string)) as (s' & H1 & H2 & H3); try reflexivity.
  { eexists. vm_compute. reflexivity. }
  exists s'. split; [exact H1|]. split; [|exact H3]. by rewrite H2.
Defined.
