(* ===== verification/RoutingPeers.v ===== *)
(** * The routing server and its Python peers

    The management server (src/cluster/dinomo/management) finds departed servers
    and tells the routing servers; the client (src/client/python/anna) asks a
    routing server where a key is.  Both sides are modelled from their own sources;
    here they meet. *)

From S2P Require Import Prelude Objects OrderedSet Lattices Messages Transport Client ClientProps.
From S2P Require Import Yaml Kube Cluster Management ManagementProps Cpp Threads Metadata HashRing.
From S2P Require Import HashRingProps Routing RoutingProps.

#[local] Open Scope Z_scope.

(** ** Addresses *)

Lemma connect_address ip tid port :
  0 ≤ tid + port < 2 ^ 32 → at_port (tcp_base ip) tid port = TCP_BASE ip (tid + port).
Proof.
  intros Hp. rewrite /at_port /tcp_base /TCP_BASE /to_string u32_small //.
  by rewrite !str_app_assoc.
Qed.

(** Also: the addresses that the management server computes are those at which the
    routing, storage and monitoring servers listen, for every thread number for
    which the port does not exceed 32 bits. *)
Theorem management_addresses_agree ip public_ip tid :
  0 ≤ tid < 2 ^ 31 →
  get_routing_seed_address ip tid = rt_seed_connect_address (mkRoutingThread ip tid) ∧
  get_routing_depart_address ip tid = rt_notify_connect_address (mkRoutingThread ip tid) ∧
  get_storage_depart_address ip tid = node_depart_connect_address (server_thread public_ip ip tid) ∧
  get_storage_failover_address ip tid = failover_connect_address (server_thread public_ip ip tid) ∧
  get_monitoring_depart_address ip = mt_notify_connect_address ip.
Proof.
  intros Ht. assert (∀ port, 0 ≤ port < 10000 → TCP_BASE ip (tid + port) = at_port (tcp_base ip) tid port)
    as Ha by (intros port Hp; symmetry; apply connect_address; lia).
  split; [by apply (Ha (routing_port Seed))|]. split; [by apply (Ha (routing_port RoutingNotify))|].
  split; [by apply (Ha (server_port NodeDepart))|]. split; [by apply (Ha (server_port Failover))|].
  by rewrite /mt_connect_address /tcp_base !str_app_assoc.
Qed.

Lemma management_addresses_agree_witness :
  get_routing_depart_address "10.0.0.2" 3 = rt_notify_connect_address (mkRoutingThread "10.0.0.2" 3).
Proof. by apply (management_addresses_agree "10.0.0.2" "1.1.1.2" 3). Defined.

(** ** Departure notices at a routing thread *)

(** The messages that arrive on the notification socket. *)
Definition inbox (rt : RoutingThread) (es : list effect) : list string :=
  omap (λ e, match e with
             | ESend a m => if decide (a = rt_notify_connect_address rt) then Some m else None
             | _ => None
             end) es.

Lemma inbox_app rt es es' : inbox rt (es ++ es') = inbox rt es ++ inbox rt es'.
Proof. apply omap_app. Qed.

Lemma inbox_request rt address m es : inbox rt (ERequest address m :: es) = inbox rt es.
Proof. done. Qed.

Lemma inbox_bind {A} rt (l : list A) (f : A → list effect) :
  inbox rt (l ≫= f) = l ≫= λ x, inbox rt (f x).
Proof. induction l as [|x l IH]; [done|]. by rewrite !bind_cons inbox_app IH. Qed.

Lemma TCP_BASE_inj ip ip' p p' : TCP_BASE ip p = TCP_BASE ip' p' → ip = ip' ∧ p = p'.
Proof.
  rewrite /TCP_BASE. intros E. apply (inj (String.append "tcp://")) in E.
  apply last_colon in E as [-> E]; [|apply str_has_py_str; done..].
  split; [done|]. by apply (inj pretty).
Qed.

Lemma bind_nil {A B} (l : list A) (f : A → list B) : (∀ x, x ∈ l → f x = []) → l ≫= f = [].
Proof.
  induction l as [|x l IH]; intros Hf; [done|]. rewrite bind_cons Hf; [|left].
  apply IH. intros y Hy. apply Hf. by right.
Qed.

Lemma bind_one {A B} (l : list A) (f : A → list B) x :
  NoDup l → x ∈ l → (∀ y, y ∈ l → y ≠ x → f y = []) → l ≫= f = f x.
Proof.
  intros Hnd Hin Hf. induction Hnd as [|y l Hy Hnd IH]; [by apply elem_of_nil in Hin|].
  rewrite bind_cons. apply elem_of_cons in Hin as [->|Hin].
  - rewrite bind_nil ?app_nil_r //. intros z Hz. apply Hf; [by right|]. by intros ->.
  - rewrite (Hf y); [|left|intros ->; done]. apply IH; [done|]. intros z Hz. apply Hf. by right.
Qed.

Lemma threads_elem n t : t ∈ threads n ↔ 0 ≤ t < n.
Proof.
  rewrite /threads list_elem_of_fmap. split.
  - intros (k & -> & Hk%elem_of_seq). lia.
  - intros Ht. exists (Z.to_nat t). rewrite elem_of_seq. lia.
Qed.
Lemma threads_NoDup n : NoDup (threads n).
Proof. apply NoDup_fmap_2; [apply _|apply NoDup_seq]. Qed.

Definition depart_notice (d : string * Server) : string :=
  depart_message d.1 (public_ip d.2) (private_ip d.2).

(** Of the notices about one departure a routing thread gets one. *)
Lemma inbox_notices v nm nr d rt :
  NoDup (view_routing v) → rt_ip rt ∈ view_routing v → 0 ≤ rt_tid rt < nr → nr ≤ 100 → nm ≤ 100 →
  inbox rt (notices v nm nr d) = [depart_notice d].
Proof.
  intros Hnd Hip Ht Hnr Hnm. destruct rt as [ip tid]. simpl in Hip, Ht.
  assert (rt_notify_connect_address (mkRoutingThread ip tid) = TCP_BASE ip (tid + 7100)) as Ha
    by (apply connect_address; lia).
  rewrite /notices !inbox_app !inbox_bind. rewrite (bind_nil (storage v)); last first.
  { intros ip' _. rewrite inbox_bind. apply bind_nil. intros t Hin%threads_elem.
    rewrite /inbox /= Ha decide_False //. intros [_ E]%TCP_BASE_inj.
    unfold KVS_NODE_DEPART_PORT in E. lia. }
  rewrite (bind_nil (view_monitoring v)); last first.
  { intros ip' _. rewrite /inbox /= Ha decide_False //. intros [_ E]%TCP_BASE_inj.
    unfold MONITORING_NOTIFY_PORT in E. lia. }
  rewrite app_nil_r app_nil_l (bind_one _ _ ip) //; last first.
  { intros ip' _ Hne. rewrite inbox_bind. apply bind_nil. intros t _.
    rewrite /inbox /= Ha decide_False //. by intros [E _]%TCP_BASE_inj. }
  rewrite inbox_bind (bind_one _ _ tid); [|apply threads_NoDup|by apply threads_elem|].
  - rewrite /inbox /= Ha decide_True //.
  - intros t _ Hne. rewrite /inbox /= Ha decide_False //. intros [_ E]%TCP_BASE_inj.
    unfold ROUTING_NOTIFY_PORT in E. lia.
Qed.

(** ** A check of the hash ring, at a routing thread *)

Definition server_of (t : ServerThread) : Server := mkServer (st_public_ip t) (st_private_ip t).

(** A departure that a routing server understands. *)
Definition departure_ok (d : string * Server) : Prop :=
  (d.1 = "MEMORY" ∨ d.1 = "STORAGE")%string ∧ field_ok (public_ip d.2) ∧ field_ok (private_ip d.2).

Section Repair.
Context {wire : Type} `{RC : RoutingCodec wire, SH : StdHash, U : Unordered} (cfg : routing_config).
Implicit Types (s : routing_state wire) (ds : list (string * Server)).

(** The name of a tier in a notice, and the pods that serve it. *)
Definition tier_name (tier : Z) : string := if tier =? MEMORY then "MEMORY" else "STORAGE".
Definition tier_pods (v : ring_view) (tier : Z) : list string :=
  if tier =? MEMORY then view_memory v else view_ebs v.

(** The servers of a tier among the departed. *)
Definition gone (tier : Z) ds : list string :=
  (λ d, private_ip d.2) <$> filter (λ d, d.1 = tier_name tier) ds.

Lemma gone_app tier ds ds' : gone tier (ds ++ ds') = gone tier ds ++ gone tier ds'.
Proof. by rewrite /gone filter_app fmap_app. Qed.

Lemma deliver_notices rt ds s :
  routing_ok s → Forall departure_ok ds →
  ∃ s', for_each (depart_notice <$> ds) (λ m, membership_handler cfg m (rt_tid rt) (rt_ip rt)) s =
          (Ret tt, s') ∧
    routing_ok s' ∧
    ∀ tier, tier = MEMORY ∨ tier = STORAGE →
      unique_servers (ring_at tier (global_hash_rings s')) =
        filter (λ u, st_private_ip u ∉ gone tier ds)
          (unique_servers (ring_at tier (global_hash_rings s))).
Proof.
  revert s. induction ds as [|d ds IH]; intros s Hok Hds.
  { exists s. split; [done|]. split; [done|]. intros tier' _. symmetry.
    apply filter_all, Forall_true. intros u. apply not_elem_of_nil. }
  apply Forall_cons in Hds as [[Hd [Hp Hq]] Hds].
  assert (∃ tier, Tier_Parse d.1 = Ret tier ∧ field_ok d.1 ∧
    ∀ tier', tier' = MEMORY ∨ tier' = STORAGE → (tier = tier' ↔ d.1 = tier_name tier'))
    as (tier & Ht & Hf & Htier).
  { destruct Hd as [-> | ->]; eexists; (split; [reflexivity|]); (split; [done|]);
      by intros tier' [-> | ->]. }
  pose proof (depart_run cfg d.1 tier (public_ip d.2) (private_ip d.2) (rt_tid rt) (rt_ip rt) s
    Hf Hp Hq Ht) as Hrun. cbv zeta in Hrun.
  pose proof (ok_membership_handler cfg (depart_notice d) (rt_tid rt) (rt_ip rt) s Hok) as Hok1.
  rewrite fmap_cons. cbn [for_each]. rewrite (bind_ret _ _ _ _ _ Hrun).
  rewrite Hrun /= in Hok1. set (s1 := pushes _ _) in Hok1 |- *.
  destruct (IH s1 Hok1 Hds) as (s' & H1 & H2 & H3). exists s'. split; [done|]. split; [done|].
  intros tier' Htier'. rewrite (H3 tier' Htier') /s1 /= ring_at_without /gone filter_cons.
  case_decide as E.
  - rewrite decide_True; [|by apply Htier]. rewrite E removed_servers; last first.
    { apply rings_wf_at; [apply empty_global_wf|apply Hok]. }
    rewrite list_filter_filter. apply list_filter_iff. intros u. rewrite fmap_cons not_elem_of_cons. tauto.
  - rewrite decide_False //. intros En. apply E. symmetry. by apply Htier.
Qed.

(** The tiers a routing server reports when it has heard of memory servers and
    possibly of storage servers. *)
Definition known_tiers (rings : list (Z * HashRing)) : Prop :=
  (∃ m, rings = [(MEMORY, m)]) ∨ ∃ m e, rings ≡ₚ [(MEMORY, m); (STORAGE, e)].

Definition tier_of (tr : Z * HashRing) : TierMembership :=
  mkTier tr.1 (server_of <$> iterate (unique_servers tr.2)).

Lemma pick_members rings :
  known_tiers rings → ∃ m ebs, (MEMORY, m) ∈ rings ∧ ring_at MEMORY rings = m ∧
    pick_tiers (membership_of rings) = Some (tier_of (MEMORY, m), ebs) ∧
    (ebs = None ∧ ring_at STORAGE rings = empty_ring ∨
     ∃ e, ring_at STORAGE rings = e ∧ (STORAGE, e) ∈ rings ∧ ebs = Some (tier_of (STORAGE, e))).
Proof.
  intros [(m & ->)|(m & e & Hp)].
  - exists m, None. split; [by left|]. split; [done|]. split; [|by left].
    rewrite /membership_of (proj1 (Permutation_singleton_r _ _) (iterate_perm [(MEMORY, m)])). done.
  - exists m, (Some (tier_of (STORAGE, e))).
    assert ((MEMORY, m) ∈ rings ∧ (STORAGE, e) ∈ rings) as [Hm He] by (rewrite !Hp; set_solver).
    split; [done|]. assert (NoDup rings.*1) as Hnd by (rewrite Hp; by repeat constructor; set_solver).
    split; [by rewrite /ring_at (elem_dget _ _ _ Hnd Hm)|].
    split; [|right; exists e; by rewrite /ring_at (elem_dget _ _ _ Hnd He)].
    assert (iterate rings ≡ₚ [(MEMORY, m); (STORAGE, e)]) as Hi by (by rewrite iterate_perm).
    symmetry in Hi. rewrite /membership_of. by apply Permutation_length_2_inv in Hi as [-> | ->].
Qed.

Lemma inbox_failovers v ds es rt : Forall2 (failover_request v) ds es → inbox rt es = [].
Proof.
  induction 1 as [|d e ds es (ip & h & _ & _ & ->) _ IH]; [done|].
  by rewrite inbox_request.
Qed.

(** The notices of a whole check that reach a routing thread. *)
Lemma inbox_check v nm nr rt address failovers :
  NoDup (view_routing v) → rt_ip rt ∈ view_routing v → 0 ≤ rt_tid rt < nr → nr ≤ 100 → nm ≤ 100 →
  Forall2 (failover_request v) (departed v) failovers →
  inbox rt (ERequest address EmptyString :: failovers ++ (departed v ≫= notices v nm nr)) =
  depart_notice <$> departed v.
Proof.
  intros Hnd Hip Ht Hnr Hnm Hf. rewrite inbox_request inbox_app (inbox_failovers _ _ _ _ Hf).
  rewrite app_nil_l inbox_bind. clear Hf. induction (departed v) as [|d ds IH]; [done|].
  rewrite bind_cons fmap_cons IH. by rewrite inbox_notices.
Qed.

Definition servers_ok (rings : list (Z * HashRing)) : Prop :=
  Forall (λ u, field_ok (st_public_ip u) ∧ field_ok (st_private_ip u)) (all_servers rings).

Lemma departed_ok v rings :
  servers_ok rings → known_tiers rings → view_tiers v = membership_of rings →
  Forall departure_ok (departed v).
Proof.
  intros Hok Hk Hv. rewrite /departed Hv.
  destruct (pick_members rings Hk) as (m & ebs & Hm & _ & -> & He).
  assert (∀ tag tier r ips, (tag = "MEMORY" ∨ tag = "STORAGE")%string → (tier, r) ∈ rings →
    Forall departure_ok (departed_of tag (tier_of (tier, r)) ips)) as Hof.
  { intros tag tier r ips Htag Hin. apply Forall_forall. intros d.
    rewrite /departed_of list_elem_of_fmap. intros (node & -> & [_ Hnode]%list_elem_of_filter).
    apply list_elem_of_fmap in Hnode as (u & -> & Hu). rewrite iterate_perm in Hu.
    rewrite /servers_ok Forall_forall in Hok. destruct (Hok u) as [Hp Hq]; [|done].
    apply list_elem_of_bind. by exists (tier, r). }
  destruct He as [[-> _] | (e & _ & Hin & ->)].
  - apply Hof; [by left|done].
  - apply Forall_app. split; apply Hof; [by left|done|by right|done].
Qed.

Lemma gone_departed_of tier name ring ips :
  gone tier (departed_of name (tier_of ring) ips) ≡ₚ
  if decide (name = tier_name tier)
  then filter (λ ip, ip ∉ ips) (st_private_ip <$> unique_servers ring.2) else [].
Proof.
  rewrite /gone /departed_of. case_decide as E.
  - rewrite filter_all; [|apply Forall_fmap, Forall_true; done]. rewrite -list_fmap_compose /=.
    rewrite (iterate_perm (unique_servers ring.2)). generalize (unique_servers ring.2). intros l.
    apply reflexive_eq. induction l as [|u l IH]; [done|]. rewrite !fmap_cons !filter_cons /=.
    case_decide; [|done]. by rewrite !fmap_cons IH.
  - rewrite filter_none //. apply Forall_fmap, Forall_true. done.
Qed.

Lemma gone_departed v rings tier :
  known_tiers rings → view_tiers v = membership_of rings → tier = MEMORY ∨ tier = STORAGE →
  gone tier (departed v) ≡ₚ
  filter (λ ip, ip ∉ tier_pods v tier) (st_private_ip <$> unique_servers (ring_at tier rings)).
Proof.
  intros Hk Hv Htier. rewrite /departed Hv.
  destruct (pick_members rings Hk) as (m & ebs & _ & <- & -> & He).
  destruct He as [[-> Hs] | (e & <- & _ & ->)].
  - rewrite gone_departed_of. destruct Htier as [-> | ->]; [done|]. by rewrite Hs.
  - rewrite gone_app !gone_departed_of. destruct Htier as [-> | ->]; [by rewrite app_nil_r|].
    done.
Qed.

End Repair.

(** C7: a check of the hash ring repairs the rings of every routing thread whose
    members the management server was told, provided Kubernetes still lists the
    nodes of the departed servers and a storage server is left to take over their
    logs: the check ends, the thread gets one notice per departed server and
    handles them all, and afterwards the ring of the memory tier, and likewise that
    of the storage tier, has exactly the members with a running pod, so that no
    departed server is responsible for any key in either. *)
Theorem ring_repaired {wire : Type} `{RC : RoutingCodec wire, SH : StdHash, U : Unordered, K : Kube, P : Peers}
    cfg fuel v nm nr rt (s : routing_state wire) s0 :
  routing_ok s → known_tiers (global_hash_rings s) → servers_ok (global_hash_rings s) →
  sees v → view_tiers v = membership_of (global_hash_rings s) → (0 < fuel)%nat → storage v ≠ [] →
  Forall (λ d, ∃ h, hostname v d = Ret (Some h)) (departed v) →
  NoDup (view_routing v) → rt_ip rt ∈ view_routing v → 0 ≤ rt_tid rt < nr → nr ≤ 100 → nm ≤ 100 →
  ∃ n es s', check_hash_ring fuel (YInt nm) (YInt nr) s0 = (Ret tt, emitted n es s0) ∧
    for_each (inbox rt es) (λ m, membership_handler cfg m (rt_tid rt) (rt_ip rt)) s = (Ret tt, s') ∧
    length (inbox rt es) = length (departed v) ∧
    ∀ tier, tier = MEMORY ∨ tier = STORAGE →
      unique_servers (ring_at tier (global_hash_rings s')) =
        filter (λ u, st_private_ip u ∈ tier_pods v tier)
          (unique_servers (ring_at tier (global_hash_rings s))) ∧
      ∀ key rep ts, responsible_global GlobalHasher key rep (ring_at tier (global_hash_rings s')) = Ret ts →
        Forall (λ t, st_private_ip t ∈ tier_pods v tier) ts.
Proof.
  intros Hok Hk Hsv Hv Ht Hf Hst Hh Hnd Hip Htid Hnr Hnm.
  assert (view_routing v ≠ []) as Hr by (intros E; rewrite E in Hip; by apply elem_of_nil in Hip).
  assert (pick_tiers (view_tiers v) ≠ None) as Hp.
  { rewrite Ht. destruct (pick_members _ Hk) as (m & ebs & _ & _ & -> & _). done. }
  destruct (check_hash_ring_run fuel v nm nr s0 Hv Hf Hr Hp Hst Hh) as (n & ip & fo & _ & Hfo & Hrun).
  destruct (deliver_notices cfg rt (departed v) s Hok (departed_ok v _ Hsv Hk Ht)) as (s' & H1 & H2 & H3).
  do 2 eexists. exists s'. split; [exact Hrun|]. rewrite inbox_check //.
  split; [exact H1|]. split; [apply length_fmap|]. intros tier Htier.
  assert (unique_servers (ring_at tier (global_hash_rings s')) = filter (λ u, st_private_ip u ∈ tier_pods v tier)
    (unique_servers (ring_at tier (global_hash_rings s)))) as Hu.
  { rewrite (H3 tier Htier). apply filter_iff_elem. intros u Hu. rewrite (gone_departed v _ tier Hk Ht Htier).
    rewrite list_elem_of_filter. split; [|tauto]. intros Hn.
    destruct (decide (st_private_ip u ∈ tier_pods v tier)); [done|].
    destruct Hn. split; [done|]. by apply (list_elem_of_fmap_2 st_private_ip). }
  split; [exact Hu|]. intros key rep ts Hts. apply Forall_forall. intros t Hin.
  destruct (responsible_global_nodes _ _ _ _ _ _ Hts Hin) as (hn & Hhn & ->).
  assert (global_wf (ring_at tier (global_hash_rings s'))) as [Hwf _]
    by (apply rings_wf_at; [apply empty_global_wf|apply H2]).
  destruct (node_member _ hn Hwf Hhn) as (u & Hu' & ->).
  rewrite Hu in Hu'. by apply list_elem_of_filter in Hu' as [].
Qed.

(** The view of the example cluster, held by a routing thread. *)
Definition sample_members : routing_state sample_wire :=
  let H := GlobalHasher (H := sample_std_hash) in
  mkRoutingState
    [(MEMORY, (ring_insert H "1.1.1.4" "10.0.0.4" 0 0 (ring_insert H "1.1.1.3" "10.0.0.3" 0 0 empty_ring).2).2)]
    [] ∅ ∅ 0 [].

#[local] Existing Instances sample_codec sample_std_hash insertion_order.

Lemma ring_repaired_witness :
  ∃ n es s', check_hash_ring (K := view_kube example_view) (P := view_peers example_view) 1 (YInt 1) (YInt 1)
      (mkKstate 0 [] []) = (Ret tt, emitted n es (mkKstate 0 [] [])) ∧
    for_each (inbox (mkRoutingThread "10.0.0.2" 0) es)
      (λ m, membership_handler (sample_config true) m 0 "10.0.0.2") sample_members = (Ret tt, s') ∧
    unique_servers (ring_at MEMORY (global_hash_rings s')) = [virtual_thread "1.1.1.3" "10.0.0.3" 0 0].
Proof.
  destruct (ring_repaired (K := view_kube example_view) (P := view_peers example_view)
    (sample_config true) 1 example_view 1 1 (mkRoutingThread "10.0.0.2" 0) sample_members (mkKstate 0 [] []))
    as (n & es & s' & H1 & H2 & _ & H3).
  - split; [|constructor]. apply Forall_singleton. do 2 apply insert_global_wf. apply empty_global_wf.
  - left. by eexists.
  - by repeat constructor.
  - apply view_sees.
  - reflexivity.
  - lia.
  - done.
  - apply Forall_singleton. by exists "node-m4"%string.
  - apply NoDup_singleton.
  - by left.
  - done.
  - done.
  - done.
  - exists n, es, s'. split; [exact H1|]. split; [exact H2|]. exact (proj1 (H3 MEMORY (or_introl eq_refl))).
Defined.

(** ** Finding a key *)

Section Find.
Context {C : Codec} {RC : RoutingCodec wire} `{SH : StdHash, U : Unordered}.
Context (cfg : routing_config) (rand_r : Z → Z * Z).

(** Both programs use the same message formats. *)
Class SameFormats : Prop := {
  request_arrives m : parse_KeyAddressRequest (serialize_KeyAddressRequest m) = m;
  response_arrives m : parse_KeyAddressResponse (serialize_KeyAddressResponse m) = Ret m
}.

(** The threads of a node that serve a key. *)
Definition local_tids (s : routing_state wire) (key : string) : list Z :=
  turn st_tid Z.eqb (clockwise (hash_key LocalHasher key) (nodes (ring_at MEMORY (local_hash_rings s)))).

Lemma local_tids_NoDup s key : NoDup (local_tids s key).
Proof.
  rewrite -(list_fmap_id (local_tids s key)).
  apply (distinct_NoDup Z.eqb id). intros a b. apply Z.eqb_eq.
Qed.

(** The nodes responsible for a key, and on each of them the threads. *)
Lemma located_threads s key :
  let n := global_of cfg s key MEMORY in
  let m := local_of cfg s key MEMORY in
  let ring := ring_at MEMORY (global_hash_rings s) in
  routing_ok s → 0 < n ≤ Z.of_nat (length (replicas GlobalHasher key ring)) →
  0 < m ≤ Z.of_nat (length (local_tids s key)) →
  located cfg s key MEMORY = Ret (take (Z.to_nat n) (replicas GlobalHasher key ring) ≫= λ t,
    server_thread (st_public_ip t) (st_private_ip t) <$> iterate (take (Z.to_nat m) (local_tids s key))).
Proof.
  intros n m ring [Hg Hl] Hn Hm.
  assert (ring_wf GlobalHasher ring) as (Hs & _)
    by (refine (proj1 (rings_wf_at global_wf _ _ _ Hg)); apply empty_global_wf).
  assert (ring_wf LocalHasher (ring_at MEMORY (local_hash_rings s))) as (Hsl & _)
    by (apply rings_wf_at; [apply empty_ring_wf|done]).
  rewrite /located -/n -/m -/ring. rewrite responsible_global_run //; [|intros E|lia]; last first.
  { rewrite /replicas E /= in Hn. lia. }
  cbn [mbind outcome_bind].
  assert (responsible_local LocalHasher key m (ring_at MEMORY (local_hash_rings s)) =
    Ret (take (Z.to_nat m) (local_tids s key))) as Hloc.
  { apply responsible_local_run; [done| |rewrite -/(local_tids s key); lia].
    intros E. rewrite /local_tids E /= in Hm. lia. }
  generalize (take (Z.to_nat n) (replicas GlobalHasher key ring)). intros ts.
  enough (∀ acc, ofold ts acc (λ result thread,
    ts ← thread_list key m (ring_at MEMORY (local_hash_rings s)) thread; Ret (result ++ ts)) =
    Ret (acc ++ (ts ≫= λ t, server_thread (st_public_ip t) (st_private_ip t) <$>
      iterate (take (Z.to_nat m) (local_tids s key))))) as Hfold by apply (Hfold []).
  induction ts as [|t ts IH]; intros acc; [by rewrite app_nil_r|].
  assert (thread_list key m (ring_at MEMORY (local_hash_rings s)) t = Ret (server_thread (st_public_ip t)
    (st_private_ip t) <$> iterate (take (Z.to_nat m) (local_tids s key)))) as Ht by (by rewrite /thread_list Hloc).
  cbn [ofold]. rewrite Ht. refine (eq_trans (IH _) _). by rewrite bind_cons app_assoc.
Qed.

Lemma servers_counted tier rings :
  nodes (ring_at tier rings) ≠ [] → foldl (λ n tr, n + ring_size tr.2) 0 rings ≠ 0.
Proof.
  intros Hne. enough (∀ acc, 0 ≤ acc → acc + ring_size (ring_at tier rings) ≤
    foldl (λ n tr, n + ring_size tr.2) acc rings) as Hgen.
  { specialize (Hgen 0 ltac:(lia)). assert (0 < ring_size (ring_at tier rings)); [|lia].
    rewrite /ring_size. destruct (nodes (ring_at tier rings)); [done|]. simpl. lia. }
  clear Hne. rewrite /ring_at. induction rings as [|[t r] rings IH]; intros acc Hacc;
    [change (acc + 0 ≤ acc); lia|].
  cbn [dget foldl]. case_decide as E.
  - assert (∀ l a, a ≤ foldl (λ n (tr : Z * HashRing), n + ring_size tr.2) a l) as Hmono.
    { clear. induction l as [|tr l IH]; intros a; [done|]. cbn [foldl]. specialize (IH (a + ring_size tr.2)).
      assert (0 ≤ ring_size tr.2) by (rewrite /ring_size; lia). lia. }
    apply Hmono.
  - cbn [snd]. assert (0 ≤ ring_size r) by (rewrite /ring_size; lia).
    specialize (IH (acc + ring_size r) ltac:(lia)). lia.
Qed.

Lemma located_first key n m (s : routing_state wire) (reps : list ServerThread) tids :
  located cfg s key MEMORY = Ret (take (Z.to_nat n) reps ≫= λ t,
    server_thread (st_public_ip t) (st_private_ip t) <$> iterate (take (Z.to_nat m) tids)) →
  0 < n ≤ Z.of_nat (length reps) → 0 < m ≤ Z.of_nat (length tids) →
  first_found (located cfg s key) kAllTiers [] = located cfg s key MEMORY.
Proof.
  intros Hl Hn Hm. cbn [first_found kAllTiers]. rewrite Hl. cbn [mbind outcome_bind].
  destruct (_ ≫= _) as [|t ts] eqn:E; [|done]. exfalso.
  destruct reps as [|t reps]; [simpl in Hn; lia|]. destruct (Z.to_nat n) as [|n'] eqn:En; [lia|].
  cbn [take] in E. rewrite bind_cons in E. apply app_nil in E as [E _]. apply fmap_nil_inv in E.
  pose proof (iterate_perm (take (Z.to_nat m) tids)) as Hp. rewrite E in Hp.
  apply Permutation_nil in Hp. apply (f_equal length) in Hp. rewrite length_take /= in Hp. lia.
Qed.

(** Also: the request of a client and the reply of a routing thread fit together in
    a build without [BENCH_CACHE_ROUTING].  If the request that the client sends
    is handed to a routing thread, the thread answers to the address the client
    listens on, and if that answer is delivered, the client is left with the key
    request addresses of the first nodes that follow the key on the global ring,
    each with the first threads that follow it on the local ring.  Delivery is
    assumed: [client_ports_miss] shows that the ports differ. *)
Theorem client_finds_threads `{SF : !SameFormats} rt key port (w : world wire) (s : routing_state wire) :
  let n := global_of cfg s key MEMORY in
  let m := local_of cfg s key MEMORY in
  let reps := replicas GlobalHasher key (ring_at MEMORY (global_hash_rings s)) in
  let request := serialize_KeyAddressRequest (mkKeyAddressRequest
    (get_key_address_connect_addr (ut (self w))) [key] (request_id_of (self w) 0)) in
  bench_cache_routing cfg = false → enable_dinomo_kvs cfg = true → is_metadata key = Ret false →
  routing_ok s → 0 < n ≤ Z.of_nat (length reps) → 0 < m ≤ Z.of_nat (length (local_tids s key)) →
  rid_ok (self w) → socket_cache_ok (pusher_cache (self w)) →
  ∃ s' reply, address_handler cfg rand_r rt request s = (Ret tt, s') ∧
    pushed s' = pushed s ++ [(get_key_address_connect_addr (ut (self w)), Packed reply)] ∧
    (key_address_puller w = [reply] →
     ∃ w' sock, sent w' = sent w ++ [(sock, request)] ∧
       query_routing key port w = (Ret (take (Z.to_nat n) reps ≫= λ t,
         (λ tid, at_port (public_base t) tid (server_port KeyRequestSocket)) <$>
           iterate (take (Z.to_nat m) (local_tids s key))), w')).
Proof.
  intros n m reps request Hb Hd Hmeta Hok Hn Hm Hrid Hsc.
  pose proof (located_threads s key Hok Hn Hm) as Hl. fold n m reps in Hl.
  pose proof (located_first key n m s reps _ Hl Hn Hm) as Hfirst. rewrite Hl in Hfirst.
  set (ts := take (Z.to_nat n) reps ≫= _) in Hl, Hfirst.
  assert (located_addresses cfg s [key] = Ret [(key, addresses_of ts)]) as Hla.
  { rewrite /located_addresses /= /key_addresses /locate.
    destruct key as [|c key]; [done|]. rewrite Hmeta. cbn [mbind outcome_bind]. by rewrite Hfirst. }
  destruct (address_handler_run cfg rand_r rt request [(key, addresses_of ts)] s)
    as (s' & H1 & H2 & _); rewrite /request ?request_arrives //; cbn [ka_keys].
  { apply Forall_singleton. by right. }
  { apply (servers_counted MEMORY). intros E. rewrite /reps /replicas E /= in Hn. lia. }
  rewrite /request request_arrives in H2. exists s'. eexists. split; [exact H1|]. split; [exact H2|].
  intros Hq. destruct (query_routing_run w key port
    [mkKeyAddressResponse [(key, addresses_of ts)] NO_ERROR (request_id_of (self w) 0)]
    (mkKeyAddressResponse [(key, addresses_of ts)] NO_ERROR (request_id_of (self w) 0)) [])
    as (w' & sock & Hw & Hsent & _); [done..| | |].
  - by rewrite Hq /= response_arrives.
  - rewrite /answers filter_cons_True //. by left.
  - exists w', sock. split; [exact Hsent|]. rewrite Hw. do 2 f_equal.
    rewrite /routed bool_decide_false; [|by intros []]. cbn [kas_addresses].
    rewrite filter_cons_True //= app_nil_r /addresses_of /ts. clear.
    induction (take (Z.to_nat n) reps) as [|t l IH]; [done|].
    rewrite !bind_cons fmap_app IH -list_fmap_compose. done.
Qed.

End Find.

(** *** Instances *)

(** The routing server on the messages of the example client: those that client
    never sees are sent as empty responses. *)
Definition routing_model_codec : RoutingCodec message := {|
  rc_payload := pbmsg;
  rc_no_payload := LWWValue 0 EmptyString;
  parse_KeyAddressRequest m :=
    match m with MKeyAddressRequest r => r | _ => mkKeyAddressRequest EmptyString [] EmptyString end;
  serialize_KeyAddressResponse := MKeyAddressResponse;
  serialize_ClusterMembership _ := MKeyAddressResponse (mkKeyAddressResponse [] 0 EmptyString);
  serialize_NodeJoinRequest _ := MKeyAddressResponse (mkKeyAddressResponse [] 0 EmptyString);
  rc_serialize_KeyRequest := MKeyRequest;
  rc_parse_KeyResponse m := match m with MKeyResponse r => r | _ => mkKeyResponse [] EmptyString end;
  parse_replication_payload _ := mkReplicationFactor EmptyString [] [];
  parse_ReplicationFactorUpdate _ := []
|}.
#[local] Existing Instance routing_model_codec.

Lemma model_formats : SameFormats (C := model_codec) (RC := routing_model_codec).
Proof. by split. Qed.

Definition asking_world : world message :=
  mkWorld example_client [] [] []
    [] [MKeyAddressResponse (mkKeyAddressResponse [("key", ["tcp://1.1.1.1:6400"])] 0 "10.0.0.1:9999")]%string
    (λ _, 0%nat) 0.

Lemma client_finds_threads_witness :
  ∃ w', query_routing (C := model_codec) "key" 6450 asking_world = (Ret ["tcp://1.1.1.1:6400"%string], w').
Proof.
  destruct (client_finds_threads (C := model_codec) (RC := routing_model_codec) (SF := model_formats)
    (sample_config true) (λ z, (z, z)) (mkRoutingThread "10.0.1.1" 0) "key" 6450 asking_world
    (sample_routing [])) as (s' & reply & H1 & H2 & H3).
  - reflexivity.
  - reflexivity.
  - reflexivity.
  - apply sample_routing_ok.
  - vm_compute. split; [reflexivity|discriminate].
  - vm_compute. split; [reflexivity|discriminate].
  - done.
  - apply socket_cache_init_ok.
  - vm_compute in H1. injection H1 as <-. injection H2 as <-.
    destruct (H3 eq_refl) as (w' & sock & _ & Hw). exists w'. exact Hw.
Defined.

(** ** Ports *)

(** Also: no routing thread of a node with up to a hundred threads listens for address
    requests on a port to which a client sends them: the client takes ports 6450 to
    6453, the routing threads listen from 8200 on. *)
Theorem client_ports_miss `{C : Codec} host_ip elb ip local offset (w : world wire) p tid :
  p ∈ elb_ports (self (AnnaTcpClient_init host_ip elb ip local offset w)) → 0 ≤ tid < 100 →
  rt_key_address_connect_address (mkRoutingThread elb tid) ≠ TCP_BASE elb p.
Proof.
  intros Hp Ht. rewrite /rt_connect_address connect_address /routing_port /=;
    [|unfold kKeyAddressPort; lia].
  intros [_ E]%TCP_BASE_inj. unfold kKeyAddressPort in E.
  assert (6450 ≤ p ≤ 6453); [|lia]. simpl in Hp.
  destruct local; repeat (apply elem_of_cons in Hp as [->|Hp]; [lia|]); by apply elem_of_nil in Hp.
Qed.

Lemma client_ports_miss_witness :
  rt_key_address_connect_address (mkRoutingThread "10.0.1.1" 0) ≠ TCP_BASE "10.0.1.1" 6450.
Proof.
  apply (client_ports_miss (C := model_codec) "10.0.0.1" "10.0.1.1" None true 0 asking_world 6450 0);
    [by left|done].
Defined.
