(* ===== verification/CppLattices.v ===== *)
(** * Lattices of the servers

    src/common/include/lattices: the templates, with the operations that the
    servers use; the conversions of src/common/include/common.hpp to and from
    protocol buffers; the store of src/include/kvs/base_kv_store.hpp, and the
    serializers of src/include/kvs/server_utils.hpp that keep their values in
    memory.  An object is its element: [merge] changes it to the result of
    [do_merge]. *)

From S2P Require Import Prelude Objects OrderedSet Lattices Messages Cpp.
From Stdlib Require Import SpecFloat.

#[local] Open Scope Z_scope.

(** ** lattice.hpp *)

(** [Lattice<T>]: the value of the default constructor, and [do_merge]. *)
Record Lattice (T : Type) : Type := mkLattice {
  bottom : T;
  do_merge : T → T → T
}.
Arguments mkLattice {_}.
Arguments bottom {_}.
Arguments do_merge {_}.

(** ** core_lattices.hpp *)

Definition BoolLattice : Lattice bool := mkLattice false (λ element e, element || e).

(** [MaxLattice<unsigned>] *)
Definition MaxLattice : Lattice Z :=
  mkLattice 0 (λ current e, if current <? e then e else current).
Definition max_add (element n : Z) : Z := u32 (element + n).
Definition max_subtract (element n : Z) : Z := u32 (element - n).

(** The order of texts, by their characters. *)
Definition string_le (a b : string) : Prop := String.leb a b = true.
#[export] Instance string_le_dec : RelDecision string_le.
Proof. intros a b. rewrite /string_le. apply _. Defined.

Section Unordered.
Context `{U : Unordered}.

(** [SetLattice<T>] *)
Section Set_.
Context {T : Type} `{Countable T}.
Implicit Types s e : gset T.

Definition set_insert s (x : T) : gset T := {[x]} ∪ s.
Definition set_merge s e : gset T := foldl set_insert s (iterate (elements e)).
Definition SetLattice : Lattice (gset T) := mkLattice ∅ set_merge.
Definition set_size s : Z := u32 (Z.of_nat (size s)).
Definition set_intersect s e : gset T :=
  foldl (λ res that_elem,
      foldl (λ res this_elem, if decide (this_elem = that_elem) then set_insert res this_elem else res)
        res (iterate (elements s)))
    ∅ (iterate (elements e)).
Definition set_project (f : T → bool) s : gset T :=
  foldl (λ res elem, if f elem then set_insert res elem else res) ∅ (iterate (elements s)).
End Set_.

(** [OrderedSetLattice<string>]: the same operations on [std::set], which is
    visited in the order of its elements. *)
Definition ordered_elements (s : gset string) : list string := merge_sort string_le (elements s).
Definition OrderedSetLattice : Lattice (gset string) :=
  mkLattice ∅ (λ s e, foldl set_insert s (ordered_elements e)).

(** [MapLattice<K, V>] *)
Section Map_.
Context {K V : Type} `{Countable K} (L : Lattice V).
Implicit Types m : gmap K V.

Definition insert_pair m (k : K) (v : V) : gmap K V :=
  match m !! k with
  | Some w => <[k := do_merge L w v]> m
  | None => <[k := v]> m
  end.
Definition map_merge m m' : gmap K V :=
  foldl (λ m kv, insert_pair m kv.1 kv.2) m (iterate (map_to_list m')).
Definition MapLattice : Lattice (gmap K V) := mkLattice ∅ map_merge.
Definition map_size m : Z := u32 (Z.of_nat (size m)).
Definition map_contains (k : K) m : bool := bool_decide (is_Some (m !! k)).
(** [at(k)] creates the entry. *)
Definition map_at (k : K) m : V * gmap K V :=
  let v := default (bottom L) (m !! k) in (v, <[k := v]> m).
Definition map_remove (k : K) m : gmap K V := delete k m.
Definition map_key_set m : gset K :=
  foldl (λ res kv, set_insert res kv.1) ∅ (iterate (map_to_list m)).
Definition map_project (f : V → bool) m : gmap K V :=
  foldl (λ res kv, if f kv.2 then match res !! kv.1 with Some _ => res | None => <[kv.1 := kv.2]> res end
                   else res) ∅ (iterate (map_to_list m)).
End Map_.

(** ** lww_pair_lattice.hpp *)

Record TimestampValuePair : Type := mkTimestampValuePair { timestamp : Z; lww_value : string }.

(** Of two values with the same timestamp the incoming one stays. *)
Definition LWWPairLattice : Lattice TimestampValuePair :=
  mkLattice (mkTimestampValuePair 0 EmptyString)
    (λ element p, if timestamp element <=? timestamp p then p else element).
Definition lww_size (p : TimestampValuePair) : Z := u32 (Z.of_nat (String.length (lww_value p)) + 8).

(** ** priority_lattice.hpp *)

Record PriorityValuePair : Type := mkPriorityValuePair { priority : spec_float; priority_value : string }.

(** [INT_MAX] as a [double] *)
Definition INT_MAX : spec_float := binary_normalize 53 1024 2147483647 0 false.

Definition PriorityLattice : Lattice PriorityValuePair :=
  mkLattice (mkPriorityValuePair INT_MAX EmptyString)
    (λ element p, if SFltb (priority p) (priority element) then p else element).
Definition priority_size (p : PriorityValuePair) : Z :=
  u32 (8 + Z.of_nat (String.length (priority_value p))).

(** ** single_key_causal_lattice.hpp, multi_key_causal_lattice.hpp *)

Definition clock : Type := gmap string Z.
Definition VectorClock : Lattice clock := MapLattice MaxLattice.

Section Causal.
Context {T : Type} (L : Lattice T) (size_of : T → Z).

Record VectorClockValuePair : Type := mkVectorClockValuePair {
  vector_clock : clock;
  value : T
}.

Definition SingleKeyCausalLattice : Lattice VectorClockValuePair :=
  mkLattice (mkVectorClockValuePair (bottom VectorClock) (bottom L)) (λ element p,
    let prev := vector_clock element in
    let vc := do_merge VectorClock prev (vector_clock p) in
    if decide (vc = vector_clock p) then mkVectorClockValuePair vc (value p)
    else if decide (vc = prev) then mkVectorClockValuePair vc (value element)
    else mkVectorClockValuePair vc (do_merge L (value element) (value p))).
Definition single_size (p : VectorClockValuePair) : Z :=
  u32 (u32 (map_size (vector_clock p) * 2) * 4 + size_of (value p)).

Record MultiKeyCausalPayload : Type := mkMultiKeyCausalPayload {
  mk_vector_clock : clock;
  mk_dependencies : gmap string clock;
  mk_value : T
}.

Definition MultiKeyCausalLattice : Lattice MultiKeyCausalPayload :=
  mkLattice (mkMultiKeyCausalPayload (bottom VectorClock) ∅ (bottom L)) (λ element p,
    let prev := mk_vector_clock element in
    let vc := do_merge VectorClock prev (mk_vector_clock p) in
    if decide (vc = mk_vector_clock p) then mkMultiKeyCausalPayload vc (mk_dependencies p) (mk_value p)
    else if decide (vc = prev) then mkMultiKeyCausalPayload vc (mk_dependencies element) (mk_value element)
    else mkMultiKeyCausalPayload vc
           (do_merge (MapLattice VectorClock) (mk_dependencies element) (mk_dependencies p))
           (do_merge L (mk_value element) (mk_value p))).
Definition multi_size (p : MultiKeyCausalPayload) : Z :=
  let dep_size := foldl (λ n kv, u32 (n + Z.of_nat (String.length kv.1) + map_size kv.2 * 2 * 4)) 0
                    (iterate (map_to_list (mk_dependencies p))) in
  u32 (map_size (mk_vector_clock p) * 2 * 4 + dep_size + size_of (mk_value p)).
End Causal.

End Unordered.
Arguments mkVectorClockValuePair {_}.
Arguments vector_clock {_}.
Arguments value {_}.
Arguments mkMultiKeyCausalPayload {_}.
Arguments mk_vector_clock {_}.
Arguments mk_dependencies {_}.
Arguments mk_value {_}.

(** ** common.hpp *)

(** What the servers call of the protocol buffer library for values.  The map
    fields have no order. *)
Class ValueCodec (bytes : Type) : Type := {
  put_LWWValue : Z → string → bytes;
  read_LWWValue : bytes → Z * string;
  put_SetValue : list string → bytes;
  read_SetValue : bytes → list string;
  put_SingleKeyCausalValue : clock → list string → bytes;
  read_SingleKeyCausalValue : bytes → clock * list string;
  put_MultiKeyCausalValue : clock → list (string * clock) → list string → bytes;
  read_MultiKeyCausalValue : bytes → clock * list (string * clock) * list string;
  put_PriorityValue : spec_float → string → bytes;
  read_PriorityValue : bytes → spec_float * string
}.

Section Values.
Context `{U : Unordered} {bytes : Type} `{VC : ValueCodec bytes}.

Definition serialize_lww (l : TimestampValuePair) : bytes := put_LWWValue (timestamp l) (lww_value l).
Definition serialize_set (l : gset string) : bytes := put_SetValue (iterate (elements l)).
Definition serialize_ordered_set (l : gset string) : bytes := put_SetValue (ordered_elements l).
(** The entries are assigned to the map field one by one. *)
Definition copy_clock (vc : clock) : clock :=
  foldl (λ m kv, <[kv.1 := kv.2]> m) ∅ (iterate (map_to_list vc)).
Definition serialize_single (l : VectorClockValuePair (T := gset string)) : bytes :=
  put_SingleKeyCausalValue (copy_clock (vector_clock l)) (iterate (elements (value l))).
Definition serialize_multi (l : MultiKeyCausalPayload (T := gset string)) : bytes :=
  put_MultiKeyCausalValue (copy_clock (mk_vector_clock l))
    ((λ kv, (kv.1, copy_clock kv.2)) <$> iterate (map_to_list (mk_dependencies l)))
    (iterate (elements (mk_value l))).
Definition serialize_priority (l : PriorityValuePair) : bytes :=
  put_PriorityValue (priority l) (priority_value l).

Definition deserialize_lww (s : bytes) : TimestampValuePair :=
  let '(ts, v) := read_LWWValue s in mkTimestampValuePair ts v.
Definition deserialize_set (s : bytes) : gset string := foldl set_insert ∅ (read_SetValue s).
Definition deserialize_ordered_set (s : bytes) : gset string := foldl set_insert ∅ (read_SetValue s).
Definition deserialize_priority (s : bytes) : PriorityValuePair :=
  let '(p, v) := read_PriorityValue s in mkPriorityValuePair p v.

(** [vector_clock.insert(k, v)] for every pair *)
Definition insert_clock (vc : clock) : clock :=
  foldl (λ m kv, insert_pair MaxLattice m kv.1 kv.2) ∅ (iterate (map_to_list vc)).
Definition to_vector_clock_value_pair (cv : clock * list string) : VectorClockValuePair (T := gset string) :=
  mkVectorClockValuePair (insert_clock cv.1) (foldl set_insert ∅ cv.2).
Definition to_multi_key_causal_payload (mkcv : clock * list (string * clock) * list string)
  : MultiKeyCausalPayload (T := gset string) :=
  mkMultiKeyCausalPayload (insert_clock mkcv.1.1)
    (foldl (λ deps dep, insert_pair VectorClock deps dep.1 (insert_clock dep.2)) ∅ mkcv.1.2)
    (foldl set_insert ∅ mkcv.2).
End Values.

(** ** base_kv_store.hpp *)

Section Store.
Context {K V : Type} `{Countable K} (L : Lattice V).
Implicit Types db : gmap K V.

(** [get(k, error)]: the value, the error and the store. *)
Definition kvs_get (k : K) (error : Z) db : V * Z * gmap K V :=
  let error' := if map_contains k db then error else KEY_DNE in
  let '(v, db') := map_at L k db in
  (v, error', db').
Definition kvs_put (k : K) (v : V) db : gmap K V :=
  let '(w, db') := map_at L k db in <[k := do_merge L w v]> db'.
Definition kvs_size (size_of : V → Z) (k : K) db : Z * gmap K V :=
  let '(v, db') := map_at L k db in (size_of v, db').
Definition kvs_remove (k : K) db : gmap K V := map_remove k db.
End Store.

(** ** server_utils.hpp: values in memory *)

(** What the six classes of serializers differ in. *)
Record MemorySerializer (bytes : Type) : Type := mkMemorySerializer {
  ms_value : Type;
  ms_lattice : Lattice ms_value;
  ms_size : ms_value → Z;
  (** the test of [get] for a value that is not there *)
  ms_absent : ms_value → bool;
  ms_serialize : ms_value → bytes;
  ms_deserialize : bytes → ms_value
}.
Arguments mkMemorySerializer {_}.
Arguments ms_value {_}.
Arguments ms_lattice {_}.
Arguments ms_size {_}.
Arguments ms_absent {_}.
Arguments ms_serialize {_}.
Arguments ms_deserialize {_}.

Section Serializers.
Context `{U : Unordered} {bytes : Type} `{VC : ValueCodec bytes}.

Section One.
Context (S : MemorySerializer bytes).
Implicit Types db : gmap string (ms_value S).

Definition serializer_get (key : string) (error : Z) db : bytes * Z * gmap string (ms_value S) :=
  let '(val, error', db') := kvs_get (ms_lattice S) key error db in
  (ms_serialize S val, if ms_absent S val then KEY_DNE else error', db').
Definition serializer_put (key : string) (serialized : bytes) db : Z * gmap string (ms_value S) :=
  kvs_size (ms_lattice S) (ms_size S) key
    (kvs_put (ms_lattice S) key (ms_deserialize S serialized) db).
Definition serializer_remove (key : string) db : gmap string (ms_value S) := kvs_remove key db.
End One.

(** The class for last-writer-wins values of a build without ENABLE_DINOMO_KVS. *)
Definition MemoryLWWSerializer : MemorySerializer bytes :=
  mkMemorySerializer TimestampValuePair LWWPairLattice lww_size
    (λ val, String.eqb (lww_value val) EmptyString) serialize_lww deserialize_lww.
Definition MemorySetSerializer : MemorySerializer bytes :=
  mkMemorySerializer (gset string) SetLattice set_size
    (λ val, set_size val =? 0) serialize_set deserialize_set.
Definition MemoryOrderedSetSerializer : MemorySerializer bytes :=
  mkMemorySerializer (gset string) OrderedSetLattice set_size
    (λ _, false) serialize_ordered_set deserialize_ordered_set.
Definition MemorySingleKeyCausalSerializer : MemorySerializer bytes :=
  mkMemorySerializer VectorClockValuePair (SingleKeyCausalLattice SetLattice) (single_size set_size)
    (λ val, set_size (value val) =? 0) serialize_single
    (λ s, to_vector_clock_value_pair (read_SingleKeyCausalValue s)).
Definition MemoryMultiKeyCausalSerializer : MemorySerializer bytes :=
  mkMemorySerializer MultiKeyCausalPayload (MultiKeyCausalLattice SetLattice) (multi_size set_size)
    (λ val, set_size (mk_value val) =? 0) serialize_multi
    (λ s, to_multi_key_causal_payload (read_MultiKeyCausalValue s)).
Definition MemoryPrioritySerializer : MemorySerializer bytes :=
  mkMemorySerializer PriorityValuePair PriorityLattice priority_size
    (λ val, String.eqb (priority_value val) EmptyString) serialize_priority deserialize_priority.
End Serializers.
