(* ===== verification/CppLatticeProps.v ===== *)
(** * Properties of the servers' lattices

    Which of them are join semilattices, so that replicas that received the same
    updates agree; what a merge of causal values keeps, and that replicas of them
    may disagree forever; that values survive the wire; what the store answers. *)

From S2P Require Import Prelude Objects OrderedSet Lattices Messages Cpp CppLattices.
From Stdlib Require Import SpecFloat.

#[local] Open Scope Z_scope.

(** ** Semilattices *)

Class Semilattice {T} (L : Lattice T) : Prop := {
  merge_idem x : do_merge L x x = x;
  merge_comm x y : do_merge L x y = do_merge L y x;
  merge_assoc x y z : do_merge L (do_merge L x y) z = do_merge L x (do_merge L y z)
}.

Section Converge.
Context {T : Type} (L : Lattice T) `{!Semilattice L}.
Implicit Types (s : T) (l : list T).

Lemma merge_last s x l : foldl (do_merge L) (do_merge L s x) l = do_merge L (foldl (do_merge L) s l) x.
Proof.
  revert s. induction l as [|y l IH]; intros s; [done|]. cbn [foldl]. rewrite -IH. f_equal.
  by rewrite !merge_assoc (merge_comm x y).
Qed.

Lemma merge_absorbs s x l : x ∈ l → do_merge L (foldl (do_merge L) s l) x = foldl (do_merge L) s l.
Proof.
  revert s. induction l as [|y l IH]; intros s Hx; [by apply elem_of_nil in Hx|]. cbn [foldl].
  apply elem_of_cons in Hx as [->|Hx]; [|by apply IH].
  by rewrite !merge_last merge_assoc merge_idem.
Qed.

Lemma merge_all_absorbs s l l' : l' ⊆ l → foldl (do_merge L) s (l ++ l') = foldl (do_merge L) s l.
Proof.
  intros Hsub. rewrite foldl_app. induction l' as [|x l' IH]; [done|]. cbn [foldl].
  rewrite merge_absorbs; [|apply Hsub; by left]. apply IH. intros y Hy. apply Hsub. by right.
Qed.

(** The order and the number of the updates do not matter. *)
Lemma merges_converge s l l' :
  (∀ x, x ∈ l ↔ x ∈ l') → foldl (do_merge L) s l = foldl (do_merge L) s l'.
Proof.
  intros Hl. rewrite -(merge_all_absorbs s l l'); [|by intros x ?%Hl].
  rewrite -(merge_all_absorbs s l' l); [|by intros x ?%Hl].
  assert (∀ l l' s, foldl (do_merge L) s (l ++ l') = foldl (do_merge L) s (l' ++ l)) as Hswap; [|apply Hswap].
  clear Hl s l l'. intros l l'. induction l as [|x l IH]; intros s; [by rewrite app_nil_r|].
  cbn [app foldl]. rewrite IH !foldl_app. cbn [foldl]. by rewrite merge_last.
Qed.
End Converge.

#[export] Instance BoolLattice_semilattice : Semilattice BoolLattice.
Proof. split; by repeat intros []. Qed.

#[export] Instance MaxLattice_semilattice : Semilattice MaxLattice.
Proof. split; intros; cbn; repeat case_match; lia. Qed.

Section Unordered.
Context `{U : Unordered}.

Lemma foldl_set_insert `{Countable T} (s : gset T) l : foldl set_insert s l = s ∪ list_to_set l.
Proof.
  revert s. induction l as [|x l IH]; intros s; [set_solver|]. cbn [foldl]. rewrite IH /set_insert. set_solver.
Qed.

Lemma set_merge_union `{Countable T} (s e : gset T) : set_merge s e = s ∪ e.
Proof.
  rewrite /set_merge foldl_set_insert (list_to_set_perm_L _ _ (iterate_perm (elements e))).
  by rewrite list_to_set_elements_L.
Qed.

#[export] Instance SetLattice_semilattice `{Countable T} : Semilattice (SetLattice (T := T)).
Proof. split; intros; rewrite /= !set_merge_union; set_solver. Qed.

Lemma ordered_elements_perm s : ordered_elements s ≡ₚ elements s.
Proof. apply merge_sort_Permutation. Qed.

Lemma ordered_merge_union s e : do_merge OrderedSetLattice s e = s ∪ e.
Proof.
  rewrite /= foldl_set_insert (list_to_set_perm_L _ _ (ordered_elements_perm e)).
  by rewrite list_to_set_elements_L.
Qed.

#[export] Instance OrderedSetLattice_semilattice : Semilattice OrderedSetLattice.
Proof. split; intros; rewrite !ordered_merge_union; set_solver. Qed.

(** *** Maps *)

Section Maps.
Context {K V : Type} `{Countable K} (L : Lattice V).
Implicit Types m : gmap K V.

Definition join (a b : option V) : option V :=
  match a, b with
  | Some x, Some y => Some (do_merge L x y)
  | None, _ => b
  | _, None => a
  end.

Lemma insert_pair_lookup m k v k' :
  insert_pair L m k v !! k' = if decide (k' = k) then join (m !! k) (Some v) else m !! k'.
Proof.
  rewrite /insert_pair. destruct (m !! k) eqn:E; case_decide; simplify_eq; simplify_map_eq; done.
Qed.

Lemma foldl_insert_pair m l k :
  NoDup l.*1 →
  foldl (λ m kv, insert_pair L m kv.1 kv.2) m l !! k = join (m !! k) ((list_to_map l : gmap K V) !! k).
Proof.
  revert m. induction l as [|[k' v] l IH]; intros m Hnd; [cbn; rewrite lookup_empty; by destruct (m !! k)|].
  rewrite fmap_cons NoDup_cons in Hnd. destruct Hnd as [Hn Hnd]. cbn [foldl fst snd].
  rewrite IH // insert_pair_lookup list_to_map_cons lookup_insert.
  destruct (decide (k' = k)) as [->|Hne].
  - rewrite decide_True // not_elem_of_list_to_map_1 //. by destruct (m !! k).
  - by rewrite decide_False.
Qed.

Lemma iterate_map_NoDup m : NoDup (iterate (map_to_list m)).*1.
Proof. rewrite iterate_perm. apply NoDup_fst_map_to_list. Qed.

Lemma iterate_map_back m : list_to_map (iterate (map_to_list m)) = m.
Proof.
  rewrite -{2}(list_to_map_to_list m). apply list_to_map_proper; [apply iterate_map_NoDup|apply iterate_perm].
Qed.

Lemma map_merge_lookup m m' k : map_merge L m m' !! k = join (m !! k) (m' !! k).
Proof. rewrite /map_merge foldl_insert_pair ?iterate_map_back //. apply iterate_map_NoDup. Qed.

#[export] Instance MapLattice_semilattice : Semilattice L → Semilattice (MapLattice (K := K) L).
Proof.
  intros HL. split; intros; apply map_eq; intros k; rewrite /= !map_merge_lookup.
  - destruct (x !! k); [|done]. by rewrite /= merge_idem.
  - destruct (x !! k), (y !! k); [|done..]. by rewrite /= merge_comm.
  - destruct (x !! k), (y !! k), (z !! k); [|done..]. by rewrite /= merge_assoc.
Qed.
End Maps.

(** *** Vector clocks *)

Definition clock_le (a b : clock) : Prop := ∀ k v, a !! k = Some v → ∃ w, b !! k = Some w ∧ v ≤ w.

Lemma max_merge (a b : Z) : do_merge MaxLattice a b = Z.max a b.
Proof. cbn. case_match; lia. Qed.

Lemma clock_merge_lookup a b k :
  do_merge VectorClock a b !! k = join MaxLattice (a !! k) (b !! k).
Proof. apply map_merge_lookup. Qed.

Lemma clock_merge_right a b : do_merge VectorClock a b = b ↔ clock_le a b.
Proof.
  split.
  - intros E k v Hk. pose proof (clock_merge_lookup a b k) as Hm. rewrite E Hk in Hm.
    destruct (b !! k) as [w|]; [|done]. cbn [join] in Hm. rewrite max_merge in Hm. injection Hm as Hm.
    exists w. split; [done|lia].
  - intros Hle. apply map_eq. intros k. rewrite clock_merge_lookup. destruct (a !! k) as [v|] eqn:Ha; [|done].
    destruct (Hle k v Ha) as (w & Hb & Hvw). rewrite Hb. cbn [join]. by rewrite max_merge Z.max_r.
Qed.

Lemma clock_merge_left a b : do_merge VectorClock a b = a ↔ clock_le b a.
Proof.
  rewrite -clock_merge_right.
  by rewrite (merge_comm (Semilattice := MapLattice_semilattice MaxLattice MaxLattice_semilattice) a b).
Qed.

#[export] Instance VectorClock_semilattice : Semilattice VectorClock.
Proof. apply MapLattice_semilattice, _. Qed.

Lemma clock_le_refl a : clock_le a a.
Proof. intros k v Hk. exists v. by split. Qed.

(** The least clock above both. *)
Lemma clock_merge_lub a b :
  let c := do_merge VectorClock a b in
  clock_le a c ∧ clock_le b c ∧ ∀ d, clock_le a d → clock_le b d → clock_le c d.
Proof.
  intros c. rewrite /c. split; [|split].
  - apply clock_merge_right. by rewrite -merge_assoc merge_idem.
  - apply clock_merge_left. by rewrite merge_assoc merge_idem.
  - intros d Ha%clock_merge_right Hb%clock_merge_right. apply clock_merge_right.
    by rewrite merge_assoc Hb Ha.
Qed.

(** *** Causal values *)

Section Causal.
Context {T : Type} (L : Lattice T).
Implicit Types a b : VectorClockValuePair (T := T).

Lemma single_newer a b : clock_le (vector_clock a) (vector_clock b) → do_merge (SingleKeyCausalLattice L) a b = b.
Proof. intros Hle%clock_merge_right. cbn -[VectorClock]. rewrite Hle decide_True //. by destruct b. Qed.

Lemma single_older a b :
  ¬ clock_le (vector_clock a) (vector_clock b) → clock_le (vector_clock b) (vector_clock a) →
  do_merge (SingleKeyCausalLattice L) a b = a.
Proof.
  intros Hn%(not_iff_compat (clock_merge_right _ _)) Hle%clock_merge_left. cbn -[VectorClock].
  rewrite decide_False // decide_True //. rewrite Hle. by destruct a.
Qed.

Lemma single_concurrent a b :
  ¬ clock_le (vector_clock a) (vector_clock b) → ¬ clock_le (vector_clock b) (vector_clock a) →
  do_merge (SingleKeyCausalLattice L) a b =
  mkVectorClockValuePair (do_merge VectorClock (vector_clock a) (vector_clock b))
    (do_merge L (value a) (value b)).
Proof.
  intros Hn%(not_iff_compat (clock_merge_right _ _)) Hn'%(not_iff_compat (clock_merge_left _ _)).
  cbn -[VectorClock]. by rewrite !decide_False.
Qed.
End Causal.

End Unordered.

(** ** Properties *)

(** Also: replicas of a map of vector clocks, such as the dependencies of a causal
    value, that received the same updates agree, whatever the order in which the
    updates arrived and however often each of them did. *)
Theorem dependencies_converge `{U : Unordered} (s : gmap string clock) (l l' : list (gmap string clock)) :
  (∀ x, x ∈ l ↔ x ∈ l') →
  foldl (do_merge (MapLattice VectorClock)) s l = foldl (do_merge (MapLattice VectorClock)) s l'.
Proof. apply merges_converge. apply _. Qed.

(** Also: replicas of a last-writer-wins value that received the same updates agree
    if no two different updates have the same timestamp. *)
Theorem lww_replicas_converge (s : TimestampValuePair) (l l' : list TimestampValuePair) :
  (∀ x y, x ∈ s :: l → y ∈ s :: l → timestamp x = timestamp y → x = y) → (∀ x, x ∈ l ↔ x ∈ l') →
  foldl (do_merge LWWPairLattice) s l = foldl (do_merge LWWPairLattice) s l'.
Proof.
  intros Hts Hl. assert (∀ m, m ⊆ s :: l → ∃ r, foldl (do_merge LWWPairLattice) s m = r ∧ r ∈ s :: m ∧
    Forall (λ x, timestamp x ≤ timestamp r) (s :: m)) as Hmax.
  { intros m. induction m as [|x m IH] using rev_ind; intros Hm.
    { exists s. split; [done|]. split; [by left|by repeat constructor]. }
    destruct IH as (r & Hr & Hin & Hall); [set_solver|]. rewrite foldl_app Hr. cbn.
    exists (if timestamp r <=? timestamp x then x else r). split; [done|].
    rewrite app_comm_cons Forall_app. destruct (Z.leb_spec (timestamp r) (timestamp x)) as [Hle|Hlt].
    - split; [set_solver|]. split; [|by repeat constructor]. eapply Forall_impl; [exact Hall|]. simpl. lia.
    - split; [set_solver|]. split; [done|]. constructor; [lia|constructor]. }
  destruct (Hmax l) as (r & -> & Hin & Hall); [set_solver|].
  destruct (Hmax l') as (r' & -> & Hin' & Hall'); [set_solver|].
  rewrite !Forall_forall in Hall, Hall'.
  apply Hts; [done|set_solver|]. apply Z.le_antisymm; [apply Hall'|apply Hall]; set_solver.
Qed.

(** C22: merging a causal value keeps the newer version, and both of two concurrent
    ones: if its clock is at or below the incoming one the incoming pair replaces
    it, if it is strictly above nothing changes, and otherwise the clock becomes the
    least one above both and the values are merged. *)
Theorem causal_merge_correct `{U : Unordered} {T} (L : Lattice T) (a b : VectorClockValuePair (T := T)) :
  let r := do_merge (SingleKeyCausalLattice L) a b in
  (clock_le (vector_clock a) (vector_clock b) → r = b) ∧
  (¬ clock_le (vector_clock a) (vector_clock b) → clock_le (vector_clock b) (vector_clock a) → r = a) ∧
  (¬ clock_le (vector_clock a) (vector_clock b) → ¬ clock_le (vector_clock b) (vector_clock a) →
   value r = do_merge L (value a) (value b) ∧
   clock_le (vector_clock a) (vector_clock r) ∧ clock_le (vector_clock b) (vector_clock r) ∧
   ∀ c, clock_le (vector_clock a) c → clock_le (vector_clock b) c → clock_le (vector_clock r) c).
Proof.
  intros r. split; [apply single_newer|]. split; [apply single_older|].
  intros Ha Hb. rewrite /r single_concurrent //. split; [done|]. apply clock_merge_lub.
Qed.

(** Three versions of a value, the last of which replaces the first. *)
Definition version_a : VectorClockValuePair (T := gset string) :=
  mkVectorClockValuePair {["x"%string := 1]} {["A"%string]}.
Definition version_b : VectorClockValuePair (T := gset string) :=
  mkVectorClockValuePair {["y"%string := 1]} {["B"%string]}.
Definition version_c : VectorClockValuePair (T := gset string) :=
  mkVectorClockValuePair {["x"%string := 2]} {["C"%string]}.

(** The merge, without the order of iteration. *)
Definition pure_merge (a b : VectorClockValuePair (T := gset string)) : VectorClockValuePair (T := gset string) :=
  let vc := union_with (λ x y, Some (Z.max x y)) (vector_clock a) (vector_clock b) in
  if decide (vc = vector_clock b) then mkVectorClockValuePair vc (value b)
  else if decide (vc = vector_clock a) then mkVectorClockValuePair vc (value a)
  else mkVectorClockValuePair vc (value a ∪ value b).

Lemma single_merge_pure `{U : Unordered} a b :
  do_merge (SingleKeyCausalLattice SetLattice) a b = pure_merge a b.
Proof.
  assert (do_merge VectorClock (vector_clock a) (vector_clock b) =
    union_with (λ x y, Some (Z.max x y)) (vector_clock a) (vector_clock b)) as Hvc.
  { assert (∀ x y, join MaxLattice x y = union_with (λ x y, Some (Z.max x y)) x y) as Hj.
    { intros [x|] [y|]; [|done..]. cbn [join]. by rewrite max_merge. }
    apply map_eq. intros k. rewrite clock_merge_lookup lookup_union_with. apply Hj. }
  cbn -[VectorClock]. rewrite Hvc /pure_merge set_merge_union. done.
Qed.

(** Also: replicas of a causal value that received the same three updates in different
    orders may end with the same clock and different values; each of them then takes
    over the value of the other when they exchange them, so that they never agree:
    merging causal values is not associative. *)
Theorem causal_replicas_diverge `{U : Unordered} :
  let L := SingleKeyCausalLattice SetLattice in
  let r1 := foldl (do_merge L) (bottom L) [version_a; version_b; version_c] in
  let r2 := foldl (do_merge L) (bottom L) [version_b; version_c; version_a] in
  vector_clock r1 = vector_clock r2 ∧
  value r1 = {["A"; "B"; "C"]}%string ∧ value r2 = {["B"; "C"]}%string ∧
  do_merge L r1 r2 = r2 ∧ do_merge L r2 r1 = r1.
Proof.
  cbv zeta. cbn [foldl]. rewrite !single_merge_pure. vm_compute. by repeat split.
Qed.

(** *** The store *)

Section Store.
Context `{U : Unordered} {bytes : Type} `{VC : ValueCodec bytes}.

Lemma serializer_put_db (S : MemorySerializer bytes) key serialized (db : gmap string (ms_value S)) :
  (serializer_put S key serialized db).2 =
  <[key := do_merge (ms_lattice S) (default (bottom (ms_lattice S)) (db !! key)) (ms_deserialize S serialized)]> db.
Proof.
  rewrite /serializer_put /kvs_size /kvs_put /map_at /= lookup_insert_eq /= !insert_insert_eq. done.
Qed.

Lemma serializer_get_stored (S : MemorySerializer bytes) key v (db : gmap string (ms_value S)) :
  db !! key = Some v →
  serializer_get S key NO_ERROR db = (ms_serialize S v, if ms_absent S v then KEY_DNE else NO_ERROR, db).
Proof.
  intros Hk. rewrite /serializer_get /kvs_get /map_at /map_contains Hk bool_decide_true //=.
  by rewrite insert_id.
Qed.

(** Also: a value that is put is merged into the one that is stored, or into the
    default one, and is what a later [get] returns; other keys stay. *)
Theorem store_put_get (S : MemorySerializer bytes) key serialized (db : gmap string (ms_value S)) :
  let db' := (serializer_put S key serialized db).2 in
  let r := do_merge (ms_lattice S) (default (bottom (ms_lattice S)) (db !! key)) (ms_deserialize S serialized) in
  serializer_get S key NO_ERROR db' =
    (ms_serialize S r, if ms_absent S r then KEY_DNE else NO_ERROR, db') ∧
  ∀ key', key' ≠ key → db' !! key' = db !! key'.
Proof.
  cbv zeta. rewrite serializer_put_db. split; [|intros key' Hne; by rewrite lookup_insert_ne].
  apply serializer_get_stored, lookup_insert_eq.
Qed.

(** Also: asking for a key that is not there creates it.  For all types of values but
    one the next request is still answered with an error; for ordered sets it is
    answered with an empty set and no error. *)
Theorem missing_key_twice (S : MemorySerializer bytes) key (db : gmap string (ms_value S)) :
  db !! key = None →
  let '(_, error1, db1) := serializer_get S key NO_ERROR db in
  let '(_, error2, _) := serializer_get S key NO_ERROR db1 in
  error1 = KEY_DNE ∧
  (S ∈ [MemoryLWWSerializer; MemorySetSerializer; MemorySingleKeyCausalSerializer;
        MemoryMultiKeyCausalSerializer; MemoryPrioritySerializer] → error2 = KEY_DNE) ∧
  (S = MemoryOrderedSetSerializer → error2 = NO_ERROR).
Proof.
  intros Hk. rewrite /serializer_get /kvs_get /map_at /map_contains Hk /=.
  rewrite !lookup_insert_eq bool_decide_true //=. split; [by destruct (ms_absent S _)|]. split; [|by intros ->].
  intros HS. enough (ms_absent S (bottom (ms_lattice S)) = true) as -> by done.
  repeat (apply elem_of_cons in HS as [->|HS]; [done|]). by apply elem_of_nil in HS.
Qed.

(** What the library promises: a message that was serialized is read back; fields
    of 32 and 64 bits hold such numbers. *)
Class ValueCodecLaws : Prop := {
  read_put_LWW ts v : 0 ≤ ts < 2 ^ 64 → read_LWWValue (put_LWWValue ts v) = (ts, v);
  read_put_Set vs : read_SetValue (put_SetValue vs) = vs;
  read_put_Single vc vs : map_Forall (λ _ n, 0 ≤ n < 2 ^ 32) vc →
    read_SingleKeyCausalValue (put_SingleKeyCausalValue vc vs) = (vc, vs);
  read_put_Multi vc deps vs : map_Forall (λ _ n, 0 ≤ n < 2 ^ 32) vc →
    Forall (λ dep, map_Forall (λ _ n, 0 ≤ n < 2 ^ 32) dep.2) deps →
    read_MultiKeyCausalValue (put_MultiKeyCausalValue vc deps vs) = (vc, deps, vs);
  read_put_Priority p v : read_PriorityValue (put_PriorityValue p v) = (p, v)
}.
Context `{VL : !ValueCodecLaws}.

Lemma foldl_insert_map `{Countable K} {V} (l : list (K * V)) (m : gmap K V) :
  NoDup l.*1 → foldl (λ m kv, <[kv.1 := kv.2]> m) m l = list_to_map l ∪ m.
Proof.
  revert m. induction l as [|[k v] l IH]; intros m Hnd; [by rewrite /= left_id_L|].
  rewrite fmap_cons NoDup_cons in Hnd. destruct Hnd as [Hn Hnd]. cbn [foldl fst snd].
  rewrite IH // list_to_map_cons -insert_union_l -insert_union_r //. by apply not_elem_of_list_to_map_1.
Qed.

Lemma copy_clock_id vc : copy_clock vc = vc.
Proof.
  rewrite /copy_clock foldl_insert_map; [|apply iterate_map_NoDup].
  by rewrite iterate_map_back right_id_L.
Qed.

Lemma insert_clock_id vc : insert_clock vc = vc.
Proof.
  apply map_eq. intros k. rewrite /insert_clock foldl_insert_pair; [|apply iterate_map_NoDup].
  by rewrite iterate_map_back lookup_empty.
Qed.

Lemma foldl_fmap_fst deps l :
  foldl (λ deps dep, insert_pair VectorClock deps dep.1 (insert_clock dep.2)) deps
    ((λ kv : string * clock, (kv.1, copy_clock kv.2)) <$> l) =
  foldl (λ deps kv, insert_pair VectorClock deps kv.1 kv.2) deps l.
Proof.
  revert deps. induction l as [|[k vc] l IH]; intros deps; [done|].
  rewrite fmap_cons. cbn [foldl fst snd]. by rewrite copy_clock_id insert_clock_id IH.
Qed.

Lemma foldl_set_back (s : gset string) l : l ≡ₚ elements s → foldl set_insert ∅ l = s.
Proof.
  intros Hp. rewrite foldl_set_insert (list_to_set_perm_L _ _ Hp) list_to_set_elements_L. set_solver.
Qed.

(** Also: what a server serializes it reads back: sets in whatever order they were
    visited, vector clocks, dependencies, and numbers that fit their fields. *)
Theorem values_roundtrip (p : TimestampValuePair) (s : gset string) (q : PriorityValuePair)
    (c : VectorClockValuePair (T := gset string)) (m : MultiKeyCausalPayload (T := gset string)) :
  0 ≤ timestamp p < 2 ^ 64 →
  map_Forall (λ _ n, 0 ≤ n < 2 ^ 32) (vector_clock c) →
  map_Forall (λ _ n, 0 ≤ n < 2 ^ 32) (mk_vector_clock m) →
  map_Forall (λ _ vc, map_Forall (λ _ n, 0 ≤ n < 2 ^ 32) vc) (mk_dependencies m) →
  deserialize_lww (serialize_lww p) = p ∧
  deserialize_set (serialize_set s) = s ∧
  deserialize_ordered_set (serialize_ordered_set s) = s ∧
  deserialize_priority (serialize_priority q) = q ∧
  to_vector_clock_value_pair (read_SingleKeyCausalValue (serialize_single c)) = c ∧
  to_multi_key_causal_payload (read_MultiKeyCausalValue (serialize_multi m)) = m.
Proof.
  intros Hts Hc Hm Hd. split; [|split; [|split; [|split; [|split]]]].
  - rewrite /deserialize_lww read_put_LWW //. by destruct p.
  - rewrite /deserialize_set read_put_Set. apply foldl_set_back, iterate_perm.
  - rewrite /deserialize_ordered_set read_put_Set. apply foldl_set_back, ordered_elements_perm.
  - rewrite /deserialize_priority read_put_Priority. by destruct q.
  - rewrite /serialize_single copy_clock_id read_put_Single // /to_vector_clock_value_pair /=.
    rewrite insert_clock_id (foldl_set_back (value c)); [by destruct c|apply iterate_perm].
  - rewrite /serialize_multi copy_clock_id read_put_Multi //; last first.
    { apply Forall_forall. intros dep ([k vc] & -> & Hin)%list_elem_of_fmap. simpl.
      rewrite iterate_perm in Hin. apply elem_of_map_to_list in Hin. rewrite copy_clock_id. by apply (Hd k). }
    rewrite /to_multi_key_causal_payload /= insert_clock_id (foldl_set_back (mk_value m)); [|apply iterate_perm].
    assert (foldl (λ deps dep, insert_pair VectorClock deps dep.1 (insert_clock dep.2)) ∅
      ((λ kv, (kv.1, copy_clock kv.2)) <$> iterate (map_to_list (mk_dependencies m))) = mk_dependencies m) as ->;
      [|by destruct m].
    rewrite foldl_fmap_fst. apply map_eq. intros k. rewrite foldl_insert_pair; [|apply iterate_map_NoDup].
    by rewrite iterate_map_back lookup_empty.
Qed.

(** The store after a sequence of writes of last-writer-wins values. *)
Definition lww_puts (puts : list (string * (Z * string))) : gmap string TimestampValuePair :=
  foldl (λ db p, (serializer_put MemoryLWWSerializer p.1 (put_LWWValue p.2.1 p.2.2) db).2) ∅ puts.

Definition stored (p : string * (Z * string)) : TimestampValuePair := mkTimestampValuePair p.2.1 p.2.2.

(** No write of a key has an older timestamp than an earlier write of it. *)
Definition in_time (puts : list (string * (Z * string))) : Prop :=
  ∀ i j p q, (i < j)%nat → puts !! i = Some p → puts !! j = Some q → p.1 = q.1 → p.2.1 ≤ q.2.1.

Lemma lww_puts_lookup puts key :
  Forall (λ p, 0 ≤ p.2.1 < 2 ^ 64) puts → in_time puts →
  lww_puts puts !! key = stored <$> last (filter (λ p, p.1 = key) puts).
Proof.
  induction puts as [|p puts IH] using rev_ind; intros Hts Hin; [done|].
  apply Forall_app in Hts as [Hts [Hp _]%Forall_cons].
  assert (in_time puts) as Hin'.
  { intros i j x y Hij Hx Hy. apply (Hin i j); [done|by apply lookup_app_l_Some..]. }
  rewrite /lww_puts foldl_app -/(lww_puts puts) filter_app. cbn [foldl]. rewrite serializer_put_db.
  rewrite lookup_insert. case_decide as E; last first.
  { by rewrite filter_cons_False // app_nil_r IH. }
  subst key. rewrite filter_cons_True // last_snoc IH //. cbn [fmap option_fmap option_map]. f_equal.
  assert (deserialize_lww (put_LWWValue p.2.1 p.2.2) = stored p) as Hd.
  { by rewrite /deserialize_lww read_put_LWW. }
  cbn -[deserialize_lww]. rewrite Hd. destruct (last _) as [q|] eqn:El; cbn;
    [|rewrite (proj2 (Z.leb_le _ _)); [done|apply Hp]].
  assert (q ∈ filter (λ q, q.1 = p.1) puts) as [Hq Hqin]%list_elem_of_filter by (by apply last_Some_elem_of).
  apply list_elem_of_lookup in Hqin as (i & Hi). rewrite (proj2 (Z.leb_le _ _)) //.
  apply (Hin i (length puts)); [by eapply lookup_lt_Some|by apply lookup_app_l_Some| |done].
  by rewrite lookup_app_r // Nat.sub_diag.
Qed.

(** Also: for last-writer-wins values the store does what the client relies on: after
    any sequence of writes whose timestamps do not decrease, it returns for every key
    the value of the last write, byte for byte, with no error unless the value is
    empty. *)
Theorem lww_store_keeps_last puts key ts v :
  Forall (λ p, 0 ≤ p.2.1 < 2 ^ 64) puts → in_time puts →
  last (filter (λ p, p.1 = key) puts) = Some (key, (ts, v)) →
  serializer_get MemoryLWWSerializer key NO_ERROR (lww_puts puts) =
    (put_LWWValue ts v, if String.eqb v EmptyString then KEY_DNE else NO_ERROR, lww_puts puts).
Proof.
  intros Hts Hin Hl. apply (serializer_get_stored MemoryLWWSerializer key (mkTimestampValuePair ts v)).
  by rewrite lww_puts_lookup // Hl.
Qed.

End Store.

(** *** Instances *)

(** Messages as they are. *)
Inductive sample_value : Type :=
| VLWW (ts : Z) (v : string)
| VSet (vs : list string)
| VSingle (vc : clock) (vs : list string)
| VMulti (vc : clock) (deps : list (string * clock)) (vs : list string)
| VPriority (p : spec_float) (v : string).

Definition sample_values : ValueCodec sample_value := {|
  put_LWWValue := VLWW;
  read_LWWValue b := match b with VLWW ts v => (ts, v) | _ => (0, EmptyString) end;
  put_SetValue := VSet;
  read_SetValue b := match b with VSet vs => vs | _ => [] end;
  put_SingleKeyCausalValue := VSingle;
  read_SingleKeyCausalValue b := match b with VSingle vc vs => (vc, vs) | _ => (∅, []) end;
  put_MultiKeyCausalValue := VMulti;
  read_MultiKeyCausalValue b := match b with VMulti vc deps vs => (vc, deps, vs) | _ => (∅, [], []) end;
  put_PriorityValue := VPriority;
  read_PriorityValue b := match b with VPriority p v => (p, v) | _ => (S754_zero false, EmptyString) end
|}.
#[local] Existing Instances sample_values insertion_order.

Lemma sample_values_laws : ValueCodecLaws (VC := sample_values).
Proof. by split. Qed.

Lemma dependencies_converge_witness :
  foldl (do_merge (MapLattice VectorClock)) (∅ : gmap string clock)
    [{["k" := {["x" := 1]}]}; {["k" := {["y" := 2]}]}]%string =
  foldl (do_merge (MapLattice VectorClock)) (∅ : gmap string clock)
    [{["k" := {["y" := 2]}]}; {["k" := {["x" := 1]}]}; {["k" := {["y" := 2]}]}]%string.
Proof. apply dependencies_converge. set_solver. Defined.

Lemma lww_replicas_converge_witness :
  foldl (do_merge LWWPairLattice) (mkTimestampValuePair 0 EmptyString)
    [mkTimestampValuePair 1 "a"; mkTimestampValuePair 2 "b"] =
  foldl (do_merge LWWPairLattice) (mkTimestampValuePair 0 EmptyString)
    [mkTimestampValuePair 2 "b"; mkTimestampValuePair 1 "a"].
Proof.
  apply lww_replicas_converge.
  - intros x y Hx Hy.
    repeat (apply elem_of_cons in Hx as [->|Hx]); try (by apply elem_of_nil in Hx);
      repeat (apply elem_of_cons in Hy as [->|Hy]); try (by apply elem_of_nil in Hy); done.
  - set_solver.
Defined.

Lemma causal_merge_correct_witness :
  do_merge (SingleKeyCausalLattice SetLattice) version_a version_c = version_c ∧
  value (do_merge (SingleKeyCausalLattice SetLattice) version_a version_b) = {["A"; "B"]}%string.
Proof.
  split.
  - apply (causal_merge_correct SetLattice version_a version_c).
    change (clock_le {["x"%string := 1]} {["x"%string := 2]}).
    intros k v [<- <-]%lookup_singleton_Some. by exists 2.
  - destruct (proj2 (proj2 (causal_merge_correct SetLattice version_a version_b))) as [H _].
    + intros Hle. destruct (Hle "x"%string 1) as (w & Hw & _); [done|]. done.
    + intros Hle. destruct (Hle "y"%string 1) as (w & Hw & _); [done|]. done.
    + rewrite H. vm_compute. reflexivity.
Defined.

Lemma missing_key_twice_witness :
  let '(_, error1, db1) := serializer_get MemoryOrderedSetSerializer "k" NO_ERROR ∅ in
  let '(_, error2, _) := serializer_get MemoryOrderedSetSerializer "k" NO_ERROR db1 in
  error1 = KEY_DNE ∧ error2 = NO_ERROR.
Proof.
  pose proof (missing_key_twice MemoryOrderedSetSerializer "k" ∅ (lookup_empty _)) as H.
  destruct (serializer_get _ _ _ ∅) as [[b1 e1] db1]. destruct (serializer_get _ _ _ db1) as [[b2 e2] db2].
  destruct H as (H1 & _ & H2). split; [exact H1|by apply H2].
Defined.

Lemma values_roundtrip_witness :
  to_vector_clock_value_pair (read_SingleKeyCausalValue (serialize_single version_a)) = version_a.
Proof.
  apply (values_roundtrip (VL := sample_values_laws) (mkTimestampValuePair 1 "a") ∅
    (mkPriorityValuePair INT_MAX "p") version_a (bottom (MultiKeyCausalLattice SetLattice))).
  - done.
  - by apply map_Forall_singleton.
  - apply map_Forall_empty.
  - apply map_Forall_empty.
Defined.

Lemma lww_store_keeps_last_witness :
  (serializer_get MemoryLWWSerializer "k" NO_ERROR
     (lww_puts [("k", (1, "a")); ("m", (5, "c")); ("k", (2, "b"))]%string)).1 = (VLWW 2 "b", NO_ERROR).
Proof.
  rewrite (lww_store_keeps_last (VL := sample_values_laws)
    [("k", (1, "a")); ("m", (5, "c")); ("k", (2, "b"))]%string "k" 2 "b"); try reflexivity.
  - by repeat constructor.
  - intros [|[|[|i]]] [|[|[|j]]] p q Hij Hp Hq; simplify_eq/=; try lia; done.
Defined.
