(* ===== verification/Storage.v ===== *)
(** * A thread of a storage node

    src/src/kvs: the state of a thread, the serializers of
    src/include/kvs/server_utils.hpp over the storage engine, and the handler of
    client requests, in the build that CMakeLists.txt selects (DINOMO, neither Clover
    nor shared-nothing) and for a node of the memory tier.  The engine is the
    interface that src/include/kvs/base_kv_store.hpp calls. *)

From S2P Require Import Prelude Objects OrderedSet Lattices Messages Cpp Threads Metadata HashRing.
From S2P Require Import Routing CppLattices.

#[local] Open Scope Z_scope.

(** ** Interfaces *)

(** Byte strings: the empty one, and [c_str] with its final zero. *)
Class Bytes (bytes : Type) : Type := {
  no_bytes : bytes;
  is_empty : bytes → bool;
  with_zero : bytes → bytes
}.

(** The messages of a storage node. *)
Class KvsCodec (wire bytes : Type) : Type := {
  kc_parse_KeyRequest : wire → KeyRequest bytes;
  kc_serialize_KeyRequest : KeyRequest bytes → wire;
  kc_serialize_KeyResponse : RequestType → KeyResponse bytes → wire
}.

(** The storage engine, [Dinomo] of src/include/kvs/dinomo_compute.hpp: what is
    not there has size 0. *)
Class Dinomo (engine bytes : Type) : Type := {
  db_get : Z → engine → option bytes * engine;
  db_put : Z → bytes → bool → engine → Z * engine;
  db_getMeta : string → engine → option bytes * engine;
  db_putMeta : string → bytes → engine → engine;
  db_getReplicated : Z → engine → option bytes * engine;
  db_putReplicated : Z → bytes → bool → engine → engine;
  db_merge : bool → engine → engine;
  db_flush : engine → engine;
  db_failover : Z → engine → engine;
  db_invalidate_cache : Z → engine → engine;
  db_swap : Z → bool → engine → engine
}.

(** ** State *)

Record PendingRequest (bytes : Type) : Type := mkPendingRequest {
  pr_type : RequestType;
  pr_lattice_type : Z;
  pr_payload : bytes;
  pr_addr : string;
  pr_response_id : string
}.
Arguments mkPendingRequest {_}.
Arguments pr_type {_}.
Arguments pr_lattice_type {_}.
Arguments pr_payload {_}.
Arguments pr_addr {_}.
Arguments pr_response_id {_}.

Record server_config : Type := mkServerConfig {
  sc_routing : routing_config;
  kSelfTier : Z;
  kThreadNum : Z;
  kEnableBatching : bool;
  kBatchingThreshold : Z;
  kDefaultGlobalMemoryReplication : Z;
  sc_routing_ips : list string;
  sc_monitoring_ips : list string
}.

(** The stores of the values that are no last-writer-wins pairs. *)
Record memory_stores : Type := mkMemoryStores {
  set_store : gmap string (gset string);
  ordered_set_store : gmap string (gset string);
  single_store : gmap string (VectorClockValuePair (T := gset string));
  multi_store : gmap string (MultiKeyCausalPayload (T := gset string));
  priority_store : gmap string PriorityValuePair
}.

(** Rings, replication factors, seed and sent messages are those of a routing
    thread, whose own table of waiting requests stays empty here. *)
Record server_state (wire bytes engine : Type) : Type := mkServerState {
  sv_node : routing_state wire;
  sv_pending : gmap string (list (PendingRequest bytes));
  sv_batching : gmap string (list (PendingRequest bytes));
  sv_requests : list wire;
  sv_accesses : gmap string (list Z);
  sv_access_count : Z;
  sv_engine : engine;
  sv_stores : memory_stores;
  sv_ticks : nat
}.
Arguments mkServerState {_ _ _}.
Arguments sv_node {_ _ _}.
Arguments sv_pending {_ _ _}.
Arguments sv_batching {_ _ _}.
Arguments sv_requests {_ _ _}.
Arguments sv_accesses {_ _ _}.
Arguments sv_access_count {_ _ _}.
Arguments sv_engine {_ _ _}.
Arguments sv_stores {_ _ _}.
Arguments sv_ticks {_ _ _}.

Section Storage.
Context {wire bytes engine : Type}.
Context `{RC : RoutingCodec wire, B : Bytes bytes, KC : KvsCodec wire bytes, VC : ValueCodec bytes}.
Context `{D : Dinomo engine bytes, SH : StdHash, U : Unordered}.
Context (cfg : server_config) (rand_r : Z → Z * Z) (clock_at : nat → Z).
Notation state := (server_state wire bytes engine).
Notation W := (M state).
Notation table := (gmap string (list (PendingRequest bytes))).
Implicit Types s : state.

Definition sv_set_node n s : state :=
  mkServerState n (sv_pending s) (sv_batching s) (sv_requests s) (sv_accesses s) (sv_access_count s)
    (sv_engine s) (sv_stores s) (sv_ticks s).
Definition sv_set_pending (t : table) s : state :=
  mkServerState (sv_node s) t (sv_batching s) (sv_requests s) (sv_accesses s) (sv_access_count s)
    (sv_engine s) (sv_stores s) (sv_ticks s).
Definition sv_set_batching (t : table) s : state :=
  mkServerState (sv_node s) (sv_pending s) t (sv_requests s) (sv_accesses s) (sv_access_count s)
    (sv_engine s) (sv_stores s) (sv_ticks s).
Definition sv_set_requests l s : state :=
  mkServerState (sv_node s) (sv_pending s) (sv_batching s) l (sv_accesses s) (sv_access_count s)
    (sv_engine s) (sv_stores s) (sv_ticks s).
Definition sv_set_accesses a n s : state :=
  mkServerState (sv_node s) (sv_pending s) (sv_batching s) (sv_requests s) a n
    (sv_engine s) (sv_stores s) (sv_ticks s).
Definition sv_set_engine e s : state :=
  mkServerState (sv_node s) (sv_pending s) (sv_batching s) (sv_requests s) (sv_accesses s) (sv_access_count s)
    e (sv_stores s) (sv_ticks s).
Definition sv_set_stores m s : state :=
  mkServerState (sv_node s) (sv_pending s) (sv_batching s) (sv_requests s) (sv_accesses s) (sv_access_count s)
    (sv_engine s) m (sv_ticks s).
Definition sv_set_ticks n s : state :=
  mkServerState (sv_node s) (sv_pending s) (sv_batching s) (sv_requests s) (sv_accesses s) (sv_access_count s)
    (sv_engine s) (sv_stores s) n.

(** What is shared with routing threads. *)
Definition on_node {A} (m : M (routing_state wire) A) : W A :=
  λ s, let '(r, n) := m (sv_node s) in (r, sv_set_node n s).

Definition sv_push (address : string) (msg : packet wire) : W unit := on_node (push address msg).
Definition sv_responsible (response_address key : string) (metadata : bool) : W (list ServerThread * bool) :=
  on_node (get_responsible_threads (sc_routing cfg) rand_r response_address key metadata [kSelfTier cfg]).

(** [std::chrono::system_clock::now()]: the time of the n-th call. *)
Definition now : W Z :=
  s ← get_state; modify (sv_set_ticks (S (sv_ticks s))) ;; mret (clock_at (sv_ticks s)).

Definition track_at (key : string) (time : Z) : W unit :=
  modify (λ s, sv_set_accesses (<[key := default [] (sv_accesses s !! key) ++ [time]]> (sv_accesses s))
    (u32 (sv_access_count s + 1)) s).
Definition track_access (key : string) : W unit := time ← now; track_at key time.

Definition add_waiting (key : string) (r : PendingRequest bytes) (t : table) : table :=
  <[key := default [] (t !! key) ++ [r]]> t.

(** ** Serializers *)

Inductive read_op : Type := Get | GetReplicated | GetMeta.
Inductive write_op : Type := Put | Update | PutReplicated | UpdateReplicated | PutMeta.

(** [MemoryLWWSerializer]: keys are numbers, except those of metadata. *)
Definition lww_read (op : read_op) (key : string) : W (bytes * Z) :=
  s ← get_state;
  r ← lift (match op with
            | Get => k ← stoul key; Ret (db_get k (sv_engine s))
            | GetReplicated => k ← stoul key; Ret (db_getReplicated k (sv_engine s))
            | GetMeta => Ret (db_getMeta key (sv_engine s))
            end);
  modify (sv_set_engine r.2) ;;
  let error := match r.1 with Some _ => NO_ERROR | None => KEY_DNE end in
  let val := deserialize_lww (default no_bytes r.1) in
  mret (serialize_lww val, if String.eqb (lww_value val) EmptyString then KEY_DNE else error).

Definition lww_write (op : write_op) (key : string) (serialized : bytes) : W Z :=
  s ← get_state;
  let v := with_zero serialized in
  let size := lww_size (deserialize_lww serialized) in
  r ← lift (match op with
            | Put => k ← stoul key; Ret (db_put k v false (sv_engine s))
            | Update => k ← stoul key; Ret (db_put k v true (sv_engine s))
            | PutReplicated => k ← stoul key; Ret (size, db_putReplicated k v false (sv_engine s))
            | UpdateReplicated => k ← stoul key; Ret (size, db_putReplicated k v true (sv_engine s))
            | PutMeta => Ret (size, db_putMeta key v (sv_engine s))
            end);
  modify (sv_set_engine r.2) ;;
  mret r.1.

(** [serializers[type]->put(key, serialized)] and the like: other types of values
    are only put, and there is no serializer for a type that is not known. *)
Definition memory_put (type : Z) (key : string) (serialized : bytes) (m : memory_stores) : Z * memory_stores :=
  if type =? LatticeType_value LT_SET then
    let r := serializer_put MemorySetSerializer key serialized (set_store m) in
    (r.1, mkMemoryStores r.2 (ordered_set_store m) (single_store m) (multi_store m) (priority_store m))
  else if type =? LatticeType_value LT_ORDERED_SET then
    let r := serializer_put MemoryOrderedSetSerializer key serialized (ordered_set_store m) in
    (r.1, mkMemoryStores (set_store m) r.2 (single_store m) (multi_store m) (priority_store m))
  else if type =? LatticeType_value LT_SINGLE_CAUSAL then
    let r := serializer_put MemorySingleKeyCausalSerializer key serialized (single_store m) in
    (r.1, mkMemoryStores (set_store m) (ordered_set_store m) r.2 (multi_store m) (priority_store m))
  else if type =? LatticeType_value LT_MULTI_CAUSAL then
    let r := serializer_put MemoryMultiKeyCausalSerializer key serialized (multi_store m) in
    (r.1, mkMemoryStores (set_store m) (ordered_set_store m) (single_store m) r.2 (priority_store m))
  else
    let r := serializer_put MemoryPrioritySerializer key serialized (priority_store m) in
    (r.1, mkMemoryStores (set_store m) (ordered_set_store m) (single_store m) (multi_store m) r.2).

Definition serializer_write (op : write_op) (type : Z) (key : string) (serialized : bytes) : W Z :=
  if type =? LatticeType_value LT_LWW then lww_write op key serialized
  else if (LatticeType_value LT_SET <=? type) && (type <=? LatticeType_value LT_PRIORITY) then
    match op with
    | Put => s ← get_state;
             let r := memory_put type key serialized (sv_stores s) in
             modify (sv_set_stores r.2) ;; mret r.1
    | _ => mret 1
    end
  else raise Undefined.

(** ** Answers *)

Definition plain_tuple (key : string) (lattice_type error : Z) : KeyTuple bytes :=
  mkKeyTuple key lattice_type error no_bytes 0 false [].

(** The requests that wait in a table, answered with an error code. *)
Definition answer_waiting (t : table) (error : Z) : W unit :=
  for_each (iterate (map_to_list t)) (λ kr,
    for_each kr.2 (λ request,
      if String.eqb (pr_addr request) EmptyString then mret tt
      else sv_push (pr_addr request) (Packed (kc_serialize_KeyResponse (pr_type request)
             (mkKeyResponse [plain_tuple kr.1 0 error] (pr_response_id request)))))).

Definition response_batching_requests : W unit :=
  s ← get_state;
  answer_waiting (sv_batching s) NO_ERROR ;;
  modify (sv_set_batching ∅).

(** ** user_request_handler.cpp *)

Definition read_tuple (op : read_op) (key : string) : W (KeyTuple bytes) :=
  res ← lww_read op key;
  mret (if is_empty res.1 then plain_tuple key 0 KEY_DNE
        else mkKeyTuple key (LatticeType_value LT_LWW) res.2 res.1 0 false []).

(** What becomes of a tuple: it is answered with the others, it waits, or the
    handler returns at once. *)
Inductive served : Type := Answer (tp : KeyTuple bytes) | Waits | Return.

Definition with_invalidation (tuple : KeyTuple bytes) (threads : list ServerThread) (tp : KeyTuple bytes)
  : KeyTuple bytes :=
  if (0 <? kt_address_cache_size tuple) && negb (kt_address_cache_size tuple =? Z.of_nat (length threads))
  then mkKeyTuple (kt_key tp) (kt_lattice_type tp) (kt_error tp) (kt_payload tp) (kt_address_cache_size tp)
         true (key_request_connect_address <$> threads)
  else tp.

(** A request for a key this thread is responsible for. *)
Definition serve_tuple (request : KeyRequest bytes) (tuple : KeyTuple bytes) (threads : list ServerThread)
    (batching : bool) : W served :=
  let key := kt_key tuple in
  let replicated := (1 <? length threads)%nat in
  let answer tp := track_access key ;; mret (Answer (with_invalidation tuple threads tp)) in
  let write op :=
    ret ← serializer_write op (kt_lattice_type tuple) key (kt_payload tuple);
    if replicated || negb batching then answer (plain_tuple key (kt_lattice_type tuple) NO_ERROR)
    else
      track_access key ;;
      (if ret =? 0 then mret tt else response_batching_requests) ;;
      modify (λ s, sv_set_batching (add_waiting key
        (mkPendingRequest (kr_type request) (kt_lattice_type tuple) no_bytes
           (kr_response_address request) (kr_request_id request)) (sv_batching s)) s) ;;
      mret Return in
  match kr_type request with
  | GET | READ => tp ← read_tuple (if replicated then GetReplicated else Get) key; answer tp
  | PUT | INSERT => write (if replicated then PutReplicated else Put)
  | UPDATE => write (if replicated then UpdateReplicated else Update)
  | RT_UNSPECIFIED => answer (plain_tuple key 0 NO_ERROR)
  end.

Definition serve_metadata (request : KeyRequest bytes) (tuple : KeyTuple bytes) : W served :=
  let key := kt_key tuple in
  tp ← match kr_type request with
       | GET | READ => read_tuple GetMeta key
       | PUT | INSERT | UPDATE =>
           serializer_write PutMeta (kt_lattice_type tuple) key (kt_payload tuple) ;;
           mret (plain_tuple key (kt_lattice_type tuple) NO_ERROR)
       | RT_UNSPECIFIED => mret (plain_tuple key 0 NO_ERROR)
       end;
  track_access key ;;
  mret (Answer tp).

(** [issue_replication_factor_local_request] of hash_ring.cpp *)
Definition issue_replication_factor_local_request (response_address key target_address : string) : W unit :=
  sv_push target_address (Packed (rc_serialize_KeyRequest
    (mkKeyRequest GET
       [mkKeyTuple (get_metadata_key key replication) (LatticeType_value LT_LWW) 0 rc_no_payload 0 false []]
       response_address EmptyString))).

Definition user_tuple (wt : ServerThread) (request : KeyRequest bytes) (batching : bool) (tuple : KeyTuple bytes)
  : W served :=
  let key := kt_key tuple in
  let wait :=
    modify (λ s, sv_set_pending (add_waiting key
      (mkPendingRequest (kr_type request) (kt_lattice_type tuple) (kt_payload tuple)
         (kr_response_address request) (kr_request_id request)) (sv_pending s)) s) ;;
    mret Waits in
  metadata ← lift (is_metadata key);
  if metadata : bool then serve_metadata request tuple
  else
    threads ← sv_responsible (replication_response_connect_address wt) key false;
    if negb threads.2 then wait
    else if has_server wt threads.1 then serve_tuple request tuple threads.1 batching
    else
      issue_replication_factor_local_request (replication_response_connect_address wt) key
        (key_request_connect_address wt) ;;
      wait.

(** The tuples of the response; [None] if the handler returned. *)
Fixpoint user_tuples (wt : ServerThread) (request : KeyRequest bytes) (batching : bool)
    (tuples answers : list (KeyTuple bytes)) : W (option (list (KeyTuple bytes))) :=
  match tuples with
  | [] => mret (Some answers)
  | tuple :: tuples' =>
      r ← user_tuple wt request batching tuple;
      match r with
      | Answer tp => user_tuples wt request batching tuples' (answers ++ [tp])
      | Waits => user_tuples wt request batching tuples' answers
      | Return => mret None
      end
  end.

Definition user_request_handler (wt : ServerThread) (batching : bool) (serialized : wire) : W unit :=
  let request := kc_parse_KeyRequest serialized in
  answers ← user_tuples wt request batching (kr_tuples request) [];
  match answers with
  | Some ((_ :: _) as tuples) =>
      if String.eqb (kr_response_address request) EmptyString then mret tt
      else sv_push (kr_response_address request) (Packed (kc_serialize_KeyResponse (kr_type request)
             (mkKeyResponse tuples (kr_request_id request))))
  | _ => mret tt
  end.

(** The part of the loop that ends a batch, when the threshold has passed. *)
Definition batching_round (elapsed : Z) : W unit :=
  if kEnableBatching cfg && (kBatchingThreshold cfg <=? elapsed) then
    modify (λ s, sv_set_engine (db_flush (sv_engine s)) s) ;;
    response_batching_requests
  else mret tt.

End Storage.
