(* ===== verification/StorageProps.v ===== *)
(** * Properties of the storage node *)

From S2P Require Import Prelude Objects OrderedSet Lattices Messages Cpp Threads Metadata HashRing.
From S2P Require Import HashRingProps Routing RoutingProps CppLattices Storage.

#[local] Open Scope Z_scope.

Section Send.
Context {wire bytes engine : Type}.
Notation state := (server_state wire bytes engine).
Implicit Types s : state.

(** ** Sending *)

Definition sv_pushed s : list (string * packet wire) := pushed (sv_node s).
Definition sv_add_pushed (ps : list (string * packet wire)) s : state := sv_set_node (pushes ps (sv_node s)) s.

Lemma sv_add_pushed_nil s : sv_add_pushed [] s = s.
Proof. destruct s. by rewrite /sv_add_pushed /= pushes_nil. Qed.
Lemma sv_add_pushed_app ps qs s : sv_add_pushed qs (sv_add_pushed ps s) = sv_add_pushed (ps ++ qs) s.
Proof. by rewrite /sv_add_pushed /sv_set_node /= pushes_pushes. Qed.

Lemma sv_pushes {A} (l : list A) (f : A → M state unit) (ps : A → list (string * packet wire)) s :
  (∀ x s, x ∈ l → f x s = (Ret tt, sv_add_pushed (ps x) s)) →
  for_each l f s = (Ret tt, sv_add_pushed (l ≫= ps) s).
Proof. apply for_each_adds; [apply sv_add_pushed_nil|intros; apply sv_add_pushed_app]. Qed.

Lemma sv_pushes_map {A} (l : list A) (f : A → string) (g : A → packet wire) s :
  for_each l (λ x, sv_push (f x) (g x)) s = (Ret tt, sv_add_pushed ((λ x, (f x, g x)) <$> l) s).
Proof. by rewrite (sv_pushes _ _ (λ x, [(f x, g x)])). Qed.

End Send.

(** ** Requests that wait *)

Section Answers.
Context {wire bytes engine : Type} `{B : Bytes bytes, KC : KvsCodec wire bytes, U : Unordered}.
Notation table := (gmap string (list (PendingRequest bytes))).
Implicit Types s : server_state wire bytes engine.

(** The requests of a table, and what answers one. *)
Definition waiting (t : list (string * list (PendingRequest bytes))) : list (string * PendingRequest bytes) :=
  t ≫= λ kr, pair kr.1 <$> kr.2.

Definition reply (error : Z) (kr : string * PendingRequest bytes) : list (string * packet wire) :=
  if String.eqb (pr_addr kr.2) EmptyString then []
  else [(pr_addr kr.2, Packed (kc_serialize_KeyResponse (pr_type kr.2)
           (mkKeyResponse [plain_tuple kr.1 0 error] (pr_response_id kr.2))))].

Lemma bind_fmap_pair {X Y Z'} (l : list X) (x : Y) (f : Y * X → list Z') :
  (pair x <$> l) ≫= f = l ≫= λ y, f (x, y).
Proof. induction l as [|y l IH]; [done|]. by rewrite fmap_cons !bind_cons IH. Qed.

Lemma waiting_bind {C} t (f : string * PendingRequest bytes → list C) :
  waiting t ≫= f = t ≫= λ kr, kr.2 ≫= λ r, f (kr.1, r).
Proof.
  induction t as [|kr t IH]; [done|]. rewrite /waiting bind_cons bind_app bind_fmap_pair.
  by rewrite bind_cons -IH.
Qed.

Lemma answer_waiting_run (t : table) error s :
  answer_waiting t error s = (Ret tt, sv_add_pushed (waiting (iterate (map_to_list t)) ≫= reply error) s).
Proof.
  rewrite waiting_bind /answer_waiting. apply sv_pushes. intros kr s1 _.
  apply (sv_pushes _ _ (λ r, reply error (kr.1, r))). intros r s2 _. rewrite /reply /=.
  destruct (String.eqb (pr_addr r) EmptyString); [by rewrite sv_add_pushed_nil|done].
Qed.

Definition batch_answered (s : server_state wire bytes engine) : server_state wire bytes engine :=
  sv_add_pushed (waiting (iterate (map_to_list (sv_batching s))) ≫= reply NO_ERROR) (sv_set_batching ∅ s).

Lemma response_batching_run s : response_batching_requests s = (Ret tt, batch_answered s).
Proof.
  rewrite /response_batching_requests. erewrite bind_ret by reflexivity.
  by rewrite (bind_ret _ _ _ _ _ (answer_waiting_run _ _ _)).
Qed.

Lemma waiting_perm (t : table) : waiting (iterate (map_to_list t)) ≡ₚ waiting (map_to_list t).
Proof. apply bind_perm; [done|apply iterate_perm]. Qed.

End Answers.

(** ** A reference engine *)

(** It keeps what is put, for data and for metadata. *)
Definition map_engine (bytes : Type) : Type := gmap Z bytes * gmap string bytes.

Definition map_dinomo {bytes : Type} : Dinomo (map_engine bytes) bytes := {|
  db_get k e := (e.1 !! k, e);
  db_put k v _ e := (0, (<[k := v]> e.1, e.2));
  db_getMeta k e := (e.2 !! k, e);
  db_putMeta k v e := (e.1, <[k := v]> e.2);
  db_getReplicated k e := (e.1 !! k, e);
  db_putReplicated k v _ e := (<[k := v]> e.1, e.2);
  db_merge _ e := e;
  db_flush e := e;
  db_failover _ e := e;
  db_invalidate_cache _ e := e;
  db_swap _ _ e := e
|}.
