(* ===== verification/StorageServer.v ===== *)
(** * A storage node as a server of clients

    A thread of a storage node that alone is responsible for some keys works the
    storage engine for its clients: which calls it makes for the requests that
    arrive, and what it answers from what the engine returns.  Nothing is assumed
    of the engine. *)

From S2P Require Import Prelude Objects OrderedSet Lattices Transport Client ClientProps Messages.
From S2P Require Import Cpp Threads Metadata HashRing HashRingProps Routing RoutingProps RoutingPeers.
From S2P Require Import CppLattices Storage StorageProps.

#[local] Open Scope Z_scope.

(** ** What the thread relies on *)

(** The protocol buffer library: a serialized value is read back, also when a
    zero byte follows it, fields that are missing have their defaults, and a
    field that is set takes space. *)
Class LwwLaws {bytes : Type} (B : Bytes bytes) (VC : ValueCodec bytes) : Prop := {
  read_put ts v : 0 ≤ ts < 2 ^ 64 → read_LWWValue (with_zero (put_LWWValue ts v)) = (ts, v);
  read_nothing : read_LWWValue no_bytes = (0, EmptyString);
  put_takes_space ts v : v ≠ EmptyString → is_empty (put_LWWValue ts v) = false
}.

Section Serve.
Context {wire bytes engine : Type}.
Context `{RC : RoutingCodec wire, B : Bytes bytes, KC : KvsCodec wire bytes, VC : ValueCodec bytes}.
Context `{D : Dinomo engine bytes, SH : StdHash, U : Unordered}.
Context `{LV : !LwwLaws B VC}.
Context (cfg : server_config) (rand_r : Z → Z * Z) (clock_at : nat → Z) (wt : ServerThread).
Notation state := (server_state wire bytes engine).
Notation rcfg := (sc_routing cfg).
Implicit Types (s : state) (e : engine).

(** ** Specification *)

Definition reads (type : RequestType) : bool := match type with GET | READ => true | _ => false end.
Definition writes (type : RequestType) : bool :=
  match type with PUT | INSERT | UPDATE => true | _ => false end.

Definition updates (type : RequestType) : bool := match type with UPDATE => true | _ => false end.

(** What the engine returns for a key, and the call for a tuple. *)
Definition engine_read e (key : string) : option bytes :=
  match stoul key with Ret k => (db_get k e).1 | _ => None end.

Definition engine_put (update : bool) e (tuple : KeyTuple bytes) : Z * engine :=
  match stoul (kt_key tuple) with
  | Ret k => db_put k (with_zero (kt_payload tuple)) update e
  | _ => (0, e)
  end.

Definition engine_tuple (type : RequestType) e (tuple : KeyTuple bytes) : engine :=
  if reads type then match stoul (kt_key tuple) with Ret k => (db_get k e).2 | _ => e end
  else (engine_put (updates type) e tuple).2.

Definition engine_request e (request : KeyRequest bytes) : engine :=
  foldl (engine_tuple (kr_type request)) e (kr_tuples request).

(** A value that is empty counts as none. *)
Definition value_in (o : option bytes) : option TimestampValuePair :=
  v ← deserialize_lww <$> o;
  if String.eqb (lww_value v) EmptyString then None else Some v.

(** A read is answered with what the engine returned. *)
Definition answers_value (o : option bytes) (answer : KeyTuple bytes) : Prop :=
  match value_in o with
  | None => kt_error answer = KEY_DNE
  | Some v => kt_error answer = NO_ERROR ∧ kt_payload answer = serialize_lww v ∧
              kt_lattice_type answer = LatticeType_value LT_LWW
  end.

(** The answer to a tuple: the client learns of other threads if it knows a
    number of addresses that is not one. *)
Definition answers_tuple e (type : RequestType) (tuple answer : KeyTuple bytes) : Prop :=
  kt_key answer = kt_key tuple ∧
  kt_invalidate answer = (0 <? kt_address_cache_size tuple) && negb (kt_address_cache_size tuple =? 1) ∧
  if reads type then answers_value (engine_read e (kt_key tuple)) answer
  else kt_error answer = NO_ERROR ∧ kt_lattice_type answer = kt_lattice_type tuple.

(** The tuples of a request are answered in turn. *)
Fixpoint answers_tuples e (type : RequestType) (tuples answers : list (KeyTuple bytes)) : Prop :=
  match tuples, answers with
  | [], [] => True
  | tuple :: tuples', answer :: answers' =>
      answers_tuple e type tuple answer ∧ answers_tuples (engine_tuple type e tuple) type tuples' answers'
  | _, _ => False
  end.

(** The answer to a request, if it says where to send it. *)
Definition answers_request e (request : KeyRequest bytes) (ps : list (string * packet wire)) : Prop :=
  if String.eqb (kr_response_address request) EmptyString then ps = []
  else match kr_tuples request with
       | [] => ps = []
       | tuples => ∃ answers, answers_tuples e (kr_type request) tuples answers ∧
           ps = [(kr_response_address request, Packed (kc_serialize_KeyResponse (kr_type request)
                    (mkKeyResponse answers (kr_request_id request))))]
       end.

(** Requests are answered in turn, each with the engine the ones before it left. *)
Fixpoint answers_all e (requests : list (KeyRequest bytes)) (ps : list (string * packet wire)) : Prop :=
  match requests with
  | [] => ps = []
  | request :: requests' => ∃ ps1 ps2, ps = ps1 ++ ps2 ∧
      answers_request e request ps1 ∧ answers_all (engine_request e request) requests' ps2
  end.

(** ** Refinement *)

(** Writes are of last-writer-wins values. *)
Definition tuple_ok (keys : list string) (type : RequestType) (tuple : KeyTuple bytes) : Prop :=
  kt_key tuple ∈ keys ∧ (writes type → kt_lattice_type tuple = LatticeType_value LT_LWW).

(** Reads, and writes when there are no batches. *)
Definition request_ok (batching : bool) (keys : list string) (request : KeyRequest bytes) : Prop :=
  (reads (kr_type request) ∨ writes (kr_type request) ∧ batching = false) ∧
  Forall (tuple_ok keys (kr_type request)) (kr_tuples request).

(** The thread alone is responsible for the key, which is the text of a number. *)
Definition owned s (key : string) : Prop :=
  is_metadata key = Ret false ∧ is_Some (match stoul key with Ret k => Some k | _ => None end) ∧
  resolvable rcfg (sv_node s) key ∧ located rcfg (sv_node s) key (kSelfTier cfg) = Ret [wt].

(** ** One tuple *)

Lemma read_value key k s :
  stoul key = Ret k →
  ∃ tp, read_tuple Get key s = (Ret tp, sv_set_engine (db_get k (sv_engine s)).2 s) ∧
    kt_key tp = key ∧ kt_invalidate tp = false ∧
    answers_value (engine_read (sv_engine s) key) tp.
Proof.
  intros Hk. rewrite /read_tuple /lww_read /answers_value /engine_read Hk. eexists. split; [reflexivity|].
  rewrite /=. destruct (db_get k (sv_engine s)).1 as [b|]; cbn [from_option id value_in fmap option_fmap option_map mbind option_bind].
  - destruct (String.eqb_spec (lww_value (deserialize_lww b)) EmptyString) as [E|E]; [by destruct (is_empty _)|].
    by rewrite /serialize_lww put_takes_space.
  - assert (lww_value (deserialize_lww no_bytes) = EmptyString) as -> by (by rewrite /deserialize_lww read_nothing).
    by destruct (is_empty _).
Qed.

(** What serving changes besides the engine: it sends, and initialises factors. *)
Record served_from (ps : list (string * packet wire)) s s' : Prop := {
  sf_alike : alike rcfg (pushes ps (sv_node s)) (sv_node s');
  sf_pending : sv_pending s' = sv_pending s;
  sf_batching : sv_batching s' = sv_batching s
}.

Lemma owned_alike ps s s' key :
  alike rcfg (pushes ps (sv_node s)) (sv_node s') → owned s key → owned s' key.
Proof.
  intros Ha (Hm & Hk & Hr & Hl). do 2 (split; [done|]).
  split; [by apply (resolvable_alike _ _ _ _ Ha)|by rewrite (located_alike _ _ _ _ _ Ha)].
Qed.

Lemma owned_after ps s s' key : served_from ps s s' → owned s key → owned s' key.
Proof. intros [Ha _ _]. by apply (owned_alike ps). Qed.

Lemma served_refl s : served_from [] s s.
Proof. split; [|done..]. by rewrite pushes_nil. Qed.

Lemma served_trans ps qs s1 s2 s3 :
  served_from ps s1 s2 → served_from qs s2 s3 → served_from (ps ++ qs) s1 s3.
Proof.
  intros [Ha1 Hp1 Hb1] [Ha2 Hp2 Hb2]. split; [|congruence..]. rewrite -pushes_pushes.
  destruct Ha1, Ha2. constructor; intros; cbn in *; try (etrans; eauto; fail); auto.
  by rewrite alike_pushed0 alike_pushed.
Qed.

Lemma responsible_run address key s :
  owned s key → ∃ n, alike rcfg (sv_node s) n ∧
    sv_responsible cfg rand_r address key false s = (Ret ([wt], true), sv_set_node n s).
Proof.
  intros (_ & _ & Hr & Hl).
  destruct (get_responsible_threads_answers rcfg rand_r address key (kSelfTier cfg) (sv_node s) Hr)
    as (n & Hn & Ha).
  exists n. split; [done|]. rewrite /sv_responsible /on_node Hn Hl. done.
Qed.

Lemma track_run key s : ∃ s', track_access clock_at key s = (Ret tt, s') ∧
  sv_node s' = sv_node s ∧ sv_pending s' = sv_pending s ∧ sv_batching s' = sv_batching s ∧
  sv_engine s' = sv_engine s.
Proof. by eexists. Qed.

(** The end of [serve_tuple]. *)
Lemma answer_run e type tuple tp :
  kt_key tp = kt_key tuple → kt_invalidate tp = false →
  (if reads type then answers_value (engine_read e (kt_key tuple)) tp
   else kt_error tp = NO_ERROR ∧ kt_lattice_type tp = kt_lattice_type tuple) →
  answers_tuple e type tuple (with_invalidation tuple [wt] tp).
Proof.
  intros Hk Hi Hv. rewrite /answers_tuple /answers_value /with_invalidation. cbn [length]. change (Z.of_nat 1) with 1.
  by destruct ((0 <? kt_address_cache_size tuple) && negb (kt_address_cache_size tuple =? 1)).
Qed.

Lemma serve_tuple_run batching keys request tuple k s :
  reads (kr_type request) ∨ writes (kr_type request) ∧ batching = false → tuple_ok keys (kr_type request) tuple →
  stoul (kt_key tuple) = Ret k →
  ∃ answer s', serve_tuple clock_at request tuple [wt] batching s = (Ret (Answer answer), s') ∧
    answers_tuple (sv_engine s) (kr_type request) tuple answer ∧
    sv_engine s' = engine_tuple (kr_type request) (sv_engine s) tuple ∧
    sv_node s' = sv_node s ∧ sv_pending s' = sv_pending s ∧ sv_batching s' = sv_batching s.
Proof.
  intros Htype [Hkey Hw] Ek.
  set (type := kr_type request) in *. rewrite /serve_tuple -/type. cbn [length Nat.ltb Nat.leb].
  rewrite /engine_tuple /engine_put Ek. destruct (reads type) eqn:Er.
  - destruct (read_value _ k s Ek) as (tp & Hrun & Htk & Hti & Hv).
    destruct (track_run (kt_key tuple) (sv_set_engine (db_get k (sv_engine s)).2 s)) as (s' & Ht & H1 & H2 & H3 & H4).
    exists (with_invalidation tuple [wt] tp), s'. split; [|split; [|done]].
    + destruct type; try done; rewrite (bind_ret _ _ _ _ _ Hrun) (bind_ret _ _ _ _ _ Ht); done.
    + apply answer_run; [done..|]. by rewrite Er.
  - destruct Htype as [?|[Hwr ->]]; [done|]. specialize (Hw Hwr).
    destruct (track_run (kt_key tuple)
      (sv_set_engine (db_put k (with_zero (kt_payload tuple)) (updates type) (sv_engine s)).2 s))
      as (s' & Ht & H1 & H2 & H3 & H4).
    exists (with_invalidation tuple [wt] (plain_tuple (kt_key tuple) (kt_lattice_type tuple) NO_ERROR)), s'.
    split; [|split; [|done]].
    + rewrite /serializer_write Hw. cbn [Z.eqb LatticeType_value Pos.eqb].
      destruct type; try done; rewrite /lww_write Ek; cbn [orb negb];
        (erewrite bind_ret by reflexivity); by rewrite (bind_ret _ _ _ _ _ Ht).
    + apply answer_run; [done..|]. by rewrite Er.
Qed.

Lemma user_tuple_run batching keys request tuple s :
  Forall (owned s) keys → reads (kr_type request) ∨ writes (kr_type request) ∧ batching = false →
  tuple_ok keys (kr_type request) tuple →
  ∃ answer s', user_tuple cfg rand_r clock_at wt request batching tuple s = (Ret (Answer answer), s') ∧
    answers_tuple (sv_engine s) (kr_type request) tuple answer ∧
    sv_engine s' = engine_tuple (kr_type request) (sv_engine s) tuple ∧ served_from [] s s'.
Proof.
  intros Ho Htype Ht. rewrite Forall_forall in Ho.
  pose proof (Ho (kt_key tuple) (proj1 Ht)) as Hown.
  destruct (responsible_run (replication_response_connect_address wt) _ _ Hown) as (n & Ha & Hrun).
  destruct (proj1 (proj2 Hown)) as [k Hk]. destruct (stoul (kt_key tuple)) as [k'| | |] eqn:Ek; try done.
  destruct (serve_tuple_run batching keys request tuple k' (sv_set_node n s))
    as (answer & s' & Hs & Hans & He & Hn & Hp & Hb); [done..|].
  exists answer, s'. split; [|split; [done|split; [done|]]].
  - rewrite /user_tuple (proj1 Hown). erewrite bind_ret by reflexivity. lazy iota. rewrite (bind_ret _ _ _ _ _ Hrun).
    rewrite /has_server /same_server /= String.eqb_refl. done.
  - split; [|done..]. by rewrite pushes_nil Hn.
Qed.

(** ** Requests *)

Lemma user_tuples_run batching keys request tuples answers s :
  Forall (owned s) keys → reads (kr_type request) ∨ writes (kr_type request) ∧ batching = false →
  Forall (tuple_ok keys (kr_type request)) tuples →
  ∃ answers' s', user_tuples cfg rand_r clock_at wt request batching tuples answers s =
      (Ret (Some (answers ++ answers')), s') ∧
    answers_tuples (sv_engine s) (kr_type request) tuples answers' ∧
    sv_engine s' = foldl (engine_tuple (kr_type request)) (sv_engine s) tuples ∧ served_from [] s s'.
Proof.
  intros Ho Htype Ht. revert answers s Ho.
  induction Ht as [|tuple tuples Ht Hts IH]; intros answers s Ho.
  { exists [], s. rewrite app_nil_r. split; [done|]. split; [done|]. split; [done|apply served_refl]. }
  destruct (user_tuple_run batching keys request tuple s) as (answer & s1 & H1 & Ha1 & He1 & Hf1); [done..|].
  destruct (IH (answers ++ [answer]) s1) as (answers' & s2 & H2 & Ha2 & He2 & Hf2).
  { eapply Forall_impl; [exact Ho|]. intros key. by apply (owned_after []). }
  exists (answer :: answers'), s2. cbn [user_tuples]. rewrite (bind_ret _ _ _ _ _ H1) H2 -app_assoc.
  rewrite He1 in Ha2, He2. split; [done|]. split; [done|]. split; [done|by apply (served_trans [] [] s s1)].
Qed.

Lemma user_request_run batching keys w s :
  Forall (owned s) keys → request_ok batching keys (kc_parse_KeyRequest w) →
  ∃ ps s', user_request_handler cfg rand_r clock_at wt batching w s = (Ret tt, s') ∧
    answers_request (sv_engine s) (kc_parse_KeyRequest w) ps ∧
    sv_engine s' = engine_request (sv_engine s) (kc_parse_KeyRequest w) ∧ served_from ps s s'.
Proof.
  intros Ho [Htype Hts]. set (request := kc_parse_KeyRequest w) in *.
  destruct (user_tuples_run batching keys request (kr_tuples request) [] s) as (answers & s1 & H1 & Ha & He & Hf);
    [done..|].
  rewrite /user_request_handler -/request (bind_ret _ _ _ _ _ H1) app_nil_l /answers_request /engine_request -He.
  destruct (kr_tuples request) as [|tuple tuples], answers as [|answer answers]; try done.
  { exists [], s1. split; [done|]. split; [by destruct (String.eqb _ _)|done]. }
  destruct (String.eqb (kr_response_address request) EmptyString).
  { by exists [], s1. }
  eexists _, _. split; [reflexivity|]. split; [eexists; split; [exact Ha|reflexivity]|].
  split; [done|]. apply (served_trans [] _ s s1); [done|]. by split.
Qed.

Lemma requests_run batching keys msgs s :
  Forall (owned s) keys → Forall (λ w, request_ok batching keys (kc_parse_KeyRequest w)) msgs →
  ∃ ps s', for_each msgs (user_request_handler cfg rand_r clock_at wt batching) s = (Ret tt, s') ∧
    answers_all (sv_engine s) (kc_parse_KeyRequest <$> msgs) ps ∧
    sv_engine s' = foldl engine_request (sv_engine s) (kc_parse_KeyRequest <$> msgs) ∧ served_from ps s s'.
Proof.
  intros Ho Hok. revert s Ho. induction Hok as [|w msgs Hw _ IH]; intros s Ho.
  { exists [], s. split; [done|]. split; [done|]. split; [done|apply served_refl]. }
  destruct (user_request_run batching keys w s) as (ps1 & s1 & H1 & Ha1 & He1 & Hf1); [done..|].
  destruct (IH s1) as (ps2 & s2 & H2 & Ha2 & He2 & Hf2).
  { eapply Forall_impl; [exact Ho|]. intros key. by apply (owned_after ps1). }
  rewrite He1 in Ha2, He2. exists (ps1 ++ ps2), s2. cbn [for_each]. rewrite (bind_ret _ _ _ _ _ H1) H2.
  split; [done|]. split; [by exists ps1, ps2|]. split; [done|by apply (served_trans _ _ s s1)].
Qed.

Lemma served_pushed ps s s' : served_from ps s s' → sv_pushed s' = sv_pushed s ++ ps.
Proof. intros [Ha _ _]. apply (alike_pushed _ _ _ Ha). Qed.

End Serve.

(** ** Properties *)

(** C5: a storage thread works the engine for its clients faithfully, whatever the
    engine does.  For keys that are numbers and that it alone is responsible for,
    let reads arrive, and, if the thread does not batch, writes of last-writer-wins
    values: each tuple makes one call of the engine, in the order of arrival and
    under the number of its key, with the payload of a write and a final zero; every
    request that gives an address is answered at once, with all its tuples in order;
    a read is answered with the value that the engine returned for this very call,
    or [KEY_DNE] if it returned none or an empty value; a write is acknowledged.  The
    client of a key hears that its addresses are out of date exactly when it knows a
    number of them that is not one; no request is left waiting. *)
Theorem storage_refines_engine {wire bytes engine : Type}
    `{RC : RoutingCodec wire, B : Bytes bytes, KC : KvsCodec wire bytes, VC : ValueCodec bytes,
      D : Dinomo engine bytes, SH : StdHash, U : Unordered, LV : !LwwLaws B VC}
    cfg rand_r clock_at wt batching keys msgs (s : server_state wire bytes engine) :
  Forall (owned cfg wt s) keys → Forall (λ w, request_ok batching keys (kc_parse_KeyRequest w)) msgs →
  ∃ ps s', for_each msgs (user_request_handler cfg rand_r clock_at wt batching) s = (Ret tt, s') ∧
    sv_pushed s' = sv_pushed s ++ ps ∧ answers_all (sv_engine s) (kc_parse_KeyRequest <$> msgs) ps ∧
    sv_engine s' = foldl engine_request (sv_engine s) (kc_parse_KeyRequest <$> msgs) ∧
    sv_pending s' = sv_pending s ∧ sv_batching s' = sv_batching s.
Proof.
  intros Ho Hok.
  destruct (requests_run cfg rand_r clock_at wt batching keys msgs s Ho Hok) as (ps & s' & H1 & Ha & He & Hf).
  exists ps, s'. split; [done|]. split; [by apply (served_pushed cfg)|]. by destruct Hf.
Qed.

(** ** A small instance

    A thread that serves the messages of the example client from the reference
    engine. *)

Definition model_bytes : Bytes pbmsg := {|
  no_bytes := LWWValue 0 EmptyString;
  is_empty p := match p with LWWValue 0 EmptyString => true | _ => false end;
  with_zero p := p
|}.

Definition model_values : ValueCodec pbmsg := {|
  put_LWWValue := LWWValue;
  read_LWWValue b := match b with LWWValue ts v => (ts, v) | _ => (0, EmptyString) end;
  put_SetValue := SetValue;
  read_SetValue b := match b with SetValue vs => vs | _ => [] end;
  put_SingleKeyCausalValue vc := SingleKeyCausalValue (map_to_list vc);
  read_SingleKeyCausalValue b :=
    match b with SingleKeyCausalValue vc vs => (list_to_map vc, vs) | _ => (∅, []) end;
  put_MultiKeyCausalValue vc deps := MultiKeyCausalValue (map_to_list vc) (prod_map id map_to_list <$> deps);
  read_MultiKeyCausalValue b :=
    match b with
    | MultiKeyCausalValue vc deps vs => (list_to_map vc, prod_map id list_to_map <$> deps, vs)
    | _ => (∅, [], [])
    end;
  put_PriorityValue := PriorityValue;
  read_PriorityValue b := match b with PriorityValue p v => (p, v) | _ => (SpecFloat.S754_zero false, EmptyString) end
|}.

Definition model_kvs_codec : KvsCodec message pbmsg := {|
  kc_parse_KeyRequest m :=
    match m with MKeyRequest r => r | _ => mkKeyRequest RT_UNSPECIFIED [] EmptyString EmptyString end;
  kc_serialize_KeyRequest := MKeyRequest;
  kc_serialize_KeyResponse _ := MKeyResponse
|}.

Lemma model_lww_laws : LwwLaws model_bytes model_values.
Proof. split; [done|done|]. by intros [] [|c v]. Qed.

#[local] Existing Instances routing_model_codec model_bytes model_values model_kvs_codec map_dinomo.
#[local] Existing Instances sample_std_hash insertion_order model_lww_laws.

Definition model_thread : ServerThread := server_thread "1.1.1.1" "10.0.0.1" 0.
Definition model_server : server_config :=
  mkServerConfig (sample_config true) MEMORY 1 false 1000 1 [] [].
Definition model_server_state : server_state message pbmsg (map_engine pbmsg) :=
  mkServerState (sample_routing []) ∅ ∅ [] ∅ 0 (∅, ∅) (mkMemoryStores ∅ ∅ ∅ ∅ ∅) 0.

Lemma model_owned : Forall (owned model_server model_thread model_server_state) ["7"%string].
Proof.
  apply Forall_singleton. split; [reflexivity|]. split; [by eexists|]. split; [by right|].
  vm_compute. reflexivity.
Qed.

(** A write and a read. *)
Definition model_requests : list message :=
  [MKeyRequest (mkKeyRequest PUT [mkKeyTuple "7" 1 0 (LWWValue 5 "v") 0 false []] "tcp://c:6460" "c:0");
   MKeyRequest (mkKeyRequest GET [mkKeyTuple "7" 0 0 (SetValue []) 0 false []] "tcp://c:6460" "c:1")].

Lemma storage_refines_engine_witness :
  ∃ ps s', for_each model_requests
      (user_request_handler model_server (λ z, (z, z)) (λ n, Z.of_nat n) model_thread false) model_server_state =
      (Ret tt, s') ∧
    sv_pushed s' = ps ∧ answers_all (∅, ∅) (kc_parse_KeyRequest <$> model_requests) ps ∧
    sv_engine s' = ({[7 := LWWValue 5 "v"]}, ∅).
Proof.
  destruct (storage_refines_engine model_server (λ z, (z, z)) (λ n, Z.of_nat n) model_thread false ["7"%string]
    model_requests model_server_state) as (ps & s' & H1 & H2 & H3 & H4 & _).
  - exact model_owned.
  - apply Forall_cons_2; [|apply Forall_singleton]; (split; [by (left + right)|]); apply Forall_singleton;
      (split; [by apply list_elem_of_singleton|done]).
  - exists ps, s'. split; [exact H1|]. split; [exact H2|]. split; [exact H3|]. rewrite H4. vm_compute. reflexivity.
Defined.
