(* ===== verification/StorageBatch.v ===== *)
(** * Batches of writes

    With batching a storage thread keeps the acknowledgement of a write until the
    engine has written the batch: what it owes its clients. *)

From S2P Require Import Prelude Objects OrderedSet Lattices Transport Client ClientProps Messages.
From S2P Require Import Cpp Threads Metadata HashRing HashRingProps Routing RoutingProps RoutingPeers CppLattices.
From S2P Require Import Storage StorageProps StorageServer.

#[local] Open Scope Z_scope.

Section Batch.
Context {wire bytes engine : Type}.
Context `{RC : RoutingCodec wire, B : Bytes bytes, KC : KvsCodec wire bytes, VC : ValueCodec bytes}.
Context `{D : Dinomo engine bytes, SH : StdHash, U : Unordered}.
Context (cfg : server_config) (rand_r : Z → Z * Z) (clock_at : nat → Z) (wt : ServerThread).
Notation state := (server_state wire bytes engine).
Notation table := (gmap string (list (PendingRequest bytes))).
Implicit Types (s : state) (e : engine) (t : table).

(** The acknowledgements of the batch. *)
Definition owed t : list (string * packet wire) := waiting (map_to_list t) ≫= reply NO_ERROR.

(** The entry of a write in the batch, and its acknowledgement. *)
Definition batched (request : KeyRequest bytes) (tuple : KeyTuple bytes) : PendingRequest bytes :=
  mkPendingRequest (kr_type request) (kt_lattice_type tuple) no_bytes
    (kr_response_address request) (kr_request_id request).
Definition acknowledgement (request : KeyRequest bytes) (tuple : KeyTuple bytes) : list (string * packet wire) :=
  reply NO_ERROR (kt_key tuple, batched request tuple).

Lemma waiting_insert t key rs :
  waiting (map_to_list (<[key := rs]> t)) ≡ₚ waiting (map_to_list (delete key t)) ++ (pair key <$> rs).
Proof.
  rewrite -insert_delete_eq. rewrite /waiting map_to_list_insert; [|apply lookup_delete_eq].
  by rewrite bind_cons Permutation_app_comm.
Qed.

Lemma waiting_add t key r :
  waiting (map_to_list (add_waiting key r t)) ≡ₚ waiting (map_to_list t) ++ [(key, r)].
Proof.
  rewrite /add_waiting waiting_insert fmap_app app_assoc. apply Permutation_app_tail.
  destruct (t !! key) as [rs|] eqn:E; [by rewrite -waiting_insert insert_id|].
  by rewrite app_nil_r delete_id.
Qed.

Lemma owed_add t key r : owed (add_waiting key r t) ≡ₚ owed t ++ reply NO_ERROR (key, r).
Proof.
  rewrite /owed. etrans; [apply bind_perm; [done|apply waiting_add]|]. rewrite bind_app. cbn. by rewrite app_nil_r.
Qed.

Lemma owed_empty : owed ∅ = [].
Proof. by rewrite /owed map_to_list_empty. Qed.

(** ** One write *)

Lemma batched_write_run request tuple k s :
  writes (kr_type request) → stoul (kt_key tuple) = Ret k → kt_lattice_type tuple = LatticeType_value LT_LWW →
  serve_tuple clock_at request tuple [wt] true s =
    let r := engine_put (updates (kr_type request)) (sv_engine s) tuple in
    (track_access clock_at (kt_key tuple) ;;
     (if r.1 =? 0 then mret tt else response_batching_requests) ;;
     modify (λ s, sv_set_batching (add_waiting (kt_key tuple) (batched request tuple) (sv_batching s)) s) ;;
     mret Return) (sv_set_engine r.2 s).
Proof.
  intros Hw Hk Ht. rewrite /serve_tuple /serializer_write Ht.
  cbn [Z.eqb LatticeType_value Pos.eqb orb negb length Nat.ltb Nat.leb].
  rewrite /lww_write Hk /batched Ht /engine_put Hk.
  destruct request as [[] tuples address id]; try done; (erewrite bind_ret by reflexivity); done.
Qed.

(** A write is put and joins the batch, which is acknowledged before if the engine
    says that a block is full; the rest of its request is not looked at. *)
Lemma batched_tuple_run keys request tuple s :
  Forall (owned cfg wt s) keys → writes (kr_type request) → tuple_ok keys (kr_type request) tuple →
  let r := engine_put (updates (kr_type request)) (sv_engine s) tuple in
  ∃ ps s', user_tuple cfg rand_r clock_at wt request true tuple s = (Ret Return, s') ∧
    ps ++ owed (sv_batching s') ≡ₚ owed (sv_batching s) ++ acknowledgement request tuple ∧
    (r.1 = 0 → ps = []) ∧ sv_engine s' = r.2 ∧
    alike (sc_routing cfg) (pushes ps (sv_node s)) (sv_node s') ∧ sv_pending s' = sv_pending s.
Proof.
  intros Ho Hw [Hkey Hp] r. rewrite Forall_forall in Ho. pose proof (Ho _ Hkey) as Hown.
  destruct (responsible_run cfg rand_r wt (replication_response_connect_address wt) _ _ Hown) as (n & Ha & Hrun).
  destruct Hown as (Hm & [k Hk] & _). destruct (stoul (kt_key tuple)) as [k'| | |] eqn:Ek; try done.
  pose proof (batched_write_run request tuple k' (sv_set_node n s) Hw Ek (Hp Hw)) as Hserve.
  destruct (track_run clock_at (kt_key tuple) (sv_set_engine r.2 (sv_set_node n s))) as (s1 & Ht & H1 & H2 & H3 & H4).
  set (ps := if r.1 =? 0 then [] else waiting (iterate (map_to_list (sv_batching s))) ≫= reply NO_ERROR).
  assert (∃ s2, (if r.1 =? 0 then mret tt else response_batching_requests) s1 = (Ret tt, s2) ∧
    ps ++ owed (sv_batching s2) ≡ₚ owed (sv_batching s) ∧ sv_engine s2 = r.2 ∧
    sv_node s2 = pushes ps n ∧ sv_pending s2 = sv_pending s) as (s2 & Hresp & Hps & He & Hn & Hpe).
  { rewrite /ps. destruct (r.1 =? 0).
    - exists s1. split; [done|]. rewrite pushes_nil H1 H2 H3 H4. done.
    - exists (batch_answered s1). split; [apply response_batching_run|]. rewrite /batch_answered H3. cbn.
      rewrite H1 H2 H4 owed_empty app_nil_r. split; [|done]. apply bind_perm; [done|apply waiting_perm]. }
  exists ps. eexists. split; [|split; [|split; [|split; [|split]]]].
  - rewrite /user_tuple Hm. erewrite bind_ret by reflexivity. lazy iota. rewrite (bind_ret _ _ _ _ _ Hrun).
    rewrite /has_server /same_server /= String.eqb_refl. cbn [orb]. rewrite Hserve. cbv zeta.
    change (sv_engine (sv_set_node n s)) with (sv_engine s). fold r.
    rewrite (bind_ret _ _ _ _ _ Ht) (bind_ret _ _ _ _ _ Hresp). reflexivity.
  - cbn [sv_batching sv_set_batching]. by rewrite owed_add app_assoc Hps.
  - intros E. by rewrite /ps E.
  - cbn. by rewrite He.
  - cbn. rewrite Hn. destruct Ha. by constructor; cbn; auto; rewrite alike_pushed.
  - done.
Qed.

(** ** Writes and the end of a batch *)

(** What is put and acknowledged of a request with writes. *)
Definition first_put e (request : KeyRequest bytes) : Z * engine :=
  match kr_tuples request with
  | tuple :: _ => engine_put (updates (kr_type request)) e tuple
  | [] => (0, e)
  end.
Definition first_acknowledged (request : KeyRequest bytes) : list (string * packet wire) :=
  match kr_tuples request with tuple :: _ => acknowledgement request tuple | [] => [] end.

Definition first_puts e (requests : list (KeyRequest bytes)) : engine :=
  foldl (λ e request, (first_put e request).2) e requests.

(** No put says that a block is full. *)
Fixpoint never_full e (requests : list (KeyRequest bytes)) : Prop :=
  match requests with
  | [] => True
  | request :: requests' => (first_put e request).1 = 0 ∧ never_full (first_put e request).2 requests'
  end.

Definition write_ok (keys : list string) (request : KeyRequest bytes) : Prop :=
  writes (kr_type request) ∧
  match kr_tuples request with tuple :: _ => tuple_ok keys (kr_type request) tuple | [] => True end.

Lemma batched_request_run keys w s :
  let request := kc_parse_KeyRequest w in
  Forall (owned cfg wt s) keys → write_ok keys request →
  ∃ ps s', user_request_handler cfg rand_r clock_at wt true w s = (Ret tt, s') ∧
    ps ++ owed (sv_batching s') ≡ₚ owed (sv_batching s) ++ first_acknowledged request ∧
    ((first_put (sv_engine s) request).1 = 0 → ps = []) ∧ sv_engine s' = (first_put (sv_engine s) request).2 ∧
    alike (sc_routing cfg) (pushes ps (sv_node s)) (sv_node s') ∧ sv_pending s' = sv_pending s.
Proof.
  intros request Ho [Hw Hok]. rewrite /user_request_handler -/request /first_acknowledged /first_put.
  destruct (kr_tuples request) as [|tuple rest].
  { exists [], s. rewrite pushes_nil app_nil_r. done. }
  destruct (batched_tuple_run keys request tuple s) as (ps & s' & H1 & H2 & H3 & H4 & H5 & H6); [done..|].
  exists ps, s'. split; [|done]. cbn [user_tuples]. rewrite /mbind /M_bind H1. done.
Qed.

Lemma batched_requests_run keys msgs s :
  let requests := kc_parse_KeyRequest <$> msgs in
  Forall (owned cfg wt s) keys → Forall (write_ok keys) requests →
  ∃ ps s', for_each msgs (user_request_handler cfg rand_r clock_at wt true) s = (Ret tt, s') ∧
    sv_pushed s' = sv_pushed s ++ ps ∧
    ps ++ owed (sv_batching s') ≡ₚ owed (sv_batching s) ++ (requests ≫= first_acknowledged) ∧
    (never_full (sv_engine s) requests → ps = []) ∧ sv_engine s' = first_puts (sv_engine s) requests ∧
    alike (sc_routing cfg) (pushes ps (sv_node s)) (sv_node s') ∧ sv_pending s' = sv_pending s.
Proof.
  cbv zeta. revert s. induction msgs as [|w msgs IH]; intros s Ho Hok.
  { exists [], s. rewrite !app_nil_r pushes_nil. done. }
  rewrite fmap_cons Forall_cons in Hok. destruct Hok as [Hw Hok].
  destruct (batched_request_run keys w s) as (ps1 & s1 & H1 & Hp1 & Hf1 & He1 & Ha1 & Hpe1); [done..|].
  destruct (IH s1) as (ps2 & s2 & H2 & Hpu2 & Hp2 & Hf2 & He2 & Ha2 & Hpe2); [|done|].
  { eapply Forall_impl; [exact Ho|]. intros key. by apply (owned_alike cfg wt ps1). }
  exists (ps1 ++ ps2), s2. cbn [for_each]. rewrite (bind_ret _ _ _ _ _ H1) H2. split; [done|].
  split. { rewrite Hpu2 /sv_pushed (alike_pushed _ _ _ Ha1) /=. by rewrite -app_assoc. }
  split. { rewrite -app_assoc Hp2 app_assoc Hp1 bind_cons. by rewrite app_assoc. }
  rewrite He1 in Hf2, He2. split.
  { intros [Hn1 Hn2]. by rewrite Hf1 // Hf2. }
  split; [done|]. split; [|by rewrite Hpe2].
  rewrite -pushes_pushes. destruct Ha1, Ha2. constructor; intros; cbn in *; try (etrans; eauto; fail); auto.
  by rewrite alike_pushed0 alike_pushed.
Qed.

End Batch.

(** ** Properties *)


(** ** Instances *)

(** An engine that stages one write at a time: the next one finds the block full.
    Reads do not see what is staged. *)
Definition block_engine (bytes : Type) : Type := gmap Z bytes * option (Z * bytes).

Definition unstage {bytes} (e : block_engine bytes) : gmap Z bytes :=
  match e.2 with Some kv => <[kv.1 := kv.2]> e.1 | None => e.1 end.

Definition block_dinomo {bytes : Type} : Dinomo (block_engine bytes) bytes := {|
  db_get k (e : block_engine bytes) := (e.1 !! k, e);
  db_put k v _ (e : block_engine bytes) := (match e.2 with Some _ => 1 | None => 0 end, (unstage e, Some (k, v)));
  db_getMeta _ (e : block_engine bytes) := (None, e);
  db_putMeta _ _ (e : block_engine bytes) := e;
  db_getReplicated k (e : block_engine bytes) := (e.1 !! k, e);
  db_putReplicated k v _ (e : block_engine bytes) := (<[k := v]> e.1, e.2);
  db_merge _ (e : block_engine bytes) := (unstage e, None);
  db_flush (e : block_engine bytes) := (unstage e, None);
  db_failover _ (e : block_engine bytes) := e;
  db_invalidate_cache _ (e : block_engine bytes) := e;
  db_swap _ _ (e : block_engine bytes) := e
|}.

#[local] Existing Instances routing_model_codec model_bytes model_values model_kvs_codec block_dinomo.
#[local] Existing Instances sample_std_hash insertion_order.

Definition batching_server : server_config :=
  mkServerConfig (sample_config true) MEMORY 1 true 1000 1 [] [].

Definition batching_state : server_state message pbmsg (block_engine pbmsg) :=
  mkServerState (sample_routing []) ∅ ∅ [] ∅ 0 (∅, None) (mkMemoryStores ∅ ∅ ∅ ∅ ∅) 0.

(** Two writes in one request, of which the second one is lost, and another request,
    whose write fills the block. *)
Definition batched_writes : list message :=
  [MKeyRequest (mkKeyRequest PUT [mkKeyTuple "7" 1 0 (LWWValue 5 "v") 0 false [];
                                  mkKeyTuple "8" 1 0 (LWWValue 5 "w") 0 false []] "tcp://c:6460" "c:0");
   MKeyRequest (mkKeyRequest PUT [mkKeyTuple "7" 1 0 (LWWValue 6 "x") 0 false []] "tcp://c:6460" "c:1")].

