(* ===== verification/ClientStorage.v ===== *)
(** * The Python client and a storage thread

    The client of client.py and the request handler of a storage thread, end to
    end: what [put] sends reaches the storage engine, and what the engine returns
    reaches [get]. *)

From S2P Require Import Prelude Objects OrderedSet Lattices LatticeProps Transport Client ClientProps ClientServer.
From S2P Require Import Messages Cpp Threads Metadata HashRing HashRingProps Routing RoutingProps RoutingPeers.
From S2P Require Import CppLattices Storage StorageProps StorageServer StorageBatch.

#[local] Open Scope Z_scope.
#[local] Existing Instance alike_preorder.

Lemma py_str_not_empty z : py_str z ≠ EmptyString.
Proof. intros E. pose proof (py_int_py_str z) as H. rewrite E in H. done. Qed.

Lemma str_app_not_empty (a b : string) : b ≠ EmptyString → a +:+ b ≠ EmptyString.
Proof. by destruct a. Qed.

(** Answers that arrive in another order answer the requests in another order. *)
Lemma Forall2_perm_r {A B} (P : A → B → Prop) l k k' :
  k' ≡ₚ k → Forall2 P l k → ∃ l', l' ≡ₚ l ∧ Forall2 P l' k'.
Proof.
  intros Hk HP. apply Forall2_flip in HP. symmetry in Hk.
  destruct (Permutation_Forall2 Hk HP) as (l' & Hl & HP'). exists l'.
  split; [done|by apply Forall2_flip in HP'].
Qed.

(** The same formats in both languages. *)
Class StorageFormats (C : Codec) (KC : KvsCodec wire payload) (VC : ValueCodec payload) : Prop := {
  request_received r : kc_parse_KeyRequest (serialize_KeyRequest r) = r;
  response_received type r : parse_KeyResponse (kc_serialize_KeyResponse type r) = Ret r;
  value_format ts v : SerializeToString (LWWValue ts v) = put_LWWValue ts v
}.

Section EndToEnd.
Context {engine : Type} {C : Codec} {CL : CodecLaws C}.
Context {RC : RoutingCodec wire} {B : Bytes payload} {KC : KvsCodec wire payload} {VC : ValueCodec payload}.
Context {D : Dinomo engine payload} {SH : StdHash} {U : Unordered}.
Context {LV : LwwLaws B VC} {SF : StorageFormats C KC VC}.
Notation item := (string * loc * (pbmsg * LatticeType))%type.
Implicit Types (items : list item) (e : engine).

(** ** What the client sends *)

Definition put_requests (c : AnnaTcpClient) items : list (KeyRequest payload) :=
  (λ ii : item * string, put_request c ii.1.1.1 ii.2 ii.1.2) <$> zip items (request_ids c (length items)).
Definition get_requests (c : AnnaTcpClient) (keys : list string) : list (KeyRequest payload) :=
  (λ ki : string * string, key_request GET c ki.1 ki.2) <$> zip keys (request_ids c (length keys)).

(** Values that the storage node can tell from no value. *)
Definition lww_item (it : item) : Prop := ∃ ts v, it.2 = (LWWValue ts v, LT_LWW) ∧ v ≠ EmptyString.

Definition keys_of items : list string := items.*1.*1.

Lemma key_of items it : it ∈ items → it.1.1 ∈ keys_of items.
Proof. intros Hin. by do 2 apply list_elem_of_fmap_2. Qed.

Notation put_message c ii := (put_request c ii.1.1.1 ii.2 ii.1.2).
Notation put_tuple c ii := (mkKeyTuple ii.1.1.1 (LatticeType_value ii.1.2.2) 0 (SerializeToString ii.1.2.1)
  (cache_size c ii.1.1.1) false []).

Lemma put_tuples_ok c items :
  Forall lww_item items →
  Forall (λ request, writes (kr_type request) ∧
    Forall (tuple_ok (keys_of items) (kr_type request)) (kr_tuples request)) (put_requests c items).
Proof.
  intros Hl. rewrite Forall_fmap Forall_forall. intros [it id] Hin%elem_of_zip_l. rewrite Forall_forall in Hl.
  destruct (Hl it Hin) as (ts & v & E & Hv). split; [done|]. apply Forall_singleton.
  split; [by apply key_of|]. intros _. cbn. by rewrite E.
Qed.

Lemma get_requests_ok batching c keys : Forall (request_ok batching keys) (get_requests c keys).
Proof.
  rewrite Forall_fmap Forall_forall. intros [key id] Hin%elem_of_zip_l.
  split; [by left|]. by apply Forall_singleton.
Qed.

(** ** What the engine is asked *)

(** The engine after the items are put, one after the other, and the batch ends. *)
Definition put_item e (it : item) : engine :=
  match stoul it.1.1 with
  | Ret k => (db_put k (with_zero (SerializeToString it.2.1)) false e).2
  | _ => e
  end.
Definition written (batching : bool) e items : engine :=
  let e' := foldl put_item e items in if batching then db_flush e' else e'.

(** What the engine returns for some keys, one after the other. *)
Fixpoint engine_reads e (keys : list string) : list (option payload) :=
  match keys with
  | [] => []
  | key :: keys' =>
      let r := match stoul key with Ret k => db_get k e | _ => (None, e) end in
      r.1 :: engine_reads r.2 keys'
  end.

Lemma zip_all {X} (l : list X) (ids : list string) (f : engine → X → engine) (g : engine → X * string → engine) e :
  length l = length ids → (∀ e x id, g e (x, id) = f e x) → foldl g e (zip l ids) = foldl f e l.
Proof.
  intros Hlen Hg. revert e ids Hlen. induction l as [|x l IH]; intros e [|id ids] Hlen; try done.
  cbn [zip zip_with foldl]. rewrite Hg. apply IH. by injection Hlen.
Qed.

Lemma put_requests_engine c e items : foldl engine_request e (put_requests c items) = foldl put_item e items.
Proof.
  rewrite /put_requests foldl_fmap. apply zip_all; [by rewrite request_ids_length|].
  intros e' it id. rewrite /engine_request /= /engine_tuple /engine_put /put_item /=. by destruct (stoul it.1.1).
Qed.

Lemma put_requests_first c e items : first_puts e (put_requests c items) = foldl put_item e items.
Proof.
  rewrite /first_puts /put_requests foldl_fmap. apply zip_all; [by rewrite request_ids_length|].
  intros e' it id. rewrite /first_put /= /engine_put /put_item /=. by destruct (stoul it.1.1).
Qed.

(** ** Requests with one tuple *)

(** The answers to writes, and to reads. *)
Lemma answers_puts c address e l ps :
  address = get_request_pull_connect_addr (ut c) → address ≠ EmptyString →
  answers_all e ((λ ii : item * string, put_message c ii) <$> l) ps →
  ∃ rs, ps = (λ r, (address, Packed (kc_serialize_KeyResponse PUT r))) <$> rs ∧
    Forall2 (λ ii r, kp_response_id r = ii.2 ∧
      ∃ answer e, kp_tuples r = [answer] ∧ answers_tuple e PUT (put_tuple c ii) answer) l rs.
Proof.
  intros -> Ha%String.eqb_neq. revert e ps. induction l as [|ii l IH]; intros e ps.
  { intros ->. by exists []. }
  intros (ps1 & ps2 & -> & H1 & H2). rewrite /answers_request /= Ha in H1. destruct H1 as (answers & Hans & ->).
  destruct answers as [|answer [|]]; [done| |by destruct Hans].
  destruct (IH _ _ H2) as (rs & -> & HF). eexists (_ :: rs). split; [reflexivity|].
  constructor; [|done]. split; [done|]. exists answer, e. split; [done|]. apply Hans.
Qed.

Lemma answers_gets c address e keys ids ps :
  address = get_request_pull_connect_addr (ut c) → address ≠ EmptyString → length keys = length ids →
  answers_all e ((λ ki : string * string, key_request GET c ki.1 ki.2) <$> zip keys ids) ps →
  ∃ rs, ps = (λ r, (address, Packed (kc_serialize_KeyResponse GET r))) <$> rs ∧
    Forall2 (λ kio r, kp_response_id r = kio.1.2 ∧ ∃ answer, kp_tuples r = [answer] ∧ kt_key answer = kio.1.1 ∧
      kt_invalidate answer = (0 <? cache_size c kio.1.1) && negb (cache_size c kio.1.1 =? 1) ∧
      answers_value kio.2 answer) (zip (zip keys ids) (engine_reads e keys)) rs.
Proof.
  intros -> Ha%String.eqb_neq. revert e ids ps. induction keys as [|key keys IH]; intros e [|id ids] ps Hlen; try done.
  { intros ->. by exists []. }
  intros (ps1 & ps2 & -> & H1 & H2). rewrite /answers_request /= Ha in H1. destruct H1 as (answers & Hans & ->).
  destruct answers as [|answer [|]]; [done| |by destruct Hans]. destruct Hans as [(Hk & Hi & Hv) _].
  rewrite /engine_request /= /engine_tuple /= in H2. cbn in Hk, Hi, Hv. rewrite /engine_read in Hv.
  destruct (IH (match stoul key with Ret k => db_get k e | _ => (None, e) end).2 ids ps2) as (rs & -> & HF);
    [by injection Hlen|by destruct (stoul key)|].
  eexists (_ :: rs). split; [reflexivity|]. constructor; [|exact HF]. split; [done|]. exists answer.
  do 3 (split; [done|]). cbn. by destruct (stoul key).
Qed.

(** ** What it receives *)

(** The responses, in the order of arrival, and the requests they answer. *)
Lemma responses_arrive (P : string * string → KeyResponse payload → Prop) type pairs rs (q : list wire) ids :
  (∀ ki r, P ki r → kp_response_id r = ki.2) → Forall (λ ki, ki.2 ∈ ids) pairs →
  Forall2 P pairs rs → q ≡ₚ kc_serialize_KeyResponse type <$> rs →
  ∃ rs' pairs', omap_each q parse_KeyResponse = Ret rs' ∧ pairs' ≡ₚ pairs ∧
    Forall2 P pairs' (answers kp_response_id ids rs').
Proof.
  intros Hid Hpairs HP Hq. apply Permutation_map_inv in Hq as (rs' & -> & Hrs).
  destruct (Forall2_perm_r P pairs rs rs') as (pairs' & Hp & HP'); [by symmetry|done|].
  exists rs', pairs'. split; [|split; [done|]].
  - clear -SF. induction rs' as [|r rs' IH]; [done|]. cbn. by rewrite response_received /= IH.
  - rewrite /answers filter_all //. rewrite -Hp in Hpairs. apply Forall_forall. intros r Hr.
    apply list_elem_of_lookup in Hr as [i Hi].
    destruct (Forall2_lookup_r _ _ _ _ _ HP' Hi) as (ki & Hki & HPi). rewrite (Hid _ _ HPi).
    rewrite Forall_forall in Hpairs. by eapply Hpairs, list_elem_of_lookup_2.
Qed.

Lemma cache_size_one c key a : address_cache c !! key = Some [a] → cache_size c key = 1.
Proof. intros H. by rewrite /cache_size H. Qed.

Lemma zip_ids {X} (l : list X) (ids : list string) : Forall (λ xi, xi.2 ∈ ids) (zip l ids).
Proof. apply Forall_forall. intros [x i] H. by apply elem_of_zip_r in H. Qed.

Lemma acknowledged c items ids a rs :
  Forall (λ key, address_cache c !! key = Some [a]) (keys_of items) →
  Forall2 (λ ii r, kp_response_id r = ii.2 ∧
    ∃ answer e, kp_tuples r = [answer] ∧ answers_tuple e PUT (put_tuple c ii) answer) (zip items ids) rs →
  Forall2 (acknowledges (λ _, true) (λ _, false)) (zip (keys_of items) ids) rs.
Proof.
  intros Hc. revert ids rs. induction items as [|it items IH]; intros [|id ids] rs HF;
    try by (apply Forall2_nil_inv_l in HF as ->; constructor).
  apply Forall2_cons_inv_l in HF as (r & rs' & (Hid & answer & e & Ht & Hk & Hi & He & _) & HF & ->).
  rewrite /keys_of !fmap_cons Forall_cons in Hc. destruct Hc as [Hc1 Hc]. constructor; [|by apply IH].
  split; [done|]. exists answer, []. split; [done|]. split; [done|]. cbn in Hi, He.
  rewrite Hi (cache_size_one _ _ _ Hc1). split; [done|]. by rewrite bool_decide_true.
Qed.

(** The acknowledgements of a batch. *)
Lemma acknowledged_batch c items address :
  address = get_request_pull_connect_addr (ut c) → address ≠ EmptyString →
  ∃ rs, put_requests c items ≫= first_acknowledged =
      (λ r, (address, Packed (kc_serialize_KeyResponse PUT r))) <$> rs ∧
    Forall2 (acknowledges (λ _, true) (λ _, false)) (zip (keys_of items) (request_ids c (length items))) rs.
Proof.
  intros -> Ha%String.eqb_neq. rewrite /put_requests /keys_of. generalize (request_ids c (length items)).
  induction items as [|it items IH]; intros [|id ids]; try by exists []. destruct (IH ids) as (rs & H1 & H2).
  exists (mkKeyResponse [plain_tuple it.1.1 0 NO_ERROR] id :: rs). cbn [zip zip_with fmap list_fmap].
  rewrite bind_cons H1 /first_acknowledged /= /acknowledgement /reply /= Ha. split; [done|].
  constructor; [|exact H2]. split; [done|]. by do 2 eexists.
Qed.

Lemma deserialize_stored v :
  0 ≤ timestamp v < 2 ^ 64 → deserialize_lww (with_zero (serialize_lww v)) = v.
Proof. destruct v as [ts v]. intros ?. by rewrite /deserialize_lww /serialize_lww read_put. Qed.

(** What the engine keeps of an item is read as its value. *)
Lemma kept_value h it :
  serializable h it.1.2 it.2.1 it.2.2 → lww_item it →
  ∃ v, value_in (Some (with_zero (SerializeToString it.2.1))) = Some v ∧
    serialize_lww v = SerializeToString it.2.1.
Proof.
  intros Hs (ts & v & E & Hv). rewrite E in Hs |- *. exists (mkTimestampValuePair ts v).
  assert (0 ≤ ts < 2 ^ 64) as Hts by (by inversion Hs). cbn. rewrite value_format.
  rewrite (deserialize_stored (mkTimestampValuePair ts v) Hts) /=. apply String.eqb_neq in Hv. by rewrite Hv.
Qed.

Lemma read_back c h items ids a rs :
  Forall (λ key, address_cache c !! key = Some [a]) (keys_of items) → NoDup (keys_of items) →
  Forall (λ it, serializable h it.1.2 it.2.1 it.2.2) items → Forall lww_item items → length items = length ids →
  Forall2 (λ kio r, kp_response_id r = kio.1.2 ∧ ∃ answer, kp_tuples r = [answer] ∧ kt_key answer = kio.1.1 ∧
      kt_invalidate answer = (0 <? cache_size c kio.1.1) && negb (cache_size c kio.1.1 =? 1) ∧
      answers_value kio.2 answer)
    (zip (zip (keys_of items) ids) ((λ it, Some (with_zero (SerializeToString it.2.1))) <$> items)) rs →
  Forall2 (answers_key h (locations items) (λ _, false)) (zip (keys_of items) ids) rs.
Proof.
  intros Hc Hnd Hser Hl Hlen HF.
  enough (∀ its ids rs, (∀ it, it ∈ its → it ∈ items) → length its = length ids →
    Forall2 (λ kio r, kp_response_id r = kio.1.2 ∧ ∃ answer, kp_tuples r = [answer] ∧ kt_key answer = kio.1.1 ∧
      kt_invalidate answer = (0 <? cache_size c kio.1.1) && negb (cache_size c kio.1.1 =? 1) ∧
      answers_value kio.2 answer)
      (zip (zip (keys_of its) ids) ((λ it, Some (with_zero (SerializeToString it.2.1))) <$> its)) rs →
    Forall2 (answers_key h (locations items) (λ _, false)) (zip (keys_of its) ids) rs) as Hgen by (by apply Hgen).
  clear ids rs Hlen HF. induction its as [|it its IH]; intros [|id ids] rs Hsub Hlen HF; try done.
  { apply Forall2_nil_inv_l in HF as ->. constructor. }
  apply Forall2_cons_inv_l in HF as (r & rs' & (Hid & answer & Ht & Hk & Hi & Hv) & HF & ->).
  constructor; [|apply IH; [intros; apply Hsub; by right|by injection Hlen|done]].
  assert (it ∈ items) as Hit by (apply Hsub; left). rewrite !Forall_forall in Hc, Hser, Hl.
  split; [done|]. exists answer. split; [done|]. split; [done|]. cbn in Hi, Hv |- *.
  rewrite (cache_size_one _ _ _ (Hc _ (key_of _ _ Hit))) in Hi. split; [done|]. rewrite locations_item //.
  destruct (kept_value h it (Hser _ Hit) (Hl _ Hit)) as (v & Ev & Es).
  rewrite /answers_value Ev Es in Hv. destruct Hv as (He & Hp & Hty). split; [done|].
  exists it.2.1, it.2.2. split; [by apply Hser|]. split; [done|]. destruct (Hl it Hit) as (ts & v' & -> & _). done.
Qed.

(** ** The thread *)

Section Thread.
Context (cfg : server_config) (rand_r : Z → Z * Z) (clock_at : nat → Z) (wt : ServerThread).
Notation thread := (user_request_handler (engine := engine) cfg rand_r clock_at wt (kEnableBatching cfg)).
Implicit Types (s : server_state wire payload engine) (w : world wire).

(** The messages of the client, all of them to one address. *)
Definition sends_to (address : string) w w' (requests : list (KeyRequest payload)) : Prop :=
  ∃ msgs, sent w' = sent w ++ msgs ∧ msgs.*2 = serialize_KeyRequest <$> requests ∧
    Forall (λ m, sc_socks (pusher_cache (self w')) !! m.1 = Some address) msgs.

Definition pull_address w : string := get_request_pull_connect_addr (ut (self w)).
Lemma pull_address_ok w : pull_address w ≠ EmptyString.
Proof. apply str_app_not_empty, py_str_not_empty. Qed.

Lemma parse_requests (requests : list (KeyRequest payload)) :
  kc_parse_KeyRequest <$> (serialize_KeyRequest <$> requests) = requests.
Proof.
  rewrite -list_fmap_compose. rewrite -{2}(list_fmap_id requests).
  apply list_fmap_ext. intros i x _. apply request_received.
Qed.

(** The thread handles the requests of [put], and its batch ends. *)
Lemma thread_puts items elapsed w s :
  Forall lww_item items → Forall (owned cfg wt s) (keys_of items) → sv_batching s = ∅ →
  Forall (λ key, address_cache (self w) !! key = Some [key_request_connect_address wt]) (keys_of items) →
  kBatchingThreshold cfg ≤ elapsed →
  ∃ s1 ps rs, (for_each (serialize_KeyRequest <$> put_requests (self w) items) thread ;; batching_round cfg elapsed) s =
      (Ret tt, s1) ∧
    sv_pushed s1 = sv_pushed s ++ ps ∧
    ps ≡ₚ pair (pull_address w) ∘ Packed <$> (kc_serialize_KeyResponse PUT <$> rs) ∧
    Forall2 (acknowledges (λ _, true) (λ _, false)) (zip (keys_of items) (request_ids (self w) (length items))) rs ∧
    sv_engine s1 = written (kEnableBatching cfg) (sv_engine s) items ∧ Forall (owned cfg wt s1) (keys_of items).
Proof.
  intros Hl Ho Hb Hc Hel. pose proof (put_tuples_ok (self w) items Hl) as Hok.
  assert (∀ s', kEnableBatching cfg = false → batching_round cfg elapsed s' = (Ret tt, s')) as Hno
    by (intros s' E; by rewrite /batching_round E).
  destruct (kEnableBatching cfg) eqn:Eb.
  - destruct (batched_requests_run cfg rand_r clock_at wt (keys_of items)
      (serialize_KeyRequest <$> put_requests (self w) items) s)
      as (ps & s1 & H1 & Hpu & Hps & _ & He & Ha & _); [done| |].
    { rewrite parse_requests. eapply Forall_impl; [exact Hok|]. intros request [Hw Hts]. split; [done|].
      by destruct Hts. }
    rewrite parse_requests in Hps, He. rewrite put_requests_first in He.
    destruct (acknowledged_batch (self w) items (pull_address w) eq_refl (pull_address_ok w)) as (rs & Hrs & HF).
    do 2 eexists. exists rs. rewrite (bind_ret _ _ _ _ _ H1) /batching_round Eb (proj2 (Z.leb_le _ _) Hel). cbn [andb].
    erewrite bind_ret by reflexivity. rewrite response_batching_run. split; [reflexivity|].
    split. { rewrite /batch_answered /sv_pushed /= -/(sv_pushed s1) Hpu -app_assoc. reflexivity. }
    split; [|split; [done|split]].
    + rewrite -list_fmap_compose -Hrs -(app_nil_l (_ ≫= first_acknowledged)) -owed_empty -Hb -Hps.
      apply Permutation_app_head, bind_perm; [done|]. apply waiting_perm.
    + by rewrite /= He.
    + eapply Forall_impl; [exact Ho|]. intros key Hk. pose proof (owned_alike cfg wt ps s s1 key Ha Hk) as Hk1.
      eapply (owned_alike cfg wt _ s1); [|exact Hk1]. cbn. reflexivity.
  - destruct (requests_run cfg rand_r clock_at wt false (keys_of items)
      (serialize_KeyRequest <$> put_requests (self w) items) s) as (ps & s1 & H1 & Hans & He & Hf); [done| |].
    { rewrite Forall_fmap. eapply Forall_impl; [exact Hok|]. intros request [Hw Hts]. rewrite /= request_received.
      split; [by right|done]. }
    rewrite parse_requests in Hans, He. rewrite put_requests_engine in He.
    destruct (answers_puts (self w) (pull_address w) _ _ _ eq_refl (pull_address_ok w) Hans) as (rs & -> & HF).
    exists s1. eexists. exists rs. rewrite (bind_ret _ _ _ _ _ H1) Hno //. split; [done|].
    split; [by apply (served_pushed cfg)|]. split; [by rewrite -list_fmap_compose|].
    split; [by apply (acknowledged (self w) items _ (key_request_connect_address wt))|]. split; [done|].
    eapply Forall_impl; [exact Ho|]. intros key. by apply (owned_after cfg wt _ _ _ _ Hf).
Qed.

(** The thread handles the requests of [get]. *)
Lemma thread_gets items h w s :
  Forall (owned cfg wt s) (keys_of items) → NoDup (keys_of items) →
  Forall (λ it, serializable h it.1.2 it.2.1 it.2.2) items → Forall lww_item items →
  Forall (λ key, address_cache (self w) !! key = Some [key_request_connect_address wt]) (keys_of items) →
  engine_reads (sv_engine s) (keys_of items) = (λ it, Some (with_zero (SerializeToString it.2.1))) <$> items →
  ∃ s' rs, for_each (serialize_KeyRequest <$> get_requests (self w) (keys_of items)) thread s = (Ret tt, s') ∧
    sv_pushed s' = sv_pushed s ++ (pair (pull_address w) ∘ Packed <$> (kc_serialize_KeyResponse GET <$> rs)) ∧
    Forall2 (answers_key h (locations items) (λ _, false))
      (zip (keys_of items) (request_ids (self w) (length (keys_of items)))) rs.
Proof.
  intros Ho Hnd Hser Hl Hc Hread.
  destruct (requests_run cfg rand_r clock_at wt (kEnableBatching cfg) (keys_of items)
    (serialize_KeyRequest <$> get_requests (self w) (keys_of items)) s) as (ps & s1 & H1 & Hans & _ & Hf); [done| |].
  { rewrite Forall_fmap. eapply Forall_impl; [apply get_requests_ok|]. intros request. by rewrite /= request_received. }
  rewrite parse_requests in Hans.
  destruct (answers_gets (self w) (pull_address w) _ _ _ _ eq_refl (pull_address_ok w)
    (eq_sym (request_ids_length _ _)) Hans) as (rs & -> & HF).
  exists s1, rs. split; [done|]. split; [by rewrite (served_pushed cfg _ _ _ Hf) -list_fmap_compose|].
  rewrite Hread in HF. eapply read_back; [done..| |exact HF].
  by rewrite request_ids_length /keys_of !length_fmap.
Qed.

Lemma Forall2_sent {X} (l : list X) msgs (P : X → nat * wire → Prop) (f : X → KeyRequest payload) w w' a :
  sent w' = sent w ++ msgs → Forall2 P l msgs →
  (∀ x m, x ∈ l → P x m → m.2 = serialize_KeyRequest (f x) ∧
     sc_socks (pusher_cache (self w')) !! m.1 = Some a) →
  sends_to a w w' (f <$> l).
Proof.
  intros Hs HF HP. exists msgs. split; [done|]. clear Hs.
  induction HF as [|x m l msgs Hx HF IH]; [done|]. destruct (HP x m) as [H1 H2]; [left|done|].
  destruct IH as [IH1 IH2]; [intros x' m' Hx'; apply HP; by right|].
  rewrite !fmap_cons H1 IH1. split; [done|by constructor].
Qed.

Notation thread_address := (key_request_connect_address wt).
Notation cached_at c := (Forall (λ key, address_cache c !! key = Some [thread_address])).

Lemma put_phase items rs w :
  socket_cache_ok (pusher_cache (self w)) → rid_ok (self w) → NoDup (keys_of items) →
  Forall (item_ok (self w) (w_heap w)) items → cached_at (self w) (keys_of items) →
  Forall2 (acknowledges (λ _, true) (λ _, false)) (zip (keys_of items) (request_ids (self w) (length items))) rs →
  response_puller w ≡ₚ kc_serialize_KeyResponse PUT <$> rs →
  ∃ results w1, AnnaTcpClient_put (KeyList (keys_of items)) (VList (VRef <$> items.*1.*2)) w =
      (Ret (PutResults results), w1) ∧
    sends_to thread_address w w1 (put_requests (self w) items) ∧
    (∀ key, key ∈ keys_of items → dget key results = Some true) ∧
    w_heap w1 = w_heap w ∧ socket_cache_ok (pusher_cache (self w1)) ∧ rid_ok (self w1) ∧
    ∀ key, address_cache (self w1) !! key = address_cache (self w) !! key.
Proof.
  intros Hsc Hr Hnd Hit Hc HF Hq.
  destruct (responses_arrive _ _ _ _ _ (request_ids (self w) (length items))
    (λ ki r (H : acknowledges _ _ ki r), proj1 H) (zip_ids _ _) HF Hq) as (rs' & pairs & Hp & Hpairs & HF').
  destruct (put_run _ _ items pairs rs' w Hsc Hr Hnd Hit Hp Hpairs HF')
    as (results & w1 & msgs & Hrun & Hres & Hsent & Hmsgs & Hheap & Hsc1 & Hr1 & Hcache).
  exists results, w1. split; [done|]. split; [|split; [intros key Hkey; by rewrite Hres decide_True|]].
  - eapply (Forall2_sent _ _ _ (λ ii : item * string, put_request (self w) ii.1.1.1 ii.2 ii.1.2)); [done|exact Hmsgs|].
    intros [it id] m Hin%elem_of_zip_l [(addrs & a & Ha & Hin' & Hsock) Hm]. split; [done|]. rewrite Hsock.
    rewrite Forall_forall in Hc. rewrite (Hc _ (key_of _ _ Hin)) in Ha. injection Ha as <-.
    by apply list_elem_of_singleton in Hin' as ->.
  - do 3 (split; [done|]). intros key. by rewrite Hcache decide_False; [|intros []].
Qed.

Lemma get_phase items rs q w h :
  (∀ l vs, h !! l = Some (OListBasedOrderedSet vs) → Forall is_bytes vs → ordered is_bytes vs) →
  socket_cache_ok (pusher_cache (self w)) → rid_ok (self w) → NoDup (keys_of items) →
  cached_at (self w) (keys_of items) →
  Forall2 (answers_key h (locations items) (λ _, false))
    (zip (keys_of items) (request_ids (self w) (length (keys_of items)))) rs →
  q ≡ₚ kc_serialize_KeyResponse GET <$> rs →
  ∃ kv w2, AnnaTcpClient_get (KeyList (keys_of items)) (set_response_puller q w) = (Ret kv, w2) ∧
    sends_to thread_address w w2 (get_requests (self w) (keys_of items)) ∧ kv.*1 = keys_of items ∧
    Forall (λ it, ∃ l', dget it.1.1 kv = Some (Some l') ∧ same_content h it.1.2 (w_heap w2) l') items.
Proof.
  intros Hh Hsc Hr Hnd Hc HF Hq.
  destruct (responses_arrive _ _ _ _ _ (request_ids (self w) (length (keys_of items)))
    (λ ki r (H : answers_key _ _ _ ki r), proj1 H) (zip_ids _ _) HF Hq) as (rs' & pairs & Hp & Hpairs & HF').
  destruct (get_run h (locations items) (λ _, false) (KeyList (keys_of items)) pairs rs' (set_response_puller q w))
    as (kv & w2 & workers & msgs & Hget & Hkv & Hok & Hsent & Hwk & Hw & Hmsgs & _);
    cbn [as_key_list self response_puller set_response_puller]; rewrite ?(distinct_id _ Hnd); try done.
  { apply Forall_forall. intros key Hkey. rewrite Forall_forall in Hc. exists [thread_address].
    split; [by apply Hc|]. split; [done|]. split; [by apply Forall_singleton|done]. }
  cbn [as_key_list self set_response_puller] in *. rewrite (distinct_id _ Hnd) in Hkv, Hwk, Hmsgs.
  exists kv, w2. split; [done|]. split; [|split; [done|]].
  - assert (get_requests (self w) (keys_of items) =
      (λ ki : (string * Client.worker true) * string, key_request GET (self w) ki.1.1 ki.2) <$>
        zip workers (request_ids (self w) (length (keys_of items)))) as ->.
    { rewrite /get_requests -Hwk. generalize (request_ids (self w) (length workers.*1)). clear.
      induction workers as [|kw workers IH]; intros [|id ids]; try done.
      cbn [fmap list_fmap zip zip_with]. by rewrite IH. }
    eapply Forall2_sent; [exact Hsent|exact Hmsgs|]. intros [kw id] m Hin%elem_of_zip_l [Hs Hm]. split; [done|].
    cbn in Hs. rewrite -Hs. rewrite !Forall_forall in Hw, Hc. destruct (Hw kw Hin) as (_ & addrs & a & Ha & Hin' & ->).
    cbn in Ha. rewrite Hc in Ha; [|rewrite -Hwk; by apply list_elem_of_fmap_2]. injection Ha as <-.
    by apply list_elem_of_singleton in Hin' as ->.
  - apply Forall_forall. intros it Hin. specialize (Hok it.1.1 (key_of _ _ Hin)).
    by rewrite /result_ok (locations_item items it Hnd Hin) in Hok.
Qed.

End Thread.

End EndToEnd.

(** ** Properties *)

(** C4: what the Python client puts reaches the storage engine, and what the engine
    keeps of it reaches [get], with batching of writes as it is configured or
    without.  Let the keys be different, texts of numbers, and served by one storage
    thread, which owes no acknowledgement, and the values non-empty last-writer-wins
    lattices.  The thread handles the requests of [put], putting each value into the
    engine under the number of its key, and acknowledges each, with batching at the
    latest when the batching threshold has passed; with these acknowledgements, in
    any order, [put] reports success for every key.  If the engine then returns, for
    these keys in turn, what was put, the thread answers the requests of [get], and
    from its answers, in any order, [get] returns for every key a lattice with the
    content of the one that was put.  All requests go to the address of the
    thread. *)
Theorem client_storage_roundtrip {engine : Type} `{C : Codec, CL : !CodecLaws C, RC : RoutingCodec wire,
      B : Bytes payload, KC : KvsCodec wire payload, VC : ValueCodec payload, D : Dinomo engine payload,
      SH : StdHash, U : Unordered, LV : !LwwLaws B VC, SF : !StorageFormats C KC VC}
    cfg rand_r clock_at elapsed wt (items : list (string * loc * (pbmsg * LatticeType))) (w : world wire)
    (s : server_state wire payload engine) :
  let keys := keys_of items in
  let thread := user_request_handler cfg rand_r clock_at wt (kEnableBatching cfg) in
  let thread_address := key_request_connect_address wt in
  let engine' := written (kEnableBatching cfg) (sv_engine s) items in
  (∀ l vs, w_heap w !! l = Some (OListBasedOrderedSet vs) → Forall is_bytes vs → ordered is_bytes vs) →
  socket_cache_ok (pusher_cache (self w)) → rid_ok (self w) → NoDup keys →
  Forall (item_ok (self w) (w_heap w)) items → Forall lww_item items →
  Forall (λ key, address_cache (self w) !! key = Some [thread_address]) keys →
  Forall (owned cfg wt s) keys → sv_batching s = ∅ → kBatchingThreshold cfg ≤ elapsed →
  ∃ s1 ps acks, (for_each (serialize_KeyRequest <$> put_requests (self w) items) thread ;;
      batching_round cfg elapsed) s = (Ret tt, s1) ∧
    sv_engine s1 = engine' ∧
    sv_pushed s1 = sv_pushed s ++ ps ∧ ps ≡ₚ pair (pull_address w) ∘ Packed <$> acks ∧
    (response_puller w ≡ₚ acks →
     ∃ results w1, AnnaTcpClient_put (KeyList keys) (VList (VRef <$> items.*1.*2)) w =
         (Ret (PutResults results), w1) ∧
       sends_to thread_address w w1 (put_requests (self w) items) ∧
       (∀ key, key ∈ keys → dget key results = Some true) ∧
       (engine_reads engine' keys = (λ it, Some (with_zero (SerializeToString it.2.1))) <$> items →
        ∃ s2 replies, for_each (serialize_KeyRequest <$> get_requests (self w1) keys) thread s1 = (Ret tt, s2) ∧
          sv_pushed s2 = sv_pushed s1 ++ (pair (pull_address w1) ∘ Packed <$> replies) ∧
          ∀ q, q ≡ₚ replies → ∃ kv w2, AnnaTcpClient_get (KeyList keys) (set_response_puller q w1) = (Ret kv, w2) ∧
            sends_to thread_address w1 w2 (get_requests (self w1) keys) ∧ kv.*1 = keys ∧
            Forall (λ it, ∃ l', dget it.1.1 kv = Some (Some l') ∧
                      same_content (w_heap w) it.1.2 (w_heap w2) l') items)).
Proof.
  intros keys thread thread_address engine' Hh Hsc Hr Hnd Hit Hl Hc Ho Hb Hel.
  destruct (thread_puts cfg rand_r clock_at wt items elapsed w s) as (s1 & ps & rs & Hrun & Hpush & Hps & HF & He & Ho1);
    [done..|].
  exists s1, ps, (kc_serialize_KeyResponse PUT <$> rs). do 4 (split; [done|]). intros Hq.
  destruct (put_phase wt items rs w) as (results & w1 & Hput & Hsent & Hres & Hheap & Hsc1 & Hr1 & Hcache); [done..|].
  assert (Forall (λ key, address_cache (self w1) !! key = Some [thread_address]) keys) as Hc1.
  { eapply Forall_impl; [exact Hc|]. intros key. by rewrite Hcache. }
  exists results, w1. do 3 (split; [done|]). intros Hread. rewrite /engine' -He in Hread.
  destruct (thread_gets cfg rand_r clock_at wt items (w_heap w) w1 s1) as (s2 & rs2 & Hrun2 & Hpush2 & HF2);
    [done|done|by eapply item_serializable|done..|].
  exists s2, (kc_serialize_KeyResponse GET <$> rs2). split; [done|]. split; [done|]. intros q Hq2.
  by apply (get_phase wt items rs2 q w1 (w_heap w)).
Qed.

(** ** An instance *)

#[local] Existing Instances routing_model_codec model_bytes model_values model_kvs_codec block_dinomo.
#[local] Existing Instances sample_std_hash insertion_order model_lww_laws.

Lemma model_storage_formats : StorageFormats model_codec model_kvs_codec model_values.
Proof. by split. Qed.
#[local] Existing Instance model_storage_formats.

(** A client that knows where the key is, and the acknowledgement it will receive. *)
Definition storing_client : AnnaTcpClient :=
  mkAnnaTcpClient "127.0.0.1" [6450] (Thread_init "10.0.0.1" 0) {["7" := ["tcp://1.1.1.1:6400"]]}%string
    SocketCache_init 0.
Definition storing_world : world message :=
  mkWorld storing_client example_heap [] []
    [MKeyResponse (mkKeyResponse [plain_tuple "7" 0 NO_ERROR] "10.0.0.1:0")] [] (λ _, 0%nat) 0.
Definition storing_item : string * loc * (pbmsg * LatticeType) := ("7"%string, 0%nat, (LWWValue 7 "v", LT_LWW)).

(** With batching: the write is staged, and found once the batch has ended. *)
Lemma client_storage_roundtrip_witness :
  ∃ results w1, AnnaTcpClient_put (C := model_codec) (KeyList ["7"%string]) (VList [VRef 0%nat]) storing_world =
      (Ret (PutResults results), w1) ∧ dget "7"%string results = Some true ∧
    ∃ q kv w2 l', AnnaTcpClient_get (C := model_codec) (KeyList ["7"%string]) (set_response_puller q w1) = (Ret kv, w2) ∧
      dget "7"%string kv = Some (Some l') ∧ same_content example_heap 0%nat (w_heap w2) l'.
Proof.
  destruct (client_storage_roundtrip (C := model_codec) batching_server (λ z, (z, z)) (λ n, Z.of_nat n) 1000 model_thread
    [storing_item] storing_world batching_state) as (s1 & ps & acks & H1 & _ & H2 & H2' & H3).
  - exact example_heap_ordered.
  - apply socket_cache_init_ok.
  - done.
  - apply NoDup_singleton.
  - apply Forall_singleton. split; [|by constructor].
    exists ["tcp://1.1.1.1:6400"%string]. split; [done|]. split; [done|]. split; [by apply Forall_singleton|done].
  - apply Forall_singleton. by exists 7, "v"%string.
  - apply Forall_singleton. reflexivity.
  - apply Forall_singleton. split; [reflexivity|]. split; [by eexists|]. split; [by right|]. vm_compute. reflexivity.
  - reflexivity.
  - done.
  - vm_compute in H1. injection H1 as <-. vm_compute in H2. subst ps.
    apply Permutation_singleton_l in H2'. destruct acks as [|a [|]]; try done. injection H2' as <-.
    destruct (H3 ltac:(reflexivity)) as (results & w1 & Hput & _ & Hres & Hnext).
    destruct (Hnext ltac:(vm_compute; reflexivity)) as (s2 & replies & _ & _ & Hget).
    exists results, w1. split; [exact Hput|]. split; [apply Hres; by left|].
    destruct (Hget replies ltac:(reflexivity)) as (kv & w2 & Hrun & _ & _ & Hkv).
    apply Forall_singleton in Hkv as (l' & Hl & Hs). by exists replies, kv, w2, l'.
Defined.
