(* ===== verification/StorageHandlers.v ===== *)
(** * Replication factors and failures at a storage thread

    src/src/kvs/replication_response_handler.cpp and failover_handler.cpp, in the
    same build as Storage.v: how a request that waits for a replication factor is
    answered in the end. *)

From S2P Require Import Prelude Objects OrderedSet Lattices Messages Cpp Threads Metadata HashRing.
From S2P Require Import Routing CppLattices Storage.

#[local] Open Scope Z_scope.

Section Handlers.
Context {wire bytes engine : Type}.
Context `{RC : RoutingCodec wire, B : Bytes bytes, KC : KvsCodec wire bytes, VC : ValueCodec bytes}.
Context `{D : Dinomo engine bytes, SH : StdHash, U : Unordered}.
Context (cfg : server_config) (rand_r : Z → Z * Z) (clock_at : nat → Z).
Notation state := (server_state wire bytes engine).
Notation W := (M state).
Implicit Types s : state.

(** ** failover_handler.cpp *)

(** The rank is an [int]. *)
Definition to_int (z : Z) : Z := (z + 2 ^ 31) mod 2 ^ 32 - 2 ^ 31.

Definition failover_handler (serialized : string) : W unit :=
  let v := split ":" serialized in
  v0 ← lift (vector_at v 0);
  tier ← lift (Tier_Parse v0);
  v1 ← lift (vector_at v 1);
  failed_node_rank ← lift (stoul v1);
  if tier =? MEMORY then
    modify (λ s, sv_set_engine (db_failover (to_int failed_node_rank) (sv_engine s)) s)
  else mret tt.

(** ** replication_response_handler.cpp *)

(** The write of a request that waited.  In a batch the table of the waiting
    requests is erased before the request is read again: the behaviour is
    undefined. *)
Definition waiting_write (key : string) (replicated batching : bool) (time : Z) (request : PendingRequest bytes)
  : W unit :=
  let op := match pr_type request with
            | UPDATE => if replicated then UpdateReplicated else Update
            | _ => if replicated then PutReplicated else Put
            end in
  ret ← serializer_write op (pr_lattice_type request) key (pr_payload request);
  if replicated || negb batching then mret tt
  else
    track_at key time ;;
    modify (λ s, sv_set_pending (delete key (sv_pending s)) s) ;;
    (if ret =? 0 then mret tt else response_batching_requests) ;;
    raise Undefined.

Definition waiting_request (key : string) (threads : list ServerThread) (responsible batching : bool)
    (request : PendingRequest bytes) : W unit :=
  time ← now clock_at;
  let replicated := (1 <? length threads)%nat in
  let answer tp := sv_push (pr_addr request) (Packed (kc_serialize_KeyResponse (pr_type request)
                     (mkKeyResponse [tp] (pr_response_id request)))) in
  match responsible, String.eqb (pr_addr request) EmptyString with
  | false, false => answer (plain_tuple key 0 WRONG_THREAD)
  | true, true =>
      match pr_type request with
      | PUT | INSERT | UPDATE =>
          waiting_write key replicated batching time request ;;
          track_at key time
      | _ => mret tt
      end
  | true, false =>
      tp ← match pr_type request with
           | GET | READ => read_tuple (if replicated then GetReplicated else Get) key
           | PUT | INSERT | UPDATE =>
               waiting_write key replicated batching time request ;;
               mret (plain_tuple key (pr_lattice_type request) NO_ERROR)
           | RT_UNSPECIFIED => mret (plain_tuple key 0 NO_ERROR)
           end;
      track_at key time ;;
      answer tp
  | false, true => mret tt
  end.

Definition process_pending (wt : ServerThread) (batching : bool) (key : string) : W unit :=
  s ← get_state;
  match sv_pending s !! key with
  | None => mret tt
  | Some requests =>
      metadata ← lift (is_metadata key);
      threads ← sv_responsible cfg rand_r (replication_response_connect_address wt) key metadata;
      (if threads.2 : bool then
         for_each requests (waiting_request key threads.1 (has_server wt threads.1) batching)
       else mret tt) ;;
      modify (λ s, sv_set_pending (delete key (sv_pending s)) s)
  end.

Definition kvs_replication_response_handler (wt : ServerThread) (batching : bool) (serialized : wire) : W unit :=
  tuple ← lift (vector_at (kp_tuples (rc_parse_KeyResponse serialized)) 0);
  let key := get_key_from_metadata (kt_key tuple) in
  let error := kt_error tuple in
  if error =? NO_ERROR then
    on_node (modify (λ n, set_replication
      (apply_factors key (parse_replication_payload (kt_payload tuple)) (key_replication_map n)) n)) ;;
    process_pending wt batching key
  else if error =? KEY_DNE then
    on_node (modify (λ n, set_replication (init_replication (kTierMetadata (sc_routing cfg))
      (kDefaultLocalReplication (sc_routing cfg)) (key_replication_map n) key) n)) ;;
    process_pending wt batching key
  else if error =? WRONG_THREAD then
    on_node (
      global ← global_ring MEMORY;
      local ← local_ring MEMORY;
      issue_replication_factor_request (sc_routing cfg) rand_r
        (replication_response_connect_address wt) key global local)
  else mret tt.

End Handlers.
