(* ===== verification/StorageHandlersProps.v ===== *)
(** * Requests that reach the wrong thread

    A thread that is not responsible for a key asks itself for the replication
    factor of the key, and turns the requests away when it has the answer. *)

From S2P Require Import Prelude Objects OrderedSet Lattices Transport Client ClientProps Messages.
From S2P Require Import Cpp Threads Metadata HashRing HashRingProps Routing RoutingProps RoutingPeers CppLattices.
From S2P Require Import Storage StorageProps StorageServer StorageHandlers.

#[local] Open Scope Z_scope.

(** The messages are the same in the interfaces of the ring and of the node. *)
Class NodeFormats {wire bytes : Type} (RC : RoutingCodec wire) (B : Bytes bytes) (KC : KvsCodec wire bytes) : Prop := {
  local_request type key lattice_type address id :
    kc_parse_KeyRequest (rc_serialize_KeyRequest
      (mkKeyRequest type [mkKeyTuple key lattice_type 0 rc_no_payload 0 false []] address id)) =
    mkKeyRequest type [mkKeyTuple key lattice_type 0 no_bytes 0 false []] address id;
  local_response type tp id : ∃ tp',
    rc_parse_KeyResponse (kc_serialize_KeyResponse type (mkKeyResponse [tp] id)) = mkKeyResponse [tp'] id ∧
    kt_key tp' = kt_key tp ∧ kt_error tp' = kt_error tp
}.

Section Foreign.
Context {wire bytes engine : Type}.
Context `{RC : RoutingCodec wire, B : Bytes bytes, KC : KvsCodec wire bytes, VC : ValueCodec bytes}.
Context `{D : Dinomo engine bytes, SH : StdHash, U : Unordered}.
Context `{LV : !LwwLaws B VC, NF : !NodeFormats RC B KC}.
Context (cfg : server_config) (rand_r : Z → Z * Z) (clock_at : nat → Z) (wt : ServerThread).
Notation state := (server_state wire bytes engine).
Notation rcfg := (sc_routing cfg).
Implicit Types (s : state) (n : routing_state wire).

(** The factors of the key are the defaults, and with these other threads are
    responsible for it. *)
Definition foreign s (key : string) : Prop :=
  is_metadata key = Ret false ∧ kSelfTier cfg ∈ kAllTiers ∧ enable_dinomo_kvs rcfg = true ∧
  key_replication_map (sv_node s) !! key = None ∧
  ∃ threads, located rcfg (sv_node s) key (kSelfTier cfg) = Ret threads ∧ has_server wt threads = false.

(** ** Default factors *)

Lemma init_factors m key tier :
  tier ∈ kAllTiers →
  ∃ k, init_replication (kTierMetadata rcfg) (kDefaultLocalReplication rcfg) m key !! key = Some k ∧
    global_replication k !! tier = Some (default_replication (kTierMetadata rcfg tier)) ∧
    local_replication k !! tier = Some (kDefaultLocalReplication rcfg).
Proof.
  rewrite /init_replication /kAllTiers !elem_of_cons elem_of_nil. cbn [foldl]. rewrite /set_local /set_global.
  rewrite !lookup_insert_eq. cbn [default id global_replication local_replication].
  intros [-> | [-> | []]]; eexists; (split; [reflexivity|]); cbn.
  - by rewrite !(lookup_insert_ne _ STORAGE MEMORY) // !lookup_insert_eq.
  - by rewrite !lookup_insert_eq.
Qed.

Definition reset_factors (key : string) n : routing_state wire :=
  set_replication (init_replication (kTierMetadata rcfg) (kDefaultLocalReplication rcfg)
    (key_replication_map n) key) n.

Lemma located_reset key tier n n' :
  tier ∈ kAllTiers → key_replication_map n !! key = None → alike rcfg n n' →
  located rcfg (reset_factors key n') key tier = located rcfg n key tier.
Proof.
  intros Ht Hn Ha. rewrite /located /global_of /local_of /factors_of Hn /=.
  destruct (init_factors (key_replication_map n') key tier Ht) as (k & -> & Hg & Hl).
  destruct (init_factors ∅ key tier Ht) as (k0 & -> & Hg0 & Hl0). cbn [default id].
  by rewrite Hg Hl Hg0 Hl0 (alike_global _ _ _ Ha) (alike_local _ _ _ Ha).
Qed.

(** ** The three messages *)

Notation thread_address := (key_request_connect_address wt).
Notation reply_address := (replication_response_connect_address wt).

(** What the thread asks itself. *)
Definition factor_request (key : string) : wire :=
  rc_serialize_KeyRequest (mkKeyRequest GET
    [mkKeyTuple (get_metadata_key key replication) (LatticeType_value LT_LWW) 0 rc_no_payload 0 false []]
    reply_address EmptyString).

Definition as_pending (request : KeyRequest bytes) (tuple : KeyTuple bytes) : PendingRequest bytes :=
  mkPendingRequest (kr_type request) (kt_lattice_type tuple) (kt_payload tuple)
    (kr_response_address request) (kr_request_id request).

(** The request waits. *)
Lemma foreign_waits batching w tuple s :
  kr_tuples (kc_parse_KeyRequest w) = [tuple] → foreign s (kt_key tuple) →
  ∃ s', user_request_handler cfg rand_r clock_at wt batching w s = (Ret tt, s') ∧
    alike rcfg (pushes [(thread_address, Packed (factor_request (kt_key tuple)))] (sv_node s)) (sv_node s') ∧
    sv_pending s' = add_waiting (kt_key tuple) (as_pending (kc_parse_KeyRequest w) tuple) (sv_pending s) ∧
    sv_batching s' = sv_batching s ∧ sv_engine s' = sv_engine s.
Proof.
  intros Ht (Hm & _ & He & _ & threads & Hl & Hh).
  destruct (get_responsible_threads_answers rcfg rand_r reply_address (kt_key tuple) (kSelfTier cfg) (sv_node s))
    as (n & Hn & Ha); [by right|]. rewrite Hl in Hn.
  assert (sv_responsible cfg rand_r reply_address (kt_key tuple) false s = (Ret (threads, true), sv_set_node n s)) as Hr
    by (by rewrite /sv_responsible /on_node Hn).
  assert (∃ s', user_tuple cfg rand_r clock_at wt (kc_parse_KeyRequest w) batching tuple s = (Ret Waits, s') ∧
    s' = sv_set_pending (add_waiting (kt_key tuple) (as_pending (kc_parse_KeyRequest w) tuple) (sv_pending s))
      (sv_add_pushed [(thread_address, Packed (factor_request (kt_key tuple)))] (sv_set_node n s))) as (s' & Hut & Hs').
  { eexists. split; [|reflexivity]. rewrite /user_tuple Hm. erewrite bind_ret by reflexivity. lazy iota.
    rewrite (bind_ret _ _ _ _ _ Hr). cbn [fst snd negb]. rewrite Hh. reflexivity. }
  exists s'. split.
  { rewrite /user_request_handler Ht. cbn [user_tuples]. erewrite bind_ret by (by rewrite (bind_ret _ _ _ _ _ Hut)). done. }
  subst s'.
  split; [|done]. destruct Ha. constructor; cbn; auto. by rewrite alike_pushed.
Qed.

(** The thread has no factor to tell. *)
Lemma factor_unknown batching key s :
  (db_getMeta (get_metadata_key key replication) (sv_engine s)).1 = None →
  ∃ tp s', user_request_handler cfg rand_r clock_at wt batching (factor_request key) s = (Ret tt, s') ∧
    sv_node s' = pushes [(reply_address, Packed (kc_serialize_KeyResponse GET (mkKeyResponse [tp] EmptyString)))] (sv_node s) ∧
    kt_key tp = get_metadata_key key replication ∧ kt_error tp = KEY_DNE ∧
    sv_pending s' = sv_pending s ∧ sv_batching s' = sv_batching s.
Proof.
  intros Hnone. set (mk := get_metadata_key key replication) in *.
  assert (∃ tp e, read_tuple GetMeta mk s = (Ret tp, sv_set_engine e s) ∧ kt_key tp = mk ∧ kt_error tp = KEY_DNE)
    as (tp & e & Hread & Hk & Herr).
  { rewrite /read_tuple /lww_read. do 2 eexists. split; [reflexivity|]. cbn. rewrite Hnone. cbn.
    assert (lww_value (deserialize_lww no_bytes) = EmptyString) as -> by (by rewrite /deserialize_lww read_nothing).
    by destruct (is_empty _). }
  destruct (track_run clock_at mk (sv_set_engine e s)) as (s1 & Htr & H1 & H2 & H3 & _).
  exists tp, (sv_add_pushed [(reply_address, Packed (kc_serialize_KeyResponse GET (mkKeyResponse [tp] EmptyString)))] s1).
  split; [|by rewrite /= H1 H2 H3].
  rewrite /user_request_handler /factor_request local_request -/mk. cbn [kr_tuples kr_type kr_response_address kr_request_id].
  cbn [user_tuples]. set (request := mkKeyRequest _ _ _ _). set (tuple := mkKeyTuple _ _ _ _ _ _ _).
  assert (user_tuple cfg rand_r clock_at wt request batching tuple s = (Ret (Answer tp), s1)) as Hut.
  { rewrite /user_tuple. change (kt_key tuple) with mk. rewrite (identified_is_metadata _ : is_metadata mk = Ret true).
    erewrite bind_ret by reflexivity. lazy iota. rewrite /serve_metadata. change (kt_key tuple) with mk.
    change (kr_type request) with GET. rewrite (bind_ret _ _ _ _ _ Hread) (bind_ret _ _ _ _ _ Htr). done. }
  erewrite bind_ret by (by rewrite (bind_ret _ _ _ _ _ Hut)). done.
Qed.

(** Whoever waits is turned away. *)
Lemma turn_waiting_away_run key threads batching requests s :
  ∃ s', for_each requests (waiting_request clock_at key threads false batching) s = (Ret tt, s') ∧
    sv_node s' = pushes (requests ≫= λ r, reply WRONG_THREAD (key, r)) (sv_node s) ∧
    sv_pending s' = sv_pending s ∧ sv_batching s' = sv_batching s ∧ sv_engine s' = sv_engine s.
Proof.
  revert s. induction requests as [|r requests IH]; intros s.
  { exists s. by rewrite pushes_nil. }
  set (s1 := sv_add_pushed (reply WRONG_THREAD (key, r)) (sv_set_ticks (S (sv_ticks s)) s)).
  destruct (IH s1) as (s' & H1 & H2 & H3 & H4 & H5). exists s'. cbn [for_each].
  assert (waiting_request clock_at key threads false batching r s = (Ret tt, s1)) as Hr.
  { rewrite /waiting_request. erewrite bind_ret by reflexivity. rewrite /s1 /reply. cbn [fst snd].
    destruct (String.eqb (pr_addr r) EmptyString); [by rewrite sv_add_pushed_nil|done]. }
  rewrite (bind_ret _ _ _ _ _ Hr) H1 H2 bind_cons /s1 /sv_add_pushed /= pushes_pushes. done.
Qed.

Lemma pushes_alike ps n n' : alike rcfg n n' → alike rcfg (pushes ps n) (pushes ps n').
Proof. intros []. constructor; cbn; auto. by rewrite alike_pushed. Qed.

(** The factors stay the defaults, so the answer is the same. *)
Lemma pending_turned_away batching key tp ps (s0 s : state) requests :
  foreign s0 key → alike rcfg (pushes ps (sv_node s0)) (sv_node s) →
  sv_pending s !! key = Some requests → kt_key tp = get_metadata_key key replication → kt_error tp = KEY_DNE →
  ∃ s', kvs_replication_response_handler cfg rand_r clock_at wt batching
      (kc_serialize_KeyResponse GET (mkKeyResponse [tp] EmptyString)) s = (Ret tt, s') ∧
    sv_pushed s' = sv_pushed s ++ (requests ≫= λ r, reply WRONG_THREAD (key, r)) ∧
    sv_pending s' = delete key (sv_pending s) ∧ sv_batching s' = sv_batching s.
Proof.
  intros (Hm & Htier & He & Hnone & threads & Hl & Hh) Ha Hpend Hk Herr.
  destruct (local_response GET tp EmptyString) as (tp' & Hparse & Hk' & Herr').
  set (n1 := reset_factors key (sv_node s)). set (s1 := sv_set_node n1 s).
  assert (located rcfg n1 key (kSelfTier cfg) = Ret threads) as Hl1
    by (rewrite /n1 (located_reset _ _ _ _ Htier _ Ha) //).
  destruct (get_responsible_threads_answers rcfg rand_r reply_address key (kSelfTier cfg) n1)
    as (n2 & Hn2 & Ha2); [by right|]. rewrite Hl1 in Hn2.
  assert (sv_responsible cfg rand_r reply_address key false s1 = (Ret (threads, true), sv_set_node n2 s1)) as Hr
    by (by rewrite /sv_responsible /on_node Hn2).
  destruct (turn_waiting_away_run key threads batching requests (sv_set_node n2 s1)) as (s2 & H2 & Hn & Hp & Hb & _).
  exists (sv_set_pending (delete key (sv_pending s2)) s2). split; [|split; [|by rewrite /= Hp]].
  - rewrite /kvs_replication_response_handler Hparse. erewrite bind_ret by reflexivity. rewrite Hk' Herr' Hk Herr.
    rewrite (_ : get_key_from_metadata (get_metadata_key key replication) = key); [|by apply key_of_type_of].
    change (KEY_DNE =? NO_ERROR) with false. change (KEY_DNE =? KEY_DNE) with true. lazy iota.
    erewrite (bind_ret _ _ _ tt s1) by reflexivity.
    rewrite /process_pending. erewrite bind_ret by reflexivity. rewrite (_ : sv_pending s1 !! key = Some requests) // Hm.
    erewrite bind_ret by reflexivity. rewrite (bind_ret _ _ _ _ _ Hr). cbn [fst snd]. rewrite Hh (bind_ret _ _ _ _ _ H2). done.
  - rewrite /sv_pushed /= Hn /=. by rewrite (alike_pushed _ _ _ Ha2).
Qed.

End Foreign.

(** ** Properties *)


(** Also: in a batch, handling a write that waited reads the request after the table
    that holds it was erased, which is undefined. *)
Theorem batched_pending_undefined {wire bytes engine : Type}
    `{B : Bytes bytes, KC : KvsCodec wire bytes, VC : ValueCodec bytes, D : Dinomo engine bytes, U : Unordered}
    clock_at key k thread (r : PendingRequest bytes) (s : server_state wire bytes engine) :
  writes (pr_type r) → stoul key = Ret k → pr_lattice_type r = LatticeType_value LT_LWW →
  ∃ s', waiting_request clock_at key [thread] true true r s = (Raise Undefined, s').
Proof.
  intros Hw Hk Ht. rewrite /waiting_request. erewrite bind_ret by reflexivity.
  assert (∀ time s, ∃ s', waiting_write key false true time r s = (Raise Undefined, s')) as Hww.
  { clear s. intros time s. rewrite /waiting_write /serializer_write Ht. cbn [Z.eqb LatticeType_value Pos.eqb orb negb].
    rewrite /lww_write Hk. destruct (pr_type r); try done;
    (do 3 erewrite bind_ret by reflexivity); destruct (_ =? 0);
      [erewrite bind_ret by reflexivity|rewrite (bind_ret _ _ _ _ _ (response_batching_run _))|
       erewrite bind_ret by reflexivity|rewrite (bind_ret _ _ _ _ _ (response_batching_run _))|
       erewrite bind_ret by reflexivity|rewrite (bind_ret _ _ _ _ _ (response_batching_run _))]; by eexists. }
  cbn [length Nat.ltb Nat.leb]. set (s1 := sv_set_ticks _ _). destruct (Hww (clock_at (sv_ticks s)) s1) as (s' & Hrun).
  exists s'. destruct (String.eqb (pr_addr r) EmptyString); destruct (pr_type r); try done;
    by rewrite /mbind /M_bind Hrun.
Qed.

(** ** A small instance *)

#[local] Existing Instances routing_model_codec model_bytes model_values model_kvs_codec map_dinomo.
#[local] Existing Instances sample_std_hash insertion_order model_lww_laws.

Lemma model_node_formats : NodeFormats routing_model_codec model_bytes model_kvs_codec.
Proof. split; [done|]. intros type tp id. by exists tp. Qed.
#[local] Existing Instance model_node_formats.

Definition other_thread : ServerThread := server_thread "1.1.1.2" "10.0.0.2" 0.

