(* ===== verification/Departure.v ===== *)
(** * Departures of storage servers

    How a storage server leaves: src/src/monitor/elasticity.cpp asks it to,
    src/src/kvs/self_depart_handler.cpp leaves (in the build that CMakeLists.txt
    selects: DINOMO, neither Clover nor shared-nothing), the other servers handle
    src/src/kvs/node_depart_handler.cpp, and the monitoring server handles
    src/src/monitor/membership_handler.cpp and depart_done_handler.cpp. *)

From S2P Require Import Prelude Objects OrderedSet Lattices Messages Cpp Threads Metadata HashRing Routing.
From S2P Require Import CppLattices Storage.
From Stdlib Require Import SpecFloat.

#[local] Open Scope Z_scope.

(** ** A thread of a storage node *)

Section Kvs.
Context {wire bytes engine : Type}.
Context `{B : Bytes bytes, KC : KvsCodec wire bytes, D : Dinomo engine bytes, SH : StdHash, U : Unordered}.
Context (cfg : server_config).
Notation state := (server_state wire bytes engine).
Notation W := (M state).

Definition sv_rings (s : state) : list (Z * HashRing) := global_hash_rings (sv_node s).

(** [global_hash_rings[tier].remove(public_ip, private_ip, 0)] *)
Definition kvs_remove_server (tier : Z) (public_ip private_ip : string) : W unit :=
  on_node (modify (λ n, set_global_rings
    (dset tier (ring_remove GlobalHasher public_ip private_ip 0 (ring_at tier (global_hash_rings n)))
       (touch tier (global_hash_rings n))) n)).

(** The messages that are still on the request socket are read. *)
Definition drain_user_requests : W unit :=
  s ← get_state;
  modify (sv_set_requests []) ;;
  for_each (sv_requests s) (λ serialized,
    let request := kc_parse_KeyRequest serialized in
    let tuples := (λ t, plain_tuple (kt_key t) (kt_lattice_type t) WRONG_THREAD) <$> kr_tuples request in
    match tuples with
    | [] => mret tt
    | _ =>
        if String.eqb (kr_response_address request) EmptyString then mret tt
        else sv_push (kr_response_address request) (Packed (kc_serialize_KeyResponse (kr_type request)
               (mkKeyResponse tuples (kr_request_id request))))
    end) ;;
  response_batching_requests ;;
  s ← get_state;
  answer_waiting (sv_pending s) WRONG_THREAD ;;
  modify (sv_set_pending ∅).

Definition tell_threads (public_ip private_ip : string) (connect_address : ServerThread → string)
    (serialized : string) : W unit :=
  for_each (seqZ 1 (kThreadNum cfg - 1)) (λ tid,
    sv_push (connect_address (server_thread public_ip private_ip tid)) (Text serialized)).

(** [serialized] is the address that waits for the end of the departure. *)
Definition self_depart_handler (thread_id : Z) (public_ip private_ip serialized : string) : W unit :=
  kvs_remove_server (kSelfTier cfg) public_ip private_ip ;;
  modify (λ s, sv_set_engine (db_merge false (sv_engine s)) s) ;;
  (if thread_id =? 0 then
     let msg := Tier_Name (kSelfTier cfg) +:+ ":" +:+ public_ip +:+ ":" +:+ private_ip in
     s ← get_state;
     for_each (iterate (sv_rings s)) (λ tr,
       for_each (iterate (unique_servers tr.2)) (λ st,
         sv_push (node_depart_connect_address st) (Text msg))) ;;
     for_each (sc_routing_ips cfg) (λ address,
       sv_push (rt_notify_connect_address (mkRoutingThread address 0)) (Text ("depart:" +:+ msg))) ;;
     for_each (sc_monitoring_ips cfg) (λ address,
       sv_push (mt_notify_connect_address address) (Text ("depart:" +:+ msg))) ;;
     tell_threads public_ip private_ip self_depart_connect_address serialized
   else mret tt) ;;
  drain_user_requests ;;
  sv_push serialized (Text (public_ip +:+ "_" +:+ private_ip +:+ "_" +:+ to_string (kSelfTier cfg))).

Definition node_depart_handler (thread_id : Z) (public_ip private_ip serialized : string) : W unit :=
  let v := split ":" serialized in
  v0 ← lift (vector_at v 0);
  departing_public_ip ← lift (vector_at v 1);
  departing_private_ip ← lift (vector_at v 2);
  tier ← lift (Tier_Parse v0);
  kvs_remove_server tier departing_public_ip departing_private_ip ;;
  if thread_id =? 0 then tell_threads public_ip private_ip node_depart_connect_address serialized
  else mret tt.

End Kvs.

(** ** The monitoring server *)

Record monitor_config : Type := mkMonitorConfig {
  mon_tiers : Z → TierMetadata;
  kMemoryThreadCount : Z;
  kStorageThreadCount : Z;
  mon_management_ip : string;
  mon_ip : string
}.

(** Times are in seconds. *)
Record monitor_state : Type := mkMonitorState {
  mon_rings : list (Z * HashRing);
  new_memory_count : Z;
  new_storage_count : Z;
  grace_start : Z;
  mon_routing_ips : list string;
  memory_consumption : gmap string (gmap Z Z);
  storage_consumption : gmap string (gmap Z Z);
  memory_occupancy : gmap string (gmap Z (spec_float * Z));
  storage_occupancy : gmap string (gmap Z (spec_float * Z));
  key_access_frequency : gmap string (gmap string Z);
  departing_node_map : gmap string Z;
  removing_memory_node : bool;
  removing_storage_node : bool;
  mon_pushed : list (string * string)
}.

Section Monitor.
Context `{SH : StdHash} (cfg : monitor_config).
Notation W := (M monitor_state).
Implicit Types s : monitor_state.

Definition mon_set_rings rings s : monitor_state :=
  mkMonitorState rings (new_memory_count s) (new_storage_count s) (grace_start s) (mon_routing_ips s)
    (memory_consumption s) (storage_consumption s) (memory_occupancy s) (storage_occupancy s)
    (key_access_frequency s) (departing_node_map s) (removing_memory_node s) (removing_storage_node s)
    (mon_pushed s).
Definition mon_set_counts memory storage s : monitor_state :=
  mkMonitorState (mon_rings s) memory storage (grace_start s) (mon_routing_ips s)
    (memory_consumption s) (storage_consumption s) (memory_occupancy s) (storage_occupancy s)
    (key_access_frequency s) (departing_node_map s) (removing_memory_node s) (removing_storage_node s)
    (mon_pushed s).
Definition mon_set_grace t s : monitor_state :=
  mkMonitorState (mon_rings s) (new_memory_count s) (new_storage_count s) t (mon_routing_ips s)
    (memory_consumption s) (storage_consumption s) (memory_occupancy s) (storage_occupancy s)
    (key_access_frequency s) (departing_node_map s) (removing_memory_node s) (removing_storage_node s)
    (mon_pushed s).
Definition mon_add_routing ip s : monitor_state :=
  mkMonitorState (mon_rings s) (new_memory_count s) (new_storage_count s) (grace_start s)
    (mon_routing_ips s ++ [ip])
    (memory_consumption s) (storage_consumption s) (memory_occupancy s) (storage_occupancy s)
    (key_access_frequency s) (departing_node_map s) (removing_memory_node s) (removing_storage_node s)
    (mon_pushed s).
Definition mon_set_stats mc sc mo so kaf s : monitor_state :=
  mkMonitorState (mon_rings s) (new_memory_count s) (new_storage_count s) (grace_start s)
    (mon_routing_ips s) mc sc mo so kaf (departing_node_map s) (removing_memory_node s)
    (removing_storage_node s) (mon_pushed s).
Definition mon_set_departing m rm rs s : monitor_state :=
  mkMonitorState (mon_rings s) (new_memory_count s) (new_storage_count s) (grace_start s)
    (mon_routing_ips s)
    (memory_consumption s) (storage_consumption s) (memory_occupancy s) (storage_occupancy s)
    (key_access_frequency s) m rm rs (mon_pushed s).
Definition mon_add_pushed p s : monitor_state :=
  mkMonitorState (mon_rings s) (new_memory_count s) (new_storage_count s) (grace_start s)
    (mon_routing_ips s)
    (memory_consumption s) (storage_consumption s) (memory_occupancy s) (storage_occupancy s)
    (key_access_frequency s) (departing_node_map s) (removing_memory_node s) (removing_storage_node s)
    (mon_pushed s ++ [p]).

Definition mon_push (address msg : string) : W unit := modify (mon_add_pushed (address, msg)).

Definition mgmt_addr : string := "tcp://" +:+ mon_management_ip cfg +:+ ":8101".

(** *** elasticity.cpp *)

Definition add_node (tier : string) (number : Z) (memory : bool) : W unit :=
  mon_push mgmt_addr ("add:" +:+ to_string number +:+ ":" +:+ tier) ;;
  modify (λ s, if memory then mon_set_counts number (new_storage_count s) s
               else mon_set_counts (new_memory_count s) number s).

(** The number of threads is that of the memory tier, whatever the tier of the
    node. *)
Definition mon_remove_node (node : ServerThread) (memory : bool) : W unit :=
  modify (λ s, mon_set_departing
    (<[st_private_ip node := thread_number (mon_tiers cfg MEMORY)]> (departing_node_map s))
    (removing_memory_node s) (removing_storage_node s) s) ;;
  mon_push (self_depart_connect_address node) (mt_depart_done_connect_address (mon_ip cfg)) ;;
  modify (λ s, mon_set_departing (departing_node_map s)
                 (memory || removing_memory_node s) (negb memory || removing_storage_node s) s).

(** *** depart_done_handler.cpp *)

Definition depart_done_handler (now : Z) (serialized : string) : W unit :=
  let tokens := split "_" serialized in
  departed_public_ip ← lift (vector_at tokens 0);
  departed_private_ip ← lift (vector_at tokens 1);
  t2 ← lift (vector_at tokens 2);
  tier_id ← lift (stoi t2);
  s ← get_state;
  match departing_node_map s !! departed_private_ip with
  | None => mret tt
  | Some n =>
      let n' := u32 (n - 1) in
      modify (λ s, mon_set_departing (<[departed_private_ip := n']> (departing_node_map s))
                     (removing_memory_node s) (removing_storage_node s) s) ;;
      if n' =? 0 then
        let memory := u32 tier_id =? 1 in
        let ntype := if memory then "memory"%string else "storage"%string in
        mon_push mgmt_addr ("remove:" +:+ departed_private_ip +:+ ":" +:+ ntype) ;;
        modify (λ s, mon_set_grace now
          (mon_set_departing (delete departed_private_ip (departing_node_map s))
             (if memory then false else removing_memory_node s)
             (if memory then removing_storage_node s else false) s))
      else mret tt
  end.

(** *** membership_handler.cpp *)

Definition forget_accesses (private_ip : string) (threads : Z) (kaf : gmap string (gmap string Z))
  : gmap string (gmap string Z) :=
  (λ m, foldl (λ m i, delete (private_ip +:+ ":" +:+ to_string i) m) m (seqZ 0 threads)) <$> kaf.

Definition mon_insert (tier : Z) (public_ip private_ip : string) : W unit :=
  modify (λ s, mon_set_rings
    (dset tier (ring_insert GlobalHasher public_ip private_ip 0 0 (ring_at tier (mon_rings s))).2
       (touch tier (mon_rings s))) s).

Definition monitor_membership_handler (now : Z) (serialized : string) : W unit :=
  let v := split ":" serialized in
  type ← lift (vector_at v 0);
  v1 ← lift (vector_at v 1);
  new_public_ip ← lift (vector_at v 2);
  new_private_ip ← lift (vector_at v 3);
  if String.eqb type "join" then
    tier ← lift (Tier_Parse v1);
    if tier =? MEMORY then
      mon_insert tier new_public_ip new_private_ip ;;
      modify (λ s, mon_set_grace now (mon_set_counts
        (if 0 <? new_memory_count s then new_memory_count s - 1 else new_memory_count s)
        (new_storage_count s) s))
    else if tier =? STORAGE then
      mon_insert tier new_public_ip new_private_ip ;;
      modify (λ s, mon_set_grace now (mon_set_counts (new_memory_count s)
        (if 0 <? new_storage_count s then new_storage_count s - 1 else new_storage_count s) s))
    else if tier =? ROUTING then modify (mon_add_routing new_public_ip)
    else mret tt
  else if String.eqb type "depart" then
    tier ← lift (Tier_Parse v1);
    modify (λ s, mon_set_rings
      (dset tier (ring_remove GlobalHasher new_public_ip new_private_ip 0 (ring_at tier (mon_rings s)))
         (touch tier (mon_rings s))) s) ;;
    if tier =? MEMORY then
      modify (λ s, mon_set_stats (delete new_private_ip (memory_consumption s)) (storage_consumption s)
        (delete new_private_ip (memory_occupancy s)) (storage_occupancy s)
        (forget_accesses new_private_ip (kMemoryThreadCount cfg) (key_access_frequency s)) s)
    else if tier =? STORAGE then
      modify (λ s, mon_set_stats (memory_consumption s) (delete new_private_ip (storage_consumption s))
        (memory_occupancy s) (delete new_private_ip (storage_occupancy s))
        (forget_accesses new_private_ip (kStorageThreadCount cfg) (key_access_frequency s)) s)
    else mret tt
  else mret tt.

End Monitor.
