(* ===== verification/DepartureProps.v ===== *)
(** * Properties of departures

    The monitoring server asks the management server to remove a node exactly once,
    when all its threads have left; a thread that leaves answers every request that
    waits; and the parts of a planned departure fit together. *)

From S2P Require Import Prelude Objects OrderedSet Lattices Messages Yaml Kube Cluster Management.
From S2P Require Import ManagementProps Cpp Threads Metadata HashRing HashRingProps Routing.
From S2P Require Import RoutingProps CppLattices Storage StorageProps Departure.

#[local] Open Scope Z_scope.

(** ** Departures that the monitoring server counts *)

(** The end of the departure of a thread, as the monitoring server hears it. *)
Record thread_done : Type := mkDone {
  d_now : Z;
  d_public_ip : string;
  d_private_ip : string;
  d_tier : Z
}.

Definition done_message (public_ip private_ip : string) (tier : Z) : string :=
  public_ip +:+ "_" +:+ private_ip +:+ "_" +:+ to_string tier.

Definition ip_ok (ip : string) : Prop := str_has "_" ip = false.
Definition done_ok (d : thread_done) : Prop :=
  ip_ok (d_public_ip d) ∧ ip_ok (d_private_ip d) ∧ d_tier d ∈ kAllTiers.

Definition tier_kind (tier : Z) : string := if tier =? 1 then "memory" else "storage".

Section Monitor.
Context (cfg : monitor_config).
Implicit Types s : monitor_state.

Definition hear (d : thread_done) : M monitor_state unit :=
  depart_done_handler cfg (d_now d) (done_message (d_public_ip d) (d_private_ip d) (d_tier d)).

(** What the management server is asked. *)
Definition removal (ip : string) (tier : Z) : string * string :=
  (mgmt_addr cfg, remove_request (tier_kind tier) ip).

(** The state after the last thread of a node. *)
Definition node_gone (d : thread_done) s : monitor_state :=
  let memory := d_tier d =? 1 in
  mon_set_grace (d_now d) (mon_set_departing (delete (d_private_ip d) (departing_node_map s))
    (if memory then false else removing_memory_node s) (if memory then removing_storage_node s else false)
    (mon_add_pushed (removal (d_private_ip d) (d_tier d)) s)).

Definition one_less (ip : string) (n : Z) s : monitor_state :=
  mon_set_departing (<[ip := n - 1]> (departing_node_map s))
    (removing_memory_node s) (removing_storage_node s) s.

Lemma split_done public_ip private_ip tier :
  ip_ok public_ip → ip_ok private_ip → tier ∈ kAllTiers →
  split "_" (done_message public_ip private_ip tier) = [public_ip; private_ip; to_string tier] ∧
  stoi (to_string tier) = Ret tier ∧ u32 tier = tier.
Proof.
  intros Hp Hq Ht. rewrite /done_message (split_item "_" public_ip) // (split_item "_" private_ip) //.
  rewrite /kAllTiers !elem_of_cons elem_of_nil in Ht. by destruct Ht as [-> | [-> | []]].
Qed.

Lemma hear_run d s :
  done_ok d → map_Forall (λ _ n, 0 < n < 2 ^ 32) (departing_node_map s) →
  hear d s = (Ret tt, match departing_node_map s !! d_private_ip d with
                      | None => s
                      | Some n => if decide (n = 1) then node_gone d s else one_less (d_private_ip d) n s
                      end).
Proof.
  intros (Hp & Hq & Ht) Hn. destruct (split_done _ _ _ Hp Hq Ht) as (Hs & Hi & Hu).
  rewrite /hear /depart_done_handler Hs. do 3 (erewrite bind_ret by reflexivity).
  erewrite bind_ret; [|rewrite Hi; reflexivity]. erewrite bind_ret by reflexivity.
  destruct (departing_node_map s !! d_private_ip d) as [n|] eqn:E; [|done].
  specialize (Hn _ _ E). simpl in Hn. erewrite bind_ret by reflexivity.
  rewrite u32_small; [|lia]. case_decide as En.
  - subst n. change (1 - 1 =? 0) with true. lazy iota zeta. erewrite bind_ret by reflexivity.
    rewrite /node_gone Hu /removal /tier_kind /modify /mon_set_grace /mon_set_departing /=.
    rewrite delete_insert_eq. done.
  - rewrite (proj2 (Z.eqb_neq _ _)); [done|lia].
Qed.

Definition heard (ip : string) (ds : list thread_done) : Z :=
  Z.of_nat (length (filter (λ d, d_private_ip d = ip) ds)).

Lemma heard_cons ip d ds : heard ip (d :: ds) = (if decide (d_private_ip d = ip) then 1 else 0) + heard ip ds.
Proof. rewrite /heard filter_cons. case_decide; simpl; lia. Qed.

(** The counters of a monitoring server stay positive. *)
Lemma counts_delete (m : gmap string Z) ip :
  map_Forall (λ _ n, 0 < n < 2 ^ 32) m → map_Forall (λ _ n, 0 < n < 2 ^ 32) (delete ip m).
Proof. apply map_Forall_delete. Qed.

Lemma counts_less (m : gmap string Z) ip n :
  m !! ip = Some n → n ≠ 1 → map_Forall (λ _ n, 0 < n < 2 ^ 32) m →
  map_Forall (λ _ n, 0 < n < 2 ^ 32) (<[ip := n - 1]> m).
Proof.
  intros E Hn Hm. apply map_Forall_insert_2; [|done]. specialize (Hm _ _ E). simpl in Hm. lia.
Qed.

(** Which nodes a sequence of messages completes, and the counters it leaves:
    each node whose counter was reached is named once, with the tier of one of its
    messages. *)
Record counted (ds : list thread_done) (m m' : gmap string Z) (gone : list (string * Z)) : Prop := {
  gone_once : NoDup gone.*1;
  gone_iff ip : ip ∈ gone.*1 ↔ ∃ n, m !! ip = Some n ∧ n ≤ heard ip ds;
  gone_heard ip tier : (ip, tier) ∈ gone → ∃ d, d ∈ ds ∧ d_private_ip d = ip ∧ d_tier d = tier;
  counters_left ip : m' !! ip =
    (n ← m !! ip; if decide (n ≤ heard ip ds) then None else Some (n - heard ip ds))
}.

Definition counters_ok (m : gmap string Z) : Prop := map_Forall (λ _ n, 0 < n < 2 ^ 32) m.

Lemma heard_pos ip ds : 0 ≤ heard ip ds.
Proof. rewrite /heard. lia. Qed.

Lemma counted_nil m : counters_ok m → counted [] m m [].
Proof.
  intros Hm. split; [constructor| |by intros ?? ?%elem_of_nil|].
  - intros ip. split; [by intros ?%elem_of_nil|]. intros (n & E & Hle).
    specialize (Hm _ _ E). change (heard ip []) with 0 in Hle. simpl in Hm. lia.
  - intros ip. change (heard ip []) with 0. destruct (m !! ip) as [n|] eqn:E; [|done].
    specialize (Hm _ _ E). simpl in *. rewrite decide_False; [f_equal; lia|lia].
Qed.

Lemma counted_gone d ds m m' gone :
  m !! d_private_ip d = Some 1 → counted ds (delete (d_private_ip d) m) m' gone →
  counted (d :: ds) m m' ((d_private_ip d, d_tier d) :: gone).
Proof.
  intros E [H1 H2 H3 H4]. pose proof (heard_pos (d_private_ip d) ds). split.
  - rewrite fmap_cons. constructor; [|done]. rewrite H2 lookup_delete_eq. by intros (n & ? & _).
  - intros ip. rewrite fmap_cons elem_of_cons H2 heard_cons. cbn [fst]. case_decide as Ei.
    + subst ip. split; [|by left]. intros _. exists 1. split; [done|lia].
    + rewrite lookup_delete_ne //. split; [intros [? | ?]; [congruence|done]|by right].
  - intros ip tier [[= -> ->]|Hin]%elem_of_cons; [exists d; split; [by left|done]|].
    destruct (H3 _ _ Hin) as (d' & ? & ?). exists d'. split; [by right|done].
  - intros ip. rewrite H4 heard_cons. case_decide as Ei; [|by rewrite lookup_delete_ne].
    subst ip. rewrite lookup_delete_eq E /= decide_True //. lia.
Qed.

Lemma counted_less d ds m m' gone n :
  m !! d_private_ip d = Some n → counted ds (<[d_private_ip d := n - 1]> m) m' gone →
  counted (d :: ds) m m' gone.
Proof.
  intros E [H1 H2 H3 H4]. split; [done| | |].
  - intros ip. rewrite H2 heard_cons. case_decide as Ei; [|by rewrite lookup_insert_ne].
    subst ip. rewrite lookup_insert_eq E. split; intros (n' & [= <-] & Hle); eexists; (split; [done|lia]).
  - intros ip tier Hin. destruct (H3 _ _ Hin) as (d' & ? & ?). exists d'. split; [by right|done].
  - intros ip. rewrite H4 heard_cons. case_decide as Ei; [|by rewrite lookup_insert_ne].
    subst ip. rewrite lookup_insert_eq E /=. case_decide; case_decide; try lia; [done|f_equal; lia].
Qed.

Lemma counted_unknown d ds m m' gone :
  m !! d_private_ip d = None → counted ds m m' gone → counted (d :: ds) m m' gone.
Proof.
  intros E [H1 H2 H3 H4].
  assert (∀ ip n, m !! ip = Some n → heard ip (d :: ds) = heard ip ds) as Hh.
  { intros ip n En. rewrite heard_cons decide_False; [done|]. intros <-. congruence. }
  split; [done| | |].
  - intros ip. rewrite H2. split; intros (n & En & Hle); exists n; (split; [done|]);
      by rewrite (Hh _ _ En) // in Hle |- *.
  - intros ip tier Hin. destruct (H3 _ _ Hin) as (d' & ? & ?). exists d'. split; [by right|done].
  - intros ip. rewrite H4. destruct (m !! ip) as [n|] eqn:En; [|done]. by rewrite /= (Hh _ _ En).
Qed.

Lemma hear_all ds s :
  Forall done_ok ds → counters_ok (departing_node_map s) →
  ∃ s' gone, for_each ds hear s = (Ret tt, s') ∧
    mon_pushed s' = mon_pushed s ++ (uncurry removal <$> gone) ∧
    counted ds (departing_node_map s) (departing_node_map s') gone.
Proof.
  intros Hds. revert s. induction Hds as [|d ds Hd Hds IH]; intros s Hn.
  { exists s, []. split; [done|]. split; [by rewrite app_nil_r|by apply counted_nil]. }
  cbn [for_each]. rewrite (bind_ret _ _ _ _ _ (hear_run d s Hd Hn)).
  destruct (departing_node_map s !! d_private_ip d) as [n|] eqn:E; [case_decide as En|].
  - subst n. destruct (IH (node_gone d s)) as (s' & gone & H1 & H2 & H3); [by apply counts_delete|].
    exists s', ((d_private_ip d, d_tier d) :: gone). split; [done|].
    split; [by rewrite H2 /= -app_assoc|by apply counted_gone].
  - destruct (IH (one_less (d_private_ip d) n s)) as (s' & gone & H1 & H2 & H3); [by apply counts_less|].
    exists s', gone. split; [done|]. split; [done|by apply (counted_less _ _ _ _ _ n)].
  - destruct (IH s Hn) as (s' & gone & H1 & H2 & H3).
    exists s', gone. split; [done|]. split; [done|by apply counted_unknown].
Qed.

End Monitor.

(** ** A thread that leaves *)

Section Leave.
Context {wire bytes engine : Type}.
Context `{B : Bytes bytes, KC : KvsCodec wire bytes, D : Dinomo engine bytes, SH : StdHash, U : Unordered}.
Context (cfg : server_config).
Notation table := (gmap string (list (PendingRequest bytes))).
Implicit Types s : server_state wire bytes engine.

(** What answers a message that was not read yet. *)
Definition turn_away (serialized : wire) : list (string * packet wire) :=
  let request := kc_parse_KeyRequest serialized in
  if bool_decide (kr_tuples request = []) || String.eqb (kr_response_address request) EmptyString then []
  else [(kr_response_address request, Packed (kc_serialize_KeyResponse (kr_type request)
    (mkKeyResponse ((λ t, plain_tuple (kt_key t) (kt_lattice_type t) WRONG_THREAD) <$> kr_tuples request)
       (kr_request_id request))))].

Definition drained (s : server_state wire bytes engine) : list (string * packet wire) :=
  (sv_requests s ≫= turn_away) ++ (waiting (iterate (map_to_list (sv_batching s))) ≫= reply NO_ERROR) ++
  (waiting (iterate (map_to_list (sv_pending s))) ≫= reply WRONG_THREAD).

Lemma turn_away_run l s :
  for_each l (λ serialized,
    let request := kc_parse_KeyRequest serialized in
    let tuples := (λ t, plain_tuple (kt_key t) (kt_lattice_type t) WRONG_THREAD) <$> kr_tuples request in
    match tuples with
    | [] => mret tt
    | _ =>
        if String.eqb (kr_response_address request) EmptyString then mret tt
        else sv_push (kr_response_address request) (Packed (kc_serialize_KeyResponse (kr_type request)
               (mkKeyResponse tuples (kr_request_id request))))
    end) s = (Ret tt, sv_add_pushed (l ≫= turn_away) s).
Proof.
  apply sv_pushes. intros w s1 _. rewrite /turn_away. destruct (kr_tuples _) as [|x xs]; simpl.
  { by rewrite sv_add_pushed_nil. }
  destruct (String.eqb _ _); [by rewrite sv_add_pushed_nil|done].
Qed.

(** Nothing waits any more. *)
Definition emptied (s : server_state wire bytes engine) : server_state wire bytes engine :=
  sv_set_pending ∅ (sv_set_batching ∅ (sv_set_requests [] s)).

Lemma drain_run s : drain_user_requests s = (Ret tt, sv_add_pushed (drained s) (emptied s)).
Proof.
  rewrite /drain_user_requests. do 2 (erewrite bind_ret by reflexivity).
  rewrite (bind_ret _ _ _ _ _ (turn_away_run _ _)) (bind_ret _ _ _ _ _ (response_batching_run _)).
  erewrite bind_ret by reflexivity. rewrite (bind_ret _ _ _ _ _ (answer_waiting_run _ _ _)).
  by rewrite /modify /drained -!sv_add_pushed_app.
Qed.

(** Whom thread 0 tells. *)
Definition depart_notice_of (public_ip private_ip : string) : string :=
  Tier_Name (kSelfTier cfg) +:+ ":" +:+ public_ip +:+ ":" +:+ private_ip.

Definition announced (public_ip private_ip ack : string) (servers : list ServerThread)
  : list (string * packet wire) :=
  let msg := depart_notice_of public_ip private_ip in
  ((λ st, (node_depart_connect_address st, Text msg)) <$> servers) ++
  ((λ ip, (rt_notify_connect_address (mkRoutingThread ip 0), Text ("depart:" +:+ msg))) <$> sc_routing_ips cfg) ++
  ((λ ip, (mt_notify_connect_address ip, Text ("depart:" +:+ msg))) <$> sc_monitoring_ips cfg) ++
  ((λ tid, (self_depart_connect_address (server_thread public_ip private_ip tid), Text ack))
     <$> seqZ 1 (kThreadNum cfg - 1)).

Definition rings_left (tier : Z) (public_ip private_ip : string) (rings : list (Z * HashRing)) : list (Z * HashRing) :=
  dset tier (ring_remove GlobalHasher public_ip private_ip 0 (ring_at tier rings)) (touch tier rings).

Definition told (rings : list (Z * HashRing)) : list ServerThread :=
  iterate rings ≫= λ tr, iterate (unique_servers tr.2).

Lemma told_all rings : told rings ≡ₚ all_servers rings.
Proof. apply bind_perm; [intros; apply iterate_perm|apply iterate_perm]. Qed.

Lemma tell_servers_run rings msg s :
  for_each (iterate rings) (λ tr : Z * HashRing,
    for_each (iterate (unique_servers tr.2)) (λ st, sv_push (node_depart_connect_address st) (Text msg))) s =
  (Ret tt, sv_add_pushed ((λ st, (node_depart_connect_address st, Text msg)) <$> told rings) s).
Proof.
  rewrite (sv_pushes _ _ (λ tr : Z * HashRing,
    (λ st, (node_depart_connect_address st, Text msg)) <$> iterate (unique_servers tr.2))); last first.
  { intros tr s1 _. apply sv_pushes_map. }
  rewrite /told. generalize (iterate rings). intros l.
  assert ((l ≫= λ tr, (λ st, (node_depart_connect_address st, Text msg)) <$> iterate (unique_servers tr.2)) =
    (λ st, (node_depart_connect_address st, Text (wire := wire) msg)) <$>
      (l ≫= λ tr, iterate (unique_servers tr.2))) as -> by
    (by induction l as [|tr l IH]; [|rewrite !bind_cons fmap_app IH]). done.
Qed.

Definition sv_set_rings rings s : server_state wire bytes engine :=
  sv_set_node (set_global_rings rings (sv_node s)) s.

Lemma self_depart_run tid public_ip private_ip ack s :
  let rings := rings_left (kSelfTier cfg) public_ip private_ip (sv_rings s) in
  self_depart_handler cfg tid public_ip private_ip ack s =
  (Ret tt, sv_add_pushed
     ((if tid =? 0 then announced public_ip private_ip ack (told rings) else []) ++ drained s ++
        [(ack, Text (done_message public_ip private_ip (kSelfTier cfg)))])
     (emptied (sv_set_engine (db_merge false (sv_engine s)) (sv_set_rings rings s)))).
Proof.
  intros rings. rewrite /self_depart_handler. do 2 (erewrite bind_ret by reflexivity).
  set (s1 := sv_set_engine _ _).
  erewrite (bind_ret _ _ _ tt (sv_add_pushed
    (if tid =? 0 then announced public_ip private_ip ack (told rings) else []) s1)); last first.
  { destruct (tid =? 0); [|by rewrite sv_add_pushed_nil]. cbv zeta. erewrite bind_ret by reflexivity.
    rewrite (bind_ret _ _ _ _ _ (tell_servers_run _ _ _)) (bind_ret _ _ _ _ _ (sv_pushes_map _ _ _ _)).
    rewrite (bind_ret _ _ _ _ _ (sv_pushes_map _ _ _ _)) /tell_threads sv_pushes_map !sv_add_pushed_app.
    done. }
  rewrite (bind_ret _ _ _ _ _ (drain_run _)). by rewrite -!sv_add_pushed_app.
Qed.

End Leave.

(** ** The others hear of it *)

Section Hear.
Context {wire bytes engine : Type} `{SH : StdHash, U : Unordered}.

Lemma tier_name_ok tier :
  tier ∈ kAllTiers → field_ok (Tier_Name tier) ∧ Tier_Parse (Tier_Name tier) = Ret tier.
Proof. rewrite /kAllTiers !elem_of_cons elem_of_nil. by intros [-> | [-> | []]]. Qed.

Lemma node_depart_run cfg tid ip ip' tier public_ip private_ip (s : server_state wire bytes engine) :
  tier ∈ kAllTiers → field_ok public_ip → field_ok private_ip →
  let msg := Tier_Name tier +:+ ":" +:+ public_ip +:+ ":" +:+ private_ip in
  node_depart_handler cfg tid ip ip' msg s =
  (Ret tt, sv_add_pushed (if tid =? 0 then
       (λ w, (node_depart_connect_address (server_thread ip ip' w), Text msg)) <$> seqZ 1 (kThreadNum cfg - 1)
     else [])
     (sv_set_rings (rings_left tier public_ip private_ip (sv_rings s)) s)).
Proof.
  intros Ht [Hp _] [Hq Hq'] msg. destruct (tier_name_ok tier Ht) as [[Hn _] Hparse].
  assert (split ":" msg = [Tier_Name tier; public_ip; private_ip]) as Hs.
  { rewrite /msg (split_item ":" (Tier_Name tier)) // (split_item ":" public_ip) // split_last //. }
  rewrite /node_depart_handler Hs. do 3 (erewrite bind_ret by reflexivity).
  rewrite Hparse. do 2 (erewrite bind_ret by reflexivity).
  destruct (tid =? 0); [by rewrite /tell_threads sv_pushes_map|by rewrite sv_add_pushed_nil].
Qed.

(** What the monitoring server forgets about a node of a tier. *)
Definition forget (cfg : monitor_config) (tier : Z) (ip : string) (s : monitor_state) : monitor_state :=
  if tier =? MEMORY then
    mon_set_stats (delete ip (memory_consumption s)) (storage_consumption s)
      (delete ip (memory_occupancy s)) (storage_occupancy s)
      (forget_accesses ip (kMemoryThreadCount cfg) (key_access_frequency s)) s
  else
    mon_set_stats (memory_consumption s) (delete ip (storage_consumption s))
      (memory_occupancy s) (delete ip (storage_occupancy s))
      (forget_accesses ip (kStorageThreadCount cfg) (key_access_frequency s)) s.

Lemma monitor_depart_run cfg now tier public_ip private_ip s :
  tier ∈ kAllTiers → field_ok public_ip → field_ok private_ip →
  monitor_membership_handler cfg now (depart_message (Tier_Name tier) public_ip private_ip) s =
  (Ret tt, forget cfg tier private_ip (mon_set_rings (rings_left tier public_ip private_ip (mon_rings s)) s)).
Proof.
  intros Ht Hp Hq. destruct (tier_name_ok tier Ht) as [Hn Hparse].
  rewrite /monitor_membership_handler (split_depart (Tier_Name tier)) //.
  do 4 (erewrite bind_ret by reflexivity). change (String.eqb "depart" "join") with false.
  change (String.eqb "depart" "depart") with true. lazy iota. rewrite Hparse.
  do 2 (erewrite bind_ret by reflexivity).
  rewrite /kAllTiers !elem_of_cons elem_of_nil in Ht. by destruct Ht as [-> | [-> | []]].
Qed.

Lemma ring_at_left tier tier' public_ip private_ip rings :
  ring_at tier' (rings_left tier public_ip private_ip rings) =
  if decide (tier' = tier) then ring_remove GlobalHasher public_ip private_ip 0 (ring_at tier rings)
  else ring_at tier' rings.
Proof. rewrite /rings_left ring_at_dset. case_decide; [done|apply ring_at_touch]. Qed.

(** A deleted address is not in the statistics. *)
Lemma foldl_delete_lookup (f : Z → string) l (m : gmap string Z) k :
  foldl (λ m i, delete (f i) m) m l !! k = if decide (k ∈ f <$> l) then None else m !! k.
Proof.
  revert m. induction l as [|i l IH]; intros m; [done|]. cbn [foldl]. rewrite IH fmap_cons.
  destruct (decide (k = f i)) as [->|Hne].
  - rewrite lookup_delete_eq (decide_True (P := f i ∈ f i :: _)); [by case_decide|by left].
  - rewrite lookup_delete_ne //. case_decide as E1; case_decide as E2; try done.
    + destruct E2. by right.
    + by apply elem_of_cons in E2 as [].
Qed.

Lemma forgotten_accesses ip n kaf key m :
  forget_accesses ip n kaf !! key = Some m → ∀ tid, 0 ≤ tid < n → m !! (ip +:+ ":" +:+ to_string tid) = None.
Proof.
  rewrite /forget_accesses lookup_fmap. intros (m0 & _ & ->)%fmap_Some tid Ht.
  rewrite (foldl_delete_lookup (λ i, ip +:+ ":" +:+ to_string i)) decide_True //.
  apply list_elem_of_fmap. exists tid. split; [done|]. apply elem_of_seqZ. lia.
Qed.

End Hear.

(** ** Properties *)

(** C20: whatever order the threads of departing nodes finish in, the monitoring
    server asks the management server to remove a node exactly once, when it has
    heard from as many threads as it counts for it, and keeps waiting for the
    others; messages about unknown nodes change nothing. *)
Theorem departures_counted cfg ds s :
  Forall done_ok ds → counters_ok (departing_node_map s) →
  ∃ s' gone,
    for_each ds (λ d, depart_done_handler cfg (d_now d)
      (done_message (d_public_ip d) (d_private_ip d) (d_tier d))) s = (Ret tt, s') ∧
    mon_pushed s' = mon_pushed s ++ (uncurry (removal cfg) <$> gone) ∧
    counted ds (departing_node_map s) (departing_node_map s') gone.
Proof. apply hear_all. Qed.

Definition sample_monitor : monitor_config :=
  mkMonitorConfig (λ _, mkTierMetadata MEMORY 2 1 1000) 2 2 "10.0.0.1" "10.0.0.9".

Definition sample_monitor_state : monitor_state :=
  mkMonitorState [] 0 0 0 [] ∅ ∅ ∅ ∅ ∅ {["10.0.0.3"%string := 2; "10.0.0.4"%string := 2]} true false [].

Lemma departures_counted_witness :
  let ds := [mkDone 1 "1.1.1.3" "10.0.0.3" 1; mkDone 2 "1.1.1.4" "10.0.0.4" 1; mkDone 3 "1.1.1.3" "10.0.0.3" 1] in
  ∃ s' gone, for_each ds (λ d, depart_done_handler sample_monitor (d_now d)
      (done_message (d_public_ip d) (d_private_ip d) (d_tier d))) sample_monitor_state = (Ret tt, s') ∧
    mon_pushed s' = uncurry (removal sample_monitor) <$> gone ∧
    counted ds (departing_node_map sample_monitor_state) (departing_node_map s') gone ∧
    "10.0.0.3"%string ∈ gone.*1.
Proof.
  intros ds. destruct (departures_counted sample_monitor ds sample_monitor_state) as (s' & gone & H1 & H2 & H3).
  - repeat apply Forall_cons_2; [..|apply Forall_nil_2];
      (split; [reflexivity|]; split; [reflexivity|]; apply list_elem_of_here).
  - apply map_Forall_insert_2; [lia|]. apply map_Forall_singleton. lia.
  - exists s', gone. split; [exact H1|]. split; [exact H2|]. split; [exact H3|].
    apply (gone_iff _ _ _ _ H3). exists 2. split; [reflexivity|]. vm_compute. discriminate.
Defined.

(** C19: a thread that leaves returns with its node out of the ring of its tier,
    the logs merged and nothing waiting: every request that waited, read or not, for
    a batch or for a replication factor, is answered once if it says where, the
    batched ones as done and the others with [WRONG_THREAD]; thread 0 announces the
    departure once to every server left, to every routing and monitoring server and
    to each other thread; the waiting address hears last. *)
Theorem self_depart_correct {wire bytes engine : Type} `{B : Bytes bytes, KC : KvsCodec wire bytes,
    D : Dinomo engine bytes, SH : StdHash, U : Unordered}
    cfg tid public_ip private_ip ack (s : server_state wire bytes engine) :
  global_wf (ring_at (kSelfTier cfg) (sv_rings s)) →
  ∃ s' notices answers, self_depart_handler cfg tid public_ip private_ip ack s = (Ret tt, s') ∧
    sv_pushed s' = sv_pushed s ++ notices ++ answers ++
      [(ack, Text (done_message public_ip private_ip (kSelfTier cfg)))] ∧
    answers ≡ₚ (sv_requests s ≫= turn_away) ++
      (waiting (map_to_list (sv_batching s)) ≫= reply NO_ERROR) ++
      (waiting (map_to_list (sv_pending s)) ≫= reply WRONG_THREAD) ∧
    notices ≡ₚ (if tid =? 0 then announced cfg public_ip private_ip ack (all_servers (sv_rings s')) else []) ∧
    sv_requests s' = [] ∧ sv_batching s' = ∅ ∧ sv_pending s' = ∅ ∧ sv_engine s' = db_merge false (sv_engine s) ∧
    unique_servers (ring_at (kSelfTier cfg) (sv_rings s')) =
      filter (λ u, st_private_ip u ≠ private_ip) (unique_servers (ring_at (kSelfTier cfg) (sv_rings s))) ∧
    Forall (λ hn, st_private_ip hn.2 ≠ private_ip) (nodes (ring_at (kSelfTier cfg) (sv_rings s'))) ∧
    ∀ tier, tier ≠ kSelfTier cfg → ring_at tier (sv_rings s') = ring_at tier (sv_rings s).
Proof.
  intros Hwf. do 3 eexists. split; [apply self_depart_run|].
  set (rings := rings_left _ _ _ _). split; [done|]. split.
  { rewrite /drained. repeat apply Permutation_app; [done|..]; (apply bind_perm; [done|apply waiting_perm]). }
  split. { destruct (tid =? 0); [|done]. apply Permutation_app_tail, fmap_Permutation, told_all. }
  do 4 (split; [done|]). rewrite (_ : sv_rings (sv_add_pushed _ _) = rings) //.
  rewrite /rings ring_at_left decide_True //.
  split; [by apply removed_servers|]. split; [by apply removed_nodes|].
  intros tier Ht. by rewrite ring_at_left decide_False.
Qed.

(** ** A small instance *)

Inductive sample_kvs_wire : Type :=
  | SampleRequest (m : KeyRequest string)
  | SampleAnswer (type : RequestType) (m : KeyResponse string).

(** Payloads are texts. *)
Definition sample_bytes : Bytes string := {|
  no_bytes := EmptyString;
  is_empty := String.eqb EmptyString;
  with_zero s := s +:+ String Ascii.zero EmptyString
|}.

Definition sample_kvs_codec : KvsCodec sample_kvs_wire string := {|
  kc_parse_KeyRequest w := match w with
    | SampleRequest m => m
    | SampleAnswer _ _ => mkKeyRequest RT_UNSPECIFIED [] EmptyString EmptyString
    end;
  kc_serialize_KeyRequest := SampleRequest;
  kc_serialize_KeyResponse := SampleAnswer
|}.

#[local] Existing Instances sample_bytes sample_kvs_codec map_dinomo sample_std_hash insertion_order.

Definition sample_kvs : server_config :=
  mkServerConfig (sample_config true) MEMORY 2 false 1000 1 ["10.0.0.2"%string] ["10.0.0.9"%string].

Definition sample_kvs_state : server_state sample_kvs_wire string (map_engine string) :=
  let H := GlobalHasher (H := sample_std_hash) in
  mkServerState (mkRoutingState
    [(MEMORY, (ring_insert H "1.1.1.4" "10.0.0.4" 0 0 (ring_insert H "1.1.1.3" "10.0.0.3" 0 0 empty_ring).2).2)]
    [] ∅ ∅ 0 [])
    {["k"%string := [mkPendingRequest GET 0 EmptyString "tcp://c:6460" "c:0"]]} ∅ [] ∅ 0 (∅, ∅)
    (mkMemoryStores ∅ ∅ ∅ ∅ ∅) 0.

Lemma self_depart_correct_witness :
  ∃ s' notices answers,
    self_depart_handler sample_kvs 0 "1.1.1.3" "10.0.0.3" "tcp://10.0.0.9:6760" sample_kvs_state = (Ret tt, s') ∧
    sv_pushed s' = notices ++ answers ++
      [("tcp://10.0.0.9:6760"%string, Text (done_message "1.1.1.3" "10.0.0.3" MEMORY))] ∧
    answers ≡ₚ [("tcp://c:6460"%string, Packed (SampleAnswer GET
                   (mkKeyResponse [plain_tuple "k" 0 WRONG_THREAD] "c:0")))].
Proof.
  destruct (self_depart_correct sample_kvs 0 "1.1.1.3" "10.0.0.3" "tcp://10.0.0.9:6760" sample_kvs_state)
    as (s' & notices & answers & H1 & H2 & H3 & _).
  - do 2 apply insert_global_wf. apply empty_global_wf.
  - exists s', notices, answers. split; [exact H1|]. split; [exact H2|exact H3].
Defined.
