(* ===== verification/DeparturePeers.v ===== *)
(** * A planned departure, from the decision to the removal

    The monitoring server asks a storage server to leave, its threads leave and
    tell the others, and the monitoring server asks the management server (Python,
    src/cluster/dinomo) to remove the node.  The parts are modelled from their own
    sources; here they meet. *)

From S2P Require Import Prelude Objects OrderedSet Lattices Messages Yaml Kube Cluster Management.
From S2P Require Import ManagementProps Cpp Threads Metadata HashRing HashRingProps Routing.
From S2P Require Import RoutingProps CppLattices Storage StorageProps Departure DepartureProps.

#[local] Open Scope Z_scope.

(** ** The last thread of a node *)

Section Count.
Context (cfg : monitor_config).
Implicit Types s : monitor_state.

Lemma node_gone_one_less d n s : node_gone cfg d (one_less (d_private_ip d) n s) = node_gone cfg d s.
Proof. by rewrite /node_gone /one_less /mon_set_grace /mon_set_departing /= delete_insert_eq. Qed.

Lemma hear_node ip ds d s :
  Forall (λ d, done_ok d ∧ d_private_ip d = ip) (ds ++ [d]) → counters_ok (departing_node_map s) →
  departing_node_map s !! ip = Some (Z.of_nat (length (ds ++ [d]))) →
  for_each (ds ++ [d]) (hear cfg) s = (Ret tt, node_gone cfg d s).
Proof.
  revert s. induction ds as [|d0 ds IH]; intros s Hds Hm E; rewrite ?app_nil_l -?app_comm_cons in Hds |- *;
    apply Forall_cons in Hds as [[Hd Hip] Hds]; cbn [for_each];
    rewrite (bind_ret _ _ _ _ _ (hear_run cfg _ s Hd Hm)) Hip E.
  { done. }
  rewrite decide_False; [|rewrite /= length_app /=; lia].
  assert (d_private_ip d = ip) as Hd'.
  { apply Forall_app in Hds as [_ [[_ ?] _]%Forall_cons]. done. }
  rewrite IH //.
  - rewrite -{1}Hd'. by rewrite node_gone_one_less.
  - apply counts_less; [done| |done]. rewrite /= length_app /=. lia.
  - cbn. rewrite lookup_insert_eq. f_equal. rewrite length_app /=. lia.
Qed.

Lemma remove_node_run node s :
  mon_remove_node cfg node true s =
  (Ret tt, mon_add_pushed (self_depart_connect_address node, mt_depart_done_connect_address (mon_ip cfg))
     (mon_set_departing (<[st_private_ip node := thread_number (mon_tiers cfg MEMORY)]> (departing_node_map s))
        true (removing_storage_node s) s)).
Proof. done. Qed.

End Count.

(** ** Properties *)

(** C6: a planned departure of a memory server completes.  The monitoring server
    asks thread 0 to leave; thread 0 hands the request to every other thread; each
    thread, whatever its state, leaves and reports to the monitoring server last;
    when as many reports as the node has threads have come, at whatever times, the
    monitoring server has asked for one removal, has forgotten the departure and may
    plan the next; and that request makes the management server have the cluster
    server remove the node. *)
Theorem departure_completes {wire bytes engine : Type} `{B : Bytes bytes, KC : KvsCodec wire bytes,
    D : Dinomo engine bytes, SH : StdHash, U : Unordered, K : Kube}
    mcfg kcfg public_ip private_ip times now s fuel ip0 cfile prefix ks0 :
  let n := kThreadNum kcfg in
  let node := server_thread public_ip private_ip 0 in
  let ack := mt_depart_done_connect_address (mon_ip mcfg) in
  let report := done_message public_ip private_ip (kSelfTier kcfg) in
  kSelfTier kcfg = MEMORY → thread_number (mon_tiers mcfg MEMORY) = n → 0 < n < 2 ^ 32 →
  counters_ok (departing_node_map s) → ip_ok public_ip → ip_ok private_ip → str_has ":" private_ip = false →
  Z.of_nat (length (times ++ [now])) = n →
  ∃ s1 s2 msg, mon_remove_node mcfg node true s = (Ret tt, s1) ∧
    mon_pushed s1 = mon_pushed s ++ [(self_depart_connect_address node, ack)] ∧
    (∀ (ks : server_state wire bytes engine) tid, 0 ≤ tid < n → ∃ ks' sent,
       self_depart_handler kcfg tid public_ip private_ip ack ks = (Ret tt, ks') ∧
       sv_pushed ks' = sv_pushed ks ++ sent ++ [(ack, Text report)] ∧
       (tid = 0 → ∀ w, 1 ≤ w < n →
          (self_depart_connect_address (server_thread public_ip private_ip w), Text ack) ∈ sent)) ∧
    for_each (times ++ [now]) (λ t, depart_done_handler mcfg t report) s1 = (Ret tt, s2) ∧
    mon_pushed s2 = mon_pushed s1 ++ [(mgmt_addr mcfg, remove_request "memory" private_ip)] ∧
    departing_node_map s2 = delete private_ip (departing_node_map s) ∧
    removing_memory_node s2 = false ∧ grace_start s2 = now ∧
    churn_message (management_scaler ip0) (remove_request "memory" private_ip) ks0 =
      (Ret tt, emitted (asked ks0) [ESend (remove_socket (management_scaler ip0)) msg] ks0) ∧
    ∀ ks, k8s_round fuel cfile prefix (mkK8sPoll None (Some msg)) ks = remove_node private_ip "memory" ks.
Proof.
  intros n node ack report Htier Hn Hpos Hm Hp Hq Hcolon Hlen.
  destruct (scaling_remove_run fuel ip0 cfile prefix "memory" private_ip ks0 eq_refl Hcolon) as (msg & Hc & Hk).
  set (done_at := λ t, mkDone t public_ip private_ip MEMORY).
  do 2 eexists. exists msg. split; [apply remove_node_run|]. split; [done|]. split.
  { intros ks tid Ht. eexists. exists ((if tid =? 0 then announced kcfg public_ip private_ip ack
      (told (rings_left (kSelfTier kcfg) public_ip private_ip (sv_rings ks))) else []) ++ drained ks).
    split; [apply self_depart_run|]. 
    split; [by rewrite -!app_assoc|]. intros -> w Hw. apply elem_of_app. left.
    rewrite /announced !elem_of_app. do 3 right. apply list_elem_of_fmap. exists w.
    split; [done|]. apply elem_of_seqZ. subst n. lia. }
  split.
  { rewrite /report Htier -(for_each_fmap done_at _ (hear mcfg)) fmap_app. apply (hear_node mcfg private_ip).
    - apply Forall_forall. intros d Hd. rewrite -(fmap_app done_at _ [now]) in Hd.
      apply list_elem_of_fmap in Hd as (t & -> & _). split; [|done].
      split; [done|]. split; [done|apply list_elem_of_here].
    - cbn. apply map_Forall_insert_2; [by rewrite Hn|done].
    - cbn. rewrite lookup_insert_eq Hn -(fmap_app done_at _ [now]) length_fmap. by f_equal. }
  cbn. rewrite delete_insert_eq. done.
Qed.

#[local] Existing Instances sample_bytes sample_kvs_codec map_dinomo sample_std_hash insertion_order.

Lemma departure_completes_witness :
  let report := done_message "1.1.1.5" "10.0.0.5" MEMORY in
  ∃ s1 s2, mon_remove_node sample_monitor (server_thread "1.1.1.5" "10.0.0.5" 0) true sample_monitor_state = (Ret tt, s1) ∧
    for_each [7; 9] (λ t, depart_done_handler sample_monitor t report) s1 = (Ret tt, s2) ∧
    mon_pushed s2 = mon_pushed s1 ++ [("tcp://10.0.0.1:8101"%string, remove_request "memory" "10.0.0.5")].
Proof.
  destruct (departure_completes (K := view_kube example_view) sample_monitor sample_kvs "1.1.1.5" "10.0.0.5" [7] 9
    sample_monitor_state 1 "10.0.0.1" "c.yml" "/p" (mkKstate 0 [] []))
    as (s1 & s2 & msg & H1 & _ & _ & H2 & H3 & _).
  - reflexivity.
  - reflexivity.
  - by split.
  - apply map_Forall_insert_2; [lia|]. apply map_Forall_singleton. lia.
  - reflexivity.
  - reflexivity.
  - reflexivity.
  - reflexivity.
  - exists s1, s2. split; [exact H1|]. split; [exact H2|exact H3].
Defined.

(** C21: a departure reaches everyone.  The notice that thread 0 of a leaving server
    sends to the other servers, and the one it sends to the routing and monitoring
    servers, are understood by all of them: each of them then has the leaving server
    neither among the members nor on the ring of its tier and every other member
    still there, its other rings are as before, and the monitoring server has no
    figures of the server left. *)
Theorem departure_reaches {wire bytes engine rwire : Type} `{RC : RoutingCodec rwire, SH : StdHash, U : Unordered}
    kcfg ocfg rcfg mcfg public_ip private_ip tid ip ip' rtid rip now
    (ks : server_state wire bytes engine) (rs : routing_state rwire) (ms : monitor_state) :
  let tier := kSelfTier kcfg in
  let notice := depart_notice_of kcfg public_ip private_ip in
  let leaves rings rings' :=
    unique_servers (ring_at tier rings') =
      filter (λ u, st_private_ip u ≠ private_ip) (unique_servers (ring_at tier rings)) ∧
    Forall (λ hn, st_private_ip hn.2 ≠ private_ip) (nodes (ring_at tier rings')) ∧
    ∀ t, t ≠ tier → ring_at t rings' = ring_at t rings in
  tier ∈ kAllTiers → field_ok public_ip → field_ok private_ip →
  rings_wf global_wf (sv_rings ks) → rings_wf global_wf (global_hash_rings rs) → rings_wf global_wf (mon_rings ms) →
  ∃ ks' rs' ms',
    node_depart_handler ocfg tid ip ip' notice ks = (Ret tt, ks') ∧ leaves (sv_rings ks) (sv_rings ks') ∧
    membership_handler rcfg ("depart:" +:+ notice) rtid rip rs = (Ret tt, rs') ∧
    leaves (global_hash_rings rs) (global_hash_rings rs') ∧
    monitor_membership_handler mcfg now ("depart:" +:+ notice) ms = (Ret tt, ms') ∧
    leaves (mon_rings ms) (mon_rings ms') ∧
    (if decide (tier = MEMORY)
     then memory_consumption ms' !! private_ip = None ∧ memory_occupancy ms' !! private_ip = None
     else storage_consumption ms' !! private_ip = None ∧ storage_occupancy ms' !! private_ip = None) ∧
    ∀ key m w, key_access_frequency ms' !! key = Some m →
      0 ≤ w < (if decide (tier = MEMORY) then kMemoryThreadCount mcfg else kStorageThreadCount mcfg) →
      m !! (private_ip +:+ ":" +:+ to_string w) = None.
Proof.
  intros tier notice leaves Ht Hp Hq Hks Hrs Hms. destruct (tier_name_ok tier Ht) as [Hn Hparse].
  assert (∀ rings rings', rings_wf global_wf rings → (∀ t, ring_at t rings' =
    if decide (t = tier) then ring_remove GlobalHasher public_ip private_ip 0 (ring_at tier rings)
    else ring_at t rings) → leaves rings rings') as Hl.
  { intros rings rings' Hwf Hr. assert (global_wf (ring_at tier rings)) by
      (apply rings_wf_at; [apply empty_global_wf|done]).
    rewrite /leaves Hr decide_True //. split; [by apply removed_servers|]. split; [by apply removed_nodes|].
    intros t Hne. by rewrite Hr decide_False. }
  do 3 eexists. split; [by apply (node_depart_run ocfg tid ip ip' tier public_ip private_ip)|].
  split; [apply Hl; [done|]; intros t; apply ring_at_left|].
  split; [by apply (depart_run rcfg (Tier_Name tier) tier public_ip private_ip rtid rip)|].
  split; [apply Hl; [done|]; intros t; apply ring_at_without|].
  split; [by apply (monitor_depart_run mcfg now tier public_ip private_ip)|].
  rewrite /forget. destruct (Z.eqb_spec tier MEMORY) as [E|E];
    [rewrite !(decide_True (P := tier = MEMORY)) //|rewrite !(decide_False (P := tier = MEMORY)) //];
    (split; [apply Hl; [done|]; intros t; apply ring_at_left|]);
    (split; [split; apply lookup_delete_eq|]); intros key m w Hm Hw; by apply (forgotten_accesses _ _ _ _ _ Hm).
Qed.

Lemma departure_reaches_witness :
  ∃ ks', node_depart_handler sample_kvs 1 "1.1.1.4" "10.0.0.4"
      (depart_notice_of sample_kvs "1.1.1.3" "10.0.0.3") sample_kvs_state = (Ret tt, ks') ∧
    unique_servers (ring_at MEMORY (sv_rings ks')) = [virtual_thread "1.1.1.4" "10.0.0.4" 0 0].
Proof.
  destruct (departure_reaches (RC := sample_codec) sample_kvs sample_kvs (sample_config true) sample_monitor
    "1.1.1.3" "10.0.0.3" 1 "1.1.1.4" "10.0.0.4" 0 "10.0.0.2" 5 sample_kvs_state
    (mkRoutingState [] [] ∅ ∅ 0 []) sample_monitor_state) as (ks' & rs' & ms' & H1 & [H2 _] & _).
  - apply list_elem_of_here.
  - by split.
  - by split.
  - apply Forall_singleton. do 2 apply insert_global_wf. apply empty_global_wf.
  - apply Forall_nil_2.
  - apply Forall_nil_2.
  - exists ks'. split; [exact H1|]. exact H2.
Defined.
