(* ===== verification/Join.v ===== *)
(** * Joins of storage servers

    src/src/kvs/node_join_handler.cpp, in the build that CMakeLists.txt selects, and
    the synchronous requests of src/common/include/requests.hpp.  A new server waits
    until the others have merged what they wrote; the others wait until it lets them
    go on. *)

From S2P Require Import Prelude Objects OrderedSet Lattices Messages Cpp Threads Metadata HashRing Routing.
From S2P Require Import HashRingProps RoutingProps CppLattices Storage StorageProps StorageServer StorageBatch.
From S2P Require Import Departure DepartureProps.

#[local] Open Scope Z_scope.

(** ** requests.hpp *)

(** What a socket with a time limit delivers: messages and timeouts ([None]). *)
Section Receive.
Context {wire RES : Type} (parse : wire → RES) (response_id : RES → string).

(** Waits for the responses to [request_ids]; the number of timeouts is limited by
    the number of requests.  The result is whether all arrived, the responses, and
    what is still to be delivered. *)
Fixpoint receive_loop (request_ids : gset string) (responses : list RES) (timeout_limit : Z)
    (arrivals : list (option wire)) : outcome (bool * list RES * list (option wire)) :=
  match arrivals with
  | [] => Blocked
  | Some message :: arrivals' =>
      let response := parse message in
      let resp_id := response_id response in
      let '(request_ids', responses') :=
        if decide (resp_id ∈ request_ids) then (request_ids ∖ {[resp_id]}, responses ++ [response])
        else (request_ids, responses) in
      if decide (request_ids' = ∅) then Ret (true, responses', arrivals')
      else receive_loop request_ids' responses' timeout_limit arrivals'
  | None :: arrivals' =>
      let timeout_limit' := u32 (timeout_limit - 1) in
      if timeout_limit' =? 0 then Ret (false, [], arrivals')
      else receive_loop request_ids responses timeout_limit' arrivals'
  end.

Definition receive (request_ids : gset string) (arrivals : list (option wire))
  : outcome (bool * list RES * list (option wire)) :=
  receive_loop request_ids [] (u32 (Z.of_nat (size request_ids))) arrivals.

(** How many timeouts there are. *)
Definition timeouts (arrivals : list (option wire)) : nat := length (filter (λ a, a = None) arrivals).

Lemma timeouts_message m arrivals : timeouts (Some m :: arrivals) = timeouts arrivals.
Proof. by rewrite /timeouts filter_cons_False. Qed.
Lemma timeouts_timeout arrivals : timeouts (None :: arrivals) = S (timeouts arrivals).
Proof. by rewrite /timeouts filter_cons_True. Qed.

(** Enough timeouts end the wait. *)
Lemma receive_loop_returns request_ids responses limit arrivals :
  0 < limit < 2 ^ 32 → limit ≤ Z.of_nat (timeouts arrivals) →
  ∃ ok responses' rest, receive_loop request_ids responses limit arrivals = Ret (ok, responses', rest) ∧
    Z.of_nat (timeouts arrivals) ≤ Z.of_nat (timeouts rest) + limit.
Proof.
  revert request_ids responses limit. induction arrivals as [|[m|] arrivals IH]; intros ids rs limit Hl Ht.
  { cbn in Ht. lia. }
  - cbn [receive_loop]. rewrite timeouts_message in Ht |- *. destruct (if decide _ then _ else _) as [ids' rs']. case_decide.
    + do 3 eexists. split; [reflexivity|]. lia.
    + by apply IH.
  - cbn [receive_loop]. rewrite timeouts_timeout in Ht |- *. rewrite u32_small; [|lia]. destruct (limit - 1 =? 0) eqn:E.
    + do 3 eexists. split; [reflexivity|]. lia.
    + destruct (IH ids rs (limit - 1)) as (ok & rs' & rest & H1 & H2); [lia|lia|].
      exists ok, rs', rest. split; [done|]. lia.
Qed.

(** Nothing else can happen than that messages are still to come. *)
Lemma receive_loop_waits request_ids responses limit arrivals :
  receive_loop request_ids responses limit arrivals = Blocked ∨
  ∃ r, receive_loop request_ids responses limit arrivals = Ret r.
Proof.
  revert request_ids responses limit. induction arrivals as [|[m|] arrivals IH]; intros ids rs limit; [by left| |];
    cbn [receive_loop].
  - destruct (if decide _ then _ else _) as [ids' rs']. case_decide; [right; by eexists|apply IH].
  - case_match; [right; by eexists|apply IH].
Qed.

Lemma receive_waits request_ids arrivals :
  receive request_ids arrivals = Blocked ∨ ∃ r, receive request_ids arrivals = Ret r.
Proof. apply receive_loop_waits. Qed.

Lemma receive_returns request_ids arrivals :
  request_ids ≠ ∅ → Z.of_nat (size request_ids) < 2 ^ 32 →
  (size request_ids ≤ timeouts arrivals)%nat →
  ∃ ok responses rest, receive request_ids arrivals = Ret (ok, responses, rest) ∧
    (timeouts arrivals ≤ timeouts rest + size request_ids)%nat.
Proof.
  intros Hne Hb Ht. assert (size request_ids ≠ 0%nat) by (intros E%size_empty_iff; by apply leibniz_equiv in E).
  rewrite /receive u32_small; [|lia].
  destruct (receive_loop_returns request_ids [] (Z.of_nat (size request_ids)) arrivals) as (ok & rs & rest & H1 & H2);
    [lia|lia|]. exists ok, rs, rest. split; [done|]. lia.
Qed.

End Receive.

(** ** node_join_handler.cpp *)

Record NodeJoinRequestResponse : Type := mkNodeJoinRequestResponse {
  njr_response_address : string;
  njr_response_id : string;
  njr_request_id : string
}.

(** The messages of a join; [NodeJoinRequestUnblock] is its identifier. *)
Class JoinCodec (wire : Type) : Type := {
  parse_NodeJoinRequest : wire → NodeJoinRequest;
  jc_serialize_NodeJoinRequest : NodeJoinRequest → wire;
  parse_NodeJoinRequestResponse : wire → NodeJoinRequestResponse;
  serialize_NodeJoinRequestResponse : NodeJoinRequestResponse → wire;
  parse_NodeJoinRequestUnblock : wire → string;
  serialize_NodeJoinRequestUnblock : string → wire
}.

Section Join.
Context {wire bytes engine : Type}.
Context `{B : Bytes bytes, KC : KvsCodec wire bytes, JC : JoinCodec wire, D : Dinomo engine bytes, SH : StdHash, U : Unordered}.
Context (cfg : server_config).
Notation state := (server_state wire bytes engine).
Notation W := (M state).
Notation arrivals_t := (list (option wire)).
Implicit Types s : state.

(** [global_hash_rings[tier].insert(public_ip, private_ip, join_count, 0)] *)
Definition kvs_insert_server (tier : Z) (public_ip private_ip : string) (join_count : Z) : W bool :=
  on_node (
    ring ← global_ring tier;
    let '(inserted, ring') := ring_insert GlobalHasher public_ip private_ip join_count 0 ring in
    modify (λ n, set_global_rings (dset tier ring' (global_hash_rings n)) n) ;;
    mret inserted).

(** [send_request<REQ>(request, pushers[address])] *)
Notation send_to address m := (sv_push address (Packed m)).
(** The requests of a thread are numbered. *)
Notation request_id wt n := (response_connect_address wt +:+ ":" +:+ to_string n).

(** The workers of this server hear of the join; if the new server waits, they are
    asked to respond. *)
Definition tell_join (wt : ServerThread) (public_ip private_ip : string) (self_join_count : Z)
    (new_public_ip new_private_ip : string) (join_req : NodeJoinRequest) (serialized : wire) : W (gset string) :=
  let worker tid := node_join_connect_address (server_thread public_ip private_ip tid) in
  let tids := seqZ 1 (kThreadNum cfg - 1) in
  send_to (node_join_connect_address (server_thread new_public_ip new_private_ip 0))
    (jc_serialize_NodeJoinRequest (mkNodeJoinRequest EmptyString EmptyString
      (Tier_Name (kSelfTier cfg) +:+ ":" +:+ public_ip +:+ ":" +:+ private_ip +:+ ":" +:+ to_string self_join_count))) ;;
  if String.eqb (nj_response_address join_req) EmptyString then
    for_each tids (λ tid, send_to (worker tid) serialized) ;;
    mret ∅
  else
    for_each tids (λ tid, send_to (worker tid) (jc_serialize_NodeJoinRequest
      (mkNodeJoinRequest (response_connect_address wt) (request_id wt tid) (nj_request_msg join_req)))) ;;
    mret (list_to_set ((λ tid, request_id wt tid) <$> tids)).

(** [make_request<REQ, RES>]: the response, if it came in time. *)
Definition make_request {RES} (parse : wire → RES) (response_id : RES → string) (address : string) (request : wire)
    (id : string) (arrivals : arrivals_t) : W (option RES * arrivals_t) :=
  send_to address request ;;
  r ← lift (receive parse response_id {[id]} arrivals);
  mret (if r.1.1 : bool then head r.1.2 else None, r.2).

(** The response to the new server, and the wait for its acknowledgement. *)
Definition join_response (wt : ServerThread) (join_req : NodeJoinRequest) : NodeJoinRequestResponse :=
  mkNodeJoinRequestResponse (response_connect_address wt) (nj_request_id join_req)
    (request_id wt 0).

Definition respond_join (wt : ServerThread) (join_req : NodeJoinRequest) (arrivals : arrivals_t) : W arrivals_t :=
  let response := join_response wt join_req in
  r ← make_request parse_NodeJoinRequestUnblock id (nj_response_address join_req)
        (serialize_NodeJoinRequestResponse response) (njr_request_id response) arrivals;
  mret r.2.

(** [arrivals] is what the socket for responses delivers from now on. *)
Definition node_join_handler (thread_id : Z) (public_ip private_ip : string) (wt : ServerThread)
    (self_join_count : Z) (serialized : wire) (arrivals : arrivals_t) : W arrivals_t :=
  let join_req := parse_NodeJoinRequest serialized in
  let waits := negb (String.eqb (nj_response_address join_req) EmptyString) in
  let v := split ":" (nj_request_msg join_req) in
  v0 ← lift (vector_at v 0);
  tier ← lift (Tier_Parse v0);
  new_server_public_ip ← lift (vector_at v 1);
  new_server_private_ip ← lift (vector_at v 2);
  v3 ← lift (vector_at v 3);
  join_count ← lift (stoi v3);
  inserted ← kvs_insert_server tier new_server_public_ip new_server_private_ip join_count;
  req_ids ← (if inserted && (thread_id =? 0)
             then tell_join wt public_ip private_ip self_join_count new_server_public_ip new_server_private_ip
                    join_req serialized
             else mret ∅);
  (if (tier =? kSelfTier cfg) && waits then
     modify (λ s, sv_set_engine (db_merge true (sv_engine s)) s) ;;
     response_batching_requests
   else mret tt) ;;
  if negb waits then mret arrivals
  else if thread_id =? 0 then
    r ← (if decide (req_ids = ∅) then mret (true, [], arrivals)
         else lift (receive parse_NodeJoinRequestResponse njr_response_id req_ids arrivals));
    rest ← respond_join wt join_req r.2;
    for_each r.1.2 (λ join_response,
      send_to (njr_response_address join_response)
        (serialize_NodeJoinRequestUnblock (njr_request_id join_response))) ;;
    mret rest
  else respond_join wt join_req arrivals.

(** ** What each part does *)

Definition inserted_at (tier : Z) (public_ip private_ip : string) (join_count : Z) s : bool * HashRing :=
  ring_insert GlobalHasher public_ip private_ip join_count 0 (ring_at tier (sv_rings s)).

Definition with_server (tier : Z) (public_ip private_ip : string) (join_count : Z) s : state :=
  sv_set_rings (dset tier (inserted_at tier public_ip private_ip join_count s).2 (touch tier (sv_rings s))) s.

Lemma kvs_insert_run tier public_ip private_ip join_count s :
  kvs_insert_server tier public_ip private_ip join_count s =
  (Ret (inserted_at tier public_ip private_ip join_count s).1, with_server tier public_ip private_ip join_count s).
Proof.
  rewrite /kvs_insert_server /on_node (bind_ret _ _ _ _ _ (global_ring_run _ _)) /with_server /inserted_at /sv_rings.
  by destruct (ring_insert _ _ _ _ _ _).
Qed.

Lemma with_server_ring tier public_ip private_ip join_count s tier' :
  ring_at tier' (sv_rings (with_server tier public_ip private_ip join_count s)) =
  if decide (tier' = tier) then (inserted_at tier public_ip private_ip join_count s).2
  else ring_at tier' (sv_rings s).
Proof.
  rewrite (_ : sv_rings (with_server _ _ _ _ _) = dset tier (inserted_at tier public_ip private_ip join_count s).2
    (touch tier (sv_rings s))) //. rewrite ring_at_dset ring_at_touch. done.
Qed.

(** The messages of thread 0. *)
Definition join_notices (wt : ServerThread) (public_ip private_ip : string) (self_join_count : Z)
    (new_public_ip new_private_ip : string) (join_req : NodeJoinRequest) : list (string * packet wire) :=
  (node_join_connect_address (server_thread new_public_ip new_private_ip 0),
   Packed (jc_serialize_NodeJoinRequest (mkNodeJoinRequest EmptyString EmptyString
     (Tier_Name (kSelfTier cfg) +:+ ":" +:+ public_ip +:+ ":" +:+ private_ip +:+ ":" +:+ to_string self_join_count)))) ::
  ((λ tid, (node_join_connect_address (server_thread public_ip private_ip tid),
     Packed (jc_serialize_NodeJoinRequest
       (mkNodeJoinRequest (response_connect_address wt) (request_id wt tid) (nj_request_msg join_req))))) <$>
   seqZ 1 (kThreadNum cfg - 1)).

Lemma tell_join_run wt public_ip private_ip self_join_count new_public_ip new_private_ip join_req serialized s :
  nj_response_address join_req ≠ EmptyString →
  tell_join wt public_ip private_ip self_join_count new_public_ip new_private_ip join_req serialized s =
  (Ret (list_to_set ((λ tid, request_id wt tid) <$> seqZ 1 (kThreadNum cfg - 1))),
   sv_add_pushed (join_notices wt public_ip private_ip self_join_count new_public_ip new_private_ip join_req) s).
Proof.
  intros Hne. apply String.eqb_neq in Hne. rewrite /tell_join Hne. erewrite bind_ret by reflexivity.
  rewrite (bind_ret _ _ _ _ _ (sv_pushes_map _ _ _ _)). rewrite /mret /M_ret. f_equal.
  by rewrite /sv_add_pushed /join_notices /sv_set_node /= /pushes /= -app_assoc.
Qed.

Lemma size_ids (f : Z → string) (l : list Z) : (size (list_to_set (C := gset string) (f <$> l)) ≤ length l)%nat.
Proof.
  induction l as [|tid l IH]; [by rewrite size_empty|]. rewrite fmap_cons. cbn [list_to_set length].
  rewrite size_union_alt size_singleton.
  etrans; [apply Nat.add_le_mono_l, subseteq_size, subseteq_difference_l; reflexivity|]. lia.
Qed.

Lemma make_request_run {RES} (parse : wire → RES) response_id address request id arrivals s :
  (1 ≤ timeouts arrivals)%nat →
  ∃ r, make_request parse response_id address request id arrivals s =
      (Ret r, sv_add_pushed [(address, Packed request)] s) ∧
    (timeouts arrivals ≤ S (timeouts r.2))%nat.
Proof.
  intros Ht. destruct (receive_returns parse response_id {[id]} arrivals) as (ok & rs & rest & Hr & Hl);
    [set_solver|rewrite size_singleton; lia|by rewrite size_singleton|].
  rewrite size_singleton in Hl. exists (if ok : bool then head rs else None, rest). split; [|cbn [snd]; lia].
  rewrite /make_request. erewrite bind_ret by reflexivity. by rewrite Hr.
Qed.

Definition join_text (tier : Z) (public_ip private_ip count : string) : string :=
  Tier_Name tier +:+ ":" +:+ public_ip +:+ ":" +:+ private_ip +:+ ":" +:+ count.

Lemma split_join_text tier public_ip private_ip count :
  tier ∈ kAllTiers → field_ok public_ip → field_ok private_ip → field_ok count →
  split ":" (join_text tier public_ip private_ip count) = [Tier_Name tier; public_ip; private_ip; count].
Proof.
  intros Ht [Hp _] [Hq _] [Hc Hc']. destruct (tier_name_ok tier Ht) as [[Hn _] _].
  by rewrite /join_text (split_item ":" (Tier_Name tier)) // (split_item ":" public_ip) //
    (split_item ":" private_ip) // split_last.
Qed.

Definition unblocks (rs : list NodeJoinRequestResponse) : list (string * packet wire) :=
  (λ r, (njr_response_address r, Packed (serialize_NodeJoinRequestUnblock (njr_request_id r)))) <$> rs.

(** What thread 0 hears from the workers it asked, and what is delivered after. *)
Definition collected (req_ids : gset string) (arrivals : arrivals_t)
  : outcome (bool * list NodeJoinRequestResponse * arrivals_t) :=
  if decide (req_ids = ∅) then Ret (true, [], arrivals)
  else receive parse_NodeJoinRequestResponse njr_response_id req_ids arrivals.

(** How far the handler gets once the join is known: it waits for the workers; it
    has answered the new server and waits for the acknowledgement; or it has let
    the workers go on and returns. *)
Definition join_end (wt : ServerThread) (join_req : NodeJoinRequest) (req_ids : gset string) (arrivals : arrivals_t)
  : outcome arrivals_t * list (string * packet wire) :=
  let answer := (nj_response_address join_req,
    Packed (serialize_NodeJoinRequestResponse (join_response wt join_req))) in
  match collected req_ids arrivals with
  | Ret r =>
      match receive parse_NodeJoinRequestUnblock id {[request_id wt 0]} r.2 with
      | Ret r' => (Ret r'.2, answer :: unblocks r.1.2)
      | _ => (Blocked, [answer])
      end
  | _ => (Blocked, [])
  end.

Lemma respond_join_run wt join_req arrivals s :
  respond_join wt join_req arrivals s =
  (match receive parse_NodeJoinRequestUnblock id {[request_id wt 0]} arrivals with
   | Ret r => Ret r.2 | _ => Blocked end,
   sv_add_pushed [(nj_response_address join_req,
     Packed (serialize_NodeJoinRequestResponse (join_response wt join_req)))] s).
Proof.
  rewrite /respond_join /make_request. change (njr_request_id (join_response wt join_req)) with (request_id wt 0).
  rewrite /mbind /M_bind /lift. cbv beta iota zeta delta [sv_push on_node].
  by destruct (receive_waits parse_NodeJoinRequestUnblock id {[request_id wt 0]} arrivals) as [-> | [r ->]].
Qed.

Lemma end_of_join thread_id wt join_req req_ids arrivals s :
  (thread_id ≠ 0 → req_ids = ∅) →
  (if thread_id =? 0 then
     r ← (if decide (req_ids = ∅) then mret (true, [], arrivals)
          else lift (receive parse_NodeJoinRequestResponse njr_response_id req_ids arrivals));
     rest ← respond_join wt join_req r.2;
     for_each r.1.2 (λ join_response, send_to (njr_response_address join_response)
       (serialize_NodeJoinRequestUnblock (njr_request_id join_response))) ;;
     mret rest
   else respond_join wt join_req arrivals) s =
  ((join_end wt join_req req_ids arrivals).1, sv_add_pushed (join_end wt join_req req_ids arrivals).2 s).
Proof.
  intros Hids. rewrite /join_end. destruct (thread_id =? 0) eqn:E; last first.
  { rewrite /collected decide_True ?respond_join_run; last (apply Hids; by apply Z.eqb_neq). cbn [fst snd].
    by destruct (receive_waits parse_NodeJoinRequestUnblock id {[request_id wt 0]} arrivals) as [-> | [r ->]]. }
  assert ((if decide (req_ids = ∅) then mret (true, [], arrivals)
    else lift (receive parse_NodeJoinRequestResponse njr_response_id req_ids arrivals)) s =
    (collected req_ids arrivals, s)) as Hc by (rewrite /collected; by case_decide).
  rewrite /mbind /M_bind Hc. assert (collected req_ids arrivals = Blocked ∨ ∃ r, collected req_ids arrivals = Ret r)
    as [-> | [r ->]].
  { rewrite /collected. case_decide; [right; by eexists|apply receive_waits]. }
  { by rewrite sv_add_pushed_nil. }
  rewrite respond_join_run.
  destruct (receive_waits parse_NodeJoinRequestUnblock id {[request_id wt 0]} r.2) as [-> | [r' ->]]; [done|].
  rewrite (sv_pushes_map _ _ _ _) /=. by rewrite sv_add_pushed_app.
Qed.

(** Enough timeouts end both waits. *)
Lemma join_end_returns wt join_req req_ids arrivals :
  Z.of_nat (size req_ids) < 2 ^ 32 → (S (size req_ids) ≤ timeouts arrivals)%nat →
  ∃ rest, (join_end wt join_req req_ids arrivals).1 = Ret rest.
Proof.
  intros Hb Ht. assert (∃ r, collected req_ids arrivals = Ret r ∧ (1 ≤ timeouts r.2)%nat) as (r & Hr & Hl).
  { rewrite /collected. case_decide as E; [eexists; split; [done|]; cbn [fst snd]; lia|].
    destruct (receive_returns parse_NodeJoinRequestResponse njr_response_id req_ids arrivals E)
      as (ok & rs & rest & Hr & Hl); [lia|lia|]. rewrite Hr. eexists. split; [done|]. cbn [fst snd]. lia. }
  destruct (receive_returns parse_NodeJoinRequestUnblock id {[request_id wt 0]} r.2) as (ok & rs & rest & Hu & _);
    [set_solver|rewrite size_singleton; lia|by rewrite size_singleton|].
  exists rest. by rewrite /join_end Hr Hu.
Qed.

(** The workers that are asked to respond. *)
Definition asked_workers (wt : ServerThread) (asks : bool) : gset string :=
  if asks then list_to_set ((λ tid, request_id wt tid) <$> seqZ 1 (kThreadNum cfg - 1)) else ∅.

Lemma asked_workers_size wt asks :
  0 < kThreadNum cfg → (S (size (asked_workers wt asks)) ≤ Z.to_nat (kThreadNum cfg))%nat.
Proof.
  intros Hn. rewrite /asked_workers. destruct asks; [|rewrite size_empty; lia].
  pose proof (size_ids (λ tid, request_id wt tid) (seqZ 1 (kThreadNum cfg - 1))) as Hsz.
  rewrite length_seqZ in Hsz. lia.
Qed.

End Join.

(** ** Properties *)


(** ** A small instance *)

Inductive join_wire : Type :=
  | JRequest (m : NodeJoinRequest)
  | JResponse (m : NodeJoinRequestResponse)
  | JUnblock (id : string)
  | JAnswer (m : KeyResponse string).

Definition join_codec : JoinCodec join_wire := {|
  parse_NodeJoinRequest w := match w with JRequest m => m | _ => mkNodeJoinRequest EmptyString EmptyString EmptyString end;
  jc_serialize_NodeJoinRequest := JRequest;
  parse_NodeJoinRequestResponse w :=
    match w with JResponse m => m | _ => mkNodeJoinRequestResponse EmptyString EmptyString EmptyString end;
  serialize_NodeJoinRequestResponse := JResponse;
  parse_NodeJoinRequestUnblock w := match w with JUnblock id => id | _ => EmptyString end;
  serialize_NodeJoinRequestUnblock := JUnblock
|}.

Definition join_kvs_codec : KvsCodec join_wire string := {|
  kc_parse_KeyRequest _ := mkKeyRequest RT_UNSPECIFIED [] EmptyString EmptyString;
  kc_serialize_KeyRequest _ := JUnblock EmptyString;
  kc_serialize_KeyResponse _ := JAnswer
|}.

#[local] Existing Instances join_codec join_kvs_codec sample_bytes map_dinomo sample_std_hash insertion_order.

Definition joined_state : server_state join_wire string (map_engine string) :=
  mkServerState (mkRoutingState [] [] ∅ ∅ 0 []) ∅
    {["7"%string := [mkPendingRequest PUT 1 EmptyString "tcp://c:6460" "c:0"]]} [] ∅ 0 (∅, ∅)
    (mkMemoryStores ∅ ∅ ∅ ∅ ∅) 0.

