(* ===== verification/ReplicationChange.v ===== *)
(** * Changes of replication factors at a storage thread

    src/src/kvs/replication_change_handler.cpp and [is_primary_replica] of
    src/src/kvs/utils.cpp, in the build that CMakeLists.txt selects: what a thread
    does to its cache when the monitoring server changes the factor of a key. *)

From S2P Require Import Prelude Objects OrderedSet Lattices Transport Client ClientProps Messages.
From S2P Require Import Cpp Threads Metadata HashRing HashRingProps Routing RoutingProps RoutingPeers CppLattices.
From S2P Require Import Storage StorageProps StorageServer Departure DepartureProps Join.

#[local] Open Scope Z_scope.
#[local] Existing Instance alike_preorder.

Record ReplicationFactorUpdate : Type := mkReplicationFactorUpdate {
  rfu_response_address : string;
  rfu_request_id : string;
  rfu_updates : list ReplicationFactor
}.

(** [ReplicationFactorUpdateResponse] is its identifier. *)
Class ChangeCodec (wire : Type) : Type := {
  cc_parse_ReplicationFactorUpdate : wire → ReplicationFactorUpdate;
  cc_serialize_ReplicationFactorUpdate : ReplicationFactorUpdate → wire;
  parse_ReplicationFactorUpdateResponse : wire → string;
  serialize_ReplicationFactorUpdateResponse : string → wire
}.

Section Change.
Context {wire bytes engine : Type}.
Context `{RC : RoutingCodec wire, CC : ChangeCodec wire, D : Dinomo engine bytes, SH : StdHash, U : Unordered}.
Context (cfg : server_config) (rand_r : Z → Z * Z).
Notation state := (server_state wire bytes engine).
Notation W := (M state).
Notation arrivals_t := (list (option wire)).
Implicit Types (s : state) (n : routing_state wire).

(** ** utils.cpp *)

(** The thread at the first place clockwise from the key, on the ring of the nodes
    and on that of the threads. *)
Definition is_primary_replica (key : string) (st : ServerThread) : M (routing_state wire) bool :=
  factor ← global_factor key (kSelfTier cfg);
  if factor =? 0 then mret false
  else
    has_upper_tier_replica ← (if MEMORY <? kSelfTier cfg then
        fold_each kAllTiers false (λ found tier,
          if tier <? kSelfTier cfg then m ← global_factor key tier; mret (found || (0 <? m)) else mret found)
      else mret false);
    if has_upper_tier_replica : bool then mret false
    else
      global ← global_ring (kSelfTier cfg);
      match nodes global !! find_pos (hash_key GlobalHasher key) (nodes global) with
      | Some g =>
          if String.eqb (st_private_ip st) (st_private_ip g.2) then
            local ← local_ring (kSelfTier cfg);
            mret match nodes local !! find_pos (hash_key LocalHasher key) (nodes local) with
                 | Some l => st_tid st =? st_tid l.2
                 | None => false
                 end
          else mret false
      | None => mret false
      end.

(** ** replication_change_handler.cpp *)

(** [serializer->swap(key, replicated)] and [serializer->invalidate(key)]: keys are
    numbers. *)
Definition on_key (key : string) (f : Z → engine → engine) : W unit :=
  k ← lift (stoul key);
  modify (λ s, sv_set_engine (f k (sv_engine s)) s).

Notation swap_key key replicated := (on_key key (λ k, db_swap k replicated)).
Notation invalidate_key key := (on_key key db_invalidate_cache).
Notation set_factor key tier value :=
  (on_node (modify (λ n, set_replication (set_global key tier value (key_replication_map n)) n))).

(** A thread that is not the primary one: it drops what it caches of a key that it
    loses. *)
Definition change_replica (wt : ServerThread) (key : string) (value origin : Z) : W unit :=
  let responsible :=
    metadata ← lift (is_metadata key);
    threads ← sv_responsible cfg rand_r (replication_response_connect_address wt) key metadata;
    mret (threads.2, has_server wt threads.1) in
  r ← responsible;
  if r.1 && r.2 && (value <? origin) && (value =? kDefaultGlobalMemoryReplication cfg) then
    set_factor key MEMORY value ;;
    r' ← responsible;
    if r'.1 && negb r'.2 then invalidate_key key else mret tt
  else set_factor key MEMORY value.

(** One entry of the global factors of a key. *)
Definition change_global (wt : ServerThread) (key : string) (global : Z * Z) : W unit :=
  let '(tier, value) := global in
  if tier =? MEMORY then
    origin ← on_node (global_factor key tier);
    let default := kDefaultGlobalMemoryReplication cfg in
    primary ← on_node (is_primary_replica key wt);
    if primary : bool then
      (if (origin =? default) && (origin <? value) then swap_key key true
       else if (default <? origin) && (value =? default) then swap_key key false
       else mret tt) ;;
      set_factor key MEMORY value
    else change_replica wt key value origin
  else set_factor key tier value.

(** Thread 0 waits for every other thread in turn. *)
Definition tell_change (thread_id : Z) (public_ip private_ip : string) (wt : ServerThread)
    (rep_change : ReplicationFactorUpdate) (serialized : wire) (arrivals : arrivals_t) : W arrivals_t :=
  let worker tid := replication_change_connect_address (server_thread public_ip private_ip tid) in
  let tids := seqZ 1 (kThreadNum cfg - 1) in
  if negb (thread_id =? 0) then mret arrivals
  else if String.eqb (rfu_response_address rep_change) EmptyString then
    for_each tids (λ tid, sv_push (worker tid) (Packed serialized)) ;;
    mret arrivals
  else fold_each tids arrivals (λ arrivals tid,
    let request_id := response_connect_address wt +:+ ":" +:+ to_string tid in
    r ← make_request parse_ReplicationFactorUpdateResponse id (worker tid)
          (cc_serialize_ReplicationFactorUpdate
             (mkReplicationFactorUpdate (response_connect_address wt) request_id (rfu_updates rep_change)))
          request_id arrivals;
    mret r.2).

Definition kvs_replication_change_handler (public_ip private_ip : string) (thread_id : Z) (wt : ServerThread)
    (serialized : wire) (arrivals : arrivals_t) : W arrivals_t :=
  let rep_change := cc_parse_ReplicationFactorUpdate serialized in
  rest ← tell_change thread_id public_ip private_ip wt rep_change serialized arrivals;
  for_each (rfu_updates rep_change) (λ key_rep,
    for_each (rf_global key_rep) (change_global wt (rf_key key_rep)) ;;
    on_node (modify (λ n, set_replication
      (foldl (λ m tn, set_local (rf_key key_rep) tn.1 tn.2 m) (key_replication_map n) (rf_local key_rep)) n))) ;;
  (if String.eqb (rfu_response_address rep_change) EmptyString then mret tt
   else sv_push (rfu_response_address rep_change)
          (Packed (serialize_ReplicationFactorUpdateResponse (rfu_request_id rep_change)))) ;;
  mret rest.

(** ** What a change does *)

Notation rcfg := (sc_routing cfg).

(** Whether the thread is the primary one, read off the state. *)
Definition primary_of (n : routing_state wire) (key : string) (st : ServerThread) : bool :=
  negb (global_of rcfg n key MEMORY =? 0) &&
  match nodes (ring_at MEMORY (global_hash_rings n)) !!
          find_pos (hash_key GlobalHasher key) (nodes (ring_at MEMORY (global_hash_rings n))) with
  | Some g =>
      String.eqb (st_private_ip st) (st_private_ip g.2) &&
      match nodes (ring_at MEMORY (local_hash_rings n)) !!
              find_pos (hash_key LocalHasher key) (nodes (ring_at MEMORY (local_hash_rings n))) with
      | Some l => st_tid st =? st_tid l.2
      | None => false
      end
  | None => false
  end.

Lemma is_primary_run key st n :
  kSelfTier cfg = MEMORY → is_Some (key_replication_map n !! key) →
  responds rcfg (is_primary_replica key st) (Ret (primary_of n key st)) n.
Proof.
  intros Ht Hk. rewrite /is_primary_replica Ht /primary_of.
  destruct (global_factor_alike rcfg n key MEMORY Hk) as (n1 & H1 & Ha1).
  destruct (global_of rcfg n key 1 =? 0) eqn:E.
  { exists n1. rewrite (bind_ret _ _ _ _ _ H1) E. done. }
  destruct (global_ring_alike rcfg MEMORY n1) as (n2 & H2 & Ha2). rewrite (alike_global _ _ _ Ha1) in H2.
  assert (alike rcfg n n2) as Ha by (by trans n1).
  destruct (local_ring_alike rcfg MEMORY n2) as (n3 & H3 & Ha3). rewrite (alike_local _ _ _ Ha) in H3.
  rewrite /responds. setoid_rewrite (bind_ret _ _ _ _ _ H1). rewrite E. change (1 <? 1) with false. lazy iota.
  erewrite bind_ret by reflexivity. lazy iota. rewrite (bind_ret _ _ _ _ _ H2). cbn [negb andb].
  case_match; [|by exists n2]. case_match; [|by exists n2].
  exists n3. rewrite (bind_ret _ _ _ _ _ H3). split; [done|by trans n2].
Qed.

Definition factor_set (key : string) (value : Z) n : routing_state wire :=
  set_replication (set_global key MEMORY value (key_replication_map n)) n.

Lemma located_set key value n n' :
  alike rcfg n n' → is_Some (key_replication_map n !! key) →
  located rcfg (factor_set key value n') key MEMORY = located rcfg (factor_set key value n) key MEMORY.
Proof.
  intros Ha Hk. pose proof (alike_known _ _ _ Ha key Hk) as Hk'.
  pose proof (alike_lrep _ _ _ Ha key MEMORY) as Hl. rewrite /local_of /factors_of in Hl.
  destruct Hk as [k Hk], Hk' as [k' Hk']. rewrite Hk Hk' /= in Hl.
  rewrite /located /global_of /local_of /factors_of /factor_set /set_global /= !lookup_insert_eq Hk Hk' /=.
  rewrite ?lookup_insert_eq /= Hl. by rewrite (alike_global _ _ _ Ha) (alike_local _ _ _ Ha).
Qed.

Lemma global_of_set key value n : global_of rcfg (factor_set key value n) key MEMORY = value.
Proof. by rewrite /global_of /factors_of /factor_set /set_global /= lookup_insert_eq /= lookup_insert_eq. Qed.

(** What happens to the engine. *)
Definition change_effect (k : Z) (primary before after : bool) (origin value : Z) (e : engine) : engine :=
  let default := kDefaultGlobalMemoryReplication cfg in
  if primary then
    if (origin =? default) && (default <? value) then db_swap k true e
    else if (default <? origin) && (value =? default) then db_swap k false e else e
  else if before && negb after && (value <? origin) && (value =? default) then db_invalidate_cache k e else e.

Lemma on_node_run {A} (m : M (routing_state wire) A) s (o : outcome A) n :
  m (sv_node s) = (o, n) → on_node m s = (o, sv_set_node n s).
Proof. intros H. by rewrite /on_node H. Qed.

Lemma responsible_at wt key threads s :
  is_Some (key_replication_map (sv_node s) !! key) → located rcfg (sv_node s) key (kSelfTier cfg) = Ret threads →
  ∃ n, sv_responsible cfg rand_r (replication_response_connect_address wt) key false s =
      (Ret (threads, true), sv_set_node n s) ∧ alike rcfg (sv_node s) n.
Proof.
  intros Hk Hl. destruct (get_responsible_threads_answers rcfg rand_r (replication_response_connect_address wt) key
    (kSelfTier cfg) (sv_node s)) as (n & Hn & Ha); [by left|]. rewrite Hl in Hn.
  exists n. split; [|done]. by apply on_node_run.
Qed.

Lemma factor_set_alike key value n n' :
  alike rcfg (factor_set key value n) n' →
  global_of rcfg n' key MEMORY = value ∧
  located rcfg n' key MEMORY = located rcfg (factor_set key value n) key MEMORY ∧ pushed n' = pushed n.
Proof.
  intros Ha. split; [by rewrite (alike_rep _ _ _ Ha) global_of_set|].
  split; [by apply located_alike|by rewrite (alike_pushed _ _ _ Ha)].
Qed.

(** What is left after a change: the state answers with the new factor. *)
Definition changed_to key value (threads' : list ServerThread) n n' : Prop :=
  global_of rcfg n' key MEMORY = value ∧ located rcfg n' key MEMORY = Ret threads' ∧ pushed n' = pushed n.

Lemma changed_set key value threads' n0 n :
  alike rcfg n0 n → is_Some (key_replication_map n0 !! key) →
  located rcfg (factor_set key value n0) key MEMORY = Ret threads' →
  changed_to key value threads' n0 (factor_set key value n).
Proof.
  intros Ha Hk Hl. split; [apply global_of_set|]. split; [by rewrite (located_set _ _ _ _ Ha Hk)|].
  apply (alike_pushed _ _ _ Ha).
Qed.

Lemma change_replica_run wt key k value origin threads threads' n0 s :
  kSelfTier cfg = MEMORY → is_metadata key = Ret false → stoul key = Ret k →
  is_Some (key_replication_map n0 !! key) → alike rcfg n0 (sv_node s) →
  located rcfg n0 key MEMORY = Ret threads → located rcfg (factor_set key value n0) key MEMORY = Ret threads' →
  ∃ n', change_replica wt key value origin s =
      (Ret tt, sv_set_engine (change_effect k false (has_server wt threads) (has_server wt threads') origin value
         (sv_engine s)) (sv_set_node n' s)) ∧ changed_to key value threads' n0 n'.
Proof.
  intros Ht Hm Hk Hkn Ha Hl Hl'. rewrite /change_replica /change_effect.
  destruct (responsible_at wt key threads s) as (n1 & H1 & Ha1);
    [by apply (alike_known _ _ _ Ha)|by rewrite Ht (located_alike _ _ _ _ _ Ha)|].
  assert (alike rcfg n0 n1) as Ha01 by (by trans (sv_node s)).
  erewrite bind_ret; last first.
  { rewrite Hm. erewrite bind_ret by reflexivity. by rewrite (bind_ret _ _ _ _ _ H1). }
  cbn [fst snd andb]. pose proof (changed_set key value threads' n0 n1 Ha01 Hkn Hl') as Hset.
  destruct (has_server wt threads && (value <? origin) && (value =? kDefaultGlobalMemoryReplication cfg)) eqn:E; last first.
  { exists (factor_set key value n1). split; [|done].
    assert (has_server wt threads && negb (has_server wt threads') && (value <? origin) &&
      (value =? kDefaultGlobalMemoryReplication cfg) = false) as -> by (by destruct (has_server wt threads), (has_server wt threads')).
    done. }
  apply andb_prop in E as [E Ed]. apply andb_prop in E as [Eh Ev]. rewrite Eh Ev Ed.
  set (s2 := sv_set_node (factor_set key value n1) (sv_set_node n1 s)). erewrite (bind_ret _ _ _ tt s2) by reflexivity.
  destruct (responsible_at wt key threads' s2) as (n3 & H3 & Ha3);
    [by rewrite /s2 /factor_set /set_global /= lookup_insert_eq|rewrite Ht; apply Hset|].
  erewrite bind_ret; last first.
  { rewrite Hm. erewrite bind_ret by reflexivity. by rewrite (bind_ret _ _ _ _ _ H3). }
  destruct (factor_set_alike key value n1 n3 Ha3) as (Hg & Hl3 & Hpu). exists n3. split.
  - cbn [fst snd andb]. by destruct (has_server wt threads'); cbn [negb andb]; [|rewrite /on_key Hk].
  - split; [done|]. split; [rewrite Hl3; apply Hset|]. by rewrite Hpu (alike_pushed _ _ _ Ha01).
Qed.

Lemma change_global_run wt key k value threads threads' s :
  kSelfTier cfg = MEMORY → is_metadata key = Ret false → stoul key = Ret k →
  is_Some (key_replication_map (sv_node s) !! key) →
  located rcfg (sv_node s) key MEMORY = Ret threads →
  located rcfg (factor_set key value (sv_node s)) key MEMORY = Ret threads' →
  ∃ n', change_global wt key (MEMORY, value) s =
      (Ret tt, sv_set_engine (change_effect k (primary_of (sv_node s) key wt) (has_server wt threads)
         (has_server wt threads') (global_of rcfg (sv_node s) key MEMORY) value (sv_engine s)) (sv_set_node n' s)) ∧
    changed_to key value threads' (sv_node s) n'.
Proof.
  intros Ht Hm Hk Hkn Hl Hl'. set (n0 := sv_node s) in *.
  destruct (global_factor_alike rcfg n0 key MEMORY Hkn) as (n1 & H1 & Ha1).
  destruct (is_primary_run key wt n1 Ht (alike_known _ _ _ Ha1 key Hkn)) as (n2 & H2 & Ha2).
  assert (primary_of n1 key wt = primary_of n0 key wt) as Hp.
  { by rewrite /primary_of (alike_rep _ _ _ Ha1) (alike_global _ _ _ Ha1) (alike_local _ _ _ Ha1). }
  rewrite Hp in H2. assert (alike rcfg n0 n2) as Ha by (by trans n1).
  rewrite /change_global. change (1 =? 1) with true. lazy iota.
  rewrite (bind_ret _ _ _ _ _ (on_node_run _ s _ _ H1)). cbv zeta.
  rewrite (bind_ret _ _ _ _ _ (on_node_run _ (sv_set_node n1 s) _ _ H2)).
  set (origin := global_of rcfg n0 key 1). set (s2 := sv_set_node n2 (sv_set_node n1 s)).
  destruct (primary_of n0 key wt); [|by apply (change_replica_run wt key k value origin threads threads' n0 s2)].
  exists (factor_set key value n2). split; [|by apply changed_set]. rewrite /change_effect.
  destruct (origin =? kDefaultGlobalMemoryReplication cfg) eqn:Eo; cbn [andb].
  - apply Z.eqb_eq in Eo. rewrite -Eo. destruct (origin <? value); [by rewrite /on_key Hk|].
    rewrite Z.ltb_irrefl. done.
  - by destruct (_ && _); [rewrite /on_key Hk|].
Qed.

(** The requests of thread 0 to the others. *)
Definition change_notices (public_ip private_ip : string) (wt : ServerThread) (rep_change : ReplicationFactorUpdate)
    (tids : list Z) : list (string * packet wire) :=
  (λ tid, (replication_change_connect_address (server_thread public_ip private_ip tid),
    Packed (cc_serialize_ReplicationFactorUpdate (mkReplicationFactorUpdate (response_connect_address wt)
      (response_connect_address wt +:+ ":" +:+ to_string tid) (rfu_updates rep_change))))) <$> tids.

Lemma tell_change_run thread_id public_ip private_ip wt rep_change serialized arrivals s :
  rfu_response_address rep_change ≠ EmptyString → kThreadNum cfg ≤ Z.of_nat (timeouts arrivals) + 1 →
  ∃ rest, tell_change thread_id public_ip private_ip wt rep_change serialized arrivals s =
    (Ret rest, sv_add_pushed (if thread_id =? 0
       then change_notices public_ip private_ip wt rep_change (seqZ 1 (kThreadNum cfg - 1)) else []) s).
Proof.
  intros Hne%String.eqb_neq Ht. rewrite /tell_change. destruct (thread_id =? 0); cbn [negb].
  2: { exists arrivals. by rewrite sv_add_pushed_nil. }
  rewrite Hne. assert (length (seqZ 1 (kThreadNum cfg - 1)) ≤ timeouts arrivals)%nat as Hlen
    by (rewrite length_seqZ; lia). clear Ht.
  revert arrivals s Hlen. induction (seqZ 1 (kThreadNum cfg - 1)) as [|tid tids IH]; intros arrivals s Hlen.
  { exists arrivals. by rewrite sv_add_pushed_nil. }
  cbn [length] in Hlen. cbn [fold_each]. set (request := cc_serialize_ReplicationFactorUpdate _).
  destruct (make_request_run parse_ReplicationFactorUpdateResponse id
    (replication_change_connect_address (server_thread public_ip private_ip tid)) request
    (response_connect_address wt +:+ ":" +:+ to_string tid) arrivals s) as (r & Hr & Hl); [lia|].
  destruct (IH r.2 (sv_add_pushed [(replication_change_connect_address (server_thread public_ip private_ip tid),
    Packed request)] s)) as (rest & Hrest); [lia|].
  exists rest. erewrite bind_ret by (by rewrite (bind_ret _ _ _ _ _ Hr)). rewrite Hrest sv_add_pushed_app. done.
Qed.

End Change.

(** ** Properties *)


(** ** A small instance *)

Inductive change_wire : Type :=
  | ChangeUpdate (m : ReplicationFactorUpdate)
  | ChangeResponse (id : string)
  | ChangeOther (m : sample_wire).

Definition change_codec : ChangeCodec change_wire := {|
  cc_parse_ReplicationFactorUpdate w :=
    match w with ChangeUpdate m => m | _ => mkReplicationFactorUpdate EmptyString EmptyString [] end;
  cc_serialize_ReplicationFactorUpdate := ChangeUpdate;
  parse_ReplicationFactorUpdateResponse w := match w with ChangeResponse id => id | _ => EmptyString end;
  serialize_ReplicationFactorUpdateResponse := ChangeResponse
|}.

Definition change_routing_codec : RoutingCodec change_wire :=
  let RC := sample_codec in
  let on {A} (f : sample_wire → A) w := match w with ChangeOther m => f m | _ => f (WFactors []) end in
  {|
    rc_payload := ReplicationFactor;
    rc_no_payload := mkReplicationFactor EmptyString [] [];
    parse_KeyAddressRequest := on parse_KeyAddressRequest;
    serialize_KeyAddressResponse m := ChangeOther (WAddressResponse m);
    serialize_ClusterMembership m := ChangeOther (WMembership m);
    serialize_NodeJoinRequest m := ChangeOther (WJoin m);
    rc_serialize_KeyRequest m := ChangeOther (WRequest m);
    rc_parse_KeyResponse := on (λ w, match w with WResponse m => m | _ => mkKeyResponse [] EmptyString end);
    parse_replication_payload p := p;
    parse_ReplicationFactorUpdate := on (λ w, match w with WFactors m => m | _ => [] end)
  |}.

(** An engine that only keeps the keys dropped from its cache. *)
Definition cache_log : Dinomo (list Z) string := {|
  db_get _ e := (None, e);
  db_put _ _ _ e := (0, e);
  db_getMeta _ e := (None, e);
  db_putMeta _ _ e := e;
  db_getReplicated _ e := (None, e);
  db_putReplicated _ _ _ e := e;
  db_merge _ e := e;
  db_flush e := e;
  db_failover _ e := e;
  db_invalidate_cache k e := e ++ [k];
  db_swap _ _ e := e
|}.

#[local] Existing Instances change_codec change_routing_codec cache_log sample_std_hash insertion_order.

(** Two nodes; the key has two replicas. *)
Definition first_node : ServerThread := virtual_thread "1.1.1.1" "10.0.0.1" 0 0.
Definition second_node : ServerThread := virtual_thread "1.1.1.2" "10.0.0.2" 0 0.
Definition two_nodes : server_state change_wire string (list Z) :=
  mkServerState (mkRoutingState
      [(MEMORY, mkHashRing [(10, first_node); (20, second_node)] [first_node; second_node] ∅)]
      [(MEMORY, mkHashRing [(3, first_node)] [first_node] ∅)]
      {["7"%string := mkKeyReplication {[MEMORY := 2]} {[MEMORY := 1]}]} ∅ 0 [])
    ∅ ∅ [] ∅ 0 [] (mkMemoryStores ∅ ∅ ∅ ∅ ∅) 0.
Definition two_servers : server_config :=
  mkServerConfig (sample_config true) MEMORY 1 false 1000 1 [] [].

